(* ===== verification/_CoqProject ===== *)
-Q . S2P
Prelude.v
Libk.v
Serial.v
Arch.v
Pmm.v
Vmm.v
Kheap.v
HeapSpec.v
Kstate.v
Fd.v
Fs.v
FsLaws.v
Ramfs.v
Proc.v
ProcInv.v
ProcOps.v
ProcSteps.v
ProcSafety.v
Kinv.v
Dir.v
Typed.v
Path.v
FileSafety.v
Descriptors.v
Tables.v
Tasks.v
Keyboard.v
Pipe.v
Vga.v
Io.v
Transfers.v
Ops.v
Irq.v
Elf.v
Loader.v
Syscall.v
SysFiles.v
SysSafety.v
Dump.v
Boot.v
Kernel.v
