(* ===== verification/Prelude.v ===== *)
(** * Orion: a verification of a small x86 kernel

    Orion is a 32-bit x86 kernel in C (src/kernel, src/lib/libk, src/include): a
    physical and a virtual memory manager, a kernel heap, processes with a
    preemptive scheduler, a file layer (virtual file system, RAM file system,
    devices, pipes), drivers for terminal, serial line, keyboard and timer, an ELF
    loader and system calls. This development translates that code into
    executable definitions and proves what each part promises to the others.

    ** How the code is modelled

    - Machine integers are values of Z; wrap-around is written out ([u8] to
      [u64], the notations [+w], [-w], [*w]). Static variables are the fields of
      a record per component; a function that reads or changes them is a
      computation of the state monad [M] below, whose outcome can also be a
      panic, a page fault, undefined behaviour or lack of fuel ([fault]).
    - Physical memory is a map from word addresses to words (Vmm.v). Every
      access of vmm.c and kheap.c goes through the two-level translation once
      paging is on. From Fs.v on the objects that live in heap blocks (vnodes,
      inodes, entries, buffers, pipes, open files) are typed values in a store
      keyed by their heap address: the address comes from the allocator, and an
      access to no object or to one of another type is undefined behaviour.
    - A process that gives up the processor inside the kernel (pipe and
      keyboard reads, waiting for a child) is a result that says where it goes
      on, with a function that goes on from there; so calls of many processes
      interleave in any order. Interrupts arrive between operations, as the
      entry stubs run with interrupts off.
    - Hardware is a parameter: [hw] gives what a port read returns after a
      history of accesses, and the UART, the interrupt controllers and the
      timer chip are state machines over that history (Serial.v, Irq.v).
      Addresses chosen by the linker, the entry points written in assembly and
      the memory map of the boot loader are parameters as well.
    - kprintf calls that only log are left out, except in Libk.v, Serial.v and
      Dump.v.

    ** Files

    - Prelude.v: this file; integers, outcomes, the monad, bitmaps, loops.
    - Libk.v: lib/libk/string.c and kprintf.c.
    - Serial.v: include/ioport.h, drivers/serial.c, panic.c.
    - Arch.v: arch/x86/gdt.c, tss.c, idt.c with gdt.asm.
    - Pmm.v: mm/pmm.c. Vmm.v: mm/vmm.c. Kheap.v: mm/kheap.c.
    - HeapSpec.v: the interface [Heap] with its laws [HeapLaws], what the heap
      promises to its clients; discharged by the instance for Kheap.v.
    - Kstate.v: the state shared by process manager and file layer
      (include/proc.h and the statics of proc.c, sched.c, timer.c).
    - Fd.v: proc/fd.c, over the interface [Vfs] with its laws [VfsLaws], what the
      file layer promises to the process manager.
    - Fs.v: fs/vfs.c, ramfs.c, devfs.c and the closing of pipes; FsLaws.v
      discharges [VfsLaws]; Ramfs.v: file contents; Dir.v: directories and the
      start of the file layer; Typed.v: the typing of the object store and the
      operations that keep it; Path.v: paths against a reference that splits at
      slashes and follows names; FileSafety.v: the file layer as a transition
      system and its type safety; Descriptors.v: the descriptor tables of all
      processes against the reference counts.
    - Tables.v: the descriptor tables in the process table, and that the
      scheduler leaves them alone; Tasks.v: the invariant [ksafe] of processes
      and files together, which creating, forking, reaping, exec, exit and sleep
      keep; Transfers.v: so do reading and writing.
    - Proc.v: proc/proc.c, sched.c, fork.c, exec.c; ProcInv.v, ProcOps.v: the
      invariant [proc_inv] and that every operation keeps it; ProcSteps.v: the
      kernel as a transition relation [kstep]; ProcSafety.v: the theorems;
      Kinv.v: the invariant [kinv] over the concrete file layer.
    - Keyboard.v: drivers/keyboard.c. Pipe.v: fs/pipe.c. Vga.v: drivers/vga.c.
    - Io.v: reading and writing open files (vfs.c, devfs.c, fd.c); Ops.v: the
      operations tables and the dispatch through them.
    - Irq.v: arch/x86/irq.c, irq.asm, timer_init, keyboard_init.
    - Elf.v: proc/elf.c and the files it refuses; Loader.v: the image of the
      files it loads. Syscall.v: syscall/syscall.c; SysFiles.v: its file calls
      over the tables in the process table; SysSafety.v: each call on a kernel
      that satisfies [ksafe].
    - Dump.v: the text of proc_dump, proc_dump_all, sched_dump, syscall_init.
    - Boot.v: kernel.c, the start of all of them. Kernel.v: the running kernel,
      as the sequences of system calls, continuations of sleeping calls, scheduler
      runs and interrupts after the boot.

    ** What the theorems show

    - Memory: the frame allocator never hands out a frame twice, is a next-fit
      search, and starts from exactly the usable frames; mapping a page changes
      the translation of that page only; the heap keeps its block structure,
      refines a first-fit allocator on a list of blocks, and live blocks never
      overlap or change.
    - Processes: in every reachable state the ready queue holds the runnable
      processes once each, at most one process runs, PIDs and kernel stacks are
      unique; the scheduler is total and picks the best ready process (and can
      starve a third process of the same priority); waiting reaps the zombie child
      with the lowest PID, or blocks when there is none.
    - Files: from the start of the file layer no sequence of calls reaches an
      ill-typed object or undefined behaviour ([file_layer_typed]); no descriptor
      is ever left pointing to a freed file and reference counts are exact
      ([descriptors_safe]); resolving a path follows its names from the
      longest mount; what is created at a path is found there; writing and reading
      a file, whatever the access mode; the pipe as a lossless bounded queue under any interleaving with its
      wake-ups, the keyboard buffer as a bounded queue.
    - Hardware: segment and interrupt tables as the processor decodes them, the
      interrupt controllers, the timer and the serial line as their data sheets
      describe them.
    - Programs: a loaded executable is in memory as its program headers say, on
      pages of its own; a file whose header bytes are not those of a 32-bit x86
      executable ([elf_valid]) is refused and closed; execve enters a loaded
      program at its entry point with a clean frame, and returns -1 otherwise.
    - Whole kernel: [kernel_safe] composes all of it. From the boot on, no
      sequence of system calls of any processes (pipe and execve apart), of
      continuations of sleeping calls and of hardware interrupts reaches undefined
      behaviour, and every state on the way satisfies [ksafe], as long as
      processes write to, and pass pointers to, bytes of a set [user] only; no
      byte outside of [user] changes. Its witness runs the model from the boot
      through an open, a fork, a read that sleeps until a key is pressed, writes
      to the terminal and to the file, an exit and the wait of the parent.
      [pipe_fifo] and its neighbours and [sys_execve_correct] say what holds for
      pipes and execve.
    Where the code does not do what it means to, the theorem states what it does
    (for instance [pipe_close_dangling], [scheduler_starves_third],
    [pmm_get_free_frames_wrong], [interrupts_correct]).

    ** Bounds and fuel

    Loops that are not structural take fuel. The heap walks get [KHEAP_FUEL]
    (0x400001), more than the blocks that fit between HEAP_START and HEAP_MAX;
    directory walks get one more than the number of objects, and lists of
    entries are shown to be shorter; the walk along a path gets the length of
    the path, and every step takes a character; two passes of a pipe loop are enough, as
    after one either all bytes are moved or the pipe is empty or full; the
    growth loop of ramfs.c ends within 32 doublings exactly when the end offset
    is at most 2^31. The theorems say that the fuel is enough.

    The laws of the heap need every frame that is still free to lie below 4 MiB
    (or the page tables of the heap to exist): a page table in a higher frame
    cannot be cleared by the code, which faults then ([vmm_map_page_failures]).
    The theorems on processes, files, system calls and boot therefore speak of
    machines with that much usable memory.

    ** Not modelled

    The TLB and the accessed and dirty bits; the assembly stubs beyond their
    composition of C functions (register saving is the frame [regs_t]); ring 3
    (every process runs in ring 0 on the kernel's address space, as in the
    code); page faults of the kernel on user buffers and writes through them into
    the kernel (memory seen by programs is a total byte map, beside the state of
    the kernel; [kernel_safe] names the bytes of it that are used, [user], so
    that it speaks of programs for which these are mapped and hold no kernel
    data); the static data of the kernel inside physical memory; a loader that would have to wait for a device; the body of
    the idle process, which only halts. Closing the end of a pipe is modelled but
    left out of [file_layer_typed], [descriptors_safe] and [kernel_safe], as the
    code uses the vnode it has freed ([pipe_close_dangling]); so is ramfs_unlink,
    which frees nodes that are still open and which nothing calls. [kernel_safe]
    leaves execve out too, as the loader maps and overwrites whatever addresses
    the file names, and assumes that pointers name bytes of [user] or are null,
    which the code does not check (syscall_validate_ptr accepts every pointer),
    that the path given to open ends, and that a write ends below 2 GiB, where
    the growth loop of ramfs.c stops to terminate. *)

From Stdlib Require Import ZArith Lia.
From stdpp Require Export base numbers list gmap strings relations.

#[global] Open Scope Z_scope.

(** ** Machine integers: Z values kept in range by explicit wrap-around *)

Definition u8 (x : Z) : Z := x mod 2 ^ 8.
Definition u16 (x : Z) : Z := x mod 2 ^ 16.
Definition u32 (x : Z) : Z := x mod 2 ^ 32.
Definition u64 (x : Z) : Z := x mod 2 ^ 64.

(** The value of a two's complement 32-bit pattern (a C [int32_t]). *)
Definition s32 (x : Z) : Z := if u32 x <? 2 ^ 31 then u32 x else u32 x - 2 ^ 32.

Declare Scope orion_scope.
Delimit Scope orion_scope with orion.
Notation "x +w y" := (u32 (x + y)) (at level 50, left associativity) : orion_scope.
Notation "x -w y" := (u32 (x - y)) (at level 50, left associativity) : orion_scope.
Notation "x *w y" := (u32 (x * y)) (at level 40, left associativity) : orion_scope.
#[global] Open Scope orion_scope.

(** A C condition on an integer: non-zero is true. *)
Definition truthy (x : Z) : bool := negb (x =? 0).

(** ** Outcomes of kernel code

    [Panic] is the kernel's own [panic]; [PageFault] is an access the MMU
    refuses (the exception handler then panics); [Undefined] is C undefined
    behaviour: a dereference of a dangling or null pointer, or a [kfree] of
    a pointer that is not allocated. *)
Inductive fault : Type :=
| Panic (msg : string)
| PageFault (addr : Z)
| Undefined (what : string)
| OutOfFuel.

Inductive res (A : Type) : Type :=
| Ok (a : A)
| Stop (f : fault).
Arguments Ok {A} a.
Arguments Stop {A} f.

(** State passing with early termination. *)
Definition M (S A : Type) : Type := S -> res (A * S).

#[export] Instance M_ret (S : Type) : MRet (M S) := fun A a s => Ok (a, s).
#[export] Instance M_bind (S : Type) : MBind (M S) := fun A B k c s =>
  match c s with
  | Ok (a, s') => k a s'
  | Stop f => Stop f
  end.

Definition stop {S A : Type} (f : fault) : M S A := fun _ => Stop f.
Definition get {S : Type} : M S S := fun s => Ok (s, s).
Definition gets {S A : Type} (f : S -> A) : M S A := fun s => Ok (f s, s).
Definition modify {S : Type} (f : S -> S) : M S unit := fun s => Ok (tt, f s).

(** [kassert]: panic unless the condition holds; [text] is the condition as it
    is written. *)
Definition kassert {S : Type} (condition : bool) (text : string) : M S unit :=
  if negb condition then stop (Panic ("Assertion failed: " +:+ text)) else mret tt.

(** Run a computation on a part of the state. *)
Definition zoom {S T A : Type} (prj : S -> T) (upd : T -> S -> S) (c : M T A) : M S A :=
  fun s => match c (prj s) with
           | Ok (a, t) => Ok (a, upd t s)
           | Stop f => Stop f
           end.

(** The state, the result and the success of a computation, for concrete runs. *)
Definition final {S A : Type} (c : M S A) (s : S) : S := match c s with Ok (_, s') => s' | Stop _ => s end.
Definition result {S A : Type} (none : A) (c : M S A) (s : S) : A := match c s with Ok (r, _) => r | Stop _ => none end.
Definition succeeds {S A : Type} (c : M S A) (s : S) : bool := match c s with Ok _ => true | Stop _ => false end.

Lemma run_result {S A} (none : A) (c : M S A) s : succeeds c s = true -> c s = Ok (result none c s, final c s).
Proof. unfold succeeds, result, final. destruct (c s) as [[r s']|]; [done|discriminate]. Qed.
Lemma run_final {S A} (c : M S A) s : succeeds c s = true -> exists r, c s = Ok (r, final c s).
Proof. unfold succeeds, final. destruct (c s) as [[r s']|]; [eauto|discriminate]. Qed.

Lemma bind_ok {S A B} (c : M S A) (k : A -> M S B) s a s' :
  c s = Ok (a, s') -> (c ≫= k) s = k a s'.
Proof. intros H. unfold mbind, M_bind. by rewrite H. Qed.

Lemma bind_stop {S A B} (c : M S A) (k : A -> M S B) s f :
  c s = Stop f -> (c ≫= k) s = Stop f.
Proof. intros H. unfold mbind, M_bind. by rewrite H. Qed.

Lemma bind_inv {S A B} (c : M S A) (k : A -> M S B) s r :
  (c ≫= k) s = Ok r -> exists a s', c s = Ok (a, s') /\ k a s' = Ok r.
Proof. unfold mbind, M_bind. destruct (c s) as [[a s']|]; [eauto | done]. Qed.

(** Unfold one monadic constructor in the goal and in hypotheses. *)
Ltac munfold := unfold mret, M_ret, mbind, M_bind, stop, get, gets, modify, zoom in *.

(** ** Boolean reflection for comparisons on Z *)

Ltac zbool :=
  repeat match goal with
  | H : context [Z.ltb ?a ?b] |- _ => destruct (Z.ltb_spec a b)
  | H : context [Z.leb ?a ?b] |- _ => destruct (Z.leb_spec a b)
  | H : context [Z.eqb ?a ?b] |- _ => destruct (Z.eqb_spec a b)
  | |- context [Z.ltb ?a ?b] => destruct (Z.ltb_spec a b)
  | |- context [Z.leb ?a ?b] => destruct (Z.leb_spec a b)
  | |- context [Z.eqb ?a ?b] => destruct (Z.eqb_spec a b)
  end; simpl in *; try congruence.

(** Linear arithmetic with division and remainder by constants. *)
Ltac zlia := intros; Z.to_euclidean_division_equations; lia.

(** ** Wrap-around *)

Lemma u32_range x : 0 <= u32 x < 2 ^ 32.
Proof. apply Z.mod_pos_bound. done. Qed.
Lemma u32_small x : 0 <= x < 2 ^ 32 -> u32 x = x.
Proof. unfold u32. apply Z.mod_small. Qed.
Lemma u64_range x : 0 <= u64 x < 2 ^ 64.
Proof. apply Z.mod_pos_bound. done. Qed.
Lemma u64_small x : 0 <= x < 2 ^ 64 -> u64 x = x.
Proof. unfold u64. apply Z.mod_small. Qed.
Lemma u16_small x : 0 <= x < 2 ^ 16 -> u16 x = x.
Proof. unfold u16. apply Z.mod_small. Qed.
Lemma u16_range x : 0 <= u16 x < 2 ^ 16.
Proof. apply Z.mod_pos_bound. done. Qed.
Lemma u32_idem x : u32 (u32 x) = u32 x.
Proof. apply u32_small, u32_range. Qed.

Create HintDb orion.
Create Rewrite HintDb orion_rw.
#[export] Hint Resolve u32_range u64_range u16_range : orion.

(** ** Bits and masks *)

(** [x & ~(2^k - 1)] on a [w]-bit value rounds down to a multiple of [2^k]. *)
Lemma land_round_down w k x :
  0 <= k <= w -> 0 <= x < 2 ^ w ->
  Z.land x (2 ^ w - 2 ^ k) = x - x mod 2 ^ k.
Proof.
  intros Hk Hx.
  assert (Hm : 2 ^ w - 2 ^ k = Z.shiftl (Z.ones (w - k)) k).
  { rewrite Z.shiftl_mul_pow2, Z.ones_equiv by lia.
    replace (2 ^ w) with (2 ^ (w - k) * 2 ^ k) by (rewrite <- Z.pow_add_r by lia; f_equal; lia).
    lia. }
  assert (Hr : x - x mod 2 ^ k = Z.shiftl (Z.shiftr x k) k).
  { rewrite Z.shiftl_mul_pow2, Z.shiftr_div_pow2 by lia.
    pose proof (Z.div_mod x (2 ^ k)) as D. specialize (D ltac:(lia)). lia. }
  rewrite Hm, Hr. apply Z.bits_inj'. intros n Hn.
  rewrite Z.land_spec, !Z.shiftl_spec by lia.
  destruct (Z.lt_ge_cases n k).
  - rewrite !(Z.testbit_neg_r _ (n - k)) by lia. by rewrite andb_false_r.
  - rewrite Z.shiftr_spec by lia. replace (n - k + k) with n by lia.
    rewrite Z.testbit_ones_nonneg by lia.
    destruct (Z.ltb_spec (n - k) (w - k)); [by rewrite andb_true_r|].
    rewrite andb_false_r. symmetry.
    rewrite <- (Z.mod_small x (2 ^ w)) by done. apply Z.mod_pow2_bits_high. lia.
Qed.

(** [x | y] adds when [x] is a multiple of [2^k] and [y < 2^k]. *)
Lemma lor_low_add k x y :
  0 <= k -> x mod 2 ^ k = 0 -> 0 <= y < 2 ^ k -> Z.lor x y = x + y.
Proof.
  intros Hk Hx Hy. symmetry. rewrite <- Z.lxor_lor, <- Z.add_nocarry_lxor; [done| |];
  apply Z.bits_inj'; intros n Hn; rewrite Z.land_spec, Z.bits_0;
  (destruct (Z.lt_ge_cases n k);
   [ apply andb_false_intro1; rewrite <- (Z.mod_pow2_bits_low x k) by lia; by rewrite Hx, Z.bits_0
   | apply andb_false_intro2; rewrite <- (Z.mod_small y (2 ^ k)) by done;
     apply Z.mod_pow2_bits_high; lia ]).
Qed.

Lemma land_ones_mod x k : 0 <= k -> Z.land x (2 ^ k - 1) = x mod 2 ^ k.
Proof. intros. rewrite <- Z.land_ones by lia. by rewrite Z.ones_equiv, Z.sub_1_r. Qed.

Lemma testbit_high w x n : 0 <= x < 2 ^ w -> 0 <= w <= n -> Z.testbit x n = false.
Proof.
  intros Hx Hn. rewrite <- (Z.mod_small x (2 ^ w)) by done.
  apply Z.mod_pow2_bits_high. lia.
Qed.

Lemma u32_testbit x n : 0 <= n < 32 -> Z.testbit (u32 x) n = Z.testbit x n.
Proof. intros. apply Z.mod_pow2_bits_low. lia. Qed.

Lemma land_le x y : 0 <= x -> 0 <= Z.land x y <= x.
Proof.
  intros Hx. apply Z.ldiff_le; [done|]. apply Z.bits_inj'. intros n Hn.
  rewrite Z.ldiff_spec, Z.land_spec, Z.bits_0.
  by destruct (Z.testbit x n), (Z.testbit y n).
Qed.

Lemma lor_range w x y : 0 <= w -> 0 <= x < 2 ^ w -> 0 <= y < 2 ^ w -> 0 <= Z.lor x y < 2 ^ w.
Proof.
  intros Hw Hx Hy.
  assert (Z.lor x y = Z.lor x y mod 2 ^ w) as ->; [|apply Z.mod_pos_bound; lia].
  apply Z.bits_inj'. intros n Hn. destruct (Z.lt_ge_cases n w).
  - by rewrite Z.mod_pow2_bits_low by lia.
  - rewrite Z.mod_pow2_bits_high by lia. rewrite Z.lor_spec.
    by rewrite !(testbit_high w) by lia.
Qed.

(** ** Word-indexed arrays in static storage

    A C array of static storage is zero-initialised: an absent key reads 0. *)
Definition rd (m : gmap Z Z) (k : Z) : Z := default 0 (m !! k).

Lemma rd_insert m k v j : rd (<[k:=v]> m) j = if decide (k = j) then v else rd m j.
Proof. unfold rd. rewrite lookup_insert. by case_decide. Qed.
Lemma rd_insert_eq m k v : rd (<[k:=v]> m) k = v.
Proof. rewrite rd_insert. by case_decide. Qed.
Lemma rd_insert_ne m k v j : k <> j -> rd (<[k:=v]> m) j = rd m j.
Proof. intros. rewrite rd_insert. by case_decide. Qed.

(** Every stored word is a 32-bit value. *)
Definition words32 (m : gmap Z Z) : Prop := forall k, 0 <= rd m k < 2 ^ 32.

Lemma words32_insert m k v : words32 m -> 0 <= v < 2 ^ 32 -> words32 (<[k:=v]> m).
Proof. intros Hm Hv j. rewrite rd_insert. by case_decide. Qed.
#[export] Hint Resolve words32_insert : orion.

(** ** Bitmaps of 32-bit words, as pmm.c and proc.c keep them *)

Definition bm_set (m : gmap Z Z) (i : Z) : gmap Z Z :=
  <[i / 32 := Z.lor (rd m (i / 32)) (Z.shiftl 1 (i mod 32))]> m.
Definition bm_clear (m : gmap Z Z) (i : Z) : gmap Z Z :=
  <[i / 32 := Z.land (rd m (i / 32)) (u32 (Z.lnot (Z.shiftl 1 (i mod 32))))]> m.
Definition bm_test (m : gmap Z Z) (i : Z) : bool :=
  truthy (Z.land (Z.shiftr (rd m (i / 32)) (i mod 32)) 1).

Lemma bm_test_bit m i : bm_test m i = Z.testbit (rd m (i / 32)) (i mod 32).
Proof.
  unfold bm_test, truthy. change 1 with (2 ^ 1 - 1).
  rewrite land_ones_mod by zlia. change (2 ^ 1) with 2.
  rewrite <- Z.bit0_mod, Z.shiftr_spec by zlia. simpl.
  by destruct (Z.testbit _ _).
Qed.

Lemma bm_index_ne i j : i <> j -> i / 32 = j / 32 -> i mod 32 <> j mod 32.
Proof.
  intros Hne Hd Hm. apply Hne.
  rewrite (Z.div_mod i 32), (Z.div_mod j 32) by done. congruence.
Qed.

Lemma bm_test_set m i j : bm_test (bm_set m i) j = if decide (i = j) then true else bm_test m j.
Proof.
  rewrite !bm_test_bit. unfold bm_set. rewrite rd_insert.
  destruct (decide (i = j)) as [->|Hne].
  - rewrite decide_True by done. rewrite Z.lor_spec, Z.shiftl_spec by zlia.
    by rewrite Z.sub_diag, orb_true_r.
  - case_decide as Hd; [|done]. rewrite Z.lor_spec, Z.shiftl_spec, Hd by zlia.
    assert (Z.testbit 1 (j mod 32 - i mod 32) = false) as ->; [|by rewrite orb_false_r].
    pose proof (bm_index_ne i j Hne Hd).
    destruct (Z.lt_ge_cases (j mod 32 - i mod 32) 0); [by apply Z.testbit_neg_r|].
    apply Z.bits_above_log2; simpl; zlia.
Qed.

Lemma bm_test_clear m i j :
  bm_test (bm_clear m i) j = if decide (i = j) then false else bm_test m j.
Proof.
  rewrite !bm_test_bit. unfold bm_clear. rewrite rd_insert.
  destruct (decide (i = j)) as [->|Hne].
  - rewrite decide_True by done. rewrite Z.land_spec, u32_testbit by zlia.
    rewrite Z.lnot_spec, Z.shiftl_spec by zlia. by rewrite Z.sub_diag, andb_false_r.
  - case_decide as Hd; [|done].
    rewrite Z.land_spec, u32_testbit, Z.lnot_spec, Z.shiftl_spec, Hd by zlia.
    assert (Z.testbit 1 (j mod 32 - i mod 32) = false) as ->; [|by rewrite andb_true_r].
    pose proof (bm_index_ne i j Hne Hd).
    destruct (Z.lt_ge_cases (j mod 32 - i mod 32) 0); [by apply Z.testbit_neg_r|].
    apply Z.bits_above_log2; simpl; zlia.
Qed.
#[export] Hint Rewrite bm_test_set bm_test_clear : orion_rw.

Lemma bm_set_words32 m i : words32 m -> words32 (bm_set m i).
Proof.
  intros Hm. apply words32_insert; [done|]. apply lor_range; [done|apply Hm|].
  rewrite Z.shiftl_1_l. split; [zlia|]. apply Z.pow_lt_mono_r; zlia.
Qed.
Lemma bm_clear_words32 m i : words32 m -> words32 (bm_clear m i).
Proof.
  intros Hm. apply words32_insert; [done|].
  pose proof (land_le (rd m (i / 32)) (u32 (Z.lnot (Z.shiftl 1 (i mod 32))))).
  specialize (Hm (i / 32)). lia.
Qed.
#[export] Hint Resolve bm_set_words32 bm_clear_words32 : orion.

(** A word equal to [0xFFFFFFFF] has all its 32 flags set. *)
Lemma bm_full_word m i : 0 <= i -> rd m (i / 32) = 2 ^ 32 - 1 -> bm_test m i = true.
Proof.
  intros Hi H. rewrite bm_test_bit, H.
  change (2 ^ 32 - 1) with (Z.ones 32). apply Z.ones_spec_low. zlia.
Qed.

(** ** Counting loops

    [for_up n i body s] is [for (j = i; j < i + n; j++) s = body j s]. *)
Fixpoint for_up {S : Type} (n : nat) (i : Z) (body : Z -> S -> S) (s : S) : S :=
  match n with
  | O => s
  | S n' => for_up n' (i + 1) body (body i s)
  end.

Lemma for_up_ind {S : Type} (P : Z -> S -> Prop) (body : Z -> S -> S) n i s :
  P i s ->
  (forall j s, i <= j < i + Z.of_nat n -> P j s -> P (j + 1) (body j s)) ->
  P (i + Z.of_nat n) (for_up n i body s).
Proof.
  revert i s. induction n as [|n IH]; intros i s H0 Hs; simpl.
  - by rewrite Z.add_0_r.
  - replace (i + Z.of_nat (Datatypes.S n)) with (i + 1 + Z.of_nat n) by lia.
    apply IH; [apply Hs; [lia|done]|]. intros j s' Hj. apply Hs. lia.
Qed.

Lemma for_up0_ind {S : Type} (P : Z -> S -> Prop) (body : Z -> S -> S) n s :
  P 0 s ->
  (forall j s, 0 <= j < Z.of_nat n -> P j s -> P (j + 1) (body j s)) ->
  P (Z.of_nat n) (for_up n 0 body s).
Proof. intros H0 Hs. by apply (for_up_ind P body n 0). Qed.

(** The first index of [i, i + n) that satisfies [p]: a search loop with an
    early return. *)
Fixpoint find_up (n : nat) (i : Z) (p : Z -> bool) : option Z :=
  match n with
  | O => None
  | S n' => if p i then Some i else find_up n' (i + 1) p
  end.

Lemma find_up_Some n i p j :
  find_up n i p = Some j <->
  i <= j < i + Z.of_nat n /\ p j = true /\ (forall k, i <= k < j -> p k = false).
Proof.
  revert i. induction n as [|n IH]; intros i; simpl; [split; [done|lia]|].
  destruct (p i) eqn:Hp.
  - split; [intros [= ->]; repeat split; try lia; done|].
    intros (Hr & Hj & Hk). destruct (decide (i = j)) as [->|]; [done|].
    rewrite Hk in Hp by lia. done.
  - rewrite IH. split.
    + intros (Hr & Hj & Hk). repeat split; try lia; [done|].
      intros k Hk'. destruct (decide (k = i)) as [->|]; [done|apply Hk; lia].
    + intros (Hr & Hj & Hk). destruct (decide (i = j)) as [->|]; [congruence|].
      repeat split; try lia; [done|]. intros k Hk'. apply Hk. lia.
Qed.

Lemma find_up_None n i p :
  find_up n i p = None <-> (forall k, i <= k < i + Z.of_nat n -> p k = false).
Proof.
  revert i. induction n as [|n IH]; intros i; simpl; [split; [lia|done]|].
  destruct (p i) eqn:Hp.
  - split; [done|]. intros H. rewrite H in Hp by lia. done.
  - rewrite IH. split; intros H k Hk.
    + destruct (decide (k = i)) as [->|]; [done|apply H; lia].
    + apply H. lia.
Qed.

(** ** Counting the indices of a range that satisfy a test *)
Fixpoint count_up (n : nat) (i : Z) (p : Z -> bool) : Z :=
  match n with
  | O => 0
  | S n' => (if p i then 1 else 0) + count_up n' (i + 1) p
  end.

Lemma count_up_ext n i p q :
  (forall k, i <= k < i + Z.of_nat n -> p k = q k) -> count_up n i p = count_up n i q.
Proof.
  revert i. induction n as [|n IH]; intros i H; simpl; [done|].
  rewrite H by lia. f_equal. apply IH. intros k Hk. apply H. lia.
Qed.

Lemma count_up_range n i p : 0 <= count_up n i p <= Z.of_nat n.
Proof. revert i. induction n as [|n IH]; intros i; simpl; [lia|]. specialize (IH (i + 1)). destruct (p i); lia. Qed.

(** Changing one index of the range changes the count by one. *)
Lemma count_up_update n i p q f :
  i <= f < i + Z.of_nat n ->
  (forall k, i <= k < i + Z.of_nat n -> k <> f -> p k = q k) ->
  p f = false -> q f = true -> count_up n i q = count_up n i p + 1.
Proof.
  revert i. induction n as [|n IH]; intros i Hf Heq Hp Hq; simpl; [lia|].
  destruct (decide (i = f)) as [->|Hne].
  - rewrite Hp, Hq, (count_up_ext n (f + 1) q p); [lia|].
    intros k Hk. symmetry. apply Heq; lia.
  - rewrite (Heq i) by lia. rewrite (IH (i + 1)); [lia|lia| |done|done].
    intros k Hk Hkf. apply Heq; lia.
Qed.

Lemma count_up_pos n i p f :
  i <= f < i + Z.of_nat n -> p f = true -> 0 < count_up n i p.
Proof.
  revert i. induction n as [|n IH]; intros i Hf Hp; simpl; [lia|].
  destruct (decide (i = f)) as [->|Hne].
  - rewrite Hp. pose proof (count_up_range n (f + 1) p). lia.
  - specialize (IH (i + 1) ltac:(lia) Hp). destruct (p i); lia.
Qed.

Lemma count_up_lt n i p f :
  i <= f < i + Z.of_nat n -> p f = false -> count_up n i p < Z.of_nat n.
Proof.
  revert i. induction n as [|n IH]; intros i Hf Hp; simpl; [lia|].
  destruct (decide (i = f)) as [->|Hne].
  - rewrite Hp. pose proof (count_up_range n (f + 1) p). lia.
  - specialize (IH (i + 1) ltac:(lia) Hp). destruct (p i); lia.
Qed.

Lemma count_up_all n i p :
  (forall k, i <= k < i + Z.of_nat n -> p k = true) -> count_up n i p = Z.of_nat n.
Proof.
  revert i. induction n as [|n IH]; intros i H; simpl; [done|].
  rewrite H, IH by (lia || (intros; apply H; lia)). lia.
Qed.

Lemma count_up_negb n i p : count_up n i (fun k => negb (p k)) = Z.of_nat n - count_up n i p.
Proof.
  revert i. induction n as [|n IH]; intros i; simpl; [done|]. rewrite IH. destruct (p i); simpl; lia.
Qed.

(** ** Reachability

    An invariant of every step holds along every run. *)
Lemma rtc_invariant {A : Type} (R : relation A) (P : A -> Prop) :
  (forall x y, R x y -> P x -> P y) -> forall x y, rtc R x y -> P x -> P y.
Proof. intros Hstep x y Hrun. induction Hrun; eauto. Qed.

(** ** Counting loops with effects *)
Fixpoint for_upM {S : Type} (n : nat) (i : Z) (body : Z -> M S unit) : M S unit :=
  match n with
  | O => mret tt
  | S n' => body i ≫= fun _ => for_upM n' (i + 1) body
  end.

(** A loop whose every iteration succeeds, with a loop invariant. *)
Lemma for_upM_ok {S : Type} (P : Z -> S -> Prop) (body : Z -> M S unit) n i s :
  P i s ->
  (forall j s, i <= j < i + Z.of_nat n -> P j s -> exists s', body j s = Ok (tt, s') /\ P (j + 1) s') ->
  exists s', for_upM n i body s = Ok (tt, s') /\ P (i + Z.of_nat n) s'.
Proof.
  revert i s. induction n as [|n IH]; intros i s H0 Hb; simpl.
  - exists s. by rewrite Z.add_0_r.
  - destruct (Hb i s ltac:(lia) H0) as (s1 & E & H1).
    rewrite (bind_ok _ _ _ _ _ E).
    replace (i + Z.of_nat (Datatypes.S n)) with (i + 1 + Z.of_nat n) by lia.
    apply IH; [done|]. intros j s2 Hj. apply Hb. lia.
Qed.
