(* ===== verification/Libk.v ===== *)
(** * Freestanding library (lib/libk/string.c, lib/libk/kprintf.c)

    The string functions act on byte memory (a map from addresses to bytes);
    [kprintf] produces the bytes it sends to the serial port. A C string is a
    run of non-zero bytes followed by a zero; the loops that search for the
    terminator take fuel, and the theorems give the fuel that is enough. *)

From Stdlib Require Import ZArith Lia.
From S2P Require Import Prelude.

(** ** Memory functions *)

Fixpoint copy_forward (n : nat) (d s : Z) (m : gmap Z Z) : gmap Z Z :=
  match n with
  | O => m
  | S n' => copy_forward n' (d + 1) (s + 1) (<[d := rd m s]> m)
  end.

(** [d] and [s] point one past the bytes still to be copied. *)
Fixpoint copy_backward (n : nat) (d s : Z) (m : gmap Z Z) : gmap Z Z :=
  match n with
  | O => m
  | S n' => copy_backward n' (d - 1) (s - 1) (<[d - 1 := rd m (s - 1)]> m)
  end.

Definition memcpy (dst src : Z) (n : nat) (m : gmap Z Z) : gmap Z Z := copy_forward n dst src m.

Definition memmove (dst src : Z) (n : nat) (m : gmap Z Z) : gmap Z Z :=
  if dst <? src then copy_forward n dst src m
  else copy_backward n (dst + Z.of_nat n) (src + Z.of_nat n) m.

Fixpoint memset (dst c : Z) (n : nat) (m : gmap Z Z) : gmap Z Z :=
  match n with
  | O => m
  | S n' => memset (dst + 1) c n' (<[dst := u8 c]> m)
  end.

Fixpoint memcmp (a b : Z) (n : nat) (m : gmap Z Z) : Z :=
  match n with
  | O => 0
  | S n' => if rd m a =? rd m b then memcmp (a + 1) (b + 1) n' m else rd m a - rd m b
  end.

(** ** String functions *)

Fixpoint strlen (fuel : nat) (s : Z) (m : gmap Z Z) : option Z :=
  match fuel with
  | O => None
  | S fuel' => if rd m s =? 0 then Some 0 else option_map (fun n => n + 1) (strlen fuel' (s + 1) m)
  end.

Fixpoint strcpy (fuel : nat) (d s : Z) (m : gmap Z Z) : option (gmap Z Z) :=
  match fuel with
  | O => None
  | S fuel' =>
      let c := rd m s in
      let m := <[d := c]> m in
      if c =? 0 then Some m else strcpy fuel' (d + 1) (s + 1) m
  end.

(** [while (n && ( *d++ = *src++)) n--;], with the final [n] and [d]. *)
Fixpoint strncpy_copy (n : nat) (d s : Z) (m : gmap Z Z) : nat * Z * gmap Z Z :=
  match n with
  | O => (O, d, m)
  | S n' =>
      let c := rd m s in
      let m := <[d := c]> m in
      if c =? 0 then (n, d + 1, m) else strncpy_copy n' (d + 1) (s + 1) m
  end.

Definition strncpy (dst src : Z) (n : nat) (m : gmap Z Z) : gmap Z Z :=
  let '(n, d, m) := strncpy_copy n dst src m in memset d 0 n m.

Fixpoint strcmp (fuel : nat) (a b : Z) (m : gmap Z Z) : option Z :=
  match fuel with
  | O => None
  | S fuel' =>
      if truthy (rd m a) && (rd m a =? rd m b) then strcmp fuel' (a + 1) (b + 1) m
      else Some (rd m a - rd m b)
  end.

Fixpoint strncmp (n : nat) (a b : Z) (m : gmap Z Z) : Z :=
  match n with
  | O => 0
  | S n' =>
      if truthy (rd m a) && (rd m a =? rd m b) then strncmp n' (a + 1) (b + 1) m
      else rd m a - rd m b
  end.

(** ** Specification: byte runs in memory *)

(** The [n] bytes from [a]. *)
Fixpoint bytes_at (n : nat) (a : Z) (m : gmap Z Z) : list Z :=
  match n with
  | O => []
  | S n' => rd m a :: bytes_at n' (a + 1) m
  end.

(** [s] is the C string at [a]. *)
Definition is_cstring (m : gmap Z Z) (a : Z) (s : list Z) : Prop :=
  bytes_at (length s) a m = s /\ rd m (a + Z.of_nat (length s)) = 0 /\ Forall (fun c => c <> 0) s.

Lemma bytes_at_ext n a m m' :
  (forall k, a <= k < a + Z.of_nat n -> rd m' k = rd m k) -> bytes_at n a m' = bytes_at n a m.
Proof.
  revert a. induction n as [|n IH]; intros a H; simpl; [done|]. f_equal; [apply H; lia|].
  apply IH. intros k Hk. apply H. lia.
Qed.

Lemma bytes_at_length n a m : length (bytes_at n a m) = n.
Proof. revert a. induction n; intros a; simpl; [done|]. by f_equal. Qed.

(** Two runs are equal iff their bytes are. *)
Lemma bytes_at_eq n a b m m' :
  (forall k, 0 <= k < Z.of_nat n -> rd m' (a + k) = rd m (b + k)) -> bytes_at n a m' = bytes_at n b m.
Proof.
  revert a b. induction n as [|n IH]; intros a b H; simpl; [done|]. f_equal.
  - specialize (H 0). rewrite !Z.add_0_r in H. apply H. lia.
  - apply IH. intros k Hk. specialize (H (k + 1)). rewrite <- !Z.add_assoc, !(Z.add_comm 1). apply H. lia.
Qed.

Lemma bytes_at_app p q a m : bytes_at (p + q) a m = bytes_at p a m ++ bytes_at q (a + Z.of_nat p) m.
Proof.
  revert a. induction p as [|p IH]; intros a; [simpl; by rewrite Z.add_0_r|].
  cbn [bytes_at Nat.add app]. rewrite IH. do 3 f_equal. lia.
Qed.

Lemma bytes_at_const n a m c :
  (forall k, a <= k < a + Z.of_nat n -> rd m k = c) -> bytes_at n a m = repeat c n.
Proof.
  revert a. induction n as [|n IH]; intros a H; simpl; [done|]. f_equal; [apply H; lia|].
  apply IH. intros k Hk. apply H. lia.
Qed.

Lemma copy_forward_spec n : forall d s m, d <= s \/ s + Z.of_nat n <= d -> forall k,
  rd (copy_forward n d s m) k = if decide (d <= k < d + Z.of_nat n) then rd m (s + (k - d)) else rd m k.
Proof.
  induction n as [|n IH]; intros d s m Hov k; cbn [copy_forward].
  - by rewrite decide_False by lia.
  - rewrite IH by lia. repeat case_decide; try lia; rewrite rd_insert; case_decide; try lia; try done.
    + f_equal. lia.
    + f_equal. lia.
Qed.

Lemma copy_backward_spec n : forall d s m, s <= d -> forall k,
  rd (copy_backward n d s m) k =
    if decide (d - Z.of_nat n <= k < d) then rd m (s + (k - d)) else rd m k.
Proof.
  induction n as [|n IH]; intros d s m Hov k; cbn [copy_backward].
  - by rewrite decide_False by lia.
  - rewrite IH by lia. repeat case_decide; try lia; rewrite rd_insert; case_decide; try lia; try done.
    + f_equal. lia.
    + f_equal. lia.
Qed.

Lemma memset_spec n : forall d c m k,
  rd (memset d c n m) k = if decide (d <= k < d + Z.of_nat n) then u8 c else rd m k.
Proof.
  induction n as [|n IH]; intros d c m k; cbn [memset].
  - by rewrite decide_False by lia.
  - rewrite IH. repeat case_decide; try lia; rewrite rd_insert; case_decide; try lia; done.
Qed.

(** ** Formatted output (kprintf.c)

    The output is the list of bytes handed to [serial_putchar]. *)

(** [digits[d]] of the string "0123456789abcdef". *)
Definition digit (d : Z) : Z := if d <? 10 then 48 + d else 87 + d.

(** The conversion loop: fills [buf] downwards from index [i]. *)
Fixpoint convert (fuel : nat) (value base i : Z) (buf : gmap Z Z) : option (Z * gmap Z Z) :=
  if 0 <? value then
    match fuel with
    | O => None
    | S fuel' => convert fuel' (value / base) base (i - 1) (<[i := digit (value mod base)]> buf)
    end
  else Some (i, buf).

Definition write_uint_base (value base width pad : Z) : option (list Z) :=
  let buf := <[31 := 0]> ∅ in
  r ← (if value =? 0 then Some (29, <[30 := 48]> buf) else convert 32 value base 30 buf);
  let '(i, buf) := r in
  let len := 30 - i in
  mret (repeat pad (Z.to_nat (width - len)) ++ bytes_at (Z.to_nat (30 - i)) (i + 1) buf).

(** A variadic argument: an integer, or a string pointer ([None] is null). *)
Inductive arg : Type :=
| AInt (v : Z)
| AStr (s : option (list Z)).

Definition null_text : list Z := [40; 110; 117; 108; 108; 41].

(** [while ( *p >= '0' && *p <= '9')]: the width and the rest of the format. *)
Fixpoint scan_width (p : list Z) (width : Z) : Z * list Z :=
  match p with
  | c :: p' => if (48 <=? c) && (c <=? 57) then scan_width p' (width * 10 + (c - 48)) else (width, p)
  | [] => (width, p)
  end.

(** The bytes that [serial_write] hands to [serial_putchar] for a string: a
    carriage return goes before every newline. (The digits [write_uint_base]
    prints hold no newline.) *)
Fixpoint crlf (s : list Z) : list Z :=
  match s with
  | [] => []
  | c :: s' => if c =? 10 then 13 :: c :: crlf s' else c :: crlf s'
  end.

(** Outcome of one conversion: the bytes printed, the remaining arguments. *)
Definition conversion (c : Z) (width pad : Z) (args : list arg) : option (list Z * list arg) :=
  match c, args with
  | 99, AInt v :: args => Some ([u8 v], args)
  | 115, AStr s :: args => Some (crlf (default null_text s), args)
  | 100, AInt v :: args =>
      let v := s32 v in
      out ← write_uint_base (u32 (if v <? 0 then - v else v)) 10 width pad;
      Some ((if v <? 0 then [45] else []) ++ out, args)
  | 117, AInt v :: args => out ← write_uint_base (u32 v) 10 width pad; Some (out, args)
  | 120, AInt v :: args => out ← write_uint_base (u32 v) 16 width pad; Some ([48; 120] ++ out, args)
  | 112, AInt v :: args => out ← write_uint_base (u32 v) 16 8 48; Some ([48; 120] ++ out, args)
  | 37, args => Some ([37], args)
  | 99, _ | 115, _ | 100, _ | 117, _ | 120, _ | 112, _ => None
  | _, args => Some ([37; c], args)
  end.

(** [kprintf]: [None] when it reads an argument that was not passed, or past
    the end of a format that ends inside a conversion. *)
Fixpoint kprintf (fuel : nat) (fmt : list Z) (args : list arg) : option (list Z) :=
  match fuel with
  | O => None
  | S fuel' =>
      match fmt with
      | [] => Some []
      | c :: p =>
          if negb (c =? 37) then out ← kprintf fuel' p args; Some (c :: out) else
          let '(pad, p) := match p with 48 :: p' => (48, p') | _ => (32, p) end in
          let '(width, p) := scan_width p 0 in
          match p with
          | [] => None
          | c :: p =>
              r ← conversion c width pad args;
              let '(out, args) := r in
              rest ← kprintf fuel' p args;
              Some (out ++ rest)
          end
      end
  end.

(** The number a list of digits denotes. *)
Definition undigit (c : Z) : Z := if c <? 58 then c - 48 else c - 87.
Definition numeral (base : Z) (ds : list Z) : Z := fold_left (fun n c => n * base + undigit c) ds 0.

Lemma undigit_digit d : 0 <= d < 16 -> undigit (digit d) = d.
Proof. unfold undigit, digit. intros. zbool; lia. Qed.

Lemma numeral_snoc base ds c : numeral base (ds ++ [c]) = numeral base ds * base + undigit c.
Proof. unfold numeral. by rewrite fold_left_app. Qed.

(** Digits of [v], most significant first. *)
Fixpoint digits_of (fuel : nat) (base v : Z) : list Z :=
  match fuel with
  | O => []
  | S fuel' => if 0 <? v then digits_of fuel' base (v / base) ++ [digit (v mod base)] else []
  end.

Lemma digits_numeral fuel base v :
  2 <= base <= 16 -> 0 <= v < base ^ Z.of_nat fuel -> numeral base (digits_of fuel base v) = v.
Proof.
  intros Hb. revert v. induction fuel as [|fuel IH]; intros v Hv; cbn [digits_of].
  - simpl in *. unfold numeral. simpl. lia.
  - destruct (Z.ltb_spec 0 v); [|unfold numeral; simpl; lia].
    rewrite numeral_snoc, IH, undigit_digit.
    + pose proof (Z.div_mod v base). lia.
    + pose proof (Z.mod_pos_bound v base). lia.
    + split; [apply Z.div_pos; lia|]. apply Z.div_lt_upper_bound; [lia|].
      rewrite Nat2Z.inj_succ, Z.pow_succ_r in Hv by lia. lia.
Qed.

Lemma bytes_at_snoc n a m : bytes_at (S n) a m = bytes_at n a m ++ [rd m (a + Z.of_nat n)].
Proof.
  revert a. induction n as [|n IH]; intros a; [cbn; by rewrite Z.add_0_r|].
  change (bytes_at (S (S n)) a m) with (rd m a :: bytes_at (S n) (a + 1) m). rewrite IH. simpl.
  do 3 f_equal. f_equal. lia.
Qed.

(** The loop writes the digits of the value below index [i], in order. *)
Lemma convert_spec fuel : forall base v i buf,
  2 <= base <= 16 -> 0 <= v < base ^ Z.of_nat fuel ->
  exists j buf', convert fuel v base i buf = Some (j, buf') /\
    i - Z.of_nat fuel <= j <= i /\ (0 < v -> j < i) /\
    bytes_at (Z.to_nat (i - j)) (j + 1) buf' = digits_of fuel base v /\
    (forall k, i < k -> rd buf' k = rd buf k).
Proof.
  induction fuel as [|fuel IH]; intros base v i buf Hb Hv; cbn [convert digits_of].
  - rewrite Z.pow_0_r in Hv. rewrite (proj2 (Z.ltb_ge 0 v)) by lia. exists i, buf.
    rewrite Z.sub_diag. split_and!; try done; lia.
  - destruct (Z.ltb_spec 0 v).
    + destruct (IH base (v / base) (i - 1) (<[i := digit (v mod base)]> buf) Hb) as (j & buf' & E & Hj & _ & Hd & Hk).
      { split; [apply Z.div_pos; lia|]. apply Z.div_lt_upper_bound; [lia|].
        rewrite Nat2Z.inj_succ, Z.pow_succ_r in Hv by lia. lia. }
      exists j, buf'. split_and!; try lia; [done| |].
      * replace (Z.to_nat (i - j)) with (S (Z.to_nat (i - 1 - j))) by lia.
        rewrite bytes_at_snoc, Hd. do 2 f_equal. rewrite Z2Nat.id by lia.
        replace (j + 1 + (i - 1 - j)) with i by lia. rewrite Hk by lia. apply rd_insert_eq.
      * intros k Hk'. rewrite Hk by lia. apply rd_insert_ne. lia.
    + exists i, buf. rewrite Z.sub_diag. split_and!; try done; lia.
Qed.

Lemma digits_length fuel k base v :
  2 <= base <= 16 -> 0 <= v < base ^ Z.of_nat k -> (length (digits_of fuel base v) <= k)%nat.
Proof.
  intros Hb. revert k v. induction fuel as [|fuel IH]; intros k v Hv; cbn [digits_of]; [simpl; lia|].
  destruct (Z.ltb_spec 0 v); [|simpl; lia]. destruct k as [|k]; [simpl in Hv; lia|].
  rewrite length_app. simpl. specialize (IH k (v / base)).
  assert (0 <= v / base < base ^ Z.of_nat k); [|lia].
  split; [apply Z.div_pos; lia|]. apply Z.div_lt_upper_bound; [lia|].
  rewrite Nat2Z.inj_succ, Z.pow_succ_r in Hv by lia. lia.
Qed.

Lemma pow_base_mono base k : 10 <= base -> 10 ^ Z.of_nat k <= base ^ Z.of_nat k.
Proof. intros. apply Z.pow_le_mono_l. lia. Qed.

(** Padded numeral of a 32-bit value. *)
Lemma write_uint_base_spec v base width pad :
  10 <= base <= 16 -> 0 <= v < 2 ^ 32 ->
  exists ds, write_uint_base v base width pad = Some (repeat pad (Z.to_nat (width - Z.of_nat (length ds))) ++ ds) /\
    numeral base ds = v /\ (1 <= length ds <= 10)%nat.
Proof.
  intros Hb Hv. unfold write_uint_base. destruct (Z.eqb_spec v 0) as [->|Hnz].
  - exists [48]. split_and!; done || (simpl; lia).
  - pose proof (pow_base_mono base 32 ltac:(lia)) as H32. pose proof (pow_base_mono base 10 ltac:(lia)) as H10.
    change (Z.of_nat 32) with 32 in *. change (Z.of_nat 10) with 10 in *.
    destruct (convert_spec 32 base v 30 (<[31 := 0]> ∅)) as (j & buf & E & Hj & Hj2 & Hd & _); [lia..|].
    change (Z.of_nat 32) with 32 in *. rewrite E. simpl. rewrite Hd.
    pose proof (digits_length 32 10 base v ltac:(lia) ltac:(change (Z.of_nat 10) with 10; lia)) as Hlen.
    assert (Z.of_nat (length (digits_of 32 base v)) = 30 - j) as Hl by (rewrite <- Hd, bytes_at_length; lia).
    exists (digits_of 32 base v). rewrite Hl. split; [done|]. split; [|lia].
    apply digits_numeral; [lia|]. change (Z.of_nat 32) with 32. lia.
Qed.

(** Text without a conversion is printed as it is. *)
Lemma kprintf_text text fuel rest args :
  Forall (fun c => c <> 37) text -> kprintf (length text + fuel) (text ++ rest) args =
    option_map (fun out => text ++ out) (kprintf fuel rest args).
Proof.
  induction text as [|c text IH]; intros H; simpl.
  - by destruct (kprintf fuel rest args).
  - inversion H; subst. rewrite (proj2 (Z.eqb_neq c 37)) by done. simpl. rewrite IH by done.
    by destruct (kprintf fuel rest args).
Qed.

(** ** Properties *)

(** C25: [memmove] copies the bytes that were at the source before the call,
    whatever the overlap, and touches nothing outside the destination. *)
Theorem memmove_correct dst src n m :
  bytes_at n dst (memmove dst src n m) = bytes_at n src m /\
  forall k, k < dst \/ dst + Z.of_nat n <= k -> rd (memmove dst src n m) k = rd m k.
Proof.
  assert (H : forall k, rd (memmove dst src n m) k =
    if decide (dst <= k < dst + Z.of_nat n) then rd m (src + (k - dst)) else rd m k).
  { intros k. unfold memmove. destruct (Z.ltb_spec dst src).
    - apply copy_forward_spec. lia.
    - rewrite copy_backward_spec by lia. repeat case_decide; try lia; f_equal; lia. }
  split.
  - apply bytes_at_eq. intros k Hk. rewrite H, decide_True by lia. f_equal. lia.
  - intros k Hk. rewrite H. by rewrite decide_False by lia.
Qed.

Lemma cstring_byte m a s k :
  is_cstring m a s -> 0 <= k <= Z.of_nat (length s) -> (rd m (a + k) = 0 <-> k = Z.of_nat (length s)).
Proof.
  intros (Hb & Hz & Hn) Hk. split; [|by intros ->]. intros H0.
  destruct (decide (k = Z.of_nat (length s))) as [|Hne]; [done|exfalso].
  assert (Hat : forall n b (l : list Z), bytes_at n b m = l -> forall i, 0 <= i < Z.of_nat n ->
    l !! Z.to_nat i = Some (rd m (b + i))).
  { clear. induction n as [|n IH]; intros b l <- i Hi; [lia|]. simpl.
    destruct (decide (i = 0)) as [->|]; [by rewrite Z.add_0_r|].
    replace (Z.to_nat i) with (S (Z.to_nat (i - 1))) by lia. simpl. rewrite (IH (b + 1) _ eq_refl) by lia.
    do 2 f_equal. lia. }
  pose proof (Hat _ _ _ Hb k ltac:(lia)) as Hl. rewrite H0 in Hl.
  by eapply Forall_lookup_1 in Hn; [|exact Hl].
Qed.

Lemma strncpy_copy_spec s : forall n d a m,
  is_cstring m a s -> (length s < n)%nat -> (forall j, 0 <= j <= Z.of_nat (length s) -> ~ d <= a + j < d + Z.of_nat n) ->
  exists m', strncpy_copy n d a m = ((n - length s)%nat, d + Z.of_nat (length s) + 1, m') /\
    (forall k, rd m' k = if decide (d <= k <= d + Z.of_nat (length s)) then rd m (a + (k - d)) else rd m k).
Proof.
  induction s as [|c s IH]; intros n d a m Hs Hn Hdis; destruct n as [|n]; try (simpl in Hn; lia); cbn [strncpy_copy].
  - destruct Hs as (_ & Hz & _). simpl in Hz. rewrite Z.add_0_r in Hz. rewrite Hz, Z.eqb_refl. eexists.
    split; [simpl; by rewrite Z.add_0_r|]. intros k. rewrite rd_insert. simpl.
    destruct (decide (d = k)) as [<-|]; [rewrite decide_True by lia; by rewrite Z.sub_diag, Z.add_0_r|].
    by rewrite decide_False by lia.
  - pose proof (cstring_byte m a (c :: s) 0 Hs ltac:(simpl; lia)) as H0. rewrite Z.add_0_r in H0.
    rewrite (proj2 (Z.eqb_neq (rd m a) 0)) by (rewrite H0; simpl; lia).
    destruct Hs as (Hb & Hz & Hnz). simpl in Hb. injection Hb as Hc Hb. inversion Hnz; subst.
    destruct (IH n (d + 1) (a + 1) (<[d := rd m a]> m)) as (m' & E & Hm').
    { assert (Hkeep : forall j, 0 <= j <= Z.of_nat (length (rd m a :: s)) -> rd (<[d := rd m a]> m) (a + j) = rd m (a + j)).
      { intros j Hj. apply rd_insert_ne. intros ->. apply (Hdis j Hj). lia. }
      split_and!; [|replace (a + 1 + Z.of_nat (length s)) with (a + Z.of_nat (length (rd m a :: s))) by (simpl; lia); rewrite Hkeep by lia; done|done].
      etrans; [|exact Hb]. apply bytes_at_ext. intros k Hk. replace k with (a + (k - a)) by lia. apply Hkeep. simpl. lia. }
    { simpl in Hn. lia. }
    { intros j Hj Hin. apply (Hdis (j + 1)); simpl; lia. }
    exists m'. split; [rewrite E; simpl; do 2 f_equal; lia|]. intros k. rewrite Hm'. simpl.
    rewrite !rd_insert. repeat case_decide; try lia; try done; try (f_equal; lia).
    exfalso. apply (Hdis (k - d)); simpl; lia.
Qed.

(** [strncpy] of a string shorter than [n] into a disjoint buffer stores
    the string and pads it with zeros, but writes [n + 1] bytes: the byte just
    past the buffer is set to zero too. Every other byte is unchanged. *)
Theorem strncpy_overruns_by_one m dst src s n :
  is_cstring m src s -> (length s < n)%nat ->
  (forall j, 0 <= j <= Z.of_nat (length s) -> ~ dst <= src + j < dst + Z.of_nat n) ->
  let m' := strncpy dst src n m in
  bytes_at n dst m' = s ++ repeat 0 (n - length s) /\
  rd m' (dst + Z.of_nat n) = 0 /\
  (forall k, k < dst \/ dst + Z.of_nat n < k -> rd m' k = rd m k).
Proof.
  intros Hs Hn Hdis. unfold strncpy. destruct (strncpy_copy_spec s n dst src m Hs Hn Hdis) as (m1 & -> & H1).
  set (L := Z.of_nat (length s)) in *.
  assert (Hm : forall k, rd (memset (dst + L + 1) 0 (n - length s) m1) k =
    if decide (dst <= k < dst + L) then rd m (src + (k - dst)) else
    if decide (dst + L <= k <= dst + Z.of_nat n) then 0 else rd m k).
  { intros k. rewrite memset_spec, H1. destruct Hs as (_ & Hz & _). fold L in Hz.
    repeat case_decide; try lia; try done. replace (k - dst) with L by lia. done. }
  cbv zeta. split_and!.
  - replace n with (length s + (n - length s))%nat at 1 by lia.
    rewrite bytes_at_app. f_equal.
    + destruct Hs as (Hb & _). etrans; [|exact Hb]. apply bytes_at_eq. intros k Hk. rewrite Hm.
      repeat case_decide; try (subst L; lia). f_equal. lia.
    + apply bytes_at_const. intros k Hk. rewrite Hm. repeat case_decide; try (subst L; lia); done.
  - rewrite Hm. repeat case_decide; try lia; done.
  - intros k Hk. rewrite Hm. repeat case_decide; try lia; done.
Qed.

(** Lexicographic order on byte strings. *)
Fixpoint lex (s t : list Z) : comparison :=
  match s, t with
  | [], [] => Eq
  | [], _ :: _ => Lt
  | _ :: _, [] => Gt
  | x :: s', y :: t' => match x ?= y with Eq => lex s' t' | c => c end
  end.

Lemma cstring_cons m a c s :
  is_cstring m a (c :: s) -> rd m a = c /\ c <> 0 /\ is_cstring m (a + 1) s.
Proof.
  intros (Hb & Hz & Hn). simpl in Hb. injection Hb as Hc Hb. inversion Hn; subst.
  split_and!; try done. split_and!; try done.
  replace (a + 1 + Z.of_nat (length s)) with (a + Z.of_nat (length (rd m a :: s))) by (simpl; lia). done.
Qed.
Lemma cstring_nil m a : is_cstring m a [] -> rd m a = 0.
Proof. intros (_ & Hz & _). simpl in Hz. by rewrite Z.add_0_r in Hz. Qed.

(** [strcmp] on two C strings terminates and its sign is the
    lexicographic order of the strings as unsigned bytes: zero exactly for
    equal strings. *)
Theorem strcmp_correct m a b s t fuel :
  (forall k, 0 <= rd m k < 256) -> is_cstring m a s -> is_cstring m b t -> (length s < fuel)%nat ->
  exists r, strcmp fuel a b m = Some r /\ (r ?= 0) = lex s t /\ (r = 0 <-> s = t).
Proof.
  intros Hm. revert a b t fuel. induction s as [|x s IH]; intros a b t fuel Ha Hb Hf;
    (destruct fuel as [|fuel]; [simpl in Hf; lia|]); cbn [strcmp]; unfold truthy.
  - apply cstring_nil in Ha. rewrite Ha. simpl. eexists. split; [done|]. destruct t as [|y t].
    + apply cstring_nil in Hb. by rewrite Hb.
    + apply cstring_cons in Hb as (Hb & Hy & _). pose proof (Hm b). rewrite Hb in *. cbn [lex].
      rewrite (proj2 (Z.compare_lt_iff (0 - y) 0)) by lia. split; [done|]. split; [lia|done].
  - apply cstring_cons in Ha as (Hx & Hx0 & Ha). rewrite Hx. rewrite (proj2 (Z.eqb_neq x 0)) by done. simpl.
    destruct t as [|y t].
    + apply cstring_nil in Hb. rewrite Hb, (proj2 (Z.eqb_neq x 0)) by done. eexists. split; [done|].
      pose proof (Hm a). rewrite Z.sub_0_r, (proj2 (Z.compare_gt_iff x 0)) by lia.
      split; [done|]. split; [lia|done].
    + apply cstring_cons in Hb as (-> & Hy & Hb). destruct (Z.eqb_spec x y) as [->|Hne].
      * destruct (IH (a + 1) (b + 1) t fuel Ha Hb) as (r & E & Hr & H0); [simpl in Hf; lia|].
        exists r. rewrite Z.compare_refl. split_and!; [done..|]. rewrite H0. split; [by intros ->|by intros [=]].
      * eexists. split; [done|].
        destruct (Z.compare_spec (x - y) 0), (Z.compare_spec x y); try lia; (split; [done|]; split; [lia|by intros [=]]).
Qed.

(** [write_uint_base] (bases 10 to 16) always terminates and prints a
    numeral of at most ten digits that denotes exactly the value, padded on the
    left to the requested width. *)
Theorem write_uint_base_correct v base width pad :
  10 <= base <= 16 -> 0 <= v < 2 ^ 32 ->
  exists ds, write_uint_base v base width pad =
      Some (repeat pad (Z.to_nat (width - Z.of_nat (length ds))) ++ ds) /\
    numeral base ds = v /\ (1 <= length ds <= 10)%nat.
Proof. apply write_uint_base_spec. Qed.

(** [kprintf] passes text through and prints ["%d"] of any 32-bit pattern
    as the sign and the decimal magnitude of its two's complement value (the
    most negative one included), then goes on with the rest of the format and
    the remaining arguments. *)
Theorem kprintf_decimal text v rest args fuel :
  Forall (fun c => c <> 37) text ->
  exists ds, numeral 10 ds = Z.abs (s32 v) /\
    kprintf (length text + S fuel) (text ++ 37 :: 100 :: rest) (AInt v :: args) =
      option_map (fun out => text ++ (if s32 v <? 0 then [45] else []) ++ ds ++ out) (kprintf fuel rest args).
Proof.
  intros Ht. assert (Hs : - 2 ^ 31 <= s32 v < 2 ^ 31).
  { unfold s32. pose proof (u32_range v). destruct (Z.ltb_spec (u32 v) (2 ^ 31)); lia. }
  assert (Habs : u32 (if s32 v <? 0 then - s32 v else s32 v) = Z.abs (s32 v)).
  { destruct (Z.ltb_spec (s32 v) 0); rewrite u32_small by lia; lia. }
  destruct (write_uint_base_spec (Z.abs (s32 v)) 10 0 32) as (ds & E & Hn & Hl); [lia|lia|].
  exists ds. split; [done|]. rewrite kprintf_text by done.
  assert (Hk : kprintf (S fuel) (37 :: 100 :: rest) (AInt v :: args) =
    option_map (fun out => (if s32 v <? 0 then [45] else []) ++ ds ++ out) (kprintf fuel rest args)).
  { cbn [kprintf]. cbn -[s32 u32 write_uint_base kprintf]. rewrite Habs, E.
    replace (Z.to_nat (0 - Z.of_nat (length ds))) with O by lia. cbn -[s32 u32 kprintf].
    destruct (kprintf fuel rest args); [|done]. simpl. by rewrite <- app_assoc. }
  rewrite Hk. by destruct (kprintf fuel rest args).
Qed.

(** ** Witnesses *)

Definition demo_bytes : gmap Z Z := list_to_map [(100, 72); (101, 105); (102, 0); (205, 9)].

Lemma demo_string : is_cstring demo_bytes 100 [72; 105].
Proof. split_and!; [reflexivity|reflexivity|repeat constructor; discriminate]. Qed.
Lemma demo_empty : is_cstring demo_bytes 102 [].
Proof. split_and!; [reflexivity|reflexivity|constructor]. Qed.

Lemma demo_bytes_range : forall k, 0 <= rd demo_bytes k < 256.
Proof.
  intros k. unfold rd, demo_bytes. simpl. rewrite !lookup_insert. repeat case_decide; simpl; try lia.
  rewrite lookup_empty. simpl. lia.
Qed.

Lemma strncpy_overruns_by_one_witness :
  bytes_at 5 200 (strncpy 200 100 5 demo_bytes) = [72; 105; 0; 0; 0] /\
  rd demo_bytes 205 = 9 /\ rd (strncpy 200 100 5 demo_bytes) 205 = 0.
Proof.
  destruct (strncpy_overruns_by_one demo_bytes 200 100 [72; 105] 5 demo_string) as (H1 & H2 & _);
    [simpl; lia|simpl; lia|].
  exact (conj H1 (conj eq_refl H2)).
Defined.

Lemma strcmp_correct_witness : exists r, strcmp 10 100 102 demo_bytes = Some r /\ (r ?= 0) = Gt.
Proof.
  destruct (strcmp_correct demo_bytes 100 102 [72; 105] [] 10 demo_bytes_range demo_string demo_empty)
    as (r & E & H & _); [simpl; lia|].
  exists r. exact (conj E H).
Defined.

Lemma write_uint_base_correct_witness :
  exists ds, write_uint_base 0xB8000 16 8 48 =
    Some (repeat 48 (Z.to_nat (8 - Z.of_nat (length ds))) ++ ds) /\ numeral 16 ds = 0xB8000.
Proof.
  destruct (write_uint_base_correct 0xB8000 16 8 48) as (ds & E & H & _); [lia|lia|].
  exists ds. exact (conj E H).
Defined.

Lemma kprintf_decimal_witness :
  exists ds, numeral 10 ds = 2147483648 /\
    kprintf 3 [120; 37; 100] [AInt 0x80000000] = Some (120 :: 45 :: ds).
Proof.
  destruct (kprintf_decimal [120] 0x80000000 [] [] 1) as (ds & H & E).
  - repeat constructor; discriminate.
  - exists ds. split; [exact H|]. etransitivity; [exact E|]. cbn. by rewrite app_nil_r.
Defined.
