(* ===== verification/Serial.v ===== *)
(** * Port I/O and the serial line (include/ioport.h, kernel/drivers/serial.c,
      kernel/panic.c)

    A driver talks to its device through [inb] and [outb]; the state is the
    history of these accesses, oldest first. What a read gives is decided by
    the hardware: a function [hw] of the history and the port. A device is a
    state machine that runs over the history; [uart] is the part of the 16550
    that the driver programs, from its data sheet. *)

From Stdlib Require Import ZArith Lia.
From S2P Require Import Prelude Libk.

Inductive access : Type :=
| In (port v : Z)
| Out (port v : Z).

#[export] Instance access_eq_dec : EqDecision access.
Proof. solve_decision. Defined.

Section ports.
Variable hw : list access -> Z -> Z.
Local Abbreviation M A := (M (list access) A).

Definition outb (port val : Z) : M unit := modify (fun h => h ++ [Out (u16 port) (u8 val)]).
Definition inb (port : Z) : M Z := fun h =>
  let v := u8 (hw h (u16 port)) in Ok (v, h ++ [In (u16 port) v]).

(** ** The driver *)

Definition COM1_PORT : Z := 0x3F8.

Definition serial_tx_empty : M bool := v ← inb (COM1_PORT + 5); mret (truthy (Z.land v 0x20)).

(** [while (!serial_tx_empty());] *)
Fixpoint serial_wait (fuel : nat) : M unit :=
  ready ← serial_tx_empty;
  if ready : bool then mret tt else
  match fuel with
  | O => stop OutOfFuel
  | S fuel' => serial_wait fuel'
  end.

Definition serial_putchar (fuel : nat) (c : Z) : M unit :=
  serial_wait fuel ;; outb COM1_PORT c.

Fixpoint serial_write (fuel : nat) (s : list Z) : M unit :=
  match s with
  | [] => mret tt
  | c :: s' =>
      (if c =? 10 then serial_putchar fuel 13 else mret tt) ;;
      serial_putchar fuel c ;;
      serial_write fuel s'
  end.

(** [kprintf] with the bytes of Libk.v going out. *)
Fixpoint serial_bytes (fuel : nat) (s : list Z) : M unit :=
  match s with
  | [] => mret tt
  | c :: s' => serial_putchar fuel c ;; serial_bytes fuel s'
  end.
Definition kprint (fuel : nat) (fmt : list Z) (args : list arg) : M unit :=
  match kprintf (S (length fmt)) fmt args with
  | Some out => serial_bytes fuel out
  | None => stop (Undefined "kprintf arguments")
  end.

(** "UART I/O: Online\n" *)
Definition online_text : list Z := [85; 65; 82; 84; 32; 73; 47; 79; 58; 32; 79; 110; 108; 105; 110; 101; 10].

Definition serial_init (fuel : nat) : M unit :=
  outb (COM1_PORT + 1) 0x00 ;;
  outb (COM1_PORT + 3) 0x80 ;;
  outb (COM1_PORT + 0) 0x01 ;;
  outb (COM1_PORT + 1) 0x00 ;;
  outb (COM1_PORT + 3) 0x03 ;;
  outb (COM1_PORT + 2) 0xC7 ;;
  outb (COM1_PORT + 4) 0x0B ;;
  kprint fuel online_text [].

(** [panic]: the message goes out and the machine halts. *)
Definition panic_bar : list Z := repeat 61 20 ++ [10].
Definition panic_title : list Z := [75; 69; 82; 78; 69; 76; 32; 80; 65; 78; 73; 67; 10].
Definition panic_halted : list Z := [10; 83; 121; 115; 116; 101; 109; 32; 104; 97; 108; 116; 101; 100; 46; 10].
Definition panic (fuel : nat) (msg : list Z) : M unit :=
  serial_write fuel (10 :: panic_bar) ;;
  serial_write fuel panic_title ;;
  serial_write fuel msg ;;
  serial_write fuel panic_halted ;;
  serial_write fuel panic_bar.

End ports.

(** ** The 16550

    Register offsets from the base port: 0 data (divisor low byte when the
    divisor latch is open), 1 interrupt enable (divisor high byte), 2 FIFO
    control, 3 line control (bit 7 opens the divisor latch), 4 modem control, 5
    line status (bit 5: the transmitter accepts a byte). [u_lost] records that a
    byte was written when the last status read did not allow it. *)
Record uart := Uart {
  u_latch : bool;
  u_dll : Z;
  u_dlm : Z;
  u_ier : Z;
  u_fcr : Z;
  u_lcr : Z;
  u_mcr : Z;
  u_ready : bool;
  u_lost : bool;
  u_sent : list Z
}.

Definition uart_step (u : uart) (a : access) : uart :=
  match a with
  | In p v =>
      if p =? COM1_PORT + 5 then
        Uart (u_latch u) (u_dll u) (u_dlm u) (u_ier u) (u_fcr u) (u_lcr u) (u_mcr u) (Z.testbit v 5) (u_lost u) (u_sent u)
      else u
  | Out p v =>
      if p =? COM1_PORT then
        if u_latch u then
          Uart true v (u_dlm u) (u_ier u) (u_fcr u) (u_lcr u) (u_mcr u) (u_ready u) (u_lost u) (u_sent u)
        else
          Uart false (u_dll u) (u_dlm u) (u_ier u) (u_fcr u) (u_lcr u) (u_mcr u) false (u_lost u || negb (u_ready u)) (u_sent u ++ [v])
      else if p =? COM1_PORT + 1 then
        if u_latch u then
          Uart true (u_dll u) v (u_ier u) (u_fcr u) (u_lcr u) (u_mcr u) (u_ready u) (u_lost u) (u_sent u)
        else Uart false (u_dll u) (u_dlm u) v (u_fcr u) (u_lcr u) (u_mcr u) (u_ready u) (u_lost u) (u_sent u)
      else if p =? COM1_PORT + 2 then
        Uart (u_latch u) (u_dll u) (u_dlm u) (u_ier u) v (u_lcr u) (u_mcr u) (u_ready u) (u_lost u) (u_sent u)
      else if p =? COM1_PORT + 3 then
        Uart (Z.testbit v 7) (u_dll u) (u_dlm u) (u_ier u) (u_fcr u) (Z.land v 0x7F) (u_mcr u) (u_ready u) (u_lost u) (u_sent u)
      else if p =? COM1_PORT + 4 then
        Uart (u_latch u) (u_dll u) (u_dlm u) (u_ier u) (u_fcr u) (u_lcr u) v (u_ready u) (u_lost u) (u_sent u)
      else u
  end.

(** A device after a history. *)
Definition run_device {D : Type} (step : D -> access -> D) (d : D) (h : list access) : D := fold_left step h d.

Lemma run_device_app {D} (step : D -> access -> D) d h1 h2 :
  run_device step d (h1 ++ h2) = run_device step (run_device step d h1) h2.
Proof. apply fold_left_app. Qed.

(** The line: programmed for 115200 baud (divisor 1), 8 data bits, no parity,
    one stop bit, no interrupts, nothing lost. *)
Definition line_ok (u : uart) : Prop :=
  u_latch u = false /\ u_dll u = 1 /\ u_dlm u = 0 /\ u_ier u = 0 /\ u_lcr u = 3 /\ u_lost u = false.

(** The transmitter becomes ready within [fuel] further polls, whatever happened
    before (a byte leaves a 16550 in ten bit times). *)
Fixpoint ready_within (hw : list access -> Z -> Z) (fuel : nat) (h : list access) : bool :=
  let v := u8 (hw h (COM1_PORT + 5)) in
  Z.testbit v 5 ||
  match fuel with
  | O => false
  | S fuel' => ready_within hw fuel' (h ++ [In (COM1_PORT + 5) v])
  end.

(** Every element of a concrete list is a byte. *)
Ltac all_bytes := repeat (apply Forall_cons; split; [lia|]); by apply Forall_nil.

Section correct.
Variable hw : list access -> Z -> Z.
Variable fuel : nat.
Hypothesis Hready : forall h, ready_within hw fuel h = true.

(** [c] sends [out] on a line that is set up. *)
Definition sends (c : M (list access) unit) (out : list Z) : Prop :=
  forall h, exists t, c h = Ok (tt, h ++ t) /\
    forall u, line_ok u -> line_ok (run_device uart_step u t) /\ u_sent (run_device uart_step u t) = u_sent u ++ out.

Lemma sends_nil : sends (mret tt) [].
Proof. intros h. exists []. rewrite app_nil_r. split; [done|]. intros u Hu. by rewrite app_nil_r. Qed.

Lemma sends_bind c d o1 o2 : sends c o1 -> sends d o2 -> sends (c ;; d) (o1 ++ o2).
Proof.
  intros Hc Hd h. destruct (Hc h) as (t1 & E1 & K1). destruct (Hd (h ++ t1)) as (t2 & E2 & K2).
  exists (t1 ++ t2). split.
  - rewrite (bind_ok _ _ _ _ _ E1), app_assoc. exact E2.
  - intros u Hu. destruct (K1 u Hu) as [L1 S1]. destruct (K2 _ L1) as [L2 S2].
    rewrite run_device_app. split; [done|]. by rewrite S2, S1, app_assoc.
Qed.

Lemma status_bit v : truthy (Z.land v 0x20) = Z.testbit v 5.
Proof.
  assert (E : Z.land v 0x20 = if Z.testbit v 5 then 2 ^ 5 else 0).
  { apply Z.bits_inj'. intros n Hn. change 0x20 with (2 ^ 5). rewrite Z.land_spec, Z.pow2_bits_eqb by lia.
    destruct (Z.eqb_spec 5 n) as [<-|Hne].
    - destruct (Z.testbit v 5); [by rewrite Z.pow2_bits_true|by rewrite Z.bits_0].
    - rewrite andb_false_r. destruct (Z.testbit v 5); [by rewrite Z.pow2_bits_false|by rewrite Z.bits_0]. }
  rewrite E. by destruct (Z.testbit v 5).
Qed.

(** Polling leaves the line as it is, with the transmitter ready. *)
Lemma serial_wait_run n h :
  ready_within hw n h = true ->
  exists t, serial_wait hw n h = Ok (tt, h ++ t) /\
    forall u, line_ok u -> line_ok (run_device uart_step u t) /\ u_sent (run_device uart_step u t) = u_sent u /\
      u_ready (run_device uart_step u t) = true.
Proof.
  revert h. induction n as [|n IH]; intros h Hr; cbn -[u8 Z.testbit] in Hr; cbn -[u8 u16 Z.testbit].
  all: unfold serial_tx_empty, inb; munfold; cbn -[u8 u16 Z.testbit]; rewrite status_bit;
    change (u16 (COM1_PORT + 5)) with (COM1_PORT + 5).
  all: set (v := u8 (hw h (COM1_PORT + 5))) in *.
  all: destruct (Z.testbit v 5) eqn:Ev; simpl in Hr; [|try discriminate].
  1,2: exists [In (COM1_PORT + 5) v]; split; [done|]; intros u Hu; cbn -[Z.testbit]; rewrite Ev; split; [exact Hu|done].
  destruct (IH _ Hr) as (t & E & K). exists (In (COM1_PORT + 5) v :: t). split.
  - rewrite <- app_assoc in E. exact E.
  - intros u Hu. apply (K (uart_step u (In (COM1_PORT + 5) v))). exact Hu.
Qed.

Lemma sends_putchar c : 0 <= c < 256 -> sends (serial_putchar hw fuel c) [c].
Proof.
  intros Hc h. destruct (serial_wait_run fuel h (Hready h)) as (t & E & K).
  exists (t ++ [Out COM1_PORT c]). split.
  - unfold serial_putchar. rewrite (bind_ok _ _ _ _ _ E). unfold outb, modify.
    rewrite <- app_assoc. unfold u8. by rewrite (Z.mod_small c) by done.
  - intros u Hu. destruct (K u Hu) as ((L1 & L2 & L3 & L4 & L5 & L6) & S1 & R1). rewrite run_device_app.
    set (w := run_device uart_step u t) in *. unfold line_ok. simpl. rewrite L1. simpl.
    by rewrite L6, R1, S1.
Qed.

Definition bytes_ok (s : list Z) : Prop := Forall (fun c => 0 <= c < 256) s.

Lemma sends_bytes s : bytes_ok s -> sends (serial_bytes hw fuel s) s.
Proof.
  induction 1 as [|c s Hc Hs IH]; [apply sends_nil|].
  apply (sends_bind _ _ [c] s); [by apply sends_putchar|done].
Qed.

Lemma sends_write s : bytes_ok s -> sends (serial_write hw fuel s) (crlf s).
Proof.
  induction 1 as [|c s Hc Hs IH]; [apply sends_nil|]. simpl. destruct (Z.eqb_spec c 10) as [->|Hne].
  - apply (sends_bind _ _ [13] (10 :: crlf s)); [by apply sends_putchar|].
    apply (sends_bind _ _ [10] (crlf s)); [by apply sends_putchar|done].
  - apply (sends_bind _ _ [] (c :: crlf s)); [apply sends_nil|].
    apply (sends_bind _ _ [c] (crlf s)); [by apply sends_putchar|done].
Qed.

(** [serial_init] sets the line up; its first write turns the interrupts off
    when the divisor latch is closed, as it is after a reset. *)
Lemma serial_init_run h :
  exists t, serial_init hw fuel h = Ok (tt, h ++ t) /\
    forall u, u_latch u = false -> u_lost u = false -> line_ok (run_device uart_step u t) /\
      u_sent (run_device uart_step u t) = u_sent u ++ online_text.
Proof.
  set (setup := [Out 0x3F9 0x00; Out 0x3FB 0x80; Out 0x3F8 0x01; Out 0x3F9 0x00; Out 0x3FB 0x03; Out 0x3FA 0xC7; Out 0x3FC 0x0B]).
  assert (Hk : sends (kprint hw fuel online_text []) online_text).
  { apply sends_bytes. unfold bytes_ok, online_text. all_bytes. }
  destruct (Hk (h ++ setup)) as (t & E & K). exists (setup ++ t). split.
  - rewrite app_assoc, <- E. unfold serial_init, outb. munfold. unfold setup.
    rewrite <- !app_assoc. reflexivity.
  - intros u Hc Hl. rewrite run_device_app. set (w := run_device uart_step u setup).
    assert (Hw : line_ok w /\ u_sent w = u_sent u).
    { unfold w. destruct u. simpl in Hc, Hl. subst. done. }
    destruct (K w (proj1 Hw)) as [L S]. split; [done|]. by rewrite S, (proj2 Hw).
Qed.

(** C37: the serial line works. When the transmitter always becomes ready again,
    [serial_init] followed by any number of strings sent with [serial_write]
    ends, leaves the UART at 115200 baud, 8N1 and without interrupts, and
    transmits the driver's greeting and then exactly the bytes of the strings,
    with a carriage return before each newline; no byte is ever written while
    the transmitter is busy. *)
Theorem serial_correct ss h u :
  u_latch (run_device uart_step u h) = false -> u_lost (run_device uart_step u h) = false -> Forall bytes_ok ss ->
  exists t, (serial_init hw fuel ;; foldr (fun s k => serial_write hw fuel s ;; k) (mret tt) ss) h = Ok (tt, h ++ t) /\
    line_ok (run_device uart_step u (h ++ t)) /\
    u_sent (run_device uart_step u (h ++ t)) = u_sent (run_device uart_step u h) ++ online_text ++ concat (crlf <$> ss).
Proof.
  intros Hc Hl Hss. assert (Hw : sends (foldr (fun s k => serial_write hw fuel s ;; k) (mret tt) ss) (concat (crlf <$> ss))).
  { induction Hss as [|s ss Hs _ IH]; [apply sends_nil|]. apply sends_bind; [by apply sends_write|done]. }
  destruct (serial_init_run h) as (t1 & E1 & K1). destruct (Hw (h ++ t1)) as (t2 & E2 & K2).
  exists (t1 ++ t2). split.
  - rewrite (bind_ok _ _ _ _ _ E1), app_assoc. exact E2.
  - rewrite app_assoc, !(run_device_app _ u). destruct (K1 _ Hc Hl) as [L1 S1].
    destruct (K2 _ L1) as [L2 S2]. split; [done|]. by rewrite S2, S1, <- app_assoc.
Qed.

(** A panic is reported in full before the machine halts. *)
Lemma panic_sends msg :
  bytes_ok msg -> sends (panic hw fuel msg) (crlf (10 :: panic_bar) ++ crlf panic_title ++ crlf msg ++ crlf panic_halted ++ crlf panic_bar).
Proof.
  assert (Hp : bytes_ok (10 :: panic_bar) /\ bytes_ok panic_title /\ bytes_ok panic_halted /\ bytes_ok panic_bar).
  { unfold bytes_ok, panic_bar, panic_title, panic_halted. split_and!; all_bytes. }
  destruct Hp as (P1 & P2 & P3 & P4). intros Hm. unfold panic. repeat (apply sends_bind; [by apply sends_write|]). by apply sends_write.
Qed.

End correct.

(** ** Witness *)

(** A transmitter that is busy on every second poll. *)
Definition demo_hw (h : list access) (port : Z) : Z :=
  if port =? COM1_PORT + 5 then (if Nat.even (length h) then 0x60 else 0x00) else 0xFF.
Definition reset_uart : uart := Uart false 12 0 0 0 0 0 false false [].

Lemma demo_hw_ready h : ready_within demo_hw 1 h = true.
Proof.
  unfold ready_within, demo_hw. rewrite Z.eqb_refl, length_app. simpl (length [_]).
  rewrite Nat.add_1_r, Nat.even_succ, <- Nat.negb_even. by destruct (Nat.even (length h)).
Qed.

Lemma serial_correct_witness :
  exists t, (serial_init demo_hw 1 ;; foldr (fun s k => serial_write demo_hw 1 s ;; k) (mret tt) [[72; 105; 10]]) [] = Ok (tt, [] ++ t) /\
    line_ok (run_device uart_step reset_uart ([] ++ t)) /\
    u_sent (run_device uart_step reset_uart ([] ++ t)) = [] ++ online_text ++ [72; 105; 13; 10].
Proof.
  apply (serial_correct demo_hw 1 demo_hw_ready [[72; 105; 10]] [] reset_uart eq_refl eq_refl).
  apply Forall_cons. split; [all_bytes|by apply Forall_nil].
Defined.
