(* ===== verification/Arch.v ===== *)
(** * Segment, task and interrupt tables (kernel/arch/x86/gdt.c, tss.c, idt.c,
      gdt.asm; include/gdt.h, tss.h, idt.h)

    The tables are lists of records with the fields of the C structures;
    [gdt_bytes] and [idt_bytes] are their packed layout, from which the
    processor decodes a descriptor ([segment_of], [gate_of], from the Intel
    manual). The addresses where the linker puts the tables and the assembly
    entry points are parameters. *)

From Stdlib Require Import ZArith Lia Ascii String.
From S2P Require Import Prelude Libk Serial.

(** ** Structures *)

Record gdt_entry := GdtEntry {
  limit_low : Z;
  base_low : Z;
  base_mid : Z;
  g_access : Z;
  granularity : Z;
  base_high : Z
}.

(** [struct gdt_ptr] and [struct idt_ptr], and the registers loaded from them. *)
Record table_ptr := TablePtr { tp_limit : Z; tp_base : Z }.

Record tss_entry := TssEntry {
  prev_tss : Z; esp0 : Z; ss0 : Z; esp1 : Z; ss1 : Z; esp2 : Z; ss2 : Z; t_cr3 : Z;
  t_eip : Z; t_eflags : Z; t_eax : Z; t_ecx : Z; t_edx : Z; t_ebx : Z;
  t_esp : Z; t_ebp : Z; t_esi : Z; t_edi : Z;
  t_es : Z; t_cs : Z; t_ss : Z; t_ds : Z; t_fs : Z; t_gs : Z;
  ldt : Z; trap : Z; iomap_base : Z
}.

Record idt_entry := IdtEntry {
  i_base_low : Z;
  i_selector : Z;
  i_zero : Z;
  i_flags : Z;
  i_base_high : Z
}.

Definition SIZEOF_GDT_ENTRY : Z := 8.
Definition SIZEOF_IDT_ENTRY : Z := 8.
Definition SIZEOF_TSS : Z := 104.

(** The statics of gdt.c, tss.c and idt.c, and the processor's registers. *)
Record arch := Arch {
  gdt : list gdt_entry;
  gdtp : table_ptr;
  tss : tss_entry;
  idt : list idt_entry;
  idtp : table_ptr;
  gdtr : table_ptr;
  idtr : table_ptr;
  seg_cs : Z;
  seg_data : Z;
  task_reg : Z
}.
Definition set_gdt v a := Arch v (gdtp a) (tss a) (idt a) (idtp a) (gdtr a) (idtr a) (seg_cs a) (seg_data a) (task_reg a).
Definition set_gdtp v a := Arch (gdt a) v (tss a) (idt a) (idtp a) (gdtr a) (idtr a) (seg_cs a) (seg_data a) (task_reg a).
Definition set_tss v a := Arch (gdt a) (gdtp a) v (idt a) (idtp a) (gdtr a) (idtr a) (seg_cs a) (seg_data a) (task_reg a).
Definition set_idt v a := Arch (gdt a) (gdtp a) (tss a) v (idtp a) (gdtr a) (idtr a) (seg_cs a) (seg_data a) (task_reg a).
Definition set_idtp v a := Arch (gdt a) (gdtp a) (tss a) (idt a) v (gdtr a) (idtr a) (seg_cs a) (seg_data a) (task_reg a).
Definition set_gdtr v a := Arch (gdt a) (gdtp a) (tss a) (idt a) (idtp a) v (idtr a) (seg_cs a) (seg_data a) (task_reg a).
Definition set_idtr v a := Arch (gdt a) (gdtp a) (tss a) (idt a) (idtp a) (gdtr a) v (seg_cs a) (seg_data a) (task_reg a).
Definition set_segs c d a := Arch (gdt a) (gdtp a) (tss a) (idt a) (idtp a) (gdtr a) (idtr a) c d (task_reg a).
Definition set_task_reg v a := Arch (gdt a) (gdtp a) (tss a) (idt a) (idtp a) (gdtr a) (idtr a) (seg_cs a) (seg_data a) v.

(** ** What the processor sees *)

Definition lo8 (x : Z) : Z := x mod 256.
Definition hi8 (x : Z) : Z := x / 256 mod 256.

Definition gdt_bytes (e : gdt_entry) : list Z :=
  [lo8 (limit_low e); hi8 (limit_low e); lo8 (base_low e); hi8 (base_low e); base_mid e; g_access e; granularity e; base_high e].
Definition idt_bytes (e : idt_entry) : list Z :=
  [lo8 (i_base_low e); hi8 (i_base_low e); lo8 (i_selector e); hi8 (i_selector e); i_zero e; i_flags e; lo8 (i_base_high e); hi8 (i_base_high e)].

(** Base, limit in bytes, present bit, privilege level, code or data (as opposed
    to system) bit and type. *)
Record segment := Segment { s_base : Z; s_limit : Z; s_present : bool; s_dpl : Z; s_user : bool; s_type : Z }.

Definition segment_of (b : list Z) : option segment :=
  match b with
  | [b0; b1; b2; b3; b4; b5; b6; b7] =>
      let limit := b0 + 256 * b1 + 65536 * (b6 mod 16) in
      Some (Segment (b2 + 256 * b3 + 65536 * b4 + 16777216 * b7)
        (if Z.testbit b6 7 then limit * 4096 + 4095 else limit)
        (Z.testbit b5 7) (b5 / 32 mod 4) (Z.testbit b5 4) (b5 mod 16))
  | _ => None
  end.

(** An interrupt or trap gate. *)
Record gate := Gate { ga_offset : Z; ga_selector : Z; ga_present : bool; ga_dpl : Z; ga_type : Z }.

Definition gate_of (b : list Z) : option gate :=
  match b with
  | [b0; b1; b2; b3; b4; b5; b6; b7] =>
      Some (Gate (b0 + 256 * b1 + 65536 * b6 + 16777216 * b7) (b2 + 256 * b3) (Z.testbit b5 7) (b5 / 32 mod 4) (b5 mod 32))
  | _ => None
  end.

(** The descriptor of a selector: inside the limit of the table register. *)
Definition segment_at (a : arch) (sel : Z) : option segment :=
  if sel + 7 <=? tp_limit (gdtr a) then gdt a !! Z.to_nat (sel / 8) ≫= fun e => segment_of (gdt_bytes e) else None.
Definition gate_at (a : arch) (vector : Z) : option gate :=
  if 8 * vector + 7 <=? tp_limit (idtr a) then idt a !! Z.to_nat vector ≫= fun e => gate_of (idt_bytes e) else None.

(** ** Segments *)

Section arch.
Variables gdt_addr tss_addr idt_addr : Z.
(** The assembly stubs of isr.asm, irq.asm and syscall.asm. *)
Variables (isr irq : Z -> Z) (syscall_entry : Z).
Local Abbreviation M A := (M arch A).

Definition gdt_gate (base limit access gran : Z) : gdt_entry :=
  GdtEntry (u16 (Z.land limit 0xFFFF)) (u16 (Z.land base 0xFFFF)) (u8 (Z.land (Z.shiftr base 16) 0xFF)) (u8 access)
    (u8 (Z.lor (Z.land (Z.shiftr limit 16) 0x0F) (Z.land gran 0xF0))) (u8 (Z.land (Z.shiftr base 24) 0xFF)).
Definition gdt_set_gate (num : nat) (base limit access gran : Z) : M unit :=
  modify (fun a => set_gdt (<[num := gdt_gate base limit access gran]> (gdt a)) a).

(** [lgdt], the data segment registers and the far jump. *)
Definition gdt_flush : M unit := modify (fun a => set_segs 0x08 0x10 (set_gdtr (gdtp a) a)).

Definition gdt_init : M unit :=
  modify (fun a => set_gdtp (TablePtr (u16 (SIZEOF_GDT_ENTRY * 5 - 1)) gdt_addr) a) ;;
  gdt_set_gate 0 0 0 0x00 0x00 ;;
  gdt_set_gate 1 0 0xFFFFFFFF 0x9A 0xCF ;;
  gdt_set_gate 2 0 0xFFFFFFFF 0x92 0xCF ;;
  gdt_set_gate 3 0 0xFFFFFFFF 0xFA 0xCF ;;
  gdt_set_gate 4 0 0xFFFFFFFF 0xF2 0xCF ;;
  gdt_flush.

Definition gdt_install_tss (base limit : Z) : M unit :=
  modify (fun a => set_gdtp (TablePtr (u16 (SIZEOF_GDT_ENTRY * 6 - 1)) (tp_base (gdtp a))) a) ;;
  gdt_set_gate 5 base limit 0x89 0x00 ;;
  gdt_flush.

(** ** Task state *)

Definition zero_tss : tss_entry := TssEntry 0 0 0 0 0 0 0 0 0 0 0 0 0 0 0 0 0 0 0 0 0 0 0 0 0 0 0.
Definition set_ss0 (v : Z) (t : tss_entry) : tss_entry :=
  TssEntry (prev_tss t) (esp0 t) v (esp1 t) (ss1 t) (esp2 t) (ss2 t) (t_cr3 t) (t_eip t) (t_eflags t) (t_eax t) (t_ecx t)
    (t_edx t) (t_ebx t) (t_esp t) (t_ebp t) (t_esi t) (t_edi t) (t_es t) (t_cs t) (t_ss t) (t_ds t) (t_fs t) (t_gs t) (ldt t) (trap t) (iomap_base t).
Definition set_esp0 (v : Z) (t : tss_entry) : tss_entry :=
  TssEntry (prev_tss t) v (ss0 t) (esp1 t) (ss1 t) (esp2 t) (ss2 t) (t_cr3 t) (t_eip t) (t_eflags t) (t_eax t) (t_ecx t)
    (t_edx t) (t_ebx t) (t_esp t) (t_ebp t) (t_esi t) (t_edi t) (t_es t) (t_cs t) (t_ss t) (t_ds t) (t_fs t) (t_gs t) (ldt t) (trap t) (iomap_base t).
Definition set_iomap_base (v : Z) (t : tss_entry) : tss_entry :=
  TssEntry (prev_tss t) (esp0 t) (ss0 t) (esp1 t) (ss1 t) (esp2 t) (ss2 t) (t_cr3 t) (t_eip t) (t_eflags t) (t_eax t) (t_ecx t)
    (t_edx t) (t_ebx t) (t_esp t) (t_ebp t) (t_esi t) (t_edi t) (t_es t) (t_cs t) (t_ss t) (t_ds t) (t_fs t) (t_gs t) (ldt t) (trap t) v.

(** [ltr 0x28]: the processor wants an available task state segment there, and
    marks it busy in the table. *)
Definition tss_flush : M unit := fun a =>
  match segment_at a 0x28, gdt a !! 5%nat with
  | Some s, Some e =>
      if s_present s && negb (s_user s) && (s_type s =? 9) then
        Ok (tt, set_task_reg 0x28 (set_gdt (<[5%nat := GdtEntry (limit_low e) (base_low e) (base_mid e) (Z.lor (g_access e) 2) (granularity e) (base_high e)]> (gdt a)) a))
      else Stop (Panic "Unhandled CPU exception")
  | _, _ => Stop (Panic "Unhandled CPU exception")
  end.

Definition tss_init : M unit :=
  modify (set_tss zero_tss) ;;
  modify (fun a => set_tss (set_ss0 0x10 (tss a)) a) ;;
  modify (fun a => set_tss (set_esp0 0 (tss a)) a) ;;
  modify (fun a => set_tss (set_iomap_base (u16 SIZEOF_TSS) (tss a)) a) ;;
  gdt_install_tss tss_addr (SIZEOF_TSS - 1) ;;
  tss_flush.

Definition tss_set_esp0 (v : Z) : M unit := modify (fun a => set_tss (set_esp0 v (tss a)) a).

(** ** Interrupts *)

Definition idt_gate (flags base : Z) : idt_entry :=
  IdtEntry (u16 (Z.land base 0xFFFF)) 0x08 0 flags (u16 (Z.land (Z.shiftr base 16) 0xFFFF)).
Definition idt_set_gate (num base : Z) : M unit :=
  modify (fun a => set_idt (<[Z.to_nat (u8 num) := idt_gate 0x8E base]> (idt a)) a).
Definition idt_set_trap_gate (num base : Z) : M unit :=
  modify (fun a => set_idt (<[Z.to_nat (u8 num) := idt_gate 0xEF base]> (idt a)) a).

Definition lidt : M unit := modify (fun a => set_idtr (idtp a) a).

(** The gates of [idt_init] after the clearing loop, in order. *)
Definition idt_gates : list (Z * Z) :=
  [(0, isr 0); (6, isr 6); (8, isr 8); (13, isr 13); (14, isr 14);
   (32, irq 0); (33, irq 1); (34, irq 2); (35, irq 3); (36, irq 4); (37, irq 5); (38, irq 6); (39, irq 7);
   (40, irq 8); (41, irq 9); (42, irq 10); (43, irq 11); (44, irq 12); (45, irq 13); (46, irq 14); (47, irq 15)].

Definition idt_init : M unit :=
  modify (fun a => set_idtp (TablePtr (u16 (256 * SIZEOF_IDT_ENTRY - 1)) idt_addr) a) ;;
  for_upM 256 0 (fun i => idt_set_gate i 0) ;;
  foldr (fun '(n, base) k => idt_set_gate n base ;; k) (mret tt) idt_gates ;;
  lidt.

Definition idt_install_syscall : M unit := idt_set_trap_gate 0x80 syscall_entry ;; lidt.

End arch.

(** The exception handler, over the serial line: it says what happened and
    panics. [cr2] is the address of a page fault. *)
Definition line (s : string) : list Z := ((fun c => Z.of_nat (Ascii.nat_of_ascii c)) <$> String.list_ascii_of_string s) ++ [10].
Definition isr_handler (hw : list access -> Z -> Z) (fuel : nat) (int_no err_code cr2 : Z) : M (list access) unit :=
  kprint hw fuel (10 :: line "=== CPU EXCEPTION ===") [] ;;
  match int_no with
  | 0 => kprint hw fuel (line "Divide by Zero") []
  | 6 => kprint hw fuel (line "Invalid Opcode") []
  | 8 => kprint hw fuel (line "Double Fault") []
  | 13 => kprint hw fuel (line "General Protection Fault") []
  | 14 => kprint hw fuel (line "Page Fault at 0x%p  err=0x%x") [AInt cr2; AInt err_code]
  | _ => kprint hw fuel (line "Unknown Exception %u") [AInt int_no]
  end ;;
  panic hw fuel (removelast (line "Unhandled CPU exception")).

(** ** Encoding and decoding *)

Lemma land_FFFF x : Z.land x 0xFFFF = x mod 65536.
Proof. exact (land_ones_mod x 16 ltac:(lia)). Qed.
Lemma land_FF x : Z.land x 0xFF = x mod 256.
Proof. exact (land_ones_mod x 8 ltac:(lia)). Qed.
Lemma land_0F x : Z.land x 0x0F = x mod 16.
Proof. exact (land_ones_mod x 4 ltac:(lia)). Qed.

(** The granularity byte: the flags above the top four bits of the limit. *)
Lemma granularity_byte limit gran :
  0 <= limit < 2 ^ 32 -> 0 <= gran < 256 ->
  Z.lor (Z.land (Z.shiftr limit 16) 0x0F) (Z.land gran 0xF0) = gran - gran mod 16 + limit / 65536 mod 16.
Proof.
  intros Hl Hg. rewrite land_0F, Z.lor_comm.
  change 0xF0 with (2 ^ 8 - 2 ^ 4). rewrite land_round_down by lia. change (2 ^ 4) with 16.
  rewrite Z.shiftr_div_pow2 by lia. change (2 ^ 16) with 65536.
  apply (lor_low_add 4); zlia.
Qed.

Lemma testbit_7 x : 0 <= x < 256 -> Z.testbit x 7 = (128 <=? x).
Proof.
  intros Hx. rewrite Z.testbit_eqb by lia. change (2 ^ 7) with 128. destruct (Z.leb_spec 128 x).
  - replace (x / 128) with 1 by zlia. done.
  - by rewrite Z.div_small by lia.
Qed.

(** The limit in bytes that a 20-bit limit and the flags stand for. *)
Definition byte_limit (limit gran : Z) : Z :=
  let l := limit mod 2 ^ 20 in if Z.testbit gran 7 then l * 4096 + 4095 else l.

Lemma gdt_gate_segment base limit access gran :
  0 <= base < 2 ^ 32 -> 0 <= limit < 2 ^ 32 -> 0 <= access < 256 -> 0 <= gran < 256 ->
  segment_of (gdt_bytes (gdt_gate base limit access gran)) =
    Some (Segment base (byte_limit limit gran) (Z.testbit access 7) (access / 32 mod 4) (Z.testbit access 4) (access mod 16)).
Proof.
  intros Hb Hl Ha Hg. unfold segment_of, gdt_bytes, gdt_gate, byte_limit, lo8, hi8, u16, u8. simpl limit_low. simpl base_low.
  simpl base_mid. simpl g_access. simpl granularity. simpl base_high.
  rewrite (granularity_byte limit gran Hl Hg), !land_FFFF, !land_FF, !Z.shiftr_div_pow2, (Z.mod_small access) by lia.
  change (2 ^ 8) with 256. change (2 ^ 16) with 65536. change (2 ^ 24) with 16777216. change (2 ^ 20) with 1048576.
  set (g := gran - gran mod 16 + limit / 65536 mod 16).
  assert (Hgb : 0 <= g < 256) by (unfold g; zlia). rewrite (Z.mod_small g) by done.
  rewrite !testbit_7 by done.
  replace (128 <=? g) with (128 <=? gran) by (unfold g; zbool; zlia).
  replace (limit mod 65536 mod 65536 mod 256 + 256 * (limit mod 65536 mod 65536 / 256 mod 256) + 65536 * (g mod 16))
    with (limit mod 1048576) by (unfold g; zlia).
  do 2 f_equal. zlia.
Qed.

Lemma idt_gate_gate flags base :
  0 <= base < 2 ^ 32 -> 0 <= flags < 256 ->
  gate_of (idt_bytes (idt_gate flags base)) = Some (Gate base 0x08 (Z.testbit flags 7) (flags / 32 mod 4) (flags mod 32)).
Proof.
  intros Hb Hf. unfold gate_of, idt_bytes, idt_gate, lo8, hi8, u16. simpl i_base_low. simpl i_base_high. simpl i_selector. simpl i_flags.
  rewrite !land_FFFF, Z.shiftr_div_pow2 by lia. change (2 ^ 16) with 65536. do 2 f_equal. zlia.
Qed.

(** ** The tables after boot *)

Lemma segment_at_entry a sel e :
  sel + 7 <= tp_limit (gdtr a) -> gdt a !! Z.to_nat (sel / 8) = Some e -> segment_at a sel = segment_of (gdt_bytes e).
Proof. intros Hl He. unfold segment_at. rewrite (proj2 (Z.leb_le _ _)) by done. by rewrite He. Qed.

Lemma gate_at_entry a v e :
  8 * v + 7 <= tp_limit (idtr a) -> idt a !! Z.to_nat v = Some e -> gate_at a v = gate_of (idt_bytes e).
Proof. intros Hl He. unfold gate_at. rewrite (proj2 (Z.leb_le _ _)) by done. by rewrite He. Qed.

Section segments.
Variables gdt_addr tss_addr : Z.

(** Loading the task register: the descriptor becomes busy (0x89 to 0x8B). *)
Lemma tss_flush_run a :
  0 <= tss_addr < 2 ^ 32 -> 47 <= tp_limit (gdtr a) -> gdt a !! 5%nat = Some (gdt_gate tss_addr 103 0x89 0x00) ->
  tss_flush a = Ok (tt, set_task_reg 0x28 (set_gdt (<[5%nat := gdt_gate tss_addr 103 0x8B 0x00]> (gdt a)) a)).
Proof.
  intros Ht Hl He. unfold tss_flush. rewrite (segment_at_entry a 0x28 _ ltac:(lia) He), gdt_gate_segment by lia. by rewrite He.
Qed.

Lemma segments_run a :
  0 <= tss_addr < 2 ^ 32 -> length (gdt a) = 6%nat ->
  exists a', (gdt_init gdt_addr ;; tss_init tss_addr) a = Ok (tt, a') /\
    idt a' = idt a /\ idtp a' = idtp a /\ idtr a' = idtr a /\
    gdtr a' = TablePtr 47 gdt_addr /\ seg_cs a' = 0x08 /\ seg_data a' = 0x10 /\ task_reg a' = 0x28 /\
    segment_at a' 0x00 = Some (Segment 0 0 false 0 false 0) /\
    segment_at a' 0x08 = Some (Segment 0 0xFFFFFFFF true 0 true 10) /\
    segment_at a' 0x10 = Some (Segment 0 0xFFFFFFFF true 0 true 2) /\
    segment_at a' 0x18 = Some (Segment 0 0xFFFFFFFF true 3 true 10) /\
    segment_at a' 0x20 = Some (Segment 0 0xFFFFFFFF true 3 true 2) /\
    segment_at a' 0x28 = Some (Segment tss_addr 103 true 0 false 11) /\
    (forall sel, 0x30 <= sel -> segment_at a' sel = None) /\
    ss0 (tss a') = 0x10 /\ esp0 (tss a') = 0 /\ iomap_base (tss a') = SIZEOF_TSS.
Proof.
  intros Ht Hlen. destruct a as [g gp ts it ip gr ir cs da tr]. simpl in Hlen.
  destruct g as [|g0 [|g1 [|g2 [|g3 [|g4 [|g5 [|]]]]]]]; try discriminate.
  set (g := [gdt_gate 0 0 0 0; gdt_gate 0 0xFFFFFFFF 0x9A 0xCF; gdt_gate 0 0xFFFFFFFF 0x92 0xCF;
             gdt_gate 0 0xFFFFFFFF 0xFA 0xCF; gdt_gate 0 0xFFFFFFFF 0xF2 0xCF; gdt_gate tss_addr 103 0x89 0]).
  set (t := set_iomap_base 104 (set_ss0 0x10 zero_tss)).
  pose proof (tss_flush_run (Arch g (TablePtr 47 gdt_addr) t it ip (TablePtr 47 gdt_addr) ir 0x08 0x10 tr) Ht ltac:(done) eq_refl) as E.
  eexists. split; [exact E|].
  split_and!; try done.
  - rewrite (segment_at_entry _ 0x28 (gdt_gate tss_addr 103 0x8B 0)) by done. by rewrite gdt_gate_segment by lia.
  - intros sel Hs. unfold segment_at. simpl. by rewrite (proj2 (Z.leb_gt _ _)) by lia.
Qed.

(** C38: the segment tables are what the rest of the kernel relies on. From any
    earlier contents, [gdt_init] and [tss_init] run without a fault; the
    processor then finds, at the selectors the kernel uses, flat 4 GiB code and
    data segments for ring 0 (0x08, 0x10) and ring 3 (0x18, 0x20), a null first
    descriptor and nothing beyond the sixth; the task register designates the
    task state at its address, whose ring-0 stack segment is the kernel's and
    whose I/O map is empty. *)
Theorem segments_correct a :
  0 <= tss_addr < 2 ^ 32 -> length (gdt a) = 6%nat ->
  exists a', (gdt_init gdt_addr ;; tss_init tss_addr) a = Ok (tt, a') /\
    gdtr a' = TablePtr 47 gdt_addr /\ seg_cs a' = 0x08 /\ seg_data a' = 0x10 /\ task_reg a' = 0x28 /\
    segment_at a' 0x00 = Some (Segment 0 0 false 0 false 0) /\
    segment_at a' 0x08 = Some (Segment 0 0xFFFFFFFF true 0 true 10) /\
    segment_at a' 0x10 = Some (Segment 0 0xFFFFFFFF true 0 true 2) /\
    segment_at a' 0x18 = Some (Segment 0 0xFFFFFFFF true 3 true 10) /\
    segment_at a' 0x20 = Some (Segment 0 0xFFFFFFFF true 3 true 2) /\
    segment_at a' 0x28 = Some (Segment tss_addr 103 true 0 false 11) /\
    (forall sel, 0x30 <= sel -> segment_at a' sel = None) /\
    ss0 (tss a') = 0x10 /\ esp0 (tss a') = 0 /\ iomap_base (tss a') = SIZEOF_TSS.
Proof. intros Ht Hl. destruct (segments_run a Ht Hl) as (a' & E & _ & _ & _ & K). by exists a'. Qed.

End segments.

Section interrupts.
Variables (idt_addr : Z) (isr irq : Z -> Z) (syscall_entry : Z).

(** Where the processor goes for a vector: the exceptions of isr.asm, the
    hardware interrupts of irq.asm, and address 0 for all others. *)
Definition vector_target (v : Z) : Z :=
  if (v =? 0) || (v =? 6) || (v =? 8) || (v =? 13) || (v =? 14) then isr v
  else if (32 <=? v) && (v <? 48) then irq (v - 32) else 0.

Definition after_gates (gs : list (Z * Z)) (v : Z) (e : idt_entry) : idt_entry :=
  fold_left (fun e '(n, base) => if n =? v then idt_gate 0x8E base else e) gs e.

Lemma set_gates_run gs a :
  Forall (fun '(n, _) => 0 <= n < 256) gs -> length (idt a) = 256%nat ->
  exists t, foldr (fun '(n, base) k => idt_set_gate n base ;; k) (mret tt) gs a = Ok (tt, set_idt t a) /\ length t = 256%nat /\
    forall v e, 0 <= v < 256 -> idt a !! Z.to_nat v = Some e -> t !! Z.to_nat v = Some (after_gates gs v e).
Proof.
  intros Hgs. revert a. induction Hgs as [|[n base] gs Hn _ IH]; intros a Hlen.
  - exists (idt a). split; [by destruct a|done].
  - set (a1 := set_idt (<[Z.to_nat (u8 n) := idt_gate 0x8E base]> (idt a)) a).
    destruct (IH a1) as (t & E & Hl & K); [simpl; by rewrite length_insert|].
    exists t. split; [exact E|]. split; [done|]. intros v e Hv He. simpl. apply K; [done|].
    simpl. unfold u8. rewrite (Z.mod_small n) by done. destruct (Z.eqb_spec n v) as [->|Hne].
    + apply list_lookup_insert_eq. rewrite Hlen. lia.
    + by rewrite list_lookup_insert_ne by lia.
Qed.

Lemma clear_idt_run a :
  length (idt a) = 256%nat ->
  exists t, for_upM 256 0 (fun i => idt_set_gate i 0) a = Ok (tt, set_idt t a) /\ length t = 256%nat /\
    forall v, 0 <= v < 256 -> t !! Z.to_nat v = Some (idt_gate 0x8E 0).
Proof.
  intros Hlen.
  destruct (for_upM_ok (fun i s => exists t, s = set_idt t a /\ length t = 256%nat /\
     forall v, 0 <= v < i -> t !! Z.to_nat v = Some (idt_gate 0x8E 0)) (fun i => idt_set_gate i 0) 256 0 a) as (s & E & t & -> & Hl & K).
  - exists (idt a). split; [by destruct a|]. split; [done|]. intros v Hv. lia.
  - intros j s Hj (t & -> & Hl & K). eexists. split; [reflexivity|]. eexists. split; [reflexivity|]. simpl.
    split; [by rewrite length_insert|]. intros v Hv. unfold u8. rewrite (Z.mod_small j) by lia.
    destruct (decide (v = j)) as [->|Hne]; [apply list_lookup_insert_eq; lia|].
    rewrite list_lookup_insert_ne by lia. apply K. lia.
  - exists t. split; [exact E|]. split; [done|]. exact K.
Qed.

Lemma after_idt_gates v e : 0 <= v < 256 -> e = idt_gate 0x8E 0 -> after_gates (idt_gates isr irq) v e = idt_gate 0x8E (vector_target v).
Proof.
  intros Hv ->. unfold after_gates, idt_gates. cbn [fold_left].
  repeat (match goal with |- context [if ?n =? v then _ else _] => destruct (Z.eqb_spec n v) as [<-|]; [reflexivity|] end).
  unfold vector_target. rewrite !(proj2 (Z.eqb_neq v _)) by lia. simpl.
  destruct ((32 <=? v) && (v <? 48)) eqn:Er; [|done].
  apply andb_prop in Er as [?%Z.leb_le ?%Z.ltb_lt]. lia.
Qed.

Abbreviation idt_reg := (TablePtr 2047 idt_addr).

Lemma idt_init_run a :
  length (idt a) = 256%nat ->
  exists t, idt_init idt_addr isr irq a = Ok (tt, set_idtr idt_reg (set_idt t (set_idtp idt_reg a))) /\ length t = 256%nat /\
    forall v, 0 <= v < 256 -> t !! Z.to_nat v = Some (idt_gate 0x8E (vector_target v)).
Proof.
  intros Hlen. destruct (clear_idt_run (set_idtp idt_reg a) Hlen) as (t1 & E1 & L1 & K1).
  destruct (set_gates_run (idt_gates isr irq) (set_idt t1 (set_idtp idt_reg a))) as (t2 & E2 & L2 & K2).
  { unfold idt_gates. repeat (apply Forall_cons; split; [lia|]). by apply Forall_nil. }
  { done. }
  exists t2. split; [|split; [done|]].
  - unfold idt_init. erewrite bind_ok; [|reflexivity]. erewrite bind_ok; [|exact E1]. by erewrite bind_ok; [|exact E2].
  - intros v Hv. by rewrite (K2 v _ Hv (K1 v Hv)), after_idt_gates.
Qed.

Lemma idt_install_run a :
  length (idt a) = 256%nat -> idtp a = idt_reg -> 0 <= syscall_entry < 2 ^ 32 -> (forall n, 0 <= isr n < 2 ^ 32) -> (forall n, 0 <= irq n < 2 ^ 32) ->
  (forall v, 0 <= v < 256 -> idt a !! Z.to_nat v = Some (idt_gate 0x8E (vector_target v))) ->
  exists a', idt_install_syscall syscall_entry a = Ok (tt, a') /\ idtr a' = idt_reg /\ gdt a' = gdt a /\ task_reg a' = task_reg a /\
    gate_at a' 0x80 = Some (Gate syscall_entry 0x08 true 3 15) /\
    forall v, 0 <= v < 256 -> v <> 0x80 -> gate_at a' v = Some (Gate (vector_target v) 0x08 true 0 14).
Proof.
  intros Hlen Hp Hs Hisr Hirq Hg. eexists. split; [reflexivity|]. split; [done|]. split; [done|]. split; [done|]. split.
  - rewrite (gate_at_entry _ 0x80 (idt_gate 0xEF syscall_entry)); [by rewrite idt_gate_gate|simpl; by rewrite Hp|].
    apply list_lookup_insert_eq. rewrite Hlen. vm_compute. lia.
  - intros v Hv Hne. rewrite (gate_at_entry _ v (idt_gate 0x8E (vector_target v))).
    + rewrite idt_gate_gate; [done| |done].
      unfold vector_target. destruct (_ || _); [apply Hisr|]. destruct (_ && _); [apply Hirq|lia].
    + simpl. rewrite Hp. simpl. lia.
    + simpl idt. rewrite list_lookup_insert_ne by (change (Z.to_nat (u8 128)) with (Z.to_nat 128); lia). by apply Hg.
Qed.

(** C39: the interrupt table routes every vector. After [idt_init] and
    [idt_install_syscall] the processor finds 256 gates into the kernel's code
    segment: the five handled exceptions and the sixteen hardware interrupts
    (vectors 32 to 47) through ring-0 interrupt gates to their stubs, vector
    0x80 through a trap gate open to ring 3 to the system call entry; and every
    other vector through a present gate to address 0, since the loop that
    clears the table marks all gates present. *)
Theorem interrupts_correct a :
  length (idt a) = 256%nat -> 0 <= syscall_entry < 2 ^ 32 -> (forall n, 0 <= isr n < 2 ^ 32) -> (forall n, 0 <= irq n < 2 ^ 32) ->
  exists a', (idt_init idt_addr isr irq ;; idt_install_syscall syscall_entry) a = Ok (tt, a') /\ idtr a' = TablePtr 2047 idt_addr /\ gdt a' = gdt a /\
    gate_at a' 0x80 = Some (Gate syscall_entry 0x08 true 3 15) /\
    forall v, 0 <= v < 256 -> v <> 0x80 -> gate_at a' v = Some (Gate (vector_target v) 0x08 true 0 14).
Proof.
  intros Hlen Hs Hisr Hirq. destruct (idt_init_run a Hlen) as (t & E & Ht & K).
  destruct (idt_install_run (set_idtr idt_reg (set_idt t (set_idtp idt_reg a))) Ht eq_refl Hs Hisr Hirq K) as (a' & E' & R & G & _ & K').
  exists a'. split; [by rewrite (bind_ok _ _ _ _ _ E)|done].
Qed.
End interrupts.

(** ** Witnesses *)

Definition demo_arch : arch :=
  Arch (replicate 6 (GdtEntry 0 0 0 0 0 0)) (TablePtr 0 0) zero_tss (replicate 256 (IdtEntry 0 0 0 0 0)) (TablePtr 0 0) (TablePtr 0 0) (TablePtr 0 0) 0 0 0.

Lemma segments_correct_witness :
  exists a', (gdt_init 0x108000 ;; tss_init 0x109000) demo_arch = Ok (tt, a') /\ task_reg a' = 0x28 /\
    segment_at a' 0x28 = Some (Segment 0x109000 103 true 0 false 11).
Proof.
  destruct (segments_correct 0x108000 0x109000 demo_arch ltac:(lia) eq_refl) as (a' & E & _ & _ & _ & T & _ & _ & _ & _ & _ & S & _).
  exists a'. split_and!; [exact E|exact T|exact S].
Defined.

Lemma interrupts_correct_witness :
  exists a', (idt_init 0x10A000 (fun n => 0x100000 + n mod 256) (fun n => 0x101000 + n mod 256) ;; idt_install_syscall 0x102000) demo_arch = Ok (tt, a') /\
    gate_at a' 33 = Some (Gate 0x101001 0x08 true 0 14) /\ gate_at a' 1 = Some (Gate 0 0x08 true 0 14).
Proof.
  destruct (interrupts_correct 0x10A000 (fun n => 0x100000 + n mod 256) (fun n => 0x101000 + n mod 256) 0x102000 demo_arch) as (a' & E & _ & _ & _ & K).
  - reflexivity.
  - lia.
  - zlia.
  - zlia.
  - exists a'. split_and!; [exact E|apply K; lia|apply K; lia].
Defined.
