(* ===== verification/Pmm.v ===== *)
(** * Physical memory manager (kernel/mm/pmm.c, include/pmm.h, include/multiboot.h)

    The frame bitmap with its counters and search pointer as a record, one
    definition per function of pmm.c, the allocator's invariant, and the
    functional behaviour of boot-time initialisation, allocation and release.
    [kprintf] calls only write to the serial line and are left out. *)

From Stdlib Require Import ZArith Lia.
From S2P Require Import Prelude.

Definition PAGE_SIZE : Z := 4096.
Definition PAGE_SHIFT : Z := 12.
Definition PMM_MAX_FRAMES : Z := Z.shiftr 0x100000000 PAGE_SHIFT.
Definition PMM_BITMAP_SIZE : Z := PMM_MAX_FRAMES / 32.
Definition ADDR_TO_FRAME (addr : Z) : Z := Z.shiftr addr PAGE_SHIFT.
Definition FRAME_TO_ADDR (frame : Z) : Z := u32 (Z.shiftl frame PAGE_SHIFT).

Definition MULTIBOOT_FLAG_MEM : Z := Z.shiftl 1 0.
Definition MULTIBOOT_FLAG_MMAP : Z := Z.shiftl 1 6.
Definition MULTIBOOT_MEMORY_AVAILABLE : Z := 1.

Record multiboot_mmap_entry_t := MmapEntry {
  me_size : Z;
  me_addr : Z;
  me_len : Z;
  me_type : Z
}.

(** The fields of [multiboot_info_t] that pmm.c reads. *)
Record multiboot_info_t := MultibootInfo {
  mb_flags : Z;
  mem_lower : Z;
  mem_upper : Z;
  mmap_length : Z;
  mmap_addr : Z
}.

(** The static variables of pmm.c. *)
Record pmm_state := PmmState {
  bitmap : gmap Z Z;
  pmm_total_frames : Z;
  pmm_used_frames : Z;
  pmm_alloc_search : Z
}.

Definition bitmap_set (s : pmm_state) (frame : Z) : pmm_state :=
  PmmState (bm_set (bitmap s) frame) (pmm_total_frames s) (pmm_used_frames s) (pmm_alloc_search s).
Definition bitmap_clear (s : pmm_state) (frame : Z) : pmm_state :=
  PmmState (bm_clear (bitmap s) frame) (pmm_total_frames s) (pmm_used_frames s) (pmm_alloc_search s).
Definition bitmap_test (s : pmm_state) (frame : Z) : bool := bm_test (bitmap s) frame.

Definition set_used (u : Z) (s : pmm_state) : pmm_state :=
  PmmState (bitmap s) (pmm_total_frames s) u (pmm_alloc_search s).
Definition set_total (t : Z) (s : pmm_state) : pmm_state :=
  PmmState (bitmap s) t (pmm_used_frames s) (pmm_alloc_search s).
Definition set_search (p : Z) (s : pmm_state) : pmm_state :=
  PmmState (bitmap s) (pmm_total_frames s) (pmm_used_frames s) p.

(** [~(uint64_t)(PAGE_SIZE - 1)] *)
Definition page_mask64 : Z := u64 (Z.lnot (PAGE_SIZE - 1)).

(** Body of the loop of [pmm_mark_region_reserved]. *)
Definition reserve_one (frame i : Z) (s : pmm_state) : pmm_state :=
  if negb (bitmap_test s (frame +w i)) then
    let s := bitmap_set s (frame +w i) in
    set_used (pmm_used_frames s +w 1) s
  else s.

Definition pmm_mark_region_reserved (base len : Z) (s : pmm_state) : pmm_state :=
  let aligned_base := Z.land (u64 (base + PAGE_SIZE - 1)) page_mask64 in
  if u64 (base + len) <? aligned_base then s else
  let aligned_len := u64 (len - u64 (aligned_base - base)) in
  let aligned_len := Z.land aligned_len page_mask64 in
  let frame := u32 (Z.shiftr aligned_base PAGE_SHIFT) in
  let count := u32 (Z.shiftr aligned_len PAGE_SHIFT) in
  for_up (Z.to_nat count) 0 (reserve_one frame) s.

(** Body of the loop of [pmm_mark_region_available]. *)
Definition release_one (frame i : Z) (s : pmm_state) : pmm_state :=
  if frame +w i =? 0 then s else
  if bitmap_test s (frame +w i) then
    let s := bitmap_clear s (frame +w i) in
    let s := set_used (pmm_used_frames s -w 1) s in
    set_total (pmm_total_frames s +w 1) s
  else s.

Definition pmm_mark_region_available (base len : Z) (s : pmm_state) : pmm_state :=
  let aligned_base := Z.land (u64 (base + PAGE_SIZE - 1)) page_mask64 in
  if u64 (base + len) <=? aligned_base then s else
  let aligned_len := Z.land (u64 (len - u64 (aligned_base - base))) page_mask64 in
  let frame := u32 (Z.shiftr aligned_base PAGE_SHIFT) in
  let count := u32 (Z.shiftr aligned_len PAGE_SHIFT) in
  for_up (Z.to_nat count) 0 (release_one frame) s.

(** One entry of GRUB's memory map (the body of the [while] loop of
    [pmm_init], without the cursor). *)
Definition pmm_init_entry (e : multiboot_mmap_entry_t) (s : pmm_state) : pmm_state :=
  if me_type e =? MULTIBOOT_MEMORY_AVAILABLE then
    if me_addr e <? 0x100000000 then
      let top := u64 (me_addr e + me_len e) in
      let top := if 0x100000000 <? top then 0x100000000 else top in
      pmm_mark_region_available (u32 (me_addr e)) (u32 (u64 (top - me_addr e))) s
    else s
  else s.

(** The [while] loop over the memory map; [entry_at a] is the packed entry
    the boot loader stored at address [a]. *)
Fixpoint pmm_init_mmap (fuel : nat) (entry_at : Z -> multiboot_mmap_entry_t)
    (entry mmap_end : Z) (s : pmm_state) : res pmm_state :=
  if entry <? mmap_end then
    match fuel with
    | O => Stop OutOfFuel
    | S fuel' =>
        let e := entry_at entry in
        pmm_init_mmap fuel' entry_at (u32 (entry + me_size e + 4)) mmap_end (pmm_init_entry e s)
    end
  else Ok s.

(** The deny-by-default bitmap [pmm_init] starts from. *)
Definition pmm_init_clear (s : pmm_state) : pmm_state :=
  PmmState
    (for_up (Z.to_nat PMM_BITMAP_SIZE) 0 (fun i m => <[i := 0xFFFFFFFF]> m) (bitmap s))
    0 (u32 PMM_MAX_FRAMES) (pmm_alloc_search s).

(** The end of [pmm_init]: the kernel image and frame 0 are reserved. *)
Definition pmm_init_reserve (kernel_phys_start kernel_phys_end : Z) (s : pmm_state) : pmm_state :=
  let s := pmm_mark_region_reserved kernel_phys_start (kernel_phys_end -w kernel_phys_start) s in
  if negb (bitmap_test s 0) then
    let s := bitmap_set s 0 in set_used (pmm_used_frames s +w 1) s
  else s.

Definition pmm_init (fuel : nat) (mbi : multiboot_info_t)
    (entry_at : Z -> multiboot_mmap_entry_t)
    (kernel_phys_start kernel_phys_end : Z) (s : pmm_state) : res pmm_state :=
  let s := pmm_init_clear s in
  let r :=
    if negb (truthy (Z.land (mb_flags mbi) MULTIBOOT_FLAG_MMAP)) then
      if truthy (Z.land (mb_flags mbi) MULTIBOOT_FLAG_MEM) then
        let mem_bytes := u64 (mem_upper mbi * 1024) in
        Ok (pmm_mark_region_available 0x100000 mem_bytes s)
      else Ok s
    else
      pmm_init_mmap fuel entry_at (mmap_addr mbi) (mmap_addr mbi +w mmap_length mbi) s in
  match r with
  | Ok s => Ok (pmm_init_reserve kernel_phys_start kernel_phys_end s)
  | Stop f => Stop f
  end.

(** The inner loop of [pmm_alloc_frame]: the first free frame of word [w]
    inside [start, end). *)
Definition scan_bits (s : pmm_state) (start end_ w : Z) : option Z :=
  match find_up 32 0 (fun bit =>
    let frame := w *w 32 +w bit in
    if frame =? 0 then false else
    if (frame <? start) || (end_ <=? frame) then false else
    negb (bitmap_test s frame))
  with
  | Some bit => Some (w *w 32 +w bit)
  | None => None
  end.

(** The loop over bitmap words, skipping fully used words. *)
Fixpoint scan_words (s : pmm_state) (start end_ : Z) (n : nat) (w : Z) : option Z :=
  match n with
  | O => None
  | S n' =>
      if rd (bitmap s) w =? 0xFFFFFFFF then scan_words s start end_ n' (w + 1) else
      match scan_bits s start end_ w with
      | Some frame => Some frame
      | None => scan_words s start end_ n' (w + 1)
      end
  end.

(** One pass of the two-pass search. *)
Definition scan_pass (s : pmm_state) (start end_ : Z) : option Z :=
  let word_start := start / 32 in
  let word_end := (end_ +w 31) / 32 in
  scan_words s start end_ (Z.to_nat (word_end - word_start)) word_start.

(** Take the frame that was found. *)
Definition take_frame (s : pmm_state) (frame : Z) : Z * pmm_state :=
  let s := bitmap_set s frame in
  let s := set_used (pmm_used_frames s +w 1) s in
  let s := set_search (frame +w 1) s in
  let s := if PMM_MAX_FRAMES <=? pmm_alloc_search s then set_search 1 s else s in
  (FRAME_TO_ADDR frame, s).

Definition pmm_alloc_frame (s : pmm_state) : Z * pmm_state :=
  if pmm_total_frames s =? 0 then (0, s) else
  match scan_pass s (pmm_alloc_search s) PMM_MAX_FRAMES with
  | Some frame => take_frame s frame
  | None =>
      match scan_pass s 1 (pmm_alloc_search s) with
      | Some frame => take_frame s frame
      | None => (0, s)
      end
  end.

Definition pmm_free_frame (phys_addr : Z) (s : pmm_state) : pmm_state :=
  let frame := ADDR_TO_FRAME phys_addr in
  if frame =? 0 then s else
  if negb (bitmap_test s frame) then s else
  let s := bitmap_clear s frame in
  let s := set_used (pmm_used_frames s -w 1) s in
  if frame <? pmm_alloc_search s then set_search frame s else s.

Definition pmm_get_total_frames (s : pmm_state) : Z := pmm_total_frames s.
Definition pmm_get_used_frames (s : pmm_state) : Z := pmm_used_frames s.
Definition pmm_get_free_frames (s : pmm_state) : Z := pmm_total_frames s -w pmm_used_frames s.

(** ** Specification vocabulary *)

(** Number of frames, as a loop bound. *)
Definition NFRAMES : nat := Z.to_nat PMM_MAX_FRAMES.

Definition is_frame (f : Z) : Prop := 0 <= f < PMM_MAX_FRAMES.

(** A frame the allocator may hand out. *)
Definition frame_free (s : pmm_state) (f : Z) : Prop := is_frame f /\ bitmap_test s f = false.

(** The reference search: the first free frame of [lo, hi). *)
Definition first_free (s : pmm_state) (lo hi : Z) : option Z :=
  find_up (Z.to_nat (hi - lo)) lo (fun f => negb (bitmap_test s f)).

(** The allocator's invariant: the words are 32-bit and inside the array,
    the usage counter is the number of set bits, frame 0 is never free, and
    the search pointer is a frame other than 0. *)
Record pmm_inv (s : pmm_state) : Prop := {
  inv_words : words32 (bitmap s);
  inv_dom : forall k, ~ (0 <= k < PMM_BITMAP_SIZE) -> bitmap s !! k = None;
  inv_used : pmm_used_frames s = count_up NFRAMES 0 (bitmap_test s);
  inv_zero : bitmap_test s 0 = true;
  inv_search : 1 <= pmm_alloc_search s < PMM_MAX_FRAMES;
  inv_total : 0 <= pmm_total_frames s <= PMM_MAX_FRAMES
}.

Lemma MAX_FRAMES_val : PMM_MAX_FRAMES = 1048576.
Proof. reflexivity. Qed.
Lemma BITMAP_SIZE_val : PMM_BITMAP_SIZE = 32768.
Proof. reflexivity. Qed.
Lemma of_nat_NFRAMES : Z.of_nat NFRAMES = 1048576.
Proof. unfold NFRAMES. rewrite Z2Nat.id, MAX_FRAMES_val; done. Qed.
#[local] Opaque NFRAMES PMM_MAX_FRAMES PMM_BITMAP_SIZE.

Ltac pmm_consts :=
  unfold is_frame in *; rewrite ?of_nat_NFRAMES, ?MAX_FRAMES_val, ?BITMAP_SIZE_val in *.

(** ** The word-skipping search is the linear search *)

Lemma scan_bits_spec s start end_ w :
  0 <= w < 32768 ->
  match scan_bits s start end_ w with
  | Some f => 32 * w <= f < 32 * w + 32 /\ start <= f < end_ /\ f <> 0 /\ bitmap_test s f = false
              /\ (forall g, 32 * w <= g < f -> start <= g < end_ -> g <> 0 -> bitmap_test s g = true)
  | None => forall g, 32 * w <= g < 32 * w + 32 -> start <= g < end_ -> g <> 0 -> bitmap_test s g = true
  end.
Proof.
  intros Hw. unfold scan_bits.
  assert (Hf : forall b, 0 <= b < 32 -> w *w 32 +w b = 32 * w + b).
  { intros b Hb. rewrite (u32_small (w * 32)) by lia. rewrite u32_small; lia. }
  assert (Hout : forall g b, g = 32 * w + b -> 0 <= b < 32 -> start <= g < end_ -> g <> 0 ->
     (let frame := w *w 32 +w b in if frame =? 0 then false else
      if (frame <? start) || (end_ <=? frame) then false else negb (bitmap_test s frame)) = false ->
     bitmap_test s g = true).
  { intros g b -> Hb Hr Hz. cbn zeta. rewrite Hf by done. zbool; try lia.
    by destruct (bitmap_test s _). }
  destruct (find_up _ _ _) as [b|] eqn:E.
  - apply find_up_Some in E as (Hb & Hp & Hlow). simpl in Hb. cbn zeta in Hp.
    rewrite Hf in Hp by lia. rewrite Hf by lia.
    assert (32 * w + b <> 0 /\ start <= 32 * w + b < end_ /\ bitmap_test s (32 * w + b) = false)
      as (Hnz & Hr & Ht) by (zbool; repeat split; try lia; by destruct (bitmap_test s _)).
    repeat split; try lia; try done.
    intros g Hg Hgr Hgz. apply (Hout g (g - 32 * w)); try lia. apply Hlow. lia.
  - intros g Hg Hr Hz. pose proof (proj1 (find_up_None _ _ _) E (g - 32 * w)) as H.
    simpl in H. apply (Hout g (g - 32 * w)); try lia. apply H. lia.
Qed.

Lemma scan_words_spec s start end_ n w :
  0 <= w -> w + Z.of_nat n <= 32768 ->
  match scan_words s start end_ n w with
  | Some f => start <= f < end_ /\ bitmap_test s f = false
              /\ (forall g, 32 * w <= g < f -> start <= g < end_ -> g <> 0 -> bitmap_test s g = true)
              /\ 32 * w <= f
  | None => forall g, 32 * w <= g < 32 * (w + Z.of_nat n) -> start <= g < end_ -> g <> 0 ->
              bitmap_test s g = true
  end.
Proof.
  revert w. induction n as [|n IH]; intros w Hw Hn; simpl; [lia|].
  specialize (IH (w + 1) ltac:(lia) ltac:(lia)).
  destruct (Z.eqb_spec (rd (bitmap s) w) 0xFFFFFFFF) as [Hfull|_].
  - assert (Hall : forall g, 32 * w <= g < 32 * w + 32 -> bitmap_test s g = true).
    { intros g Hg. apply bm_full_word; [lia|]. replace (g / 32) with w by zlia. done. }
    destruct (scan_words _ _ _ _ _) as [f|].
    + destruct IH as (Hr & Hf & Hlow & Hge). repeat split; try lia; try done.
      intros g Hg. destruct (Z.lt_ge_cases g (32 * w + 32)); [intros; apply Hall; lia|].
      apply Hlow. lia.
    + intros g Hg. destruct (Z.lt_ge_cases g (32 * w + 32)); [intros; apply Hall; lia|].
      apply IH. lia.
  - pose proof (scan_bits_spec s start end_ w ltac:(lia)) as Hb.
    destruct (scan_bits _ _ _ _) as [f|].
    { destruct Hb as (? & ? & ? & ? & ?). repeat split; try lia; done. }
    destruct (scan_words _ _ _ _ _) as [f|].
    + destruct IH as (Hr & Hf & Hlow & Hge). repeat split; try lia; try done.
      intros g Hg. destruct (Z.lt_ge_cases g (32 * w + 32)); [apply Hb; lia|apply Hlow; lia].
    + intros g Hg. destruct (Z.lt_ge_cases g (32 * w + 32)); [apply Hb; lia|apply IH; lia].
Qed.

Lemma scan_pass_first_free s start end_ :
  1 <= start -> end_ <= PMM_MAX_FRAMES -> start <= end_ ->
  scan_pass s start end_ = first_free s start end_.
Proof.
  pmm_consts. intros Hs He Hle. unfold scan_pass, first_free.
  rewrite (u32_small (end_ + 31)) by lia.
  pose proof (scan_words_spec s start end_ (Z.to_nat ((end_ + 31) / 32 - start / 32)) (start / 32)
                ltac:(zlia) ltac:(zlia)) as Hsp.
  destruct (scan_words _ _ _ _ _) as [f|].
  - symmetry. apply find_up_Some. destruct Hsp as (Hr & Hf & Hlow & _).
    repeat split; [lia|lia|by rewrite Hf|]. intros k Hk. rewrite Hlow; [done| |lia|lia].
    split; [zlia|lia].
  - symmetry. apply find_up_None. intros k Hk. rewrite Hsp; [done| |lia|lia]. zlia.
Qed.

(** ** Allocation *)

Lemma first_free_Some s lo hi f :
  first_free s lo hi = Some f <->
  lo <= f < hi /\ bitmap_test s f = false /\ (forall g, lo <= g < f -> bitmap_test s g = true).
Proof.
  unfold first_free. rewrite find_up_Some. split.
  - intros (Hr & Hf & Hlow). repeat split; try lia; [by destruct (bitmap_test s f)|].
    intros g Hg. specialize (Hlow g Hg). by destruct (bitmap_test s g).
  - intros (Hr & Hf & Hlow). repeat split; try lia; [by rewrite Hf|].
    intros g Hg. by rewrite Hlow.
Qed.

Lemma first_free_None s lo hi :
  first_free s lo hi = None <-> (forall g, lo <= g < hi -> bitmap_test s g = true).
Proof.
  unfold first_free. rewrite find_up_None. split; intros H g Hg.
  - specialize (H g ltac:(lia)). by destruct (bitmap_test s g).
  - by rewrite H by lia.
Qed.

(** The allocator is next-fit from the search pointer, wrapping to frame 1. *)
Lemma pmm_alloc_frame_next_fit s :
  pmm_inv s ->
  pmm_alloc_frame s =
    if pmm_total_frames s =? 0 then (0, s) else
    match first_free s (pmm_alloc_search s) PMM_MAX_FRAMES with
    | Some f => take_frame s f
    | None => match first_free s 1 (pmm_alloc_search s) with
              | Some f => take_frame s f
              | None => (0, s)
              end
    end.
Proof.
  intros Hinv. pose proof (inv_search _ Hinv). unfold pmm_alloc_frame.
  rewrite !scan_pass_first_free by (pmm_consts; lia). done.
Qed.

Lemma frame_to_addr f : is_frame f -> FRAME_TO_ADDR f = f * PAGE_SIZE.
Proof.
  pmm_consts. intros. unfold FRAME_TO_ADDR, PAGE_SIZE, PAGE_SHIFT.
  rewrite Z.shiftl_mul_pow2 by lia. apply u32_small. lia.
Qed.

Lemma addr_to_frame a : ADDR_TO_FRAME a = a / PAGE_SIZE.
Proof. unfold ADDR_TO_FRAME, PAGE_SHIFT. by rewrite Z.shiftr_div_pow2 by lia. Qed.

Lemma addr_frame_roundtrip f : is_frame f -> ADDR_TO_FRAME (FRAME_TO_ADDR f) = f.
Proof.
  intros. rewrite frame_to_addr, addr_to_frame by done. apply Z.div_mul. done.
Qed.

(** The effect of setting or clearing a frame's bit. *)
Lemma test_set s f g :
  bitmap_test (bitmap_set s f) g = if decide (f = g) then true else bitmap_test s g.
Proof. apply bm_test_set. Qed.
Lemma test_clear s f g :
  bitmap_test (bitmap_clear s f) g = if decide (f = g) then false else bitmap_test s g.
Proof. apply bm_test_clear. Qed.
Lemma test_set_used s u g : bitmap_test (set_used u s) g = bitmap_test s g.
Proof. done. Qed.
Lemma test_set_search s p g : bitmap_test (set_search p s) g = bitmap_test s g.
Proof. done. Qed.
Lemma test_set_total s t g : bitmap_test (set_total t s) g = bitmap_test s g.
Proof. done. Qed.
#[export] Hint Rewrite test_set test_clear test_set_used test_set_search test_set_total : orion_rw.

Lemma frame_word f : is_frame f -> 0 <= f / 32 < PMM_BITMAP_SIZE.
Proof. pmm_consts. zlia. Qed.

Lemma test_true_frame s f : pmm_inv s -> bitmap_test s f = true -> is_frame f.
Proof.
  intros Hinv Ht. unfold bitmap_test in Ht. rewrite bm_test_bit in Ht. unfold rd in Ht.
  destruct (decide (0 <= f / 32 < PMM_BITMAP_SIZE)) as [Hd|Hd].
  - pmm_consts. zlia.
  - rewrite (inv_dom _ Hinv) in Ht by done. simpl in Ht. by rewrite Z.bits_0 in Ht.
Qed.

Lemma count_set s f :
  is_frame f -> bitmap_test s f = false ->
  count_up NFRAMES 0 (bitmap_test (bitmap_set s f)) = count_up NFRAMES 0 (bitmap_test s) + 1.
Proof.
  intros Hf Ht. apply count_up_update with f; pmm_consts; try lia; try done.
  - intros k _ Hk. rewrite test_set. case_decide; congruence.
  - rewrite test_set. by case_decide.
Qed.

Lemma count_clear s f :
  is_frame f -> bitmap_test s f = true ->
  count_up NFRAMES 0 (bitmap_test (bitmap_clear s f)) = count_up NFRAMES 0 (bitmap_test s) - 1.
Proof.
  intros Hf Ht.
  enough (count_up NFRAMES 0 (bitmap_test s)
          = count_up NFRAMES 0 (bitmap_test (bitmap_clear s f)) + 1) by lia.
  apply count_up_update with f; pmm_consts; try lia; try done.
  - intros k _ Hk. rewrite test_clear. case_decide; congruence.
  - rewrite test_clear. by case_decide.
Qed.

Lemma inv_set_bit s f u p :
  pmm_inv s -> is_frame f -> bitmap_test s f = false ->
  u = pmm_used_frames s + 1 -> 1 <= p < PMM_MAX_FRAMES ->
  pmm_inv (set_search p (set_used u (bitmap_set s f))).
Proof.
  intros [Hw Hd Hu Hz Hs Ht] Hf Htest -> Hp. split; simpl; auto with orion.
  - intros k Hk. unfold bm_set. pose proof (frame_word f Hf).
    rewrite lookup_insert_ne by (intros <-; done). auto.
  - change (bitmap_test (set_search _ _)) with (bitmap_test (bitmap_set s f)).
    rewrite count_set by done. by rewrite Hu.
  - autorewrite with orion_rw. by case_decide.
Qed.

Lemma inv_clear_bit s f u p t :
  pmm_inv s -> is_frame f -> f <> 0 -> bitmap_test s f = true ->
  u = pmm_used_frames s - 1 -> 1 <= p < PMM_MAX_FRAMES -> 0 <= t <= PMM_MAX_FRAMES ->
  pmm_inv (set_search p (set_total t (set_used u (bitmap_clear s f)))).
Proof.
  intros [Hw Hd Hu Hz Hs Ht] Hf Hnz Htest -> Hp Htt. split; simpl; auto with orion.
  - intros k Hk. unfold bm_clear. pose proof (frame_word f Hf).
    rewrite lookup_insert_ne by (intros <-; done). auto.
  - change (bitmap_test (set_search _ _)) with (bitmap_test (bitmap_clear s f)).
    rewrite count_clear by done. by rewrite Hu.
  - autorewrite with orion_rw. by case_decide.
Qed.

Lemma used_range s : pmm_inv s -> 0 <= pmm_used_frames s <= PMM_MAX_FRAMES.
Proof.
  intros Hinv. rewrite (inv_used _ Hinv). pose proof (count_up_range NFRAMES 0 (bitmap_test s)).
  pmm_consts. lia.
Qed.

(** The outcome of taking a free frame. *)
Lemma take_frame_spec s f :
  pmm_inv s -> 1 <= f < PMM_MAX_FRAMES -> bitmap_test s f = false ->
  exists s', take_frame s f = (f * PAGE_SIZE, s') /\ pmm_inv s' /\
    (forall g, bitmap_test s' g = if decide (f = g) then true else bitmap_test s g) /\
    pmm_used_frames s' = pmm_used_frames s + 1 /\
    pmm_total_frames s' = pmm_total_frames s /\
    pmm_alloc_search s' = if decide (f + 1 < PMM_MAX_FRAMES) then f + 1 else 1.
Proof.
  intros Hinv Hf Ht. pose proof (used_range s Hinv).
  unfold take_frame. rewrite frame_to_addr by (pmm_consts; lia). eexists. split; [done|].
  cbn [pmm_used_frames pmm_alloc_search bitmap_set set_used set_search].
  rewrite !u32_small by (pmm_consts; lia).
  destruct (Z.leb_spec PMM_MAX_FRAMES (f + 1)).
  - split_and!; [apply inv_set_bit; try done; pmm_consts; lia | | done | done | ].
    + intros g. by autorewrite with orion_rw.
    + simpl. rewrite decide_False by lia. done.
  - split_and!; [apply inv_set_bit; try done; pmm_consts; lia | | done | done | ].
    + intros g. by autorewrite with orion_rw.
    + simpl. rewrite decide_True by lia. done.
Qed.

(** Allocation, on every branch. *)
Lemma pmm_alloc_frame_cases s a s' :
  pmm_inv s -> pmm_alloc_frame s = (a, s') ->
  (exists f, 1 <= f /\ frame_free s f /\ a = f * PAGE_SIZE /\ pmm_inv s' /\
     (forall g, bitmap_test s' g = if decide (f = g) then true else bitmap_test s g) /\
     pmm_used_frames s' = pmm_used_frames s + 1 /\ pmm_total_frames s' = pmm_total_frames s /\
     (pmm_alloc_search s <= f \/ forall g, pmm_alloc_search s <= g < PMM_MAX_FRAMES -> bitmap_test s g = true))
  \/ (a = 0 /\ s' = s /\ (pmm_total_frames s = 0 \/ forall f, ~ frame_free s f)).
Proof.
  intros Hinv. rewrite pmm_alloc_frame_next_fit by done. pose proof (inv_search _ Hinv) as Hse.
  destruct (Z.eqb_spec (pmm_total_frames s) 0) as [Ht|_]; [intros [= <- <-]; eauto|].
  destruct (first_free _ _ PMM_MAX_FRAMES) as [f|] eqn:E1.
  { apply first_free_Some in E1 as (Hr & Hf & _). left.
    destruct (take_frame_spec s f Hinv ltac:(lia) Hf) as (s1 & Heq & ? & ? & ? & ? & _).
    rewrite Heq in H. injection H as <- <-. exists f. unfold frame_free, is_frame.
    split_and!; try done; try lia. }
  pose proof (proj1 (first_free_None _ _ _) E1) as Hhi.
  destruct (first_free s 1 _) as [f|] eqn:E2.
  { apply first_free_Some in E2 as (Hr & Hf & _). left.
    destruct (take_frame_spec s f Hinv ltac:(lia) Hf) as (s1 & Heq & ? & ? & ? & ? & _).
    rewrite Heq in H. injection H as <- <-. exists f. unfold frame_free, is_frame.
    split_and!; try done; try lia. by right. }
  intros [= <- <-]. right. split_and!; [done..|right]. intros f [Hr Hf].
  pose proof (proj1 (first_free_None _ _ _) E2) as Hlo. pmm_consts.
  destruct (decide (f = 0)) as [->|]; [rewrite (inv_zero _ Hinv) in Hf; done|].
  destruct (Z.lt_ge_cases f (pmm_alloc_search s)).
  - rewrite Hlo in Hf by lia. done.
  - rewrite Hhi in Hf by lia. done.
Qed.

(** ** Release *)

Lemma pmm_free_frame_cases s addr f :
  pmm_inv s -> 0 <= addr < 2 ^ 32 -> f = ADDR_TO_FRAME addr ->
  let s' := pmm_free_frame addr s in
  (f = 0 \/ bitmap_test s f = false) /\ s' = s \/
  f <> 0 /\ bitmap_test s f = true /\ pmm_inv s' /\
    (forall g, bitmap_test s' g = if decide (f = g) then false else bitmap_test s g) /\
    pmm_used_frames s' = pmm_used_frames s - 1 /\
    pmm_total_frames s' = pmm_total_frames s /\
    pmm_alloc_search s' = Z.min f (pmm_alloc_search s).
Proof.
  intros Hinv Ha -> s'. subst s'. unfold pmm_free_frame.
  assert (Hf : is_frame (ADDR_TO_FRAME addr)).
  { rewrite addr_to_frame. unfold PAGE_SIZE. pmm_consts. zlia. }
  set (f := ADDR_TO_FRAME addr) in *.
  destruct (Z.eqb_spec f 0) as [|Hnz]; [by left; auto|].
  destruct (bitmap_test s f) eqn:Ht; simpl; [|by left; auto]. right.
  assert (0 < pmm_used_frames s <= PMM_MAX_FRAMES) as Hu.
  { split; [|apply used_range; done]. rewrite (inv_used _ Hinv).
    apply count_up_pos with f; pmm_consts; [lia|done]. }
  rewrite u32_small by (pmm_consts; lia). pose proof (inv_search _ Hinv).
  assert (Hgen : forall p, 1 <= p < PMM_MAX_FRAMES ->
    pmm_inv (set_search p (set_used (pmm_used_frames s - 1) (bitmap_clear s f)))).
  { intros p Hp. apply (inv_clear_bit s f (pmm_used_frames s - 1) p (pmm_total_frames s)); try done.
    apply (inv_total _ Hinv). }
  destruct (Z.ltb_spec f (pmm_alloc_search s)); simpl; split_and!; try done; try lia.
  - apply Hgen. pmm_consts. lia.
  - intros g. by autorewrite with orion_rw.
  - by apply (Hgen (pmm_alloc_search s)).
  - intros g. by autorewrite with orion_rw.
Qed.

(** ** Boot-time initialisation *)

(** Frame [g] lies wholly inside the byte range [base, base + len). *)
Definition frame_inside (base len g : Z) : Prop :=
  base <= g * PAGE_SIZE /\ g * PAGE_SIZE + PAGE_SIZE <= base + len.

#[export] Instance frame_inside_dec base len g : Decision (frame_inside base len g).
Proof. unfold frame_inside. apply _. Defined.

Lemma page_mask64_round x : 0 <= x < 2 ^ 64 -> Z.land x page_mask64 = x - x mod PAGE_SIZE.
Proof. intros. change page_mask64 with (2 ^ 64 - 2 ^ 12). by apply (land_round_down 64 12). Qed.

(** The frame range the two marking functions compute. *)
Lemma region_frames base len :
  0 <= base -> 0 <= len -> base + len <= 2 ^ 32 ->
  let ab := Z.land (u64 (base + PAGE_SIZE - 1)) page_mask64 in
  let al := Z.land (u64 (len - u64 (ab - base))) page_mask64 in
  ab = (base + 4095) / 4096 * 4096 /\ u64 (base + len) = base + len /\
  (ab <= base + len ->
   u32 (Z.shiftr ab PAGE_SHIFT) = (base + 4095) / 4096 /\
   u32 (Z.shiftr al PAGE_SHIFT) = (base + len) / 4096 - (base + 4095) / 4096).
Proof.
  intros Hb Hl Hs ab al.
  assert (Hab : ab = (base + 4095) / 4096 * 4096).
  { unfold ab, PAGE_SIZE. rewrite page_mask64_round, u64_small by (apply u64_range || zlia).
    unfold PAGE_SIZE. zlia. }
  split_and!; [done|apply u64_small; zlia|]. intros Hle. unfold PAGE_SHIFT.
  assert (Hal : al = len - (ab - base) - (len - (ab - base)) mod 4096).
  { unfold al. rewrite (u64_small (ab - base)) by zlia.
    rewrite page_mask64_round, u64_small by (apply u64_range || zlia). done. }
  rewrite !Z.shiftr_div_pow2 by done. change (2 ^ 12) with 4096.
  rewrite Hal, Hab, Z.div_mul by done. rewrite Hab in Hle.
  split; rewrite u32_small; zlia.
Qed.

Lemma frame_inside_iff base len g :
  0 <= base -> 0 <= len ->
  frame_inside base len g <-> (base + 4095) / 4096 <= g < (base + len) / 4096.
Proof. intros. unfold frame_inside, PAGE_SIZE. zlia. Qed.

(** Frame counts while regions are marked available at boot. *)
Record pmm_boot_inv (s : pmm_state) : Prop := {
  boot_inv : pmm_inv s;
  boot_sum : pmm_total_frames s + pmm_used_frames s = PMM_MAX_FRAMES
}.

Lemma release_one_spec frame i s :
  pmm_boot_inv s -> 0 <= frame -> 0 <= i -> is_frame (frame + i) ->
  pmm_boot_inv (release_one frame i s) /\
  pmm_alloc_search (release_one frame i s) = pmm_alloc_search s /\
  forall g, bitmap_test (release_one frame i s) g =
    if decide (g = frame + i /\ g <> 0) then false else bitmap_test s g.
Proof.
  intros [Hinv Hsum] Hfr Hi Hf. unfold release_one.
  rewrite u32_small by (pmm_consts; lia).
  destruct (Z.eqb_spec (frame + i) 0) as [Hz|Hnz].
  { split_and!; [done..|]. intros g. case_decide; [lia|done]. }
  destruct (bitmap_test s (frame + i)) eqn:Ht.
  - assert (0 < pmm_used_frames s <= PMM_MAX_FRAMES).
    { split; [|by apply used_range]. rewrite (inv_used _ Hinv).
      apply count_up_pos with (frame + i); pmm_consts; [lia|done]. }
    cbn [pmm_used_frames pmm_total_frames set_used set_total bitmap_clear].
    rewrite !u32_small by (pmm_consts; lia). split_and!.
    + split; simpl; [|lia].
      apply (inv_clear_bit s (frame + i) (pmm_used_frames s - 1) (pmm_alloc_search s)
               (pmm_total_frames s + 1)); try done.
      * apply Hinv.
      * pose proof (inv_total _ Hinv). pmm_consts. lia.
    + done.
    + intros g. autorewrite with orion_rw. repeat case_decide; subst; intuition (congruence || lia).
  - split_and!; [done..|]. intros g. case_decide as Hd; [|done]. by destruct Hd as [-> _].
Qed.

Lemma reserve_one_spec frame i s :
  pmm_inv s -> 0 <= frame -> 0 <= i -> is_frame (frame + i) ->
  pmm_inv (reserve_one frame i s) /\
  pmm_alloc_search (reserve_one frame i s) = pmm_alloc_search s /\
  pmm_total_frames (reserve_one frame i s) = pmm_total_frames s /\
  forall g, bitmap_test (reserve_one frame i s) g =
    if decide (g = frame + i) then true else bitmap_test s g.
Proof.
  intros Hinv Hfr Hi Hf. unfold reserve_one.
  rewrite u32_small by (pmm_consts; lia).
  destruct (bitmap_test s (frame + i)) eqn:Ht; simpl.
  - split_and!; [done..|]. intros g. case_decide; [by subst|done].
  - pose proof (used_range s Hinv).
    rewrite u32_small by (pmm_consts; lia). split_and!; try done.
    + apply (inv_set_bit s (frame + i) (pmm_used_frames s + 1) (pmm_alloc_search s)); try done. apply Hinv.
    + intros g. autorewrite with orion_rw. repeat case_decide; subst; intuition (congruence || lia).
Qed.

Lemma mark_available_spec base len s :
  pmm_boot_inv s -> 0 <= base -> 0 <= len -> base + len <= 2 ^ 32 ->
  let s' := pmm_mark_region_available base len s in
  pmm_boot_inv s' /\ pmm_alloc_search s' = pmm_alloc_search s /\
  forall g, bitmap_test s' g =
    if decide (frame_inside base len g /\ g <> 0) then false else bitmap_test s g.
Proof.
  intros Hboot Hb Hl Hs s'. subst s'. unfold pmm_mark_region_available.
  destruct (region_frames base len Hb Hl Hs) as (Hab & Hsum & Hcnt).
  set (ab := Z.land _ page_mask64) in *. rewrite Hsum.
  destruct (Z.leb_spec (base + len) ab) as [Hle|Hgt].
  { split_and!; [done..|]. intros g. rewrite decide_False; [done|].
    rewrite frame_inside_iff by lia. zlia. }
  destruct (Hcnt ltac:(lia)) as [-> ->]. set (fr := (base + 4095) / 4096) in *.
  set (cnt := (base + len) / 4096 - fr).
  assert (0 <= fr /\ 0 <= cnt /\ fr + cnt <= 1048576) by (subst fr cnt; zlia).
  assert (Hloop : forall k, Z.of_nat k <= cnt ->
    let s' := for_up k 0 (release_one fr) s in
    pmm_boot_inv s' /\ pmm_alloc_search s' = pmm_alloc_search s /\
    forall g, bitmap_test s' g =
      if decide (fr <= g < fr + Z.of_nat k /\ g <> 0) then false else bitmap_test s g).
  { intros k Hk.
    pose (P := fun j s' => pmm_boot_inv s' /\ pmm_alloc_search s' = pmm_alloc_search s /\
      forall g, bitmap_test s' g =
        if decide (fr <= g < fr + j /\ g <> 0) then false else bitmap_test s g).
    apply (for_up0_ind P (release_one fr) k); subst P; cbv beta.
    - split_and!; [done..|]. intros g. rewrite decide_False by lia. done.
    - intros j s1 Hj (Hb1 & Hs1 & Ht1).
      destruct (release_one_spec fr j s1) as (Hb2 & Hs2 & Ht2); try done; try lia.
      { pmm_consts. lia. }
      split_and!; [done|congruence|]. intros g. rewrite Ht2, Ht1.
      repeat case_decide; try done; lia. }
  destruct (Hloop (Z.to_nat cnt) ltac:(lia)) as (H1 & H2 & H3). split_and!; [done..|].
  intros g. rewrite H3. apply decide_ext. rewrite frame_inside_iff by lia.
  rewrite Z2Nat.id by lia. subst cnt. lia.
Qed.

Lemma mark_reserved_spec base len s :
  pmm_inv s -> 0 <= base -> 0 <= len -> base + len <= 2 ^ 32 ->
  let s' := pmm_mark_region_reserved base len s in
  pmm_inv s' /\ pmm_alloc_search s' = pmm_alloc_search s /\
  pmm_total_frames s' = pmm_total_frames s /\
  forall g, bitmap_test s' g = if decide (frame_inside base len g) then true else bitmap_test s g.
Proof.
  intros Hinv Hb Hl Hs s'. subst s'. unfold pmm_mark_region_reserved.
  destruct (region_frames base len Hb Hl Hs) as (Hab & Hsum & Hcnt).
  set (ab := Z.land _ page_mask64) in *. rewrite Hsum.
  destruct (Z.ltb_spec (base + len) ab) as [Hle|Hgt].
  { split_and!; [done..|]. intros g. rewrite decide_False; [done|].
    rewrite frame_inside_iff by lia. zlia. }
  destruct (Hcnt ltac:(lia)) as [-> ->]. set (fr := (base + 4095) / 4096) in *.
  set (cnt := (base + len) / 4096 - fr).
  assert (0 <= fr /\ 0 <= cnt /\ fr + cnt <= 1048576) by (subst fr cnt; zlia).
  assert (Hloop : forall k, Z.of_nat k <= cnt ->
    let s' := for_up k 0 (reserve_one fr) s in
    pmm_inv s' /\ pmm_alloc_search s' = pmm_alloc_search s /\
    pmm_total_frames s' = pmm_total_frames s /\
    forall g, bitmap_test s' g =
      if decide (fr <= g < fr + Z.of_nat k) then true else bitmap_test s g).
  { intros k Hk.
    pose (P := fun j s' => pmm_inv s' /\ pmm_alloc_search s' = pmm_alloc_search s /\
      pmm_total_frames s' = pmm_total_frames s /\
      forall g, bitmap_test s' g =
        if decide (fr <= g < fr + j) then true else bitmap_test s g).
    apply (for_up0_ind P (reserve_one fr) k); subst P; cbv beta.
    - split_and!; [done..|]. intros g. rewrite decide_False by lia. done.
    - intros j s1 Hj (Hb1 & Hs1 & Htt & Ht1).
      destruct (reserve_one_spec fr j s1) as (Hb2 & Hs2 & Htt2 & Ht2); try done; try lia.
      { pmm_consts. lia. }
      split_and!; [done|congruence|congruence|]. intros g. rewrite Ht2, Ht1.
      repeat case_decide; try done; lia. }
  destruct (Hloop (Z.to_nat cnt) ltac:(lia)) as (H1 & H2 & H3 & H4). split_and!; [done..|].
  intros g. rewrite H4. apply decide_ext. rewrite frame_inside_iff by lia.
  rewrite Z2Nat.id by lia. subst cnt. lia.
Qed.

(** What the code relies on in a memory-map entry: the range does not wrap
    at 2^64. *)
Definition entry_ok (e : multiboot_mmap_entry_t) : Prop :=
  0 <= me_size e /\ 0 <= me_addr e /\ 0 <= me_len e /\ me_addr e + me_len e < 2 ^ 64.

(** The entry is the whole 4 GiB, whose length is truncated to 0. *)
Definition whole_space (e : multiboot_mmap_entry_t) : Prop := me_addr e = 0 /\ 2 ^ 32 <= me_len e.

(** Frame [f] lies wholly in available memory below 4 GiB of entry [e], which
    is not the whole 4 GiB. *)
Definition entry_covers (e : multiboot_mmap_entry_t) (f : Z) : Prop :=
  me_type e = MULTIBOOT_MEMORY_AVAILABLE /\ me_addr e < 2 ^ 32 /\ ~ whole_space e /\
  frame_inside (me_addr e) (me_len e) f /\ is_frame f.

#[export] Instance entry_covers_dec e f : Decision (entry_covers e f).
Proof. unfold entry_covers, whole_space, is_frame. apply _. Defined.

Lemma init_entry_spec e s :
  pmm_boot_inv s -> entry_ok e ->
  let s' := pmm_init_entry e s in
  pmm_boot_inv s' /\ pmm_alloc_search s' = pmm_alloc_search s /\
  forall g, is_frame g -> bitmap_test s' g =
    if decide (entry_covers e g /\ g <> 0) then false else bitmap_test s g.
Proof.
  intros Hboot (Hsz & Ha & Hl & Hw) s'. subst s'. unfold pmm_init_entry, entry_covers, whole_space.
  destruct (Z.eqb_spec (me_type e) MULTIBOOT_MEMORY_AVAILABLE) as [Hty|Hty].
  2: { split_and!; [done..|]. intros g _. rewrite decide_False; [done|]. tauto. }
  destruct (Z.ltb_spec (me_addr e) 0x100000000) as [Hlt|Hge].
  2: { split_and!; [done..|]. intros g _. rewrite decide_False; [done|]. lia. }
  cbn zeta. rewrite (u64_small (me_addr e + me_len e)) by lia.
  set (top := if _ <? _ then _ else _).
  assert (Htop : top = Z.min (2 ^ 32) (me_addr e + me_len e)) by (unfold top; zbool; lia).
  rewrite (u64_small (top - _)), (u32_small (me_addr e)) by lia. destruct (decide (whole_space e)) as [Hwh|Hwh]; unfold whole_space in Hwh.
  { replace (top - me_addr e) with (2 ^ 32) by lia. change (u32 (2 ^ 32)) with 0.
    destruct (mark_available_spec (me_addr e) 0 s) as (H1 & H2 & H3); try done; try lia.
    split_and!; [done..|]. intros g Hg. rewrite H3. apply decide_ext. unfold frame_inside, PAGE_SIZE. lia. }
  rewrite u32_small by lia.
  destruct (mark_available_spec (me_addr e) (top - me_addr e) s) as (H1 & H2 & H3); try done; try lia.
  split_and!; [done..|]. intros g Hg. rewrite H3. apply decide_ext.
  unfold frame_inside. rewrite Htop. unfold PAGE_SIZE. pmm_consts. lia.
Qed.

(** The table the boot loader stored: the entries met from address [a] up to
    [mmap_end], each step staying below 2^32. *)
Inductive mmap_table (entry_at : Z -> multiboot_mmap_entry_t) (mmap_end : Z) :
    Z -> list multiboot_mmap_entry_t -> Prop :=
| mmap_table_nil a : mmap_end <= a -> mmap_table entry_at mmap_end a []
| mmap_table_cons a l :
    a < mmap_end -> 0 <= a -> a + me_size (entry_at a) + 4 < 2 ^ 32 -> entry_ok (entry_at a) ->
    mmap_table entry_at mmap_end (a + me_size (entry_at a) + 4) l ->
    mmap_table entry_at mmap_end a (entry_at a :: l).

Definition covered (l : list multiboot_mmap_entry_t) (f : Z) : Prop :=
  Exists (fun e => entry_covers e f) l.

Lemma init_mmap_spec fuel entry_at mmap_end a l s :
  mmap_table entry_at mmap_end a l -> (length l <= fuel)%nat -> pmm_boot_inv s ->
  exists s', pmm_init_mmap fuel entry_at a mmap_end s = Ok s' /\ pmm_boot_inv s' /\
    pmm_alloc_search s' = pmm_alloc_search s /\
    forall g, is_frame g ->
      (bitmap_test s' g = false <-> (covered l g /\ g <> 0) \/ bitmap_test s g = false).
Proof.
  intros Htab. revert fuel s. induction Htab as [a Hend | a l Hlt Ha Hw Hok Htab IH]; intros fuel s Hf Hb.
  - exists s. unfold covered.
    assert (pmm_init_mmap fuel entry_at a mmap_end s = Ok s) as ->.
    { destruct fuel; simpl; destruct (Z.ltb_spec a mmap_end); done || lia. }
    split_and!; [done..|]. intros g _. rewrite Exists_nil. tauto.
  - destruct fuel as [|fuel]; simpl in *; [lia|].
    rewrite (proj2 (Z.ltb_lt a mmap_end)) by done.
    rewrite u32_small by (destruct Hok; lia).
    destruct (init_entry_spec (entry_at a) s Hb Hok) as (H1 & H2 & H3).
    destruct (IH fuel (pmm_init_entry (entry_at a) s) ltac:(lia) H1) as (s' & E & H4 & H5 & H6).
    exists s'. rewrite E. split_and!; [done..|congruence|]. intros g Hg.
    rewrite H6, H3 by done. unfold covered. rewrite Exists_cons.
    case_decide; intuition congruence.
Qed.

Lemma fill_words_lookup n v m k :
  for_up n 0 (fun i m => <[i := v]> m) m !! k =
    if decide (0 <= k < Z.of_nat n) then Some v else (m : gmap Z Z) !! k.
Proof.
  revert k. pose (P := fun (j : Z) (m' : gmap Z Z) => forall k,
      m' !! k = if decide (0 <= k < j) then Some v else m !! k).
  apply (for_up0_ind P); subst P; cbv beta.
  - intros k. rewrite decide_False by lia. done.
  - intros j m' Hj Hm k. rewrite lookup_insert, Hm. repeat case_decide; try done; lia.
Qed.

Lemma init_clear_spec s :
  (forall k, ~ (0 <= k < PMM_BITMAP_SIZE) -> bitmap s !! k = None) ->
  1 <= pmm_alloc_search s < PMM_MAX_FRAMES ->
  pmm_boot_inv (pmm_init_clear s) /\
  forall g, is_frame g -> bitmap_test (pmm_init_clear s) g = true.
Proof.
  intros Hd Hs. unfold pmm_init_clear.
  set (m := for_up _ _ _ _).
  assert (Hm : forall k, m !! k = if decide (0 <= k < 32768) then Some (2 ^ 32 - 1) else bitmap s !! k).
  { intros k. subst m. rewrite fill_words_lookup. rewrite Z2Nat.id; by rewrite BITMAP_SIZE_val. }
  assert (Hall : forall g, is_frame g -> bm_test m g = true).
  { intros g Hg. apply bm_full_word; [pmm_consts; lia|]. unfold rd. rewrite Hm.
    rewrite decide_True; [done|]. pose proof (frame_word g Hg). pmm_consts. lia. }
  assert (HM : u32 PMM_MAX_FRAMES = PMM_MAX_FRAMES) by (apply u32_small; pmm_consts; lia).
  rewrite HM. split; [|exact Hall]. split.
  2: { cbn [pmm_total_frames pmm_used_frames]. lia. }
  split; cbn [bitmap pmm_total_frames pmm_used_frames pmm_alloc_search].
  - intros k. unfold rd. rewrite Hm. case_decide; [done|]. rewrite Hd by (pmm_consts; lia). done.
  - intros k Hk. rewrite Hm. rewrite decide_False by (pmm_consts; lia). auto.
  - rewrite count_up_all; [by pmm_consts|]. intros k Hk. apply Hall. pmm_consts. lia.
  - apply Hall. pmm_consts. lia.
  - exact Hs.
  - pmm_consts. lia.
Qed.

Lemma init_reserve_spec ks ke s :
  pmm_inv s -> 0 <= ks <= ke -> ke < 2 ^ 32 ->
  let s' := pmm_init_reserve ks ke s in
  pmm_inv s' /\
  forall g, bitmap_test s' g = if decide (frame_inside ks (ke - ks) g) then true else bitmap_test s g.
Proof.
  intros Hinv Hk Hke s'. subst s'. unfold pmm_init_reserve. rewrite u32_small by lia.
  destruct (mark_reserved_spec ks (ke - ks) s) as (H1 & _ & _ & H2); try done; try lia.
  rewrite (inv_zero _ H1). done.
Qed.

Lemma pmm_init_spec fuel mbi entry_at l ks ke s :
  (forall k, ~ (0 <= k < PMM_BITMAP_SIZE) -> bitmap s !! k = None) ->
  1 <= pmm_alloc_search s < PMM_MAX_FRAMES ->
  truthy (Z.land (mb_flags mbi) MULTIBOOT_FLAG_MMAP) = true ->
  mmap_table entry_at (mmap_addr mbi +w mmap_length mbi) (mmap_addr mbi) l ->
  (length l <= fuel)%nat -> 0 <= ks <= ke -> ke < 2 ^ 32 ->
  exists s', pmm_init fuel mbi entry_at ks ke s = Ok s' /\ pmm_inv s' /\
    forall f, is_frame f ->
      (bitmap_test s' f = false <-> f <> 0 /\ covered l f /\ ~ frame_inside ks (ke - ks) f).
Proof.
  intros Hd Hs Hfl Htab Hfuel Hk Hke. unfold pmm_init. rewrite Hfl. simpl.
  destruct (init_clear_spec s Hd Hs) as (Hb & Hall).
  destruct (init_mmap_spec fuel entry_at _ _ l _ Htab Hfuel Hb) as (s1 & -> & Hb1 & _ & H1).
  destruct (init_reserve_spec ks ke s1 (boot_inv _ Hb1) Hk Hke) as (H2 & H3).
  eexists. split_and!; [done..|]. intros f Hf. rewrite H3. case_decide; [intuition congruence|].
  rewrite H1, Hall by done. intuition congruence.
Qed.

(** ** Properties *)

(** [pmm_alloc_frame] on every branch. With memory detected at boot
    ([pmm_total_frames] non-zero) it either returns the address of a frame
    that was free, which becomes the only frame whose state changes, and adds
    one to the usage counter; or it returns 0, and then no frame was free and
    nothing changed. The invariant is kept in both cases. *)
Theorem pmm_alloc_frame_correct s a s' :
  pmm_inv s -> pmm_total_frames s <> 0 -> pmm_alloc_frame s = (a, s') ->
  pmm_inv s' /\
  ((exists f, 1 <= f /\ frame_free s f /\ a = f * PAGE_SIZE /\
     (forall g, bitmap_test s' g = if decide (f = g) then true else bitmap_test s g) /\
     pmm_used_frames s' = pmm_used_frames s + 1)
   \/ (a = 0 /\ s' = s /\ forall f, ~ frame_free s f)).
Proof.
  intros Hinv Ht E. destruct (pmm_alloc_frame_cases s a s' Hinv E)
    as [(f & ? & ? & ? & ? & ? & ? & _) | (? & -> & [?|?])]; [|done|].
  - split; [done|left]. by exists f.
  - split; [done|right]. done.
Qed.

(** C22: the two-pass search over bitmap words, which skips full words and
    tests 32 bits per word, finds exactly the frame a linear next-fit scan
    from the search pointer (wrapping round to frame 1) finds. *)
Theorem pmm_alloc_frame_is_next_fit s :
  pmm_inv s -> pmm_total_frames s <> 0 ->
  pmm_alloc_frame s =
    match first_free s (pmm_alloc_search s) PMM_MAX_FRAMES with
    | Some f => take_frame s f
    | None => match first_free s 1 (pmm_alloc_search s) with
              | Some f => take_frame s f
              | None => (0, s)
              end
    end.
Proof.
  intros Hinv Ht. rewrite pmm_alloc_frame_next_fit by done.
  by rewrite (proj2 (Z.eqb_neq _ _) Ht).
Qed.

(** [pmm_free_frame] ignores frame 0 and frames that are already free
    (double free); otherwise the frame becomes free, no other frame changes,
    the usage counter drops by one and the search pointer moves down to it.
    The invariant is kept. *)
Theorem pmm_free_frame_correct s addr :
  pmm_inv s -> 0 <= addr < 2 ^ 32 ->
  let f := addr / PAGE_SIZE in
  let s' := pmm_free_frame addr s in
  pmm_inv s' /\
  if decide (f = 0 \/ bitmap_test s f = false) then s' = s else
    (forall g, bitmap_test s' g = if decide (f = g) then false else bitmap_test s g) /\
    pmm_used_frames s' = pmm_used_frames s - 1 /\
    pmm_alloc_search s' = Z.min f (pmm_alloc_search s).
Proof.
  intros Hinv Ha f s'. destruct (pmm_free_frame_cases s addr f Hinv Ha) as [[Hc Hs]|Hc].
  - by rewrite addr_to_frame.
  - subst s'. rewrite Hs. split; [done|]. by rewrite decide_True.
  - destruct Hc as (Hnz & Ht & H1 & H2 & H3 & _ & H4). split; [done|].
    rewrite decide_False; [done|]. intros [|]; congruence.
Qed.

(** Clients of the allocator: a step allocates a frame or releases one that
    was handed out; [own] is the set of addresses handed out and not yet
    released. *)
Inductive pmm_step : pmm_state * gset Z -> pmm_state * gset Z -> Prop :=
| pmm_step_alloc s own a s' :
    pmm_alloc_frame s = (a, s') ->
    pmm_step (s, own) (s', if decide (a = 0) then own else {[a]} ∪ own)
| pmm_step_free s own a :
    a ∈ own -> pmm_step (s, own) (pmm_free_frame a s, own ∖ {[a]}).

(** What holds along every run: owned addresses are page-aligned, not frame
    0, and their frames are reserved; the usage counter counts them. *)
Definition pmm_owned_inv (u0 : Z) (c : pmm_state * gset Z) : Prop :=
  pmm_inv c.1 /\
  (forall a, a ∈ c.2 -> exists f, 1 <= f < PMM_MAX_FRAMES /\ a = f * PAGE_SIZE /\ bitmap_test c.1 f = true) /\
  pmm_used_frames c.1 = u0 + Z.of_nat (size c.2).

Lemma pmm_alloc_fresh u0 s own a s' :
  pmm_owned_inv u0 (s, own) -> pmm_alloc_frame s = (a, s') -> a <> 0 -> a ∉ own.
Proof.
  intros (Hinv & Hown & _) E Ha Hin.
  destruct (pmm_alloc_frame_cases s a s' Hinv E) as [(f & Hf & [Hr Hfree] & -> & _)|(-> & _)]; [|done].
  destruct (Hown _ Hin) as (f' & _ & Heq & Ht). simpl in Ht. unfold PAGE_SIZE in *.
  replace f' with f in Ht by lia. congruence.
Qed.

Lemma pmm_step_owned u0 c c' : pmm_step c c' -> pmm_owned_inv u0 c -> pmm_owned_inv u0 c'.
Proof.
  intros Hst Hc. destruct Hst as [s own a s' E | s own a Hin].
  - destruct (decide (a = 0)) as [->|Hz].
    + destruct Hc as (Hinv & Hown & Hu).
      destruct (pmm_alloc_frame_cases s 0 s' Hinv E) as [(f & ? & _ & Heq & _)|(_ & -> & _)]; [|done].
      unfold PAGE_SIZE in *. lia.
    + pose proof (pmm_alloc_fresh u0 s own a s' Hc E Hz) as Hfresh.
      destruct Hc as (Hinv & Hown & Hu). simpl in *.
      destruct (pmm_alloc_frame_cases s a s' Hinv E) as
        [(f & Hf1 & [Hr _] & -> & Hinv' & Ht & Hu' & _)|(? & _)]; [|done].
      split_and!; simpl; [done| |rewrite size_union, size_singleton by set_solver; lia].
      intros b [->%elem_of_singleton | Hb]%elem_of_union.
      * exists f. unfold is_frame in Hr. rewrite Ht, decide_True by done. split_and!; [lia..|done|done].
      * destruct (Hown b Hb) as (f' & Hr' & -> & Ht'). exists f'. split_and!; try lia; try done.
        rewrite Ht. by case_decide.
  - destruct Hc as (Hinv & Hown & Hu). simpl in *.
    destruct (Hown a Hin) as (f & Hr & -> & Ht).
    assert (Hfr : f = ADDR_TO_FRAME (f * PAGE_SIZE)) by (rewrite addr_to_frame; by rewrite Z.div_mul).
    destruct (pmm_free_frame_cases s (f * PAGE_SIZE) f Hinv) as [[[?|?] _]|Hc]; try done; try congruence.
    { unfold PAGE_SIZE. pmm_consts. lia. } { lia. }
    destruct Hc as (_ & _ & Hinv' & Ht' & Hu' & _). split_and!; simpl; [done| |].
    + intros b [Hb Hne]%elem_of_difference. destruct (Hown b Hb) as (f' & Hr' & -> & Hb').
      exists f'. split_and!; try lia; try done. rewrite Ht'. case_decide; [subst; set_solver|done].
    + rewrite Hu', Hu. rewrite size_difference, size_singleton by set_solver.
      assert (size own <> 0%nat) by (intros ?%size_empty_inv; set_solver). lia.
Qed.

(** C6: in every run of allocations and releases of handed-out frames, an
    address returned by [pmm_alloc_frame] is never one that a client still
    holds, the invariant is kept, and the usage counter exceeds its start
    value by exactly the number of frames held. *)
Theorem pmm_no_double_allocation s0 s own :
  pmm_inv s0 -> rtc pmm_step (s0, ∅) (s, own) ->
  pmm_inv s /\ pmm_used_frames s = pmm_used_frames s0 + Z.of_nat (size own) /\
  forall a s', pmm_alloc_frame s = (a, s') -> a <> 0 -> a ∉ own.
Proof.
  intros H0 Hrun.
  assert (Hc : pmm_owned_inv (pmm_used_frames s0) (s, own)).
  { apply (rtc_invariant pmm_step _ (pmm_step_owned (pmm_used_frames s0)) _ _ Hrun).
    split_and!; [done|set_solver|]. change (size (s0, ∅ : gset Z).2) with (size (∅ : gset Z)).
    rewrite size_empty. simpl. lia. }
  pose proof Hc as (H1 & _ & H2). split_and!; [done..|]. intros a s' E Ha.
  by eapply pmm_alloc_fresh.
Qed.

(** The memory that the boot loader says is available: in an entry of the map;
    without a map, from 1 MiB on as much as [mem_upper] says, if it says it. *)
Definition available (mbi : multiboot_info_t) (l : list multiboot_mmap_entry_t) (f : Z) : Prop :=
  if truthy (Z.land (mb_flags mbi) MULTIBOOT_FLAG_MMAP) then covered l f
  else truthy (Z.land (mb_flags mbi) MULTIBOOT_FLAG_MEM) = true /\ frame_inside 0x100000 (mem_upper mbi * 1024) f.

(** C21: [pmm_init], with GRUB's memory map or without one. Given enough fuel
    for the entries of the map it returns, the invariant holds, and a frame is
    free exactly when it is not frame 0, does not lie wholly inside the kernel
    image, and lies wholly inside available memory below 4 GiB: inside an
    available entry of the map, except that an entry that starts at 0 and
    reaches 4 GiB releases nothing (its length is truncated to 0); or, without a
    map, inside the [mem_upper] KiB from 1 MiB on. No entry of the map wraps
    around at 2^64, and memory given by [mem_upper] ends at 4 GiB at most. *)
Theorem pmm_init_correct fuel mbi entry_at l ks ke s :
  (forall k, ~ (0 <= k < PMM_BITMAP_SIZE) -> bitmap s !! k = None) ->
  1 <= pmm_alloc_search s < PMM_MAX_FRAMES ->
  (if truthy (Z.land (mb_flags mbi) MULTIBOOT_FLAG_MMAP)
   then mmap_table entry_at (mmap_addr mbi +w mmap_length mbi) (mmap_addr mbi) l
   else 0 <= mem_upper mbi /\ 0x100000 + mem_upper mbi * 1024 <= 2 ^ 32) ->
  (length l <= fuel)%nat -> 0 <= ks <= ke -> ke < 2 ^ 32 ->
  exists s', pmm_init fuel mbi entry_at ks ke s = Ok s' /\ pmm_inv s' /\
    forall f, is_frame f ->
      (bitmap_test s' f = false <-> f <> 0 /\ available mbi l f /\ ~ frame_inside ks (ke - ks) f).
Proof.
  unfold available. destruct (truthy (Z.land (mb_flags mbi) MULTIBOOT_FLAG_MMAP)) eqn:Hfl; [intros; by apply pmm_init_spec|].
  intros Hd Hs [Hu Hmem] _ Hk Hke. destruct (init_clear_spec s Hd Hs) as (Hb & Hall).
  set (s1 := if truthy (Z.land (mb_flags mbi) MULTIBOOT_FLAG_MEM) then pmm_mark_region_available 0x100000 (mem_upper mbi * 1024) (pmm_init_clear s)
             else pmm_init_clear s).
  assert (E : pmm_init fuel mbi entry_at ks ke s = Ok (pmm_init_reserve ks ke s1)).
  { unfold pmm_init, s1. rewrite Hfl. cbn [negb]. rewrite (u64_small (mem_upper mbi * 1024)) by lia.
    by destruct (truthy (Z.land (mb_flags mbi) MULTIBOOT_FLAG_MEM)). }
  assert (Hs1 : pmm_inv s1 /\ forall f, is_frame f -> (bitmap_test s1 f = false <-> f <> 0 /\
    truthy (Z.land (mb_flags mbi) MULTIBOOT_FLAG_MEM) = true /\ frame_inside 0x100000 (mem_upper mbi * 1024) f)).
  { unfold s1. destruct (truthy (Z.land (mb_flags mbi) MULTIBOOT_FLAG_MEM)); [|split; [apply (boot_inv _ Hb)|intros f Hf; rewrite Hall by done; intuition congruence]].
    destruct (mark_available_spec 0x100000 (mem_upper mbi * 1024) _ Hb) as (H1 & _ & H3); try lia.
    split; [apply (boot_inv _ H1)|]. intros f Hf. rewrite H3, Hall by done. case_decide; intuition congruence. }
  destruct Hs1 as [Hi1 H1]. destruct (init_reserve_spec ks ke s1 Hi1 Hk Hke) as (H2 & H3).
  eexists. split_and!; [exact E|done|]. intros f Hf. rewrite H3. case_decide; [intuition congruence|]. rewrite H1 by done. tauto.
Qed.

(** the last, partly filled page of the kernel image is not reserved:
    [pmm_mark_region_reserved] rounds the region inwards, so after [pmm_init]
    a frame that holds the last bytes of an image whose end is not
    page-aligned is free whenever the memory map makes it available. *)
Theorem pmm_init_kernel_tail_free fuel mbi entry_at l ks ke s f :
  (forall k, ~ (0 <= k < PMM_BITMAP_SIZE) -> bitmap s !! k = None) ->
  1 <= pmm_alloc_search s < PMM_MAX_FRAMES ->
  truthy (Z.land (mb_flags mbi) MULTIBOOT_FLAG_MMAP) = true ->
  mmap_table entry_at (mmap_addr mbi +w mmap_length mbi) (mmap_addr mbi) l ->
  (length l <= fuel)%nat -> 0 <= ks <= ke -> ke < 2 ^ 32 ->
  f <> 0 -> covered l f -> is_frame f ->
  f * PAGE_SIZE < ke < f * PAGE_SIZE + PAGE_SIZE ->
  exists s', pmm_init fuel mbi entry_at ks ke s = Ok s' /\ frame_free s' f.
Proof.
  intros Hd Hs Hfl Htab Hfuel Hk Hke Hnz Hcov Hf Hpart.
  destruct (pmm_init_spec fuel mbi entry_at l ks ke s) as (s' & E & _ & H); try done.
  exists s'. split; [done|]. split; [done|]. apply H; [done|]. split_and!; try done.
  unfold frame_inside. lia.
Qed.

(** [pmm_get_free_frames] never returns the number of free frames: it
    subtracts the usage counter, which counts all 2^20 frames, from the
    number of frames found available, so it is right only if every frame of
    the 4 GiB space were available. *)
Theorem pmm_get_free_frames_wrong s :
  pmm_inv s -> pmm_total_frames s < PMM_MAX_FRAMES ->
  pmm_get_free_frames s <> count_up NFRAMES 0 (fun f => negb (bitmap_test s f)).
Proof.
  intros Hinv Ht. rewrite count_up_negb, <- (inv_used _ Hinv).
  pose proof (used_range s Hinv). pose proof (inv_total _ Hinv).
  unfold pmm_get_free_frames, u32. pmm_consts. zlia.
Qed.

(** ** Witnesses: a machine with 1 MiB of available memory at 1 MiB *)

Definition demo_static : pmm_state := PmmState ∅ 0 0 1.
Definition demo_entry_at (a : Z) : multiboot_mmap_entry_t := MmapEntry 20 0x100000 0x100000 1.
Definition demo_mbi : multiboot_info_t := MultibootInfo 64 0 0 24 0x9000.
Definition demo_pmm : pmm_state := pmm_mark_region_available 0x100000 0x100000 (pmm_init_clear demo_static).

Lemma demo_static_ok :
  (forall k, ~ (0 <= k < PMM_BITMAP_SIZE) -> bitmap demo_static !! k = None) /\
  1 <= pmm_alloc_search demo_static < PMM_MAX_FRAMES.
Proof. split; [done|]. simpl. pmm_consts. lia. Qed.

Lemma demo_table : mmap_table demo_entry_at (0x9000 +w 24) 0x9000 [demo_entry_at 0x9000].
Proof. constructor; try done. by constructor. Qed.

Lemma demo_pmm_spec :
  pmm_boot_inv demo_pmm /\ pmm_alloc_search demo_pmm = 1 /\
  forall g, is_frame g -> bitmap_test demo_pmm g = negb (bool_decide (256 <= g < 512)).
Proof.
  destruct demo_static_ok as [H1 H2]. destruct (init_clear_spec _ H1 H2) as (Hb & Hall).
  destruct (mark_available_spec 0x100000 0x100000 _ Hb) as (H3 & H4 & H5); try lia.
  split_and!; [exact H3|exact H4|]. intros g Hg. unfold demo_pmm. rewrite H5, Hall by done.
  clear. unfold bool_decide, frame_inside, PAGE_SIZE. repeat case_decide; reflexivity || lia.
Qed.
#[global] Opaque demo_pmm.

Lemma demo_pmm_boot :
  pmm_boot_inv demo_pmm /\ bitmap_test demo_pmm 256 = false /\ bitmap_test demo_pmm 512 = true.
Proof.
  destruct demo_pmm_spec as (H1 & _ & H2). split; [exact H1|].
  rewrite !H2 by (pmm_consts; lia). done.
Qed.

Lemma demo_pmm_total : 0 < pmm_total_frames demo_pmm < PMM_MAX_FRAMES.
Proof.
  destruct demo_pmm_boot as ([Hinv Hsum] & Hf & Ht).
  assert (0 < pmm_used_frames demo_pmm < PMM_MAX_FRAMES); [|lia].
  rewrite (inv_used _ Hinv). split.
  - apply count_up_pos with 512; [rewrite of_nat_NFRAMES; lia|done].
  - rewrite MAX_FRAMES_val, <- of_nat_NFRAMES.
    apply count_up_lt with 256; [rewrite of_nat_NFRAMES; lia|done].
Qed.

Lemma pmm_alloc_frame_correct_witness :
  exists s', pmm_alloc_frame demo_pmm = ((pmm_alloc_frame demo_pmm).1, s') /\ pmm_inv s'.
Proof.
  exists (pmm_alloc_frame demo_pmm).2. split; [apply surjective_pairing|].
  apply (pmm_alloc_frame_correct demo_pmm (pmm_alloc_frame demo_pmm).1).
  - apply demo_pmm_boot.
  - pose proof demo_pmm_total. lia.
  - apply surjective_pairing.
Defined.

Lemma pmm_alloc_frame_is_next_fit_witness :
  pmm_alloc_frame demo_pmm = take_frame demo_pmm 256.
Proof.
  rewrite pmm_alloc_frame_is_next_fit.
  - destruct demo_pmm_spec as (_ & -> & H2).
    assert (first_free demo_pmm 1 PMM_MAX_FRAMES = Some 256) as ->; [|reflexivity].
    apply first_free_Some. pmm_consts. split_and!; [lia..|by rewrite H2 by (pmm_consts; lia)|].
    intros g Hg. rewrite H2 by (pmm_consts; lia). by rewrite bool_decide_false by lia.
  - apply demo_pmm_boot.
  - pose proof demo_pmm_total. lia.
Defined.

Lemma pmm_free_frame_correct_witness :
  pmm_inv (pmm_free_frame 0x200000 demo_pmm) /\
  pmm_used_frames (pmm_free_frame 0x200000 demo_pmm) = pmm_used_frames demo_pmm - 1.
Proof.
  destruct demo_pmm_boot as ([Hinv _] & _ & Ht).
  destruct (pmm_free_frame_correct demo_pmm 0x200000 Hinv ltac:(lia)) as (H1 & H2).
  split; [done|]. change (0x200000 / PAGE_SIZE) with 512 in H2.
  rewrite decide_False in H2 by (rewrite Ht; intros [|]; discriminate). exact (proj1 (proj2 H2)).
Defined.

Lemma pmm_no_double_allocation_witness :
  exists s own, rtc pmm_step (demo_pmm, ∅) (s, own) /\ pmm_inv s /\
    pmm_used_frames s = pmm_used_frames demo_pmm + Z.of_nat (size own).
Proof.
  destruct (pmm_alloc_frame demo_pmm) as [a s'] eqn:E.
  exists s', (if decide (a = 0) then ∅ else {[a]} ∪ ∅).
  pose proof (rtc_once _ _ (pmm_step_alloc demo_pmm ∅ a s' E)) as Hr.
  destruct (pmm_no_double_allocation demo_pmm _ _ (boot_inv _ (proj1 demo_pmm_boot)) Hr)
    as (H1 & H2 & _).
  exact (conj Hr (conj H1 H2)).
Defined.

Lemma pmm_init_correct_witness :
  exists s', pmm_init 1 demo_mbi demo_entry_at 0x120000 0x150800 demo_static = Ok s' /\
    bitmap_test s' 0x130 = true /\ bitmap_test s' 0x180 = false.
Proof.
  destruct demo_static_ok as [H1 H2].
  destruct (pmm_init_correct 1 demo_mbi demo_entry_at [demo_entry_at 0x9000] 0x120000 0x150800
              demo_static H1 H2 demo_table) as (s' & E & _ & H); try lia; [done|].
  exists s'. split_and!; [done|..].
  - destruct (bitmap_test s' 0x130) eqn:Ht; [done|]. apply H in Ht; [|pmm_consts; lia].
    destruct Ht as (_ & _ & Hn). exfalso. apply Hn. unfold frame_inside, PAGE_SIZE. lia.
  - apply H; [pmm_consts; lia|]. split_and!; [done| |unfold frame_inside, PAGE_SIZE; lia].
    constructor. unfold entry_covers, whole_space, frame_inside, PAGE_SIZE, MULTIBOOT_MEMORY_AVAILABLE.
    simpl. pmm_consts. lia.
Defined.

Lemma pmm_init_kernel_tail_free_witness :
  exists s', pmm_init 1 demo_mbi demo_entry_at 0x120000 0x150800 demo_static = Ok s' /\
    frame_free s' 0x150.
Proof.
  destruct demo_static_ok as [H1 H2].
  apply (pmm_init_kernel_tail_free 1 demo_mbi demo_entry_at [demo_entry_at 0x9000] 0x120000 0x150800
           demo_static 0x150 H1 H2 eq_refl demo_table); try lia; try done.
  - constructor. unfold entry_covers, whole_space, frame_inside, PAGE_SIZE, MULTIBOOT_MEMORY_AVAILABLE.
    simpl. pmm_consts. lia.
Defined.

Lemma pmm_get_free_frames_wrong_witness :
  pmm_get_free_frames demo_pmm <> count_up NFRAMES 0 (fun f => negb (bitmap_test demo_pmm f)).
Proof.
  apply pmm_get_free_frames_wrong; [apply demo_pmm_boot|apply demo_pmm_total].
Defined.
