(* ===== verification/Vmm.v ===== *)
(** * Virtual memory manager (kernel/mm/vmm.c, include/vmm.h, kernel/arch/x86/paging.asm)

    Physical memory is a map from word addresses to 32-bit words. Every
    pointer access of vmm.c goes through [vload] and [vstore], which apply the
    x86 two-level translation once paging is on, so that code that touches a
    page table outside the identity-mapped first 4 MiB faults here as it does
    on the machine. The TLB is taken to be coherent (vmm.c flushes every page
    whose entry it changes) and the accessed and dirty bits that the CPU sets
    are not modelled. *)

From Stdlib Require Import ZArith Lia.
From S2P Require Import Prelude Pmm.

Definition VMM_PRESENT : Z := Z.shiftl 1 0.
Definition VMM_WRITABLE : Z := Z.shiftl 1 1.
Definition VMM_USER : Z := Z.shiftl 1 2.
Definition VMM_KERNEL_RW : Z := Z.lor VMM_PRESENT VMM_WRITABLE.
Definition VMM_ADDR_MASK : Z := 0xFFFFF000.

Definition PD_INDEX (virt : Z) : Z := Z.shiftr virt 22.
Definition PT_INDEX (virt : Z) : Z := Z.land (Z.shiftr virt 12) 0x3FF.

(** The static variables of vmm.c with what they act on: the frame
    allocator, physical memory, CR3 and the paging bit of CR0. *)
Record vmm_state := VmmState {
  vm_pmm : pmm_state;
  pmem : gmap Z Z;
  page_directory : Z;
  kernel_pd_phys : Z;
  cr3 : Z;
  paging : bool
}.

Definition set_pmm (p : pmm_state) (s : vmm_state) : vmm_state :=
  VmmState p (pmem s) (page_directory s) (kernel_pd_phys s) (cr3 s) (paging s).
Definition set_pmem (m : gmap Z Z) (s : vmm_state) : vmm_state :=
  VmmState (vm_pmm s) m (page_directory s) (kernel_pd_phys s) (cr3 s) (paging s).

(** The CPU's address translation: two-level walk from a page directory. *)
Definition walk (m : gmap Z Z) (pd a : Z) : option Z :=
  let pde := rd m (pd + 4 * PD_INDEX a) in
  if negb (truthy (Z.land pde VMM_PRESENT)) then None else
  let pte := rd m (Z.land pde VMM_ADDR_MASK + 4 * PT_INDEX a) in
  if negb (truthy (Z.land pte VMM_PRESENT)) then None else
  Some (Z.lor (Z.land pte VMM_ADDR_MASK) (Z.land a 0xFFF)).

Definition translate (s : vmm_state) (a : Z) : option Z :=
  if paging s then walk (pmem s) (Z.land (cr3 s) VMM_ADDR_MASK) a else Some a.

Definition vload (a : Z) : M vmm_state Z := fun s =>
  match translate s a with
  | Some p => Ok (rd (pmem s) p, s)
  | None => Stop (PageFault a)
  end.
Definition vstore (a v : Z) : M vmm_state unit := fun s =>
  match translate s a with
  | Some p => Ok (tt, set_pmem (<[p := v]> (pmem s)) s)
  | None => Stop (PageFault a)
  end.

Definition alloc_frame : M vmm_state Z := fun s =>
  let '(a, p) := pmm_alloc_frame (vm_pmm s) in Ok (a, set_pmm p s).
Definition free_frame (a : Z) : M vmm_state unit :=
  modify (fun s => set_pmm (pmm_free_frame a (vm_pmm s)) s).

Definition enable_paging (pd_phys : Z) : M vmm_state unit :=
  modify (fun s => VmmState (vm_pmm s) (pmem s) (page_directory s) (kernel_pd_phys s) pd_phys true).
Definition vmm_load_cr3 (pd_phys : Z) : M vmm_state unit :=
  modify (fun s => VmmState (vm_pmm s) (pmem s) (page_directory s) (kernel_pd_phys s) pd_phys (paging s)).

(** [for (i = 0; i < 1024; i++) t[i] = 0;] *)
Definition zero_table (t : Z) : M vmm_state unit :=
  for_upM 1024 0 (fun i => vstore (t + 4 * i) 0).

Definition create_table (virt flags : Z) : M vmm_state Z :=
  pd ← gets page_directory;
  let pd_idx := PD_INDEX virt in
  pde ← vload (pd + 4 * pd_idx);
  if truthy (Z.land pde VMM_PRESENT) then mret (Z.land pde VMM_ADDR_MASK) else
  pt_phys ← alloc_frame;
  if pt_phys =? 0 then mret 0 else
  zero_table pt_phys ;;
  vstore (pd + 4 * pd_idx)
    (Z.lor (Z.lor (Z.lor pt_phys VMM_PRESENT) VMM_WRITABLE) (Z.land flags VMM_USER)) ;;
  mret pt_phys.

Definition vmm_map_page (virt phys flags : Z) : M vmm_state unit :=
  pt ← create_table virt flags;
  if pt =? 0 then stop (Panic "VMM: vmm_map_page — page table allocation failed") else
  vstore (pt + 4 * PT_INDEX virt)
    (Z.lor (Z.land phys VMM_ADDR_MASK) (Z.lor flags VMM_PRESENT)).

(** The loop of [vmm_map_range]; the counter advances by a page. *)
Fixpoint map_range_loop (fuel : nat) (virt phys length flags offset : Z) : M vmm_state unit :=
  if offset <? length then
    match fuel with
    | O => stop OutOfFuel
    | S fuel' =>
        vmm_map_page (virt +w offset) (phys +w offset) flags ;;
        map_range_loop fuel' virt phys length flags (offset +w PAGE_SIZE)
    end
  else mret tt.

Definition vmm_map_range (fuel : nat) (virt phys length flags : Z) : M vmm_state unit :=
  map_range_loop fuel virt phys length flags 0.

Definition vmm_unmap_page (virt : Z) : M vmm_state unit :=
  pd ← gets page_directory;
  pde ← vload (pd + 4 * PD_INDEX virt);
  if negb (truthy (Z.land pde VMM_PRESENT)) then mret tt else
  vstore (Z.land pde VMM_ADDR_MASK + 4 * PT_INDEX virt) 0.

Definition vmm_get_phys (virt : Z) : M vmm_state Z :=
  pd ← gets page_directory;
  pde ← vload (pd + 4 * PD_INDEX virt);
  if negb (truthy (Z.land pde VMM_PRESENT)) then mret 0 else
  pte ← vload (Z.land pde VMM_ADDR_MASK + 4 * PT_INDEX virt);
  if negb (truthy (Z.land pte VMM_PRESENT)) then mret 0 else
  mret (Z.lor (Z.land pte VMM_ADDR_MASK) (Z.land virt 0xFFF)).

Definition vmm_is_mapped (virt : Z) : M vmm_state bool :=
  pd ← gets page_directory;
  pde ← vload (pd + 4 * PD_INDEX virt);
  if negb (truthy (Z.land pde VMM_PRESENT)) then mret false else
  pte ← vload (Z.land pde VMM_ADDR_MASK + 4 * PT_INDEX virt);
  mret (truthy (Z.land pte VMM_PRESENT)).

Definition vmm_init : M vmm_state unit :=
  pd_phys ← alloc_frame;
  if pd_phys =? 0 then stop (Panic "VMM: Cannot allocate page directory frame ") else
  modify (fun s => VmmState (vm_pmm s) (pmem s) pd_phys pd_phys (cr3 s) (paging s)) ;;
  zero_table pd_phys ;;
  pt0_phys ← alloc_frame;
  if pt0_phys =? 0 then stop (Panic "VMM: Cannot allocate page table 0 frame") else
  for_upM 1024 0 (fun i => vstore (pt0_phys + 4 * i) (Z.lor (i *w PAGE_SIZE) VMM_KERNEL_RW)) ;;
  vstore (pd_phys + 4 * 0) (Z.lor pt0_phys VMM_KERNEL_RW) ;;
  enable_paging pd_phys.

Definition vmm_get_kernel_pd : M vmm_state Z := gets kernel_pd_phys.

Definition vmm_create_address_space : M vmm_state Z :=
  pd_phys ← alloc_frame;
  if pd_phys =? 0 then mret 0 else
  zero_table pd_phys ;;
  kpd ← gets kernel_pd_phys;
  for_upM 1 0 (fun i => pde ← vload (kpd + 4 * i); vstore (pd_phys + 4 * i) pde) ;;
  mret pd_phys.

(** One user page table of [vmm_destroy_address_space]: its present pages,
    then the table itself. *)
Definition destroy_table (pt_phys : Z) : M vmm_state unit :=
  for_upM 1024 0 (fun j =>
    pte ← vload (pt_phys + 4 * j);
    if truthy (Z.land pte VMM_PRESENT) then free_frame (Z.land pte VMM_ADDR_MASK) else mret tt) ;;
  free_frame pt_phys.

Definition vmm_destroy_address_space (pd_phys : Z) : M vmm_state unit :=
  kpd ← gets kernel_pd_phys;
  if (pd_phys =? 0) || (pd_phys =? kpd) then mret tt else
  for_upM 1023 1 (fun i =>
    pde ← vload (pd_phys + 4 * i);
    if negb (truthy (Z.land pde VMM_PRESENT)) then mret tt else
    destroy_table (Z.land pde VMM_ADDR_MASK)).

Definition vmm_switch (pd_phys : Z) : M vmm_state unit :=
  if truthy pd_phys then vmm_load_cr3 pd_phys else mret tt.

(** The loop of [vmm_range_mapped]. *)
Fixpoint range_mapped_loop (fuel : nat) (pd addr end_ : Z) (user_only : bool) : M vmm_state bool :=
  if addr <? end_ then
    match fuel with
    | O => stop OutOfFuel
    | S fuel' =>
        pde ← vload (pd + 4 * PD_INDEX addr);
        if negb (truthy (Z.land pde VMM_PRESENT)) then mret false else
        if user_only && negb (truthy (Z.land pde VMM_USER)) then mret false else
        pte ← vload (Z.land pde VMM_ADDR_MASK + 4 * PT_INDEX addr);
        if negb (truthy (Z.land pte VMM_PRESENT)) then mret false else
        if user_only && negb (truthy (Z.land pte VMM_USER)) then mret false else
        range_mapped_loop fuel' pd (addr +w PAGE_SIZE) end_ user_only
    end
  else mret true.

Definition vmm_range_mapped (fuel : nat) (pd virt len : Z) (user_only : bool) : M vmm_state bool :=
  if (pd =? 0) || (len =? 0) then mret false else
  let addr := Z.land virt VMM_ADDR_MASK in
  let end_ := Z.land (u32 (virt + len + PAGE_SIZE - 1)) VMM_ADDR_MASK in
  range_mapped_loop fuel pd addr end_ user_only.

(** ** Entries and indices *)

Abbreviation present e := (truthy (Z.land e VMM_PRESENT)).
Abbreviation base e := (Z.land e VMM_ADDR_MASK).

(** End of the identity-mapped region. *)
Definition LOW_END : Z := 0x400000.

Lemma base_round e : 0 <= e < 2 ^ 32 -> base e = e - e mod 4096.
Proof.
  intros. change VMM_ADDR_MASK with (2 ^ 32 - 2 ^ 12). by apply (land_round_down 32 12).
Qed.

Lemma base_aligned e : 0 <= e < 2 ^ 32 -> base e mod 4096 = 0 /\ 0 <= base e <= e.
Proof. intros. rewrite base_round by done. zlia. Qed.

Lemma present_odd e : present e = Z.odd e.
Proof.
  unfold truthy. change VMM_PRESENT with (2 ^ 1 - 1). rewrite land_ones_mod by lia.
  change (2 ^ 1) with 2. rewrite Zmod_odd. by destruct (Z.odd e).
Qed.

Lemma pd_index_div a : PD_INDEX a = a / 4194304.
Proof. unfold PD_INDEX. by rewrite Z.shiftr_div_pow2 by lia. Qed.
Lemma pt_index_div a : PT_INDEX a = a / 4096 mod 1024.
Proof.
  unfold PT_INDEX. rewrite Z.shiftr_div_pow2 by lia. change 0x3FF with (2 ^ 10 - 1).
  by rewrite land_ones_mod by lia.
Qed.
Lemma pd_index_range a : 0 <= a < 2 ^ 32 -> 0 <= PD_INDEX a < 1024.
Proof. rewrite pd_index_div. zlia. Qed.
Lemma pt_index_range a : 0 <= PT_INDEX a < 1024.
Proof. rewrite pt_index_div. zlia. Qed.
Lemma offset_mod a : Z.land a 0xFFF = a mod 4096.
Proof. change 0xFFF with (2 ^ 12 - 1). by rewrite land_ones_mod by lia. Qed.

(** Two addresses lie in the same page iff both indices agree. *)
Lemma same_page a b :
  0 <= a < 2 ^ 32 -> 0 <= b < 2 ^ 32 ->
  PD_INDEX a = PD_INDEX b /\ PT_INDEX a = PT_INDEX b <-> a / 4096 = b / 4096.
Proof. intros. rewrite !pd_index_div, !pt_index_div. zlia. Qed.

(** The page table entry that [vmm_map_page] writes. *)
Definition map_entry (phys flags : Z) : Z := Z.lor (base phys) (Z.lor flags VMM_PRESENT).

Lemma map_entry_spec phys flags :
  0 <= phys < 2 ^ 32 -> 0 <= flags < 4096 ->
  0 <= map_entry phys flags < 2 ^ 32 /\ present (map_entry phys flags) = true /\
  base (map_entry phys flags) = base phys.
Proof.
  intros Hp Hf. unfold map_entry. destruct (base_aligned phys Hp) as [Ha Hr].
  assert (Hl : 0 <= Z.lor flags VMM_PRESENT < 2 ^ 12).
  { apply lor_range; done. }
  assert (Ho : Z.odd (Z.lor flags VMM_PRESENT) = true).
  { rewrite <- Z.bit0_odd, Z.lor_spec. apply orb_true_r. }
  assert (0 <= Z.lor (base phys) (Z.lor flags VMM_PRESENT) < 2 ^ 32).
  { apply lor_range; [done|lia|]. simpl in Hl. lia. }
  split; [done|]. rewrite (base_round (Z.lor _ _)) by done. rewrite present_odd.
  rewrite (lor_low_add 12) by (done || lia). split; [|zlia].
  rewrite Z.odd_add, Ho. rewrite <- Z.negb_even.
  assert (Z.even (base phys) = true) as ->; [|done].
  apply Z.even_spec. exists (base phys / 2). zlia.
Qed.

(** The directory entry that [create_table] writes. *)
Lemma pde_entry_spec pt flags :
  0 <= pt < 2 ^ 32 -> pt mod 4096 = 0 ->
  let e := Z.lor (Z.lor (Z.lor pt VMM_PRESENT) VMM_WRITABLE) (Z.land flags VMM_USER) in
  0 <= e < 2 ^ 32 /\ present e = true /\ base e = pt.
Proof.
  intros Hp Ha e. subst e. rewrite <- !Z.lor_assoc, (Z.lor_comm VMM_PRESENT).
  assert (Hu : 0 <= Z.land flags VMM_USER < 4096).
  { rewrite Z.land_comm. pose proof (land_le VMM_USER flags). change VMM_USER with 4 in *. lia. }
  destruct (map_entry_spec pt (Z.lor VMM_WRITABLE (Z.land flags VMM_USER))) as (H1 & H2 & H3); [done| |].
  { apply (lor_range 12); [done|done|done]. }
  unfold map_entry in *. rewrite (base_round pt), Ha, Z.sub_0_r in * by done. done.
Qed.

(** ** The invariant of the kernel address space *)

(** Frame [t] can hold a paging structure: page-aligned, reachable through
    the identity map, and reserved in the frame allocator. *)
Definition table_frame (s : vmm_state) (t : Z) : Prop :=
  t mod 4096 = 0 /\ 4096 <= t < LOW_END /\ bitmap_test (vm_pmm s) (t / 4096) = true.

Definition pde_at (s : vmm_state) (i : Z) : Z := rd (pmem s) (page_directory s + 4 * i).
Definition pte_at (s : vmm_state) (i j : Z) : Z := rd (pmem s) (base (pde_at s i) + 4 * j).

Record vmm_inv (s : vmm_state) : Prop := {
  vi_pmm : pmm_inv (vm_pmm s);
  vi_words : words32 (pmem s);
  vi_on : paging s = true;
  vi_cr3 : cr3 s = page_directory s;
  vi_pd : table_frame s (page_directory s);
  vi_tables : forall i, 0 <= i < 1024 -> present (pde_at s i) = true ->
    table_frame s (base (pde_at s i)) /\ base (pde_at s i) <> page_directory s;
  vi_inj : forall i j, 0 <= i < 1024 -> 0 <= j < 1024 -> i <> j ->
    present (pde_at s i) = true -> present (pde_at s j) = true ->
    base (pde_at s i) <> base (pde_at s j);
  vi_low : present (pde_at s 0) = true;
  vi_ident : forall j, 0 <= j < 1024 ->
    present (pte_at s 0 j) = true /\ base (pte_at s 0 j) = j * 4096
}.

(** Translation in terms of the two entries. *)
Lemma translate_entries s a :
  vmm_inv s -> 0 <= a < 2 ^ 32 ->
  translate s a =
    if present (pde_at s (PD_INDEX a)) && present (pte_at s (PD_INDEX a) (PT_INDEX a))
    then Some (base (pte_at s (PD_INDEX a) (PT_INDEX a)) + a mod 4096) else None.
Proof.
  intros Hinv Ha. unfold translate. rewrite (vi_on _ Hinv), (vi_cr3 _ Hinv). unfold walk.
  destruct (vi_pd _ Hinv) as (Hal & Hr & _). unfold LOW_END in *.
  rewrite (base_round (page_directory s)), Hal, Z.sub_0_r by lia. fold (pde_at s (PD_INDEX a)).
  destruct (truthy (Z.land (pde_at s (PD_INDEX a)) VMM_PRESENT)); [|done]. simpl.
  fold (pte_at s (PD_INDEX a) (PT_INDEX a)).
  destruct (truthy (Z.land (pte_at s _ _) VMM_PRESENT)); [|done]. simpl. f_equal.
  rewrite offset_mod. apply (lor_low_add 12); [done| |zlia].
  apply base_aligned, (vi_words _ Hinv).
Qed.

Lemma translate_low s a : vmm_inv s -> 0 <= a < LOW_END -> translate s a = Some a.
Proof.
  intros Hinv Ha. unfold LOW_END in *. rewrite translate_entries by (done || lia).
  assert (PD_INDEX a = 0) as -> by (rewrite pd_index_div; zlia).
  rewrite (vi_low _ Hinv). destruct (vi_ident _ Hinv (PT_INDEX a) (pt_index_range a)) as [-> ->].
  simpl. f_equal. rewrite pt_index_div. zlia.
Qed.

Lemma vload_low s a : vmm_inv s -> 0 <= a < LOW_END -> vload a s = Ok (rd (pmem s) a, s).
Proof. intros. unfold vload. by rewrite translate_low. Qed.
Lemma vstore_low s a v :
  vmm_inv s -> 0 <= a < LOW_END -> vstore a v s = Ok (tt, set_pmem (<[a := v]> (pmem s)) s).
Proof. intros. unfold vstore. by rewrite translate_low. Qed.

(** An index into a table frame stays in the identity map. *)
Lemma table_index_low s t i : table_frame s t -> 0 <= i < 1024 -> 0 <= t + 4 * i < LOW_END.
Proof. unfold table_frame, LOW_END. zlia. Qed.

(** Entries of distinct page-aligned tables are distinct words. *)
Lemma table_words_ne t t' i j :
  t mod 4096 = 0 -> t' mod 4096 = 0 -> t <> t' -> 0 <= i < 1024 -> 0 <= j < 1024 ->
  t + 4 * i <> t' + 4 * j.
Proof. zlia. Qed.

(** ** Memory changes that keep the invariant *)

(** [a] is a word of a paging structure of [s]. *)
Definition in_tables (s : vmm_state) (a : Z) : Prop :=
  (exists i, 0 <= i < 1024 /\ a = page_directory s + 4 * i) \/
  (exists i j, 0 <= i < 1024 /\ 0 <= j < 1024 /\ present (pde_at s i) = true /\
     a = base (pde_at s i) + 4 * j).

Lemma pde_frame s m i :
  (forall a, in_tables s a -> rd m a = rd (pmem s) a) -> 0 <= i < 1024 ->
  pde_at (set_pmem m s) i = pde_at s i.
Proof. intros H Hi. unfold pde_at. simpl. apply H. left. eauto. Qed.

Lemma pte_frame s m i j :
  (forall a, in_tables s a -> rd m a = rd (pmem s) a) -> 0 <= i < 1024 -> 0 <= j < 1024 ->
  present (pde_at s i) = true -> pte_at (set_pmem m s) i j = pte_at s i j.
Proof.
  intros H Hi Hj Hp. unfold pte_at. rewrite pde_frame by done. simpl. apply H. right. eauto 7.
Qed.

(** The invariant survives any change outside the paging structures, and any
    change of the allocator that keeps reserved frames reserved. *)
Lemma vmm_inv_frame s m p :
  vmm_inv s -> words32 m -> (forall a, in_tables s a -> rd m a = rd (pmem s) a) ->
  pmm_inv p -> (forall f, bitmap_test (vm_pmm s) f = true -> bitmap_test p f = true) ->
  vmm_inv (set_pmm p (set_pmem m s)) /\
  forall a, 0 <= a < 2 ^ 32 -> translate (set_pmm p (set_pmem m s)) a = translate s a.
Proof.
  intros Hinv Hw Hm Hp Hres.
  assert (Hpde : forall i, 0 <= i < 1024 -> pde_at (set_pmm p (set_pmem m s)) i = pde_at s i)
    by (intros; by apply pde_frame).
  assert (Hpte : forall i j, 0 <= i < 1024 -> 0 <= j < 1024 -> present (pde_at s i) = true ->
     pte_at (set_pmm p (set_pmem m s)) i j = pte_at s i j) by (intros; by apply pte_frame).
  assert (Htab : forall t, table_frame s t -> table_frame (set_pmm p (set_pmem m s)) t).
  { intros t (? & ? & ?). split; [done|]. split; [done|]. simpl. auto. }
  assert (Hinv' : vmm_inv (set_pmm p (set_pmem m s))).
  { split; simpl.
    - done.
    - done.
    - apply (vi_on _ Hinv).
    - apply (vi_cr3 _ Hinv).
    - apply Htab, (vi_pd _ Hinv).
    - intros i Hi. rewrite Hpde by done. intros Hpr. destruct (vi_tables _ Hinv i Hi Hpr). auto.
    - intros i j Hi Hj. rewrite !Hpde by done. by apply (vi_inj _ Hinv).
    - rewrite Hpde by done. apply (vi_low _ Hinv).
    - intros j Hj. rewrite Hpte by (done || apply (vi_low _ Hinv)). by apply (vi_ident _ Hinv). }
  split; [done|]. intros a Ha. rewrite !translate_entries by done.
  pose proof (pd_index_range a Ha). rewrite Hpde by done.
  destruct (present (pde_at s (PD_INDEX a))) eqn:E; [|done].
  by rewrite Hpte by (done || apply pt_index_range).
Qed.

(** Filling a 1024-word table that the code can reach at its own address. *)
Lemma fill_table s t (f : Z -> Z) :
  words32 (pmem s) -> (forall i, 0 <= i < 1024 -> 0 <= f i < 2 ^ 32) ->
  (forall m, words32 m -> (forall a, (forall i, 0 <= i < 1024 -> a <> t + 4 * i) -> rd m a = rd (pmem s) a) ->
     forall i, 0 <= i < 1024 -> translate (set_pmem m s) (t + 4 * i) = Some (t + 4 * i)) ->
  exists m, for_upM 1024 0 (fun i => vstore (t + 4 * i) (f i)) s = Ok (tt, set_pmem m s) /\
    words32 m /\
    (forall i, 0 <= i < 1024 -> rd m (t + 4 * i) = f i) /\
    (forall a, (forall i, 0 <= i < 1024 -> a <> t + 4 * i) -> rd m a = rd (pmem s) a).
Proof.
  intros Hw Hf Htr.
  destruct (for_upM_ok (fun k s' => exists m, s' = set_pmem m s /\ words32 m /\
      (forall i, 0 <= i < k -> rd m (t + 4 * i) = f i) /\
      (forall a, (forall i, 0 <= i < k -> a <> t + 4 * i) -> rd m a = rd (pmem s) a))
    (fun i => vstore (t + 4 * i) (f i)) 1024 0 s) as (s' & E & m & -> & H0 & H1 & H2).
  - exists (pmem s). split_and!; [by destruct s|done|lia|done].
  - intros k s' Hk (m & -> & H0 & H1 & H2). unfold vstore.
    rewrite Htr; [|done|intros a Ha; apply H2; intros i Hi; apply Ha; lia|lia].
    eexists. split; [done|]. eexists. split; [done|]. simpl. split_and!.
    + apply words32_insert; [done|apply Hf; lia].
    + intros i Hi. rewrite rd_insert. case_decide; [f_equal; lia|apply H1; lia].
    + intros a Ha. rewrite rd_insert_ne by (apply not_eq_sym, Ha; lia). apply H2.
      intros i Hi. apply Ha. lia.
  - exists m. split_and!; [exact E|exact H0|exact H1|exact H2].
Qed.

(** A free frame is not a paging structure. *)
Lemma free_frame_not_table s t f :
  table_frame s t -> bitmap_test (vm_pmm s) f = false -> f * PAGE_SIZE <> t.
Proof.
  intros (_ & _ & Ht) Hf <-. unfold PAGE_SIZE in Ht. rewrite Z.div_mul in Ht by done. congruence.
Qed.

Lemma not_in_tables s t i :
  vmm_inv s -> t mod 4096 = 0 -> (forall t', table_frame s t' -> t <> t') -> 0 <= i < 1024 ->
  ~ in_tables s (t + 4 * i).
Proof.
  intros Hinv Hal Hne Hi [(k & Hk & E) | (k & j & Hk & Hj & Hp & E)]; revert E.
  - apply table_words_ne; try done; [apply (vi_pd _ Hinv)|apply Hne, (vi_pd _ Hinv)].
  - destruct (vi_tables _ Hinv k Hk Hp) as [Htf _].
    apply table_words_ne; try done; [apply Htf|by apply Hne].
Qed.

(** Writing a page table entry above the identity map. *)
Lemma set_pte_spec s i k e :
  vmm_inv s -> 1 <= i < 1024 -> 0 <= k < 1024 -> present (pde_at s i) = true -> 0 <= e < 2 ^ 32 ->
  let s' := set_pmem (<[base (pde_at s i) + 4 * k := e]> (pmem s)) s in
  vmm_inv s' /\
  (forall i', 0 <= i' < 1024 -> pde_at s' i' = pde_at s i') /\
  (forall i' j', 0 <= i' < 1024 -> 0 <= j' < 1024 -> present (pde_at s i') = true ->
     pte_at s' i' j' = if decide (i' = i /\ j' = k) then e else pte_at s i' j').
Proof.
  intros Hinv Hi Hk Hpr He s'.
  destruct (vi_tables _ Hinv i ltac:(lia) Hpr) as [(Htal & Htr & Htb) Htne].
  assert (Hpde : forall i', 0 <= i' < 1024 -> pde_at s' i' = pde_at s i').
  { intros i' Hi'. unfold pde_at. simpl. apply rd_insert_ne.
    apply table_words_ne; try done. apply (vi_pd _ Hinv). }
  assert (Hpte : forall i' j', 0 <= i' < 1024 -> 0 <= j' < 1024 -> present (pde_at s i') = true ->
     pte_at s' i' j' = if decide (i' = i /\ j' = k) then e else pte_at s i' j').
  { intros i' j' Hi' Hj' Hp'. unfold pte_at. rewrite Hpde by done. simpl. rewrite rd_insert.
    destruct (decide (i' = i)) as [->|Hne].
    - destruct (decide (j' = k)) as [->|Hnk].
      + by rewrite !decide_True by done.
      + by rewrite !decide_False by lia.
    - rewrite (decide_False (P := i' = i /\ j' = k)) by tauto. rewrite decide_False; [done|].
      apply table_words_ne; try done; [|].
      + by destruct (vi_tables _ Hinv i' Hi' Hp') as [(? & _) _].
      + apply not_eq_sym. by apply (vi_inj _ Hinv i' i); try lia. }
  split_and!; [|done..].
  split; simpl.
  - apply Hinv.
  - apply words32_insert; [apply (vi_words _ Hinv)|done].
  - apply (vi_on _ Hinv).
  - apply (vi_cr3 _ Hinv).
  - apply (vi_pd _ Hinv).
  - intros i' Hi'. rewrite Hpde by done. apply (vi_tables _ Hinv i' Hi').
  - intros i' j' Hi' Hj'. rewrite !Hpde by done. by apply (vi_inj _ Hinv).
  - rewrite Hpde by done. apply (vi_low _ Hinv).
  - intros j Hj. rewrite Hpte by (lia || apply (vi_low _ Hinv)). rewrite decide_False by lia.
    by apply (vi_ident _ Hinv).
Qed.

(** Installing an empty table in a free directory slot changes no
    translation. *)
Lemma set_pde_spec s i t e :
  vmm_inv s -> 0 <= i < 1024 -> present (pde_at s i) = false ->
  table_frame s t -> ~ in_tables s t -> (forall j, 0 <= j < 1024 -> rd (pmem s) (t + 4 * j) = 0) ->
  0 <= e < 2 ^ 32 -> present e = true -> base e = t ->
  let s' := set_pmem (<[page_directory s + 4 * i := e]> (pmem s)) s in
  vmm_inv s' /\ pde_at s' i = e /\ forall a, 0 <= a < 2 ^ 32 -> translate s' a = translate s a.
Proof.
  intros Hinv Hi Habs Htf Hnew Hzero He Hpe Hbe s'.
  destruct Htf as (Htal & Htr & Htb). destruct (vi_pd _ Hinv) as (Hpal & _ & _).
  assert (Htne : t <> page_directory s) by (intros ->; apply Hnew; left; exists 0; lia).
  assert (Hold : forall k, 0 <= k < 1024 -> present (pde_at s k) = true -> t <> base (pde_at s k)).
  { intros k Hk Hp ->. apply Hnew. right. exists k, 0. split_and!; done || lia. }
  assert (Hi0 : i <> 0) by (intros ->; rewrite (vi_low _ Hinv) in Habs; done).
  assert (Hpde : forall k, 0 <= k < 1024 -> pde_at s' k = if decide (k = i) then e else pde_at s k).
  { intros k Hk. unfold pde_at. simpl. rewrite rd_insert. repeat case_decide; done || lia. }
  assert (Hpte : forall k j, 0 <= k < 1024 -> 0 <= j < 1024 -> k <> i -> present (pde_at s k) = true ->
      pte_at s' k j = pte_at s k j).
  { intros k j Hk Hj Hne Hp. unfold pte_at. rewrite Hpde, decide_False by done. simpl.
    apply rd_insert_ne. apply table_words_ne; try done.
    - by destruct (vi_tables _ Hinv k Hk Hp) as [(? & _) _].
    - apply not_eq_sym. by apply (vi_tables _ Hinv k Hk Hp). }
  assert (Hnone : forall j, 0 <= j < 1024 -> present (pte_at s' i j) = false).
  { intros j Hj. unfold pte_at. rewrite Hpde, decide_True, Hbe by done. simpl.
    rewrite rd_insert_ne; [by rewrite Hzero|]. by apply table_words_ne; try apply not_eq_sym. }
  assert (Hinv' : vmm_inv s').
  { split; simpl.
    - apply (vi_pmm _ Hinv).
    - apply words32_insert; [apply (vi_words _ Hinv)|done].
    - apply (vi_on _ Hinv).
    - apply (vi_cr3 _ Hinv).
    - apply (vi_pd _ Hinv).
    - intros k Hk. rewrite Hpde by done. case_decide.
      + rewrite Hbe. intros _. split; [|done]. split; [done|]. by split.
      + by apply (vi_tables _ Hinv).
    - intros k j Hk Hj Hne. rewrite !Hpde by done. repeat case_decide.
      + lia.
      + intros _ Hp. rewrite Hbe. by apply Hold.
      + intros Hp _. rewrite Hbe. apply not_eq_sym. by apply Hold.
      + by apply (vi_inj _ Hinv).
    - rewrite Hpde, decide_False by done. apply (vi_low _ Hinv).
    - intros j Hj. rewrite Hpte by (done || apply (vi_low _ Hinv)). by apply (vi_ident _ Hinv). }
  split_and!; [done|by rewrite Hpde, decide_True by done|].
  intros a Ha. rewrite !translate_entries by done. pose proof (pd_index_range a Ha).
  destruct (decide (PD_INDEX a = i)) as [->|Hne].
  - rewrite Habs, Hnone by apply pt_index_range. by rewrite andb_false_r.
  - rewrite Hpde, decide_False by done. destruct (present (pde_at s (PD_INDEX a))) eqn:E; [|done].
    by rewrite Hpte by (done || apply pt_index_range).
Qed.

(** ** [create_table] on its three branches *)

Lemma create_table_present s virt flags :
  vmm_inv s -> 0 <= virt < 2 ^ 32 -> present (pde_at s (PD_INDEX virt)) = true ->
  create_table virt flags s = Ok (base (pde_at s (PD_INDEX virt)), s).
Proof.
  intros Hinv Hv Hp. unfold create_table. pose proof (pd_index_range virt Hv).
  rewrite (bind_ok _ _ s (page_directory s) s) by done.
  rewrite (bind_ok _ _ s (pde_at s (PD_INDEX virt)) s).
  2: { apply vload_low; [done|]. eapply table_index_low; [apply (vi_pd _ Hinv)|done]. }
  by rewrite Hp.
Qed.

(** Up to the allocation of a new table. *)
Lemma create_table_absent s virt flags a p :
  vmm_inv s -> 0 <= virt < 2 ^ 32 -> present (pde_at s (PD_INDEX virt)) = false ->
  pmm_alloc_frame (vm_pmm s) = (a, p) ->
  create_table virt flags s =
    (if a =? 0 then mret 0 else
     zero_table a ;;
     vstore (page_directory s + 4 * PD_INDEX virt)
       (Z.lor (Z.lor (Z.lor a VMM_PRESENT) VMM_WRITABLE) (Z.land flags VMM_USER)) ;;
     mret a) (set_pmm p s).
Proof.
  intros Hinv Hv Hp Ha. unfold create_table. pose proof (pd_index_range virt Hv).
  rewrite (bind_ok _ _ s (page_directory s) s) by done.
  rewrite (bind_ok _ _ s (pde_at s (PD_INDEX virt)) s).
  2: { apply vload_low; [done|]. eapply table_index_low; [apply (vi_pd _ Hinv)|done]. }
  rewrite Hp. rewrite (bind_ok _ _ s a (set_pmm p s)); [done|].
  unfold alloc_frame. by rewrite Ha.
Qed.

(** What the frame allocator promises the virtual memory manager. *)
Lemma alloc_keeps_inv s a p :
  vmm_inv s -> pmm_alloc_frame (vm_pmm s) = (a, p) ->
  vmm_inv (set_pmm p s) /\
  (forall v, 0 <= v < 2 ^ 32 -> translate (set_pmm p s) v = translate s v) /\
  (a <> 0 -> a < LOW_END -> table_frame (set_pmm p s) a /\ (forall t, table_frame s t -> a <> t)).
Proof.
  intros Hinv Ha.
  destruct (pmm_alloc_frame_cases _ _ _ (vi_pmm _ Hinv) Ha)
    as [(f & Hf & [Hfr Hfree] & -> & Hp & Ht & _) | (-> & -> & _)].
  - destruct (vmm_inv_frame s (pmem s) p Hinv (vi_words _ Hinv)) as [H1 H2]; try done.
    { intros g Hg. rewrite Ht. by case_decide. }
    replace (set_pmem (pmem s) s) with s in * by (by destruct s).
    split_and!; [done..|]. intros _ Hlow. split.
    + unfold table_frame, PAGE_SIZE in *. rewrite Z.mod_mul, Z.div_mul by done.
      split_and!; [done|lia..|]. simpl. rewrite Ht. by case_decide.
    + intros t Htf. by apply (free_frame_not_table s).
  - replace (set_pmm (vm_pmm s) s) with s by (by destruct s). done.
Qed.

(** ** Frames of data

    A reserved frame that holds no paging structure. Growing an address space
    keeps such frames, and every word in them, as they are. *)
Definition data_frame (s : vmm_state) (f : Z) : Prop :=
  bitmap_test (vm_pmm s) f = true /\ f * 4096 <> page_directory s /\
  forall i, 0 <= i < 1024 -> present (pde_at s i) = true -> f * 4096 <> base (pde_at s i).

Record vmm_ext (s s' : vmm_state) : Prop := {
  ext_pd : page_directory s' = page_directory s;
  ext_pmm : forall f, bitmap_test (vm_pmm s) f = true -> bitmap_test (vm_pmm s') f = true;
  ext_pde : forall i, 0 <= i < 1024 -> present (pde_at s i) = true -> present (pde_at s' i) = true;
  ext_frame : forall f, data_frame s f -> data_frame s' f;
  ext_data : forall a, data_frame s (a / 4096) -> rd (pmem s') a = rd (pmem s) a
}.

#[export] Instance vmm_ext_preorder : PreOrder vmm_ext.
Proof.
  split; [by split|]. intros s1 s2 s3 [H1 H2 H3 H4 H5] [K1 K2 K3 K4 K5].
  split; [congruence|auto..]. intros a Ha. rewrite K5 by auto. auto.
Qed.

(** A data frame differs from every frame of the paging structures. *)
Lemma data_frame_word s a :
  vmm_inv s -> data_frame s (a / 4096) -> ~ in_tables s a.
Proof.
  intros Hinv (_ & Hpd & Hpt) [(i & Hi & ->)|(i & j & Hi & Hj & Hp & ->)].
  - apply Hpd. destruct (vi_pd _ Hinv) as (Hal & _). clear -Hi Hal. zlia.
  - apply (Hpt i Hi Hp). destruct (vi_tables _ Hinv i Hi Hp) as [(Hal & _) _]. clear -Hj Hal. zlia.
Qed.

(** Writing one word outside the directory, to no data frame. *)
Lemma ext_store s a v :
  vmm_inv s -> (forall i, 0 <= i < 1024 -> a <> page_directory s + 4 * i) ->
  ~ data_frame s (a / 4096) -> vmm_ext s (set_pmem (<[a := v]> (pmem s)) s).
Proof.
  intros Hinv Hout Hnd.
  assert (Hpde : forall i, 0 <= i < 1024 -> pde_at (set_pmem (<[a := v]> (pmem s)) s) i = pde_at s i).
  { intros i Hi. unfold pde_at. simpl. apply rd_insert_ne. by apply Hout. }
  split; try done.
  - intros i Hi. by rewrite Hpde.
  - intros f (H1 & H2 & H3). split_and!; [done..|]. intros i Hi. rewrite Hpde by done. by apply H3.
  - intros b Hb. simpl. apply rd_insert_ne. by intros <-.
Qed.

(** A freshly allocated frame [t] entered into the directory as a new table. *)
Lemma ext_new_table s p m i e t :
  vmm_inv s -> 0 <= i < 1024 ->
  (forall f, bitmap_test (vm_pmm s) f = true -> bitmap_test p f = true) ->
  bitmap_test (vm_pmm s) (t / 4096) = false -> t mod 4096 = 0 -> present e = true -> base e = t ->
  (forall b, (forall j, 0 <= j < 1024 -> b <> t + 4 * j) -> rd m b = rd (pmem s) b) ->
  vmm_ext s (set_pmem (<[page_directory s + 4 * i := e]> m) (set_pmm p s)).
Proof.
  intros Hinv Hi Hmono Hfree Hal Hpe Hbe Hm.
  destruct (vi_pd _ Hinv) as (Hpal & _ & Hpd).
  assert (Hne : t <> page_directory s) by (intros ->; congruence).
  assert (Hpde : forall k, 0 <= k < 1024 ->
    pde_at (set_pmem (<[page_directory s + 4 * i := e]> m) (set_pmm p s)) k =
    if decide (k = i) then e else pde_at s k).
  { intros k Hk. unfold pde_at. simpl. rewrite rd_insert. repeat case_decide; try lia.
    apply Hm. intros j Hj Heq. clear -Hne Hpal Hal Hk Hj Heq. zlia. }
  split; try done.
  - intros k Hk Hp. rewrite Hpde by done. by case_decide.
  - intros f (H1 & H2 & H3). split_and!; [by apply Hmono|done|]. intros k Hk.
    rewrite Hpde by done. case_decide; [|by apply H3]. intros _ Heq. rewrite Hbe in Heq.
    rewrite <- Heq, Z.div_mul in Hfree by done. congruence.
  - intros a Ha. simpl. rewrite rd_insert_ne.
    + apply Hm. intros j Hj ->. destruct Ha as [Ha _].
      replace ((t + 4 * j) / 4096) with (t / 4096) in Ha by (clear -Hal Hj; zlia). congruence.
    + intros <-. apply (data_frame_word s _ Hinv Ha). left. eauto.
Qed.

(** Clearing a frame fresh from the allocator. *)
Lemma zero_new_table s a p :
  vmm_inv s -> pmm_alloc_frame (vm_pmm s) = (a, p) -> a <> 0 -> a < LOW_END ->
  exists m, zero_table a (set_pmm p s) = Ok (tt, set_pmem m (set_pmm p s)) /\
    words32 m /\ (forall j, 0 <= j < 1024 -> rd m (a + 4 * j) = 0) /\
    (forall b, (forall j, 0 <= j < 1024 -> b <> a + 4 * j) -> rd m b = rd (pmem s) b) /\
    (forall m', words32 m' ->
       (forall b, (forall j, 0 <= j < 1024 -> b <> a + 4 * j) -> rd m' b = rd (pmem s) b) ->
       vmm_inv (set_pmem m' (set_pmm p s)) /\
       forall v, 0 <= v < 2 ^ 32 -> translate (set_pmem m' (set_pmm p s)) v = translate s v) /\
    table_frame (set_pmm p s) a /\ (forall j, 0 <= j < 1024 -> ~ in_tables s (a + 4 * j)).
Proof.
  intros Hinv Ha Hnz Hlow.
  destruct (alloc_keeps_inv s a p Hinv Ha) as (Hinv1 & Htr1 & Hnew).
  destruct (Hnew Hnz Hlow) as [Htf Hfresh]. set (s1 := set_pmm p s) in *.
  pose proof Htf as (Hal & Hr & _).
  assert (Hout : forall i, 0 <= i < 1024 -> ~ in_tables s (a + 4 * i)).
  { intros i Hi'. by apply not_in_tables. }
  assert (Hframe : forall m, words32 m ->
     (forall b, (forall i, 0 <= i < 1024 -> b <> a + 4 * i) -> rd m b = rd (pmem s) b) ->
     vmm_inv (set_pmem m s1) /\
     forall v, 0 <= v < 2 ^ 32 -> translate (set_pmem m s1) v = translate s v).
  { intros m Hw Hm. destruct (vmm_inv_frame s1 m p Hinv1) as [H1 H2]; try done.
    { intros b Hb. apply Hm. intros i Hi' ->. by apply (Hout i Hi'). }
    { apply (vi_pmm _ Hinv1). } }
  destruct (fill_table s1 a (fun _ => 0)) as (m & E & Hw & Hz & Hm); try done.
  { apply (vi_words _ Hinv1). }
  { intros m Hw Hm i Hi'. pose proof (table_index_low s1 a i Htf Hi').
    rewrite (proj2 (Hframe m Hw Hm)) by (unfold LOW_END in *; lia). by apply translate_low. }
  exists m. by split_and!.
Qed.

Lemma create_table_new s virt flags a p :
  vmm_inv s -> 0 <= virt < 2 ^ 32 -> present (pde_at s (PD_INDEX virt)) = false ->
  pmm_alloc_frame (vm_pmm s) = (a, p) -> a <> 0 -> a < LOW_END ->
  exists s', create_table virt flags s = Ok (a, s') /\ vmm_inv s' /\
    page_directory s' = page_directory s /\ vm_pmm s' = p /\
    present (pde_at s' (PD_INDEX virt)) = true /\ base (pde_at s' (PD_INDEX virt)) = a /\
    vmm_ext s s' /\ forall v, 0 <= v < 2 ^ 32 -> translate s' v = translate s v.
Proof.
  intros Hinv Hv Hp Ha Hnz Hlow. rewrite (create_table_absent s virt flags a p) by done.
  rewrite (proj2 (Z.eqb_neq a 0) Hnz). pose proof (pd_index_range virt Hv) as Hi.
  destruct (zero_new_table s a p Hinv Ha Hnz Hlow) as (m & E & Hw & Hz & Hm & Hframe & Htf & Hout).
  set (s1 := set_pmm p s) in *. pose proof Htf as (Hal & Hr & _).
  destruct (Hframe m Hw Hm) as [Hinv2 Htr2].
  destruct (pde_entry_spec a flags ltac:(unfold LOW_END in *; lia) Hal) as (He & Hpe & Hbe).
  set (e := Z.lor _ (Z.land flags VMM_USER)) in *.
  destruct (set_pde_spec (set_pmem m s1) (PD_INDEX virt) a e) as (Hinv3 & Hpde & Htr3); try done.
  { unfold pde_at. simpl. rewrite Hm; [done|]. intros i Hi' Heq.
    apply (Hout i Hi'). left. eauto. }
  { intros Hin. apply (Hout 0 ltac:(lia)). rewrite Z.add_0_r.
    destruct Hin as [Hin|(k & j & Hk & Hj & Hpk & ->)]; [by left|right].
    assert (pde_at (set_pmem m s1) k = pde_at s k) as Heq.
    { unfold pde_at. simpl. apply Hm. intros i Hi' Heq. apply (Hout i Hi'). left. eauto. }
    rewrite Heq in *. eauto 7. }
  set (s3 := set_pmem (<[_ := e]> _) _) in *. exists s3. split.
  { rewrite (bind_ok _ _ _ _ _ E).
    pose proof (vstore_low _ (page_directory s + 4 * PD_INDEX virt) e Hinv2
      (table_index_low _ _ _ (vi_pd _ Hinv) Hi)) as E2.
    by rewrite (bind_ok _ _ _ _ _ E2). }
  split_and!; try done; [by rewrite Hpde..| |].
  - destruct (pmm_alloc_frame_cases _ _ _ (vi_pmm _ Hinv) Ha)
      as [(f & _ & [_ Hfree] & -> & _ & Ht & _) | (-> & _)]; [|done].
    apply (ext_new_table s p m (PD_INDEX virt) e (f * PAGE_SIZE)); try done.
    + intros g Hg. rewrite Ht. by case_decide.
    + unfold PAGE_SIZE. by rewrite Z.div_mul.
  - intros v Hv'. by rewrite Htr3, Htr2.
Qed.

(** ** Mapping and unmapping one page *)

(** The last step of [vmm_map_page] and of [vmm_unmap_page]: writing a page
    table entry changes the translation of that page only. *)
Lemma store_pte_spec s virt e :
  vmm_inv s -> LOW_END <= virt < 2 ^ 32 -> present (pde_at s (PD_INDEX virt)) = true ->
  0 <= e < 2 ^ 32 ->
  exists s', vstore (base (pde_at s (PD_INDEX virt)) + 4 * PT_INDEX virt) e s = Ok (tt, s') /\
    vmm_inv s' /\ vm_pmm s' = vm_pmm s /\ vmm_ext s s' /\
    forall v, 0 <= v < 2 ^ 32 -> translate s' v =
      if decide (v / 4096 = virt / 4096)
      then (if present e then Some (base e + v mod 4096) else None) else translate s v.
Proof.
  intros Hinv Hv Hp He. unfold LOW_END in *.
  assert (Hi : 1 <= PD_INDEX virt < 1024) by (rewrite pd_index_div; zlia).
  pose proof (pt_index_range virt) as Hk.
  destruct (set_pte_spec s (PD_INDEX virt) (PT_INDEX virt) e Hinv Hi Hk Hp He) as (Hinv' & Hpde & Hpte).
  eexists. split.
  { apply vstore_low; [done|]. eapply table_index_low; [|done].
    apply (vi_tables _ Hinv); [lia|done]. }
  destruct (vi_tables _ Hinv (PD_INDEX virt) ltac:(lia) Hp) as [(Hal & _) Hnpd].
  split_and!; [done..| |].
  { apply ext_store; [done| |].
    - intros i Hi'. destruct (vi_pd _ Hinv) as (Hpal & _). by apply table_words_ne.
    - intros (_ & _ & H3). apply (H3 (PD_INDEX virt) ltac:(lia) Hp). clear -Hal Hk. zlia. }
  intros v Hv'. rewrite !translate_entries by done.
  pose proof (pd_index_range v Hv'). rewrite Hpde by done.
  assert (Hsame : PD_INDEX v = PD_INDEX virt /\ PT_INDEX v = PT_INDEX virt <-> v / 4096 = virt / 4096)
    by (apply same_page; lia).
  case_decide as Hd.
  - apply Hsame in Hd as [E1 E2]. rewrite Hpte by (done || apply pt_index_range || by rewrite E1).
    rewrite decide_True by done. rewrite E1, Hp. done.
  - destruct (present (pde_at s (PD_INDEX v))) eqn:Ep; [|done].
    rewrite Hpte by (done || apply pt_index_range). rewrite decide_False; [done|]. tauto.
Qed.

(** A directory entry or a low free frame is at hand for the table of [virt]. *)
Definition table_available (s : vmm_state) (virt : Z) : Prop :=
  present (pde_at s (PD_INDEX virt)) = true \/
  (pmm_alloc_frame (vm_pmm s)).1 <> 0 /\ (pmm_alloc_frame (vm_pmm s)).1 < LOW_END.

Lemma create_table_ok s virt flags :
  vmm_inv s -> 0 <= virt < 2 ^ 32 -> table_available s virt ->
  exists s' pt, create_table virt flags s = Ok (pt, s') /\ vmm_inv s' /\ pt <> 0 /\
    present (pde_at s' (PD_INDEX virt)) = true /\ base (pde_at s' (PD_INDEX virt)) = pt /\
    vmm_ext s s' /\ forall v, 0 <= v < 2 ^ 32 -> translate s' v = translate s v.
Proof.
  intros Hinv Hv Hav. destruct (present (pde_at s (PD_INDEX virt))) eqn:Hp.
  - exists s. eexists. split; [by apply create_table_present|]. split_and!; try done.
    destruct (vi_tables _ Hinv _ (pd_index_range virt Hv) Hp) as [(_ & ? & _) _]. lia.
  - destruct Hav as [|[Hnz Hlow]]; [congruence|].
    destruct (pmm_alloc_frame (vm_pmm s)) as [a p] eqn:Ha. simpl in *.
    destruct (create_table_new s virt flags a p) as (s' & E & H1 & _ & H2 & H3 & H4 & H5 & H6); try done.
    exists s', a. by split_and!.
Qed.

Lemma map_page_spec s virt phys flags :
  vmm_inv s -> LOW_END <= virt < 2 ^ 32 -> 0 <= phys < 2 ^ 32 -> 0 <= flags < 4096 ->
  table_available s virt ->
  exists s', vmm_map_page virt phys flags s = Ok (tt, s') /\ vmm_inv s' /\ vmm_ext s s' /\
    forall v, 0 <= v < 2 ^ 32 -> translate s' v =
      if decide (v / 4096 = virt / 4096) then Some (base phys + v mod 4096) else translate s v.
Proof.
  intros Hinv Hv Hp Hf Hav. unfold LOW_END in Hv.
  destruct (create_table_ok s virt flags Hinv ltac:(lia) Hav) as (s1 & pt & E & Hinv1 & Hnz & Hpr & Hb & Hm & Ht).
  unfold vmm_map_page. rewrite (bind_ok _ _ _ _ _ E), (proj2 (Z.eqb_neq pt 0) Hnz).
  destruct (map_entry_spec phys flags Hp Hf) as (He & Hpe & Hbe).
  destruct (store_pte_spec s1 virt (map_entry phys flags) Hinv1 Hv Hpr He) as (s' & E2 & H1 & _ & H2 & H3).
  rewrite <- Hb. exists s'. split_and!; [done..|by etrans|].
  intros v Hv'. rewrite H3, Hpe, Hbe, Ht by done. done.
Qed.

Lemma walk_loads s v :
  vmm_inv s -> 0 <= v < 2 ^ 32 ->
  vload (page_directory s + 4 * PD_INDEX v) s = Ok (pde_at s (PD_INDEX v), s) /\
  (present (pde_at s (PD_INDEX v)) = true ->
   vload (base (pde_at s (PD_INDEX v)) + 4 * PT_INDEX v) s =
     Ok (pte_at s (PD_INDEX v) (PT_INDEX v), s)).
Proof.
  intros Hinv Hv. pose proof (pd_index_range v Hv). pose proof (pt_index_range v). split.
  - apply vload_low; [done|]. eapply table_index_low; [apply (vi_pd _ Hinv)|done].
  - intros Hp. apply vload_low; [done|]. eapply table_index_low; [|done].
    by apply (vi_tables _ Hinv).
Qed.

Lemma vmm_is_mapped_run s v :
  vmm_inv s -> 0 <= v < 2 ^ 32 -> vmm_is_mapped v s = Ok (bool_decide (is_Some (translate s v)), s).
Proof.
  intros Hinv Hv. destruct (walk_loads s v Hinv Hv) as [E1 E2]. unfold vmm_is_mapped. rewrite translate_entries by done.
  rewrite (bind_ok _ _ s (page_directory s) s), (bind_ok _ _ _ _ _ E1) by done.
  destruct (present (pde_at s (PD_INDEX v))); [|done]. cbn [negb andb]. rewrite (bind_ok _ _ _ _ _ (E2 eq_refl)).
  by destruct (present (pte_at s (PD_INDEX v) (PT_INDEX v))).
Qed.

(** All addresses of a page are mapped, or none. *)
Lemma translate_page s a b : vmm_inv s -> 0 <= a < 2 ^ 32 -> 0 <= b < 2 ^ 32 -> a / 4096 = b / 4096 ->
  translate s a = None -> translate s b = None.
Proof.
  intros Hinv Ha Hb Hp. rewrite !translate_entries by done. apply same_page in Hp as [-> ->]; [|done..].
  by destruct (_ && _).
Qed.

(** ** Properties *)

(** C16: [vmm_map_page] above the identity map. When the directory has a table
    for the address, or the allocator has a frame below 4 MiB for a new one,
    the call returns; afterwards the MMU maps exactly the page of [virt] to the
    page of [phys], every other address translates as before, and the
    address-space invariant holds. *)
Theorem vmm_map_page_correct s virt phys flags :
  vmm_inv s -> LOW_END <= virt < 2 ^ 32 -> 0 <= phys < 2 ^ 32 -> 0 <= flags < 4096 ->
  table_available s virt ->
  exists s', vmm_map_page virt phys flags s = Ok (tt, s') /\ vmm_inv s' /\
    forall v, 0 <= v < 2 ^ 32 -> translate s' v =
      if decide (v / 4096 = virt / 4096) then Some (phys - phys mod 4096 + v mod 4096)
      else translate s v.
Proof.
  intros Hinv Hv Hp Hf Hav.
  destruct (map_page_spec s virt phys flags) as (s' & E & H1 & _ & H2); try done.
  exists s'. rewrite <- base_round by done. done.
Qed.

(** the ways [vmm_map_page] fails when the address has no table yet: the
    kernel panics if no frame is left, and it page-faults while clearing the
    new table if the frame it got is not mapped at its own address, as any
    frame above the 4 MiB identity map. *)
Theorem vmm_map_page_failures s virt phys flags :
  vmm_inv s -> 0 <= virt < 2 ^ 32 -> present (pde_at s (PD_INDEX virt)) = false ->
  let a := (pmm_alloc_frame (vm_pmm s)).1 in
  (a = 0 -> vmm_map_page virt phys flags s =
     Stop (Panic "VMM: vmm_map_page — page table allocation failed")) /\
  (a <> 0 -> translate s a = None -> vmm_map_page virt phys flags s = Stop (PageFault a)).
Proof.
  intros Hinv Hv Hp a. subst a. destruct (pmm_alloc_frame (vm_pmm s)) as [a p] eqn:Ha. simpl.
  pose proof (create_table_absent s virt flags a p Hinv Hv Hp Ha) as Ec. unfold vmm_map_page. split.
  - intros ->. by rewrite (bind_ok _ _ _ _ _ Ec).
  - intros Hnz Htr. apply bind_stop. rewrite Ec, (proj2 (Z.eqb_neq a 0) Hnz). apply bind_stop.
    unfold zero_table. simpl. apply bind_stop. unfold vstore. rewrite Z.add_0_r.
    change (translate (set_pmm p s) a) with (translate s a). by rewrite Htr.
Qed.

(** [vmm_create_address_space] returns 0 when no frame is left. Otherwise,
    when the new directory's frame is reachable, it leaves the running address
    space as it was and returns a directory in which the CPU maps the first
    4 MiB to themselves and nothing else: in particular no page of the kernel
    heap, which lives above 16 MiB. *)
Theorem vmm_create_address_space_correct s a p :
  vmm_inv s -> kernel_pd_phys s = page_directory s -> pmm_alloc_frame (vm_pmm s) = (a, p) -> a < LOW_END ->
  exists s', vmm_create_address_space s = Ok (a, s') /\ vmm_inv s' /\
    (forall v, 0 <= v < 2 ^ 32 -> translate s' v = translate s v) /\
    (a <> 0 -> forall v, 0 <= v < 2 ^ 32 ->
       walk (pmem s') a v = if decide (v < LOW_END) then Some v else None).
Proof.
  intros Hinv Hkpd Ha Hlow. unfold vmm_create_address_space.
  destruct (alloc_keeps_inv s a p Hinv Ha) as (Hinv1 & Htr1 & _).
  rewrite (bind_ok _ _ s a (set_pmm p s)) by (unfold alloc_frame; by rewrite Ha).
  destruct (Z.eqb_spec a 0) as [->|Hnz]; [exists (set_pmm p s); by split_and!|].
  destruct (zero_new_table s a p Hinv Ha Hnz Hlow) as (m & E & Hw & Hz & Hm & Hframe & Htf & Hout).
  rewrite (bind_ok _ _ _ _ _ E), (bind_ok _ _ _ (page_directory s) (set_pmem m (set_pmm p s)))
    by (unfold gets; simpl; by rewrite Hkpd).
  destruct (Hframe m Hw Hm) as [Hinv2 Htr2]. pose proof Htf as (Hal & Hr & _).
  assert (Hpd0 : rd m (page_directory s + 4 * 0) = pde_at s 0).
  { apply Hm. intros j Hj Heq. apply (Hout j Hj). left. exists 0. lia. }
  set (m' := <[a + 4 * 0 := pde_at s 0]> m).
  destruct (Hframe m') as [Hinv3 Htr3].
  { apply words32_insert; [done|apply (vi_words _ Hinv)]. }
  { intros b Hb. subst m'. rewrite rd_insert_ne; [by apply Hm|]. apply not_eq_sym, Hb. lia. }
  exists (set_pmem m' (set_pmm p s)). split_and!; [|done..|].
  { rewrite (bind_ok _ _ (set_pmem m (set_pmm p s)) tt (set_pmem m' (set_pmm p s))); [done|].
    cbn [for_upM]. rewrite (bind_ok _ _ (set_pmem m (set_pmm p s)) tt (set_pmem m' (set_pmm p s))); [done|].
    rewrite (bind_ok _ _ _ (pde_at s 0) (set_pmem m (set_pmm p s))).
    - rewrite vstore_low; [done|done|]. rewrite Z.mul_0_r, Z.add_0_r. lia.
    - rewrite vload_low; [by rewrite <- Hpd0|done|].
      destruct (vi_pd _ Hinv) as (_ & ? & _). lia. }
  intros _ v Hv. pose proof (pd_index_range v Hv) as Hi. unfold walk. simpl.
  case_decide as Hd.
  - assert (PD_INDEX v = 0) as Hi0 by (rewrite pd_index_div; unfold LOW_END in *; zlia).
    rewrite Hi0. subst m'. rewrite rd_insert_eq, (vi_low _ Hinv). simpl.
    destruct (vi_tables _ Hinv 0 ltac:(lia) (vi_low _ Hinv)) as [(Htal & _) _].
    pose proof (pt_index_range v) as Hk.
    assert (Ha0 : base (pde_at s 0) <> a).
    { intros Heq. apply (Hout 0 ltac:(lia)). right. exists 0, 0. rewrite <- Heq. split_and!; try lia.
      apply (vi_low _ Hinv). }
    rewrite rd_insert_ne by (apply table_words_ne; done || lia).
    rewrite Hm by (intros j Hj; by apply table_words_ne).
    fold (pte_at s 0 (PT_INDEX v)). destruct (vi_ident _ Hinv _ Hk) as [-> Hb]. simpl. f_equal.
    pose proof (translate_low s v Hinv ltac:(lia)) as Ht. rewrite translate_entries, Hi0 in Ht by done.
    destruct (vi_ident _ Hinv _ Hk) as [Hpp _]. rewrite (vi_low _ Hinv), Hpp in Ht. injection Ht as Ht.
    rewrite offset_mod. rewrite (lor_low_add 12); [done|done| |zlia]. rewrite Hb. by rewrite Z.mod_mul.
  - assert (PD_INDEX v <> 0) as Hi0 by (rewrite pd_index_div; unfold LOW_END in *; zlia).
    subst m'. rewrite rd_insert_ne, Hz by (done || lia). done.
Qed.

(** The software walk of [vmm_get_phys] and [vmm_is_mapped] agrees with
    the MMU on every address. *)
Theorem vmm_get_phys_is_translation s v :
  vmm_inv s -> 0 <= v < 2 ^ 32 ->
  vmm_get_phys v s = Ok (default 0 (translate s v), s) /\
  vmm_is_mapped v s = Ok (bool_decide (is_Some (translate s v)), s).
Proof.
  intros Hinv Hv. split; [|by apply vmm_is_mapped_run]. destruct (walk_loads s v Hinv Hv) as [E1 E2].
  unfold vmm_get_phys. rewrite translate_entries, (bind_ok _ _ s (page_directory s) s), (bind_ok _ _ _ _ _ E1) by done.
  destruct (present (pde_at s (PD_INDEX v))); [|done]. cbn [negb andb]. rewrite (bind_ok _ _ _ _ _ (E2 eq_refl)).
  destruct (present (pte_at s (PD_INDEX v) (PT_INDEX v))); [|done]. simpl. rewrite offset_mod, (lor_low_add 12); try done; [|zlia].
  apply base_aligned, (vi_words _ Hinv).
Qed.

(** [vmm_unmap_page] above the identity map returns, leaves the page
    unmapped and every other address translated as before. *)
Theorem vmm_unmap_page_correct s virt :
  vmm_inv s -> LOW_END <= virt < 2 ^ 32 ->
  exists s', vmm_unmap_page virt s = Ok (tt, s') /\ vmm_inv s' /\
    forall v, 0 <= v < 2 ^ 32 -> translate s' v =
      if decide (v / 4096 = virt / 4096) then None else translate s v.
Proof.
  intros Hinv Hv. unfold LOW_END in Hv.
  destruct (walk_loads s virt Hinv ltac:(lia)) as [E1 _]. unfold vmm_unmap_page.
  rewrite (bind_ok _ _ s (page_directory s) s), (bind_ok _ _ _ _ _ E1) by done.
  destruct (present (pde_at s (PD_INDEX virt))) eqn:Hp; cbn [negb].
  - destruct (store_pte_spec s virt 0 Hinv Hv Hp ltac:(lia)) as (s' & -> & H1 & _ & _ & H2).
    exists s'. split_and!; [done..|]. intros v Hv'. by rewrite H2.
  - exists s. split_and!; [done..|]. intros v Hv'. case_decide as Hd; [|done].
    apply (same_page v virt) in Hd as [E _]; [|lia..].
    by rewrite translate_entries, E, Hp by done.
Qed.

(** ** Start-up *)

Lemma kernel_entry_spec x :
  0 <= x < 2 ^ 32 -> x mod 4096 = 0 ->
  0 <= Z.lor x VMM_KERNEL_RW < 2 ^ 32 /\ present (Z.lor x VMM_KERNEL_RW) = true /\
  base (Z.lor x VMM_KERNEL_RW) = x.
Proof.
  intros Hx Ha. destruct (map_entry_spec x VMM_WRITABLE Hx ltac:(done)) as (H1 & H2 & H3).
  unfold map_entry in *. rewrite (base_round x), Ha, Z.sub_0_r in * by done. done.
Qed.

(** The frames [vmm_init] gets from the allocator. *)
Lemma init_frames s a1 p1 a2 p2 :
  pmm_inv s -> pmm_alloc_frame s = (a1, p1) -> pmm_alloc_frame p1 = (a2, p2) -> a1 <> 0 -> a2 <> 0 ->
  pmm_inv p2 /\ a1 mod 4096 = 0 /\ a2 mod 4096 = 0 /\ 4096 <= a1 /\ 4096 <= a2 /\ a1 <> a2 /\
  bitmap_test p2 (a1 / 4096) = true /\ bitmap_test p2 (a2 / 4096) = true.
Proof.
  intros Hinv E1 E2 H1 H2.
  destruct (pmm_alloc_frame_cases s a1 p1 Hinv E1)
    as [(f1 & Hf1 & _ & -> & Hp1 & Ht1 & _) | (? & _)]; [|done].
  destruct (pmm_alloc_frame_cases p1 a2 p2 Hp1 E2)
    as [(f2 & Hf2 & [_ Hfree] & -> & Hp2 & Ht2 & _) | (? & _)]; [|done].
  unfold PAGE_SIZE in *. rewrite !Z.mod_mul, !Z.div_mul by done. rewrite !Ht2, !Ht1.
  rewrite Ht1 in Hfree. split_and!; try done; try lia; repeat case_decide; try done; try lia.
Qed.

Lemma translate_off s a : paging s = false -> translate s a = Some a.
Proof. intros H. unfold translate. by rewrite H. Qed.

Lemma vmm_init_state s a1 p1 a2 p2 :
  pmm_inv (vm_pmm s) -> words32 (pmem s) -> paging s = false ->
  pmm_alloc_frame (vm_pmm s) = (a1, p1) -> pmm_alloc_frame p1 = (a2, p2) ->
  a1 <> 0 -> a2 <> 0 -> a1 < LOW_END -> a2 < LOW_END ->
  exists m, vmm_init s = Ok (tt, VmmState p2 m a1 a1 a1 true) /\ words32 m /\
    rd m a1 = Z.lor a2 VMM_KERNEL_RW /\
    (forall i, 1 <= i < 1024 -> rd m (a1 + 4 * i) = 0) /\
    (forall j, 0 <= j < 1024 -> rd m (a2 + 4 * j) = Z.lor (j * 4096) VMM_KERNEL_RW).
Proof.
  intros Hp Hw Hoff E1 E2 Hz1 Hz2 Hl1 Hl2. unfold LOW_END in *.
  destruct (init_frames _ _ _ _ _ Hp E1 E2 Hz1 Hz2) as (Hp2 & Ha1 & Ha2 & Hg1 & Hg2 & Hne & _ & _).
  unfold vmm_init. rewrite (bind_ok _ _ s a1 (set_pmm p1 s)) by (unfold alloc_frame; by rewrite E1).
  rewrite (proj2 (Z.eqb_neq a1 0) Hz1).
  set (s2 := VmmState p1 (pmem s) a1 a1 (cr3 s) (paging s)).
  rewrite (bind_ok _ _ (set_pmm p1 s) tt s2) by done.
  destruct (fill_table s2 a1 (fun _ => 0)) as (m1 & F1 & Hw1 & Hz & Ho1); try done.
  { intros. by apply translate_off. }
  unfold zero_table. rewrite (bind_ok _ _ _ _ _ F1).
  rewrite (bind_ok _ _ (set_pmem m1 s2) a2 (set_pmm p2 (set_pmem m1 s2)))
    by (unfold alloc_frame; simpl; by rewrite E2).
  rewrite (proj2 (Z.eqb_neq a2 0) Hz2).
  assert (Hent : forall i, 0 <= i < 1024 -> i *w PAGE_SIZE = i * 4096).
  { intros i Hi. apply u32_small. unfold PAGE_SIZE. lia. }
  destruct (fill_table (set_pmm p2 (set_pmem m1 s2)) a2 (fun i => Z.lor (i *w PAGE_SIZE) VMM_KERNEL_RW))
    as (m2 & F2 & Hw2 & Hpt & Ho2); try done.
  { intros i Hi. rewrite Hent by done. apply kernel_entry_spec; [lia|]. by rewrite Z.mod_mul. }
  { intros. by apply translate_off. }
  rewrite (bind_ok _ _ _ _ _ F2).
  destruct (kernel_entry_spec a2 ltac:(lia) Ha2) as (He & _ & _).
  exists (<[a1 + 4 * 0 := Z.lor a2 VMM_KERNEL_RW]> m2). split.
  { unfold vstore, mbind, M_bind. rewrite translate_off by done. done. }
  split_and!.
  - by apply words32_insert.
  - rewrite Z.mul_0_r, Z.add_0_r. apply rd_insert_eq.
  - intros i Hi. rewrite rd_insert_ne by lia. rewrite Ho2.
    + apply Hz. lia.
    + intros j Hj. apply table_words_ne; try done. lia.
  - intros j Hj. rewrite rd_insert_ne by (apply table_words_ne; done || lia).
    rewrite Hpt by done. by rewrite Hent.
Qed.

Lemma vmm_init_spec s a1 p1 a2 p2 :
  pmm_inv (vm_pmm s) -> words32 (pmem s) -> paging s = false ->
  pmm_alloc_frame (vm_pmm s) = (a1, p1) -> pmm_alloc_frame p1 = (a2, p2) ->
  a1 <> 0 -> a2 <> 0 -> a1 < LOW_END -> a2 < LOW_END ->
  exists s', vmm_init s = Ok (tt, s') /\ vmm_inv s' /\ kernel_pd_phys s' = a1 /\
    forall a, 0 <= a < 2 ^ 32 -> translate s' a = if decide (a < LOW_END) then Some a else None.
Proof.
  intros Hp Hw Hoff E1 E2 Hz1 Hz2 Hl1 Hl2.
  destruct (vmm_init_state s a1 p1 a2 p2) as (m & E & Hwm & H0 & Hi & Hj); try done.
  destruct (init_frames _ _ _ _ _ Hp E1 E2 Hz1 Hz2) as (Hp2 & Ha1 & Ha2 & Hg1 & Hg2 & Hne & Ht1 & Ht2).
  set (s' := VmmState p2 m a1 a1 a1 true) in *.
  assert (Hpde0 : pde_at s' 0 = Z.lor a2 VMM_KERNEL_RW)
    by (unfold pde_at; simpl; by rewrite Z.add_0_r).
  assert (Hpdei : forall i, 1 <= i < 1024 -> pde_at s' i = 0) by (intros; by apply Hi).
  destruct (kernel_entry_spec a2) as (He & Hpr & Hb); [unfold LOW_END in *; lia|done|].
  assert (Hpte : forall j, 0 <= j < 1024 -> pte_at s' 0 j = Z.lor (j * 4096) VMM_KERNEL_RW).
  { intros j Hj'. unfold pte_at. rewrite Hpde0, Hb. by apply Hj. }
  assert (Habs : forall i, 0 <= i < 1024 -> present (pde_at s' i) = true -> i = 0).
  { intros i Hi' Hpi. destruct (decide (i = 0)); [done|]. by rewrite Hpdei in Hpi by lia. }
  assert (Hinv : vmm_inv s').
  { split; try done.
    - intros i Hi' Hpi. rewrite (Habs i Hi' Hpi), Hpde0, Hb. done.
    - intros i j Hi' Hj' Hnij Hpi Hpj. rewrite (Habs i Hi' Hpi), (Habs j Hj' Hpj) in Hnij. done.
    - by rewrite Hpde0.
    - intros j Hj'. rewrite Hpte by done. apply kernel_entry_spec; [lia|]. by rewrite Z.mod_mul. }
  exists s'. split_and!; try done. intros a Ha. case_decide as Hlow.
  - apply translate_low; [done|lia].
  - rewrite translate_entries by done. rewrite Hpdei; [done|].
    unfold LOW_END in *. rewrite pd_index_div. zlia.
Qed.

(** [vmm_init] with paging off and two free frames below 4 MiB returns
    with paging on and the address-space invariant established: the first
    4 MiB are mapped to themselves and nothing else is mapped. *)
Theorem vmm_init_correct s a1 p1 a2 p2 :
  pmm_inv (vm_pmm s) -> words32 (pmem s) -> paging s = false ->
  pmm_alloc_frame (vm_pmm s) = (a1, p1) -> pmm_alloc_frame p1 = (a2, p2) ->
  a1 <> 0 -> a2 <> 0 -> a1 < LOW_END -> a2 < LOW_END ->
  exists s', vmm_init s = Ok (tt, s') /\ vmm_inv s' /\ kernel_pd_phys s' = a1 /\
    forall a, 0 <= a < 2 ^ 32 -> translate s' a = if decide (a < LOW_END) then Some a else None.
Proof. apply vmm_init_spec. Qed.

(** ** Range checks on user pointers *)

(** Page [a] passes the check of [vmm_range_mapped]. *)
Definition page_ok (s : vmm_state) (user_only : bool) (a : Z) : bool :=
  let pde := pde_at s (PD_INDEX a) in
  let pte := pte_at s (PD_INDEX a) (PT_INDEX a) in
  present pde && present pte &&
  (negb user_only || truthy (Z.land pde VMM_USER) && truthy (Z.land pte VMM_USER)).

Fixpoint all_pages (s : vmm_state) (user_only : bool) (n : nat) (a : Z) : bool :=
  match n with
  | O => true
  | S n' => page_ok s user_only a && all_pages s user_only n' (a + 4096)
  end.

Lemma all_pages_true s user n a :
  all_pages s user n a = true <->
  forall k, 0 <= k < Z.of_nat n -> page_ok s user (a + 4096 * k) = true.
Proof.
  revert a. induction n as [|n IH]; intros a; simpl; [split; [lia|done]|].
  rewrite andb_true_iff, IH. split.
  - intros [H0 H] k Hk. destruct (decide (k = 0)) as [->|]; [by rewrite Z.mul_0_r, Z.add_0_r|].
    replace (a + 4096 * k) with (a + 4096 + 4096 * (k - 1)) by lia. apply H. lia.
  - intros H. split.
    + specialize (H 0 ltac:(lia)). by rewrite Z.mul_0_r, Z.add_0_r in H.
    + intros k Hk. replace (a + 4096 + 4096 * k) with (a + 4096 * (k + 1)) by lia. apply H. lia.
Qed.

Lemma range_loop_spec s user n fuel addr :
  vmm_inv s -> 0 <= addr -> addr + 4096 * Z.of_nat n < 2 ^ 32 -> (n <= fuel)%nat ->
  range_mapped_loop fuel (page_directory s) addr (addr + 4096 * Z.of_nat n) user s =
    Ok (all_pages s user n addr, s).
Proof.
  intros Hinv. revert fuel addr. induction n as [|n IH]; intros fuel addr Ha Hend Hf.
  - destruct fuel; simpl; rewrite (proj2 (Z.ltb_ge _ _)) by lia; done.
  - destruct fuel as [|fuel]; [lia|]. cbn [range_mapped_loop all_pages].
    rewrite (proj2 (Z.ltb_lt _ _)) by lia.
    destruct (walk_loads s addr Hinv ltac:(lia)) as [E1 E2]. rewrite (bind_ok _ _ _ _ _ E1).
    assert (Hnext : range_mapped_loop fuel (page_directory s) (addr +w PAGE_SIZE)
               (addr + 4096 * Z.of_nat (S n)) user s = Ok (all_pages s user n (addr + 4096), s)).
    { unfold PAGE_SIZE. rewrite u32_small by lia. rewrite <- (IH fuel (addr + 4096)) by lia.
      f_equal. lia. }
    unfold page_ok.
    destruct (present (pde_at s (PD_INDEX addr))) eqn:Hp; cbn [negb andb]; [|done].
    destruct (user && negb (truthy (Z.land (pde_at s (PD_INDEX addr)) VMM_USER))) eqn:Hu.
    { destruct user; [|done]. simpl in *.
      destruct (truthy (Z.land (pde_at s (PD_INDEX addr)) VMM_USER)); [done|]. by rewrite andb_false_r. }
    rewrite (bind_ok _ _ _ _ _ (E2 eq_refl)).
    destruct (present (pte_at s (PD_INDEX addr) (PT_INDEX addr))) eqn:Hpt; cbn [negb andb]; [|done].
    destruct user; simpl in *; [|done].
    destruct (truthy (Z.land (pde_at s (PD_INDEX addr)) VMM_USER)); [|done]. simpl.
    by destruct (truthy (Z.land (pte_at s (PD_INDEX addr) (PT_INDEX addr)) VMM_USER)).
Qed.

(** C23: [vmm_range_mapped] on the kernel directory, for a non-empty range whose
    end, rounded up to a page, stays below 4 GiB: given fuel for its pages it
    returns, changes nothing, and answers yes exactly when every byte of the
    range lies in a page that is present (and, with [user_only], accessible to
    user mode at both levels). *)
Theorem vmm_range_mapped_correct s fuel virt len user :
  vmm_inv s -> 0 <= virt -> 0 < len -> virt + len + 4095 < 2 ^ 32 -> (Z.to_nat len < fuel)%nat ->
  exists b, vmm_range_mapped fuel (page_directory s) virt len user s = Ok (b, s) /\
    (b = true <-> forall a, virt <= a < virt + len -> page_ok s user a = true).
Proof.
  intros Hinv Hv Hl Hend Hf. unfold vmm_range_mapped.
  destruct (vi_pd _ Hinv) as (_ & Hpd & _).
  rewrite (proj2 (Z.eqb_neq (page_directory s) 0)), (proj2 (Z.eqb_neq len 0)) by lia. simpl.
  unfold PAGE_SIZE. replace (virt + len + 4096 - 1) with (virt + len + 4095) by lia.
  rewrite u32_small, !base_round by lia. set (addr := virt - virt mod 4096).
  set (n := Z.to_nat ((virt + len + 4095) / 4096 - virt / 4096)).
  assert (Hn : virt + len + 4095 - (virt + len + 4095) mod 4096 = addr + 4096 * Z.of_nat n).
  { subst n addr. rewrite Z2Nat.id by zlia. zlia. }
  rewrite Hn. rewrite range_loop_spec; [|done|subst addr; zlia|rewrite <- Hn; zlia|subst n; zlia].
  eexists. split; [done|]. rewrite all_pages_true.
  assert (Hpage : forall a b, 0 <= a < 2 ^ 32 -> 0 <= b < 2 ^ 32 -> a / 4096 = b / 4096 ->
    page_ok s user a = page_ok s user b).
  { intros a b Ha Hb Hab. apply same_page in Hab as [H1 H2]; [|done..]. unfold page_ok. by rewrite H1, H2. }
  split.
  - intros H a Ha. rewrite (Hpage a (addr + 4096 * (a / 4096 - virt / 4096))); [|lia|subst addr; zlia..].
    apply H. subst n. rewrite Z2Nat.id by zlia. zlia.
  - intros H k Hk. subst n. rewrite Z2Nat.id in Hk by zlia.
    rewrite (Hpage _ (Z.max virt (addr + 4096 * k))); [apply H; subst addr; zlia|subst addr; zlia..].
Qed.

(** [vmm_range_mapped] accepts a range that wraps past 4 GiB without
    looking at a single page: the rounded end overflows to an address at or
    below the start, so the loop body never runs. *)
Theorem vmm_range_mapped_wraps s fuel pd virt len user :
  pd <> 0 -> 0 <= virt < 2 ^ 32 -> 0 < len <= 2 ^ 32 - 4096 -> 2 ^ 32 <= virt + len + 4095 ->
  vmm_range_mapped fuel pd virt len user s = Ok (true, s).
Proof.
  intros Hpd Hv Hl Hw. unfold vmm_range_mapped.
  rewrite (proj2 (Z.eqb_neq pd 0)), (proj2 (Z.eqb_neq len 0)) by lia. simpl.
  unfold PAGE_SIZE. replace (virt + len + 4096 - 1) with (virt + len + 4095) by lia.
  assert (u32 (virt + len + 4095) = virt + len + 4095 - 2 ^ 32) as -> by (unfold u32; zlia).
  rewrite !base_round by lia.
  destruct fuel; simpl; rewrite (proj2 (Z.ltb_ge _ _)) by zlia; done.
Qed.

(** ** Witnesses: the demonstration machine of Pmm.v after start-up *)

Lemma demo_alloc p :
  pmm_inv p -> pmm_total_frames p <> 0 ->
  (forall g, is_frame g -> bitmap_test p g = false -> 256 <= g < 512) ->
  (exists g, is_frame g /\ bitmap_test p g = false) ->
  exists f p', pmm_alloc_frame p = (f * 4096, p') /\ 256 <= f < 512 /\ pmm_inv p' /\
    pmm_total_frames p' = pmm_total_frames p /\
    (forall g, bitmap_test p' g = if decide (f = g) then true else bitmap_test p g).
Proof.
  intros Hinv Ht Hlow [g [Hg Hfree]]. destruct (pmm_alloc_frame p) as [a p'] eqn:E.
  destruct (pmm_alloc_frame_cases p a p' Hinv E)
    as [(f & Hf & [Hfr Hff] & -> & H1 & H2 & _ & H3 & _) | (_ & _ & [?|Hn])]; [|done|].
  - exists f, p'. split_and!; try done; by apply Hlow.
  - exfalso. by apply (Hn g).
Qed.

Lemma demo_free g : 256 <= g < 512 -> is_frame g /\ bitmap_test demo_pmm g = false.
Proof.
  intros Hg. assert (is_frame g) by (unfold is_frame; rewrite MAX_FRAMES_val; lia).
  split; [assumption|]. destruct demo_pmm_spec as (_ & _ & Htest).
  rewrite Htest by assumption. rewrite bool_decide_true by lia. reflexivity.
Qed.
Lemma demo_only_low g : is_frame g -> bitmap_test demo_pmm g = false -> 256 <= g < 512.
Proof.
  intros Hg. destruct demo_pmm_spec as (_ & _ & Htest). rewrite Htest by assumption.
  destruct (decide (256 <= g < 512)) as [Hc|Hc]; [intros _; exact Hc|].
  rewrite bool_decide_false by exact Hc. discriminate.
Qed.

Lemma demo_other f1 f2 : exists g, 256 <= g < 512 /\ f1 <> g /\ f2 <> g.
Proof.
  destruct (decide (f1 = 300 \/ f2 = 300)); [|exists 300; lia].
  destruct (decide (f1 = 301 \/ f2 = 301)); [exists 302; lia|exists 301; lia].
Qed.

(** Three allocations from the demonstration pool. *)
Lemma demo_three_frames :
  exists f1 p1 f2 p2 f3 p3,
    pmm_alloc_frame demo_pmm = (f1 * 4096, p1) /\ pmm_alloc_frame p1 = (f2 * 4096, p2) /\
    pmm_alloc_frame p2 = (f3 * 4096, p3) /\ 256 <= f1 < 512 /\ 256 <= f2 < 512 /\ 256 <= f3 < 512 /\
    (forall f, frame_free p2 f -> 256 <= f < 512).
Proof.
  destruct demo_pmm_spec as ([Hinv _] & _ & _). pose proof demo_pmm_total as [Ht _].
  destruct (demo_alloc demo_pmm Hinv) as (f1 & p1 & E1 & Hf1 & Hi1 & Ht1 & Hb1); [lia| | |].
  { apply demo_only_low. }
  { exists 256. apply demo_free. lia. }
  destruct (demo_alloc p1 Hi1) as (f2 & p2 & E2 & Hf2 & Hi2 & Ht2 & Hb2); [lia| | |].
  { intros g Hg. rewrite Hb1. case_decide; [discriminate|exact (demo_only_low g Hg)]. }
  { destruct (demo_other f1 f1) as (g & Hg & H1 & _). exists g.
    rewrite Hb1, decide_False by exact H1. exact (demo_free g Hg). }
  assert (Hlow2 : forall g, is_frame g -> bitmap_test p2 g = false -> 256 <= g < 512).
  { intros g Hg. rewrite Hb2, Hb1. case_decide; [discriminate|]. case_decide; [discriminate|].
    exact (demo_only_low g Hg). }
  destruct (demo_alloc p2 Hi2) as (f3 & p3 & E3 & Hf3 & _); [lia|exact Hlow2| |].
  { destruct (demo_other f1 f2) as (g & Hg & H1 & H2). exists g.
    rewrite Hb2, decide_False by exact H2. rewrite Hb1, decide_False by exact H1. exact (demo_free g Hg). }
  exists f1, p1, f2, p2, f3, p3.
  exact (conj E1 (conj E2 (conj E3 (conj Hf1 (conj Hf2 (conj Hf3 (fun g Hg => Hlow2 g (proj1 Hg) (proj2 Hg)))))))).
Qed.

Definition demo_boot : vmm_state := VmmState demo_pmm ∅ 0 0 0 false.

Lemma demo_boot_words : words32 (pmem demo_boot).
Proof. intros k. unfold rd. simpl. by rewrite lookup_empty. Qed.

(** The demonstration machine after start-up: frames 256 to 511 were free, two
    of them hold the directory and the first table. *)
Definition demo_vmm : vmm_state :=
  match vmm_init demo_boot with
  | Ok (_, s) => s
  | Stop _ => demo_boot
  end.

Lemma demo_vmm_spec :
  vmm_inv demo_vmm /\ table_available demo_vmm 0x1000000 /\
  present (pde_at demo_vmm (PD_INDEX 0x1000000)) = false /\
  (forall v, 0 <= v < 2 ^ 32 -> translate demo_vmm v = if decide (v < LOW_END) then Some v else None) /\
  kernel_pd_phys demo_vmm = page_directory demo_vmm /\
  (forall f, frame_free (vm_pmm demo_vmm) f -> 256 <= f < 512).
Proof.
  destruct demo_three_frames as (f1 & p1 & f2 & p2 & f3 & p3 & E1 & E2 & E3 & H1 & H2 & H3 & Hfree).
  pose proof (boot_inv _ (proj1 demo_pmm_boot)) as Hp.
  destruct (vmm_init_state demo_boot (f1 * 4096) p1 (f2 * 4096) p2 Hp demo_boot_words eq_refl E1 E2)
    as (m & E & _ & H0 & Hi & _); try (unfold LOW_END; lia).
  destruct (vmm_init_spec demo_boot (f1 * 4096) p1 (f2 * 4096) p2 Hp demo_boot_words eq_refl E1 E2)
    as (s' & E' & Hv & _ & Htr); try (unfold LOW_END; lia).
  rewrite E in E'. injection E' as <-. unfold demo_vmm. rewrite E.
  split_and!; [exact Hv| | |exact Htr|reflexivity|exact Hfree].
  - right. cbn [vm_pmm]. rewrite E3. cbn [fst]. unfold LOW_END. lia.
  - unfold pde_at. cbn [pmem page_directory]. change (PD_INDEX 0x1000000) with 4.
    rewrite Hi by lia. reflexivity.
Qed.
#[global] Opaque demo_vmm.

Lemma demo_vmm_exists :
  exists s, vmm_inv s /\ table_available s 0x1000000 /\
    present (pde_at s (PD_INDEX 0x1000000)) = false /\
    (forall v, 0 <= v < 2 ^ 32 -> translate s v = if decide (v < LOW_END) then Some v else None) /\
    kernel_pd_phys s = page_directory s.
Proof.
  exists demo_vmm. destruct demo_vmm_spec as (H1 & H2 & H3 & H4 & H5 & _).
  exact (conj H1 (conj H2 (conj H3 (conj H4 H5)))).
Qed.

Lemma vmm_init_correct_witness :
  exists s', vmm_init demo_boot = Ok (tt, s') /\ vmm_inv s' /\ translate s' 0xB8000 = Some 0xB8000.
Proof.
  destruct demo_three_frames as (f1 & p1 & f2 & p2 & f3 & p3 & E1 & E2 & _ & H1 & H2 & _ & _).
  destruct (vmm_init_correct demo_boot (f1 * 4096) p1 (f2 * 4096) p2
    (boot_inv _ (proj1 demo_pmm_boot)) demo_boot_words eq_refl E1 E2) as (s' & E & Hv & _ & Htr);
    try (unfold LOW_END; lia).
  exists s'. split_and!; [exact E|exact Hv|]. rewrite Htr by lia. reflexivity.
Defined.

Lemma vmm_map_page_correct_witness :
  exists s s', vmm_inv s /\ vmm_map_page 0x1000000 0x180000 VMM_KERNEL_RW s = Ok (tt, s') /\
    translate s 0x1000123 = None /\ translate s' 0x1000123 = Some 0x180123 /\
    translate s' 0x1001000 = None.
Proof.
  destruct demo_vmm_exists as (s & Hinv & Hav & _ & Htr & _).
  destruct (vmm_map_page_correct s 0x1000000 0x180000 VMM_KERNEL_RW Hinv) as (s' & E & _ & H);
    [unfold LOW_END; lia|lia|done|exact Hav|].
  exists s, s'. split_and!; [exact Hinv|exact E|..].
  - by rewrite Htr by lia.
  - by rewrite H by lia.
  - rewrite H, decide_False by (lia || done). by rewrite Htr by lia.
Defined.

Lemma vmm_get_phys_is_translation_witness :
  exists s, vmm_inv s /\ vmm_get_phys 0x1234 s = Ok (0x1234, s) /\
    vmm_is_mapped 0x1000000 s = Ok (false, s).
Proof.
  destruct demo_vmm_exists as (s & Hinv & _ & _ & Htr & _). exists s. split_and!; [exact Hinv|..].
  - rewrite (proj1 (vmm_get_phys_is_translation s 0x1234 Hinv ltac:(lia))).
    by rewrite Htr by lia.
  - rewrite (proj2 (vmm_get_phys_is_translation s 0x1000000 Hinv ltac:(lia))).
    rewrite Htr by lia. reflexivity.
Defined.

Lemma vmm_create_address_space_correct_witness :
  exists s a s', vmm_create_address_space s = Ok (a, s') /\ a <> 0 /\
    walk (pmem s') a 0xB8000 = Some 0xB8000 /\ walk (pmem s') a 0x1000000 = None.
Proof.
  destruct demo_vmm_exists as (s & Hinv & Hav & Habs & Htr & Hk).
  destruct Hav as [Hav|[Hnz Hlow]]; [rewrite Habs in Hav; discriminate|].
  destruct (vmm_create_address_space_correct s _ _ Hinv Hk (surjective_pairing _) Hlow)
    as (s' & E & _ & _ & Hw).
  exists s, (pmm_alloc_frame (vm_pmm s)).1, s'. split_and!; [exact E|exact Hnz|..];
    rewrite (Hw Hnz) by lia; reflexivity.
Defined.

Lemma vmm_unmap_page_correct_witness :
  exists s s', vmm_inv s /\ vmm_unmap_page 0x1000000 s = Ok (tt, s') /\ vmm_inv s'.
Proof.
  destruct demo_vmm_exists as (s & Hinv & _).
  destruct (vmm_unmap_page_correct s 0x1000000 Hinv) as (s' & E & H & _); [unfold LOW_END; lia|].
  exists s, s'. split_and!; assumption.
Defined.

Lemma vmm_range_mapped_correct_witness :
  exists s b, vmm_inv s /\ vmm_range_mapped 101 (page_directory s) 0x3FFFF0 100 false s = Ok (b, s).
Proof.
  destruct demo_vmm_exists as (s & Hinv & _).
  destruct (vmm_range_mapped_correct s 101 0x3FFFF0 100 false Hinv) as (b & E & _); try lia.
  exists s, b. split; assumption.
Defined.

Lemma vmm_range_mapped_wraps_witness :
  vmm_range_mapped 10 0x1000 0xFFFFF000 0x1000 true demo_boot = Ok (true, demo_boot).
Proof. apply vmm_range_mapped_wraps; lia. Defined.

(** The same machine with an exhausted frame pool. *)
Lemma vmm_map_page_failures_witness :
  exists s, vmm_inv s /\ vmm_map_page 0x1000000 0x180000 3 s =
    Stop (Panic "VMM: vmm_map_page — page table allocation failed").
Proof.
  destruct demo_vmm_exists as (s & Hinv & _ & Hpde & _).
  destruct demo_static_ok as [Hd Hs]. destruct (init_clear_spec _ Hd Hs) as ([Hp _] & Hall).
  destruct (vmm_inv_frame s (pmem s) (pmm_init_clear demo_static) Hinv (vi_words _ Hinv)) as [Hinv2 _];
    [reflexivity|exact Hp| |].
  { intros f Hf. apply Hall. apply (test_true_frame (vm_pmm s)); [apply (vi_pmm _ Hinv)|exact Hf]. }
  exists (set_pmm (pmm_init_clear demo_static) (set_pmem (pmem s) s)). split; [exact Hinv2|].
  apply (vmm_map_page_failures _ 0x1000000 0x180000 3 Hinv2); [lia|exact Hpde|reflexivity].
Defined.
