(* ===== verification/Kheap.v ===== *)
(** * Kernel heap (kernel/mm/kheap.c, include/kheap.h)

    The heap lives in virtual memory from [HEAP_START]; [GET] and [PUT] go
    through the translation of Vmm.v, and [ensure_mapped] takes frames from
    Pmm.v and maps them with [vmm_map_page]. The boundary-tag blocks are
    related to a list of (size, allocated) pairs by [heap_rep], and every
    operation is proved against that list. *)

From Stdlib Require Import ZArith Lia.
From S2P Require Import Prelude Pmm Vmm.

Definition HEAP_START : Z := 0x01000000.
Definition HEAP_MAX : Z := 0x05000000.
Definition HEAP_INITIAL : Z := 64 * 1024.

Definition WSIZE : Z := 4.
Definition DWSIZE : Z := 8.
Definition MIN_BLOCK : Z := DWSIZE + DWSIZE.

Definition ALIGN (s : Z) : Z := Z.land (s +w (DWSIZE - 1)) (u32 (Z.lnot (DWSIZE - 1))).
Definition PACK (size alloc : Z) : Z := Z.lor size alloc.

(** The static variables of kheap.c over the address space. *)
Record kheap_state := KheapState {
  hvm : vmm_state;
  heap_listp : Z;
  heap_brk : Z;
  heap_virt_mapped : Z
}.

Definition set_hvm (v : vmm_state) (s : kheap_state) : kheap_state :=
  KheapState v (heap_listp s) (heap_brk s) (heap_virt_mapped s).
Definition set_brk (b : Z) (s : kheap_state) : kheap_state :=
  KheapState (hvm s) (heap_listp s) b (heap_virt_mapped s).
Definition set_listp (p : Z) (s : kheap_state) : kheap_state :=
  KheapState (hvm s) p (heap_brk s) (heap_virt_mapped s).
Definition set_virt_mapped (t : Z) (s : kheap_state) : kheap_state :=
  KheapState (hvm s) (heap_listp s) (heap_brk s) t.

Definition vm {A : Type} (c : M vmm_state A) : M kheap_state A := zoom hvm set_hvm c.

Definition GET (p : Z) : M kheap_state Z := vm (vload p).
Definition PUT (p val : Z) : M kheap_state unit := vm (vstore p val).
Definition GET_SIZE (p : Z) : M kheap_state Z :=
  v ← GET p; mret (Z.land v (u32 (Z.lnot 0x7))).
Definition GET_ALLOC (p : Z) : M kheap_state Z :=
  v ← GET p; mret (Z.land v 0x1).

Definition HDRP (bp : Z) : Z := bp -w WSIZE.
Definition FTRP (bp : Z) : M kheap_state Z :=
  size ← GET_SIZE (HDRP bp); mret (u32 (bp + size - DWSIZE)).
Definition NEXT_BLKP (bp : Z) : M kheap_state Z :=
  size ← GET_SIZE (HDRP bp); mret (bp +w size).
Definition PREV_BLKP (bp : Z) : M kheap_state Z :=
  size ← GET_SIZE (bp -w DWSIZE); mret (bp -w size).

Fixpoint ensure_mapped (fuel : nat) (end_ : Z) : M kheap_state Z :=
  mapped ← gets heap_virt_mapped;
  if mapped <? end_ then
    match fuel with
    | O => stop OutOfFuel
    | S fuel' =>
        if HEAP_MAX <? mapped +w PAGE_SIZE then mret (-1) else
        phys ← vm alloc_frame;
        if phys =? 0 then mret (-1) else
        vm (vmm_map_page mapped phys VMM_KERNEL_RW) ;;
        modify (set_virt_mapped (mapped +w PAGE_SIZE)) ;;
        ensure_mapped fuel' end_
    end
  else mret 0.

Definition coalesce (bp : Z) : M kheap_state Z :=
  prev_bp ← PREV_BLKP bp;
  next_bp ← NEXT_BLKP bp;
  prev_ftr ← FTRP prev_bp;
  prev_alloc ← GET_ALLOC prev_ftr;
  next_alloc ← GET_ALLOC (HDRP next_bp);
  let prev_free := negb (truthy prev_alloc) in
  let next_free := negb (truthy next_alloc) in
  size ← GET_SIZE (HDRP bp);
  if negb prev_free && negb next_free then mret bp else
  if negb prev_free && next_free then
    nsize ← GET_SIZE (HDRP next_bp);
    let size := size +w nsize in
    PUT (HDRP bp) (PACK size 0) ;;
    ftr ← FTRP bp;
    PUT ftr (PACK size 0) ;;
    mret bp
  else if prev_free && negb next_free then
    psize ← GET_SIZE (HDRP prev_bp);
    let size := size +w psize in
    ftr ← FTRP bp;
    PUT ftr (PACK size 0) ;;
    PUT (HDRP prev_bp) (PACK size 0) ;;
    mret prev_bp
  else
    psize ← GET_SIZE (HDRP prev_bp);
    nsize ← GET_SIZE (HDRP next_bp);
    let size := size +w (psize +w nsize) in
    PUT (HDRP prev_bp) (PACK size 0) ;;
    ftr ← FTRP next_bp;
    PUT ftr (PACK size 0) ;;
    mret prev_bp.

Definition extend_heap (fuel : nat) (size : Z) : M kheap_state Z :=
  brk ← gets heap_brk;
  r ← ensure_mapped fuel (u32 (brk + size + WSIZE));
  if r <? 0 then mret 0 else
  let bp := brk +w WSIZE in
  PUT brk (PACK size 0) ;;
  ftr ← FTRP bp;
  PUT ftr (PACK size 0) ;;
  next ← NEXT_BLKP bp;
  PUT (HDRP next) (PACK 0 1) ;;
  modify (set_brk (brk +w size)) ;;
  coalesce bp.

Definition place (bp asize : Z) : M kheap_state unit :=
  csize ← GET_SIZE (HDRP bp);
  if MIN_BLOCK <=? csize -w asize then
    PUT (HDRP bp) (PACK asize 1) ;;
    ftr ← FTRP bp;
    PUT ftr (PACK asize 1) ;;
    remainder ← NEXT_BLKP bp;
    PUT (HDRP remainder) (PACK (csize -w asize) 0) ;;
    rftr ← FTRP remainder;
    PUT rftr (PACK (csize -w asize) 0)
  else
    PUT (HDRP bp) (PACK csize 1) ;;
    ftr ← FTRP bp;
    PUT ftr (PACK csize 1).

Definition kheap_init (fuel : nat) : M kheap_state unit :=
  phys ← vm alloc_frame;
  if phys =? 0 then stop (Panic "KHEAP: init — cannot allocate first heap page from PMM") else
  vm (vmm_map_page HEAP_START phys VMM_KERNEL_RW) ;;
  modify (set_virt_mapped (HEAP_START + PAGE_SIZE)) ;;
  let base := HEAP_START in
  PUT (base + 0 * WSIZE) 0 ;;
  PUT (base + 1 * WSIZE) (PACK DWSIZE 1) ;;
  PUT (base + 2 * WSIZE) (PACK DWSIZE 1) ;;
  PUT (base + 3 * WSIZE) (PACK 0 1) ;;
  modify (set_listp (base + 2 * WSIZE)) ;;
  modify (set_brk (HEAP_START + 3 * WSIZE)) ;;
  let init := ALIGN HEAP_INITIAL in
  let init := if init <? MIN_BLOCK then MIN_BLOCK else init in
  bp ← extend_heap fuel init;
  if bp =? 0 then stop (Panic "KHEAP: init — extend_heap failed (PMM OOM?)") else mret tt.

(** The search loop of [kmalloc]: the first free block of at least [asize]
    bytes at or after [bp], [None] at the epilogue. *)
Fixpoint find_fit (fuel : nat) (bp asize : Z) : M kheap_state (option Z) :=
  size ← GET_SIZE (HDRP bp);
  if 0 <? size then
    match fuel with
    | O => stop OutOfFuel
    | S fuel' =>
        alloc ← GET_ALLOC (HDRP bp);
        if negb (truthy alloc) && (asize <=? size) then mret (Some bp) else
        next ← NEXT_BLKP bp;
        find_fit fuel' next asize
    end
  else mret None.

(** The block size [kmalloc] works with for a request of [size] bytes. *)
Definition block_size (size : Z) : Z :=
  let asize := ALIGN size +w DWSIZE in
  if asize <? MIN_BLOCK then MIN_BLOCK else asize.

Definition kmalloc (fuel : nat) (size : Z) : M kheap_state Z :=
  if size =? 0 then mret 0 else
  let asize := block_size size in
  listp ← gets heap_listp;
  first ← NEXT_BLKP listp;
  fit ← find_fit fuel first asize;
  match fit with
  | Some bp => place bp asize ;; mret bp
  | None =>
      let extsize := ALIGN (if PAGE_SIZE <? asize then asize else PAGE_SIZE) in
      bp ← extend_heap fuel extsize;
      if bp =? 0 then mret 0 else
      place bp asize ;; mret bp
  end.

Definition kfree (ptr : Z) : M kheap_state unit :=
  if ptr =? 0 then mret tt else
  let bp := ptr in
  size ← GET_SIZE (HDRP bp);
  PUT (HDRP bp) (PACK size 0) ;;
  ftr ← FTRP bp;
  PUT ftr (PACK size 0) ;;
  coalesce bp ;;
  mret tt.

Definition kmalloc_aligned (fuel : nat) (size : Z) : M kheap_state Z :=
  let total := u32 (size + PAGE_SIZE + 4) in
  raw ← kmalloc fuel total;
  if raw =? 0 then mret 0 else
  let aligned := Z.land (u32 (raw + 4 + PAGE_SIZE - 1)) (u32 (Z.lnot (PAGE_SIZE - 1))) in
  PUT (aligned -w 4) raw ;;
  mret aligned.

Definition kfree_aligned (ptr : Z) : M kheap_state unit :=
  if ptr =? 0 then mret tt else
  original ← GET (ptr -w 4);
  kfree original.

(** The walk of [kheap_dump]; the result is the pair of totals it prints. *)
Fixpoint dump_loop (fuel : nat) (bp used free : Z) : M kheap_state (Z * Z) :=
  size ← GET_SIZE (HDRP bp);
  if 0 <? size then
    match fuel with
    | O => stop OutOfFuel
    | S fuel' =>
        alloc ← GET_ALLOC (HDRP bp);
        next ← NEXT_BLKP bp;
        if truthy alloc then dump_loop fuel' next (used +w size) free
        else dump_loop fuel' next used (free +w size)
    end
  else mret (used, free).

Definition kheap_dump (fuel : nat) : M kheap_state (Z * Z) :=
  listp ← gets heap_listp;
  first ← NEXT_BLKP listp;
  dump_loop fuel first 0 0.

(** ** The heap's virtual memory

    The pages of [HEAP_START, top) are mapped to distinct frames of data. *)
Record heap_vm (v : vmm_state) (top : Z) : Prop := {
  hv_inv : vmm_inv v;
  hv_top : HEAP_START <= top <= HEAP_MAX;
  hv_page : top mod 4096 = 0;
  hv_map : forall a, HEAP_START <= a < top -> exists p, translate v a = Some p /\
    p mod 4096 = a mod 4096 /\ data_frame v (p / 4096);
  hv_inj : forall a b p q, HEAP_START <= a < top -> HEAP_START <= b < top ->
    translate v a = Some p -> translate v b = Some q -> p / 4096 = q / 4096 -> a / 4096 = b / 4096
}.

(** The word at a virtual address. *)
Definition word_at (v : vmm_state) (a : Z) : Z := rd (pmem v) (default 0 (translate v a)).

Definition upd (w : Z -> Z) (a x b : Z) : Z := if decide (b = a) then x else w b.

Lemma upd_eq w a x : upd w a x a = x.
Proof. unfold upd. by case_decide. Qed.
Lemma upd_ne w a x b : b <> a -> upd w a x b = w b.
Proof. intros. unfold upd. by case_decide. Qed.

Lemma load_word v top a :
  heap_vm v top -> HEAP_START <= a < top -> vload a v = Ok (word_at v a, v).
Proof.
  intros H Ha. destruct (hv_map _ _ H a Ha) as (p & Hp & _). unfold vload, word_at. by rewrite Hp.
Qed.

Lemma heap_addr_range v top a : heap_vm v top -> HEAP_START <= a < top -> 0 <= a < 2 ^ 32.
Proof. intros H Ha. pose proof (hv_top _ _ H). unfold HEAP_START, HEAP_MAX in *. lia. Qed.

Lemma store_word v top a x :
  heap_vm v top -> HEAP_START <= a < top -> 0 <= x < 2 ^ 32 ->
  exists v', vstore a x v = Ok (tt, v') /\ heap_vm v' top /\ vm_pmm v' = vm_pmm v /\
    (forall i, 0 <= i < 1024 -> pde_at v' i = pde_at v i) /\
    (forall b, 0 <= b < 2 ^ 32 -> translate v' b = translate v b) /\
    (forall b, HEAP_START <= b < top -> word_at v' b = upd (word_at v) a x b).
Proof.
  intros H Ha Hx. pose proof (hv_inv _ _ H) as Hinv.
  destruct (hv_map _ _ H a Ha) as (p & Hp & Hmod & Hdata).
  pose proof (data_frame_word v p Hinv Hdata) as Hout.
  assert (Hsame : forall b, in_tables v b -> rd (<[p := x]> (pmem v)) b = rd (pmem v) b).
  { intros b Hb. apply rd_insert_ne. by intros ->. }
  destruct (vmm_inv_frame v (<[p := x]> (pmem v)) (vm_pmm v) Hinv) as [Hinv' Htr]; try done.
  { apply words32_insert; [apply (vi_words _ Hinv)|done]. }
  { apply (vi_pmm _ Hinv). }
  replace (set_pmm (vm_pmm v) (set_pmem (<[p := x]> (pmem v)) v))
    with (set_pmem (<[p := x]> (pmem v)) v) in * by (by destruct v).
  set (v' := set_pmem (<[p := x]> (pmem v)) v) in *.
  assert (Hpde : forall i, 0 <= i < 1024 -> pde_at v' i = pde_at v i) by (intros; by apply pde_frame).
  assert (Hd : forall f, data_frame v f -> data_frame v' f).
  { intros f (H1 & H2 & H3). split_and!; [done..|]. intros i Hi. rewrite Hpde by done. by apply H3. }
  exists v'. split; [unfold vstore; by rewrite Hp|]. split_and!; try done.
  - destruct H as [? H1 H2 H3 H4]. split; try done.
    + intros b Hb. rewrite Htr by (unfold HEAP_START, HEAP_MAX in *; lia).
      destruct (H3 b Hb) as (q & Hq & ? & ?). exists q. split_and!; auto.
    + intros b c pb pc Hb Hc. rewrite !Htr by (unfold HEAP_START, HEAP_MAX in *; lia). by apply H4.
  - intros b Hb. unfold word_at. rewrite Htr by by eapply heap_addr_range.
    destruct (hv_map _ _ H b Hb) as (q & Hq & Hmodq & _). rewrite Hq. simpl. rewrite rd_insert.
    unfold upd, word_at. rewrite Hq. simpl. destruct (decide (b = a)) as [->|Hne].
    + assert (p = q) as -> by congruence. by rewrite decide_True.
    + rewrite decide_False; [done|]. intros ->. apply Hne.
      pose proof (hv_inj _ _ H a b q q Ha Hb Hp Hq eq_refl). clear -Hmod Hmodq H0. zlia.
Qed.

(** The outcome of mapping a page above the identity map to a frame fresh from
    the allocator: the frame is a data frame now and was not reserved before,
    and only the addresses of that page translate differently. *)
Record fresh_page (v v' : vmm_state) (virt phys : Z) : Prop := {
  fp_inv : vmm_inv v';
  fp_ext : vmm_ext v v';
  fp_phys : 0 < phys < 2 ^ 32 /\ phys mod 4096 = 0;
  fp_data : data_frame v' (phys / 4096);
  fp_new : bitmap_test (vm_pmm v) (phys / 4096) = false;
  fp_translate : forall a, 0 <= a < 2 ^ 32 -> translate v' a =
    if decide (a / 4096 = virt / 4096) then Some (phys + a mod 4096) else translate v a
}.

Lemma map_fresh v virt phys p :
  vmm_inv v -> LOW_END <= virt < 2 ^ 32 -> pmm_alloc_frame (vm_pmm v) = (phys, p) -> phys <> 0 ->
  table_available (set_pmm p v) virt ->
  exists v', vmm_map_page virt phys VMM_KERNEL_RW (set_pmm p v) = Ok (tt, v') /\ fresh_page v v' virt phys.
Proof.
  intros Hinv Hvirt Ha Hnz Hav.
  destruct (alloc_keeps_inv v phys p Hinv Ha) as (Hinv1 & Htr1 & _).
  destruct (pmm_alloc_frame_cases _ _ _ (vi_pmm _ Hinv) Ha)
    as [(f & Hf & [Hfr Hfree] & -> & _ & Ht & _) | (-> & _)]; [|done].
  assert (Hphys : 0 <= f * PAGE_SIZE < 2 ^ 32).
  { unfold is_frame, PAGE_SIZE in *. rewrite MAX_FRAMES_val in Hfr. lia. }
  destruct (map_page_spec (set_pmm p v) virt (f * PAGE_SIZE) VMM_KERNEL_RW Hinv1)
    as (v' & E & Hinv' & Hext & Htr); [done..|].
  assert (Hext1 : vmm_ext v (set_pmm p v)).
  { split; try done.
    - intros g Hg. simpl. rewrite Ht. by case_decide.
    - intros g (H1 & H2 & H3). split_and!; try done. simpl. rewrite Ht. by case_decide. }
  assert (Hnew : data_frame (set_pmm p v) f).
  { split_and!.
    - simpl. rewrite Ht. by case_decide.
    - by apply (free_frame_not_table v); [apply (vi_pd _ Hinv)|].
    - intros i Hi Hp. apply (free_frame_not_table v); [|done]. by apply (vi_tables _ Hinv). }
  assert (Hbase : base (f * PAGE_SIZE) = f * PAGE_SIZE).
  { rewrite base_round by done. unfold PAGE_SIZE. rewrite Z.mod_mul by done. lia. }
  assert (Hdiv : f * PAGE_SIZE / 4096 = f) by (unfold PAGE_SIZE; by rewrite Z.div_mul).
  exists v'. split; [done|]. split; rewrite ?Hdiv; try done; [by etrans| | |].
  - split; [lia|]. unfold PAGE_SIZE. by rewrite Z.mod_mul.
  - by apply (ext_frame _ _ Hext).
  - intros a Hr. rewrite Htr, Hbase, Htr1 by done. done.
Qed.

(** The words of the heap after such a mapping, and the frames behind them. *)
Section fresh.
Context (v v' : vmm_state) (top virt phys : Z) (H : heap_vm v top) (G : fresh_page v v' virt phys).

Lemma fresh_frame b q : HEAP_START <= b < top -> translate v b = Some q -> q / 4096 <> phys / 4096.
Proof using H G.
  intros Hb Hq Heq. destruct (hv_map _ _ H b Hb) as (q' & Hq' & _ & Hd & _).
  rewrite Hq in Hq'. injection Hq' as <-. rewrite Heq in Hd. pose proof (fp_new _ _ _ _ G). congruence.
Qed.

Lemma fresh_old b : top <= virt \/ virt < HEAP_START -> virt mod 4096 = 0 -> HEAP_START <= b < top -> translate v' b = translate v b.
Proof using H G.
  intros Hout Hal Hb. pose proof (hv_page _ _ H). pose proof (hv_top _ _ H). unfold HEAP_START, HEAP_MAX in *.
  rewrite (fp_translate _ _ _ _ G), decide_False; [done| |lia]. zlia.
Qed.

Lemma fresh_words b : top <= virt \/ virt < HEAP_START -> virt mod 4096 = 0 -> HEAP_START <= b < top -> word_at v' b = word_at v b.
Proof using H G.
  intros Hout Hal Hb. unfold word_at. rewrite fresh_old by done.
  destruct (hv_map _ _ H b Hb) as (q & Hq & _ & Hd). rewrite Hq. simpl. by apply (ext_data _ _ (fp_ext _ _ _ _ G)).
Qed.

(** A page outside the heap leaves the heap's pages as they are. *)
Lemma fresh_outside : top <= virt \/ virt < HEAP_START -> virt mod 4096 = 0 -> heap_vm v' top.
Proof using H G.
  intros Hout Hal. destruct H as [H0 H1 H2 H3 H4]. split; [apply G|done|done|..].
  - intros a Ha. rewrite fresh_old by done. destruct (H3 a Ha) as (q & ? & ? & ?). exists q.
    split_and!; [done..|]. by apply (ext_frame _ _ (fp_ext _ _ _ _ G)).
  - intros a b q r Ha Hb. rewrite !fresh_old by done. by apply H4.
Qed.
End fresh.

(** The next page of the heap enlarges it. *)
Lemma grow_fresh v v' top phys : heap_vm v top -> fresh_page v v' top phys -> top + 4096 <= HEAP_MAX -> heap_vm v' (top + 4096).
Proof.
  intros H G Hmax. pose proof (hv_top _ _ H) as Htop. pose proof (hv_page _ _ H) as Hpg. unfold HEAP_START, HEAP_MAX in *.
  assert (Hold : forall b, 0x1000000 <= b < top -> translate v' b = translate v b).
  { intros b Hb. apply (fresh_old v v' top top phys H G); [by left|done|done]. }
  destruct (fp_phys _ _ _ _ G) as [Hphys Hal].
  assert (Hpage : forall b, top <= b < top + 4096 -> translate v' b = Some (phys + b mod 4096)).
  { intros b Hb. rewrite (fp_translate _ _ _ _ G), decide_True by (lia || zlia). done. }
  split; [apply G|unfold HEAP_START, HEAP_MAX; lia|zlia|..]; unfold HEAP_START.
  - intros b Hb. destruct (decide (b < top)).
    + destruct (hv_map _ _ H b ltac:(unfold HEAP_START; lia)) as (q & Hq & Hm & Hd). exists q.
      rewrite Hold by lia. split_and!; [done..|]. by apply (ext_frame _ _ (fp_ext _ _ _ _ G)).
    + eexists. split; [apply Hpage; lia|]. split; [zlia|].
      replace ((phys + b mod 4096) / 4096) with (phys / 4096) by zlia. exact (fp_data _ _ _ _ G).
  - intros b c pb pc Hb Hc. destruct (decide (b < top)), (decide (c < top)).
    + rewrite !Hold by lia. apply (hv_inj _ _ H); unfold HEAP_START; lia.
    + rewrite Hold, Hpage by lia. intros Hpb [= <-] Heq. exfalso.
      apply (fresh_frame v v' top top phys H G b pb ltac:(unfold HEAP_START; lia) Hpb). rewrite Heq. zlia.
    + rewrite Hpage, Hold by lia. intros [= <-] Hpc Heq. exfalso.
      apply (fresh_frame v v' top top phys H G c pc ltac:(unfold HEAP_START; lia) Hpc). rewrite <- Heq. zlia.
    + intros _ _ _. zlia.
Qed.

(** ** Tags *)

Definition tag (size : Z) (alloc : bool) : Z := size + Z.b2z alloc.
Definition tag_ok (size : Z) : Prop := 0 <= size < 2 ^ 31 /\ size mod 8 = 0.

Lemma mask_round k x : 0 <= k <= 32 -> 0 <= x < 2 ^ 32 ->
  Z.land x (u32 (Z.lnot (2 ^ k - 1))) = x - x mod 2 ^ k.
Proof.
  intros Hk Hx. rewrite <- (land_round_down 32 k) by done. f_equal.
  assert (2 ^ k <= 2 ^ 32) by (apply Z.pow_le_mono_r; lia). pose proof (Z.pow_pos_nonneg 2 k).
  replace (Z.lnot (2 ^ k - 1)) with (- 2 ^ k) by (unfold Z.lnot; lia).
  unfold u32. replace (- 2 ^ k) with (2 ^ 32 - 2 ^ k + (-1) * 2 ^ 32) by lia.
  rewrite Z.mod_add by done. apply Z.mod_small. lia.
Qed.

Lemma size_tag sz al : tag_ok sz -> Z.land (tag sz al) (u32 (Z.lnot 0x7)) = sz.
Proof.
  intros [H1 H2]. unfold tag. change 0x7 with (2 ^ 3 - 1).
  rewrite mask_round by (destruct al; simpl; lia). destruct al; simpl; zlia.
Qed.
Lemma alloc_tag sz al : tag_ok sz -> Z.land (tag sz al) 0x1 = Z.b2z al.
Proof.
  intros [H1 H2]. unfold tag. change 0x1 with (2 ^ 1 - 1). rewrite land_ones_mod by lia.
  destruct al; simpl; zlia.
Qed.
Lemma pack_tag sz al : tag_ok sz -> PACK sz (Z.b2z al) = tag sz al.
Proof.
  intros [H1 H2]. unfold PACK, tag. apply (lor_low_add 3); [done|done|destruct al; simpl; lia].
Qed.
Lemma tag_range sz al : tag_ok sz -> 0 <= tag sz al < 2 ^ 32.
Proof. intros [H1 H2]. unfold tag. destruct al; simpl; lia. Qed.

Lemma align_round s : 0 <= s -> s + 7 < 2 ^ 32 -> ALIGN s = s + 7 - (s + 7) mod 8.
Proof.
  intros H1 H2. unfold ALIGN. change (DWSIZE - 1) with (2 ^ 3 - 1). rewrite u32_small by lia.
  rewrite mask_round by lia. change (2 ^ 3) with 8. zlia.
Qed.

(** ** Symbolic execution over a functional memory

    [hstate s top w]: the heap's words below [top] are given by [w]. *)
Record hstate (s : kheap_state) (top : Z) (w : Z -> Z) : Prop := {
  hs_top : heap_virt_mapped s = top;
  hs_vm : heap_vm (hvm s) top;
  hs_word : forall b, HEAP_START <= b < top -> word_at (hvm s) b = w b
}.

(** Nothing but words of the heap changed. *)
Record heap_same (s s' : kheap_state) : Prop := {
  same_listp : heap_listp s' = heap_listp s;
  same_brk : heap_brk s' = heap_brk s;
  same_pmm : vm_pmm (hvm s') = vm_pmm (hvm s);
  same_pde : forall i, 0 <= i < 1024 -> pde_at (hvm s') i = pde_at (hvm s) i;
  same_translate : forall a, 0 <= a < 2 ^ 32 -> translate (hvm s') a = translate (hvm s) a
}.

#[export] Instance heap_same_preorder : PreOrder heap_same.
Proof.
  split; [by split|]. intros s1 s2 s3 [A1 A2 A3 A4 A5] [B1 B2 B3 B4 B5].
  split; [congruence..| |]; intros i Hi; [rewrite B4 by done|rewrite B5 by done]; auto.
Qed.

Section access.
Context (s : kheap_state) (top : Z) (w : Z -> Z) (Hs : hstate s top w).

Lemma top_bound : HEAP_START <= top <= HEAP_MAX.
Proof. apply (hv_top _ _ (hs_vm _ _ _ Hs)). Qed.

Lemma GET_spec a : HEAP_START <= a < top -> GET a s = Ok (w a, s).
Proof.
  intros Ha. unfold GET, vm, zoom. rewrite (load_word _ top) by (apply Hs || done).
  rewrite (hs_word _ _ _ Hs) by done. by destruct s.
Qed.

Lemma PUT_spec a x :
  HEAP_START <= a < top -> 0 <= x < 2 ^ 32 ->
  exists s', PUT a x s = Ok (tt, s') /\ heap_same s s' /\ hstate s' top (upd w a x).
Proof.
  intros Ha Hx. destruct (store_word _ top a x (hs_vm _ _ _ Hs) Ha Hx) as (v' & E & H1 & H2 & H3 & H3' & H4).
  exists (set_hvm v' s). split; [unfold PUT, vm, zoom; by rewrite E|]. split; [by split|].
  split; [apply Hs|done|]. intros b Hb. simpl. rewrite H4 by done. unfold upd. case_decide; [done|].
  by apply (hs_word _ _ _ Hs).
Qed.

Context (a sz : Z) (al : bool) (Ha : HEAP_START <= a < top) (Hw : w a = tag sz al) (Hsz : tag_ok sz).

Lemma GET_SIZE_spec : GET_SIZE a s = Ok (sz, s).
Proof. unfold GET_SIZE. rewrite (bind_ok _ _ _ _ _ (GET_spec a Ha)), Hw, size_tag by done. done. Qed.
Lemma GET_ALLOC_spec : GET_ALLOC a s = Ok (Z.b2z al, s).
Proof. unfold GET_ALLOC. rewrite (bind_ok _ _ _ _ _ (GET_spec a Ha)), Hw, alloc_tag by done. done. Qed.

Lemma HDRP_spec : HDRP (a + 4) = a.
Proof.
  pose proof top_bound. unfold HDRP, WSIZE, HEAP_START, HEAP_MAX in *. rewrite u32_small; lia.
Qed.
Lemma NEXT_BLKP_spec : NEXT_BLKP (a + 4) s = Ok (a + sz + 4, s).
Proof.
  pose proof top_bound. destruct Hsz. unfold NEXT_BLKP. rewrite HDRP_spec, (bind_ok _ _ _ _ _ GET_SIZE_spec).
  unfold HEAP_START, HEAP_MAX in *. rewrite u32_small by lia. by replace (a + 4 + sz) with (a + sz + 4) by lia.
Qed.
Lemma FTRP_spec : FTRP (a + 4) s = Ok (a + sz - 4, s).
Proof.
  pose proof top_bound. destruct Hsz. unfold FTRP. rewrite HDRP_spec, (bind_ok _ _ _ _ _ GET_SIZE_spec).
  unfold HEAP_START, HEAP_MAX, DWSIZE in *. rewrite u32_small by lia.
  by replace (a + 4 + sz - 8) with (a + sz - 4) by lia.
Qed.
Lemma PREV_BLKP_spec : sz <= a -> PREV_BLKP (a + 8) s = Ok (a + 8 - sz, s).
Proof.
  intros Hle. pose proof top_bound. destruct Hsz. unfold PREV_BLKP.
  unfold HEAP_START, HEAP_MAX, DWSIZE in *. replace (a + 8 - 8) with a by lia.
  rewrite (u32_small a) by lia. rewrite (bind_ok _ _ _ _ _ GET_SIZE_spec).
  by rewrite u32_small by lia.
Qed.
End access.

(** One step of a symbolic run: the head of the bind is given by [L]. *)
Ltac hstep L := rewrite (bind_ok _ _ _ _ _ L).
(** A word of an updated memory. *)
Ltac hword := unfold upd; repeat case_decide; try lia; try done.
Ltac hconst := unfold HEAP_START, HEAP_MAX, MIN_BLOCK, WSIZE, DWSIZE, PAGE_SIZE, tag_ok in *.

(** ** Coalescing

    A free block of [sz] bytes at [a] whose left neighbour has the tag
    [psz, pal] and whose right neighbour has the tag [nsz, nal] becomes one
    free block together with the free ones among them. *)
Section coalesce.
Context (s : kheap_state) (top : Z) (w : Z -> Z) (Hs : hstate s top w).
Context (a sz psz nsz : Z) (pal nal : bool).
Context (Hsz : tag_ok sz) (Hpsz : tag_ok psz) (Hnsz : tag_ok nsz).
Context (Hlow : HEAP_START <= a - psz) (Hsz8 : 8 <= sz) (Hpsz8 : 8 <= psz) (Hmid : a + sz < top).
Context (Hnext : nal = false -> 8 <= nsz /\ a + sz + nsz <= top).
Context (Wpf : w (a - 4) = tag psz pal) (Wph : w (a - psz) = tag psz pal).
Context (Wh : w a = tag sz false) (Wf : w (a + sz - 4) = tag sz false) (Wn : w (a + sz) = tag nsz nal).

(** The two tags of a free block are written one after the other. *)
Lemma put_tags x y z : HEAP_START <= x < top -> HEAP_START <= y < top -> tag_ok z ->
  exists s1 s2, PUT x (tag z false) s = Ok (tt, s1) /\ hstate s1 top (upd w x (tag z false)) /\ PUT y (tag z false) s1 = Ok (tt, s2) /\
    heap_same s s2 /\ hstate s2 top (upd (upd w x (tag z false)) y (tag z false)).
Proof.
  intros Hx Hy Hz. destruct (PUT_spec s top w Hs x _ Hx (tag_range z false Hz)) as (s1 & E1 & S1 & H1).
  destruct (PUT_spec s1 top _ H1 y _ Hy (tag_range z false Hz)) as (s2 & E2 & S2 & H2). exists s1, s2. split_and!; [done..|by etrans|done].
Qed.

Definition join_start : Z := if pal then a else a - psz.
Definition join_size : Z := (if pal then 0 else psz) + sz + (if nal then 0 else nsz).

Lemma coalesce_spec :
  exists s' w', coalesce (a + 4) s = Ok (join_start + 4, s') /\ heap_same s s' /\ hstate s' top w' /\
    w' join_start = tag join_size false /\ w' (join_start + join_size - 4) = tag join_size false /\
    (forall b, b < join_start \/ join_start + join_size <= b -> w' b = w b).
Proof.
  pose proof (top_bound s top w Hs) as Htop. unfold coalesce, join_start, join_size.
  assert (Hp4 : PREV_BLKP (a - 4 + 8) = PREV_BLKP (a + 4)) by (f_equal; lia).
  assert (Hpp : a - psz + 4 = a - 4 + 8 - psz) by lia.
  assert (tag_ok (sz + nsz) /\ tag_ok (sz + psz) /\ tag_ok (sz + (psz + nsz)) \/ nal = true /\ tag_ok (sz + psz))
    as Hsum by (destruct nal; [right|left]; hconst; zlia).
  rewrite <- Hp4. hstep (PREV_BLKP_spec s top w Hs (a - 4) psz pal ltac:(hconst; lia) Wpf Hpsz ltac:(hconst; lia)).
  hstep (NEXT_BLKP_spec s top w Hs a sz false ltac:(lia) Wh Hsz). rewrite <- Hpp.
  hstep (FTRP_spec s top w Hs (a - psz) psz pal ltac:(lia) Wph Hpsz).
  replace (a - psz + psz - 4) with (a - 4) by lia.
  hstep (GET_ALLOC_spec s top w Hs (a - 4) psz pal ltac:(lia) Wpf Hpsz).
  rewrite (HDRP_spec s top w Hs (a + sz)) by lia.
  hstep (GET_ALLOC_spec s top w Hs (a + sz) nsz nal ltac:(lia) Wn Hnsz).
  rewrite (HDRP_spec s top w Hs a), (HDRP_spec s top w Hs (a - psz)) by lia.
  hstep (GET_SIZE_spec s top w Hs a sz false ltac:(lia) Wh Hsz).
  assert (Hb : forall b, negb (truthy (Z.b2z b)) = negb b) by by intros [].
  rewrite !Hb. destruct pal, nal; cbn [negb andb].
  - exists s, w. rewrite !Z.add_0_r, Z.add_0_l. split_and!; done.
  - destruct (Hnext eq_refl) as [Hn8 Hntop]. destruct Hsum as [(Hsum & _)|[? _]]; [|done].
    hstep (GET_SIZE_spec s top w Hs (a + sz) nsz false ltac:(lia) Wn Hnsz).
    rewrite u32_small by (hconst; lia). change 0 with (Z.b2z false) at 1 2. rewrite pack_tag by done.
    destruct (put_tags a (a + (sz + nsz) - 4) (sz + nsz)) as (s1 & s2 & E1 & H1 & E2 & S2 & H2); [lia..|done|]. hstep E1.
    hstep (FTRP_spec s1 top _ H1 a (sz + nsz) false ltac:(lia) (upd_eq _ _ _) Hsum). hstep E2.
    exists s2. eexists. split; [done|]. do 2 (split; [done|]). rewrite Z.add_0_l.
    split_and!; [hword..|intros; hword].
  - assert (Hsp : tag_ok (sz + psz)) by tauto.
    hstep (GET_SIZE_spec s top w Hs (a - psz) psz false ltac:(lia) Wph Hpsz).
    rewrite u32_small by (hconst; lia). change 0 with (Z.b2z false) at 1 2. rewrite pack_tag by done.
    hstep (FTRP_spec s top _ Hs a sz false ltac:(lia) Wh Hsz).
    destruct (put_tags (a + sz - 4) (a - psz) (sz + psz)) as (s1 & s2 & E1 & H1 & E2 & S2 & H2); [lia..|done|]. hstep E1. hstep E2.
    exists s2. eexists. split; [done|]. do 2 (split; [done|]).
    rewrite Z.add_0_r, (Z.add_comm psz sz). split_and!; [hword..|intros; hword].
  - destruct (Hnext eq_refl) as [Hn8 Hntop]. destruct Hsum as [(_ & _ & Hsum)|[? _]]; [|done].
    hstep (GET_SIZE_spec s top w Hs (a - psz) psz false ltac:(lia) Wph Hpsz).
    hstep (GET_SIZE_spec s top w Hs (a + sz) nsz false ltac:(lia) Wn Hnsz).
    rewrite (u32_small (psz + nsz)), u32_small by (hconst; lia).
    change 0 with (Z.b2z false) at 1 2. rewrite pack_tag by done.
    destruct (put_tags (a - psz) (a + sz + nsz - 4) (sz + (psz + nsz))) as (s1 & s2 & E1 & H1 & E2 & S2 & H2); [lia..|done|]. hstep E1.
    hstep (FTRP_spec s1 top _ H1 (a + sz) nsz false ltac:(lia) ltac:(rewrite upd_ne by lia; exact Wn) Hnsz). hstep E2.
    exists s2. eexists. split; [done|]. do 2 (split; [done|]).
    replace (psz + sz + nsz) with (sz + (psz + nsz)) by lia. split_and!; [hword..|intros; hword].
Qed.
End coalesce.

(** ** Placing an allocation into a free block *)
Lemma place_spec s top w a csz asz :
  hstate s top w -> w a = tag csz false -> tag_ok csz -> tag_ok asz -> 16 <= asz <= csz ->
  HEAP_START <= a -> a + csz <= top ->
  exists s' w', place (a + 4) asz s = Ok (tt, s') /\ heap_same s s' /\ hstate s' top w' /\
    (forall b, b < a \/ a + csz <= b -> w' b = w b) /\
    (if decide (16 <= csz - asz) then
       w' a = tag asz true /\ w' (a + asz - 4) = tag asz true /\
       w' (a + asz) = tag (csz - asz) false /\ w' (a + csz - 4) = tag (csz - asz) false
     else w' a = tag csz true /\ w' (a + csz - 4) = tag csz true).
Proof.
  intros Hs Wh Hc Ha Hr Hlow Htop. pose proof (top_bound s top w Hs) as Hb. unfold place.
  assert (Hrem : tag_ok (csz - asz)) by (hconst; zlia).
  assert (Hone : forall x, tag_ok x -> PACK x 1 = tag x true) by (intros; by rewrite <- pack_tag).
  assert (Hzero : forall x, tag_ok x -> PACK x 0 = tag x false) by (intros; by rewrite <- pack_tag).
  rewrite (HDRP_spec s top w Hs a) by lia.
  hstep (GET_SIZE_spec s top w Hs a csz false ltac:(lia) Wh Hc).
  rewrite (u32_small (csz - asz)) by (hconst; lia). change MIN_BLOCK with 16. case_decide as Hd.
  - rewrite (proj2 (Z.leb_le _ _)) by lia. rewrite !Hone, !Hzero by done.
    destruct (PUT_spec s top _ Hs a (tag asz true) ltac:(lia) (tag_range _ _ Ha)) as (s1 & E1 & S1 & H1). hstep E1.
    hstep (FTRP_spec s1 top _ H1 a asz true ltac:(lia) (upd_eq _ _ _) Ha).
    destruct (PUT_spec s1 top _ H1 (a + asz - 4) (tag asz true) ltac:(lia) (tag_range _ _ Ha)) as (s2 & E2 & S2 & H2).
    hstep E2. hstep (NEXT_BLKP_spec s2 top _ H2 a asz true ltac:(lia) ltac:(hword) Ha).
    rewrite (HDRP_spec s2 top _ H2 (a + asz)) by lia.
    destruct (PUT_spec s2 top _ H2 (a + asz) (tag (csz - asz) false) ltac:(lia) (tag_range _ _ Hrem)) as (s3 & E3 & S3 & H3).
    hstep E3. hstep (FTRP_spec s3 top _ H3 (a + asz) (csz - asz) false ltac:(lia) (upd_eq _ _ _) Hrem).
    destruct (PUT_spec s3 top _ H3 (a + asz + (csz - asz) - 4) (tag (csz - asz) false) ltac:(lia) (tag_range _ _ Hrem))
      as (s4 & E4 & S4 & H4).
    exists s4. eexists. split; [done|]. split; [do 3 (etrans; [done|]); done|]. split; [done|].
    split; [intros; hword|]. split_and!; hword.
  - rewrite (proj2 (Z.leb_gt _ _)) by lia. rewrite !Hone by done.
    destruct (PUT_spec s top _ Hs a (tag csz true) ltac:(lia) (tag_range _ _ Hc)) as (s1 & E1 & S1 & H1). hstep E1.
    hstep (FTRP_spec s1 top _ H1 a csz true ltac:(lia) (upd_eq _ _ _) Hc).
    destruct (PUT_spec s1 top _ H1 (a + csz - 4) (tag csz true) ltac:(lia) (tag_range _ _ Hc)) as (s2 & E2 & S2 & H2).
    exists s2. eexists. split; [done|]. split; [by etrans|]. split; [done|].
    split; [intros; hword|]. split; hword.
Qed.

(** ** The heap as a list of blocks *)

(** A block: its total size and whether it is allocated. *)
Definition block : Type := Z * bool.

(** [seg w a bl e]: the blocks [bl] tile the range from [a] to [e]. *)
Fixpoint seg (w : Z -> Z) (a : Z) (bl : list block) (e : Z) : Prop :=
  match bl with
  | [] => a = e
  | (sz, al) :: bl' =>
      16 <= sz /\ tag_ok sz /\ w a = tag sz al /\ w (a + sz - 4) = tag sz al /\ seg w (a + sz) bl' e
  end.

Definition total (bl : list block) : Z := foldr (fun b n => b.1 + n) 0 bl.

Lemma total_app l1 l2 : total (l1 ++ l2) = total l1 + total l2.
Proof. induction l1 as [|[sz al] l1 IH]; simpl; [done|]. unfold total in *. simpl. lia. Qed.

Lemma seg_total w a bl e : seg w a bl e -> e = a + total bl /\ 0 <= total bl.
Proof.
  revert a. induction bl as [|[sz al] bl IH]; intros a; unfold total; simpl; [lia|].
  intros (H1 & _ & _ & _ & H2). apply IH in H2. unfold total in H2. lia.
Qed.

Lemma seg_app w a l1 l2 e : seg w a (l1 ++ l2) e <-> exists m, seg w a l1 m /\ seg w m l2 e.
Proof.
  revert a. induction l1 as [|[sz al] l1 IH]; intros a; simpl.
  - split; [eauto|]. by intros (m & -> & H).
  - rewrite IH. split.
    + intros (H1 & H2 & H3 & H4 & m & H5 & H6). exists m. by split_and!.
    + intros (m & (H1 & H2 & H3 & H4 & H5) & H6). split_and!; try done. eauto.
Qed.

(** The blocks depend only on the words of their range. *)
Lemma seg_ext w w' a bl e :
  (forall b, a <= b < e -> w' b = w b) -> seg w a bl e -> seg w' a bl e.
Proof.
  revert a. induction bl as [|[sz al] bl IH]; intros a Hw; simpl; [done|].
  intros (H1 & H2 & H3 & H4 & H5). destruct (seg_total _ _ _ _ H5) as [He H0].
  split_and!; try done; [rewrite Hw by lia; done..|].
  apply IH; [|done]. intros b Hb. apply Hw. lia.
Qed.

(** Replacing a middle part of the tiling by another tiling of its range. *)
Lemma seg_replace w w' a l1 mid' l2 e m1 m2 :
  seg w a l1 m1 -> seg w m2 l2 e -> seg w' m1 mid' m2 ->
  (forall b, b < m1 \/ m2 <= b -> w' b = w b) ->
  seg w' a (l1 ++ mid' ++ l2) e.
Proof.
  intros H1 H2 H3 Hw. apply seg_app. exists m1. split.
  - apply (seg_ext w); [|done]. intros b Hb. apply Hw. lia.
  - apply seg_app. exists m2. split; [done|]. apply (seg_ext w); [|done]. intros b Hb. apply Hw. lia.
Qed.

(** ** Growing the mapped part *)

(** Every free frame lies in the identity map. *)
Definition low_memory (p : pmm_state) : Prop := forall f, frame_free p f -> f * 4096 < LOW_END.

(** The page table of an address exists, or every free frame could hold one. *)
Definition table_ready (v : vmm_state) (a : Z) : Prop :=
  present (pde_at v (PD_INDEX a)) = true \/ low_memory (vm_pmm v).

(** So it is for the part of the heap below [end_]. *)
Definition tables_ready (v : vmm_state) (end_ : Z) : Prop :=
  forall a, HEAP_START <= a < end_ -> a < HEAP_MAX -> table_ready v a.

(** Reserved frames stay reserved and page tables stay in place. *)
Record vm_mono (v v' : vmm_state) : Prop := {
  mono_pmm : forall f, bitmap_test (vm_pmm v) f = true -> bitmap_test (vm_pmm v') f = true;
  mono_pde : forall i, 0 <= i < 1024 -> present (pde_at v i) = true -> present (pde_at v' i) = true
}.

#[export] Instance vm_mono_preorder : PreOrder vm_mono.
Proof. split; [by split|]. intros v1 v2 v3 [A1 A2] [B1 B2]. split; auto. Qed.

Lemma vm_mono_ext v v' : vmm_ext v v' -> vm_mono v v'.
Proof. intros H. split; apply H. Qed.
Lemma vm_mono_same s s' : heap_same s s' -> vm_mono (hvm s) (hvm s').
Proof. intros [_ _ H1 H2 _]. split; [by rewrite H1|]. intros i Hi. by rewrite H2. Qed.
#[export] Hint Resolve vm_mono_ext vm_mono_same : orion.

Lemma table_ready_mono v v' a : vm_mono v v' -> 0 <= a < 2 ^ 32 -> table_ready v a -> table_ready v' a.
Proof.
  intros He Ha [Hp|Hf]; [left|right].
  - apply (mono_pde _ _ He); [|done]. by apply pd_index_range.
  - intros f [Hf1 Hf2]. apply Hf. split; [done|].
    destruct (bitmap_test (vm_pmm v) f) eqn:E; [|done]. apply (mono_pmm _ _ He) in E. congruence.
Qed.

Lemma tables_ready_mono v v' end_ : vm_mono v v' -> tables_ready v end_ -> tables_ready v' end_.
Proof. intros He H a Ha Hm. apply (table_ready_mono v); [done|hconst; lia|by apply H]. Qed.

Definition map_panic : fault := Panic "VMM: vmm_map_page — page table allocation failed".

(** Mapping a page to a fresh frame succeeds, or no frame is left for the page
    table and the kernel panics. *)
Lemma map_page_ready v virt phys p :
  vmm_inv v -> LOW_END <= virt < 2 ^ 32 -> pmm_alloc_frame (vm_pmm v) = (phys, p) -> phys <> 0 -> table_ready v virt ->
  (exists v', vmm_map_page virt phys VMM_KERNEL_RW (set_pmm p v) = Ok (tt, v') /\ fresh_page v v' virt phys) \/
  vmm_map_page virt phys VMM_KERNEL_RW (set_pmm p v) = Stop map_panic.
Proof.
  intros Hinv Hvirt Ha Hnz Hready. destruct (alloc_keeps_inv v phys p Hinv Ha) as (Hinv1 & _ & _).
  destruct (pmm_alloc_frame p) as [a p2] eqn:Ha2.
  destruct (present (pde_at v (PD_INDEX virt))) eqn:Hp; [left; apply map_fresh; try done; by left|].
  destruct (decide (a = 0)) as [->|Hnz2].
  - right. unfold vmm_map_page. rewrite (bind_ok _ _ (set_pmm p v) 0 (set_pmm p2 (set_pmm p v))); [done|].
    rewrite (create_table_absent _ _ _ 0 p2); try done. unfold LOW_END in *. lia.
  - left. apply map_fresh; try done. right. cbn [set_pmm vm_pmm]. rewrite Ha2. split; [done|].
    destruct Hready as [|Hlow]; [congruence|]. simpl.
    destruct (pmm_alloc_frame_cases _ _ _ (vi_pmm _ Hinv1) Ha2) as [(g & _ & [Hg1 Hg2] & -> & _)|(-> & _)]; [|done].
    apply Hlow. split; [done|]. destruct (bitmap_test (vm_pmm v) g) eqn:E; [|done].
    simpl in Hg2. destruct (pmm_alloc_frame_cases _ _ _ (vi_pmm _ Hinv) Ha) as [(f & _ & _ & _ & _ & Ht & _)|(-> & _)]; [|done].
    rewrite Ht, E in Hg2. by case_decide.
Qed.

(** One iteration of [ensure_mapped]. *)
Lemma map_next v top phys p :
  heap_vm v top -> top + 4096 <= HEAP_MAX -> pmm_alloc_frame (vm_pmm v) = (phys, p) -> phys <> 0 ->
  tables_ready v (top + 1) ->
  (exists v', vmm_map_page top phys VMM_KERNEL_RW (set_pmm p v) = Ok (tt, v') /\
     heap_vm v' (top + 4096) /\ vmm_ext v v' /\
     (forall b, HEAP_START <= b < top -> word_at v' b = word_at v b)) \/
  vmm_map_page top phys VMM_KERNEL_RW (set_pmm p v) = Stop map_panic.
Proof.
  intros H Hmax Ha Hnz Hready. pose proof (hv_top _ _ H) as Htop. pose proof (hv_page _ _ H).
  destruct (map_page_ready v top phys p (hv_inv _ _ H)) as [(v' & E & G)|E]; try done.
  - unfold LOW_END. hconst. lia.
  - apply Hready; hconst; lia.
  - left. exists v'. split; [done|]. split; [by apply (grow_fresh v v' top phys)|]. split; [apply G|].
    intros b Hb. apply (fresh_words v v' top top phys H G); [by left|done|done].
  - by right.
Qed.

(** What [ensure_mapped] leaves: more of the heap mapped, its words as before. *)
Record grown (s s' : kheap_state) (top top' : Z) (w w' : Z -> Z) : Prop := {
  gr_state : hstate s' top' w';
  gr_top : top <= top';
  gr_listp : heap_listp s' = heap_listp s;
  gr_brk : heap_brk s' = heap_brk s;
  gr_ext : vmm_ext (hvm s) (hvm s');
  gr_word : forall b, HEAP_START <= b < top -> w' b = w b
}.

Lemma ensure_mapped_spec fuel : forall end_ s top w,
  hstate s top w -> end_ < 2 ^ 32 -> HEAP_MAX - top < 4096 * Z.of_nat fuel -> tables_ready (hvm s) end_ ->
  (exists r s' top' w', ensure_mapped fuel end_ s = Ok (r, s') /\ grown s s' top top' w w' /\
     (r = 0 /\ end_ <= top' \/
      r = -1 /\ (HEAP_MAX < end_ \/ (pmm_alloc_frame (vm_pmm (hvm s'))).1 = 0))) \/
  ensure_mapped fuel end_ s = Stop map_panic.
Proof.
  induction fuel as [|fuel IH]; intros end_ s top w Hs Hend Hfuel Hready;
    pose proof (top_bound s top w Hs) as Htop; pose proof (hs_vm _ _ _ Hs) as Hvm;
    cbn [ensure_mapped]; rewrite (bind_ok _ _ s top s) by (unfold gets; by rewrite (hs_top _ _ _ Hs));
    (destruct (Z.ltb_spec top end_) as [Hlt|Hge];
     [|left; exists 0, s, top, w; split; [done|]; split; [by split|]; left; lia]).
  { lia. }
  unfold PAGE_SIZE. rewrite u32_small by (hconst; lia).
  destruct (Z.ltb_spec HEAP_MAX (top + 4096)) as [Hm|Hm].
  { left. exists (-1), s, top, w. split; [done|]. split; [by split|]. right. split; [done|]. left.
    pose proof (hv_page _ _ Hvm). hconst. zlia. }
  destruct (pmm_alloc_frame (vm_pmm (hvm s))) as [phys p] eqn:Ha.
  rewrite (bind_ok _ _ s phys (set_hvm (set_pmm p (hvm s)) s))
    by (unfold vm, zoom, alloc_frame; by rewrite Ha).
  destruct (Z.eqb_spec phys 0) as [->|Hnz].
  { left. destruct (pmm_alloc_frame_cases _ _ _ (vi_pmm _ (hv_inv _ _ Hvm)) Ha)
      as [(f & Hf & _ & Heq & _)|(_ & -> & _)]; [unfold PAGE_SIZE in *; lia|].
    exists (-1), s, top, w. replace (set_hvm (set_pmm (vm_pmm (hvm s)) (hvm s)) s) with s
      by (by destruct s as [[]]).
    split; [done|]. split; [by split|]. right. split; [done|]. right. by rewrite Ha. }
  destruct (map_next (hvm s) top phys p) as [(v' & E & Hvm' & Hext & Hwords)|E]; try done.
  { intros a Ha'. apply Hready. lia. }
  2: { right. apply bind_stop. unfold vm, zoom. simpl. by rewrite E. }
  set (s1 := KheapState v' (heap_listp s) (heap_brk s) (top + 4096)).
  rewrite (bind_ok _ _ _ tt (set_hvm v' s)) by (unfold vm, zoom; simpl; by rewrite E).
  rewrite (bind_ok _ _ _ tt s1) by done.
  destruct (IH end_ s1 (top + 4096) (word_at v')) as [(r & s' & top' & w' & E' & G & Hr)|E']; try done.
  { lia. }
  { by apply (tables_ready_mono (hvm s)); [apply vm_mono_ext|]. }
  - left. exists r, s', top', w'. split; [done|]. split; [|done]. destruct G as [G1 G2 G3 G4 G5 G6].
    split; try done; [lia|by etrans|]. intros b Hb. rewrite G6, Hwords by lia. by apply (hs_word _ _ _ Hs).
  - by right.
Qed.

(** ** Abstract heap: a list of blocks *)

Definition FIRST : Z := HEAP_START + 12.

(** The live payloads of a tiling from [a]: address and payload size. *)
Fixpoint live_at (a : Z) (bl : list block) (p n : Z) : Prop :=
  match bl with
  | [] => False
  | (sz, al) :: bl' => (al = true /\ p = a + 4 /\ n = sz - 8) \/ live_at (a + sz) bl' p n
  end.
Definition live (bl : list block) (p n : Z) : Prop := live_at FIRST bl p n.

(** No two neighbours are both free. *)
Fixpoint coalesced (bl : list block) : Prop :=
  match bl with
  | [] => True
  | b :: bl' => (match bl' with b' :: _ => b.2 = true \/ b'.2 = true | [] => True end) /\ coalesced bl'
  end.

(** The first free block of at least [asize] bytes, between what precedes
    and what follows it. *)
Fixpoint first_fit (asize : Z) (bl : list block) : option (list block * Z * list block) :=
  match bl with
  | [] => None
  | (sz, al) :: bl' =>
      if negb al && (asize <=? sz) then Some ([], sz, bl')
      else match first_fit asize bl' with
           | Some (l1, csz, l2) => Some ((sz, al) :: l1, csz, l2)
           | None => None
           end
  end.

Definition abs_place (l1 : list block) (csz asz : Z) (l2 : list block) : list block :=
  l1 ++ (if decide (16 <= csz - asz) then [(asz, true); (csz - asz, false)] else [(csz, true)]) ++ l2.

Definition absorb_left (l1 : list block) : list block * Z :=
  match last l1 with
  | Some (psz, false) => (removelast l1, psz)
  | _ => (l1, 0)
  end.
Definition absorb_right (l2 : list block) : Z * list block :=
  match l2 with
  | (nsz, false) :: l2' => (nsz, l2')
  | _ => (0, l2)
  end.
Definition abs_coalesce (l1 : list block) (sz : Z) (l2 : list block) : list block :=
  (absorb_left l1).1 ++ [((absorb_left l1).2 + sz + (absorb_right l2).1, false)] ++ (absorb_right l2).2.

(** ** Facts about the abstract heap *)

Lemma live_app a l1 l2 p n :
  live_at a (l1 ++ l2) p n <-> live_at a l1 p n \/ live_at (a + total l1) l2 p n.
Proof.
  revert a. induction l1 as [|[sz al] l1 IH]; intros a; unfold total; simpl.
  - rewrite Z.add_0_r. tauto.
  - rewrite IH. unfold total. rewrite Z.add_assoc. tauto.
Qed.

Lemma live_range w a bl e p n :
  seg w a bl e -> live_at a bl p n -> a + 4 <= p /\ 8 <= n /\ p + n + 4 <= e /\ (p - a - 4) mod 8 = 0 /\
    w (p - 4) = tag (n + 8) true.
Proof.
  revert a. induction bl as [|[sz al] bl IH]; intros a; simpl; [done|].
  intros (H1 & [_ H2] & H3 & H4 & H5) [(-> & -> & ->)|H].
  - destruct (seg_total _ _ _ _ H5) as [? ?]. split_and!; [lia|lia|lia| |].
    + replace (a + 4 - a - 4) with 0 by lia. done.
    + replace (a + 4 - 4) with a by lia. replace (sz - 8 + 8) with sz by lia. done.
  - destruct (IH _ H5 H) as (? & ? & ? & Hm & ?). split_and!; [lia|lia|lia| |done]. clear -Hm H2. zlia.
Qed.

(** Live payloads are separated by their tags. *)
Lemma live_disjoint w a bl e p n q k :
  seg w a bl e -> live_at a bl p n -> live_at a bl q k -> (p, n) = (q, k) \/ p + n + 8 <= q \/ q + k + 8 <= p.
Proof.
  revert a. induction bl as [|[sz al] bl IH]; intros a; simpl; [done|].
  intros (H1 & _ & _ & _ & H5) [(-> & -> & ->)|Hp] [(_ & -> & ->)|Hq].
  - by left.
  - destruct (live_range _ _ _ _ _ _ H5 Hq) as (? & _). lia.
  - destruct (live_range _ _ _ _ _ _ H5 Hp) as (? & _). lia.
  - by apply (IH (a + sz)).
Qed.

Lemma live_split bl p n :
  live bl p n -> exists l1 l2, bl = l1 ++ (n + 8, true) :: l2 /\ p = FIRST + total l1 + 4.
Proof.
  unfold live. generalize FIRST as a. induction bl as [|[sz al] bl IH]; intros a; simpl; [done|].
  intros [(-> & -> & ->)|H].
  - exists [], bl. replace (sz - 8 + 8) with sz by lia. unfold total. simpl. split; [done|lia].
  - destruct (IH _ H) as (l1 & l2 & -> & ->). exists ((sz, al) :: l1), l2. unfold total. simpl. split; [done|lia].
Qed.

Lemma first_fit_Some asz bl l1 csz l2 :
  first_fit asz bl = Some (l1, csz, l2) ->
  bl = l1 ++ (csz, false) :: l2 /\ asz <= csz /\ Forall (fun b => b.2 = true \/ b.1 < asz) l1.
Proof.
  revert l1. induction bl as [|[sz al] bl IH]; intros l1; simpl; [done|].
  destruct (negb al && (asz <=? sz)) eqn:E.
  - intros [= <- <- <-]. destruct al; [done|]. apply Z.leb_le in E. by split_and!; [|lia|constructor].
  - destruct (first_fit asz bl) as [[[l1' csz'] l2']|]; [|done]. intros [= <- <- <-].
    destruct (IH _ eq_refl) as (-> & H1 & H2). split_and!; try done. constructor; [|done]. simpl.
    destruct al; [by left|right]. by apply Z.leb_gt.
Qed.

Lemma first_fit_None asz bl :
  first_fit asz bl = None <-> Forall (fun b => b.2 = true \/ b.1 < asz) bl.
Proof.
  induction bl as [|[sz al] bl IH]; simpl; [by split|]. rewrite Forall_cons. simpl.
  assert (Hrest : match first_fit asz bl with
      | Some (l1, csz, l2) => Some ((sz, al) :: l1, csz, l2) | None => None end = None <->
      first_fit asz bl = None) by (by destruct (first_fit asz bl) as [[[? ?] ?]|]).
  destruct al; simpl; [rewrite Hrest, IH; tauto|].
  destruct (Z.leb_spec asz sz); [|rewrite Hrest, IH; tauto].
  split; [done|]. intros [[?|?] _]; [done|lia].
Qed.

Lemma coalesced_app l1 l2 :
  coalesced (l1 ++ l2) <-> coalesced l1 /\ coalesced l2 /\
    match last l1, l2 with Some b, b' :: _ => b.2 = true \/ b'.2 = true | _, _ => True end.
Proof.
  induction l1 as [|b l1 IH]; simpl; [tauto|]. rewrite IH. destruct l1 as [|b1 l1]; simpl.
  - destruct l2; simpl; tauto.
  - destruct (last (b1 :: l1)) eqn:E; [simpl in *; tauto|]. by apply last_None in E.
Qed.

Lemma absorb_left_spec l1 :
  coalesced l1 ->
  let '(l, psz) := absorb_left l1 in
  coalesced l /\ (match last l with Some b => b.2 = true | None => True end) /\
  (l1 = l /\ psz = 0 \/ l1 = l ++ [(psz, false)]).
Proof.
  destruct l1 as [|b l1 _] using rev_ind; [simpl; intros _; split_and!; try done; by left|].
  unfold absorb_left. rewrite last_snoc. destruct b as [psz [|]]; intros H.
  - split_and!; [done|by rewrite last_snoc|by left].
  - rewrite removelast_last. apply coalesced_app in H as (H1 & _ & H2). simpl in H2.
    split_and!; [done| |by right]. destruct (last l1); [|done]. destruct H2 as [H2|H2]; [exact H2|discriminate H2].
Qed.

Lemma absorb_right_spec l2 :
  coalesced l2 ->
  let '(nsz, l) := absorb_right l2 in
  coalesced l /\ (match l with b :: _ => b.2 = true | [] => True end) /\
  (l2 = l /\ nsz = 0 \/ l2 = (nsz, false) :: l).
Proof.
  destruct l2 as [|[nsz [|]] l2]; simpl; intros H.
  - split_and!; try done. by left.
  - split; [exact H|]. split; [done|by left].
  - destruct H as [H1 H2]. split_and!; [done| |by right]. destruct l2; [done|].
    destruct H1 as [H1|H1]; [discriminate H1|exact H1].
Qed.

(** ** Representation of the block list in memory *)

Record rep (w : Z -> Z) (brk : Z) (bl : list block) : Prop := {
  rep_pro : w (HEAP_START + 4) = tag 8 true /\ w (HEAP_START + 8) = tag 8 true;
  rep_seg : seg w FIRST bl brk;
  rep_epi : w brk = tag 0 true
}.

Record heap_at (s : kheap_state) (top : Z) (w : Z -> Z) (bl : list block) : Prop := {
  ha_state : hstate s top w;
  ha_listp : heap_listp s = HEAP_START + 8;
  ha_top : heap_brk s + 4 <= top;
  ha_rep : rep w (heap_brk s) bl
}.

(** The words of the heap in a state. *)
Definition hword_at (s : kheap_state) : Z -> Z := word_at (hvm s).
Definition heap_rep (s : kheap_state) (bl : list block) : Prop :=
  heap_at s (heap_virt_mapped s) (hword_at s) bl.

Lemma heap_at_rep s top w bl : heap_at s top w bl -> heap_rep s bl.
Proof.
  intros [Hs Hl Ht [[Hp1 Hp2] Hseg He]]. pose proof (top_bound _ _ _ Hs) as Htop.
  destruct (seg_total _ _ _ _ Hseg) as [Hb H0]. pose proof (hs_word _ _ _ Hs) as Hw.
  assert (heap_virt_mapped s = top) as Hvm by apply Hs.
  unfold heap_rep. rewrite Hvm. unfold hword_at. unfold FIRST in *. hconst.
  split; [by destruct Hs; split|done|done|]. split.
  - unfold HEAP_START. rewrite !Hw by lia. done.
  - apply (seg_ext w); [|done]. intros b Hb'. apply Hw. unfold FIRST, HEAP_START in *. lia.
  - by rewrite Hw by lia.
Qed.

Section at_state.
Context (s : kheap_state) (top : Z) (w : Z -> Z).

Lemma heap_at_bounds bl : heap_at s top w bl ->
  HEAP_START + 16 <= top <= HEAP_MAX /\ heap_brk s = FIRST + total bl /\ 0 <= total bl.
Proof.
  intros [Hs _ Ht [_ Hseg _]]. pose proof (top_bound _ _ _ Hs).
  destruct (seg_total _ _ _ _ Hseg). unfold FIRST in *. lia.
Qed.

Lemma find_fit_spec asz fuel : forall a bl e,
  hstate s top w -> seg w a bl e -> w e = tag 0 true -> HEAP_START <= a -> e < top ->
  (length bl <= fuel)%nat ->
  find_fit fuel (a + 4) asz s =
    Ok (option_map (fun r => a + total r.1.1 + 4) (first_fit asz bl), s).
Proof.
  induction fuel as [|fuel IH]; intros a bl e Hs Hseg He Ha Het Hf.
  all: destruct bl as [|[sz al] bl]; simpl in Hseg.
  1,3: subst e; cbn [find_fit]; rewrite (HDRP_spec s top w Hs a) by lia;
    by rewrite (bind_ok _ _ _ _ _ (GET_SIZE_spec s top w Hs a 0 true ltac:(lia) He ltac:(by split))).
  { simpl in Hf. lia. }
  destruct Hseg as (H16 & Hok & Hh & _ & Hrest). destruct (seg_total _ _ _ _ Hrest) as [Htot H0].
  cbn [find_fit]. rewrite (HDRP_spec s top w Hs a) by lia.
  hstep (GET_SIZE_spec s top w Hs a sz al ltac:(lia) Hh Hok).
  rewrite (proj2 (Z.ltb_lt 0 sz)) by lia.
  hstep (GET_ALLOC_spec s top w Hs a sz al ltac:(lia) Hh Hok).
  replace (negb (truthy (Z.b2z al))) with (negb al) by by destruct al. cbn [first_fit].
  destruct (negb al && (asz <=? sz)); [simpl; by rewrite Z.add_0_r|].
  hstep (NEXT_BLKP_spec s top w Hs a sz al ltac:(lia) Hh Hok).
  rewrite (IH (a + sz) bl e) by (done || lia || (simpl in Hf; lia)).
  destruct (first_fit asz bl) as [[[l1 csz] l2]|]; simpl; [|done]. f_equal. f_equal. f_equal.
  unfold total. simpl. lia.
Qed.

(** The tag to the left of a block boundary. *)
Lemma left_tag brk l1 l2 :
  rep w brk (l1 ++ l2) -> let m := FIRST + total l1 in
  exists psz pal, tag_ok psz /\ 8 <= psz /\ HEAP_START <= m - psz /\
    w (m - 4) = tag psz pal /\ w (m - psz) = tag psz pal /\
    ((pal = true /\ absorb_left l1 = (l1, 0)) \/
     (pal = false /\ exists l0, l1 = l0 ++ [(psz, false)] /\ absorb_left l1 = (l0, psz))).
Proof.
  intros [[Hp1 Hp2] Hseg _]. simpl. destruct l1 as [|[psz pal] l0 _] using rev_ind.
  - exists 8, true. unfold total, FIRST. simpl.
    replace (HEAP_START + 12 + 0 - 4) with (HEAP_START + 8) by lia.
    replace (HEAP_START + 12 + 0 - 8) with (HEAP_START + 4) by lia. split_and!; try done; try lia. by left.
  - apply seg_app in Hseg as (m & Hseg & _). apply seg_app in Hseg as (m0 & H1 & H2).
    destruct H2 as (H16 & Hok & Hh & Hf & Hm). destruct (seg_total _ _ _ _ H1) as [Hm0 H0].
    rewrite total_app. exists psz, pal. unfold total at 2 4 6. simpl. rewrite !Z.add_0_r.
    replace (FIRST + (total l0 + psz) - psz) with m0 by lia.
    replace (FIRST + (total l0 + psz) - 4) with (m0 + psz - 4) by lia.
    unfold FIRST in *. split_and!; try done; try lia. unfold absorb_left. rewrite last_snoc, removelast_last.
    destruct pal; [by left|right; eauto].
Qed.

(** The tag to the right of a block boundary. *)
Lemma right_tag brk l1 l2 :
  rep w brk (l1 ++ l2) -> let m := FIRST + total l1 in
  exists nsz nal, tag_ok nsz /\ w m = tag nsz nal /\ m <= brk /\
    ((nal = true /\ absorb_right l2 = (0, l2)) \/
     (nal = false /\ 16 <= nsz /\ m + nsz <= brk /\ exists l3, l2 = (nsz, false) :: l3 /\ absorb_right l2 = (nsz, l3))).
Proof.
  intros [_ Hseg He]. simpl. apply seg_app in Hseg as (m & H1 & H2).
  destruct (seg_total _ _ _ _ H1) as [<- H0]. destruct (seg_total _ _ _ _ H2) as [Hb H0'].
  destruct l2 as [|[nsz nal] l2].
  - simpl in H2. subst m. exists 0, true. split_and!; try done; by left.
  - destruct H2 as (H16 & Hok & Hh & _ & H3). destruct (seg_total _ _ _ _ H3).
    exists nsz, nal. split_and!; try done; [lia|]. destruct nal; [by left|right].
    split_and!; try done; [lia|]. eauto.
Qed.
End at_state.

(** ** Operations on the represented heap *)

Lemma heap_at_update s s' top w w' l1 mid mid' l2 :
  heap_at s top w (l1 ++ mid ++ l2) -> heap_same s s' -> hstate s' top w' ->
  let m := FIRST + total l1 in
  total mid' = total mid -> seg w' m mid' (m + total mid) ->
  (forall b, b < m \/ m + total mid <= b -> w' b = w b) ->
  heap_at s' top w' (l1 ++ mid' ++ l2).
Proof.
  intros [Hs Hl Ht [[Hp1 Hp2] Hseg He]] [S1 S2 _ _] Hs' m Htot Hmid Hw.
  apply seg_app in Hseg as (m1 & H1 & H2). apply seg_app in H2 as (m2 & H2 & H3).
  destruct (seg_total _ _ _ _ H1) as [-> ?]. destruct (seg_total _ _ _ _ H2) as [-> ?].
  destruct (seg_total _ _ _ _ H3) as [? ?]. subst m.
  split; [done|congruence|congruence|]. rewrite S2. split.
  - unfold FIRST in *. rewrite !Hw by lia. done.
  - by apply (seg_replace w w' _ _ _ _ _ (FIRST + total l1) (FIRST + total l1 + total mid)).
  - rewrite Hw by lia. done.
Qed.

Lemma seg_one w a sz al e :
  16 <= sz -> tag_ok sz -> w a = tag sz al -> w (a + sz - 4) = tag sz al -> a + sz = e ->
  seg w a [(sz, al)] e.
Proof. simpl. tauto. Qed.

Lemma place_at s top w l1 csz l2 asz :
  heap_at s top w (l1 ++ (csz, false) :: l2) -> tag_ok asz -> 16 <= asz <= csz ->
  let a := FIRST + total l1 in
  exists s' w', place (a + 4) asz s = Ok (tt, s') /\ heap_same s s' /\
    heap_at s' top w' (abs_place l1 csz asz l2) /\ (forall b, b < a \/ a + csz <= b -> w' b = w b).
Proof.
  intros H Hok Hr a. destruct (heap_at_bounds _ _ _ _ H) as (Htop & Hbrk & _).
  pose proof H as [Hs Hl Ht [_ Hseg _]]. apply seg_app in Hseg as (m & H1 & H2).
  destruct (seg_total _ _ _ _ H1) as [-> H0]. destruct H2 as (H16 & Hc & Hh & _ & H3).
  destruct (seg_total _ _ _ _ H3) as [Hb H0'].
  destruct (place_spec s top w a csz asz Hs Hh Hc Hok Hr) as (s' & w' & E & Hsame & Hs' & Hw & Hcase).
  { subst a. unfold FIRST. lia. }
  { subst a. lia. }
  exists s', w'. split_and!; try done. unfold abs_place.
  apply (heap_at_update s s' top w w' l1 [(csz, false)] _ l2); try done; fold a; unfold total; simpl;
    rewrite ?Z.add_0_r; case_decide; simpl; try lia; try done; destruct_and!.
  - split_and!; try done; try lia; [hconst; zlia|by replace (a + asz + (csz - asz) - 4) with (a + csz - 4) by lia].
  - by split_and!.
Qed.

Lemma coalesce_at s top w l1 sz l2 :
  heap_at s top w (l1 ++ (sz, false) :: l2) ->
  let a := FIRST + total (absorb_left l1).1 in
  let sz' := (absorb_left l1).2 + sz + (absorb_right l2).1 in
  exists s' w', coalesce (FIRST + total l1 + 4) s = Ok (a + 4, s') /\ heap_same s s' /\
    heap_at s' top w' (abs_coalesce l1 sz l2) /\ (forall b, b < a \/ a + sz' <= b -> w' b = w b).
Proof.
  intros H. destruct (heap_at_bounds _ _ _ _ H) as (Htop & Hbrk & _).
  pose proof H as [Hs Hl Ht Hrep]. pose proof (rep_seg _ _ _ Hrep) as Hseg.
  apply seg_app in Hseg as (m & H1 & H2). destruct (seg_total _ _ _ _ H1) as [-> H0].
  destruct H2 as (H16 & Hc & Hh & Hf & H3). destruct (seg_total _ _ _ _ H3) as [Hb H0'].
  destruct (left_tag w _ _ _ Hrep) as (psz & pal & Hpok & Hp8 & Hplow & Wpf & Wph & Hleft).
  change (l1 ++ (sz, false) :: l2) with (l1 ++ [(sz, false)] ++ l2) in Hrep. rewrite app_assoc in Hrep.
  destruct (right_tag w _ _ _ Hrep) as (nsz & nal & Hnok & Wn & Hmb & Hright).
  assert (Htot : FIRST + total (l1 ++ [(sz, false)]) = FIRST + total l1 + sz).
  { rewrite total_app. unfold total. simpl. lia. }
  rewrite Htot in Wn, Hmb, Hright.
  destruct (coalesce_spec s top w Hs (FIRST + total l1) sz psz nsz pal nal)
    as (s' & w' & E & Hsame & Hs' & Wh' & Wf' & Hw); try done; try lia.
  { intros ->. destruct Hright as [[? _]|(_ & ? & ? & _)]; [done|lia]. }
  assert (join_start (FIRST + total l1) psz pal = FIRST + total (absorb_left l1).1 /\
    join_size sz psz nsz pal nal = (absorb_left l1).2 + sz + (absorb_right l2).1) as [Ha Hz].
  { unfold join_start, join_size. destruct Hleft as [[-> ->]|(-> & l0 & -> & ->)];
      destruct Hright as [[-> ->]|(-> & _ & _ & l3 & -> & ->)]; simpl; rewrite ?total_app; unfold total;
      simpl; lia. }
  rewrite Ha, Hz in *. exists s', w'. split_and!; try done. unfold abs_coalesce.
  assert (Hlow16 : 16 <= (absorb_left l1).2 + sz + (absorb_right l2).1 /\
    tag_ok ((absorb_left l1).2 + sz + (absorb_right l2).1)).
  { rewrite <- Hz. unfold join_size. hconst.
    destruct Hright as [[-> _]|(-> & ? & ? & _)]; destruct pal; zlia. }
  set (L := (absorb_left l1).1) in *. set (R := (absorb_right l2).2) in *.
  assert (exists mid, l1 ++ (sz, false) :: l2 = L ++ mid ++ R /\
    total mid = (absorb_left l1).2 + sz + (absorb_right l2).1) as (mid & Hl12 & Hmid).
  { subst L R. destruct Hleft as [[-> ->]|(-> & l0 & -> & ->)];
      destruct Hright as [[-> ->]|(-> & _ & _ & l3 & -> & ->)]; simpl.
    - by exists [(sz, false)].
    - exists [(sz, false); (nsz, false)]. unfold total. simpl. split; [done|lia].
    - exists [(psz, false); (sz, false)]. rewrite <- app_assoc. unfold total. simpl. split; [done|lia].
    - exists [(psz, false); (sz, false); (nsz, false)]. rewrite <- app_assoc. unfold total. simpl. split; [done|lia]. }
  rewrite Hl12 in H. apply (heap_at_update s s' top w w' L mid _ R); try done.
  - rewrite Hmid. unfold total. simpl. lia.
  - rewrite Hmid. apply seg_one; tauto || done.
  - by rewrite Hmid.
Qed.

Lemma abs_coalesce_coalesced l1 sz l2 :
  coalesced l1 -> coalesced l2 -> coalesced (abs_coalesce l1 sz l2).
Proof.
  intros H1 H2. apply absorb_left_spec in H1. apply absorb_right_spec in H2. unfold abs_coalesce.
  destruct (absorb_left l1) as [l psz], (absorb_right l2) as [nsz r]. simpl.
  destruct H1 as (H1 & H1' & _). destruct H2 as (H2 & H2' & _).
  apply coalesced_app. split; [done|]. split; [|by destruct (last l); [left|]].
  simpl. split; [|done]. destruct r; [done|by right].
Qed.

Lemma live_free a sz bl p n : live_at a ((sz, false) :: bl) p n <-> live_at (a + sz) bl p n.
Proof. simpl. split; [intros [[? _]|?]; done|by right]. Qed.

Lemma live_alloc a sz bl p n :
  live_at a ((sz, true) :: bl) p n <-> (p, n) = (a + 4, sz - 8) \/ live_at (a + sz) bl p n.
Proof.
  simpl. split; (intros [H|H]; [left|by right]); [by destruct H as (_ & -> & ->)|by injection H as -> ->].
Qed.

Lemma abs_coalesce_live l1 sz l2 p n a :
  coalesced l1 -> coalesced l2 ->
  live_at a (abs_coalesce l1 sz l2) p n <-> live_at a (l1 ++ (sz, false) :: l2) p n.
Proof.
  intros H1 H2. apply absorb_left_spec in H1. apply absorb_right_spec in H2. unfold abs_coalesce.
  destruct (absorb_left l1) as [l psz], (absorb_right l2) as [nsz r]. cbn [fst snd app].
  destruct H1 as (_ & _ & [[-> ->] | ->]), H2 as (_ & _ & [[-> ->] | ->]);
    rewrite <- ?app_assoc; cbn [app]; rewrite !live_app, !live_free;
    match goal with |- _ \/ live_at ?x _ _ _ <-> _ \/ live_at ?y _ _ _ => replace x with y by lia end; done.
Qed.

(** Writing the new block and the new epilogue of [extend_heap]. *)
Lemma extend_tags s top w bl size :
  heap_at s top w bl -> tag_ok size -> 16 <= size -> heap_brk s + size + 4 <= top ->
  let brk := heap_brk s in
  exists s' w',
    (PUT brk (PACK size 0) ;; ftr ← FTRP (brk + 4); PUT ftr (PACK size 0) ;;
     next ← NEXT_BLKP (brk + 4); PUT (HDRP next) (PACK 0 1) ;;
     modify (set_brk (brk +w size))) s = Ok (tt, s') /\
    heap_at s' top w' (bl ++ [(size, false)]) /\ vm_mono (hvm s) (hvm s') /\
    (forall b, b < brk -> w' b = w b).
Proof.
  intros H Hok H16 Htop brk. destruct (heap_at_bounds _ _ _ _ H) as (Hb & Hbrk & H0). fold brk in Hbrk, Htop.
  pose proof H as [Hs Hl _ [[Hp1 Hp2] Hseg _]]. fold brk in Hseg. unfold FIRST in *.
  assert (Hz : PACK size 0 = tag size false) by by rewrite <- pack_tag.
  rewrite Hz. change (PACK 0 1) with (tag 0 true). assert (H00 : tag_ok 0) by done.
  destruct (PUT_spec s top w Hs brk (tag size false) ltac:(lia) (tag_range _ _ Hok)) as (s1 & E1 & S1 & H1).
  hstep E1. hstep (FTRP_spec s1 top _ H1 brk size false ltac:(lia) (upd_eq _ _ _) Hok).
  destruct (PUT_spec s1 top _ H1 (brk + size - 4) (tag size false) ltac:(lia) (tag_range _ _ Hok)) as (s2 & E2 & S2 & H2).
  hstep E2. hstep (NEXT_BLKP_spec s2 top _ H2 brk size false ltac:(lia) ltac:(hword) Hok).
  rewrite (HDRP_spec s2 top _ H2 (brk + size)) by lia.
  destruct (PUT_spec s2 top _ H2 (brk + size) (tag 0 true) ltac:(lia) (tag_range _ _ H00)) as (s3 & E3 & S3 & H3).
  hstep E3. assert (Hss : heap_same s s3) by (do 2 (etrans; [done|]); done).
  unfold modify. eexists _, _. split; [done|]. rewrite u32_small by (hconst; lia). split_and!.
  - split; [destruct H3; by split|simpl; rewrite (same_listp _ _ Hss); done|simpl; lia|]. simpl. split.
    + split; hword.
    + apply seg_app. exists brk. split.
      * apply (seg_ext w); [|done]. intros b Hb'. hword.
      * apply seg_one; try done; hword.
    + hword.
  - simpl. by apply vm_mono_same.
  - intros b Hb'. hword.
Qed.

(** Why the heap could not grow to [end_]. *)
Definition exhausted (s : kheap_state) (end_ : Z) : Prop :=
  HEAP_MAX < end_ \/ (pmm_alloc_frame (vm_pmm (hvm s))).1 = 0.

Lemma absorb_left_bounds w a bl e :
  seg w a bl e -> 0 <= total (absorb_left bl).1 <= total bl /\ 0 <= (absorb_left bl).2.
Proof.
  intros Hseg. destruct (seg_total _ _ _ _ Hseg) as [_ H0]. unfold absorb_left.
  destruct bl as [|[psz pal] bl _] using rev_ind; [simpl; lia|].
  rewrite last_snoc. destruct pal; [simpl; lia|]. rewrite removelast_last. cbn [fst snd].
  rewrite total_app in *. apply seg_app in Hseg as (m & H1 & H2). destruct (seg_total _ _ _ _ H1).
  destruct (seg_total _ _ _ _ H2). simpl in H2. lia.
Qed.

Lemma extend_at s top w bl size fuel :
  heap_at s top w bl -> size mod 8 = 0 -> 16 <= size -> heap_brk s + size + 4 < 2 ^ 32 ->
  (Z.to_nat 0x400000 < fuel)%nat -> tables_ready (hvm s) (heap_brk s + size + 4) ->
  extend_heap fuel size s = Stop map_panic \/
  (exists s' top' w', extend_heap fuel size s = Ok (0, s') /\ heap_at s' top' w' bl /\
     exhausted s' (heap_brk s + size + 4) /\ top <= top' /\ vm_mono (hvm s) (hvm s') /\
     (forall b, HEAP_START <= b < top -> w' b = w b)) \/
  (exists s' top' w', let a := FIRST + total (absorb_left bl).1 in
     extend_heap fuel size s = Ok (a + 4, s') /\ tag_ok size /\ heap_at s' top' w' (abs_coalesce bl size []) /\
     top <= top' /\ vm_mono (hvm s) (hvm s') /\ (forall b, HEAP_START <= b < a -> w' b = w b)).
Proof.
  intros H Hmod H16 Hend Hfuel Hready. destruct (heap_at_bounds _ _ _ _ H) as (Hb & Hbrk & H0).
  pose proof H as [Hs Hl Ht [[Hp1 Hp2] Hseg Hepi]]. unfold extend_heap.
  rewrite (bind_ok _ _ s (heap_brk s) s) by done. change WSIZE with 4.
  unfold FIRST in *. assert (Hb0 : 0 <= heap_brk s) by (hconst; lia). rewrite (u32_small (heap_brk s + size + 4)) by lia.
  destruct (ensure_mapped_spec fuel (heap_brk s + size + 4) s top w)
    as [(r & s1 & top1 & w1 & E & G & Hr)|E]; [done|lia|hconst; lia|done| |left; by apply bind_stop].
  hstep E. destruct G as [G1 G2 G3 G4 G5 G6].
  assert (H1 : heap_at s1 top1 w1 bl).
  { split; [done|by rewrite G3|rewrite G4; lia|]. rewrite G4. split.
    - rewrite !G6 by lia. done.
    - apply (seg_ext w); [|done]. intros b Hb'. apply G6. unfold FIRST in *. lia.
    - rewrite G6 by lia. done. }
  destruct Hr as [[-> Hle]|[-> Hex]]; [right; right|right; left; exists s1, top1, w1; split_and!; auto with orion].
  pose proof (top_bound _ _ _ G1) as Htop1. change (0 <? 0) with false. cbv iota.
  assert (Hok : tag_ok size) by (hconst; lia).
  rewrite (u32_small (heap_brk s + 4)) by (hconst; lia). rewrite <- G4 in *.
  destruct (extend_tags s1 top1 w1 bl size H1 Hok H16 Hle) as (s2 & w2 & E2 & H2 & M2 & Hw2).
  destruct (coalesce_at s2 top1 w2 bl size [] H2) as (s3 & w3 & E3 & S3 & H3 & Hw3).
  exists s3, top1, w3. rewrite app_nil_r in H3 || idtac. split_and!; [|done|done|done| |].
  - assert (Hbp : heap_brk s1 + 4 = FIRST + total bl + 4) by (unfold FIRST; lia).
    change (HEAP_START + 12) with FIRST. rewrite <- E3, <- Hbp. revert E2. unfold mbind, M_bind.
    repeat match goal with |- context [match ?x with Ok _ => _ | Stop _ => _ end] =>
      lazymatch x with context [match _ with _ => _ end] => fail | _ => destruct x as [[? ?]|] end end; congruence.
  - do 2 (etrans; [by eauto with orion|]). auto with orion.
  - destruct (absorb_left_bounds _ _ _ _ Hseg).
    intros b Hb'. rewrite Hw3, Hw2, G6 by (unfold FIRST in *; lia). done.
Qed.

(** ** [kmalloc] against the block list *)

Lemma block_size_spec size :
  0 < size -> size + 22 < 2 ^ 32 ->
  block_size size mod 8 = 0 /\ 16 <= block_size size /\ size + 8 <= block_size size <= size + 15.
Proof.
  intros H1 H2. unfold block_size. rewrite align_round by lia. hconst. change (8 + 8) with 16.
  rewrite u32_small by zlia. destruct (Z.ltb_spec (size + 7 - (size + 7) mod 8 + 8) 16); zlia.
Qed.

Lemma seg_length w a bl e : seg w a bl e -> 16 * Z.of_nat (length bl) <= e - a.
Proof.
  revert a. induction bl as [|[sz al] bl IH]; intros a; simpl; [lia|].
  intros (H1 & _ & _ & _ & H2). apply IH in H2. lia.
Qed.

(** The size by which [kmalloc] extends the heap when no block fits. *)
Definition extension (asize : Z) : Z := Z.max asize PAGE_SIZE.

Lemma extension_spec asz : asz mod 8 = 0 -> 16 <= asz < 0xFA000020 ->
  ALIGN (if PAGE_SIZE <? asz then asz else PAGE_SIZE) = extension asz /\
  extension asz mod 8 = 0 /\ 16 <= extension asz /\ asz <= extension asz <= asz + 4096.
Proof.
  intros Hm H16. unfold extension, PAGE_SIZE. destruct (Z.ltb_spec 4096 asz); [rewrite Z.max_l by lia|rewrite Z.max_r by lia];
    rewrite align_round by lia; zlia.
Qed.

(** Outcome of [kmalloc] on the block list [bl]: the exact new list on each
    branch, and the words that may have changed. *)
Lemma kmalloc_cases s bl size fuel :
  heap_rep s bl -> 0 < size < 0xFA000000 -> (Z.to_nat 0x400000 < fuel)%nat ->
  let asz := block_size size in
  tables_ready (hvm s) (heap_brk s + extension asz + 4) ->
  match first_fit asz bl with
  | Some (l1, csz, l2) =>
      exists s', kmalloc fuel size s = Ok (FIRST + total l1 + 4, s') /\
        heap_rep s' (abs_place l1 csz asz l2) /\ vm_mono (hvm s) (hvm s') /\
        (forall b, HEAP_START <= b < heap_virt_mapped s ->
           b < FIRST + total l1 \/ FIRST + total l1 + csz <= b -> hword_at s' b = hword_at s b)
  | None =>
      kmalloc fuel size s = Stop map_panic \/
      (exists s', kmalloc fuel size s = Ok (0, s') /\ heap_rep s' bl /\
         exhausted s' (heap_brk s + extension asz + 4) /\ vm_mono (hvm s) (hvm s') /\
         (forall b, HEAP_START <= b < heap_virt_mapped s -> hword_at s' b = hword_at s b)) \/
      (exists s', let l := (absorb_left bl).1 in
         kmalloc fuel size s = Ok (FIRST + total l + 4, s') /\
         heap_rep s' (abs_place l ((absorb_left bl).2 + extension asz) asz []) /\
         asz <= (absorb_left bl).2 + extension asz /\ vm_mono (hvm s) (hvm s') /\
         (forall b, HEAP_START <= b < FIRST + total l -> hword_at s' b = hword_at s b))
  end.
Proof.
  intros H Hsize Hfuel asz Hready. unfold heap_rep in H. set (top := heap_virt_mapped s) in *.
  set (w := hword_at s) in *. destruct (heap_at_bounds _ _ _ _ H) as (Hb & Hbrk & H0).
  pose proof H as [Hs Hl Ht [[Hp1 Hp2] Hseg Hepi]].
  destruct (block_size_spec size ltac:(lia) ltac:(lia)) as (Hm & H16 & Hr). fold asz in Hm, H16, Hr.
  unfold kmalloc. rewrite (proj2 (Z.eqb_neq size 0)) by lia. fold asz.
  rewrite (bind_ok _ _ s (heap_listp s) s) by done. rewrite Hl.
  assert (Hprolog : NEXT_BLKP (HEAP_START + 8) s = Ok (FIRST + 4, s)).
  { replace (HEAP_START + 8) with (HEAP_START + 4 + 4) by lia.
    rewrite (NEXT_BLKP_spec s top w Hs (HEAP_START + 4) 8 true); [by replace (HEAP_START + 4 + 8 + 4) with (FIRST + 4) by (unfold FIRST; lia)|lia|done|done]. }
  hstep Hprolog. pose proof (seg_length _ _ _ _ Hseg) as Hlen.
  assert (Hfit := find_fit_spec s top w asz fuel FIRST bl (heap_brk s) Hs Hseg Hepi
    ltac:(unfold FIRST; lia) ltac:(lia) ltac:(unfold FIRST in *; hconst; lia)).
  hstep Hfit. clear Hfit. destruct (first_fit asz bl) as [[[l1 csz] l2]|] eqn:Efit; simpl.
  - apply first_fit_Some in Efit as (-> & Hle & _).
    assert (Hok : tag_ok asz).
    { apply seg_app in Hseg as (m & _ & Hseg). destruct Hseg as (_ & Hok & _). hconst. lia. }
    destruct (place_at s top w l1 csz l2 asz H Hok ltac:(lia)) as (s' & w' & E & S & H' & Hw').
    hstep E. exists s'. split; [done|]. split; [by eapply heap_at_rep|]. split; [auto with orion|].
    intros b Hb1 Hb2. pose proof (hs_word _ _ _ (ha_state _ _ _ _ H') b Hb1) as Hw1. unfold hword_at at 1. rewrite Hw1.
    by apply Hw'.
  - destruct (extension_spec asz Hm ltac:(lia)) as (-> & Hem & He16 & Hle).
    destruct (extend_at s top w bl (extension asz) fuel H Hem He16 ltac:(hconst; unfold FIRST in *; lia) Hfuel Hready)
      as [E|[(s1 & top1 & w1 & E & H1 & Hex & Ht1 & M1 & Hw1)|(s1 & top1 & w1 & E & Hok & H1 & Ht1 & M1 & Hw1)]].
    + left. by apply bind_stop.
    + right. left. hstep E. exists s1. split; [done|]. split; [by eapply heap_at_rep|]. split; [done|]. split; [done|].
      intros b Hb1.
      unfold hword_at at 1. rewrite (hs_word _ _ _ (ha_state _ _ _ _ H1)); [by apply Hw1|lia].
    + right. right. hstep E.
      destruct (absorb_left_bounds _ _ _ _ Hseg) as [Htot Hpsz].
      rewrite (proj2 (Z.eqb_neq _ 0)) by (unfold FIRST; hconst; lia).
      unfold abs_coalesce in H1. cbn [absorb_right fst snd] in H1. rewrite Z.add_0_r in H1.
      destruct (place_at s1 top1 w1 _ _ [] asz H1) as (s2 & w2 & E2 & S2 & H2 & Hw2).
      { hconst. lia. }
      { lia. }
      hstep E2. exists s2. split; [done|]. split; [by eapply heap_at_rep|]. split; [lia|].
      split; [by etrans; eauto with orion|].
      intros b Hb1. unfold hword_at at 1. rewrite (hs_word _ _ _ (ha_state _ _ _ _ H2)), Hw2, Hw1; [done|done|lia|].
      unfold FIRST in *. lia.
Qed.

(** ** The contract of the allocator *)

(** The heap invariant, with the block list as a ghost. *)
Record heap_inv (s : kheap_state) (bl : list block) : Prop := {
  hi_rep : heap_rep s bl;
  hi_coalesced : coalesced bl
}.

(** Every word of the payloads live in [bl] is unchanged. *)
Definition payloads_kept (s s' : kheap_state) (bl : list block) : Prop :=
  forall p n, live bl p n -> forall b, p <= b < p + n -> hword_at s' b = hword_at s b.

(** What a successful allocation of [p] with [n] payload bytes means. *)
Record allocated (s s' : kheap_state) (bl bl' : list block) (p n : Z) : Prop := {
  al_inv : heap_inv s' bl';
  al_aligned : p mod 8 = 0;
  al_inside : HEAP_START < p /\ p + n + 4 <= heap_brk s';
  al_live : forall q k, live bl' q k <-> (q, k) = (p, n) \/ live bl q k;
  al_disjoint : forall q k, live bl q k -> p + n + 8 <= q \/ q + k + 8 <= p;
  al_kept : payloads_kept s s' bl;
  al_mono : vm_mono (hvm s) (hvm s')
}.

Lemma abs_place_live w l1 csz asz l2 e :
  seg w FIRST l1 (FIRST + total l1) -> seg w (FIRST + total l1 + csz) l2 e -> 16 <= asz <= csz ->
  let a := FIRST + total l1 in
  exists n, asz - 8 <= n /\ n + 8 <= csz /\
    (forall q k, live (abs_place l1 csz asz l2) q k <-> (q, k) = (a + 4, n) \/ live (l1 ++ (csz, false) :: l2) q k) /\
    (forall q k, live (l1 ++ (csz, false) :: l2) q k -> q + k + 4 <= a \/ a + csz + 4 <= q).
Proof.
  intros H1 H2 Hr a. unfold live, abs_place.
  exists ((if decide (16 <= csz - asz) then asz else csz) - 8).
  split; [case_decide; lia|]. split; [case_decide; lia|]. split.
  - intros q k. case_decide; cbn [app]; rewrite !live_app, live_alloc, !live_free; fold a.
    + replace (a + asz + (csz - asz)) with (a + csz) by lia. tauto.
    + tauto.
  - intros q k. rewrite live_app, live_free. fold a. intros [H|H].
    + destruct (live_range _ _ _ _ _ _ H1 H) as (_ & _ & ? & _). lia.
    + destruct (live_range _ _ _ _ _ _ H2 H) as (? & _). lia.
Qed.

Lemma abs_place_coalesced l1 csz asz l2 :
  coalesced (l1 ++ (csz, false) :: l2) -> coalesced (abs_place l1 csz asz l2).
Proof.
  intros H. apply coalesced_app in H as (H1 & [H2 H3] & H4). simpl in H4. unfold abs_place.
  apply coalesced_app. split; [done|]. case_decide; simpl.
  - split; [|case_match; [by right|done]]. split; [by left|]. split; [|done].
    destruct l2; [done|]. destruct H2 as [H2|H2]; [done|by right].
  - split; [|case_match; [by right|done]]. split; [|done]. destruct l2; [done|by left].
Qed.

Lemma heap_rep_seg s bl : heap_rep s bl -> seg (hword_at s) FIRST bl (heap_brk s).
Proof. intros [_ _ _ H]. apply H. Qed.

Lemma seg_sizes w a bl e : seg w a bl e -> (e - a) mod 8 = 0.
Proof.
  revert a. induction bl as [|[sz al] bl IH]; intros a; simpl; [intros ->; by rewrite Z.sub_diag|].
  intros (_ & [_ H1] & _ & _ & H2). apply IH in H2. clear -H1 H2. zlia.
Qed.

(** From the exact block list to the contract. *)
Lemma placed_contract s s' bl l1 csz asz l2 :
  heap_inv s bl -> 16 <= asz <= csz ->
  (exists m, seg (hword_at s) FIRST l1 m) -> (exists e, seg (hword_at s) (FIRST + total l1 + csz) l2 e) ->
  (forall q k, live bl q k <-> live (l1 ++ (csz, false) :: l2) q k) ->
  coalesced (l1 ++ (csz, false) :: l2) ->
  heap_rep s' (abs_place l1 csz asz l2) -> vm_mono (hvm s) (hvm s') ->
  (forall q k b, live bl q k -> q <= b < q + k -> hword_at s' b = hword_at s b) ->
  exists n, asz - 8 <= n /\ allocated s s' bl (abs_place l1 csz asz l2) (FIRST + total l1 + 4) n.
Proof.
  intros H Hr [m Hl1] [e Hl2] Hlive Hco H' Hmono Hw. destruct (seg_total _ _ _ _ Hl1) as [-> H0].
  destruct (abs_place_live _ l1 csz asz l2 e Hl1 Hl2 Hr) as (n & Hn & Hnc & Hl & Hd).
  pose proof (heap_rep_seg _ _ H') as Hseg'. pose proof (seg_sizes _ _ _ _ Hl1) as H8.
  exists n. split; [done|]. split.
  - split; [done|]. by apply abs_place_coalesced.
  - unfold FIRST in *. clear -H8. hconst. zlia.
  - split; [unfold FIRST; lia|].
    destruct (live_range _ _ _ _ (FIRST + total l1 + 4) n Hseg') as (_ & _ & ? & _); [|done].
    apply Hl. by left.
  - intros q k. rewrite Hl. by rewrite Hlive.
  - intros q k Hq. apply Hlive, Hd in Hq. lia.
  - intros q k Hq b Hb. by apply (Hw q k).
  - done.
Qed.

Lemma live_outside w l1 csz l2 e q k :
  seg w FIRST (l1 ++ (csz, false) :: l2) e -> live (l1 ++ (csz, false) :: l2) q k ->
  q + k + 4 <= FIRST + total l1 \/ FIRST + total l1 + csz + 4 <= q.
Proof.
  intros H Hq. apply seg_app in H as (m & H1 & H2). destruct (seg_total _ _ _ _ H1) as [-> _].
  unfold live in Hq. rewrite live_app, live_free in Hq. simpl in H2. destruct H2 as (_ & _ & _ & _ & H2).
  destruct Hq as [Hq|Hq].
  - destruct (live_range _ _ _ _ _ _ H1 Hq) as (_ & _ & ? & _). lia.
  - destruct (live_range _ _ _ _ _ _ H2 Hq) as (? & _). lia.
Qed.

Lemma live_in_heap s bl p n b :
  heap_rep s bl -> live bl p n -> p <= b < p + n -> HEAP_START <= b < heap_virt_mapped s.
Proof.
  intros H Hl Hb. destruct (live_range _ _ _ _ _ _ (heap_rep_seg _ _ H) Hl) as (? & ? & ? & _).
  pose proof (ha_top _ _ _ _ H). unfold FIRST in *. lia.
Qed.

(** [kmalloc] as a client sees it. *)
Lemma kmalloc_contract s bl size fuel :
  heap_inv s bl -> 0 < size < 0xFA000000 -> (Z.to_nat 0x400000 < fuel)%nat ->
  tables_ready (hvm s) (heap_brk s + extension (block_size size) + 4) ->
  kmalloc fuel size s = Stop map_panic \/
  (exists s', kmalloc fuel size s = Ok (0, s') /\ heap_inv s' bl /\ payloads_kept s s' bl /\
     vm_mono (hvm s) (hvm s') /\ Forall (fun b => b.2 = true \/ b.1 < block_size size) bl /\
     exhausted s' (heap_brk s + extension (block_size size) + 4)) \/
  (exists p s' bl' n, kmalloc fuel size s = Ok (p, s') /\ size <= n /\ allocated s s' bl bl' p n).
Proof.
  intros [Hrep Hco] Hsize Hfuel Hready. pose proof (kmalloc_cases s bl size fuel Hrep Hsize Hfuel Hready) as Hc.
  destruct (block_size_spec size ltac:(lia) ltac:(lia)) as (Hm & H16 & Hr).
  pose proof (heap_rep_seg _ _ Hrep) as Hseg. set (asz := block_size size) in *.
  destruct (first_fit asz bl) as [[[l1 csz] l2]|] eqn:Efit; cbv zeta in Hc.
  - right. right. apply first_fit_Some in Efit as (-> & Hle & _). destruct Hc as (s' & E & H' & Hmono & Hw).
    apply seg_app in Hseg as (m & H1 & H2). destruct (seg_total _ _ _ _ H1) as [-> _].
    destruct H2 as (_ & _ & _ & _ & H2).
    destruct (placed_contract s s' (l1 ++ (csz, false) :: l2) l1 csz asz l2) as (n & Hn & Ha);
      [by split|done|by eexists|by eexists|done|done|done|done| |].
    + intros q k b Hq Hb. apply Hw; [by apply (live_in_heap s (l1 ++ (csz, false) :: l2) q k)|].
      destruct (live_outside _ _ _ _ _ _ _ (heap_rep_seg _ _ Hrep) Hq); lia.
    + exists (FIRST + total l1 + 4), s', (abs_place l1 csz asz l2), n. split_and!; [done|lia|done].
  - destruct Hc as [E|[(s' & E & H' & Hex & Hmono & Hw)|(s' & E & H' & Hle & Hmono & Hw)]]; [by left|right; left|right; right].
    + exists s'. split_and!; try done; [|by apply first_fit_None].
      intros q k Hq b Hb. apply Hw. by apply (live_in_heap s bl q k).
    + pose proof (absorb_left_spec bl Hco) as Hal. destruct (absorb_left_bounds _ _ _ _ Hseg) as [Htot Hpsz].
      assert (Hlive : forall q k, live bl q k <->
        live ((absorb_left bl).1 ++ [((absorb_left bl).2 + extension asz, false)]) q k).
      { intros q k. unfold live. destruct (absorb_left bl) as [l psz]; simpl.
        destruct Hal as (_ & _ & [[-> ->] | ->]); rewrite !live_app, !live_free; simpl; tauto. }
      assert (Hsl : exists m, seg (hword_at s) FIRST (absorb_left bl).1 m).
      { destruct (absorb_left bl) as [l psz]. destruct Hal as (_ & _ & [[-> ->] | ->]); simpl; [eauto|].
        apply seg_app in Hseg as (m & ? & _). eauto. }
      assert (Hcl : coalesced ((absorb_left bl).1 ++ [((absorb_left bl).2 + extension asz, false)])).
      { destruct (absorb_left bl) as [l psz]. destruct Hal as (H1 & H2 & _). apply coalesced_app. simpl.
        split_and!; try done. case_match; [by left|done]. }
      destruct (placed_contract s s' bl (absorb_left bl).1 ((absorb_left bl).2 + extension asz) asz [])
        as (n & Hn & Ha); try done.
      * by exists (FIRST + total (absorb_left bl).1 + ((absorb_left bl).2 + extension asz)).
      * intros q k b Hq Hb. apply Hw. apply Hlive in Hq. unfold live in Hq. rewrite live_app, live_free in Hq.
        destruct Hq as [Hq|[]]. destruct Hsl as [m Hsl]. destruct (live_range _ _ _ _ _ _ Hsl Hq) as (? & _ & ? & _).
        destruct (seg_total _ _ _ _ Hsl) as [-> _]. unfold FIRST in *. lia.
      * eexists _, _, _, n. split_and!; [done|lia|done].
Qed.

(** Marking an allocated block free: the writes of [kfree] before it
    coalesces. *)
Lemma free_tags s top w l1 sz l2 :
  heap_at s top w (l1 ++ (sz, true) :: l2) ->
  let a := FIRST + total l1 in
  exists s' w', (PUT a (PACK sz 0) ;; ftr ← FTRP (a + 4); PUT ftr (PACK sz 0)) s = Ok (tt, s') /\
    heap_at s' top w' (l1 ++ (sz, false) :: l2) /\ heap_same s s' /\
    (forall b, b < a \/ a + sz <= b -> w' b = w b).
Proof.
  intros H a. destruct (heap_at_bounds _ _ _ _ H) as (Htop & Hbrk & _).
  pose proof H as [Hs Hl Ht [_ Hseg _]]. apply seg_app in Hseg as (m & H1 & H2).
  destruct (seg_total _ _ _ _ H1) as [-> H0]. destruct H2 as (H16 & Hc & Hh & Hf & H3).
  destruct (seg_total _ _ _ _ H3) as [Hb H0']. fold a in Hh, Hf, Hb.
  assert (Ha : HEAP_START <= a) by (subst a; unfold FIRST; lia).
  assert (Hz : PACK sz 0 = tag sz false) by by rewrite <- pack_tag. rewrite Hz.
  destruct (PUT_spec s top w Hs a (tag sz false) ltac:(lia) (tag_range _ _ Hc)) as (s1 & E1 & S1 & Hs1).
  hstep E1. hstep (FTRP_spec s1 top _ Hs1 a sz false ltac:(lia) (upd_eq _ _ _) Hc).
  destruct (PUT_spec s1 top _ Hs1 (a + sz - 4) (tag sz false) ltac:(lia) (tag_range _ _ Hc)) as (s2 & E2 & S2 & Hs2).
  set (w2 := upd (upd w a (tag sz false)) (a + sz - 4) (tag sz false)) in *.
  exists s2, w2. split; [done|]. assert (Hss : heap_same s s2) by (by etrans).
  split; [|split; [done|intros; subst w2; hword]].
  apply (heap_at_update s s2 top w w2 l1 [(sz, true)] [(sz, false)] l2); try done; fold a; unfold total; simpl;
    rewrite ?Z.add_0_r.
  - split_and!; try done; subst w2; hword.
  - intros; subst w2; hword.
Qed.

(** What releasing [p] means. *)
Record released (s s' : kheap_state) (bl bl' : list block) (p : Z) : Prop := {
  re_inv : heap_inv s' bl';
  re_live : forall q k, live bl' q k <-> live bl q k /\ q <> p;
  re_kept : forall q k, live bl q k -> q <> p -> forall b, q <= b < q + k -> hword_at s' b = hword_at s b;
  re_same : heap_same s s'
}.

Lemma live_freed w l1 sz l2 e q k :
  seg w FIRST (l1 ++ (sz, true) :: l2) e ->
  live (l1 ++ (sz, false) :: l2) q k <-> live (l1 ++ (sz, true) :: l2) q k /\ q <> FIRST + total l1 + 4.
Proof.
  intros H. apply seg_app in H as (m & H1 & H2). destruct (seg_total _ _ _ _ H1) as [-> _].
  destruct H2 as (H16 & _ & _ & _ & H2). unfold live. rewrite !live_app, live_free, live_alloc. split.
  - intros [H|H].
    + destruct (live_range _ _ _ _ _ _ H1 H) as (_ & ? & ? & _). split; [by left|lia].
    + destruct (live_range _ _ _ _ _ _ H2 H) as (? & _). split; [by right; right|lia].
  - intros [[H|[[= -> ->]|H]] Hne]; [by left|done|by right].
Qed.

Lemma kfree_contract s bl p n :
  heap_inv s bl -> live bl p n -> exists s' bl', kfree p s = Ok (tt, s') /\ released s s' bl bl' p.
Proof.
  intros [H Hco] Hl. destruct (live_split bl p n Hl) as (l1 & l2 & -> & ->).
  pose proof (heap_rep_seg _ _ H) as Hseg. apply coalesced_app in Hco as (Hc1 & Hc2 & _).
  assert (Hc2' : coalesced l2) by (by destruct Hc2).
  unfold heap_rep in H. set (top := heap_virt_mapped s) in *. set (w := hword_at s) in *.
  destruct (heap_at_bounds _ _ _ _ H) as (Htop & Hbrk & _). pose proof (ha_state _ _ _ _ H) as Hs.
  pose proof (ha_top _ _ _ _ H) as Ht.
  pose proof Hseg as Hseg2. apply seg_app in Hseg2 as (m & H1 & H2). destruct (seg_total _ _ _ _ H1) as [-> H0].
  destruct H2 as (H16 & Hc & Hh & _ & H3). destruct (seg_total _ _ _ _ H3) as [Hb H0'].
  set (a := FIRST + total l1) in *. assert (Ha : HEAP_START <= a) by (subst a; unfold FIRST; lia).
  unfold kfree. rewrite (proj2 (Z.eqb_neq (a + 4) 0)) by (hconst; lia).
  rewrite (HDRP_spec s top w Hs a) by lia.
  hstep (GET_SIZE_spec s top w Hs a (n + 8) true ltac:(lia) Hh Hc).
  destruct (free_tags s top w l1 (n + 8) l2 H) as (s1 & w1 & E1 & Hat1 & S1 & Hw1). fold a in E1, Hw1.
  destruct (coalesce_at s1 top w1 l1 (n + 8) l2 Hat1) as (s2 & w2 & E2 & S2 & Hat2 & Hw2). fold a in E2.
  exists s2, (abs_coalesce l1 (n + 8) l2). split.
  { revert E1. unfold mbind, M_bind.
    destruct (PUT a (PACK (n + 8) 0) s) as [[? ?]|]; [|done]. destruct (FTRP (a + 4) k) as [[? ?]|]; [|done].
    intros ->. by rewrite E2. }
  assert (Hlive : forall q k, live (abs_coalesce l1 (n + 8) l2) q k <->
    live (l1 ++ (n + 8, true) :: l2) q k /\ q <> a + 4).
  { intros q k. unfold live at 1. rewrite abs_coalesce_live by done. by apply (live_freed w _ _ _ (heap_brk s)). }
  split; [|done| |by etrans].
  - split; [by eapply heap_at_rep|by apply abs_coalesce_coalesced].
  - intros q k Hq Hne b Hb'. pose proof (heap_at_rep _ _ _ _ Hat2) as Hrep2.
    pose proof (heap_rep_seg _ _ Hrep2) as Hseg2.
    assert (Hin : HEAP_START <= b < top).
    { destruct (live_range _ _ _ _ _ _ Hseg Hq) as (? & _ & ? & _). unfold FIRST in *. lia. }
    unfold hword_at at 1. rewrite (hs_word _ _ _ (ha_state _ _ _ _ Hat2)) by done.
    assert (Hq2 : live (abs_coalesce l1 (n + 8) l2) q k) by (by apply Hlive).
    pose proof (live_outside _ _ _ _ _ _ _ Hseg2 Hq2) as Hout.
    rewrite Hw2 by lia. apply Hw1.
    destruct (live_disjoint _ _ _ _ _ _ _ _ Hseg Hl Hq) as [[= <- <-]|Hd]; [done|]. fold a in Hd. lia.
Qed.

(** A write inside a live payload touches no tag. *)
Lemma seg_payload_write w a bl e p n b x :
  seg w a bl e -> live_at a bl p n -> p <= b < p + n -> seg (upd w b x) a bl e.
Proof.
  revert a. induction bl as [|[sz al] bl IH]; intros a; simpl; [done|].
  intros (H1 & H2 & H3 & H4 & H5) [(-> & -> & ->)|H] Hb.
  - split_and!; try done; [hword..|]. apply (seg_ext w); [|done]. intros; hword.
  - destruct (live_range _ _ _ _ _ _ H5 H) as (? & _ & ? & _). split_and!; try done; [hword..|]. auto.
Qed.

Lemma payload_write s bl p n a x :
  heap_inv s bl -> live bl p n -> p <= a -> a + 4 <= p + n -> 0 <= x < 2 ^ 32 ->
  exists s', PUT a x s = Ok (tt, s') /\ heap_inv s' bl /\ heap_same s s' /\
    forall b, HEAP_START <= b < heap_virt_mapped s -> hword_at s' b = upd (hword_at s) a x b.
Proof.
  intros [H Hco] Hl Ha1 Ha2 Hx. pose proof (heap_rep_seg _ _ H) as Hseg.
  destruct (live_range _ _ _ _ _ _ Hseg Hl) as (Hp & Hn & He & _).
  pose proof (live_in_heap s bl p n a H Hl ltac:(lia)) as Hin. unfold heap_rep in H.
  destruct H as [Hs Hlp Ht [[Hp1 Hp2] Hsg Hepi]].
  destruct (PUT_spec _ _ _ Hs a x Hin Hx) as (s' & E & S & Hs'). exists s'. split; [done|].
  split; [|split; [done|]].
  - split; [|done]. apply (heap_at_rep _ (heap_virt_mapped s) (upd (hword_at s) a x)).
    destruct S as [S1 S2 _ _]. unfold FIRST in *. split; [done|by rewrite S1|by rewrite S2|]. rewrite S2. split.
    + split; hword.
    + apply (seg_payload_write (hword_at s) FIRST bl (heap_brk s) p n a x Hseg Hl). lia.
    + hword.
  - intros b Hb. apply (hs_word _ _ _ Hs'). done.
Qed.

(** Reading a word of a live payload. *)
Lemma payload_read s bl p n a :
  heap_rep s bl -> live bl p n -> p <= a -> a + 4 <= p + n -> GET a s = Ok (hword_at s a, s).
Proof.
  intros H Hl H1 H2. apply (GET_spec s (heap_virt_mapped s)); [apply H|].
  apply (live_in_heap s bl p n a H Hl). lia.
Qed.

(** The address [kmalloc_aligned] returns for the raw block [raw]. *)
Definition align_up (raw : Z) : Z := Z.land (u32 (raw + 4 + PAGE_SIZE - 1)) (u32 (Z.lnot (PAGE_SIZE - 1))).

Lemma align_up_spec raw :
  0 <= raw < HEAP_MAX -> align_up raw mod 4096 = 0 /\ raw + 4 <= align_up raw <= raw + 4099.
Proof.
  intros H. unfold align_up. unfold PAGE_SIZE. hconst. rewrite u32_small by lia.
  change (4096 - 1) with (2 ^ 12 - 1). rewrite mask_round by lia. change (2 ^ 12) with 4096. zlia.
Qed.

(** The block behind a page-aligned allocation. *)
Record aligned_block (s s' : kheap_state) (bl bl' : list block) (size p raw n : Z) : Prop := {
  ab_alloc : allocated s s' bl bl' raw n;
  ab_aligned : p mod 4096 = 0;
  ab_inside : raw + 4 <= p /\ p + size <= raw + n;
  ab_back : hword_at s' (p - 4) = raw
}.

Lemma store_back_pointer s s' bl bl' size raw n :
  heap_inv s bl -> allocated s s' bl bl' raw n -> 0 <= size -> size + 4100 <= n ->
  exists s2, PUT (align_up raw -w 4) raw s' = Ok (tt, s2) /\
    aligned_block s s2 bl bl' size (align_up raw) raw n.
Proof.
  intros Hinv [H1 H2 H3 H4 H5 H6 H7] H0 Hn.
  assert (Hlive : live bl' raw n) by (apply H4; by left).
  destruct (live_range _ _ _ _ _ _ (heap_rep_seg _ _ (hi_rep _ _ H1)) Hlive) as (Hlo & _ & Hhi & _).
  destruct (heap_at_bounds _ _ _ _ (hi_rep _ _ H1)) as (Htop & _). pose proof (ha_top _ _ _ _ (hi_rep _ _ H1)).
  assert (Hr : 0 <= raw < HEAP_MAX) by (unfold FIRST in *; hconst; lia).
  destruct (align_up_spec raw Hr) as [Hal Hrange]. hconst. rewrite u32_small by lia.
  destruct (payload_write s' bl' raw n (align_up raw - 4) raw H1 Hlive) as (s2 & E & Hinv2 & Hsame & Hw); try lia.
  assert (Hin : forall b, raw <= b < raw + n -> HEAP_START <= b < heap_virt_mapped s').
  { intros b Hb. by apply (live_in_heap s' bl' raw n b); [apply H1|..]. }
  exists s2. split; [done|]. split; [|done|lia|].
  - split; try done.
    + rewrite (same_brk _ _ Hsame). done.
    + intros q k Hq b Hb. assert (Hq' : live bl' q k) by (apply H4; by right).
      rewrite Hw by (apply (live_in_heap s' bl' q k b); [apply H1|done|done]).
      destruct (H5 q k Hq); rewrite upd_ne by lia; by apply (H6 q k).
    + etrans; [done|]. by apply vm_mono_same.
  - rewrite Hw by (apply Hin; lia). apply upd_eq.
Qed.

(** [kmalloc_aligned] on every path. *)
Lemma kmalloc_aligned_contract s bl size fuel :
  heap_inv s bl -> 0 <= size < 0xF9000000 -> (Z.to_nat 0x400000 < fuel)%nat ->
  tables_ready (hvm s) (heap_brk s + extension (block_size (size + 4100)) + 4) ->
  kmalloc_aligned fuel size s = Stop map_panic \/
  (exists s', kmalloc_aligned fuel size s = Ok (0, s') /\ heap_inv s' bl /\ payloads_kept s s' bl /\
     vm_mono (hvm s) (hvm s')) \/
  (exists raw s' bl' n, kmalloc_aligned fuel size s = Ok (align_up raw, s') /\
     aligned_block s s' bl bl' size (align_up raw) raw n).
Proof.
  intros Hinv Hsize Hfuel Hready. unfold kmalloc_aligned.
  assert (u32 (size + PAGE_SIZE + 4) = size + 4100) as -> by (unfold PAGE_SIZE; rewrite u32_small; lia).
  destruct (kmalloc_contract s bl (size + 4100) fuel Hinv ltac:(lia) Hfuel Hready)
    as [E|[(s' & E & Hinv' & Hk & Hm & _)|(raw & s' & bl' & n & E & Hn & Ha)]].
  - left. by apply bind_stop.
  - right. left. hstep E. by exists s'.
  - right. right. hstep E. destruct (al_inside _ _ _ _ _ _ Ha) as [Hlo Hhi].
    rewrite (proj2 (Z.eqb_neq raw 0)) by (hconst; lia). fold (align_up raw).
    destruct (store_back_pointer s s' bl bl' size raw n Hinv Ha) as (s2 & E2 & Hab); [lia|lia|]. hstep E2.
    by exists raw, s2, bl', n.
Qed.

(** [kfree_aligned] follows the back pointer. *)
Lemma kfree_aligned_contract s bl p raw n :
  heap_inv s bl -> live bl raw n -> raw + 4 <= p -> p <= raw + n -> hword_at s (p - 4) = raw ->
  exists s' bl', kfree_aligned p s = Ok (tt, s') /\ released s s' bl bl' raw.
Proof.
  intros Hinv Hl H1 H2 Hback. destruct (kfree_contract s bl raw n Hinv Hl) as (s' & bl' & E & Hrel).
  exists s', bl'. split; [|done]. pose proof (hi_rep _ _ Hinv) as Hrep.
  destruct (live_range _ _ _ _ _ _ (heap_rep_seg _ _ Hrep) Hl) as (Hlo & _ & Hhi & _).
  destruct (heap_at_bounds _ _ _ _ Hrep) as (Htop & _). pose proof (ha_top _ _ _ _ Hrep) as Ht.
  unfold kfree_aligned. unfold FIRST in *. rewrite (proj2 (Z.eqb_neq p 0)) by (hconst; lia).
  rewrite u32_small by (hconst; lia).
  rewrite (bind_ok _ _ _ _ _ (payload_read s bl raw n (p - 4) Hrep Hl ltac:(lia) ltac:(lia))). by rewrite Hback.
Qed.

(** The four words [kheap_init] writes make an empty heap. *)
Lemma init_words s top w :
  hstate s top w -> HEAP_START + 16 <= top ->
  exists s' w',
    (PUT (HEAP_START + 0 * WSIZE) 0 ;; PUT (HEAP_START + 1 * WSIZE) (PACK DWSIZE 1) ;;
     PUT (HEAP_START + 2 * WSIZE) (PACK DWSIZE 1) ;; PUT (HEAP_START + 3 * WSIZE) (PACK 0 1) ;;
     modify (set_listp (HEAP_START + 2 * WSIZE)) ;; modify (set_brk (HEAP_START + 3 * WSIZE))) s = Ok (tt, s') /\
    heap_at s' top w' [] /\ vm_mono (hvm s) (hvm s').
Proof.
  intros Hs Htop. pose proof (top_bound _ _ _ Hs). unfold WSIZE.
  change (HEAP_START + 0 * 4) with HEAP_START. change (HEAP_START + 1 * 4) with (HEAP_START + 4).
  change (HEAP_START + 2 * 4) with (HEAP_START + 8). change (HEAP_START + 3 * 4) with FIRST.
  change (PACK DWSIZE 1) with (tag 8 true). change (PACK 0 1) with (tag 0 true). unfold FIRST.
  assert (H8 : tag_ok 8) by done. assert (H0 : tag_ok 0) by done.
  destruct (PUT_spec s top w Hs HEAP_START 0 ltac:(lia) ltac:(lia)) as (s1 & E1 & S1 & H1). hstep E1.
  destruct (PUT_spec s1 top _ H1 (HEAP_START + 4) (tag 8 true) ltac:(lia) (tag_range _ _ H8)) as (s2 & E2 & S2 & H2). hstep E2.
  destruct (PUT_spec s2 top _ H2 (HEAP_START + 8) (tag 8 true) ltac:(lia) (tag_range _ _ H8)) as (s3 & E3 & S3 & H3). hstep E3.
  destruct (PUT_spec s3 top _ H3 (HEAP_START + 12) (tag 0 true) ltac:(lia) (tag_range _ _ H0)) as (s4 & E4 & S4 & H4). hstep E4.
  assert (Hss : heap_same s s4) by (do 3 (etrans; [done|]); done).
  unfold modify, mbind, M_bind. eexists _, _. split; [done|]. split; [|exact (vm_mono_same _ _ Hss)].
  split; [destruct H4; by split|done|simpl; lia|]. simpl. split; [split; hword|done|hword].
Qed.

(** Total size of the allocated (or free) blocks. *)
Fixpoint bytes (al : bool) (bl : list block) : Z :=
  match bl with
  | [] => 0
  | (sz, al') :: bl' => (if eqb al al' then sz else 0) + bytes al bl'
  end.

Lemma bytes_sum w a bl e :
  seg w a bl e -> bytes true bl + bytes false bl = total bl /\ 0 <= bytes true bl /\ 0 <= bytes false bl.
Proof.
  revert a. induction bl as [|[sz al] bl IH]; intros a; simpl; [done|].
  intros (H1 & _ & _ & _ & H2). apply IH in H2. unfold total in *. destruct al; simpl; lia.
Qed.

Lemma dump_loop_spec s top w (Hs : hstate s top w) fuel : forall a bl e u f,
  seg w a bl e -> w e = tag 0 true -> HEAP_START <= a -> e < top -> (length bl <= fuel)%nat ->
  0 <= u -> 0 <= f -> u + f + (e - a) < 2 ^ 32 ->
  dump_loop fuel (a + 4) u f s = Ok ((u + bytes true bl, f + bytes false bl), s).
Proof.
  induction fuel as [|fuel IH]; intros a bl e u f Hseg He Ha Het Hf Hu Hfr Hb.
  all: destruct bl as [|[sz al] bl]; simpl in Hseg.
  1,3: subst e; cbn [dump_loop]; rewrite (HDRP_spec s top w Hs a) by lia;
    rewrite (bind_ok _ _ _ _ _ (GET_SIZE_spec s top w Hs a 0 true ltac:(lia) He ltac:(by split)));
    simpl; by rewrite !Z.add_0_r.
  { simpl in Hf. lia. }
  destruct Hseg as (H16 & Hok & Hh & _ & Hrest). destruct (seg_total _ _ _ _ Hrest) as [Htot H0].
  cbn [dump_loop]. rewrite (HDRP_spec s top w Hs a) by lia.
  hstep (GET_SIZE_spec s top w Hs a sz al ltac:(lia) Hh Hok).
  rewrite (proj2 (Z.ltb_lt 0 sz)) by lia.
  hstep (GET_ALLOC_spec s top w Hs a sz al ltac:(lia) Hh Hok).
  hstep (NEXT_BLKP_spec s top w Hs a sz al ltac:(lia) Hh Hok). simpl in Hf.
  destruct al; simpl; rewrite u32_small by lia; rewrite (IH (a + sz) bl e) by (done || lia);
    simpl; by rewrite Z.add_0_l, Z.add_assoc.
Qed.

(** [kheap_init] on every path. *)
Lemma kheap_init_spec s fuel :
  vmm_inv (hvm s) -> (Z.to_nat 0x400000 < fuel)%nat ->
  tables_ready (hvm s) (FIRST + HEAP_INITIAL + 4) ->
  (exists msg, kheap_init fuel s = Stop (Panic msg)) \/
  exists s', kheap_init fuel s = Ok (tt, s') /\ heap_inv s' [(HEAP_INITIAL, false)] /\
    vm_mono (hvm s) (hvm s').
Proof.
  intros Hinv Hfuel Hready. unfold kheap_init.
  destruct (pmm_alloc_frame (vm_pmm (hvm s))) as [phys p] eqn:Ha.
  rewrite (bind_ok _ _ s phys (set_hvm (set_pmm p (hvm s)) s)) by (unfold vm, zoom, alloc_frame; by rewrite Ha).
  destruct (Z.eqb_spec phys 0) as [->|Hnz]; [left; by eexists|].
  assert (Hvm0 : heap_vm (hvm s) HEAP_START) by (split; [done|hconst; lia|done|lia|lia]).
  destruct (map_next (hvm s) HEAP_START phys p Hvm0) as [(v & E & Hvm & Hext & _)|E]; try done.
  { intros a Ha' _. apply Hready; unfold FIRST, HEAP_INITIAL in *; hconst; lia. }
  2: { left. eexists. apply bind_stop. unfold vm, zoom. simpl. by rewrite E. }
  set (s1 := KheapState v (heap_listp s) (heap_brk s) (HEAP_START + 4096)).
  rewrite (bind_ok _ _ _ tt (set_hvm v s)) by (unfold vm, zoom; simpl; by rewrite E).
  rewrite (bind_ok _ _ _ tt s1) by done.
  assert (Hs1 : hstate s1 (HEAP_START + 4096) (word_at v)) by (by split).
  destruct (init_words s1 _ _ Hs1 ltac:(lia)) as (s2 & w2 & E2 & H2 & M2).
  assert (M02 : vm_mono (hvm s) (hvm s2)) by (etrans; [by apply vm_mono_ext|done]).
  destruct (heap_at_bounds _ _ _ _ H2) as (_ & Hbrk & _). unfold total in Hbrk. simpl in Hbrk. rewrite Z.add_0_r in Hbrk.
  assert (Hi : (if ALIGN HEAP_INITIAL <? MIN_BLOCK then MIN_BLOCK else ALIGN HEAP_INITIAL) = HEAP_INITIAL) by done.
  rewrite Hi. assert (Hrun : forall k : unit -> M kheap_state unit,
    (PUT (HEAP_START + 0 * WSIZE) 0 ;; PUT (HEAP_START + 1 * WSIZE) (PACK DWSIZE 1) ;;
     PUT (HEAP_START + 2 * WSIZE) (PACK DWSIZE 1) ;; PUT (HEAP_START + 3 * WSIZE) (PACK 0 1) ;;
     modify (set_listp (HEAP_START + 2 * WSIZE)) ;; modify (set_brk (HEAP_START + 3 * WSIZE)) ≫= k) s1 = k tt s2).
  { intros k. revert E2. unfold mbind, M_bind.
    repeat match goal with |- context [match ?x with Ok _ => _ | Stop _ => _ end] =>
      lazymatch x with context [match _ with _ => _ end] => fail | _ => destruct x as [[? ?]|] end end; try done.
    congruence. }
  rewrite Hrun. clear Hrun.
  destruct (extend_at s2 _ w2 [] HEAP_INITIAL fuel H2) as [E3|[(s3 & top3 & w3 & E3 & _)|(s3 & top3 & w3 & E3 & _ & H3 & _ & M3 & _)]];
    try done.
  { rewrite Hbrk. unfold FIRST, HEAP_INITIAL. hconst. lia. }
  { rewrite Hbrk. by apply (tables_ready_mono (hvm s)). }
  - left. eexists. by apply bind_stop.
  - left. eexists. hstep E3. done.
  - right. hstep E3. exists s3. split; [done|]. split; [|by etrans]. split; [by eapply heap_at_rep|]. done.
Qed.

(** ** Properties *)

(** C2: [kmalloc] for a request of at least one and less than 0xFA000000 bytes
    (above that the rounding can wrap around, [kmalloc_size_overflow]), on a
    heap whose growth finds its page tables: each exists, or the next free
    frames lie in the identity-mapped 4 MiB, where a new one can be cleared
    (else the access faults, [vmm_map_page_failures]). Under these conditions it
    returns (no fuel runs out) or panics: either with an 8-byte-aligned block of at least the
    requested size, disjoint from every live block and with every live payload
    untouched; or with 0, and then no free block was large enough and the heap
    is at its ceiling or physical memory is used up; or the kernel panics
    because no frame is left for a page table. The heap invariant (tags,
    tiling, no adjacent free blocks) is kept. *)
Theorem kmalloc_correct s bl size fuel :
  heap_inv s bl -> 0 < size < 0xFA000000 -> (Z.to_nat 0x400000 < fuel)%nat ->
  tables_ready (hvm s) (heap_brk s + extension (block_size size) + 4) ->
  kmalloc fuel size s = Stop map_panic \/
  (exists s', kmalloc fuel size s = Ok (0, s') /\ heap_inv s' bl /\ payloads_kept s s' bl /\
     vm_mono (hvm s) (hvm s') /\ Forall (fun b => b.2 = true \/ b.1 < block_size size) bl /\
     exhausted s' (heap_brk s + extension (block_size size) + 4)) \/
  (exists p s' bl' n, kmalloc fuel size s = Ok (p, s') /\ size <= n /\ allocated s s' bl bl' p n).
Proof. apply kmalloc_contract. Qed.

(** C17: [kmalloc] refines first fit on the list of blocks: when some free
    block is large enough, the call returns the payload of the first such
    block, and the memory then represents the list in which that block is
    split (remainder of at least 16 bytes) or taken whole. *)
Theorem kmalloc_refines_first_fit s bl size fuel l1 csz l2 :
  heap_rep s bl -> 0 < size < 0xFA000000 -> (Z.to_nat 0x400000 < fuel)%nat ->
  tables_ready (hvm s) (heap_brk s + extension (block_size size) + 4) ->
  first_fit (block_size size) bl = Some (l1, csz, l2) ->
  exists s', kmalloc fuel size s = Ok (FIRST + total l1 + 4, s') /\
    heap_rep s' (abs_place l1 csz (block_size size) l2).
Proof.
  intros H Hs Hf Hr Hfit. pose proof (kmalloc_cases s bl size fuel H Hs Hf Hr) as Hc. simpl in Hc.
  rewrite Hfit in Hc. destruct Hc as (s' & E & H' & _). by exists s'.
Qed.

(** C3: [kfree] of a live block returns, makes exactly that block dead, leaves
    every other live payload untouched, merges it with free neighbours and so
    keeps the invariant that no two neighbours are free. *)
Theorem kfree_correct s bl p n :
  heap_inv s bl -> live bl p n -> exists s' bl', kfree p s = Ok (tt, s') /\ released s s' bl bl' p.
Proof. apply kfree_contract. Qed.

(** the client's side of the contract: a word written inside the payload
    of a live block keeps the heap's invariant and its list of blocks, and
    changes that word only. *)
Theorem payload_write_safe s bl p n a x :
  heap_inv s bl -> live bl p n -> p <= a -> a + 4 <= p + n -> 0 <= x < 2 ^ 32 ->
  exists s', PUT a x s = Ok (tt, s') /\ heap_inv s' bl /\
    forall b, HEAP_START <= b < heap_virt_mapped s -> hword_at s' b = upd (hword_at s) a x b.
Proof.
  intros H1 H2 H3 H4 H5. destruct (payload_write s bl p n a x H1 H2 H3 H4 H5) as (s' & E & H & _ & Hw). eauto.
Qed.

(** [ALIGN(size) + DWSIZE] wraps for the fifteen largest sizes: [kmalloc]
    then behaves as for a request of eight bytes. *)
Theorem kmalloc_size_overflow s fuel size :
  2 ^ 32 - 15 <= size < 2 ^ 32 -> kmalloc fuel size s = kmalloc fuel 8 s.
Proof.
  intros H. assert (block_size size = 16) as Hb.
  { unfold block_size, ALIGN. change (DWSIZE - 1) with (2 ^ 3 - 1). change MIN_BLOCK with 16.
    rewrite mask_round by (lia || apply u32_range). unfold u32, DWSIZE. change (2 ^ 3 - 1) with 7.
    change (2 ^ 3) with 8. change (2 ^ 32) with 4294967296 in *.
    destruct (decide (size + 7 < 4294967296)).
    - rewrite (Z.mod_small (size + 7)) by lia.
      replace (size + 7 - (size + 7) mod 8 + 8) with 4294967296 by zlia. done.
    - replace ((size + 7) mod 4294967296) with (size + 7 - 4294967296) by zlia.
      replace (size + 7 - 4294967296 - (size + 7 - 4294967296) mod 8) with 0 by zlia. done. }
  unfold kmalloc. rewrite Hb. rewrite (proj2 (Z.eqb_neq size 0)) by lia. done.
Qed.

(** C24: [kmalloc_aligned] and [kfree_aligned] are a matched pair, for less than
    0xF9000000 bytes and page tables as for [kmalloc_correct]: on success
    the returned address is page-aligned, lies with its [size] bytes inside a
    fresh live block after the word that stores that block's address, and
    [kfree_aligned] releases exactly that block. The failures are those of
    [kmalloc]. *)
Theorem kmalloc_aligned_correct s bl size fuel :
  heap_inv s bl -> 0 <= size < 0xF9000000 -> (Z.to_nat 0x400000 < fuel)%nat ->
  tables_ready (hvm s) (heap_brk s + extension (block_size (size + 4100)) + 4) ->
  kmalloc_aligned fuel size s = Stop map_panic \/
  (exists s', kmalloc_aligned fuel size s = Ok (0, s') /\ heap_inv s' bl) \/
  (exists p s' bl' raw n, kmalloc_aligned fuel size s = Ok (p, s') /\
     aligned_block s s' bl bl' size p raw n /\
     exists s2 bl2, kfree_aligned p s' = Ok (tt, s2) /\ released s' s2 bl' bl2 raw).
Proof.
  intros Hinv Hsize Hfuel Hready.
  destruct (kmalloc_aligned_contract s bl size fuel Hinv Hsize Hfuel Hready)
    as [E|[(s' & E & Hinv' & _)|(raw & s' & bl' & n & E & Hab)]]; [by left|right; left; eauto|right; right].
  exists (align_up raw), s', bl', raw, n. split; [done|]. split; [done|]. destruct Hab as [Hal _ [Hin1 Hin2] Hback].
  apply (kfree_aligned_contract s' bl' (align_up raw) raw n (al_inv _ _ _ _ _ _ Hal)); [|lia|lia|done].
  apply (al_live _ _ _ _ _ _ Hal). by left.
Qed.

(** [kheap_init] either panics (no frame for the first page, for a page
    table or for the initial 64 KiB) or leaves a heap that satisfies the
    invariant and consists of one free block of 64 KiB. *)
Theorem kheap_init_correct s fuel :
  vmm_inv (hvm s) -> (Z.to_nat 0x400000 < fuel)%nat ->
  tables_ready (hvm s) (FIRST + HEAP_INITIAL + 4) ->
  (exists msg, kheap_init fuel s = Stop (Panic msg)) \/
  exists s', kheap_init fuel s = Ok (tt, s') /\ heap_inv s' [(HEAP_INITIAL, false)] /\
    vm_mono (hvm s) (hvm s').
Proof. apply kheap_init_spec. Qed.

(** [kheap_dump] walks every block, changes nothing and prints exact
    totals: the bytes of allocated and of free blocks, whose sum is the extent
    of the heap. *)
Theorem kheap_dump_correct s bl fuel :
  heap_rep s bl -> (length bl <= fuel)%nat ->
  kheap_dump fuel s = Ok ((bytes true bl, bytes false bl), s) /\
  bytes true bl + bytes false bl = heap_brk s - FIRST.
Proof.
  intros H Hf. destruct (heap_at_bounds _ _ _ _ H) as (Htop & Hbrk & H0).
  destruct (bytes_sum (hword_at s) FIRST bl (heap_brk s) (heap_rep_seg _ _ H)) as (Hsum & _).
  split; [|lia]. pose proof (ha_top _ _ _ _ H) as Ht. pose proof H as [Hs Hl _ [[Hp1 Hp2] Hseg Hepi]]. unfold kheap_dump.
  rewrite (bind_ok _ _ s (heap_listp s) s), Hl by done.
  hstep (NEXT_BLKP_spec s _ _ Hs (HEAP_START + 4) 8 true ltac:(lia) Hp1 ltac:(done)).
  change (HEAP_START + 4 + 8 + 4) with (FIRST + 4).
  by rewrite (dump_loop_spec s _ _ Hs fuel FIRST bl (heap_brk s) 0 0) by
    (done || unfold FIRST in *; hconst; lia).
Qed.

(** ** Witnesses: the heap of the demonstration machine *)

Definition demo_fuel : nat := Z.to_nat 0x400001.
Lemma demo_fuel_ok : (Z.to_nat 0x400000 < demo_fuel)%nat.
Proof. unfold demo_fuel. lia. Qed.
#[global] Opaque demo_fuel.

Definition demo_static_heap : kheap_state := KheapState demo_vmm 0 0 0.
Definition demo_heap : kheap_state :=
  match kheap_init demo_fuel demo_static_heap with
  | Ok (_, s) => s
  | Stop _ => demo_static_heap
  end.

Definition is_ok {A : Type} (r : res A) : bool := match r with Ok _ => true | Stop _ => false end.

Lemma demo_tables end_ : tables_ready demo_vmm end_.
Proof.
  intros a _ _. right. intros f Hf. destruct demo_vmm_spec as (_ & _ & _ & _ & _ & H).
  apply H in Hf. unfold LOW_END. lia.
Qed.

Lemma demo_init_ok : is_ok (kheap_init demo_fuel demo_static_heap) = true.
Proof. vm_compute. reflexivity. Qed.

Lemma demo_heap_spec :
  heap_inv demo_heap [(HEAP_INITIAL, false)] /\ forall end_, tables_ready (hvm demo_heap) end_.
Proof.
  destruct (kheap_init_spec demo_static_heap demo_fuel (proj1 demo_vmm_spec) demo_fuel_ok (demo_tables _))
    as [[msg E]|(s' & E & H & Hm)].
  - exfalso. pose proof demo_init_ok as Hok. rewrite E in Hok. discriminate Hok.
  - unfold demo_heap. rewrite E. split; [exact H|]. intros e.
    exact (tables_ready_mono _ _ e Hm (demo_tables e)).
Qed.
#[global] Opaque demo_heap.

Lemma kheap_init_correct_witness :
  exists s', kheap_init demo_fuel demo_static_heap = Ok (tt, s') /\ heap_inv s' [(HEAP_INITIAL, false)].
Proof.
  destruct (kheap_init_correct demo_static_heap demo_fuel (proj1 demo_vmm_spec) demo_fuel_ok (demo_tables _))
    as [[msg E]|(s' & E & H & _)].
  - exfalso. pose proof demo_init_ok as Hok. rewrite E in Hok. discriminate Hok.
  - exists s'. exact (conj E H).
Defined.

(** The address a run returns, -1 when it does not return. *)
Definition result_of (r : res (Z * kheap_state)) : Z := match r with Ok (p, _) => p | Stop _ => -1 end.

Lemma demo_kmalloc : result_of (kmalloc demo_fuel 100 demo_heap) = HEAP_START + 16.
Proof. vm_compute. reflexivity. Qed.

Lemma kmalloc_correct_witness :
  exists s' bl' n, kmalloc demo_fuel 100 demo_heap = Ok (HEAP_START + 16, s') /\ 100 <= n /\
    allocated demo_heap s' [(HEAP_INITIAL, false)] bl' (HEAP_START + 16) n.
Proof.
  destruct demo_heap_spec as [Hinv Hready]. pose proof demo_kmalloc as Hr.
  destruct (kmalloc_correct demo_heap _ 100 demo_fuel Hinv ltac:(lia) demo_fuel_ok (Hready _))
    as [E|[(s' & E & _)|(p & s' & bl' & n & E & Hn & Ha)]]; rewrite E in Hr; cbn [result_of] in Hr.
  - discriminate Hr.
  - discriminate Hr.
  - rewrite Hr in E, Ha. exists s', bl', n. exact (conj E (conj Hn Ha)).
Defined.

Lemma kmalloc_refines_first_fit_witness :
  exists s', kmalloc demo_fuel 100 demo_heap = Ok (FIRST + 0 + 4, s') /\
    heap_rep s' [(112, true); (65424, false)].
Proof.
  destruct demo_heap_spec as [Hinv Hready].
  exact (kmalloc_refines_first_fit demo_heap [(HEAP_INITIAL, false)] 100 demo_fuel [] HEAP_INITIAL []
    (hi_rep _ _ Hinv) ltac:(lia) demo_fuel_ok (Hready _) eq_refl).
Defined.

(** A heap with one live block of 104 payload bytes. *)
Lemma demo_one_block :
  exists s, heap_inv s [(112, true); (65424, false)] /\ live [(112, true); (65424, false)] (FIRST + 4) 104.
Proof.
  destruct demo_heap_spec as [Hinv Hready].
  destruct (kmalloc_cases demo_heap [(HEAP_INITIAL, false)] 100 demo_fuel (hi_rep _ _ Hinv) ltac:(lia)
    demo_fuel_ok (Hready _)) as (s' & _ & H & _).
  exists s'. split; [split; [exact H|simpl; tauto]|left; done].
Qed.

Lemma kfree_correct_witness :
  exists s s' bl', kfree (FIRST + 4) s = Ok (tt, s') /\
    released s s' [(112, true); (65424, false)] bl' (FIRST + 4).
Proof.
  destruct demo_one_block as (s & H & Hl). exists s. exact (kfree_correct s _ _ _ H Hl).
Defined.

Lemma payload_write_safe_witness :
  exists s s', PUT (FIRST + 4) 0xDEADBEEF s = Ok (tt, s') /\ heap_inv s' [(112, true); (65424, false)].
Proof.
  destruct demo_one_block as (s & H & Hl).
  destruct (payload_write_safe s _ _ _ (FIRST + 4) 0xDEADBEEF H Hl) as (s' & E & Hi & _); try lia.
  exists s, s'. split; assumption.
Defined.

Lemma kmalloc_size_overflow_witness :
  kmalloc demo_fuel 0xFFFFFFFF demo_heap = kmalloc demo_fuel 8 demo_heap.
Proof. apply kmalloc_size_overflow. lia. Defined.

Lemma demo_kmalloc_aligned : result_of (kmalloc_aligned demo_fuel 4096 demo_heap) = HEAP_START + 4096.
Proof. vm_compute. reflexivity. Qed.

Lemma kmalloc_aligned_correct_witness :
  exists s' bl' raw n s2 bl2, kmalloc_aligned demo_fuel 4096 demo_heap = Ok (HEAP_START + 4096, s') /\
    aligned_block demo_heap s' [(HEAP_INITIAL, false)] bl' 4096 (HEAP_START + 4096) raw n /\
    kfree_aligned (HEAP_START + 4096) s' = Ok (tt, s2) /\ released s' s2 bl' bl2 raw.
Proof.
  destruct demo_heap_spec as [Hinv Hready]. pose proof demo_kmalloc_aligned as Hr.
  destruct (kmalloc_aligned_correct demo_heap _ 4096 demo_fuel Hinv ltac:(lia) demo_fuel_ok (Hready _))
    as [E|[(s' & E & _)|(p & s' & bl' & raw & n & E & Ha & s2 & bl2 & E2 & Hrel)]]; rewrite E in Hr; cbn [result_of] in Hr.
  - discriminate Hr.
  - discriminate Hr.
  - rewrite Hr in E, Ha, E2. exists s', bl', raw, n, s2, bl2. exact (conj E (conj Ha (conj E2 Hrel))).
Defined.

Lemma kheap_dump_correct_witness :
  exists s, kheap_dump 2 s = Ok ((112, 65424), s).
Proof.
  destruct demo_one_block as (s & H & _). exists s.
  exact (proj1 (kheap_dump_correct s [(112, true); (65424, false)] 2 (hi_rep _ _ H) (le_n 2))).
Defined.
