(* ===== verification/HeapSpec.v ===== *)
(** * What the kernel heap promises to the components above it

    [Heap] is the interface of kmalloc, kfree, kmalloc_aligned and
    kfree_aligned with word access to allocated memory, and [HeapLaws] its
    specification over two ghost maps: the live blocks of kmalloc and those of
    kmalloc_aligned, with their sizes. The process manager is verified against
    this interface; the instance at the end discharges it with the allocator
    of Kheap.v. *)

From Stdlib Require Import ZArith Lia.
From S2P Require Import Prelude Pmm Vmm Kheap.

Class Heap (H : Type) := {
  heap_malloc : Z -> M H Z;
  heap_free : Z -> M H unit;
  heap_malloc_aligned : Z -> M H Z;
  heap_free_aligned : Z -> M H unit;
  heap_load : Z -> M H Z;
  heap_store : Z -> Z -> M H unit
}.

(** Word [a] lies inside a live block. *)
Definition owned (L A : gmap Z Z) (a : Z) : Prop :=
  exists p n, (L !! p = Some n \/ A !! p = Some n) /\ p <= a /\ a + 4 <= p + n.

(** Largest request the laws speak about. *)
Definition HEAP_REQUEST : Z := 0xF0000000.

(** Outcome of an allocation that adds to one of the ghost maps: the kernel
    panics, memory is exhausted and 0 returned, or a fresh block is returned.
    Words of live blocks keep their values. *)
Definition alloc_outcome {H : Type} (r : res (Z * H)) (h : H) (word : H -> Z -> Z)
    (keep : Z -> Prop) (same : H -> Prop) (added : Z -> H -> Prop) : Prop :=
  (exists msg, r = Stop (Panic msg)) \/
  (exists h', r = Ok (0, h') /\ same h' /\ forall a, keep a -> word h' a = word h a) \/
  (exists p h', r = Ok (p, h') /\ 0 < p < 2 ^ 31 /\ added p h' /\ forall a, keep a -> word h' a = word h a).

Class HeapLaws (H : Type) `{Heap H} := {
  heap_ok : H -> gmap Z Z -> gmap Z Z -> Prop;
  heap_word : H -> Z -> Z;
  heap_malloc_law h L A n :
    heap_ok h L A -> 0 < n < HEAP_REQUEST ->
    alloc_outcome (heap_malloc n h) h heap_word (owned L A) (fun h' => heap_ok h' L A)
      (fun p h' => L !! p = None /\ heap_ok h' (<[p := n]> L) A);
  heap_malloc_aligned_law h L A n :
    heap_ok h L A -> 0 < n < HEAP_REQUEST ->
    alloc_outcome (heap_malloc_aligned n h) h heap_word (owned L A) (fun h' => heap_ok h' L A)
      (fun p h' => p mod 4096 = 0 /\ A !! p = None /\ heap_ok h' L (<[p := n]> A));
  heap_free_law h L A p n :
    heap_ok h L A -> L !! p = Some n ->
    exists h', heap_free p h = Ok (tt, h') /\ heap_ok h' (delete p L) A /\
      forall a, owned (delete p L) A a -> heap_word h' a = heap_word h a;
  heap_free_aligned_law h L A p n :
    heap_ok h L A -> A !! p = Some n ->
    exists h', heap_free_aligned p h = Ok (tt, h') /\ heap_ok h' L (delete p A) /\
      forall a, owned L (delete p A) a -> heap_word h' a = heap_word h a;
  heap_load_law h L A a :
    heap_ok h L A -> owned L A a -> heap_load a h = Ok (heap_word h a, h);
  heap_store_law h L A a x :
    heap_ok h L A -> owned L A a -> 0 <= x < 2 ^ 32 ->
    exists h', heap_store a x h = Ok (tt, h') /\ heap_ok h' L A /\
      forall b, owned L A b -> heap_word h' b = if decide (b = a) then x else heap_word h b
}.

(** ** The kernel heap as an instance *)

(** Iterations allowed to the loops of kheap.c: more than the 2^22 blocks and
    2^14 pages the heap can have. *)
Definition KHEAP_FUEL : nat := Z.to_nat 0x400001.
Lemma kheap_fuel_ok : (Z.to_nat 0x400000 < KHEAP_FUEL)%nat.
Proof. unfold KHEAP_FUEL. lia. Qed.
#[global] Opaque KHEAP_FUEL.

#[export] Instance kheap_Heap : Heap kheap_state := {
  heap_malloc := kmalloc KHEAP_FUEL;
  heap_free := kfree;
  heap_malloc_aligned := kmalloc_aligned KHEAP_FUEL;
  heap_free_aligned := kfree_aligned;
  heap_load := GET;
  heap_store := PUT
}.

(** The block of the heap behind an entry of the aligned map. *)
Definition backs (s : kheap_state) (bl : list block) (L : gmap Z Z) (p n raw k : Z) : Prop :=
  live bl raw k /\ p = align_up raw /\ raw + 4 <= p /\ p + n <= raw + k /\ 0 < n /\
  hword_at s (p - 4) = raw /\ L !! raw = None.

Record kheap_ok (s : kheap_state) (L A : gmap Z Z) : Prop := KheapOk {
  ko_tables : forall e, tables_ready (hvm s) e;
  ko_blocks : exists bl, heap_inv s bl /\
    (forall p n, L !! p = Some n -> 0 < n /\ exists k, live bl p k /\ n <= k) /\
    (forall p n, A !! p = Some n -> exists raw k, backs s bl L p n raw k)
}.

Section kheap_instance.
Context (s : kheap_state) (L A : gmap Z Z) (bl : list block).
Context (Hinv : heap_inv s bl).
Context (HL : forall p n, L !! p = Some n -> 0 < n /\ exists k, live bl p k /\ n <= k).
Context (HA : forall p n, A !! p = Some n -> exists raw k, backs s bl L p n raw k).

(** An owned word lies in the payload of one live block, and is not the back
    pointer of an aligned one. *)
Lemma owned_live a : owned L A a -> exists q k, live bl q k /\ q <= a /\ a + 4 <= q + k /\
  forall p n raw k', A !! p = Some n -> backs s bl L p n raw k' -> a <> p - 4.
Proof.
  intros (p & n & [Hp|Hp] & Ha1 & Ha2).
  - destruct (HL p n Hp) as (Hn & k & Hl & Hk). exists p, k. split_and!; [done|lia|lia|].
    intros p' n' raw k' Hp' (Hl' & -> & H1 & H2 & H3 & _ & Hnone) ->.
    destruct (live_disjoint _ _ _ _ _ _ _ _ (heap_rep_seg _ _ (hi_rep _ _ Hinv)) Hl Hl') as [[= <- <-]|Hd]; [congruence|lia].
  - destruct (HA p n Hp) as (raw & k & Hb). pose proof Hb as (Hl & Hpa & H1 & H2 & H3 & _ & _).
    exists raw, k. split_and!; [done|lia|lia|].
    intros p' n' raw' k' Hp' (Hl' & Hpa' & H1' & H2' & H3' & _ & _) ->.
    destruct (live_disjoint _ _ _ _ _ _ _ _ (heap_rep_seg _ _ (hi_rep _ _ Hinv)) Hl Hl') as [[= <- <-]|Hd]; [|lia].
    assert (p = p') by congruence. lia.
Qed.

Lemma owned_kept s' a :
  payloads_kept s s' bl -> owned L A a -> hword_at s' a = hword_at s a.
Proof. intros Hk Ho. destruct (owned_live a Ho) as (q & k & Hl & H1 & H2 & _). apply (Hk q k Hl). lia. Qed.

(** The ghost maps survive a change of state that keeps the live blocks'
    contents and the blocks themselves. *)
Lemma backs_kept s' bl' L' p n raw k :
  payloads_kept s s' bl -> (forall q j, live bl q j -> live bl' q j) -> L' !! raw = None ->
  backs s bl L p n raw k -> backs s' bl' L' p n raw k.
Proof.
  intros Hk Hl Hn (H1 & H2 & H3 & H4 & H5 & H6 & H7). split_and!; auto.
  rewrite (Hk raw k H1) by lia. done.
Qed.
End kheap_instance.

Lemma live_positive s bl p n : heap_inv s bl -> live bl p n -> 0 < p < 2 ^ 31 /\ 8 <= n.
Proof.
  intros [H _] Hl. destruct (live_range _ _ _ _ _ _ (heap_rep_seg _ _ H) Hl) as (? & ? & ? & _).
  destruct (heap_at_bounds _ _ _ _ H) as (? & _). pose proof (ha_top _ _ _ _ H).
  unfold FIRST in *. hconst. lia.
Qed.

(** The ghost maps in a state reached without losing a live block. *)
Lemma kheap_ok_kept s s' L A bl bl' :
  kheap_ok s L A -> heap_inv s bl ->
  (forall p n, L !! p = Some n -> 0 < n /\ exists k, live bl p k /\ n <= k) ->
  (forall p n, A !! p = Some n -> exists raw k, backs s bl L p n raw k) ->
  heap_inv s' bl' -> payloads_kept s s' bl -> vm_mono (hvm s) (hvm s') ->
  (forall q k, live bl q k -> live bl' q k) -> kheap_ok s' L A.
Proof.
  intros Hok Hinv HL HA Hinv' Hk Hm Hl. split; [intros e; apply (tables_ready_mono (hvm s)); [done|apply Hok]|].
  exists bl'. split; [done|]. split.
  - intros p n Hp. destruct (HL p n Hp) as (? & k & ? & ?). split; [done|]. eauto.
  - intros p n Hp. destruct (HA p n Hp) as (raw & k & Hb). exists raw, k.
    apply (backs_kept s L bl s' bl' L); try done. by destruct Hb as (_ & _ & _ & _ & _ & _ & ?).
Qed.

(** Mapping a page outside the heap's range keeps the heap and its words. *)
Lemma kheap_ok_fresh s L A v' virt phys :
  kheap_ok s L A -> fresh_page (hvm s) v' virt phys -> virt mod 4096 = 0 -> virt < HEAP_START \/ HEAP_MAX <= virt ->
  kheap_ok (set_hvm v' s) L A /\ forall a, owned L A a -> hword_at (set_hvm v' s) a = hword_at s a.
Proof.
  intros Hok G Hal Hout. pose proof Hok as [Ht (bl & Hinv & HL & HA)]. pose proof (hi_rep _ _ Hinv) as [Hs Hl Htop Hrep].
  pose proof (hs_vm _ _ _ Hs) as Hvm. pose proof (hv_top _ _ Hvm) as Hmax.
  assert (Hside : heap_virt_mapped s <= virt \/ virt < HEAP_START) by lia.
  assert (Hw : forall b, HEAP_START <= b < heap_virt_mapped s -> hword_at (set_hvm v' s) b = hword_at s b).
  { intros b Hb. by apply (fresh_words (hvm s) v' (heap_virt_mapped s) virt phys). }
  assert (Hat : heap_at (set_hvm v' s) (heap_virt_mapped s) (hword_at s) bl).
  { split; [split; [done|by apply (fresh_outside (hvm s) v' _ virt phys)|exact Hw]|done..]. }
  assert (Hk : payloads_kept s (set_hvm v' s) bl).
  { intros q n Hq b Hb. apply Hw. by apply (live_in_heap s bl q n b); [apply Hinv|..]. }
  split; [|intros a; by apply (owned_kept s L A bl)].
  apply (kheap_ok_kept s _ L A bl bl); try done; [|by apply vm_mono_ext; apply G].
  split; [by eapply heap_at_rep|apply Hinv].
Qed.

Lemma kheap_malloc_law s L A n :
  kheap_ok s L A -> 0 < n < HEAP_REQUEST ->
  alloc_outcome (kmalloc KHEAP_FUEL n s) s hword_at (owned L A) (fun s' => kheap_ok s' L A)
    (fun p s' => L !! p = None /\ kheap_ok s' (<[p := n]> L) A).
Proof.
  intros Hok Hn. pose proof Hok as [Ht (bl & Hinv & HL & HA)]. unfold HEAP_REQUEST in Hn.
  destruct (kmalloc_contract s bl n KHEAP_FUEL Hinv ltac:(lia) kheap_fuel_ok (Ht _))
    as [E|[(s' & E & Hinv' & Hk & Hm & _)|(p & s' & bl' & k & E & Hle & [Ha1 Ha2 Ha3 Ha4 Ha5 Ha6 Ha7])]].
  - left. eexists. exact E.
  - right. left. exists s'. split; [done|]. split; [|intros a; by apply (owned_kept s L A bl)].
    by apply (kheap_ok_kept s s' L A bl bl).
  - right. right. exists p, s'. split; [done|].
    assert (Hlive : live bl' p k) by (apply Ha4; by left).
    destruct (live_positive s' bl' p k Ha1 Hlive) as [Hp Hk8]. split; [done|].
    assert (Hfresh : forall q j, live bl q j -> q <> p).
    { intros q j Hq ->. destruct (live_positive s bl p j Hinv Hq). destruct (Ha5 p j Hq); lia. }
    assert (Hmono : forall q j, live bl q j -> live bl' q j) by (intros; apply Ha4; by right).
    split; [|intros a; by apply (owned_kept s L A bl)]. split.
    + destruct (L !! p) as [j|] eqn:El; [|done]. destruct (HL p j El) as (_ & k' & Hl & _). by destruct (Hfresh p k').
    + split; [intros e; by apply (tables_ready_mono (hvm s))|]. exists bl'. split; [done|]. split.
      * intros q j. rewrite lookup_insert. case_decide as Hd.
        -- intros [= <-]. subst q. split; [lia|]. exists k. split; [done|lia].
        -- intros Hq. destruct (HL q j Hq) as (? & k' & Hl & ?). split; [done|]. exists k'. split; [by apply Hmono|done].
      * intros q j Hq. destruct (HA q j Hq) as (raw & k' & Hb). exists raw, k'.
        apply (backs_kept s L bl s' bl' (<[p := n]> L)); try done.
        pose proof Hb as (Hl & _ & _ & _ & _ & _ & Hnone). rewrite lookup_insert_ne; [done|].
        intros ->. by apply (Hfresh raw k' Hl).
Qed.

Lemma kheap_malloc_aligned_law s L A n :
  kheap_ok s L A -> 0 < n < HEAP_REQUEST ->
  alloc_outcome (kmalloc_aligned KHEAP_FUEL n s) s hword_at (owned L A) (fun s' => kheap_ok s' L A)
    (fun p s' => p mod 4096 = 0 /\ A !! p = None /\ kheap_ok s' L (<[p := n]> A)).
Proof.
  intros Hok Hn. pose proof Hok as [Ht (bl & Hinv & HL & HA)]. unfold HEAP_REQUEST in Hn.
  destruct (kmalloc_aligned_contract s bl n KHEAP_FUEL Hinv ltac:(lia) kheap_fuel_ok (Ht _))
    as [E|[(s' & E & Hinv' & Hk & Hm)|(raw & s' & bl' & k & E & [[Ha1 Ha2 Ha3 Ha4 Ha5 Ha6 Ha7] Hal [Hi1 Hi2] Hback])]].
  - left. eexists. exact E.
  - right. left. exists s'. split; [done|]. split; [|intros a; by apply (owned_kept s L A bl)].
    by apply (kheap_ok_kept s s' L A bl bl).
  - right. right. exists (align_up raw), s'. split; [done|].
    assert (Hlive : live bl' raw k) by (apply Ha4; by left).
    destruct (live_positive s' bl' raw k Ha1 Hlive) as [Hp Hk8].
    assert (Hr : 0 <= raw < HEAP_MAX).
    { destruct (heap_at_bounds _ _ _ _ (hi_rep _ _ Ha1)) as (? & _). pose proof (ha_top _ _ _ _ (hi_rep _ _ Ha1)). lia. }
    destruct (align_up_spec raw Hr) as [_ Hu]. split; [unfold HEAP_MAX in *; lia|].
    assert (Hmono : forall q j, live bl q j -> live bl' q j) by (intros; apply Ha4; by right).
    assert (Hraw : L !! raw = None).
    { destruct (L !! raw) as [j|] eqn:El; [|done]. destruct (HL raw j El) as (? & k' & Hl & ?). destruct (Ha5 raw k' Hl); lia. }
    split; [|intros a; by apply (owned_kept s L A bl)]. split; [done|]. split.
    + destruct (A !! align_up raw) as [j|] eqn:El; [|done].
      destruct (HA _ j El) as (raw' & k' & Hl & _ & H1 & H2 & H3 & _). destruct (Ha5 raw' k' Hl); lia.
    + split; [intros e; by apply (tables_ready_mono (hvm s))|]. exists bl'. split; [done|]. split.
      * intros q j Hq. destruct (HL q j Hq) as (? & k' & Hl & ?). split; [done|]. exists k'. split; [by apply Hmono|done].
      * intros q j. rewrite lookup_insert. case_decide as Hd.
        -- intros [= <-]. subst q. exists raw, k. split_and!; try done; lia.
        -- intros Hq. destruct (HA q j Hq) as (raw' & k' & Hb). exists raw', k'.
           apply (backs_kept s L bl s' bl' L); try done. by destruct Hb as (_ & _ & _ & _ & _ & _ & ?).
Qed.

Lemma kheap_free_law s L A p n :
  kheap_ok s L A -> L !! p = Some n ->
  exists s', kfree p s = Ok (tt, s') /\ kheap_ok s' (delete p L) A /\
    forall a, owned (delete p L) A a -> hword_at s' a = hword_at s a.
Proof.
  intros [Ht (bl & Hinv & HL & HA)] Hp. destruct (HL p n Hp) as (Hn & k & Hl & Hk).
  destruct (kfree_contract s bl p k Hinv Hl) as (s' & bl' & E & [Hr1 Hr2 Hr3 Hr4]).
  assert (HAne : forall q j raw k', A !! q = Some j -> backs s bl L q j raw k' -> raw <> p).
  { intros q j raw k' _ (_ & _ & _ & _ & _ & _ & Hnone) ->. congruence. }
  exists s'. split; [done|]. split.
  - split; [intros e; apply (tables_ready_mono (hvm s)); [by apply vm_mono_same|done]|]. exists bl'. split; [done|]. split.
    + intros q j. rewrite lookup_delete. case_decide as Hd; [done|]. intros Hq.
      destruct (HL q j Hq) as (? & k' & Hl' & ?). split; [done|]. exists k'. split; [apply Hr2; split; congruence|done].
    + intros q j Hq. destruct (HA q j Hq) as (raw & k' & Hb). exists raw, k'. pose proof (HAne q j raw k' Hq Hb) as Hne.
      destruct Hb as (H1 & H2 & H3 & H4 & H5 & H6 & H7). split_and!; auto.
      * apply Hr2. done.
      * rewrite (Hr3 raw k' H1 Hne) by lia. done.
      * rewrite lookup_delete. by case_decide.
  - intros a (q & j & [Hq|Hq] & Ha1 & Ha2).
    + rewrite lookup_delete in Hq. case_decide as Hd; [done|]. destruct (HL q j Hq) as (? & k' & Hl' & ?).
      apply (Hr3 q k' Hl'); [congruence|lia].
    + destruct (HA q j Hq) as (raw & k' & Hb). pose proof (HAne q j raw k' Hq Hb) as Hne.
      destruct Hb as (H1 & H2 & H3 & H4 & H5 & H6 & H7). apply (Hr3 raw k' H1 Hne). lia.
Qed.

Lemma kheap_free_aligned_law s L A p n :
  kheap_ok s L A -> A !! p = Some n ->
  exists s', kfree_aligned p s = Ok (tt, s') /\ kheap_ok s' L (delete p A) /\
    forall a, owned L (delete p A) a -> hword_at s' a = hword_at s a.
Proof.
  intros [Ht (bl & Hinv & HL & HA)] Hp. destruct (HA p n Hp) as (raw & k & Hl & Hpa & H1 & H2 & H3 & Hback & Hnone).
  destruct (kfree_aligned_contract s bl p raw k Hinv Hl) as (s' & bl' & E & [Hr1 Hr2 Hr3 Hr4]); [lia|lia|done|].
  assert (HAne : forall q j raw' k', q <> p -> backs s bl L q j raw' k' -> raw' <> raw).
  { intros q j raw' k' Hne (_ & Hqa & _) ->. congruence. }
  assert (HLne : forall q j, L !! q = Some j -> q <> raw) by (intros q j Hq ->; congruence).
  exists s'. split; [done|]. split.
  - split; [intros e; apply (tables_ready_mono (hvm s)); [by apply vm_mono_same|done]|]. exists bl'. split; [done|]. split.
    + intros q j Hq. destruct (HL q j Hq) as (? & k' & Hl' & ?). split; [done|]. exists k'. split; [apply Hr2; eauto|done].
    + intros q j. rewrite lookup_delete. case_decide as Hd; [done|]. intros Hq.
      destruct (HA q j Hq) as (raw' & k' & Hb). exists raw', k'. pose proof (HAne q j raw' k' ltac:(congruence) Hb) as Hne.
      destruct Hb as (G1 & G2 & G3 & G4 & G5 & G6 & G7). split_and!; auto.
      * apply Hr2. done.
      * rewrite (Hr3 raw' k' G1 Hne) by lia. done.
  - intros a (q & j & [Hq|Hq] & Ha1 & Ha2).
    + destruct (HL q j Hq) as (? & k' & Hl' & ?). apply (Hr3 q k' Hl'); [eauto|lia].
    + rewrite lookup_delete in Hq. case_decide as Hd; [done|]. destruct (HA q j Hq) as (raw' & k' & Hb).
      pose proof (HAne q j raw' k' ltac:(congruence) Hb) as Hne.
      destruct Hb as (G1 & G2 & G3 & G4 & G5 & G6 & G7). apply (Hr3 raw' k' G1 Hne). lia.
Qed.

Lemma kheap_store_law s L A a x :
  kheap_ok s L A -> owned L A a -> 0 <= x < 2 ^ 32 ->
  exists s', PUT a x s = Ok (tt, s') /\ kheap_ok s' L A /\
    forall b, owned L A b -> hword_at s' b = if decide (b = a) then x else hword_at s b.
Proof.
  intros [Ht (bl & Hinv & HL & HA)] Ho Hx.
  destruct (owned_live s L A bl Hinv HL HA a Ho) as (q & k & Hl & H1 & H2 & Hback).
  destruct (payload_write s bl q k a x Hinv Hl H1 H2 Hx) as (s' & E & Hinv' & Hsame & Hw).
  assert (Hin : forall r j b, live bl r j -> r <= b < r + j -> hword_at s' b = upd (hword_at s) a x b).
  { intros r j b Hr Hb. apply Hw. apply (live_in_heap s bl r j b); [apply Hinv|done|done]. }
  exists s'. split; [done|]. split.
  - split; [intros e; apply (tables_ready_mono (hvm s)); [by apply vm_mono_same|done]|]. exists bl. split; [done|]. split; [done|].
    intros p n Hp. destruct (HA p n Hp) as (raw & k' & Hb). exists raw, k'. pose proof (Hback p n raw k' Hp Hb) as Hne.
    destruct Hb as (G1 & G2 & G3 & G4 & G5 & G6 & G7). split_and!; auto.
    rewrite (Hin raw k' (p - 4) G1) by lia. rewrite upd_ne by lia. done.
  - intros b Hb. destruct (owned_live s L A bl Hinv HL HA b Hb) as (r & j & Hr & Hb1 & Hb2 & _).
    apply (Hin r j b Hr). lia.
Qed.

Lemma kheap_load_law s L A a :
  kheap_ok s L A -> owned L A a -> GET a s = Ok (hword_at s a, s).
Proof.
  intros [Ht (bl & Hinv & HL & HA)] Ho. destruct (owned_live s L A bl Hinv HL HA a Ho) as (q & k & Hl & H1 & H2 & _).
  apply (payload_read s bl q k a (hi_rep _ _ Hinv) Hl H1 H2).
Qed.

#[export] Instance kheap_HeapLaws : HeapLaws kheap_state := {
  heap_ok := kheap_ok;
  heap_word := hword_at;
  heap_malloc_law := kheap_malloc_law;
  heap_malloc_aligned_law := kheap_malloc_aligned_law;
  heap_free_law := kheap_free_law;
  heap_free_aligned_law := kheap_free_aligned_law;
  heap_load_law := kheap_load_law;
  heap_store_law := kheap_store_law
}.

(** The heap of the demonstration machine, with no live block. *)
Lemma demo_heap_ok : kheap_ok demo_heap ∅ ∅.
Proof.
  destruct demo_heap_spec as [Hinv Ht]. split; [exact Ht|]. exists [(HEAP_INITIAL, false)].
  split; [exact Hinv|]. split; intros p n Hp; rewrite lookup_empty in Hp; discriminate Hp.
Qed.
