(* ===== verification/Kstate.v ===== *)
(** * The kernel's shared state (include/proc.h, statics of proc.c, sched.c,
      timer.c and tss.c) and the part of the process manager that other
      components call

    [kstate] is the state the process manager, the scheduler and the file
    layer work on: the heap [k_heap], the file layer's objects [k_files] and
    the static variables. A pointer to a process control block is its index in
    [proc_table] ([None] is the null pointer). [sched_add], [sched_remove],
    [proc_get] and [proc_wake] are here because pipes and the keyboard call
    them. *)

From Stdlib Require Import ZArith Lia.
From S2P Require Import Prelude.

Definition FD_MAX : nat := 16.

Definition MAX_PROCS : Z := 256.
Definition KSTACK_SIZE : Z := 4096.
Definition PROC_NAME_LEN : nat := 32.

Inductive proc_state_t : Type :=
| PROC_UNUSED
| PROC_EMBRYO
| PROC_READY
| PROC_RUNNING
| PROC_BLOCKED
| PROC_ZOMBIE.

#[export] Instance proc_state_eq_dec : EqDecision proc_state_t.
Proof. solve_decision. Defined.

Definition PROC_PRIO_REALTIME : Z := 0.
Definition PROC_PRIO_NORMAL : Z := 16.
Definition PROC_PRIO_IDLE : Z := 31.
Definition PROC_TIMESLICE_DEFAULT : Z := 10.
Definition PID_KERNEL : Z := 0.
Definition PID_INIT : Z := 1.
Definition PID_INVALID : Z := 0xFFFF.

(** The interrupt stack frame, lowest address first. *)
Record regs_t := Regs {
  r_gs : Z; r_fs : Z; r_es : Z; r_ds : Z;
  r_edi : Z; r_esi : Z; r_ebp : Z; r_esp_saved : Z; r_ebx : Z; r_edx : Z; r_ecx : Z; r_eax : Z;
  r_int_no : Z; r_err_code : Z;
  r_eip : Z; r_cs : Z; r_eflags : Z;
  r_useresp : Z; r_ss : Z
}.

Record pcb := PCB {
  p_pid : Z;
  p_ppid : Z;
  p_name : list Z;
  p_state : proc_state_t;
  p_exit_code : Z;
  p_context : regs_t;
  p_esp_kernel : Z;
  p_esp0 : Z;
  p_kstack_base : Z;
  p_kstack_top : Z;
  p_page_directory : Z;
  p_priority : Z;
  p_base_priority : Z;
  p_timeslice_len : Z;
  p_timeslice : Z;
  p_ticks_total : Z;
  p_ticks_scheduled : Z;
  p_tick_last_run : Z;
  p_tick_created : Z;
  p_wakeup_tick : Z;
  p_wait_for_pid : Z;
  p_waiting : bool;
  p_fd_table : list Z
}.

Definition set_p_ppid (v : Z) (p : pcb) : pcb :=
  PCB (p_pid p) v (p_name p) (p_state p) (p_exit_code p) (p_context p) (p_esp_kernel p) (p_esp0 p) (p_kstack_base p) (p_kstack_top p) (p_page_directory p) (p_priority p) (p_base_priority p) (p_timeslice_len p) (p_timeslice p) (p_ticks_total p) (p_ticks_scheduled p) (p_tick_last_run p) (p_tick_created p) (p_wakeup_tick p) (p_wait_for_pid p) (p_waiting p) (p_fd_table p).
Definition set_p_state (v : proc_state_t) (p : pcb) : pcb :=
  PCB (p_pid p) (p_ppid p) (p_name p) v (p_exit_code p) (p_context p) (p_esp_kernel p) (p_esp0 p) (p_kstack_base p) (p_kstack_top p) (p_page_directory p) (p_priority p) (p_base_priority p) (p_timeslice_len p) (p_timeslice p) (p_ticks_total p) (p_ticks_scheduled p) (p_tick_last_run p) (p_tick_created p) (p_wakeup_tick p) (p_wait_for_pid p) (p_waiting p) (p_fd_table p).
Definition set_p_exit_code (v : Z) (p : pcb) : pcb :=
  PCB (p_pid p) (p_ppid p) (p_name p) (p_state p) v (p_context p) (p_esp_kernel p) (p_esp0 p) (p_kstack_base p) (p_kstack_top p) (p_page_directory p) (p_priority p) (p_base_priority p) (p_timeslice_len p) (p_timeslice p) (p_ticks_total p) (p_ticks_scheduled p) (p_tick_last_run p) (p_tick_created p) (p_wakeup_tick p) (p_wait_for_pid p) (p_waiting p) (p_fd_table p).
Definition set_p_esp_kernel (v : Z) (p : pcb) : pcb :=
  PCB (p_pid p) (p_ppid p) (p_name p) (p_state p) (p_exit_code p) (p_context p) v (p_esp0 p) (p_kstack_base p) (p_kstack_top p) (p_page_directory p) (p_priority p) (p_base_priority p) (p_timeslice_len p) (p_timeslice p) (p_ticks_total p) (p_ticks_scheduled p) (p_tick_last_run p) (p_tick_created p) (p_wakeup_tick p) (p_wait_for_pid p) (p_waiting p) (p_fd_table p).
Definition set_p_priority (v : Z) (p : pcb) : pcb :=
  PCB (p_pid p) (p_ppid p) (p_name p) (p_state p) (p_exit_code p) (p_context p) (p_esp_kernel p) (p_esp0 p) (p_kstack_base p) (p_kstack_top p) (p_page_directory p) v (p_base_priority p) (p_timeslice_len p) (p_timeslice p) (p_ticks_total p) (p_ticks_scheduled p) (p_tick_last_run p) (p_tick_created p) (p_wakeup_tick p) (p_wait_for_pid p) (p_waiting p) (p_fd_table p).
Definition set_p_base_priority (v : Z) (p : pcb) : pcb :=
  PCB (p_pid p) (p_ppid p) (p_name p) (p_state p) (p_exit_code p) (p_context p) (p_esp_kernel p) (p_esp0 p) (p_kstack_base p) (p_kstack_top p) (p_page_directory p) (p_priority p) v (p_timeslice_len p) (p_timeslice p) (p_ticks_total p) (p_ticks_scheduled p) (p_tick_last_run p) (p_tick_created p) (p_wakeup_tick p) (p_wait_for_pid p) (p_waiting p) (p_fd_table p).
Definition set_p_timeslice_len (v : Z) (p : pcb) : pcb :=
  PCB (p_pid p) (p_ppid p) (p_name p) (p_state p) (p_exit_code p) (p_context p) (p_esp_kernel p) (p_esp0 p) (p_kstack_base p) (p_kstack_top p) (p_page_directory p) (p_priority p) (p_base_priority p) v (p_timeslice p) (p_ticks_total p) (p_ticks_scheduled p) (p_tick_last_run p) (p_tick_created p) (p_wakeup_tick p) (p_wait_for_pid p) (p_waiting p) (p_fd_table p).
Definition set_p_timeslice (v : Z) (p : pcb) : pcb :=
  PCB (p_pid p) (p_ppid p) (p_name p) (p_state p) (p_exit_code p) (p_context p) (p_esp_kernel p) (p_esp0 p) (p_kstack_base p) (p_kstack_top p) (p_page_directory p) (p_priority p) (p_base_priority p) (p_timeslice_len p) v (p_ticks_total p) (p_ticks_scheduled p) (p_tick_last_run p) (p_tick_created p) (p_wakeup_tick p) (p_wait_for_pid p) (p_waiting p) (p_fd_table p).
Definition set_p_ticks_total (v : Z) (p : pcb) : pcb :=
  PCB (p_pid p) (p_ppid p) (p_name p) (p_state p) (p_exit_code p) (p_context p) (p_esp_kernel p) (p_esp0 p) (p_kstack_base p) (p_kstack_top p) (p_page_directory p) (p_priority p) (p_base_priority p) (p_timeslice_len p) (p_timeslice p) v (p_ticks_scheduled p) (p_tick_last_run p) (p_tick_created p) (p_wakeup_tick p) (p_wait_for_pid p) (p_waiting p) (p_fd_table p).
Definition set_p_ticks_scheduled (v : Z) (p : pcb) : pcb :=
  PCB (p_pid p) (p_ppid p) (p_name p) (p_state p) (p_exit_code p) (p_context p) (p_esp_kernel p) (p_esp0 p) (p_kstack_base p) (p_kstack_top p) (p_page_directory p) (p_priority p) (p_base_priority p) (p_timeslice_len p) (p_timeslice p) (p_ticks_total p) v (p_tick_last_run p) (p_tick_created p) (p_wakeup_tick p) (p_wait_for_pid p) (p_waiting p) (p_fd_table p).
Definition set_p_tick_last_run (v : Z) (p : pcb) : pcb :=
  PCB (p_pid p) (p_ppid p) (p_name p) (p_state p) (p_exit_code p) (p_context p) (p_esp_kernel p) (p_esp0 p) (p_kstack_base p) (p_kstack_top p) (p_page_directory p) (p_priority p) (p_base_priority p) (p_timeslice_len p) (p_timeslice p) (p_ticks_total p) (p_ticks_scheduled p) v (p_tick_created p) (p_wakeup_tick p) (p_wait_for_pid p) (p_waiting p) (p_fd_table p).
Definition set_p_wakeup_tick (v : Z) (p : pcb) : pcb :=
  PCB (p_pid p) (p_ppid p) (p_name p) (p_state p) (p_exit_code p) (p_context p) (p_esp_kernel p) (p_esp0 p) (p_kstack_base p) (p_kstack_top p) (p_page_directory p) (p_priority p) (p_base_priority p) (p_timeslice_len p) (p_timeslice p) (p_ticks_total p) (p_ticks_scheduled p) (p_tick_last_run p) (p_tick_created p) v (p_wait_for_pid p) (p_waiting p) (p_fd_table p).
Definition set_p_wait_for_pid (v : Z) (p : pcb) : pcb :=
  PCB (p_pid p) (p_ppid p) (p_name p) (p_state p) (p_exit_code p) (p_context p) (p_esp_kernel p) (p_esp0 p) (p_kstack_base p) (p_kstack_top p) (p_page_directory p) (p_priority p) (p_base_priority p) (p_timeslice_len p) (p_timeslice p) (p_ticks_total p) (p_ticks_scheduled p) (p_tick_last_run p) (p_tick_created p) (p_wakeup_tick p) v (p_waiting p) (p_fd_table p).
Definition set_p_waiting (v : bool) (p : pcb) : pcb :=
  PCB (p_pid p) (p_ppid p) (p_name p) (p_state p) (p_exit_code p) (p_context p) (p_esp_kernel p) (p_esp0 p) (p_kstack_base p) (p_kstack_top p) (p_page_directory p) (p_priority p) (p_base_priority p) (p_timeslice_len p) (p_timeslice p) (p_ticks_total p) (p_ticks_scheduled p) (p_tick_last_run p) (p_tick_created p) (p_wakeup_tick p) (p_wait_for_pid p) v (p_fd_table p).
Definition set_p_fd_table (v : list Z) (p : pcb) : pcb :=
  PCB (p_pid p) (p_ppid p) (p_name p) (p_state p) (p_exit_code p) (p_context p) (p_esp_kernel p) (p_esp0 p) (p_kstack_base p) (p_kstack_top p) (p_page_directory p) (p_priority p) (p_base_priority p) (p_timeslice_len p) (p_timeslice p) (p_ticks_total p) (p_ticks_scheduled p) (p_tick_last_run p) (p_tick_created p) (p_wakeup_tick p) (p_wait_for_pid p) (p_waiting p) v.

Definition zero_regs : regs_t := Regs 0 0 0 0 0 0 0 0 0 0 0 0 0 0 0 0 0 0 0.
Definition zero_pcb : pcb :=
  PCB 0 0 (repeat 0 PROC_NAME_LEN) PROC_UNUSED 0 zero_regs 0 0 0 0 0 0 0 0 0 0 0 0 0 0 0 false (repeat 0 FD_MAX).

Section kernel.
Context {H F : Type}.

(** The static variables of proc.c, sched.c, timer.c and tss.c, over the heap
    and the file layer. In [ready_queue] an absent index is a null entry. *)
Record kstate := KState {
  k_heap : H;
  k_files : F;
  proc_table : gmap Z pcb;
  pid_bitmap : gmap Z Z;
  pid_search_hint : Z;
  ready_queue : gmap Z Z;
  queue_size : Z;
  current_idx : Z;
  current_proc : option Z;
  sched_enabled : bool;
  tick_flag : bool;
  tick_count : Z;
  tss_esp0 : Z
}.

Definition set_k_heap (v : H) (s : kstate) : kstate :=
  KState v (k_files s) (proc_table s) (pid_bitmap s) (pid_search_hint s) (ready_queue s) (queue_size s) (current_idx s) (current_proc s) (sched_enabled s) (tick_flag s) (tick_count s) (tss_esp0 s).
Definition set_k_files (v : F) (s : kstate) : kstate :=
  KState (k_heap s) v (proc_table s) (pid_bitmap s) (pid_search_hint s) (ready_queue s) (queue_size s) (current_idx s) (current_proc s) (sched_enabled s) (tick_flag s) (tick_count s) (tss_esp0 s).
Definition set_proc_table (v : gmap Z pcb) (s : kstate) : kstate :=
  KState (k_heap s) (k_files s) v (pid_bitmap s) (pid_search_hint s) (ready_queue s) (queue_size s) (current_idx s) (current_proc s) (sched_enabled s) (tick_flag s) (tick_count s) (tss_esp0 s).
Definition set_pid_bitmap (v : gmap Z Z) (s : kstate) : kstate :=
  KState (k_heap s) (k_files s) (proc_table s) v (pid_search_hint s) (ready_queue s) (queue_size s) (current_idx s) (current_proc s) (sched_enabled s) (tick_flag s) (tick_count s) (tss_esp0 s).
Definition set_pid_search_hint (v : Z) (s : kstate) : kstate :=
  KState (k_heap s) (k_files s) (proc_table s) (pid_bitmap s) v (ready_queue s) (queue_size s) (current_idx s) (current_proc s) (sched_enabled s) (tick_flag s) (tick_count s) (tss_esp0 s).
Definition set_ready_queue (v : gmap Z Z) (s : kstate) : kstate :=
  KState (k_heap s) (k_files s) (proc_table s) (pid_bitmap s) (pid_search_hint s) v (queue_size s) (current_idx s) (current_proc s) (sched_enabled s) (tick_flag s) (tick_count s) (tss_esp0 s).
Definition set_queue_size (v : Z) (s : kstate) : kstate :=
  KState (k_heap s) (k_files s) (proc_table s) (pid_bitmap s) (pid_search_hint s) (ready_queue s) v (current_idx s) (current_proc s) (sched_enabled s) (tick_flag s) (tick_count s) (tss_esp0 s).
Definition set_current_idx (v : Z) (s : kstate) : kstate :=
  KState (k_heap s) (k_files s) (proc_table s) (pid_bitmap s) (pid_search_hint s) (ready_queue s) (queue_size s) v (current_proc s) (sched_enabled s) (tick_flag s) (tick_count s) (tss_esp0 s).
Definition set_current_proc (v : option Z) (s : kstate) : kstate :=
  KState (k_heap s) (k_files s) (proc_table s) (pid_bitmap s) (pid_search_hint s) (ready_queue s) (queue_size s) (current_idx s) v (sched_enabled s) (tick_flag s) (tick_count s) (tss_esp0 s).
Definition set_sched_enabled (v : bool) (s : kstate) : kstate :=
  KState (k_heap s) (k_files s) (proc_table s) (pid_bitmap s) (pid_search_hint s) (ready_queue s) (queue_size s) (current_idx s) (current_proc s) v (tick_flag s) (tick_count s) (tss_esp0 s).
Definition set_tick_flag (v : bool) (s : kstate) : kstate :=
  KState (k_heap s) (k_files s) (proc_table s) (pid_bitmap s) (pid_search_hint s) (ready_queue s) (queue_size s) (current_idx s) (current_proc s) (sched_enabled s) v (tick_count s) (tss_esp0 s).
Definition set_tick_count (v : Z) (s : kstate) : kstate :=
  KState (k_heap s) (k_files s) (proc_table s) (pid_bitmap s) (pid_search_hint s) (ready_queue s) (queue_size s) (current_idx s) (current_proc s) (sched_enabled s) (tick_flag s) v (tss_esp0 s).
Definition set_tss_esp0 (v : Z) (s : kstate) : kstate :=
  KState (k_heap s) (k_files s) (proc_table s) (pid_bitmap s) (pid_search_hint s) (ready_queue s) (queue_size s) (current_idx s) (current_proc s) (sched_enabled s) (tick_flag s) (tick_count s) v.

Definition pcb_at (s : kstate) (i : Z) : pcb := default zero_pcb (proc_table s !! i).
Definition state_of (s : kstate) (i : Z) : proc_state_t := p_state (pcb_at s i).

Definition upd_pcb (i : Z) (f : pcb -> pcb) (s : kstate) : kstate :=
  set_proc_table (<[i := f (pcb_at s i)]> (proc_table s)) s.
Definition on_heap {A : Type} (c : M H A) : M kstate A := zoom k_heap set_k_heap c.
Definition on_files {A : Type} (c : M F A) : M kstate A := zoom k_files set_k_files c.

Definition proc_get (s : kstate) (pid : Z) : option Z :=
  if MAX_PROCS <=? pid then None else
  if bool_decide (state_of s pid = PROC_UNUSED) then None else Some pid.

(** ** The ready queue *)

Definition sched_init : M kstate unit := modify (fun s =>
  set_tick_flag false (set_sched_enabled false (set_current_proc None (set_current_idx 0 (set_queue_size 0 s))))).

Definition sched_add (p : option Z) : M kstate unit := fun s =>
  match p with
  | None => Ok (tt, s)
  | Some i =>
      if negb (bool_decide (state_of s i = PROC_READY)) then Ok (tt, s) else
      if MAX_PROCS <=? queue_size s then Ok (tt, s) else
      Ok (tt, set_queue_size (queue_size s + 1) (set_ready_queue (<[queue_size s := i]> (ready_queue s)) s))
  end.

(** [ready_queue[i] = ready_queue[--queue_size]; ready_queue[queue_size] = 0;] *)
Definition queue_drop (i : Z) (s : kstate) : kstate :=
  let n := queue_size s - 1 in
  let q := match ready_queue s !! n with
           | Some x => <[i := x]> (ready_queue s)
           | None => delete i (ready_queue s)
           end in
  set_queue_size n (set_ready_queue (delete n q) s).

Definition sched_remove (p : Z) : M kstate unit := modify (fun s =>
  match find_up (Z.to_nat (queue_size s)) 0 (fun i => bool_decide (ready_queue s !! i = Some p)) with
  | Some i => queue_drop i s
  | None => s
  end).

Definition proc_wake (p : option Z) : M kstate unit :=
  match p with
  | None => mret tt
  | Some i =>
      st ← gets (fun s => state_of s i);
      if negb (bool_decide (st = PROC_BLOCKED)) then mret tt else
      modify (upd_pcb i (fun p => set_p_state PROC_READY (set_p_wakeup_tick 0 p))) ;;
      sched_add (Some i)
  end.

End kernel.
Arguments kstate : clear implicits.

(** Static storage before anything runs. *)
Definition zeroed {H F : Type} (h : H) (fs : F) : kstate H F := KState h fs ∅ ∅ 0 ∅ 0 0 None false false 0 0.
