(* ===== verification/Fd.v ===== *)
(** * File descriptor tables (kernel/proc/fd.c, include/fd.h)

    A descriptor table is the array of [FD_MAX] pointers to open files kept in
    a process control block; 0 is the null pointer. The layer below (vfs.c and
    devfs.c) is the interface [Vfs]: the operations fd.c calls, which may
    allocate and free heap blocks and wake processes, and [file_ref] for the
    increment of a file's reference count in [fd_table_clone]. [fd_read] and
    [fd_write] are with the file operations they call, in Io.v. *)

From Stdlib Require Import ZArith Lia.
From S2P Require Import Prelude HeapSpec Kstate.

Definition O_RDONLY : Z := 0x00.
Definition O_WRONLY : Z := 0x01.

Class Vfs (H F : Type) := {
  vfs_open_vnode : Z -> Z -> M (kstate H F) Z;
  vfs_close : Z -> M (kstate H F) unit;
  devfs_stdin_vnode : M (kstate H F) Z;
  devfs_stdout_vnode : M (kstate H F) Z;
  devfs_stderr_vnode : M (kstate H F) Z;
  file_ref : Z -> M (kstate H F) unit
}.

Section fd.
Context {H F : Type} `{!Vfs H F}.
Local Abbreviation M A := (M (kstate H F) A).

Definition fd_table_init : M (list Z) :=
  let table := repeat 0 FD_MAX in
  v0 ← devfs_stdin_vnode; f0 ← vfs_open_vnode v0 O_RDONLY;
  let table := <[0%nat := f0]> table in
  v1 ← devfs_stdout_vnode; f1 ← vfs_open_vnode v1 O_WRONLY;
  let table := <[1%nat := f1]> table in
  v2 ← devfs_stderr_vnode; f2 ← vfs_open_vnode v2 O_WRONLY;
  mret (<[2%nat := f2]> table).

(** [!table[fd]], with the range check that precedes it. *)
Definition fd_entry (table : list Z) (fd : Z) : option Z :=
  if (fd <? 0) || (Z.of_nat FD_MAX <=? fd) then None else
  match table !! Z.to_nat fd with
  | Some f => if f =? 0 then None else Some f
  | None => None
  end.

Definition fd_close (table : list Z) (fd : Z) : M (list Z) :=
  match fd_entry table fd with
  | None => mret table
  | Some f => vfs_close f ;; mret (<[Z.to_nat fd := 0]> table)
  end.

Fixpoint fd_table_close_all (table : list Z) : M (list Z) :=
  match table with
  | [] => mret []
  | f :: rest =>
      (if f =? 0 then mret tt else vfs_close f) ;;
      rest ← fd_table_close_all rest;
      mret (0 :: rest)
  end.

(** The copy of [src], one more reference on each open file. *)
Fixpoint fd_table_clone (src : list Z) : M (list Z) :=
  match src with
  | [] => mret []
  | f :: rest =>
      (if f =? 0 then mret tt else file_ref f) ;;
      rest ← fd_table_clone rest;
      mret (f :: rest)
  end.

(** The lowest free slot. *)
Fixpoint free_slot (table : list Z) (i : Z) : option Z :=
  match table with
  | [] => None
  | f :: rest => if f =? 0 then Some i else free_slot rest (i + 1)
  end.

Definition fd_install (table : list Z) (f : Z) : Z * list Z :=
  match free_slot table 0 with
  | Some i => (i, <[Z.to_nat i := f]> table)
  | None => (-1, table)
  end.

End fd.

(** ** What the file layer promises to its callers *)

(** Waking a list of processes by PID, as a function on states. *)
Definition wake_one {H F : Type} (s : kstate H F) (pid : Z) : kstate H F :=
  match proc_wake (proc_get s pid) s with Ok (_, s') => s' | Stop _ => s end.
Definition wake_all {H F : Type} (ws : list Z) (s : kstate H F) : kstate H F := foldl wake_one s ws.

(** A file operation allocates and frees heap blocks of its own, changes file
    objects and wakes some processes; kernel stacks keep their contents.
    [files_ok fs L] says that the file objects live in the blocks [L]. *)
Definition file_effect {H F : Type} `{HeapLaws H} (files_ok : F -> gmap Z Z -> Prop)
    (ws : list Z) (A : gmap Z Z) (s s' : kstate H F) : Prop :=
  Forall (fun p => 0 <= p) ws /\ exists h fs L',
    s' = set_k_files fs (set_k_heap h (wake_all ws s)) /\ heap_ok h L' A /\ files_ok fs L' /\
    forall a, owned ∅ A a -> heap_word h a = heap_word (k_heap s) a.

Lemma wake_one_frame {H F} (s : kstate H F) h fs p :
  wake_one (set_k_files fs (set_k_heap h s)) p = set_k_files fs (set_k_heap h (wake_one s p)).
Proof.
  unfold wake_one. change (proc_get (set_k_files fs (set_k_heap h s)) p) with (proc_get s p).
  destruct (proc_get s p) as [i|]; [|done]. unfold proc_wake, mbind, M_bind, gets, modify.
  change (state_of (set_k_files fs (set_k_heap h s)) i) with (state_of s i). destruct (negb _); [done|].
  unfold sched_add. 
  lazymatch goal with |- context [upd_pcb i ?g (set_k_files fs (set_k_heap h s))] =>
    change (upd_pcb i g (set_k_files fs (set_k_heap h s))) with (set_k_files fs (set_k_heap h (upd_pcb i g s)));
    set (s1 := upd_pcb i g s) end.
  change (state_of (set_k_files fs (set_k_heap h s1)) i) with (state_of s1 i). destruct (negb _); [done|].
  change (queue_size (set_k_files fs (set_k_heap h s1))) with (queue_size s1). by destruct (MAX_PROCS <=? _).
Qed.

Lemma wake_all_frame {H F} ws : forall (s : kstate H F) h fs,
  wake_all ws (set_k_files fs (set_k_heap h s)) = set_k_files fs (set_k_heap h (wake_all ws s)).
Proof. induction ws as [|p ws IH]; intros s h fs; simpl; [done|]. rewrite wake_one_frame. apply IH. Qed.

Lemma wake_all_heap {H F} ws (s : kstate H F) : k_heap (wake_all ws s) = k_heap s /\ k_files (wake_all ws s) = k_files s.
Proof.
  pose proof (wake_all_frame ws s (k_heap s) (k_files s)) as E.
  replace (set_k_files (k_files s) (set_k_heap (k_heap s) s)) with s in E by by destruct s. by rewrite E.
Qed.

Section effect.
Context {H : Type} `{!Heap H} `{!HeapLaws H} {F : Type} (ok : F -> gmap Z Z -> Prop).
Implicit Types (s : kstate H F).

Lemma effect_refl s L A : heap_ok (k_heap s) L A -> ok (k_files s) L -> file_effect ok [] A s s.
Proof.
  intros Hh Hf. split; [constructor|]. exists (k_heap s), (k_files s), L. split; [by destruct s|done].
Qed.

Lemma effect_ok ws A s s' : file_effect ok ws A s s' -> exists L', heap_ok (k_heap s') L' A /\ ok (k_files s') L'.
Proof. intros (_ & h & fs & L' & -> & Hh & Hf & _). exists L'. done. Qed.

Lemma effect_trans ws1 ws2 A s1 s2 s3 : file_effect ok ws1 A s1 s2 -> file_effect ok ws2 A s2 s3 -> file_effect ok (ws1 ++ ws2) A s1 s3.
Proof.
  intros (P1 & h1 & fs1 & L1 & -> & _ & _ & W1) (P2 & h2 & fs2 & L2 & -> & Hh & Hf & W2).
  split; [by apply Forall_app|]. exists h2, fs2, L2. split; [|split; [done|split; [done|]]].
  - rewrite wake_all_frame. unfold wake_all. by rewrite foldl_app.
  - intros a Ha. rewrite W2 by done. simpl. apply W1. done.
Qed.

(** A change of the file state alone. *)
Lemma effect_files s L A fs : heap_ok (k_heap s) L A -> ok fs L -> file_effect ok [] A s (set_k_files fs s).
Proof. intros Hh Hf. split; [constructor|]. exists (k_heap s), fs, L. split; [by destruct s|done]. Qed.
End effect.

Class VfsLaws (H F : Type) `{HeapLaws H} `{!Vfs H F} := {
  files_ok : F -> gmap Z Z -> Prop;
  vfs_open_law s L A v flags r s' :
    heap_ok (k_heap s) L A -> files_ok (k_files s) L ->
    vfs_open_vnode v flags s = Ok (r, s') -> file_effect files_ok [] A s s';
  vfs_close_law s L A f s' :
    heap_ok (k_heap s) L A -> files_ok (k_files s) L ->
    vfs_close f s = Ok (tt, s') -> exists ws, file_effect files_ok ws A s s';
  file_ref_law s L A f s' :
    heap_ok (k_heap s) L A -> files_ok (k_files s) L ->
    file_ref f s = Ok (tt, s') -> file_effect files_ok [] A s s';
  std_vnode_law (s : kstate H F) : exists v0 v1 v2,
    devfs_stdin_vnode s = Ok (v0, s) /\ devfs_stdout_vnode s = Ok (v1, s) /\ devfs_stderr_vnode s = Ok (v2, s)
}.

Section effects.
Context {H : Type} `{!Heap H} `{!HeapLaws H} {F : Type} `{!Vfs H F} `{!VfsLaws H F}.
Implicit Types (s : kstate H F).
Local Abbreviation effect := (file_effect files_ok).

Lemma fd_table_init_effect s L A tb s' :
  heap_ok (k_heap s) L A -> files_ok (k_files s) L -> fd_table_init s = Ok (tb, s') -> effect [] A s s'.
Proof.
  intros Hh Hf E. unfold fd_table_init in E.
  assert (Hstd : forall s : kstate H F, exists v0 v1 v2,
    devfs_stdin_vnode s = Ok (v0, s) /\ devfs_stdout_vnode s = Ok (v1, s) /\ devfs_stderr_vnode s = Ok (v2, s)) by apply std_vnode_law.
  destruct (Hstd s) as (v0 & _ & _ & E0 & _). rewrite (bind_ok _ _ _ _ _ E0) in E.
  apply bind_inv in E as (f0 & s1 & F0 & E). pose proof (vfs_open_law _ _ _ _ _ _ _ Hh Hf F0) as G0.
  destruct (effect_ok _ _ _ _ _ G0) as (L1 & Hh1 & Hf1).
  destruct (Hstd s1) as (_ & v1 & _ & _ & E1 & _). rewrite (bind_ok _ _ _ _ _ E1) in E.
  apply bind_inv in E as (f1 & s2 & F1 & E). pose proof (vfs_open_law _ _ _ _ _ _ _ Hh1 Hf1 F1) as G1.
  destruct (effect_ok _ _ _ _ _ G1) as (L2 & Hh2 & Hf2).
  destruct (Hstd s2) as (_ & _ & v2 & _ & _ & E2). rewrite (bind_ok _ _ _ _ _ E2) in E.
  apply bind_inv in E as (f2 & s3 & F2 & E). pose proof (vfs_open_law _ _ _ _ _ _ _ Hh2 Hf2 F2) as G2.
  injection E as _ <-. exact (effect_trans _ [] [] A s s1 s3 G0 (effect_trans _ [] [] A s1 s2 s3 G1 G2)).
Qed.

Lemma fd_table_close_all_effect tb : forall s L A tb' s',
  heap_ok (k_heap s) L A -> files_ok (k_files s) L -> fd_table_close_all tb s = Ok (tb', s') ->
  exists ws, effect ws A s s'.
Proof.
  induction tb as [|f tb IH]; intros s L A tb' s' Hh Hf E; simpl in E.
  - injection E as _ <-. exists []. by apply (effect_refl _ s L).
  - apply bind_inv in E as ([] & s1 & E1 & E). apply bind_inv in E as (t2 & s2 & E2 & E). injection E as _ <-.
    assert (H1 : exists ws, effect ws A s s1).
    { destruct (f =? 0); [injection E1 as <-; exists []; by apply (effect_refl _ s L)|]. by apply (vfs_close_law s L A f). }
    destruct H1 as (w1 & G1). destruct (effect_ok _ _ _ _ _ G1) as (L1 & Hh1 & Hf1).
    destruct (IH s1 L1 A t2 s2 Hh1 Hf1 E2) as (w2 & G2). exists (w1 ++ w2). by apply (effect_trans _ w1 w2 A s s1 s2).
Qed.

Lemma fd_table_clone_effect tb : forall s L A tb' s',
  heap_ok (k_heap s) L A -> files_ok (k_files s) L -> fd_table_clone tb s = Ok (tb', s') -> effect [] A s s'.
Proof.
  induction tb as [|f tb IH]; intros s L A tb' s' Hh Hf E; simpl in E.
  - injection E as _ <-. by apply (effect_refl _ s L).
  - apply bind_inv in E as ([] & s1 & E1 & E). apply bind_inv in E as (t2 & s2 & E2 & E). injection E as _ <-.
    assert (G1 : effect [] A s s1).
    { destruct (f =? 0); [injection E1 as <-; by apply (effect_refl _ s L)|]. by apply (file_ref_law s L A f). }
    destruct (effect_ok _ _ _ _ _ G1) as (L1 & Hh1 & Hf1). exact (effect_trans _ [] [] A s s1 s2 G1 (IH s1 L1 A t2 s2 Hh1 Hf1 E2)).
Qed.
End effects.

Lemma free_slot_spec table : forall i,
  match free_slot table i with
  | Some j => i <= j < i + Z.of_nat (length table) /\ table !! Z.to_nat (j - i) = Some 0 /\
      (forall k, i <= k < j -> exists f, table !! Z.to_nat (k - i) = Some f /\ f <> 0)
  | None => Forall (fun f => f <> 0) table
  end.
Proof.
  induction table as [|f table IH]; intros i; simpl; [done|]. destruct (Z.eqb_spec f 0) as [->|Hne].
  - rewrite Z.sub_diag. split_and!; [lia|lia|done|lia].
  - specialize (IH (i + 1)). destruct (free_slot table (i + 1)) as [j|]; [|by constructor].
    destruct IH as (H1 & H2 & H3).
    assert (Hs : forall k, i < k -> (f :: table) !! Z.to_nat (k - i) = table !! Z.to_nat (k - (i + 1))).
    { intros k Hk. replace (Z.to_nat (k - i)) with (S (Z.to_nat (k - (i + 1)))) by lia. done. }
    split_and!; [lia|lia|by rewrite Hs by lia|]. intros k Hk. destruct (decide (k = i)) as [->|].
    + exists f. by rewrite Z.sub_diag.
    + rewrite Hs by lia. apply H3. lia.
Qed.

(** [fd_install] puts the file at the lowest free descriptor and changes no
    other entry, so that the descriptor then denotes the file; it returns -1
    and changes nothing exactly when every descriptor is in use. *)
Theorem fd_install_correct table f :
  length table = FD_MAX -> f <> 0 ->
  match fd_install table f with
  | (fd, table') =>
      (fd = -1 /\ table' = table /\ Forall (fun g => g <> 0) table) \/
      (0 <= fd < Z.of_nat FD_MAX /\ fd_entry table fd = None /\ fd_entry table' fd = Some f /\
       length table' = FD_MAX /\
       (forall k, k <> fd -> fd_entry table' k = fd_entry table k) /\
       (forall k, 0 <= k < fd -> fd_entry table k <> None))
  end.
Proof.
  intros Hlen Hf. unfold fd_install. pose proof (free_slot_spec table 0) as Hs.
  destruct (free_slot table 0) as [i|]; [|by left]. right. rewrite Z.add_0_l in Hs.
  destruct Hs as (Hi & Hz & Hlow). rewrite Hlen in Hi. rewrite Z.sub_0_r in Hz.
  assert (Hin : (i <? 0) || (Z.of_nat FD_MAX <=? i) = false).
  { destruct (Z.ltb_spec i 0), (Z.leb_spec (Z.of_nat FD_MAX) i); done || lia. }
  unfold fd_entry. split_and!; [lia|lia|..].
  - by rewrite Hin, Hz.
  - rewrite Hin, list_lookup_insert_eq by lia. by rewrite (proj2 (Z.eqb_neq f 0)).
  - by rewrite length_insert.
  - intros k Hk. destruct (Z.ltb_spec k 0); [done|]. destruct (Z.leb_spec (Z.of_nat FD_MAX) k); [done|]. simpl.
    rewrite list_lookup_insert_ne by lia. done.
  - intros k Hk. destruct (Hlow k Hk) as (g & Hg & Hgz). rewrite Z.sub_0_r in Hg.
    destruct (Z.ltb_spec k 0), (Z.leb_spec (Z.of_nat FD_MAX) k); try lia. simpl.
    rewrite Hg. by rewrite (proj2 (Z.eqb_neq g 0)).
Qed.

Lemma fd_install_correct_witness :
  fd_install [5; 0; 7; 0; 0; 0; 0; 0; 0; 0; 0; 0; 0; 0; 0; 0] 9 =
    (1, [5; 9; 7; 0; 0; 0; 0; 0; 0; 0; 0; 0; 0; 0; 0; 0]) /\
  fd_entry [5; 9; 7; 0; 0; 0; 0; 0; 0; 0; 0; 0; 0; 0; 0; 0] 1 = Some 9.
Proof.
  split; [reflexivity|].
  destruct (fd_install_correct [5; 0; 7; 0; 0; 0; 0; 0; 0; 0; 0; 0; 0; 0; 0; 0] 9 eq_refl ltac:(lia))
    as [(H & _)|(_ & _ & H & _)]; [discriminate H|exact H].
Defined.
