(* ===== verification/Fs.v ===== *)
(** * File objects, the virtual file system and the RAM file system
      (include/vfs.h, kernel/fs/vfs.c, ramfs.c, devfs.c)

    The objects these files allocate with kmalloc (vnodes, open files, inodes,
    directory entries, data buffers, pipes and their ends) live in one store
    [objs] keyed by their address; the addresses come from the heap interface
    of HeapSpec.v and freeing an object returns its block. An access through a
    pointer to no such object (null, freed, or of another type) is undefined
    behaviour. An operations table is the constructor of [vops] that names it.

    A C string is the list of its characters without the terminator. A byte of
    a data buffer is [None] until it is written. The bytes that a read copies
    to the caller's buffer are part of its result. *)

From Stdlib Require Import ZArith Lia.
From S2P Require Import Prelude HeapSpec Kstate Fd.

Definition O_RDWR : Z := 0x02.
Definition O_CREAT : Z := 0x04.
Definition O_TRUNC : Z := 0x08.
Definition O_APPEND : Z := 0x10.
Definition VNODE_FILE : Z := 1.
Definition VNODE_DIR : Z := 2.
Definition VNODE_DEV : Z := 3.
Definition VNODE_PIPE : Z := 4.
Definition VFS_MOUNT_MAX : nat := 8.
Definition VFS_PATH_MAX : nat := 128.
Definition VFS_NAME_MAX : nat := 64.
Definition SLASH : Z := 47.

(** ** Objects *)

Inductive vops : Type :=
| ramfs_ops
| pipe_read_ops
| pipe_write_ops
| stdin_ops
| stdout_ops
| stderr_ops.

#[export] Instance vops_eq_dec : EqDecision vops.
Proof. solve_decision. Defined.

Record vnode := Vnode {
  v_type : Z;
  v_refcount : Z;
  v_size : Z;
  v_ops : vops;
  v_data : Z
}.

Record file := File {
  f_vnode : Z;
  f_offset : Z;
  f_flags : Z;
  f_refcount : Z
}.

Record ramfs_inode := Inode {
  i_buf : Z;
  i_capacity : Z;
  i_children : Z;
  i_child_count : Z
}.

Record ramfs_dirent := Dirent {
  d_name : list Z;
  d_vnode : Z;
  d_next : Z
}.

Record pipe := Pipe {
  pp_buf : gmap Z Z;
  pp_head : Z;
  pp_count : Z;
  pp_readers : Z;
  pp_writers : Z;
  pp_blocked_reader : Z;
  pp_blocked_writer : Z
}.

Record pipe_end := PipeEnd {
  e_pipe : Z;
  e_is_write : bool
}.

Definition byte : Type := option Z.

Inductive obj : Type :=
| OVnode (v : vnode)
| OFile (f : file)
| OInode (i : ramfs_inode)
| ODirent (d : ramfs_dirent)
| OBuf (data : list byte)
| OPipe (p : pipe)
| OEnd (e : pipe_end).

Definition as_vnode (o : obj) : option vnode := match o with OVnode v => Some v | _ => None end.
Definition as_file (o : obj) : option file := match o with OFile f => Some f | _ => None end.
Definition as_inode (o : obj) : option ramfs_inode := match o with OInode i => Some i | _ => None end.
Definition as_dirent (o : obj) : option ramfs_dirent := match o with ODirent d => Some d | _ => None end.
Definition as_buf (o : obj) : option (list byte) := match o with OBuf b => Some b | _ => None end.
Definition as_pipe (o : obj) : option pipe := match o with OPipe p => Some p | _ => None end.
Definition as_end (o : obj) : option pipe_end := match o with OEnd e => Some e | _ => None end.

(** sizeof on the 32-bit target *)
Definition SIZEOF_VNODE : Z := 20.
Definition SIZEOF_FILE : Z := 16.
Definition SIZEOF_INODE : Z := 16.
Definition SIZEOF_DIRENT : Z := 72.

Record mount_entry := MountEntry {
  m_path : list Z;
  m_root : Z;
  m_active : bool
}.

(** The objects and the static variables of vfs.c, ramfs.c and devfs.c. *)
Record fstate := FState {
  objs : gmap Z obj;
  mount_table : list mount_entry;
  mount_count : Z;
  ramfs_root : Z;
  g_stdin : Z;
  g_stdout : Z;
  g_stderr : Z
}.

Definition initial_fstate : fstate :=
  FState ∅ (repeat (MountEntry [] 0 false) VFS_MOUNT_MAX) 0 0 0 0 0.

Definition set_objs (v : gmap Z obj) (s : fstate) : fstate :=
  FState v (mount_table s) (mount_count s) (ramfs_root s) (g_stdin s) (g_stdout s) (g_stderr s).
Definition set_mounts (t : list mount_entry) (n : Z) (s : fstate) : fstate :=
  FState (objs s) t n (ramfs_root s) (g_stdin s) (g_stdout s) (g_stderr s).
Definition set_ramfs_root (v : Z) (s : fstate) : fstate :=
  FState (objs s) (mount_table s) (mount_count s) v (g_stdin s) (g_stdout s) (g_stderr s).
Definition set_devices (i o e : Z) (s : fstate) : fstate :=
  FState (objs s) (mount_table s) (mount_count s) (ramfs_root s) i o e.

Definition set_v_refcount (n : Z) (v : vnode) : vnode := Vnode (v_type v) n (v_size v) (v_ops v) (v_data v).
Definition set_v_size (n : Z) (v : vnode) : vnode := Vnode (v_type v) (v_refcount v) n (v_ops v) (v_data v).
Definition set_v_data (n : Z) (v : vnode) : vnode := Vnode (v_type v) (v_refcount v) (v_size v) (v_ops v) n.
Definition set_f_offset (n : Z) (f : file) : file := File (f_vnode f) n (f_flags f) (f_refcount f).
Definition set_f_refcount (n : Z) (f : file) : file := File (f_vnode f) (f_offset f) (f_flags f) n.
Definition set_i_data (buf capacity : Z) (i : ramfs_inode) : ramfs_inode :=
  Inode buf capacity (i_children i) (i_child_count i).
Definition set_i_children (d n : Z) (i : ramfs_inode) : ramfs_inode := Inode (i_buf i) (i_capacity i) d n.
Definition set_d_next (n : Z) (d : ramfs_dirent) : ramfs_dirent := Dirent (d_name d) (d_vnode d) n.

Section fs.
Context {H : Type} `{!Heap H}.
Local Abbreviation M A := (M (kstate H fstate) A).

(** ** The object store *)

Definition load {T : Type} (view : obj -> option T) (p : Z) : M T := fun s =>
  match objs (k_files s) !! p ≫= view with
  | Some x => Ok (x, s)
  | None => Stop (Undefined "dangling pointer")
  end.

Definition store (p : Z) (o : obj) : M unit := fun s =>
  match objs (k_files s) !! p with
  | Some _ => Ok (tt, set_k_files (set_objs (<[p := o]> (objs (k_files s))) (k_files s)) s)
  | None => Stop (Undefined "dangling pointer")
  end.

(** kmalloc of an object and its initialisation; 0 when memory is exhausted. *)
Definition new_obj (size : Z) (o : obj) : M Z :=
  p ← on_heap (heap_malloc size);
  if p =? 0 then mret 0 else
  modify (fun s => set_k_files (set_objs (<[p := o]> (objs (k_files s))) (k_files s)) s) ;;
  mret p.

Definition kfree_obj (p : Z) : M unit := fun s =>
  if p =? 0 then Ok (tt, s) else
  match objs (k_files s) !! p with
  | Some _ =>
      (on_heap (heap_free p) ;;
       modify (fun s => set_k_files (set_objs (delete p (objs (k_files s))) (k_files s)) s)) s
  | None => Stop (Undefined "kfree of a pointer that is not allocated")
  end.

(** ** Vnodes *)

Definition vnode_alloc (type : Z) (ops : vops) (data : Z) : M Z :=
  new_obj SIZEOF_VNODE (OVnode (Vnode type 0 0 ops data)).

Definition vnode_ref (v : Z) : M unit :=
  if v =? 0 then mret tt else
  x ← load as_vnode v; store v (OVnode (set_v_refcount (v_refcount x +w 1) x)).

Definition vnode_unref (v : Z) : M unit :=
  if v =? 0 then mret tt else
  x ← load as_vnode v;
  if 0 <? v_refcount x then store v (OVnode (set_v_refcount (v_refcount x - 1) x)) else mret tt.

(** ** RAM file system: data *)

Definition ramfs_new_vnode (type : Z) : M Z :=
  ino ← new_obj SIZEOF_INODE (OInode (Inode 0 0 0 0));
  if ino =? 0 then mret 0 else
  v ← vnode_alloc type ramfs_ops ino;
  if v =? 0 then kfree_obj ino ;; mret 0 else mret v.

Definition ramfs_open (v flags : Z) : M Z :=
  x ← load as_vnode v;
  if truthy (Z.land flags O_TRUNC) && (v_type x =? VNODE_FILE) then
    ino ← load as_inode (v_data x);
    store (v_data x) (OInode (set_i_data (i_buf ino) 0 ino)) ;;
    store v (OVnode (set_v_size 0 x)) ;;
    (if i_buf ino =? 0 then mret tt else
     kfree_obj (i_buf ino) ;; store (v_data x) (OInode (set_i_data 0 0 ino))) ;;
    mret 0
  else mret 0.

Definition ramfs_read (v len offset : Z) : M (Z * list byte) :=
  x ← load as_vnode v;
  if negb (v_type x =? VNODE_FILE) then mret (-1, []) else
  ino ← load as_inode (v_data x);
  if v_size x <=? offset then mret (0, []) else
  let avail := v_size x - offset in
  let n := if len <? avail then len else avail in
  data ← load as_buf (i_buf ino);
  if Z.of_nat (length data) <? offset + n then stop (Undefined "read past the end of a buffer") else
  mret (s32 n, take (Z.to_nat n) (drop (Z.to_nat offset) data)).

(** [while (new_cap < end) new_cap *= 2;] *)
Fixpoint grow (fuel : nat) (new_cap end_ : Z) : option Z :=
  if end_ <=? new_cap then Some new_cap else
  match fuel with
  | O => None
  | S fuel' => grow fuel' (new_cap *w 2) end_
  end.
Definition GROW_FUEL : nat := 33.

(** [memcpy(dst + at, src, len)] into a buffer object. *)
Definition splice (data : list byte) (at_ : nat) (src : list byte) : list byte :=
  take at_ data ++ src ++ drop (at_ + length src) data.

Definition copy_in (buf at_ : Z) (src : list byte) : M unit :=
  if bool_decide (src = []) then mret tt else
  data ← load as_buf buf;
  if Z.of_nat (length data) <? at_ + Z.of_nat (length src) then stop (Undefined "write past the end of a buffer") else
  store buf (OBuf (splice data (Z.to_nat at_) src)).

Definition ramfs_grow (v end_ : Z) (x : vnode) (ino : ramfs_inode) : M (option ramfs_inode) :=
  match grow GROW_FUEL (if truthy (i_capacity ino) then i_capacity ino else 64) end_ with
  | None => stop OutOfFuel
  | Some new_cap =>
      new_buf ← new_obj new_cap (OBuf (replicate (Z.to_nat new_cap) None));
      if new_buf =? 0 then mret None else
      (if truthy (i_buf ino) && truthy (v_size x) then
         old ← load as_buf (i_buf ino);
         if Z.of_nat (length old) <? v_size x then stop (Undefined "read past the end of a buffer") else
         copy_in new_buf 0 (take (Z.to_nat (v_size x)) old)
       else mret tt) ;;
      (if truthy (i_buf ino) then kfree_obj (i_buf ino) else mret tt) ;;
      store (v_data x) (OInode (set_i_data new_buf new_cap ino)) ;;
      mret (Some (set_i_data new_buf new_cap ino))
  end.

Definition ramfs_write (v : Z) (src : list byte) (offset : Z) : M Z :=
  x ← load as_vnode v;
  if negb (v_type x =? VNODE_FILE) then mret (-1) else
  ino ← load as_inode (v_data x);
  let len := Z.of_nat (length src) in
  let end_ := offset +w len in
  grown ← (if i_capacity ino <? end_ then ramfs_grow v end_ x ino else mret (Some ino));
  match grown with
  | None => mret (-1)
  | Some ino =>
      copy_in (i_buf ino) offset src ;;
      (if v_size x <? end_ then store v (OVnode (set_v_size end_ x)) else mret tt) ;;
      mret (s32 len)
  end.

(** ** RAM file system: directories *)

(** The loop over the children of a directory: the entry called [name] and
    the entry before it (0 when it is the first). The fuel bounds the length of
    the list by the number of objects. *)
Fixpoint find_dirent (fuel : nat) (prev d : Z) (name : list Z) : M (option (Z * Z)) :=
  if d =? 0 then mret None else
  match fuel with
  | O => stop OutOfFuel
  | S fuel' =>
      e ← load as_dirent d;
      if bool_decide (d_name e = name) then mret (Some (prev, d)) else find_dirent fuel' d (d_next e) name
  end.
Definition list_fuel (s : kstate H fstate) : nat := S (size (objs (k_files s))).

(** [None] for a negative result, otherwise the vnode found. *)
Definition ramfs_lookup (dir : Z) (name : list Z) : M (option Z) :=
  x ← load as_vnode dir;
  if negb (v_type x =? VNODE_DIR) then mret None else
  ino ← load as_inode (v_data x);
  n ← gets list_fuel;
  found ← find_dirent n 0 (i_children ino) name;
  match found with
  | None => mret None
  | Some (_, d) => e ← load as_dirent d; mret (Some (d_vnode e))
  end.

Definition ramfs_add_dirent (dir : Z) (name : list Z) (child : Z) : M Z :=
  x ← load as_vnode dir;
  ino ← load as_inode (v_data x);
  d ← new_obj SIZEOF_DIRENT (ODirent (Dirent (take (VFS_NAME_MAX - 1) name) child (i_children ino)));
  if d =? 0 then mret (-1) else
  store (v_data x) (OInode (set_i_children d (i_child_count ino +w 1) ino)) ;;
  mret 0.

Definition ramfs_create (dir : Z) (name : list Z) (type : Z) : M (option Z) :=
  x ← load as_vnode dir;
  if negb (v_type x =? VNODE_DIR) then mret None else
  existing ← ramfs_lookup dir name;
  match existing with
  | Some v => mret (Some v)
  | None =>
      child ← ramfs_new_vnode type;
      if child =? 0 then mret None else
      r ← ramfs_add_dirent dir name child;
      if r <? 0 then
        c ← load as_vnode child;
        kfree_obj (v_data c) ;; kfree_obj child ;; mret None
      else mret (Some child)
  end.

Definition ramfs_mkdir_op (dir : Z) (name : list Z) : M (option Z) := ramfs_create dir name VNODE_DIR.

Definition ramfs_unlink (dir : Z) (name : list Z) : M Z :=
  x ← load as_vnode dir;
  if negb (v_type x =? VNODE_DIR) then mret (-1) else
  ino ← load as_inode (v_data x);
  n ← gets list_fuel;
  found ← find_dirent n 0 (i_children ino) name;
  match found with
  | None => mret (-1)
  | Some (prev, d) =>
      e ← load as_dirent d;
      (if truthy prev then
         pe ← load as_dirent prev; store prev (ODirent (set_d_next (d_next e) pe)) ;;
         store (v_data x) (OInode (set_i_children (i_children ino) (i_child_count ino -w 1) ino))
       else store (v_data x) (OInode (set_i_children (d_next e) (i_child_count ino -w 1) ino))) ;;
      c ← load as_vnode (d_vnode e);
      (if truthy (v_data c) then
         ci ← load as_inode (v_data c);
         (if truthy (i_buf ci) then kfree_obj (i_buf ci) else mret tt) ;;
         kfree_obj (v_data c)
       else mret tt) ;;
      kfree_obj (d_vnode e) ;;
      kfree_obj d ;;
      mret 0
  end.

(** The entry at position [index]: name and vnode. *)
Fixpoint nth_dirent (fuel : nat) (i index d : Z) : M (option (list Z * Z)) :=
  if d =? 0 then mret None else
  match fuel with
  | O => stop OutOfFuel
  | S fuel' =>
      e ← load as_dirent d;
      if i =? index then mret (Some (take (VFS_NAME_MAX - 1) (d_name e), d_vnode e))
      else nth_dirent fuel' (i +w 1) index (d_next e)
  end.
Definition ramfs_readdir (dir index : Z) : M (option (list Z * Z)) :=
  x ← load as_vnode dir;
  if negb (v_type x =? VNODE_DIR) then mret None else
  ino ← load as_inode (v_data x);
  n ← gets list_fuel;
  nth_dirent n 0 index (i_children ino).

Definition ramfs_get_root : M Z := gets (fun s => ramfs_root (k_files s)).

(** ** Mounts and paths *)

Definition on_fs (f : fstate -> fstate) : M unit := modify (fun s => set_k_files (f (k_files s)) s).

Definition vfs_init : M unit :=
  on_fs (fun fs => set_mounts ((fun m => MountEntry (m_path m) 0 false) <$> mount_table fs) 0 fs).

(** The first inactive slot of the mount table. *)
Fixpoint free_mount (t : list mount_entry) (i : nat) : option nat :=
  match t with
  | [] => None
  | m :: t' => if m_active m then free_mount t' (S i) else Some i
  end.

Definition vfs_mount (path : option (list Z)) (root : Z) : M Z :=
  match path with
  | None => mret (-1)
  | Some path =>
      if root =? 0 then mret (-1) else
      fs ← gets k_files;
      if Z.of_nat VFS_MOUNT_MAX <=? mount_count fs then mret (-1) else
      match free_mount (mount_table fs) 0 with
      | None => mret (-1)
      | Some i =>
          on_fs (set_mounts (<[i := MountEntry (take (VFS_PATH_MAX - 1) path) root true]> (mount_table fs)) (mount_count fs +w 1)) ;;
          mret 0
      end
  end.

(** Does the mount point [mp] cover [path]: a prefix that ends at a component
    boundary. *)
Definition covers (mp path : list Z) : bool :=
  bool_decide (take (length mp) path = mp) &&
  (bool_decide (mp = [SLASH]) ||
   match path !! length mp with Some c => c =? SLASH | None => true end).

Fixpoint best_mount (t : list mount_entry) (path : list Z) (best : option mount_entry) (best_len : nat) : option mount_entry :=
  match t with
  | [] => best
  | m :: t' =>
      if m_active m && covers (m_path m) path && (best_len <? length (m_path m))%nat
      then best_mount t' path (Some m) (length (m_path m))
      else best_mount t' path best best_len
  end.
Definition find_mount (fs : fstate) (path : list Z) : option mount_entry := best_mount (mount_table fs) path None 0.

Fixpoint skip_slashes (p : list Z) : list Z :=
  match p with
  | c :: p' => if c =? SLASH then skip_slashes p' else p
  | [] => []
  end.

(** The next name of at most [n] characters, and the rest. *)
Fixpoint component (n : nat) (p : list Z) : list Z * list Z :=
  match n, p with
  | S n', c :: p' => if c =? SLASH then ([], p) else let '(x, r) := component n' p' in (c :: x, r)
  | _, _ => ([], p)
  end.

(** [v->ops->lookup]; only the RAM file system has one. *)
Definition ops_lookup (cur : Z) (name : list Z) : M (option Z) :=
  x ← load as_vnode cur;
  match v_ops x with
  | ramfs_ops => ramfs_lookup cur name
  | _ => mret None
  end.

Fixpoint walk (fuel : nat) (cur : Z) (rest : list Z) : M Z :=
  match rest with
  | [] => mret cur
  | _ =>
      match fuel with
      | O => stop OutOfFuel
      | S fuel' =>
          let '(name, rest) := component (VFS_NAME_MAX - 1) rest in
          next ← ops_lookup cur name;
          match next with
          | None => mret 0
          | Some next => if next =? 0 then mret 0 else walk fuel' next (skip_slashes rest)
          end
      end
  end.

Definition vfs_resolve (path : list Z) : M Z :=
  match path with
  | c :: _ =>
      if negb (c =? SLASH) then mret 0 else
      fs ← gets k_files;
      match find_mount fs path with
      | None => mret 0
      | Some m => walk (length path) (m_root m) (skip_slashes (drop (length (m_path m)) path))
      end
  | [] => mret 0
  end.

(** ** Open files *)

(** [v->ops->open]: the tables of the devices have none. *)
Definition ops_open (v flags : Z) : M Z :=
  x ← load as_vnode v;
  match v_ops x with
  | ramfs_ops => ramfs_open v flags
  | _ => mret 0
  end.

Definition vfs_open_vnode_op (v flags : Z) : M Z :=
  if v =? 0 then mret 0 else
  r ← ops_open v flags;
  if r <? 0 then mret 0 else
  x ← load as_vnode v;
  f ← new_obj SIZEOF_FILE (OFile (File v (if truthy (Z.land flags O_APPEND) then v_size x else 0) (u32 flags) 1));
  if f =? 0 then mret 0 else
  vnode_ref v ;;
  mret f.

(** The last slash of the (truncated) path: parent directory and leaf name. *)
Fixpoint last_slash (p : list Z) (i : nat) (acc : option nat) : option nat :=
  match p with
  | [] => acc
  | c :: p' => last_slash p' (S i) (if c =? SLASH then Some i else acc)
  end.
Definition split_path (path : list Z) : option (list Z * list Z) :=
  let parent := take (VFS_PATH_MAX - 1) path in
  match last_slash parent 0 None with
  | None => None
  | Some slash => Some (if (slash =? 0)%nat then [SLASH] else take slash parent, drop (S slash) path)
  end.

(** The directory that is to hold a new entry, 0 when there is none. *)
Definition parent_dir (parent : list Z) : M Z :=
  dir ← vfs_resolve parent;
  if dir =? 0 then mret 0 else
  x ← load as_vnode dir;
  if v_type x =? VNODE_DIR then mret dir else mret 0.

Definition ops_create (dir : Z) (name : list Z) (type : Z) : M (option Z) :=
  x ← load as_vnode dir;
  match v_ops x with
  | ramfs_ops => ramfs_create dir name type
  | _ => mret None
  end.

Definition vfs_open (path : list Z) (flags : Z) : M Z :=
  v ← vfs_resolve path;
  if truthy v then vfs_open_vnode_op v flags else
  if negb (truthy (Z.land flags O_CREAT)) then mret 0 else
  match split_path path with
  | None => mret 0
  | Some (parent, filename) =>
      dir ← parent_dir parent;
      if dir =? 0 then mret 0 else
      newfile ← ops_create dir filename VNODE_FILE;
      match newfile with
      | None => mret 0
      | Some newfile => vfs_open_vnode_op newfile flags
      end
  end.

Definition ops_mkdir (dir : Z) (name : list Z) : M (option Z) :=
  x ← load as_vnode dir;
  match v_ops x with
  | ramfs_ops => ramfs_mkdir_op dir name
  | _ => mret None
  end.

Definition vfs_mkdir (path : list Z) : M Z :=
  match path with
  | [] => mret (-1)
  | c :: _ =>
      if negb (c =? SLASH) then mret (-1) else
      match split_path path with
      | None => mret (-1)
      | Some (parent, dirname) =>
          dir ← parent_dir parent;
          if dir =? 0 then mret (-1) else
          newdir ← ops_mkdir dir dirname;
          mret (match newdir with None => -1 | Some _ => 0 end)
      end
  end.

Definition ramfs_register_dev (path : list Z) (dev_vnode : Z) : M Z :=
  match path with
  | [] => mret (-1)
  | c :: _ =>
      if negb (c =? SLASH) then mret (-1) else
      match split_path path with
      | None => mret (-1)
      | Some (parent, leaf) =>
          dir ← parent_dir parent;
          if dir =? 0 then mret (-1) else ramfs_add_dirent dir leaf dev_vnode
      end
  end.

Definition ramfs_init : M unit :=
  root ← ramfs_new_vnode VNODE_DIR;
  on_fs (set_ramfs_root root) ;;
  if root =? 0 then mret tt else
  vfs_mount (Some [SLASH]) root ;; mret tt.

(** "/dev", "/dev/stdin", "/dev/stdout", "/dev/stderr" *)
Definition dev_dir : list Z := [47; 100; 101; 118].
Definition dev_stdin : list Z := dev_dir ++ [47; 115; 116; 100; 105; 110].
Definition dev_stdout : list Z := dev_dir ++ [47; 115; 116; 100; 111; 117; 116].
Definition dev_stderr : list Z := dev_dir ++ [47; 115; 116; 100; 101; 114; 114].

Definition devfs_init : M unit :=
  r ← vfs_mkdir dev_dir;
  if r <? 0 then mret tt else
  i ← vnode_alloc VNODE_DEV stdin_ops 0;
  o ← vnode_alloc VNODE_DEV stdout_ops 0;
  e ← vnode_alloc VNODE_DEV stderr_ops 0;
  on_fs (set_devices i o e) ;;
  if negb (truthy i) || negb (truthy o) || negb (truthy e) then mret tt else
  ramfs_register_dev dev_stdin i ;;
  ramfs_register_dev dev_stdout o ;;
  ramfs_register_dev dev_stderr e ;;
  mret tt.

(** ** Closing pipe ends and files *)

Definition PIPE_NO_WAITER : Z := 0xFFFF.

Definition set_readers (n : Z) (p : pipe) : pipe :=
  Pipe (pp_buf p) (pp_head p) (pp_count p) n (pp_writers p) (pp_blocked_reader p) (pp_blocked_writer p).
Definition set_writers (n : Z) (p : pipe) : pipe :=
  Pipe (pp_buf p) (pp_head p) (pp_count p) (pp_readers p) n (pp_blocked_reader p) (pp_blocked_writer p).
Definition set_blocked_reader (n : Z) (p : pipe) : pipe :=
  Pipe (pp_buf p) (pp_head p) (pp_count p) (pp_readers p) (pp_writers p) n (pp_blocked_writer p).
Definition set_blocked_writer (n : Z) (p : pipe) : pipe :=
  Pipe (pp_buf p) (pp_head p) (pp_count p) (pp_readers p) (pp_writers p) (pp_blocked_reader p) n.

Definition pipe_wake_peer (p : Z) (woke_by_write : bool) : M unit :=
  x ← load as_pipe p;
  let peer_pid := if woke_by_write then pp_blocked_reader x else pp_blocked_writer x in
  if peer_pid =? PIPE_NO_WAITER then mret tt else
  store p (OPipe (if woke_by_write then set_blocked_reader PIPE_NO_WAITER x else set_blocked_writer PIPE_NO_WAITER x)) ;;
  peer ← gets (fun s => proc_get s peer_pid);
  match peer with
  | Some i => proc_wake (Some i)
  | None => mret tt
  end.

Definition pipe_maybe_free (p : Z) : M unit :=
  x ← load as_pipe p;
  if (pp_readers x =? 0) && (pp_writers x =? 0) then kfree_obj p else mret tt.

Definition pipe_close_read (v : Z) : M Z :=
  x ← load as_vnode v;
  e ← load as_end (v_data x);
  p ← load as_pipe (e_pipe e);
  (if 0 <? pp_readers p then store (e_pipe e) (OPipe (set_readers (pp_readers p - 1) p)) else mret tt) ;;
  p ← load as_pipe (e_pipe e);
  (if pp_readers p =? 0 then pipe_wake_peer (e_pipe e) false else mret tt) ;;
  kfree_obj (v_data x) ;;
  store v (OVnode (set_v_data 0 x)) ;;
  pipe_maybe_free (e_pipe e) ;;
  kfree_obj v ;;
  mret 0.

Definition pipe_close_write (v : Z) : M Z :=
  x ← load as_vnode v;
  e ← load as_end (v_data x);
  p ← load as_pipe (e_pipe e);
  (if 0 <? pp_writers p then store (e_pipe e) (OPipe (set_writers (pp_writers p - 1) p)) else mret tt) ;;
  p ← load as_pipe (e_pipe e);
  (if pp_writers p =? 0 then pipe_wake_peer (e_pipe e) true else mret tt) ;;
  kfree_obj (v_data x) ;;
  store v (OVnode (set_v_data 0 x)) ;;
  pipe_maybe_free (e_pipe e) ;;
  kfree_obj v ;;
  mret 0.

(** [v->ops->close]: the tables of the devices have none. *)
Definition ops_close (v : Z) : M Z :=
  x ← load as_vnode v;
  match v_ops x with
  | pipe_read_ops => pipe_close_read v
  | pipe_write_ops => pipe_close_write v
  | _ => mret 0
  end.

Definition vfs_close_op (f : Z) : M unit :=
  if f =? 0 then mret tt else
  x ← load as_file f;
  store f (OFile (set_f_refcount (f_refcount x -w 1) x)) ;;
  if 0 <? f_refcount x -w 1 then mret tt else
  (if truthy (f_vnode x) then ops_close (f_vnode x) ;; mret tt else mret tt) ;;
  vnode_unref (f_vnode x) ;;
  kfree_obj f.

(** [f->refcount++] *)
Definition file_ref_op (f : Z) : M unit :=
  x ← load as_file f; store f (OFile (set_f_refcount (f_refcount x +w 1) x)).
End fs.

#[export] Instance fs_Vfs {H : Type} `{!Heap H} : Vfs H fstate := {
  vfs_open_vnode := vfs_open_vnode_op;
  vfs_close := vfs_close_op;
  devfs_stdin_vnode := gets (fun s => g_stdin (k_files s));
  devfs_stdout_vnode := gets (fun s => g_stdout (k_files s));
  devfs_stderr_vnode := gets (fun s => g_stderr (k_files s));
  file_ref := file_ref_op
}.
