(* ===== verification/FsLaws.v ===== *)
(** * The file layer keeps its promise to the process manager

    Every operation of Fs.v touches only heap blocks of its own, its objects,
    and (when a pipe end is closed) processes blocked on the other end. A small
    calculus [keeps] composes this over the monad, and the instance of
    [VfsLaws] at the end discharges the interface of Fd.v. *)

From Stdlib Require Import ZArith Lia.
From S2P Require Import Prelude Kheap HeapSpec Kstate Fd Fs.

(** A file has no buffer or one whose size is a doubling of 64. *)
Definition cap_ok (c : Z) : Prop := c = 0 \/ exists m, 6 <= m <= 31 /\ c = 2 ^ m.

(** PIDs stored in pipes are not negative. *)
Definition obj_ok (o : obj) : Prop :=
  match o with
  | OPipe p => 0 <= pp_blocked_reader p /\ 0 <= pp_blocked_writer p
  | OInode i => cap_ok (i_capacity i)
  | _ => True
  end.

(** Every object occupies a live heap block. *)
Definition fs_ok (fs : fstate) (L : gmap Z Z) : Prop :=
  forall p o, objs fs !! p = Some o -> p <> 0 /\ is_Some (L !! p) /\ obj_ok o.

Section keeps.
Context {H : Type} `{!Heap H} `{!HeapLaws H}.
Implicit Types (s : kstate H fstate).
Local Abbreviation effect := (file_effect fs_ok).

(** [c] has the effect of a file operation; a quiet one wakes nobody. *)
Definition keeps {T : Type} (quiet : bool) (c : M (kstate H fstate) T) : Prop :=
  forall s L A r s', heap_ok (k_heap s) L A -> fs_ok (k_files s) L -> c s = Ok (r, s') ->
  exists ws, (quiet = true -> ws = []) /\ effect ws A s s'.

Lemma keeps_ret {T} b (x : T) : keeps b (mret x).
Proof. intros s L A r s' Hh Hf [= <- <-]. exists []. split; [done|]. by apply (effect_refl _ s L). Qed.

Lemma keeps_stop {T} b f : keeps b (stop f : M (kstate H fstate) T).
Proof. intros s L A r s' _ _ E. discriminate E. Qed.

Lemma keeps_gets {T} b (f : kstate H fstate -> T) : keeps b (gets f).
Proof. intros s L A r s' Hh Hf [= <- <-]. exists []. split; [done|]. by apply (effect_refl _ s L). Qed.

Lemma keeps_bind {T U} b (c : M (kstate H fstate) T) (k : T -> M (kstate H fstate) U) :
  keeps b c -> (forall x, keeps b (k x)) -> keeps b (c ≫= k).
Proof.
  intros Hc Hk s L A r s' Hh Hf E. apply bind_inv in E as (x & s1 & E1 & E2).
  destruct (Hc s L A x s1 Hh Hf E1) as (w1 & Q1 & G1). destruct (effect_ok _ _ _ _ _ G1) as (L1 & Hh1 & Hf1).
  destruct (Hk x s1 L1 A r s' Hh1 Hf1 E2) as (w2 & Q2 & G2). exists (w1 ++ w2).
  split; [intros Hb; by rewrite Q1, Q2|]. by apply (effect_trans _ w1 w2 A s s1 s').
Qed.

Lemma keeps_weaken {T} (c : M (kstate H fstate) T) b : keeps true c -> keeps b c.
Proof. intros Hc s L A r s' Hh Hf E. destruct (Hc s L A r s' Hh Hf E) as (ws & Q & G). exists ws. split; [by intros _; apply Q|done]. Qed.

(** Loading gives a well-formed object. *)
Lemma keeps_load {T U} b (view : obj -> option T) p (k : T -> M (kstate H fstate) U) :
  (forall o x, obj_ok o -> view o = Some x -> keeps b (k x)) -> keeps b (load view p ≫= k).
Proof.
  intros Hk s L A r s' Hh Hf E. unfold mbind, M_bind, load in E.
  destruct (objs (k_files s) !! p) as [o|] eqn:Ep; [|done]. simpl in E. destruct (view o) as [x|] eqn:Ev; [|done].
  destruct (Hf p o Ep) as (_ & _ & Ho). exact (Hk o x Ho Ev s L A r s' Hh Hf E).
Qed.

Lemma keeps_load_ret {T} b (view : obj -> option T) p : keeps b (load view p : M (kstate H fstate) T).
Proof.
  intros s L A r s' Hh Hf E. unfold load in E. destruct (_ ≫= view); [|done]. injection E as <- <-.
  exists []. split; [done|]. by apply (effect_refl _ s L).
Qed.

Lemma keeps_store b p o : obj_ok o -> keeps b (store p o).
Proof.
  intros Ho s L A r s' Hh Hf E. unfold store in E. destruct (objs (k_files s) !! p) as [o'|] eqn:Ep; [|done].
  injection E as <- <-. exists []. split; [done|]. apply (effect_files _ s L); [done|].
  intros q x. simpl. rewrite lookup_insert. case_decide as Hd; [|apply Hf]. intros [= <-]. subst q.
  destruct (Hf p o' Ep) as (? & ? & _). done.
Qed.

(** Allocating and freeing an object. *)
Lemma new_obj_run s L A size o :
  heap_ok (k_heap s) L A -> fs_ok (k_files s) L -> 0 < size < HEAP_REQUEST -> obj_ok o ->
  (exists msg, new_obj size o s = Stop (Panic msg)) \/
  (exists h, new_obj size o s = Ok (0, set_k_heap h s) /\ heap_ok h L A /\
     forall a, owned ∅ A a -> heap_word h a = heap_word (k_heap s) a) \/
  (exists p h, new_obj size o s = Ok (p, set_k_files (set_objs (<[p := o]> (objs (k_files s))) (k_files s)) (set_k_heap h s)) /\
     p <> 0 /\ objs (k_files s) !! p = None /\ heap_ok h (<[p := size]> L) A /\
     fs_ok (set_objs (<[p := o]> (objs (k_files s))) (k_files s)) (<[p := size]> L) /\
     forall a, owned ∅ A a -> heap_word h a = heap_word (k_heap s) a).
Proof.
  intros Hh Hf Hsz Ho. unfold new_obj.
  assert (Hkeep : forall h, (forall a, owned L A a -> heap_word h a = heap_word (k_heap s) a) ->
    forall a, owned ∅ A a -> heap_word h a = heap_word (k_heap s) a).
  { intros h Hw a (q & n & [Hq|Hq] & Hr); [done|]. apply Hw. exists q, n. split; [by right|done]. }
  destruct (heap_malloc_law (k_heap s) L A size Hh Hsz) as [(msg & Em)|[(h & Em & Hh' & Hw)|(p & h & Em & Hp & (Hfr & Hh') & Hw)]].
  - left. exists msg. apply bind_stop. unfold on_heap, zoom. by rewrite Em.
  - right. left. exists h. rewrite (bind_ok _ _ s 0 (set_k_heap h s)) by (unfold on_heap, zoom; by rewrite Em). auto.
  - right. right. exists p, h. rewrite (bind_ok _ _ s p (set_k_heap h s)) by (unfold on_heap, zoom; by rewrite Em).
    rewrite (proj2 (Z.eqb_neq p 0)) by lia. split; [done|]. split; [lia|]. split; [|split; [done|split; [|by apply Hkeep]]].
    + destruct (objs (k_files s) !! p) as [o'|] eqn:E; [|done]. destruct (Hf p o' E) as (_ & [n Hn] & _). congruence.
    + intros q x. simpl. rewrite !lookup_insert. case_decide as Hd.
      * intros [= <-]. subst q. split; [lia|]. split; [eauto|done].
      * intros Hq. by apply Hf.
Qed.

Lemma kfree_obj_run s L A p o :
  heap_ok (k_heap s) L A -> fs_ok (k_files s) L -> objs (k_files s) !! p = Some o ->
  exists h, kfree_obj p s = Ok (tt, set_k_files (set_objs (delete p (objs (k_files s))) (k_files s)) (set_k_heap h s)) /\
    heap_ok h (delete p L) A /\ fs_ok (set_objs (delete p (objs (k_files s))) (k_files s)) (delete p L) /\
    forall a, owned ∅ A a -> heap_word h a = heap_word (k_heap s) a.
Proof.
  intros Hh Hf Ep. destruct (Hf p o Ep) as (Hp & [n Hn] & _).
  destruct (heap_free_law (k_heap s) L A p n Hh Hn) as (h & Eh & Hh' & Hw). exists h.
  unfold kfree_obj. rewrite (proj2 (Z.eqb_neq p 0)), Ep by done.
  rewrite (bind_ok _ _ s tt (set_k_heap h s)) by (unfold on_heap, zoom; by rewrite Eh). split; [done|]. split; [done|]. split.
  - intros q x. simpl. rewrite !lookup_delete. case_decide; [done|]. intros Hq. by apply Hf.
  - intros a (q & m & [Hq|Hq] & Hr); [done|]. apply Hw. exists q, m. split; [by right|done].
Qed.

Lemma keeps_new_obj b size o : 0 < size < HEAP_REQUEST -> obj_ok o -> keeps b (new_obj size o).
Proof.
  intros Hsz Ho s L A r s' Hh Hf E. exists []. split; [done|]. split; [constructor|].
  destruct (new_obj_run s L A size o Hh Hf Hsz Ho) as [(msg & Em)|[(h & Em & Hh' & Hw)|(p & h & Em & Hp & _ & Hh' & Hf' & Hw)]];
    rewrite Em in E; [done| |]; injection E as <- <-.
  - exists h, (k_files s), L. split; [by destruct s|done].
  - eexists h, _, _. split; [by destruct s|]. split; [exact Hh'|]. split; [exact Hf'|done].
Qed.

Lemma keeps_kfree_obj b p : keeps b (kfree_obj p).
Proof.
  intros s L A r s' Hh Hf E. exists []. split; [done|]. destruct (Z.eqb_spec p 0) as [->|Hp].
  { injection E as <- <-. by apply (effect_refl _ s L). }
  destruct (objs (k_files s) !! p) as [o|] eqn:Ep.
  2: { unfold kfree_obj in E. rewrite (proj2 (Z.eqb_neq p 0)), Ep in E by done. done. }
  destruct (kfree_obj_run s L A p o Hh Hf Ep) as (h & Ek & Hh' & Hf' & Hw). rewrite Ek in E. injection E as <- <-.
  split; [constructor|]. eexists h, _, _. split; [by destruct s|]. split; [exact Hh'|]. split; [exact Hf'|done].
Qed.

Lemma keeps_wake pid : 0 <= pid ->
  keeps false (peer ← gets (fun s : kstate H fstate => proc_get s pid);
               match peer with Some i => proc_wake (Some i) | None => mret tt end).
Proof.
  intros Hp s L A r s' Hh Hf E. rewrite (bind_ok _ _ s (proc_get s pid) s) in E by done.
  exists [pid]. split; [done|]. split; [by repeat constructor|]. exists (k_heap s), (k_files s), L.
  assert (Es : s' = wake_all [pid] s).
  { simpl. unfold wake_one. destruct (proc_get s pid) as [i|]; [by rewrite E|by injection E as <- <-]. }
  pose proof (wake_all_heap [pid] s) as [E1 E2]. split; [|done].
  rewrite Es, <- E1, <- E2. by destruct (wake_all [pid] s).
Qed.
End keeps.

(** Decompose a file operation. *)
Ltac keeps_step :=
  match goal with
  | |- keeps _ (load _ _ ≫= _) => apply keeps_load; intros
  | |- keeps _ (_ ≫= _) => apply keeps_bind; [|intros]
  | |- keeps _ (if ?b then _ else _) => destruct b
  | |- keeps _ (match ?x with _ => _ end) => destruct x
  | |- keeps _ (mret _) => apply keeps_ret
  | |- keeps _ (stop _) => apply keeps_stop
  | |- keeps _ (gets _) => apply keeps_gets
  | |- keeps _ (store _ _) => apply keeps_store
  | |- keeps _ (kfree_obj _) => apply keeps_kfree_obj
  | |- keeps _ (new_obj _ _) => apply keeps_new_obj
  end.
Lemma cap_ok_0 : cap_ok 0.
Proof. by left. Qed.
Lemma as_inode_ok o i : obj_ok o -> as_inode o = Some i -> cap_ok (i_capacity i).
Proof. destruct o; simpl; try done. by intros ? [= <-]. Qed.
#[export] Hint Resolve cap_ok_0 as_inode_ok : orion.

Ltac keeps_auto := repeat keeps_step; try done; simpl; eauto with orion.

Section laws.
Context {H : Type} `{!Heap H} `{!HeapLaws H}.
Implicit Types (s : kstate H fstate).

Lemma keeps_vnode_ref v : keeps true (vnode_ref v : M (kstate H fstate) _).
Proof. unfold vnode_ref. keeps_auto. Qed.
Lemma keeps_vnode_unref b v : keeps b (vnode_unref v : M (kstate H fstate) _).
Proof. unfold vnode_unref. keeps_auto. Qed.
Lemma keeps_ramfs_open v flags : keeps true (ramfs_open v flags : M (kstate H fstate) _).
Proof. unfold ramfs_open. keeps_auto. Qed.

Lemma keeps_vfs_open_vnode v flags : keeps true (vfs_open_vnode_op v flags : M (kstate H fstate) _).
Proof.
  unfold vfs_open_vnode_op, ops_open. keeps_step; [apply keeps_ret|]. apply keeps_bind.
  - keeps_step. destruct (v_ops _); (apply keeps_ramfs_open || apply keeps_ret).
  - intros r. keeps_auto. apply keeps_vnode_ref.
Qed.

Lemma as_pipe_ok o p : obj_ok o -> as_pipe o = Some p -> 0 <= pp_blocked_reader p /\ 0 <= pp_blocked_writer p.
Proof. destruct o; simpl; try done. by intros ? [= <-]. Qed.

Lemma keeps_wake_peer p w : keeps false (pipe_wake_peer p w : M (kstate H fstate) _).
Proof.
  unfold pipe_wake_peer. apply keeps_load. intros o x Ho Hx. destruct (as_pipe_ok o x Ho Hx) as [Hr Hw].
  destruct (_ =? PIPE_NO_WAITER); [apply keeps_ret|]. apply keeps_bind.
  - apply keeps_store. destruct w; simpl; done.
  - intros _. apply keeps_wake. by destruct w.
Qed.

Lemma keeps_pipe_maybe_free p : keeps false (pipe_maybe_free p : M (kstate H fstate) _).
Proof. unfold pipe_maybe_free. keeps_auto. Qed.

Lemma keeps_pipe_close_read v : keeps false (pipe_close_read v : M (kstate H fstate) _).
Proof.
  unfold pipe_close_read. do 2 keeps_step. apply keeps_load. intros o' p Ho' Hp. pose proof (as_pipe_ok o' p Ho' Hp).
  apply keeps_bind; [keeps_auto|]. intros _. apply keeps_load. intros.
  apply keeps_bind; [destruct (_ =? 0); [apply keeps_wake_peer|apply keeps_ret]|]. intros _.
  do 2 (apply keeps_bind; [keeps_auto|intros _]). apply keeps_bind; [apply keeps_pipe_maybe_free|]. intros _. keeps_auto.
Qed.
Lemma keeps_pipe_close_write v : keeps false (pipe_close_write v : M (kstate H fstate) _).
Proof.
  unfold pipe_close_write. do 2 keeps_step. apply keeps_load. intros o' p Ho' Hp. pose proof (as_pipe_ok o' p Ho' Hp).
  apply keeps_bind; [keeps_auto|]. intros _. apply keeps_load. intros.
  apply keeps_bind; [destruct (_ =? 0); [apply keeps_wake_peer|apply keeps_ret]|]. intros _.
  do 2 (apply keeps_bind; [keeps_auto|intros _]). apply keeps_bind; [apply keeps_pipe_maybe_free|]. intros _. keeps_auto.
Qed.

Lemma keeps_ops_close v : keeps false (ops_close v : M (kstate H fstate) _).
Proof.
  unfold ops_close. keeps_step. destruct (v_ops _); try apply keeps_ret; [apply keeps_pipe_close_read|apply keeps_pipe_close_write].
Qed.

Lemma keeps_vfs_close f : keeps false (vfs_close_op f : M (kstate H fstate) _).
Proof.
  unfold vfs_close_op. keeps_step; [apply keeps_ret|]. apply keeps_load. intros.
  apply keeps_bind; [keeps_auto|]. intros _. keeps_step; [apply keeps_ret|]. apply keeps_bind.
  - keeps_step; [|apply keeps_ret]. apply keeps_bind; [apply keeps_ops_close|]. intros. apply keeps_ret.
  - intros _. apply keeps_bind; [apply keeps_vnode_unref|]. intros _. apply keeps_kfree_obj.
Qed.

Lemma keeps_file_ref f : keeps true (file_ref_op f : M (kstate H fstate) _).
Proof. unfold file_ref_op. keeps_auto. Qed.

(** ** File data *)

Lemma grow_cap fuel end_ : forall m c, 6 <= m <= 31 -> 0 < end_ -> grow fuel (2 ^ m) end_ = Some c -> exists m', 6 <= m' <= 31 /\ c = 2 ^ m'.
Proof.
  assert (Hz : forall fuel, 0 < end_ -> grow fuel 0 end_ = None).
  { intros f He. induction f as [|f IH]; simpl; destruct (Z.leb_spec end_ 0); try lia; done. }
  induction fuel as [|fuel IH]; intros m c Hm He; simpl; destruct (Z.leb_spec end_ (2 ^ m)); try done; [intros [= <-]; eauto..|].
  destruct (decide (m = 31)) as [->|].
  - change (2 ^ 31 *w 2) with 0. by rewrite Hz.
  - assert (2 ^ m <= 2 ^ 30) by (apply Z.pow_le_mono_r; lia). rewrite u32_small by lia.
    replace (2 ^ m * 2) with (2 ^ (m + 1)) by (rewrite Z.pow_add_r by lia; lia). apply IH; lia.
Qed.

Lemma keeps_ramfs_read b v len offset : keeps b (ramfs_read v len offset : M (kstate H fstate) _).
Proof. unfold ramfs_read. keeps_auto. Qed.

Lemma keeps_copy_in b buf at_ src : keeps b (copy_in buf at_ src : M (kstate H fstate) _).
Proof. unfold copy_in. keeps_auto. Qed.

Lemma keeps_ramfs_grow b v end_ x ino : cap_ok (i_capacity ino) -> i_capacity ino < end_ -> keeps b (ramfs_grow v end_ x ino : M (kstate H fstate) _).
Proof.
  intros Hc Hlt. unfold ramfs_grow.
  assert (Hcap : exists m, 6 <= m <= 31 /\ (if truthy (i_capacity ino) then i_capacity ino else 64) = 2 ^ m).
  { destruct Hc as [->|(m & Hm & ->)]; [by exists 6|]. exists m. split; [done|]. unfold truthy.
    by rewrite (proj2 (Z.eqb_neq _ 0)) by lia. }
  destruct Hcap as (m & Hm & ->). assert (Hpos : 0 < end_).
  { destruct Hc as [Hc|(m' & Hm' & Hc)]; [lia|]. pose proof (Z.pow_pos_nonneg 2 m'). lia. }
  destruct (grow GROW_FUEL (2 ^ m) end_) as [c|] eqn:Eg; [|apply keeps_stop].
  destruct (grow_cap _ _ m c Hm Hpos Eg) as (m' & Hm' & ->). assert (2 ^ 6 <= 2 ^ m' <= 2 ^ 31) by (split; apply Z.pow_le_mono_r; lia).
  apply keeps_bind; [by apply keeps_new_obj; [unfold HEAP_REQUEST; lia|]|]. intros p. keeps_step; [apply keeps_ret|].
  apply keeps_bind; [keeps_step; [|apply keeps_ret]; keeps_step; keeps_step; [apply keeps_stop|apply keeps_copy_in]|]. intros _.
  apply keeps_bind; [keeps_auto|]. intros _. apply keeps_bind; [|intros; apply keeps_ret]. apply keeps_store. right. eauto.
Qed.

Lemma keeps_ramfs_write b v src offset : keeps b (ramfs_write v src offset : M (kstate H fstate) _).
Proof.
  unfold ramfs_write. keeps_step. keeps_step; [apply keeps_ret|]. apply keeps_load. intros oi i Ho Ei.
  pose proof (as_inode_ok oi i Ho Ei) as Hc. cbv zeta. apply keeps_bind.
  - destruct (Z.ltb_spec (i_capacity i) (offset +w Z.of_nat (length src))); [by apply keeps_ramfs_grow|apply keeps_ret].
  - intros [i'|]; [|apply keeps_ret]. apply keeps_bind; [apply keeps_copy_in|]. intros _. keeps_auto.
Qed.

(** ** Directories and paths *)

Lemma keeps_on_fs b (f : fstate -> fstate) : (forall fs, objs (f fs) = objs fs) -> keeps b (on_fs f : M (kstate H fstate) _).
Proof.
  intros Hf s L A r s' Hh Hok [= <- <-]. exists []. split; [done|]. apply (effect_files _ s L); [done|].
  intros p o. rewrite Hf. apply Hok.
Qed.

Lemma keeps_ramfs_new_vnode b type : keeps b (ramfs_new_vnode type : M (kstate H fstate) _).
Proof. unfold ramfs_new_vnode, vnode_alloc. keeps_auto. Qed.

Lemma keeps_find_dirent b n : forall prev d name, keeps b (find_dirent n prev d name : M (kstate H fstate) _).
Proof.
  induction n as [|n IH]; intros prev d name; simpl; destruct (d =? 0); try apply keeps_ret; [apply keeps_stop|].
  keeps_step. keeps_step; [apply keeps_ret|apply IH].
Qed.

Lemma keeps_ramfs_lookup b dir name : keeps b (ramfs_lookup dir name : M (kstate H fstate) _).
Proof.
  unfold ramfs_lookup. keeps_step. keeps_step; [apply keeps_ret|]. keeps_step. keeps_step; [apply keeps_gets|].
  apply keeps_bind; [apply keeps_find_dirent|]. intros [[]|]; keeps_auto.
Qed.

Lemma keeps_ramfs_add_dirent b dir name child : keeps b (ramfs_add_dirent dir name child : M (kstate H fstate) _).
Proof. unfold ramfs_add_dirent. keeps_auto. Qed.

Lemma keeps_ramfs_create b dir name type : keeps b (ramfs_create dir name type : M (kstate H fstate) _).
Proof.
  unfold ramfs_create. keeps_step. keeps_step; [apply keeps_ret|]. apply keeps_bind; [apply keeps_ramfs_lookup|].
  intros [v|]; [apply keeps_ret|]. apply keeps_bind; [apply keeps_ramfs_new_vnode|]. intros c. keeps_step; [apply keeps_ret|].
  apply keeps_bind; [apply keeps_ramfs_add_dirent|]. intros r. keeps_auto.
Qed.

Lemma keeps_ops_lookup b cur name : keeps b (ops_lookup cur name : M (kstate H fstate) _).
Proof. unfold ops_lookup. keeps_step. destruct (v_ops _); (apply keeps_ramfs_lookup || apply keeps_ret). Qed.

Lemma keeps_walk b n : forall cur rest, keeps b (walk n cur rest : M (kstate H fstate) _).
Proof.
  induction n as [|n IH]; intros cur rest; destruct rest as [|c rest]; simpl; try apply keeps_ret; [apply keeps_stop|].
  destruct (if c =? SLASH then _ else _) as [name rest']. apply keeps_bind; [apply keeps_ops_lookup|].
  intros [next|]; [|apply keeps_ret]. keeps_step; [apply keeps_ret|apply IH].
Qed.

Lemma keeps_vfs_resolve b path : keeps b (vfs_resolve path : M (kstate H fstate) _).
Proof.
  unfold vfs_resolve. destruct path as [|c path]; [apply keeps_ret|]. keeps_step; [apply keeps_ret|].
  keeps_step; [apply keeps_gets|]. destruct (find_mount _ _); [apply keeps_walk|apply keeps_ret].
Qed.

Lemma keeps_parent_dir b parent : keeps b (parent_dir parent : M (kstate H fstate) _).
Proof. unfold parent_dir. apply keeps_bind; [apply keeps_vfs_resolve|]. intros dir. keeps_auto. Qed.

Lemma keeps_ops_create b dir name type : keeps b (ops_create dir name type : M (kstate H fstate) _).
Proof. unfold ops_create. keeps_step. destruct (v_ops _); (apply keeps_ramfs_create || apply keeps_ret). Qed.

Lemma keeps_ops_mkdir b dir name : keeps b (ops_mkdir dir name : M (kstate H fstate) _).
Proof. unfold ops_mkdir. keeps_step. destruct (v_ops _); (apply keeps_ramfs_create || apply keeps_ret). Qed.

Lemma keeps_vfs_mount b path root : keeps b (vfs_mount path root : M (kstate H fstate) _).
Proof.
  unfold vfs_mount. destruct path as [path|]; [|apply keeps_ret]. keeps_step; [apply keeps_ret|].
  keeps_step; [apply keeps_gets|]. keeps_step; [apply keeps_ret|]. destruct (free_mount _ _); [|apply keeps_ret].
  apply keeps_bind; [by apply keeps_on_fs|]. intros. apply keeps_ret.
Qed.

Lemma keeps_vfs_mkdir b path : keeps b (vfs_mkdir path : M (kstate H fstate) _).
Proof.
  unfold vfs_mkdir. destruct path as [|c path]; [apply keeps_ret|]. keeps_step; [apply keeps_ret|].
  destruct (split_path _) as [[parent leaf]|]; [|apply keeps_ret]. apply keeps_bind; [apply keeps_parent_dir|].
  intros dir. keeps_step; [apply keeps_ret|]. apply keeps_bind; [apply keeps_ops_mkdir|]. intros. apply keeps_ret.
Qed.

Lemma keeps_register_dev b path v : keeps b (ramfs_register_dev path v : M (kstate H fstate) _).
Proof.
  unfold ramfs_register_dev. destruct path as [|c path]; [apply keeps_ret|]. keeps_step; [apply keeps_ret|].
  destruct (split_path _) as [[parent leaf]|]; [|apply keeps_ret]. apply keeps_bind; [apply keeps_parent_dir|].
  intros dir. keeps_step; [apply keeps_ret|apply keeps_ramfs_add_dirent].
Qed.

Lemma keeps_ramfs_init b : keeps b (ramfs_init : M (kstate H fstate) _).
Proof.
  unfold ramfs_init. apply keeps_bind; [apply keeps_ramfs_new_vnode|]. intros root. apply keeps_bind; [by apply keeps_on_fs|].
  intros _. keeps_step; [apply keeps_ret|]. apply keeps_bind; [apply keeps_vfs_mount|]. intros. apply keeps_ret.
Qed.

Lemma keeps_devfs_init b : keeps b (devfs_init : M (kstate H fstate) _).
Proof.
  unfold devfs_init, vnode_alloc. apply keeps_bind; [apply keeps_vfs_mkdir|]. intros r. keeps_step; [apply keeps_ret|].
  do 3 (keeps_step; [by apply keeps_new_obj|]). apply keeps_bind; [by apply keeps_on_fs|]. intros _.
  keeps_step; [apply keeps_ret|]. do 3 (apply keeps_bind; [apply keeps_register_dev|intros _]). apply keeps_ret.
Qed.

Lemma keeps_vfs_open path flags : keeps true (vfs_open path flags : M (kstate H fstate) _).
Proof.
  unfold vfs_open. apply keeps_bind; [apply keeps_vfs_resolve|]. intros v. keeps_step; [apply keeps_vfs_open_vnode|].
  keeps_step; [apply keeps_ret|]. destruct (split_path _) as [[parent leaf]|]; [|apply keeps_ret].
  apply keeps_bind; [apply keeps_parent_dir|]. intros dir. keeps_step; [apply keeps_ret|].
  apply keeps_bind; [apply keeps_ops_create|]. intros [v'|]; [apply keeps_vfs_open_vnode|apply keeps_ret].
Qed.

(** A quiet operation wakes nobody. *)
Lemma keeps_quiet {T} (c : M (kstate H fstate) T) s L A r s' :
  keeps true c -> heap_ok (k_heap s) L A -> fs_ok (k_files s) L -> c s = Ok (r, s') -> file_effect fs_ok [] A s s'.
Proof. intros Hc Hh Hf E. destruct (Hc s L A r s' Hh Hf E) as (ws & Q & G). by rewrite Q in G. Qed.
End laws.

#[export] Program Instance fs_VfsLaws {H : Type} `{!Heap H} `{!HeapLaws H} : VfsLaws H fstate := {
  files_ok := fs_ok
}.
Next Obligation.
  intros H ? ? s L A v flags r s' Hh Hf E. exact (keeps_quiet _ s L A r s' (keeps_vfs_open_vnode v flags) Hh Hf E).
Qed.
Next Obligation.
  intros H ? ? s L A f s' Hh Hf E. destruct (keeps_vfs_close f s L A tt s' Hh Hf E) as (ws & _ & G). eauto.
Qed.
Next Obligation.
  intros H ? ? s L A f s' Hh Hf E. exact (keeps_quiet _ s L A tt s' (keeps_file_ref f) Hh Hf E).
Qed.
Next Obligation. intros. do 3 eexists. split; [reflexivity|]. split; reflexivity. Qed.

(** Before anything is allocated. *)
Lemma initial_fs_ok L : fs_ok initial_fstate L.
Proof. intros p o Hp. simpl in Hp. by rewrite lookup_empty in Hp. Qed.

(** ** A demonstration machine

    The allocator of Kheap.v under the file layer, with the RAM file system
    mounted and the three devices registered. *)

Abbreviation demo_kstate := (kstate kheap_state fstate).

Definition demo_mounted : demo_kstate := final (vfs_init ;; ramfs_init ;; devfs_init) (zeroed demo_heap initial_fstate).

Lemma demo_mounted_run : exists r, (vfs_init ;; ramfs_init ;; devfs_init) (zeroed demo_heap initial_fstate) = Ok (r, demo_mounted).
Proof.
  destruct (run_final (vfs_init ;; ramfs_init ;; devfs_init) (zeroed demo_heap initial_fstate)) as [r E]; [vm_compute; reflexivity|].
  exists r. exact E.
Qed.

Lemma demo_mounted_ok : exists L, heap_ok (k_heap demo_mounted) L ∅ /\ fs_ok (k_files demo_mounted) L.
Proof.
  destruct demo_mounted_run as [r E].
  assert (Hk : keeps true (vfs_init ;; ramfs_init ;; devfs_init : M demo_kstate unit)).
  { apply keeps_bind; [by apply keeps_on_fs|]. intros _. apply keeps_bind; [apply keeps_ramfs_init|]. intros _. apply keeps_devfs_init. }
  assert (Hh : heap_ok (k_heap (zeroed demo_heap initial_fstate : demo_kstate)) ∅ ∅).
  { change (heap_ok demo_heap ∅ ∅). exact demo_heap_ok. }
  pose proof (keeps_quiet _ (zeroed demo_heap initial_fstate) ∅ ∅ r demo_mounted Hk Hh (initial_fs_ok ∅) E) as G.
  exact (effect_ok _ _ _ _ _ G).
Qed.
#[global] Opaque demo_mounted.
