(* ===== verification/Ramfs.v ===== *)
(** * Files of the RAM file system (kernel/fs/ramfs.c)

    A regular file is a vnode, its inode and a growing data buffer. [file_at]
    says which byte sequence they represent; reading, writing and truncating
    act on that sequence. *)

From Stdlib Require Import ZArith Lia.
From S2P Require Import Prelude HeapSpec Kstate Fd Fs FsLaws.

(** ** The growth loop *)

Lemma grow_spec n cap end_ :
  0 < cap < 2 ^ 32 -> end_ <= 2 ^ 31 -> end_ <= cap * 2 ^ Z.of_nat n ->
  exists j, 0 <= j <= Z.of_nat n /\ grow n cap end_ = Some (cap * 2 ^ j) /\ end_ <= cap * 2 ^ j < 2 ^ 32 /\
    (j = 0 \/ cap * 2 ^ (j - 1) < end_).
Proof.
  revert cap. induction n as [|n IH]; intros cap Hc He Hn; simpl grow; destruct (Z.leb_spec end_ cap) as [Hle|Hgt].
  - exists 0. rewrite Z.pow_0_r, Z.mul_1_r. split_and!; try done; lia || by left.
  - simpl in Hn. lia.
  - exists 0. rewrite Z.pow_0_r, Z.mul_1_r. split_and!; try done; lia || by left.
  - rewrite u32_small by lia. rewrite Nat2Z.inj_succ, Z.pow_succ_r in Hn by lia.
    destruct (IH (cap * 2)) as (j & Hj & E & Hr & Hm); [lia|lia|lia|]. exists (j + 1).
    rewrite Z.pow_add_r, Z.pow_1_r by lia. split_and!; try lia.
    + rewrite E. f_equal. lia.
    + right. replace (j + 1 - 1) with j by lia. destruct Hm as [->|Hm]; [rewrite Z.pow_0_r; lia|].
      replace j with (j - 1 + 1) by lia. destruct (decide (j = 0)) as [->|]; [rewrite Z.pow_0_r; lia|].
      rewrite Z.pow_add_r, Z.pow_1_r by lia. lia.
Qed.

(** The growth loop of [ramfs_write] ends for every file end up to 2 GiB
    with the first doubling of the capacity that is large enough, and never
    ends beyond it: the capacity wraps to 0 and stays there. *)
Theorem ramfs_growth_termination m end_ :
  6 <= m <= 31 -> 0 <= end_ < 2 ^ 32 ->
  if decide (end_ <= 2 ^ 31)
  then exists j, 0 <= j /\ grow GROW_FUEL (2 ^ m) end_ = Some (2 ^ (m + j)) /\ end_ <= 2 ^ (m + j) /\
         (j = 0 \/ 2 ^ (m + j - 1) < end_)
  else forall fuel, grow fuel (2 ^ m) end_ = None.
Proof.
  intros Hm He. assert (Hp : 2 ^ 6 <= 2 ^ m <= 2 ^ 31) by (split; apply Z.pow_le_mono_r; lia).
  case_decide as Hd.
  - destruct (grow_spec GROW_FUEL (2 ^ m) end_) as (j & Hj & E & Hr & Hmin); [lia|done| |].
    { change (2 ^ Z.of_nat GROW_FUEL) with (2 ^ 33). lia. }
    exists j. rewrite <- Z.pow_add_r in E, Hr by lia. split; [lia|]. split; [done|]. split; [lia|].
    destruct Hmin as [|Hmin]; [by left|]. destruct (decide (j = 0)); [by left|]. right.
    rewrite <- Z.pow_add_r in Hmin by lia. by replace (m + j - 1) with (m + (j - 1)) by lia.
  - assert (Hz : forall fuel, grow fuel 0 end_ = None).
    { induction fuel as [|fuel IH]; simpl; destruct (Z.leb_spec end_ 0); try lia; done. }
    intros fuel. clear Hp. revert m Hm. induction fuel as [|fuel IH]; intros m Hm; simpl;
      assert (2 ^ m <= 2 ^ 31) by (apply Z.pow_le_mono_r; lia); destruct (Z.leb_spec end_ (2 ^ m)); try lia; [done|].
    destruct (decide (m = 31)) as [->|]; [apply Hz|].
    assert (2 ^ m <= 2 ^ 30) by (apply Z.pow_le_mono_r; lia).
    rewrite u32_small by lia. replace (2 ^ m * 2) with (2 ^ (m + 1)) by (rewrite Z.pow_add_r by lia; lia). apply IH. lia.
Qed.

Lemma ramfs_growth_termination_witness : grow GROW_FUEL (2 ^ 6) 1000 = Some 1024 /\ grow 100 (2 ^ 6) 0xF0000000 = None.
Proof.
  split.
  - pose proof (ramfs_growth_termination 6 1000 ltac:(lia) ltac:(lia)) as H. simpl in H. reflexivity.
  - pose proof (ramfs_growth_termination 6 0xF0000000 ltac:(lia) ltac:(lia)) as H.
    rewrite decide_False in H by lia. exact (H 100%nat).
Defined.

(** ** Representation *)

(** The bytes beyond the file's size have never been written. *)
Inductive buf_at (o : gmap Z obj) (buf cap : Z) (data : list byte) : Prop :=
| buf_none : buf = 0 -> cap = 0 -> data = [] -> buf_at o buf cap data
| buf_some m : buf <> 0 -> cap = 2 ^ m -> 6 <= m <= 31 -> Z.of_nat (length data) <= cap ->
    o !! buf = Some (OBuf (data ++ replicate (Z.to_nat cap - length data) None)) -> buf_at o buf cap data.

Record file_at (o : gmap Z obj) (v : Z) (x : vnode) (ino : ramfs_inode) (data : list byte) : Prop := {
  fa_vnode : o !! v = Some (OVnode x);
  fa_type : v_type x = VNODE_FILE;
  fa_size : v_size x = Z.of_nat (length data);
  fa_inode : o !! v_data x = Some (OInode ino);
  fa_buf : buf_at o (i_buf ino) (i_capacity ino) data
}.

(** Other objects do not matter. *)
Lemma file_at_frame o o' v x ino data : file_at o v x ino data ->
  (forall p w, p = v \/ p = v_data x \/ p = i_buf ino -> o !! p = Some w -> o' !! p = Some w) -> file_at o' v x ino data.
Proof.
  intros [Ev Et Es Ei Hb] Hk. split; try done; [by apply Hk; [left|]|by apply Hk; [right; left|]|].
  destruct Hb as [? ? ?|k ? ? ? ? Eb]; [by apply buf_none|]. eapply buf_some; try done. apply Hk; [by right; right|done].
Qed.

(** Writing [src] at [offset]; a gap is left unwritten. *)
Definition overwrite (data : list byte) (offset : nat) (src : list byte) : list byte :=
  take offset (data ++ replicate (offset - length data) None) ++ src ++ drop (offset + length src) data.

Lemma overwrite_length data offset src :
  length (overwrite data offset src) = Nat.max (length data) (offset + length src).
Proof. unfold overwrite. rewrite !length_app, length_take, length_drop, length_app, length_replicate. lia. Qed.

Lemma splice_padded (data : list byte) k offset (src : list byte) :
  (offset + length src <= length data + k)%nat ->
  splice (data ++ replicate k None) offset src =
    overwrite data offset src ++ replicate (length data + k - Nat.max (length data) (offset + length src)) None.
Proof.
  intros Hk. unfold splice, overwrite, byte in *. rewrite !drop_app, !take_app, drop_replicate, !take_replicate, <- !app_assoc.
  f_equal. rewrite (Nat.min_l _ k), Nat.min_id by lia. do 3 f_equal. f_equal. lia.
Qed.

Lemma splice_length data at_ src : (at_ + length src <= length data)%nat -> length (splice data at_ src) = length data.
Proof. intros Hl. unfold splice. rewrite !length_app, length_take, length_drop. lia. Qed.

(** ** Running file operations on explicit states

    [st s h m] is [s] with heap [h] and objects [m]. *)

Section run.
Context {H : Type} `{!Heap H} `{!HeapLaws H}.
Implicit Types (s : kstate H fstate) (m : gmap Z obj).

Definition st s (h : H) m : kstate H fstate := set_k_files (set_objs m (k_files s)) (set_k_heap h s).
Definition objs_ok m (L : gmap Z Z) : Prop := forall p o, m !! p = Some o -> p <> 0 /\ is_Some (L !! p) /\ obj_ok o.
Definition stacks_kept (A : gmap Z Z) (h h' : H) : Prop := forall a, owned ∅ A a -> heap_word h' a = heap_word h a.

Lemma st_self s : s = st s (k_heap s) (objs (k_files s)).
Proof. destruct s as [? []]. reflexivity. Qed.

Lemma load_st {T} (view : obj -> option T) s h m p o y :
  m !! p = Some o -> view o = Some y -> load view p (st s h m) = Ok (y, st s h m).
Proof. intros Hp Hv. unfold load. simpl. by rewrite Hp; simpl; rewrite Hv. Qed.

Lemma store_st s h m p o o' : m !! p = Some o' -> store p o (st s h m) = Ok (tt, st s h (<[p := o]> m)).
Proof. intros Hp. unfold store. simpl. by rewrite Hp. Qed.

Lemma objs_ok_insert m L p o o' : objs_ok m L -> m !! p = Some o' -> obj_ok o -> objs_ok (<[p := o]> m) L.
Proof.
  intros Hm Hp Ho q x. rewrite lookup_insert. case_decide as Hd; [|apply Hm]. intros [= <-]. subst q.
  destruct (Hm p o' Hp) as (? & ? & _). done.
Qed.

Lemma new_obj_st s h m L A size o :
  heap_ok h L A -> objs_ok m L -> 0 < size < HEAP_REQUEST -> obj_ok o ->
  (exists msg, new_obj size o (st s h m) = Stop (Panic msg)) \/
  (exists h', new_obj size o (st s h m) = Ok (0, st s h' m) /\ heap_ok h' L A /\ stacks_kept A h h') \/
  (exists p h', new_obj size o (st s h m) = Ok (p, st s h' (<[p := o]> m)) /\ p <> 0 /\ m !! p = None /\
     heap_ok h' (<[p := size]> L) A /\ objs_ok (<[p := o]> m) (<[p := size]> L) /\ stacks_kept A h h').
Proof. intros Hh Hm Hsz Ho. exact (new_obj_run (st s h m) L A size o Hh Hm Hsz Ho). Qed.

(** An object is refused for lack of memory only. *)
Lemma new_obj_refused s h m size o s' : new_obj size o (st s h m) = Ok (0, s') -> exists h', heap_malloc size h = Ok (0, h').
Proof.
  unfold new_obj. intros E. apply bind_inv in E as (p & s1 & E1 & E). unfold on_heap, zoom in E1. cbn [k_heap st] in E1.
  change (k_heap (st s h m)) with h in E1. destruct (heap_malloc size h) as [[q h']|]; [|done]. injection E1 as <- <-.
  destruct (Z.eqb_spec q 0) as [->|Hq]; [by exists h'|]. by injection E.
Qed.
Lemma new_obj_panics s h m size o f : new_obj size o (st s h m) = Stop f -> heap_malloc size h = Stop f.
Proof.
  unfold new_obj, mbind, M_bind, on_heap, zoom. change (k_heap (st s h m)) with h.
  destruct (heap_malloc size h) as [[q h']|]; [by destruct (q =? 0)|]. by intros [= ->].
Qed.

Lemma kfree_obj_st s h m L A p o :
  heap_ok h L A -> objs_ok m L -> m !! p = Some o ->
  exists h', kfree_obj p (st s h m) = Ok (tt, st s h' (delete p m)) /\ heap_ok h' (delete p L) A /\
    objs_ok (delete p m) (delete p L) /\ stacks_kept A h h'.
Proof. intros Hh Hm Hp. exact (kfree_obj_run (st s h m) L A p o Hh Hm Hp). Qed.

Lemma stacks_kept_trans A h1 h2 h3 : stacks_kept A h1 h2 -> stacks_kept A h2 h3 -> stacks_kept A h1 h3.
Proof. intros H1 H2 a Ha. rewrite H2, H1 by done. done. Qed.
End run.

(** Execute a load or a store at the head of a computation on an explicit state. *)
Ltac run_load E :=
  lazymatch goal with |- context [(load ?view _ ≫= _) (st _ _ _)] =>
    rewrite (bind_ok _ _ _ _ _ (load_st view _ _ _ _ _ _ E eq_refl)) end.
Ltac run_store E := rewrite (bind_ok _ _ _ _ _ (store_st _ _ _ _ _ _ E)).

(** ** Reading *)

Section files.
Context {H : Type} `{!Heap H} `{!HeapLaws H}.
Implicit Types (s : kstate H fstate) (m : gmap Z obj).

Definition slice (data : list byte) (offset len : Z) : list byte := take (Z.to_nat len) (drop (Z.to_nat offset) data).

Lemma ramfs_read_run s h m v x ino data offset len :
  file_at m v x ino data -> Z.of_nat (length data) < 2 ^ 31 -> 0 <= offset -> 0 <= len ->
  ramfs_read v len offset (st s h m) = Ok ((Z.of_nat (length (slice data offset len)), slice data offset len), st s h m).
Proof.
  intros Hf Hd Ho Hl. destruct Hf as [Ev Et Es Ei Hb]. unfold ramfs_read, slice. run_load Ev. rewrite Et, Z.eqb_refl. cbn [negb].
  run_load Ei. rewrite Es. destruct (Z.leb_spec (Z.of_nat (length data)) offset) as [Hle|Hgt].
  { rewrite drop_ge by lia. by rewrite take_nil. }
  destruct Hb as [? ? ->|k Hbuf Hcap Hk Hlc Eb]; [simpl in Hgt; lia|]. run_load Eb.
  set (n := if len <? _ then _ else _).
  assert (Hn : 0 <= n <= Z.of_nat (length data) - offset /\ (n = len \/ n = Z.of_nat (length data) - offset /\ n <= len)).
  { unfold n. destruct (Z.ltb_spec len (Z.of_nat (length data) - offset)); lia. }
  rewrite length_app, (proj2 (Z.ltb_ge _ _)) by lia. unfold mret, M_ret. do 2 f_equal.
  rewrite drop_app_le, take_app_le by (rewrite ?length_drop; lia).
  replace (take (Z.to_nat n) (drop (Z.to_nat offset) data)) with (take (Z.to_nat len) (drop (Z.to_nat offset) data)).
  2: { destruct Hn as (Hn & [->|(-> & Hnl)]); [done|]. rewrite !take_ge by (rewrite length_drop; lia). done. }
  f_equal. rewrite length_take, length_drop. unfold s32. rewrite u32_small by lia.
  rewrite (proj2 (Z.ltb_lt _ _)) by lia. lia.
Qed.

(** ** Writing *)

(** What a write leaves alone. *)
Definition others_kept m m' (own : list Z) : Prop := forall q o, q ∉ own -> m !! q = Some o -> m' !! q = Some o.

Lemma copy_old_run s h m p data old cap :
  m !! p = Some (OBuf (replicate cap None)) -> (length data <= cap)%nat -> take (length data) old = data ->
  copy_in p 0 (take (length data) old) (st s h m) = Ok (tt, st s h (<[p := OBuf (data ++ replicate (cap - length data) None)]> m)).
Proof.
  intros Hp Hl Ht. rewrite Ht. unfold copy_in. case_bool_decide as Hd.
  { subst data. simpl. rewrite Nat.sub_0_r. by rewrite insert_id. }
  run_load Hp. rewrite length_replicate, (proj2 (Z.ltb_ge _ _)) by lia. rewrite (store_st _ _ _ _ _ _ Hp).
  do 4 f_equal. unfold splice. simpl. by rewrite drop_replicate.
Qed.

Lemma buf_capacity m buf cap data : buf_at m buf cap data -> 0 <= cap <= 2 ^ 31 /\ Z.of_nat (length data) <= cap /\ (buf = 0 <-> cap = 0).
Proof.
  intros [-> -> ->|k Hb -> Hk Hl _]; [simpl; lia|].
  assert (2 ^ 0 <= 2 ^ k <= 2 ^ 31) by (split; apply Z.pow_le_mono_r; lia). lia.
Qed.

Lemma buf_contents m buf cap data : buf_at m buf cap data -> buf <> 0 ->
  exists old, m !! buf = Some (OBuf old) /\ take (length data) old = data /\ Z.of_nat (length old) = cap.
Proof.
  intros [-> _ _|k Hb -> Hk Hl Eb] Hne; [done|]. eexists. split; [exact Eb|].
  rewrite take_app_length. split; [done|]. rewrite length_app, length_replicate. lia.
Qed.

(** The capacity the loop arrives at. *)
Lemma grow_capacity m buf cap data end_ :
  buf_at m buf cap data -> cap < end_ <= 2 ^ 31 ->
  exists k, 6 <= k <= 31 /\ grow GROW_FUEL (if truthy cap then cap else 64) end_ = Some (2 ^ k) /\ end_ <= 2 ^ k <= Z.max 64 (2 * end_).
Proof.
  intros Hb He. assert (Hc : exists k, 6 <= k <= 31 /\ (if truthy cap then cap else 64) = 2 ^ k /\ (2 ^ k = 64 \/ 2 ^ k = cap)).
  { destruct Hb as [_ -> _|k _ -> Hk _ _]; [exists 6; split_and!; [done|done|done|by left]|]. exists k. split; [done|]. unfold truthy.
    rewrite (proj2 (Z.eqb_neq _ 0)) by lia. split; [done|by right]. }
  destruct Hc as (k & Hk & -> & Hfit). assert (Hp : 2 ^ 6 <= 2 ^ k <= 2 ^ 31) by (split; apply Z.pow_le_mono_r; lia).
  destruct (grow_spec GROW_FUEL (2 ^ k) end_) as (j & Hj & E & Hr & Hmin); [lia|lia| |].
  { change (2 ^ Z.of_nat GROW_FUEL) with (2 ^ 33). lia. }
  assert (Hmax : 2 ^ k * 2 ^ j <= Z.max 64 (2 * end_)).
  { destruct Hmin as [->|Hmin]; [rewrite Z.pow_0_r; destruct Hfit; lia|]. destruct (decide (j = 0)) as [->|]; [rewrite Z.pow_0_r; destruct Hfit; lia|].
    replace j with (Z.succ (j - 1)) by lia. rewrite Z.pow_succ_r by lia. lia. }
  rewrite <- Z.pow_add_r in E, Hr, Hmax by lia. exists (k + j). split; [|split; [done|lia]].
  split; [lia|]. assert (k + j < 32) by (apply (Z.pow_lt_mono_r_iff 2); lia). lia.
Qed.

(** The two copies of [ramfs_grow]: the old data into the new buffer. *)
Lemma grow_copy_run s h m x ino data p k :
  buf_at m (i_buf ino) (i_capacity ino) data -> v_size x = Z.of_nat (length data) ->
  m !! p = Some (OBuf (replicate (Z.to_nat (2 ^ k)) None)) -> Z.of_nat (length data) <= 2 ^ k ->
  (if truthy (i_buf ino) && truthy (v_size x) then
     old ← load as_buf (i_buf ino);
     if Z.of_nat (length old) <? v_size x then stop (Undefined "read past the end of a buffer") else
     copy_in p 0 (take (Z.to_nat (v_size x)) old)
   else mret tt) (st s h m) = Ok (tt, st s h (<[p := OBuf (data ++ replicate (Z.to_nat (2 ^ k) - length data) None)]> m)).
Proof.
  intros Hb Hs Hp Hl. rewrite Hs. pose proof (buf_capacity _ _ _ _ Hb) as (_ & Hc & _). destruct (decide (data = [])) as [->|Hne].
  { rewrite andb_false_r. simpl. rewrite Nat.sub_0_r. by rewrite insert_id. }
  assert (Hbuf : i_buf ino <> 0). { destruct Hb as [_ _ ->|]; [done|done]. }
  assert (length data <> 0%nat) by (by intros ?%nil_length_inv). unfold truthy. rewrite !(proj2 (Z.eqb_neq _ 0)) by lia.
  cbn [andb negb]. destruct (buf_contents _ _ _ _ Hb Hbuf) as (old & Eo & Ht & Hlo). run_load Eo.
  rewrite (proj2 (Z.ltb_ge _ _)) by lia. rewrite Nat2Z.id. apply copy_old_run; [done|lia|done].
Qed.

Lemma free_old_run s h m L A buf cap data :
  heap_ok h L A -> objs_ok m L -> buf_at m buf cap data ->
  exists h' L', (if truthy buf then kfree_obj buf else mret tt) (st s h m) = Ok (tt, st s h' (delete buf m)) /\
    heap_ok h' L' A /\ objs_ok (delete buf m) L'.
Proof.
  intros Hh Hm [-> _ _|k Hb _ _ _ Eo].
  { assert (Hz : m !! 0 = None) by (destruct (m !! 0) as [o|] eqn:E; [by destruct (Hm 0 o E)|done]). rewrite (delete_id m 0) by done. by exists h, L. }
  unfold truthy. rewrite (proj2 (Z.eqb_neq _ 0)) by done. cbn [negb].
  destruct (kfree_obj_st s h m L A _ _ Hh Hm Eo) as (h' & E & Hh' & Hm' & _).
  by exists h', (delete buf L).
Qed.

(** The buffer that holds [end_] bytes cannot be had. *)
Definition no_buffer h (end_ : Z) (r : res (Z * H)) : Prop := exists n, end_ <= n <= Z.max 64 (2 * end_) /\ heap_malloc n h = r.

(** Replacing the buffer. *)
Lemma ramfs_grow_run s h m L A v x ino data end_ :
  heap_ok h L A -> objs_ok m L -> file_at m v x ino data -> i_capacity ino < end_ <= 2 ^ 31 ->
  (exists msg, ramfs_grow v end_ x ino (st s h m) = Stop (Panic msg) /\ no_buffer h end_ (Stop (Panic msg))) \/
  (exists h', ramfs_grow v end_ x ino (st s h m) = Ok (None, st s h' m) /\ heap_ok h' L A /\ exists h0, no_buffer h end_ (Ok (0, h0))) \/
  (exists ino' h' m' L', ramfs_grow v end_ x ino (st s h m) = Ok (Some ino', st s h' m') /\
     file_at m' v x ino' data /\ end_ <= i_capacity ino' /\ m !! i_buf ino' = None /\ heap_ok h' L' A /\ objs_ok m' L' /\
     others_kept m m' [v_data x; i_buf ino] /\
     m' = <[v_data x := OInode ino']> (delete (i_buf ino) (<[i_buf ino' := OBuf (data ++ replicate (Z.to_nat (i_capacity ino') - length data) None)]> m)) /\
     i_children ino' = i_children ino).
Proof.
  intros Hh Hm Hf He. destruct Hf as [Ev Et Es Ei Hb]. unfold ramfs_grow.
  destruct (grow_capacity _ _ _ _ _ Hb He) as (k & Hk & -> & Hek).
  pose proof (buf_capacity _ _ _ _ Hb) as (Hc0 & Hc & Hz). assert (2 ^ 6 <= 2 ^ k <= 2 ^ 31) by (split; apply Z.pow_le_mono_r; lia).
  destruct (new_obj_st s h m L A (2 ^ k) (OBuf (replicate (Z.to_nat (2 ^ k)) None)) Hh Hm)
    as [(msg & E)|[(h1 & E & Hh1 & _)|(p & h1 & E & Hp & Hpn & Hh1 & Hm1 & _)]]; [unfold HEAP_REQUEST; lia|done|..].
  { left. exists msg. split; [by apply bind_stop|]. exists (2 ^ k). split; [done|]. by apply new_obj_panics in E. }
  { right. left. exists h1. rewrite (bind_ok _ _ _ _ _ E). split; [done|]. split; [done|].
    apply new_obj_refused in E as [h0 E]. by exists h0, (2 ^ k). }
  right. right. rewrite (bind_ok _ _ _ _ _ E), (proj2 (Z.eqb_neq p 0)) by done. clear E.
  assert (Hb1 : buf_at (<[p := OBuf (replicate (Z.to_nat (2 ^ k)) None)]> m) (i_buf ino) (i_capacity ino) data).
  { destruct Hb as [? ? ?|k' ? ? ? ? Eb]; [by apply buf_none|]. eapply buf_some; try done.
    rewrite lookup_insert_ne; [done|congruence]. }
  rewrite (bind_ok _ _ _ _ _ (grow_copy_run s h1 _ x ino data p k Hb1 Es (lookup_insert_eq _ _ _) ltac:(lia))).
  rewrite insert_insert_eq. set (m2 := <[p := _]> m).
  assert (Hm2 : objs_ok m2 (<[p := 2 ^ k]> L)).
  { unfold m2. rewrite <- (insert_insert_eq m p _ (OBuf (replicate (Z.to_nat (2 ^ k)) None))).
    eapply objs_ok_insert; [done|apply lookup_insert_eq|done]. }
  assert (Hne : forall q o, m !! q = Some o -> m2 !! q = Some o).
  { intros q o Hq. unfold m2. rewrite lookup_insert_ne; [done|congruence]. }
  assert (Hb2 : buf_at m2 (i_buf ino) (i_capacity ino) data).
  { destruct Hb as [? ? ?|k' ? ? ? ? Eb]; [by apply buf_none|]. eapply buf_some; try done. by apply Hne. }
  destruct (free_old_run s h1 m2 _ A (i_buf ino) (i_capacity ino) data Hh1 Hm2 Hb2) as (h3 & L3 & E3 & Hh3 & Hm3). rewrite (bind_ok _ _ _ _ _ E3). clear E3.
  assert (Hi3 : i_buf ino <> v_data x /\ i_buf ino <> v /\ i_buf ino <> p).
  { destruct Hb as [-> ? ?|? ? ? ? ? Eb]; [|split_and!; congruence].
    pose proof (Hm _ _ Ei) as (? & _). pose proof (Hm _ _ Ev) as (? & _). split_and!; congruence. }
  destruct Hi3 as (Hi1 & Hi2 & Hi4). set (m3 := delete (i_buf ino) m2) in *.
  assert (Hm3k : forall q, q <> i_buf ino -> m3 !! q = m2 !! q) by (intros q Hq; unfold m3; by rewrite lookup_delete_ne).
  assert (Ei3 : m3 !! v_data x = Some (OInode ino)) by (rewrite Hm3k by done; by apply Hne).
  run_store Ei3. exists (set_i_data p (2 ^ k) ino), h3. eexists _, L3. split; [reflexivity|]. split_and!; try done.
  - split; try done.
    + rewrite lookup_insert_ne by congruence. rewrite Hm3k by done. by apply Hne.
    + simpl. by rewrite lookup_insert_eq.
    + simpl. eapply (buf_some _ _ _ _ k); try done; [lia|].
      rewrite lookup_insert_ne by congruence. rewrite Hm3k by done. unfold m2. by rewrite lookup_insert_eq.
  - simpl. lia.
  - eapply objs_ok_insert; [done|done|]. right. eauto.
  - intros q o Hq Eq. rewrite lookup_insert_ne by set_solver. rewrite Hm3k by set_solver. by apply Hne.
Qed.

Lemma copy_in_run s h m buf old src offset :
  m !! buf = Some (OBuf old) -> src <> [] -> offset + Z.of_nat (length src) <= Z.of_nat (length old) ->
  copy_in buf offset src (st s h m) = Ok (tt, st s h (<[buf := OBuf (splice old (Z.to_nat offset) src)]> m)).
Proof.
  intros Eb Hne Hl. unfold copy_in. rewrite bool_decide_false by done. run_load Eb.
  rewrite (proj2 (Z.ltb_ge _ _)) by lia. by rewrite (store_st _ _ _ _ _ _ Eb).
Qed.

(** Copying into a buffer that is large enough. *)
Lemma ramfs_copy_run s h m L v x ino data src offset :
  objs_ok m L -> file_at m v x ino data -> src <> [] -> 0 <= offset -> offset + Z.of_nat (length src) <= i_capacity ino ->
  offset + Z.of_nat (length src) < 2 ^ 31 -> Z.of_nat (length data) < 2 ^ 31 ->
  exists x' m', (copy_in (i_buf ino) offset src ;;
     (if v_size x <? offset +w Z.of_nat (length src) then store v (OVnode (set_v_size (offset +w Z.of_nat (length src)) x)) else mret tt) ;;
     mret (s32 (Z.of_nat (length src)))) (st s h m) = Ok (Z.of_nat (length src), st s h m') /\
    file_at m' v x' ino (overwrite data (Z.to_nat offset) src) /\ v_ops x' = v_ops x /\
    objs_ok m' L /\ others_kept m m' [v; i_buf ino] /\ v_data x' = v_data x /\
    m' = <[v := OVnode x']> (<[i_buf ino := OBuf (overwrite data (Z.to_nat offset) src ++
      replicate (Z.to_nat (i_capacity ino) - length (overwrite data (Z.to_nat offset) src)) None)]> m).
Proof.
  intros Hm [Ev Et Es Ei Hb] Hne Ho Hcap H31 Hd31. assert (length src <> 0%nat) by (by intros ?%nil_length_inv).
  pose proof (buf_capacity _ _ _ _ Hb) as (Hc0 & Hc & Hz).
  destruct Hb as [? ? ?|k Hb Ek Hk Hl Eb]; [lia|]. set (end_ := offset + Z.of_nat (length src)) in *. 
  rewrite (u32_small end_), (bind_ok _ _ _ _ _ (copy_in_run s h m _ _ src offset Eb Hne ltac:(rewrite length_app, length_replicate; lia))) by lia.
  rewrite splice_padded by lia. set (new := overwrite _ _ _). set (m1 := <[i_buf ino := _]> m).
  assert (Hnew : Z.of_nat (length new) = Z.max (v_size x) end_) by (unfold new; rewrite overwrite_length; lia).
  assert (Ev1 : m1 !! v = Some (OVnode x)) by (unfold m1; rewrite lookup_insert_ne; [done|congruence]).
  assert (Hm1 : objs_ok m1 L) by (by eapply objs_ok_insert).
  set (x' := set_v_size (Z.max (v_size x) end_) x). set (m2 := <[v := OVnode x']> m1).
  assert (Hend : (if v_size x <? end_ then store v (OVnode (set_v_size end_ x)) else mret tt) (st s h m1) = Ok (tt, st s h m2)).
  { unfold m2, x'. destruct (Z.ltb_spec (v_size x) end_).
    - rewrite (store_st _ _ _ _ _ _ Ev1), Z.max_r by lia. done.
    - rewrite Z.max_l by lia. unfold mret, M_ret. do 3 f_equal. symmetry. apply insert_id. rewrite Ev1. by destruct x. }
  rewrite (bind_ok _ _ _ _ _ Hend). clear Hend. exists x', m2. split_and!.
  - unfold s32, mret, M_ret. rewrite u32_small, (proj2 (Z.ltb_lt _ _)) by lia. done.
  - split; try done; unfold m2.
    + apply lookup_insert_eq.
    + simpl. unfold m1. rewrite !lookup_insert_ne by congruence. done.
    + apply (buf_some _ _ _ _ k); try done; [lia|]. rewrite lookup_insert_ne by congruence. unfold m1. rewrite lookup_insert_eq.
      do 4 f_equal. unfold new. rewrite overwrite_length. lia.
  - done.
  - by eapply objs_ok_insert.
  - intros q o Hq Eq. unfold m2, m1. by rewrite !lookup_insert_ne by set_solver.
  - done.
  - unfold m2, m1. do 5 f_equal. unfold new. rewrite overwrite_length. lia.
Qed.

(** The state after a write: the file holds [new], reads return its bytes,
    and objects other than [own] are untouched. *)
Definition written (A : gmap Z Z) (v : Z) (ops : vops) (new : list byte) m (own : list Z) s' : Prop :=
  exists x ino L, file_at (objs (k_files s')) v x ino new /\ v_ops x = ops /\ heap_ok (k_heap s') L A /\ fs_ok (k_files s') L /\
    others_kept m (objs (k_files s')) own /\
    forall off len, 0 <= off -> 0 <= len ->
      ramfs_read v len off s' = Ok ((Z.of_nat (length (slice new off len)), slice new off len), s').

Lemma write_tail s h m m1 L A v x ino data src offset own :
  heap_ok h L A -> objs_ok m1 L -> file_at m1 v x ino data -> src <> [] -> 0 <= offset ->
  offset + Z.of_nat (length src) <= i_capacity ino -> offset + Z.of_nat (length src) < 2 ^ 31 -> Z.of_nat (length data) < 2 ^ 31 ->
  others_kept m m1 own -> (i_buf ino ∈ own \/ m !! i_buf ino = None) ->
  exists s', (copy_in (i_buf ino) offset src ;;
     (if v_size x <? offset +w Z.of_nat (length src) then store v (OVnode (set_v_size (offset +w Z.of_nat (length src)) x)) else mret tt) ;;
     mret (s32 (Z.of_nat (length src)))) (st s h m1) = Ok (Z.of_nat (length src), s') /\
    written A v (v_ops x) (overwrite data (Z.to_nat offset) src) m (v :: own) s'.
Proof.
  intros Hh Hm Hf Hne Ho Hcap H31 Hd31 Hk Hown.
  destruct (ramfs_copy_run s h m1 L v x ino data src offset Hm Hf Hne Ho Hcap H31 Hd31) as (x' & m' & E & Hf' & Hops & Hm' & Hk' & _).
  exists (st s h m'). split; [exact E|]. exists x', ino, L. split_and!; try done.
  - intros q o Hq Eq. apply Hk'; [|apply Hk; [set_solver|done]].
    destruct Hown as [Hi|Hi]; [set_solver|]. assert (q <> i_buf ino) by congruence. set_solver.
  - intros off len Hoff Hlen. apply (ramfs_read_run s h m' v x' ino); try done. rewrite overwrite_length. lia.
Qed.

(** A regular file is an array of bytes. Writing [src] at [offset] either
    panics for want of a page table, or returns -1 with every object as it was
    when a larger buffer is needed and memory is exhausted, or returns the
    length of [src] and stores it at [offset], extending the file when it goes
    beyond the end; bytes outside the range, and all objects other than the
    file's vnode, inode and buffer, keep their values. Reading afterwards
    returns exactly the bytes of that array. *)
Lemma ramfs_write_run s L A v x ino data src offset :
  heap_ok (k_heap s) L A -> fs_ok (k_files s) L -> file_at (objs (k_files s)) v x ino data ->
  src <> [] -> 0 <= offset -> offset + Z.of_nat (length src) < 2 ^ 31 -> Z.of_nat (length data) < 2 ^ 31 ->
  let grows := i_capacity ino < offset + Z.of_nat (length src) in
  (grows /\ exists msg, ramfs_write v src offset s = Stop (Panic msg) /\ no_buffer (k_heap s) (offset + Z.of_nat (length src)) (Stop (Panic msg))) \/
  (grows /\ exists s', ramfs_write v src offset s = Ok (-1, s') /\ k_files s' = k_files s /\ heap_ok (k_heap s') L A /\
     exists h0, no_buffer (k_heap s) (offset + Z.of_nat (length src)) (Ok (0, h0))) \/
  (exists s', ramfs_write v src offset s = Ok (Z.of_nat (length src), s') /\
     written A v (v_ops x) (overwrite data (Z.to_nat offset) src) (objs (k_files s)) [v; v_data x; i_buf ino] s').
Proof.
  intros Hh Hm Hf Hne Ho H31 Hd31 grows. set (h := k_heap s) in *. set (m := objs (k_files s)) in *.
  change (fs_ok (k_files s) L) with (objs_ok m L) in Hm. pose proof Hf as [Ev Et Es Ei Hb].
  assert (Er : ramfs_write v src offset s = ramfs_write v src offset (st s h m)) by (unfold h, m; by rewrite <- st_self).
  rewrite Er. clear Er. unfold ramfs_write. run_load Ev. rewrite Et, Z.eqb_refl. cbn [negb]. run_load Ei. cbv zeta.
  set (end_ := offset + Z.of_nat (length src)) in *. rewrite (u32_small end_) by lia.
  destruct (Z.ltb_spec (i_capacity ino) end_) as [Hlt|Hge].
  - destruct (ramfs_grow_run s h m L A v x ino data end_ Hh Hm Hf ltac:(lia))
      as [(msg & E & Hn)|[(h1 & E & Hh1 & Hn)|(ino1 & h1 & m1 & L1 & E & Hf1 & Hc1 & Hb1 & Hh1 & Hm1 & Hk1 & _)]].
    + left. split; [done|]. exists msg. split; [by apply bind_stop|done].
    + right. left. split; [done|]. rewrite (bind_ok _ _ _ _ _ E). eexists. split; [reflexivity|]. split; [by destruct s as [? []]|done].
    + right. right. rewrite (bind_ok _ _ _ _ _ E). cbv iota.
      destruct (write_tail s h1 m m1 L1 A v x ino1 data src offset [v_data x; i_buf ino] Hh1 Hm1 Hf1 Hne Ho Hc1 H31 Hd31 Hk1
        ltac:(by right)) as (s' & Es' & Hw).
      fold end_ in Es'. rewrite (u32_small end_) in Es' by lia. exists s'. done.
  - right. right. destruct (write_tail s h m m L A v x ino data src offset [v_data x; i_buf ino] Hh Hm Hf Hne Ho Hge H31 Hd31
      ltac:(intros q o _ Eq; exact Eq) ltac:(left; set_solver)) as (s' & Es' & Hw).
    fold end_ in Es'. rewrite (u32_small end_) in Es' by lia. exists s'. done.
Qed.
End files.
