(* ===== verification/Proc.v ===== *)
(** * Processes and scheduling (kernel/proc/proc.c, sched.c, fork.c, exec.c,
      include/proc.h; timer_handler of kernel/drivers/timer.c)

    The process table, the PID bitmap and the scheduler's ready queue, over
    the heap interface of HeapSpec.v (kernel stacks) and the file interface of
    Fd.v (descriptor tables). A pointer to a process control block is its
    index in [proc_table] ([None] is the null pointer).

    [sched_yield] raises interrupt 0x80 and continues in [sched_switch_esp];
    it is modelled as that composition, with the stack pointer the interrupt
    entry saves as an argument. When the result is 0 the caller goes on; when
    it is a stack pointer another process runs, and the caller continues after
    the yield when it is next selected. *)

From Stdlib Require Import ZArith Lia.
From S2P Require Import Prelude HeapSpec Kstate Fd.

(** What [strncpy(p->name, name, PROC_NAME_LEN)] leaves in the 32 bytes of the
    field (the 33rd zero it may write falls on [state], which is assigned
    right after). *)
Fixpoint until_nul (s : list Z) : list Z :=
  match s with
  | [] => []
  | c :: s' => if c =? 0 then [] else c :: until_nul s'
  end.
Definition copy_name (src : list Z) : list Z :=
  take PROC_NAME_LEN (until_nul src ++ repeat 0 PROC_NAME_LEN).

(** "unnamed" and "child" *)
Definition unnamed : list Z := [117; 110; 110; 97; 109; 101; 100].
Definition child_name : list Z := [99; 104; 105; 108; 100].

(** The register image [proc_create] puts into [context]. *)
Definition initial_context : regs_t :=
  Regs 0x10 0x10 0x10 0x10 0 0 0 0 0 0 0 0 0 0 0 0x08 0x202 0 0.

(** The time quantum of a priority. *)
Definition timeslice_of (priority : Z) : Z :=
  let tslice :=
    if priority <? PROC_PRIO_NORMAL then PROC_TIMESLICE_DEFAULT + (PROC_PRIO_NORMAL - priority) / 2
    else if PROC_PRIO_NORMAL <? priority then PROC_TIMESLICE_DEFAULT - (priority - PROC_PRIO_NORMAL) / 5
    else PROC_TIMESLICE_DEFAULT in
  if tslice <? 2 then 2 else tslice.

Section kernel.
Context {H : Type} `{!Heap H} {F : Type} `{!Vfs H F}.
Local Abbreviation kstate := (kstate H F).

(** ** PIDs *)

Definition pid_bitmap_set (pid : Z) (s : kstate) : kstate := set_pid_bitmap (bm_set (pid_bitmap s) pid) s.
Definition pid_bitmap_clear (pid : Z) (s : kstate) : kstate := set_pid_bitmap (bm_clear (pid_bitmap s) pid) s.
Definition pid_bitmap_test (s : kstate) (pid : Z) : bool := bm_test (pid_bitmap s) pid.

Definition reset_slot (i : Z) (s : kstate) : kstate :=
  upd_pcb i (fun p =>
    PCB i (p_ppid p) (p_name p) PROC_UNUSED (p_exit_code p) (p_context p) (p_esp_kernel p) (p_esp0 p)
      (p_kstack_base p) (p_kstack_top p) (p_page_directory p) (p_priority p) (p_base_priority p)
      (p_timeslice_len p) (p_timeslice p) (p_ticks_total p) (p_ticks_scheduled p) (p_tick_last_run p)
      (p_tick_created p) (p_wakeup_tick p) (p_wait_for_pid p) (p_waiting p) (p_fd_table p)) s.
Definition reset_word (i : Z) (s : kstate) : kstate := set_pid_bitmap (<[i := 0]> (pid_bitmap s)) s.

Definition proc_init : M kstate unit := modify (fun s =>
  let s := for_up (Z.to_nat MAX_PROCS) 0 reset_slot s in
  let s := for_up (Z.to_nat (MAX_PROCS / 32)) 0 reset_word s in
  set_pid_search_hint PID_INIT (pid_bitmap_set PID_KERNEL s)).

(** One pass of the scan: the first PID of [start, end) whose bit is clear. *)
Definition pid_scan (s : kstate) (start end_ : Z) : option Z :=
  find_up (Z.to_nat (end_ - start)) start (fun pid => negb (pid_bitmap_test s pid)).

Definition take_pid (pid : Z) (s : kstate) : kstate :=
  set_pid_search_hint (if pid + 1 <? MAX_PROCS then pid + 1 else PID_INIT) (pid_bitmap_set pid s).

Definition pid_alloc : M kstate Z := fun s =>
  match pid_scan s (pid_search_hint s) MAX_PROCS with
  | Some pid => Ok (pid, take_pid pid s)
  | None =>
      match pid_scan s PID_INIT (pid_search_hint s) with
      | Some pid => Ok (pid, take_pid pid s)
      | None => Ok (PID_INVALID, s)
      end
  end.

(** The bitmap has [MAX_PROCS] bits; a larger PID would be read out of bounds. *)
Definition pid_free (pid : Z) : M kstate unit := fun s =>
  if (pid =? PID_KERNEL) || (pid =? PID_INVALID) then Ok (tt, s) else
  if MAX_PROCS <=? pid then Stop (Undefined "pid_bitmap index") else
  if negb (pid_bitmap_test s pid) then Ok (tt, s) else
  let s := pid_bitmap_clear pid s in
  Ok (tt, if pid <? pid_search_hint s then set_pid_search_hint pid s else s).

Definition timer_get_ticks : M kstate Z := gets tick_count.

(** ** Process lifecycle *)

Definition proc_create (name : option (list Z)) (priority : Z) : M kstate (option Z) :=
  pid ← pid_alloc;
  if pid =? PID_INVALID then mret None else
  st ← gets (fun s => state_of s pid);
  if negb (bool_decide (st = PROC_UNUSED)) then pid_free pid ;; mret None else
  kstack ← on_heap (heap_malloc_aligned KSTACK_SIZE);
  if kstack =? 0 then pid_free pid ;; mret None else
  let priority := if PROC_PRIO_IDLE <? priority then PROC_PRIO_IDLE else priority in
  let tslice := timeslice_of priority in
  now ← timer_get_ticks;
  table ← fd_table_init;
  modify (fun s => set_proc_table (<[pid :=
    PCB pid PID_KERNEL (copy_name (default unnamed name)) PROC_EMBRYO 0 initial_context
      0 (kstack +w KSTACK_SIZE) kstack (kstack +w KSTACK_SIZE) 0 priority priority
      tslice tslice 0 0 0 now 0 PID_INVALID false table]> (proc_table s)) s) ;;
  mret (Some pid).

(** The words [proc_init_frame] pushes, in order. *)
Definition frame_words (entry_point : Z) : list Z :=
  [0x202; 0x08; entry_point; 0; 0; 0; 0; 0; 0; 0; 0; 0; 0; 0x10; 0x10; 0x10; 0x10].

Fixpoint push_words (sp : Z) (ws : list Z) : M kstate Z :=
  match ws with
  | [] => mret sp
  | w :: ws' => on_heap (heap_store (sp -w 4) w) ;; push_words (sp -w 4) ws'
  end.

Definition proc_init_frame (p : option Z) (entry_point : Z) : M kstate unit :=
  match p with
  | None => mret tt
  | Some i =>
      top ← gets (fun s => p_kstack_top (pcb_at s i));
      if top =? 0 then mret tt else
      sp ← push_words top (frame_words entry_point);
      modify (upd_pcb i (set_p_esp_kernel sp))
  end.

Definition proc_set_ready (p : option Z) : M kstate unit :=
  match p with
  | None => mret tt
  | Some i =>
      st ← gets (fun s => state_of s i);
      if negb (bool_decide (st = PROC_EMBRYO)) then
        stop (Panic "PROC: proc_set_ready called on non-EMBRYO process")
      else modify (upd_pcb i (set_p_state PROC_READY))
  end.

Definition proc_destroy (p : option Z) : M kstate unit :=
  match p with
  | None => mret tt
  | Some i =>
      p ← gets (fun s => pcb_at s i);
      if negb (bool_decide (p_state p = PROC_ZOMBIE)) then
        stop (Panic "PROC: proc_destroy called on non-ZOMBIE process")
      else
      (if p_kstack_base p =? 0 then mret tt else on_heap (heap_free_aligned (p_kstack_base p))) ;;
      fd_table_close_all (p_fd_table p) ;;
      pid_free (p_pid p) ;;
      modify (fun s => set_proc_table (<[i :=
        PCB (p_pid p) (p_ppid zero_pcb) (p_name zero_pcb) PROC_UNUSED 0 zero_regs
          0 0 0 0 0 0 0 0 0 0 0 0 0 0 0 false (p_fd_table zero_pcb)]> (proc_table s)) s)
  end.

Definition proc_set_priority (p : option Z) (priority : Z) : M kstate unit :=
  match p with
  | None => mret tt
  | Some i =>
      let priority := if PROC_PRIO_IDLE <? priority then PROC_PRIO_IDLE else priority in
      modify (upd_pcb i (fun p => set_p_base_priority priority (set_p_priority priority p)))
  end.

Definition proc_set_timeslice (p : option Z) (ticks : Z) : M kstate unit :=
  match p with
  | None => mret tt
  | Some i =>
      if ticks <? 2 then mret tt else
      modify (upd_pcb i (fun p => set_p_timeslice ticks (set_p_timeslice_len ticks p)))
  end.

(** ** Scheduling *)

(** One process of the scan of [sched_tick]. *)
Definition tick_one (now i : Z) : M kstate unit := fun s =>
  match proc_get s i with
  | None => Ok (tt, s)
  | Some i =>
      let p := pcb_at s i in
      if negb (bool_decide (p_state p = PROC_BLOCKED)) then Ok (tt, s) else
      if p_wakeup_tick p =? 0 then Ok (tt, s) else
      if p_wakeup_tick p <=? now then proc_wake (Some i) s else Ok (tt, s)
  end.

Definition sched_tick : M kstate unit :=
  modify (set_tick_flag true) ;;
  now ← timer_get_ticks;
  for_upM (Z.to_nat MAX_PROCS) 0 (tick_one now).

Definition timer_handler : M kstate unit :=
  modify (fun s => set_tick_count (tick_count s +w 1) s) ;; sched_tick.

Definition sched_current : M kstate (option Z) := gets current_proc.

(** The selection loop: the first entry of the queue with the lowest priority
    number among those that [ok] accepts, with its index. *)
Definition select (ok : Z -> bool) (s : kstate) : option (Z * Z) :=
  (for_up (Z.to_nat (queue_size s)) 0
    (fun i (acc : Z * option (Z * Z)) =>
       match ready_queue s !! i with
       | None => acc
       | Some p =>
           if ok p && (p_priority (pcb_at s p) <? acc.1) then (p_priority (pcb_at s p), Some (p, i)) else acc
       end) (255, None)).2.

(** The state in which [sched_switch_esp] looks for a successor of [c]: the
    flag is consumed and the time slice decremented. *)
Definition slice_used (c : Z) (s : kstate) : kstate :=
  let s := set_tick_flag false s in
  if 0 <? p_timeslice (pcb_at s c) then upd_pcb c (fun p => set_p_timeslice (p_timeslice p - 1) p) s else s.

(** The control block of the process that leaves the CPU. *)
Definition descheduled (now esp : Z) (p : pcb) : pcb :=
  let p := set_p_esp_kernel esp p in
  let p := set_p_ticks_total (p_ticks_total p +w p_timeslice_len p) p in
  let p := set_p_tick_last_run now p in
  if bool_decide (p_state p = PROC_RUNNING) then set_p_state PROC_READY p else p.

(** The control block of the process that gets the CPU. *)
Definition dispatched (p : pcb) : pcb :=
  set_p_ticks_scheduled (p_ticks_scheduled p +w 1) (set_p_timeslice (p_timeslice_len p) (set_p_state PROC_RUNNING p)).

Definition eligible (s : kstate) (c p : Z) : bool :=
  negb (p =? c) && bool_decide (state_of s p = PROC_READY).

Definition sched_switch_esp (current_esp : Z) : M kstate Z := fun s =>
  if negb (sched_enabled s) || negb (tick_flag s) then Ok (0, s) else
  match current_proc s with
  | None => Ok (0, set_tick_flag false s)
  | Some c =>
      let s := slice_used c s in
      if 0 <? p_timeslice (pcb_at s c) then Ok (0, s) else
      match select (eligible s c) s with
      | None => Ok (0, upd_pcb c (fun p => set_p_timeslice (p_timeslice_len p) p) s)
      | Some (next, next_idx) =>
          let s := upd_pcb c (descheduled (tick_count s) current_esp) s in
          let s := upd_pcb next dispatched (set_current_proc (Some next) (set_current_idx next_idx s)) in
          Ok (p_esp_kernel (pcb_at s next), set_tss_esp0 (p_esp0 (pcb_at s next)) s)
      end
  end.

(** The stack pointer that [sched_start_first] loads, [None] when nothing can
    be started. *)
Definition sched_start : M kstate (option Z) := fun s =>
  if queue_size s =? 0 then Ok (None, s) else
  match select (fun p => bool_decide (state_of s p = PROC_READY)) s with
  | None => Ok (None, s)
  | Some (first, first_idx) =>
      let s := set_current_idx first_idx (set_current_proc (Some first) s) in
      let s := upd_pcb first (fun p => set_p_ticks_scheduled (p_ticks_scheduled p +w 1) (set_p_state PROC_RUNNING p)) s in
      let s := set_tss_esp0 (p_esp0 (pcb_at s first)) (set_sched_enabled true s) in
      Ok (Some (p_esp_kernel (pcb_at s first)), s)
  end.

Definition sched_force_switch : M kstate unit := modify (fun s =>
  let s := set_tick_flag true s in
  match current_proc s with
  | None => s
  | Some c => upd_pcb c (set_p_timeslice 0) s
  end).

Definition sched_yield (esp : Z) : M kstate Z := sched_force_switch ;; sched_switch_esp esp.

(** ** Exit, wait, sleep *)

Definition proc_exit (exit_code esp : Z) : M kstate Z := fun s =>
  match current_proc s with
  | None => Ok (0, s)
  | Some i =>
      (modify (upd_pcb i (fun p => set_p_state PROC_ZOMBIE (set_p_exit_code exit_code p))) ;;
       p ← gets (fun s => pcb_at s i);
       (if (p_ppid p =? PID_KERNEL) || (p_ppid p =? PID_INVALID) then mret tt else
        parent ← gets (fun s => proc_get s (p_ppid p));
        match parent with
        | None => mret tt
        | Some j =>
            w ← gets (fun s => pcb_at s j);
            if p_waiting w && ((p_wait_for_pid w =? PID_INVALID) || (p_wait_for_pid w =? p_pid p))
            then proc_wake (Some j) else mret tt
        end) ;;
       sched_remove i ;;
       sched_yield esp) s
  end.

(** The child the scan of [proc_wait] reaps: the lowest-numbered zombie child
    that matches. *)
Definition zombie_child (s : kstate) (self pid : Z) : option Z :=
  find_up (Z.to_nat MAX_PROCS) 0 (fun i =>
    match proc_get s i with
    | None => false
    | Some c =>
        (p_ppid (pcb_at s c) =? p_pid (pcb_at s self)) &&
        ((pid =? PID_INVALID) || (p_pid (pcb_at s c) =? pid)) &&
        bool_decide (state_of s c = PROC_ZOMBIE)
    end).

(** One iteration of the loop of [proc_wait]: a reaped child with its exit
    code, or the process blocks and yields. *)
Inductive wait_result : Type :=
| WaitNoProcess
| WaitReaped (pid code : Z)
| WaitBlocked (esp : Z).

Definition proc_wait_try (pid esp : Z) : M kstate wait_result := fun s =>
  match current_proc s with
  | None => Ok (WaitNoProcess, s)
  | Some self =>
      match zombie_child s self pid with
      | Some c =>
          let code := p_exit_code (pcb_at s c) in
          let cpid := p_pid (pcb_at s c) in
          (proc_destroy (Some c) ;; mret (WaitReaped cpid code)) s
      | None =>
          (modify (upd_pcb self (fun p =>
             set_p_state PROC_BLOCKED (set_p_wakeup_tick 0 (set_p_waiting true (set_p_wait_for_pid pid p))))) ;;
           sched_remove self ;;
           r ← sched_yield esp;
           mret (WaitBlocked r)) s
      end
  end.

(** Back from the yield: [self->waiting = 0], then the loop starts again. *)
Definition proc_wait_resume (self pid esp : Z) : M kstate wait_result :=
  modify (upd_pcb self (set_p_waiting false)) ;; proc_wait_try pid esp.

Definition proc_sleep (ticks esp : Z) : M kstate Z := fun s =>
  match current_proc s with
  | None => Ok (0, s)
  | Some i =>
      if ticks =? 0 then Ok (0, s) else
      (modify (fun s => upd_pcb i (fun p => set_p_state PROC_BLOCKED (set_p_wakeup_tick (tick_count s +w ticks) p)) s) ;;
       sched_remove i ;;
       sched_yield esp) s
  end.

(** The current process blocks until another one wakes it (the body shared by
    [pipe_block] and the wait loop of [kbd_read]). *)
Definition block_self (esp : Z) : M kstate Z := fun s =>
  match current_proc s with
  | None => Ok (0, s)
  | Some i => (modify (upd_pcb i (set_p_state PROC_BLOCKED)) ;; sched_remove i ;; sched_yield esp) s
  end.

(** ** Fork and exec *)

(** The child's parent and descriptors. *)
Definition wire_child (parent : option Z) (c : Z) : M kstate unit :=
  match parent with
  | None => mret tt
  | Some i =>
      ppid ← gets (fun s => p_pid (pcb_at s i));
      modify (upd_pcb c (set_p_ppid ppid)) ;;
      fresh ← gets (fun s => p_fd_table (pcb_at s c));
      fd_table_close_all fresh ;;
      inherited ← gets (fun s => p_fd_table (pcb_at s i));
      table ← fd_table_clone inherited;
      modify (upd_pcb c (set_p_fd_table table))
  end.

Definition proc_fork (child_entry : Z) : M kstate Z :=
  parent ← gets current_proc;
  name ← gets (fun s => match parent with Some i => p_name (pcb_at s i) | None => child_name end);
  priority ← gets (fun s => match parent with Some i => p_priority (pcb_at s i) | None => PROC_PRIO_NORMAL end);
  child ← proc_create (Some name) priority;
  match child with
  | None => mret PID_INVALID
  | Some c =>
      wire_child parent c ;;
      proc_init_frame (Some c) child_entry ;;
      proc_set_ready (Some c) ;;
      sched_add (Some c) ;;
      gets (fun s => p_pid (pcb_at s c))
  end.

Definition proc_exec (p : option Z) (new_entry : Z) : M kstate Z :=
  match p with
  | None => mret (-1)
  | Some i =>
      st ← gets (fun s => state_of s i);
      if bool_decide (st = PROC_RUNNING) then mret (-1) else
      sched_remove i ;;
      proc_init_frame (Some i) new_entry ;;
      modify (upd_pcb i (fun p =>
        set_p_state PROC_READY (set_p_waiting false (set_p_wakeup_tick 0 (set_p_timeslice (p_timeslice_len p)
          (set_p_ticks_scheduled 0 (set_p_ticks_total 0 p))))))) ;;
      sched_add (Some i) ;;
      mret 0
  end.

(** The launch of the idle process in [kernel_main]: "idle". *)
Definition idle_name : list Z := [105; 100; 108; 101].
Definition launch_idle (idle_process : Z) : M kstate unit :=
  idle ← proc_create (Some idle_name) PROC_PRIO_IDLE;
  kassert (bool_decide (is_Some idle)) "idle != 0" ;;
  proc_init_frame idle idle_process ;;
  proc_set_ready idle ;;
  sched_add idle.
End kernel.

Definition proc_state_name (s : proc_state_t) : string :=
  match s with
  | PROC_UNUSED => "UNUSED"
  | PROC_EMBRYO => "EMBRYO"
  | PROC_READY => "READY"
  | PROC_RUNNING => "RUNNING"
  | PROC_BLOCKED => "BLOCKED"
  | PROC_ZOMBIE => "ZOMBIE"
  end.
