(* ===== verification/ProcInv.v ===== *)
(** * The invariant of the process manager and the scheduler

    [proc_inv] relates the process table, the PID bitmap, the ready queue (as
    a list), the current process and the heap blocks that hold the kernel
    stacks; the lemmas below show that the operations of Proc.v keep it. They
    are proved for every implementation of the heap and file interfaces. *)

From Stdlib Require Import ZArith Lia.
From S2P Require Import Prelude HeapSpec Kstate Fd Proc.

(** ** Reading the state after an update *)

Abbreviation used s i := (state_of s i <> PROC_UNUSED).
Abbreviation runnable s i := (state_of s i = PROC_READY \/ state_of s i = PROC_RUNNING).

Section laws.
Context {H : Type} `{!Heap H} `{!HeapLaws H} {F : Type} `{!Vfs H F} `{!VfsLaws H F}.
Implicit Types (s : kstate H F) (q : list Z).

Lemma pcb_upd s i f j : pcb_at (upd_pcb i f s) j = if decide (i = j) then f (pcb_at s i) else pcb_at s j.
Proof. unfold pcb_at at 1, upd_pcb. simpl. rewrite lookup_insert. by case_decide. Qed.
Lemma state_upd s i f j :
  state_of (upd_pcb i f s) j = if decide (i = j) then p_state (f (pcb_at s i)) else state_of s j.
Proof. unfold state_of. rewrite pcb_upd. by case_decide. Qed.

(** ** PID allocation *)

Lemma pid_scan_Some s a b pid :
  a <= b -> pid_scan s a b = Some pid <->
  a <= pid < b /\ pid_bitmap_test s pid = false /\ (forall k, a <= k < pid -> pid_bitmap_test s k = true).
Proof.
  intros Hab. unfold pid_scan. rewrite find_up_Some. rewrite Z2Nat.id by lia.
  replace (a + (b - a)) with b by lia.
  split; intros (H1 & H2 & H3).
  - split_and!; [lia|lia|by apply negb_true_iff|]. intros k Hk. apply negb_false_iff. by apply H3.
  - split_and!; [lia|lia|by apply negb_true_iff|]. intros k Hk. apply negb_false_iff. by apply H3.
Qed.
Lemma pid_scan_None s a b :
  a <= b -> pid_scan s a b = None <-> (forall k, a <= k < b -> pid_bitmap_test s k = true).
Proof.
  intros Hab. unfold pid_scan. rewrite find_up_None. rewrite Z2Nat.id by lia.
  replace (a + (b - a)) with b by lia. 
  split; intros Hk k Hr; apply negb_false_iff; by apply Hk.
Qed.

Lemma pid_test_set s pid k :
  pid_bitmap_test (take_pid pid s) k = if decide (pid = k) then true else pid_bitmap_test s k.
Proof. unfold pid_bitmap_test. simpl. apply bm_test_set. Qed.

(** Outcome of [pid_alloc]: a PID that was free, the next one at or after the
    hint, wrapping to 1; or none is free. *)
Lemma pid_alloc_cases s :
  1 <= pid_search_hint s < MAX_PROCS ->
  (exists pid, pid_alloc s = Ok (pid, take_pid pid s) /\ 1 <= pid < MAX_PROCS /\
     pid_bitmap_test s pid = false /\
     (pid_search_hint s <= pid /\ (forall k, pid_search_hint s <= k < pid -> pid_bitmap_test s k = true) \/
      pid < pid_search_hint s /\ (forall k, pid_search_hint s <= k < MAX_PROCS -> pid_bitmap_test s k = true) /\
        (forall k, 1 <= k < pid -> pid_bitmap_test s k = true))) \/
  (pid_alloc s = Ok (PID_INVALID, s) /\ forall k, 1 <= k < MAX_PROCS -> pid_bitmap_test s k = true).
Proof.
  intros Hh. unfold pid_alloc.
  destruct (pid_scan s (pid_search_hint s) MAX_PROCS) as [pid|] eqn:E1.
  - apply pid_scan_Some in E1 as (H1 & H2 & H3); [|lia]. left. exists pid. split_and!; [done|lia|lia|done|left; split; [lia|done]].
  - rewrite pid_scan_None in E1 by lia.
    destruct (pid_scan s PID_INIT (pid_search_hint s)) as [pid|] eqn:E2.
    + apply pid_scan_Some in E2 as (H1 & H2 & H3); [|unfold PID_INIT; lia]. unfold PID_INIT in *. left.
      exists pid. split_and!; [done|lia|lia|done|right; split; [lia|done]].
    + rewrite pid_scan_None in E2 by (unfold PID_INIT; lia). unfold PID_INIT in *. right. split; [done|].
      intros k Hk. destruct (decide (k < pid_search_hint s)); [apply E2|apply E1]; lia.
Qed.

Lemma take_pid_hint pid s : 1 <= pid < MAX_PROCS -> 1 <= pid_search_hint (take_pid pid s) < MAX_PROCS.
Proof.
  intros Hp. simpl. unfold MAX_PROCS, PID_INIT in *. destruct (Z.ltb_spec (pid + 1) 256); lia.
Qed.

(** [pid_free] of a PID in use. *)
Lemma pid_free_used s pid :
  1 <= pid < MAX_PROCS -> pid_bitmap_test s pid = true -> 1 <= pid_search_hint s < MAX_PROCS ->
  exists s', pid_free pid s = Ok (tt, s') /\
    s' = set_pid_search_hint (Z.min pid (pid_search_hint s)) (pid_bitmap_clear pid s) /\
    (forall k, pid_bitmap_test s' k = if decide (pid = k) then false else pid_bitmap_test s k).
Proof.
  intros Hp Ht Hh. unfold pid_free, MAX_PROCS, PID_KERNEL, PID_INVALID in *.
  rewrite (proj2 (Z.eqb_neq pid 0)), (proj2 (Z.eqb_neq pid 65535)), (proj2 (Z.leb_gt 256 pid)) by lia.
  rewrite Ht. simpl. eexists. split; [done|]. split.
  - destruct (Z.ltb_spec pid (pid_search_hint s)).
    + by rewrite Z.min_l by lia.
    + rewrite Z.min_r by lia. by destruct s.
  - intros k. destruct (pid <? pid_search_hint s); unfold pid_bitmap_test; simpl; apply bm_test_clear.
Qed.

(** ** The queue as a list *)

Definition queue_rep (rq : gmap Z Z) (n : Z) (q : list Z) : Prop :=
  n = Z.of_nat (length q) /\ forall i, rq !! i = if decide (0 <= i) then q !! Z.to_nat i else None.

Lemma queue_rep_add rq n q p : queue_rep rq n q -> queue_rep (<[n := p]> rq) (n + 1) (q ++ [p]).
Proof.
  intros [-> Hq]. split; [rewrite length_app; simpl; lia|]. intros i. rewrite lookup_insert.
  destruct (decide (Z.of_nat (length q) = i)) as [<-|Hne].
  - rewrite decide_True by lia. rewrite Nat2Z.id. by rewrite lookup_app_r, Nat.sub_diag by lia.
  - rewrite Hq. case_decide; [|done]. destruct (decide (i < Z.of_nat (length q))).
    + by rewrite lookup_app_l by lia.
    + rewrite lookup_ge_None_2 by lia. symmetry. apply lookup_ge_None_2. rewrite length_app. simpl. lia.
Qed.

(** Removing index [i] by moving the last entry there. *)
Definition swap_remove (i : nat) (q : list Z) : list Z :=
  match last q with
  | Some x => take (length q - 1) (<[i := x]> q)
  | None => []
  end.

Lemma swap_remove_perm q i p : q !! i = Some p -> q ≡ₚ p :: swap_remove i q.
Proof.
  intros Hi. destruct q as [|z l _] using rev_ind; [done|]. unfold swap_remove. rewrite last_snoc.
  rewrite length_app. simpl. replace (length l + 1 - 1)%nat with (length l) by lia.
  destruct (decide (i < length l)%nat) as [Hlt|Hge].
  - rewrite lookup_app_l in Hi by done. rewrite insert_app_l by done.
    rewrite take_app_length' by by rewrite length_insert.
    rewrite <- (take_drop_middle l i p Hi) at 1.
    rewrite insert_take_drop by done. solve_Permutation.
  - assert (i = length l) as -> by (apply lookup_lt_Some in Hi; rewrite length_app in Hi; simpl in Hi; lia).
    rewrite lookup_app_r, Nat.sub_diag in Hi by lia. injection Hi as <-.
    rewrite insert_app_r_alt, Nat.sub_diag by lia. simpl. rewrite take_app_length. solve_Permutation.
Qed.

Lemma swap_remove_spec q i p :
  NoDup q -> q !! i = Some p -> NoDup (swap_remove i q) /\
  length (swap_remove i q) = (length q - 1)%nat /\ (forall x, x ∈ swap_remove i q <-> x ∈ q /\ x <> p).
Proof.
  intros Hnd Hi. pose proof (swap_remove_perm q i p Hi) as Hp. revert Hp.
  generalize (swap_remove i q) as r. intros r Hp. rewrite Hp in Hnd.
  apply NoDup_cons in Hnd as [Hnin Hnd]. split_and!; [done| |].
  - apply Permutation_length in Hp. simpl in Hp. lia.
  - intros x. rewrite Hp. split.
    + intros Hx. split; [by right|]. by intros ->.
    + intros [Hx Hne]. apply elem_of_cons in Hx as [->|Hx]; [done|done].
Qed.

Lemma queue_rep_drop rq n q i p :
  queue_rep rq n q -> q !! i = Some p ->
  queue_rep (delete (n - 1) (match rq !! (n - 1) with
     | Some x => <[Z.of_nat i := x]> rq | None => delete (Z.of_nat i) rq end)) (n - 1) (swap_remove i q).
Proof.
  intros [-> Hq] Hi. pose proof (lookup_lt_Some _ _ _ Hi) as Hlt.
  destruct q as [|z l _] using rev_ind; [simpl in Hlt; lia|].
  rewrite length_app in *. simpl in *. unfold swap_remove. rewrite last_snoc, length_app. simpl.
  replace (length l + 1 - 1)%nat with (length l) by lia. replace (Z.of_nat (length l + 1) - 1) with (Z.of_nat (length l)) by lia.
  assert (rq !! Z.of_nat (length l) = Some z) as ->.
  { rewrite Hq, decide_True by lia. rewrite Nat2Z.id, lookup_app_r, Nat.sub_diag by lia. done. }
  split.
  - rewrite length_take, length_insert, length_app. simpl. lia.
  - intros k. rewrite lookup_delete, lookup_insert, Hq. destruct (decide (0 <= k)) as [Hk|Hk].
    + destruct (decide (Z.of_nat (length l) = k)) as [<-|Hne].
      * rewrite Nat2Z.id. symmetry. apply lookup_ge_None_2. rewrite length_take. lia.
      * destruct (decide (Z.to_nat k < length l)%nat).
        -- rewrite lookup_take_lt by done. rewrite list_lookup_insert. repeat case_decide; try lia; try done.
           rewrite length_app in *. simpl in *. lia.
        -- rewrite (lookup_ge_None_2 (take _ _)) by (rewrite length_take; lia).
           case_decide; [lia|]. apply lookup_ge_None_2. rewrite length_app. simpl. lia.
    + repeat case_decide; try lia; done.
Qed.

(** [sched_remove] on the list. *)
Lemma sched_remove_list s q p :
  queue_rep (ready_queue s) (queue_size s) q -> NoDup q ->
  exists s' q', sched_remove p s = Ok (tt, s') /\
    s' = set_queue_size (queue_size s') (set_ready_queue (ready_queue s') s) /\
    queue_rep (ready_queue s') (queue_size s') q' /\ NoDup q' /\ (forall x, x ∈ q' <-> x ∈ q /\ x <> p).
Proof.
  intros Hq Hnd. unfold sched_remove, modify.
  destruct (find_up _ 0 _) as [i|] eqn:E.
  - apply find_up_Some in E as (Hi & Hp & _). apply bool_decide_eq_true in Hp.
    pose proof Hq as [Hn Hl]. rewrite Hl, decide_True in Hp by lia.
    destruct (swap_remove_spec q (Z.to_nat i) p Hnd Hp) as (H1 & _ & H3).
    eexists _, (swap_remove (Z.to_nat i) q). split; [done|]. split; [done|]. split; [|done].
    pose proof (queue_rep_drop _ _ _ _ _ Hq Hp) as Hr. rewrite Z2Nat.id in Hr by lia. exact Hr.
  - exists s, q. split; [done|]. split; [by destruct s|]. split; [done|]. split; [done|].
    rewrite find_up_None in E. intros x. split; [|by intros []]. intros Hx. split; [done|]. intros ->.
    apply list_elem_of_lookup in Hx as [i Hi]. pose proof (lookup_lt_Some _ _ _ Hi).
    destruct Hq as [Hn Hl]. specialize (E (Z.of_nat i) ltac:(lia)).
    apply bool_decide_eq_false in E. apply E. rewrite Hl, decide_True by lia. by rewrite Nat2Z.id.
Qed.

(** ** Selection *)

Definition prio_of (s : kstate H F) (p : Z) : Z := p_priority (pcb_at s p).

(** [select] finds the first entry of least priority number. *)
Lemma select_spec s q ok :
  queue_rep (ready_queue s) (queue_size s) q ->
  match select ok s with
  | Some (p, i) => 0 <= i /\ q !! Z.to_nat i = Some p /\ ok p = true /\ prio_of s p < 255 /\
      (forall j p', q !! j = Some p' -> ok p' = true -> prio_of s p <= prio_of s p') /\
      (forall j p', q !! j = Some p' -> ok p' = true -> Z.of_nat j < i -> prio_of s p < prio_of s p')
  | None => forall p, p ∈ q -> ok p = true -> 255 <= prio_of s p
  end.
Proof.
  intros [Hn Hq]. unfold select. set (body := fun (i : Z) (acc : Z * option (Z * Z)) => _).
  set (P := fun (i : Z) (acc : Z * option (Z * Z)) =>
    (forall j p', Z.of_nat j < i -> q !! j = Some p' -> ok p' = true -> acc.1 <= prio_of s p') /\
    match acc.2 with
    | Some (p, k) => 0 <= k < i /\ q !! Z.to_nat k = Some p /\ ok p = true /\ prio_of s p = acc.1 /\ acc.1 < 255 /\
        (forall j p', q !! j = Some p' -> ok p' = true -> Z.of_nat j < k -> acc.1 < prio_of s p')
    | None => acc.1 = 255
    end).
  assert (HP : P (Z.of_nat (Z.to_nat (queue_size s))) (for_up (Z.to_nat (queue_size s)) 0 body (255, None))).
  { apply (for_up0_ind P); [split; [lia|done]|]. intros j acc Hj [H1 H2]. subst body. cbv beta.
    rewrite Hq, decide_True by lia. destruct (q !! Z.to_nat j) as [p|] eqn:Ep.
    2: { split; [|destruct acc.2 as [[]|]; [|done]; split; [lia|tauto]].
      intros k p' Hk Hp'. destruct (decide (k = Z.to_nat j)) as [->|]; [congruence|]. apply (H1 k); [lia|done]. }
    fold (prio_of s p). destruct (ok p && (prio_of s p <? acc.1)) eqn:E.
    - apply andb_true_iff in E as [Eok El]. apply Z.ltb_lt in El.
      assert (acc.1 <= 255) by (destruct acc.2 as [[]|]; lia). split; simpl.
      + intros k p' Hk Hp' Hok'. destruct (decide (k = Z.to_nat j)) as [->|]; [assert (p = p') by congruence; subst; lia|].
        pose proof (H1 k p' ltac:(lia) Hp' Hok'). lia.
      + split_and!; try done; [lia|lia|lia|]. intros k p' Hp' Hok' Hk. pose proof (H1 k p' ltac:(lia) Hp' Hok'). lia.
    - split; [|destruct acc.2 as [[]|]; [|done]; split; [lia|tauto]].
      intros k p' Hk Hp' Hok'. destruct (decide (k = Z.to_nat j)) as [->|]; [|apply (H1 k); [lia|done|done]].
      assert (p = p') by congruence. subst p'. rewrite Hok' in E. simpl in E. by apply Z.ltb_ge in E. }
  rewrite Z2Nat.id in HP by lia. destruct (for_up _ 0 body _) as [best [[p i]|]]; destruct HP as [H1 H2]; simpl in *.
  - destruct H2 as (Hi & Hp & Hok & Hbest & H255 & Hfirst). rewrite <- Hbest in *. split_and!; try done; [lia|].
    intros j p' Hj. apply (H1 j); [|done]. pose proof (lookup_lt_Some _ _ _ Hj). lia.
  - intros p Hp Hok. apply list_elem_of_lookup in Hp as [j Hj]. subst best. apply (H1 j); [|done|done].
    pose proof (lookup_lt_Some _ _ _ Hj). lia.
Qed.

(** ** The invariant of the process table and the ready queue

    [L] and [A] are the live heap blocks, [q] the ready queue as a list, and
    [x] the slots whose queue entry is momentarily exempt. *)

Record slot_ok (s : kstate H F) (A : gmap Z Z) (i : Z) : Prop := {
  so_stack : A !! p_kstack_base (pcb_at s i) = Some KSTACK_SIZE;
  so_base : 0 < p_kstack_base (pcb_at s i) < 2 ^ 31 /\ p_kstack_base (pcb_at s i) mod 4096 = 0;
  so_top : p_kstack_top (pcb_at s i) = p_kstack_base (pcb_at s i) + KSTACK_SIZE;
  so_ppid : 0 <= p_ppid (pcb_at s i) /\ p_ppid (pcb_at s i) <> i;
  so_prio : 0 <= prio_of s i <= PROC_PRIO_IDLE;
  so_esp : state_of s i <> PROC_EMBRYO -> 0 < p_esp_kernel (pcb_at s i)
}.

Record proc_inv (x : list Z) (s : kstate H F) (L A : gmap Z Z) (q : list Z) : Prop := {
  pi_heap : heap_ok (k_heap s) L A;
  pi_files : files_ok (k_files s) L;
  pi_hint : 1 <= pid_search_hint s < MAX_PROCS;
  pi_pid : forall i, 1 <= i < MAX_PROCS -> p_pid (pcb_at s i) = i;
  pi_bit : forall i, 1 <= i < MAX_PROCS -> pid_bitmap_test s i = true <-> used s i;
  pi_slot : forall i, 1 <= i < MAX_PROCS -> used s i -> slot_ok s A i;
  pi_inj : forall i j, 1 <= i < MAX_PROCS -> 1 <= j < MAX_PROCS -> i <> j -> used s i -> used s j ->
    p_kstack_base (pcb_at s i) <> p_kstack_base (pcb_at s j);
  pi_queue : queue_rep (ready_queue s) (queue_size s) q;
  pi_nodup : NoDup q;
  pi_member : forall p, p ∈ q -> 1 <= p < MAX_PROCS /\ (p ∈ x \/ runnable s p);
  pi_queued : forall i, 1 <= i < MAX_PROCS -> runnable s i -> i ∈ x \/ i ∈ q;
  pi_running : forall i, 1 <= i < MAX_PROCS -> state_of s i = PROC_RUNNING -> current_proc s = Some i;
  pi_current : forall c, current_proc s = Some c -> 1 <= c < MAX_PROCS /\ used s c /\ state_of s c <> PROC_EMBRYO;
  pi_kernel : state_of s PID_KERNEL = PROC_UNUSED
}.

(** ** Preservation *)

(** The invariant depends on seven fields; the queue may change to another one
    that satisfies its part. *)
Lemma inv_fields x y s s' L A q q' :
  proc_inv x s L A q ->
  k_heap s' = k_heap s -> k_files s' = k_files s -> proc_table s' = proc_table s -> pid_bitmap s' = pid_bitmap s ->
  pid_search_hint s' = pid_search_hint s -> current_proc s' = current_proc s ->
  queue_rep (ready_queue s') (queue_size s') q' -> NoDup q' ->
  (forall p, p ∈ q' -> 1 <= p < MAX_PROCS /\ (p ∈ y \/ runnable s p)) ->
  (forall i, 1 <= i < MAX_PROCS -> runnable s i -> i ∈ y \/ i ∈ q') ->
  proc_inv y s' L A q'.
Proof.
  intros [I1 If I2 I3 I4 I5 I6 I7 I8 I9 Iq I10 I11 I12] E1 Ef E2 E3 E4 E7 Hq Hnd Hm Hmq.
  assert (Hp : forall i, pcb_at s' i = pcb_at s i) by (intros i; unfold pcb_at; by rewrite E2).
  assert (Hst : forall i, state_of s' i = state_of s i) by (intros i; unfold state_of; by rewrite Hp).
  split; rewrite ?E1, ?Ef, ?E4, ?E7; try done.
  - intros i Hi. rewrite Hp. auto.
  - intros i Hi. unfold pid_bitmap_test. rewrite E3, Hst. by apply I4.
  - intros i Hi. rewrite Hst. intros Hu. destruct (I5 i Hi Hu). split; unfold prio_of in *; rewrite ?Hp, ?Hst; done.
  - intros i j Hi Hj Hne. rewrite !Hst, !Hp. by apply I6.
  - intros p Hpq. rewrite Hst. by apply Hm.
  - intros i Hi. rewrite Hst. by apply Hmq.
  - intros i Hi. rewrite Hst. by apply I10.
  - intros c Hc. rewrite Hst. by apply I11.
  - by rewrite Hst.
Qed.

Lemma inv_irrelevant x s s' L A q :
  k_heap s' = k_heap s -> k_files s' = k_files s -> proc_table s' = proc_table s -> pid_bitmap s' = pid_bitmap s ->
  pid_search_hint s' = pid_search_hint s -> ready_queue s' = ready_queue s ->
  queue_size s' = queue_size s -> current_proc s' = current_proc s ->
  proc_inv x s L A q -> proc_inv x s' L A q.
Proof.
  intros E1 Ef E2 E3 E4 E5 E6 E7 Hinv. apply (inv_fields x x s s' L A q q); try done.
  - rewrite E5, E6. apply (pi_queue _ _ _ _ _ Hinv).
  - apply (pi_nodup _ _ _ _ _ Hinv).
  - apply (pi_member _ _ _ _ _ Hinv).
  - apply (pi_queued _ _ _ _ _ Hinv).
Qed.

Lemma inv_exempt x s L A q : proc_inv [] s L A q -> proc_inv x s L A q.
Proof.
  intros [I1 If I2 I3 I4 I5 I6 I7 I8 I9 Iq I10 I11 I12]. split; try done.
  - intros p Hp. destruct (I9 p Hp) as [? [?%elem_of_nil|?]]; [done|]. split; [done|by right].
  - intros i Hi Hr. destruct (Iq i Hi Hr) as [?%elem_of_nil|?]; [done|by right].
Qed.

(** What a change of one control block must keep. *)
Record pcb_change (x : list Z) (s : kstate H F) (q : list Z) (i : Z) (p' : pcb) : Prop := {
  pc_pid : p_pid p' = p_pid (pcb_at s i);
  pc_base : p_kstack_base p' = p_kstack_base (pcb_at s i);
  pc_top : p_kstack_top p' = p_kstack_top (pcb_at s i);
  pc_ppid : 0 <= p_ppid p' /\ p_ppid p' <> i;
  pc_prio : 0 <= p_priority p' <= PROC_PRIO_IDLE;
  pc_used : p_state p' <> PROC_UNUSED;
  pc_esp : p_state p' <> PROC_EMBRYO -> 0 < p_esp_kernel p';
  pc_member : i ∈ q -> i ∈ x \/ p_state p' = PROC_READY \/ p_state p' = PROC_RUNNING;
  pc_queued : p_state p' = PROC_READY \/ p_state p' = PROC_RUNNING -> i ∈ x \/ i ∈ q;
  pc_running : p_state p' = PROC_RUNNING -> current_proc s = Some i;
  pc_current : current_proc s = Some i -> p_state p' <> PROC_EMBRYO
}.

Lemma inv_upd x s L A q i f :
  proc_inv x s L A q -> 1 <= i < MAX_PROCS -> used s i -> pcb_change x s q i (f (pcb_at s i)) ->
  proc_inv x (upd_pcb i f s) L A q.
Proof.
  intros [I1 If I2 I3 I4 I5 I6 I7 I8 I9 Iq I10 I11 I12] Hi Hu [C1 C2 C3 C4 C5 C6 C7 C8 Cq C9 C10].
  assert (Hused : forall j, used (upd_pcb i f s) j <-> used s j).
  { intros j. rewrite state_upd. case_decide; [subst; tauto|done]. }
  assert (Hbase : forall j, p_kstack_base (pcb_at (upd_pcb i f s) j) = p_kstack_base (pcb_at s j)).
  { intros j. rewrite pcb_upd. case_decide; [by subst|done]. }
  split; try done.
  - intros j Hj. rewrite pcb_upd. case_decide; [subst; rewrite C1; auto|auto].
  - intros j Hj. rewrite Hused. by apply I4.
  - intros j Hj. rewrite Hused. intros Huj. destruct (I5 j Hj Huj) as [S1 S2 S3 S4 S5 S6].
    split; unfold prio_of in *; rewrite ?Hbase, ?state_upd, ?pcb_upd; try done; case_decide; subst; try done; congruence.
  - intros j k Hj Hk Hne. rewrite !Hused, !Hbase. by apply I6.
  - intros p Hp. destruct (I9 p Hp) as [Hr Hst]. split; [done|]. rewrite state_upd. case_decide; [subst; by apply C8|done].
  - intros j Hj. rewrite state_upd. case_decide; [subst; by apply Cq|by apply Iq].
  - intros j Hj. rewrite state_upd. case_decide; [subst; by apply C9|by apply I10].
  - intros c Hc. simpl in Hc. destruct (I11 c Hc) as (Hr & Huc & Hem). rewrite Hused, state_upd. split; [done|]. split; [done|].
    case_decide; [subst; by apply C10|done].
  - rewrite state_upd, decide_False by (unfold PID_KERNEL; lia). done.
Qed.

(** An update that leaves identity, stack, parent, priority, state and a
    positive saved stack pointer alone. *)
Lemma inv_upd_quiet x s L A q i f :
  proc_inv x s L A q -> 1 <= i < MAX_PROCS -> used s i ->
  (forall p, p_pid (f p) = p_pid p /\ p_kstack_base (f p) = p_kstack_base p /\ p_kstack_top (f p) = p_kstack_top p /\
     p_ppid (f p) = p_ppid p /\ p_priority (f p) = p_priority p /\ p_state (f p) = p_state p /\
     p_esp_kernel (f p) = p_esp_kernel p) ->
  proc_inv x (upd_pcb i f s) L A q.
Proof.
  intros Hinv Hi Hu Hf. destruct (Hf (pcb_at s i)) as (F1 & F2 & F3 & F4 & F5 & F6 & F7).
  apply inv_upd; try done. destruct (pi_slot _ _ _ _ _ Hinv i Hi Hu) as [S1 S2 S3 S4 S5 S6].
  split; rewrite ?F1, ?F2, ?F3, ?F4, ?F5, ?F6, ?F7; try done.
  - intros Hq. by apply (pi_member _ _ _ _ _ Hinv i Hq).
  - by apply (pi_queued _ _ _ _ _ Hinv i Hi).
  - by apply (pi_running _ _ _ _ _ Hinv i Hi).
  - intros Hc. by apply (pi_current _ _ _ _ _ Hinv i Hc).
Qed.

(** Changing the queue. *)
Lemma inv_queue x y s s' L A q q' :
  proc_inv x s L A q -> s' = set_queue_size (queue_size s') (set_ready_queue (ready_queue s') s) ->
  queue_rep (ready_queue s') (queue_size s') q' -> NoDup q' ->
  (forall p, p ∈ q' -> 1 <= p < MAX_PROCS /\ (p ∈ y \/ runnable s p)) ->
  (forall i, 1 <= i < MAX_PROCS -> runnable s i -> i ∈ y \/ i ∈ q') ->
  proc_inv y s' L A q'.
Proof. intros Hinv Hs Hq Hnd Hm Hmq. apply (inv_fields x y s s' L A q q'); try done; by rewrite Hs. Qed.

(** [sched_remove p] takes [p] out of the queue, which ends the exemption of
    a process that is not runnable. *)
Lemma sched_remove_inv s L A q p :
  proc_inv [p] s L A q -> exists s' q', sched_remove p s = Ok (tt, s') /\ proc_inv [p] s' L A q' /\
    (~ runnable s p -> proc_inv [] s' L A q') /\ (forall x, x ∈ q' <-> x ∈ q /\ x <> p) /\
    s' = set_queue_size (queue_size s') (set_ready_queue (ready_queue s') s).
Proof.
  intros Hinv. destruct (sched_remove_list s q p (pi_queue _ _ _ _ _ Hinv) (pi_nodup _ _ _ _ _ Hinv))
    as (s' & q' & E & Hs & Hr & Hnd & Hmem).
  assert (Hm : forall x, x ∈ q' -> 1 <= x < MAX_PROCS /\ runnable s x).
  { intros x Hx. apply Hmem in Hx as [Hx Hne]. 
    destruct (pi_member _ _ _ _ _ Hinv x Hx) as [? [?%list_elem_of_singleton|?]]; done. }
  assert (Hmq : forall i, 1 <= i < MAX_PROCS -> runnable s i -> i = p \/ i ∈ q').
  { intros i Hi Hri. destruct (decide (i = p)) as [->|Hne]; [by left|right]. apply Hmem. split; [|done].
    by destruct (pi_queued _ _ _ _ _ Hinv i Hi Hri) as [?%list_elem_of_singleton|?]. }
  exists s', q'. split; [done|]. split; [|split; [|done]].
  - apply (inv_queue [p] [p] s s' L A q q'); try done.
    + intros x Hx. destruct (Hm x Hx). split; [done|by right].
    + intros i Hi Hri. rewrite list_elem_of_singleton. auto.
  - intros Hnr. apply (inv_queue [p] [] s s' L A q q'); try done.
    + intros x Hx. destruct (Hm x Hx). split; [done|by right].
    + intros i Hi Hri. destruct (Hmq i Hi Hri) as [->|?]; [done|by right].
Qed.

Lemma queue_length q : NoDup q -> (forall p, p ∈ q -> 1 <= p < MAX_PROCS) -> Z.of_nat (length q) < MAX_PROCS.
Proof.
  intros Hnd Hr. assert (Hsub : list_to_set (C := gset Z) q ⊆ list_to_set (seqZ 1 (MAX_PROCS - 1))).
  { intros p Hp. apply elem_of_list_to_set in Hp. apply elem_of_list_to_set, elem_of_seqZ. apply Hr in Hp. lia. }
  apply subseteq_size in Hsub. rewrite !size_list_to_set in Hsub; [|apply NoDup_seqZ|done].
  rewrite length_seqZ in Hsub. unfold MAX_PROCS in *. lia.
Qed.

(** [sched_add] of a ready process that is not queued ends its exemption. *)
Lemma sched_add_inv x s L A q i :
  proc_inv (i :: x) s L A q -> 1 <= i < MAX_PROCS -> state_of s i = PROC_READY -> i ∉ q ->
  exists s', sched_add (Some i) s = Ok (tt, s') /\ proc_inv x s' L A (q ++ [i]) /\
    s' = set_queue_size (queue_size s') (set_ready_queue (ready_queue s') s).
Proof.
  intros Hinv Hi Hst Hnin. unfold sched_add. rewrite bool_decide_true by done. simpl.
  pose proof (pi_queue _ _ _ _ _ Hinv) as Hq. pose proof (pi_nodup _ _ _ _ _ Hinv) as Hnd.
  pose proof (queue_length q Hnd (fun p Hp => proj1 (pi_member _ _ _ _ _ Hinv p Hp))) as Hlen.
  rewrite (proj2 (Z.leb_gt _ _)) by (destruct Hq; lia).
  eexists. split; [done|]. split; [|done]. apply (inv_queue (i :: x) x s _ L A q (q ++ [i])); try done.
  - by apply queue_rep_add.
  - apply NoDup_app. split_and!; [done| |apply NoDup_singleton]. intros p Hp Hp'. apply list_elem_of_singleton in Hp'. by subst.
  - intros p Hp. apply elem_of_app in Hp as [Hp|Hp%list_elem_of_singleton]; [|subst; tauto].
    destruct (pi_member _ _ _ _ _ Hinv p Hp) as [? [[->|?]%elem_of_cons|?]]; [tauto|tauto|tauto].
  - intros j Hj Hr. rewrite elem_of_app, list_elem_of_singleton.
    destruct (pi_queued _ _ _ _ _ Hinv j Hj Hr) as [[->|?]%elem_of_cons|?]; tauto.
Qed.

(** A blocked process is not queued. *)
Lemma not_queued x s L A q i :
  proc_inv x s L A q -> i ∉ x -> state_of s i <> PROC_READY -> state_of s i <> PROC_RUNNING -> i ∉ q.
Proof. intros Hinv Hx H1 H2 Hq. destruct (pi_member _ _ _ _ _ Hinv i Hq) as [_ [?|[?|?]]]; done. Qed.

Lemma inv_weaken x y s L A q : (forall i, i ∈ x -> i ∈ y) -> proc_inv x s L A q -> proc_inv y s L A q.
Proof.
  intros Hxy [I1 If I2 I3 I4 I5 I6 I7 I8 I9 Iq I10 I11 I12]. split; try done.
  - intros p Hp. destruct (I9 p Hp) as [? [?|?]]; auto.
  - intros i Hi Hr. destruct (Iq i Hi Hr); auto.
Qed.

(** A step that changes no priority and no liveness. *)
Definition prios_kept s s' : Prop :=
  forall j, prio_of s' j = prio_of s j /\ (used s' j <-> used s j).

Lemma prios_kept_refl s : prios_kept s s.
Proof. done. Qed.
Lemma prios_kept_trans s1 s2 s3 : prios_kept s1 s2 -> prios_kept s2 s3 -> prios_kept s1 s3.
Proof. intros H1 H2 j. destruct (H1 j) as [<- H1'], (H2 j) as [<- H2']. by rewrite H2'. Qed.

Lemma proc_wake_inv x s L A q i :
  proc_inv x s L A q -> 1 <= i < MAX_PROCS -> i ∉ x ->
  exists s' q', proc_wake (Some i) s = Ok (tt, s') /\ proc_inv x s' L A q' /\
    current_proc s' = current_proc s /\ (forall j, j <> i -> pcb_at s' j = pcb_at s j) /\
    prios_kept s s' /\ q `prefix_of` q'.
Proof.
  intros Hinv Hi Hx. unfold proc_wake. rewrite (bind_ok _ _ s (state_of s i) s) by done.
  destruct (decide (state_of s i = PROC_BLOCKED)) as [Hb|Hb].
  2: { rewrite bool_decide_false by done. exists s, q. done. }
  rewrite bool_decide_true by done. simpl. set (f := fun p => set_p_state PROC_READY (set_p_wakeup_tick 0 p)).
  assert (Hu : used s i) by congruence. assert (Hnq : i ∉ q) by (apply (not_queued x s L A q); congruence).
  destruct (pi_slot _ _ _ _ _ Hinv i Hi Hu) as [S1 S2 S3 S4 S5 S6].
  assert (Hinv1 : proc_inv (i :: x) (upd_pcb i f s) L A q).
  { apply inv_upd; try done; [apply (inv_weaken x); [by right|done]|]. split; simpl; try done.
    - intros _. apply S6. congruence.
    - intros _. left. by left. }
  destruct (sched_add_inv x _ L A q i Hinv1 Hi) as (s' & E & Hinv' & Hs'); [|done|].
  { rewrite state_upd. by case_decide. }
  rewrite (bind_ok _ _ s tt (upd_pcb i f s)) by done. rewrite E. exists s', (q ++ [i]). split_and!; try done.
  - by rewrite Hs'.
  - intros j Hj. rewrite Hs'. change (pcb_at (upd_pcb i f s) j = pcb_at s j). rewrite pcb_upd. by case_decide.
  - intros j. rewrite Hs'. change (prio_of (upd_pcb i f s) j = prio_of s j /\ (used (upd_pcb i f s) j <-> used s j)).
    unfold prio_of. rewrite state_upd, pcb_upd. case_decide; [subst; split; [done|]|done]. by rewrite Hb.
  - by apply prefix_app_r.
Qed.

Lemma proc_wake_ready s i s' :
  state_of s i = PROC_BLOCKED -> proc_wake (Some i) s = Ok (tt, s') -> state_of s' i = PROC_READY.
Proof.
  intros Hb. unfold proc_wake, mbind, M_bind, gets, modify. rewrite Hb. simpl. set (f := fun p : pcb => set_p_state _ _).
  assert (Hr : state_of (upd_pcb i f s) i = PROC_READY) by by rewrite state_upd, decide_True by done.
  unfold sched_add. rewrite Hr. simpl. destruct (MAX_PROCS <=? _); intros [= <-]; exact Hr.
Qed.

Lemma proc_get_Some s i j : 0 <= i -> proc_get s i = Some j -> j = i /\ 0 <= i < MAX_PROCS /\ used s i.
Proof.
  intros Hi. unfold proc_get. destruct (Z.leb_spec MAX_PROCS i); [done|].
  destruct (decide (state_of s i = PROC_UNUSED)); [by rewrite bool_decide_true|rewrite bool_decide_false by done].
  intros [= <-]. done.
Qed.

(** A tick only wakes: it appends to the queue. *)
Definition tick_effect (L A : gmap Z Z) s q s' q' : Prop :=
  proc_inv [] s' L A q' /\ current_proc s' = current_proc s /\ prios_kept s s' /\ q `prefix_of` q'.

Lemma tick_effect_refl L A s q : proc_inv [] s L A q -> tick_effect L A s q s q.
Proof. done. Qed.

Lemma tick_one_inv now s L A q i :
  proc_inv [] s L A q -> 0 <= i < MAX_PROCS ->
  exists s' q', tick_one now i s = Ok (tt, s') /\ tick_effect L A s q s' q'.
Proof.
  intros Hinv Hi. assert (Hsame : exists s' q', Ok (tt, s) = Ok (tt, s') /\ tick_effect L A s q s' q') by by exists s, q.
  unfold tick_one. destruct (proc_get s i) as [j|] eqn:E; [|done].
  apply proc_get_Some in E as (-> & _ & Hu); [|lia].
  assert (i <> 0) by (intros ->; apply Hu, (pi_kernel _ _ _ _ _ Hinv)).
  destruct (bool_decide _); simpl; [|done]. destruct (_ =? 0); [done|]. destruct (_ <=? now); [|done].
  destruct (proc_wake_inv [] s L A q i Hinv ltac:(lia) (not_elem_of_nil i)) as (s' & q' & E & Hinv' & Hc & _ & Hp & Hq).
  exists s', q'. done.
Qed.

Lemma timer_handler_inv s L A q :
  proc_inv [] s L A q -> exists s' q', timer_handler s = Ok (tt, s') /\ tick_effect L A s q s' q'.
Proof.
  intros Hinv. unfold timer_handler, sched_tick.
  set (s1 := set_tick_count (tick_count s +w 1) s). rewrite (bind_ok _ _ s tt s1) by done.
  set (s2 := set_tick_flag true s1). rewrite (bind_ok _ _ s1 tt s2) by done.
  rewrite (bind_ok _ _ s2 (tick_count s2) s2) by done.
  destruct (for_upM_ok (fun _ s' => exists q', tick_effect L A s q s' q')
    (tick_one (tick_count s2)) (Z.to_nat MAX_PROCS) 0 s2) as (s' & E & q' & H1).
  - exists q. split; [|done]. by apply (inv_irrelevant [] s).
  - intros j sj Hj (qj & J1 & J2 & J3 & J4). rewrite Z2Nat.id in Hj by done.
    destruct (tick_one_inv (tick_count s2) sj L A qj j J1 ltac:(lia)) as (s' & q' & E & K1 & K2 & K3 & K4).
    exists s'. split; [done|]. exists q'. split; [done|]. split; [congruence|].
    split; [by apply (prios_kept_trans s sj)|by etrans].
  - exists s', q'. done.
Qed.

(** Dispatching a queued ready process when none is running. *)
Lemma dispatch_inv s L A q next f :
  proc_inv [] s L A q -> next ∈ q -> state_of s next = PROC_READY ->
  (forall i, 1 <= i < MAX_PROCS -> state_of s i <> PROC_RUNNING) ->
  (forall p, p_pid (f p) = p_pid p /\ p_kstack_base (f p) = p_kstack_base p /\ p_kstack_top (f p) = p_kstack_top p /\
     p_ppid (f p) = p_ppid p /\ p_priority (f p) = p_priority p /\ p_state (f p) = PROC_RUNNING /\
     p_esp_kernel (f p) = p_esp_kernel p) ->
  proc_inv [] (upd_pcb next f (set_current_proc (Some next) s)) L A q.
Proof.
  intros Hinv Hq Hst Hnone Hf. destruct (pi_member _ _ _ _ _ Hinv next Hq) as [Hr _].
  assert (Hu : used s next) by congruence.
  destruct (pi_slot _ _ _ _ _ Hinv next Hr Hu) as [S1 S2 S3 S4 S5 S6].
  apply inv_upd; try done.
  - destruct Hinv as [I1 If I2 I3 I4 I5 I6 I7 I8 I9 Iq I10 I11 I12]. split; try done.
    + intros i Hi Hui. destruct (I5 i Hi Hui). by split.
    + intros i Hi Hrun. exfalso. exact (Hnone i Hi Hrun).
    + intros c [= <-]. split_and!; [lia|lia|done|]. change (state_of s next <> PROC_EMBRYO). congruence.
  - change (pcb_at (set_current_proc (Some next) s) next) with (pcb_at s next).
    destruct (Hf (pcb_at s next)) as (F1 & F2 & F3 & F4 & F5 & F6 & F7).
    split; rewrite ?F1, ?F2, ?F3, ?F4, ?F5, ?F6, ?F7; try done.
    + intros _. apply S6. congruence.
    + intros _. right. by right.
    + intros _. by right.
Qed.

Lemma slice_used_inv s L A q c :
  proc_inv [] s L A q -> current_proc s = Some c ->
  proc_inv [] (slice_used c s) L A q /\ current_proc (slice_used c s) = Some c /\
  (forall i, state_of (slice_used c s) i = state_of s i) /\ (forall i, prio_of (slice_used c s) i = prio_of s i).
Proof.
  intros Hinv Hc. destruct (pi_current _ _ _ _ _ Hinv c Hc) as (Hr & Hu & _). unfold slice_used.
  assert (H1 : proc_inv [] (set_tick_flag false s) L A q) by by apply (inv_irrelevant [] s).
  destruct (0 <? _); [|done]. split_and!; [by apply inv_upd_quiet|done|..].
  - intros i. rewrite state_upd. case_decide; [by subst|done].
  - intros i. unfold prio_of. rewrite pcb_upd. case_decide; [by subst|done].
Qed.

Lemma eligible_prio s L A q c p :
  proc_inv [] s L A q -> p ∈ q -> eligible s c p = true -> 0 <= prio_of s p <= 31.
Proof.
  intros Hinv Hp He. unfold eligible in He. apply andb_true_iff in He as [_ He]. apply bool_decide_eq_true in He.
  destruct (pi_member _ _ _ _ _ Hinv p Hp) as [Hr _]. apply (pi_slot _ _ _ _ _ Hinv p Hr). congruence.
Qed.

Lemma switch_to_inv s L A q c next idx esp :
  proc_inv [] s L A q -> current_proc s = Some c -> next ∈ q -> eligible s c next = true -> 0 < esp ->
  let s2 := upd_pcb c (descheduled (tick_count s) esp) s in
  let s3 := upd_pcb next dispatched (set_current_proc (Some next) (set_current_idx idx s2)) in
  proc_inv [] s3 L A q /\ state_of s3 next = PROC_RUNNING /\ p_esp_kernel (pcb_at s3 next) = p_esp_kernel (pcb_at s next) /\
  0 < p_esp_kernel (pcb_at s next).
Proof.
  intros Hinv Hc Hq Hel Hesp s2 s3. apply andb_true_iff in Hel as [Hne Hrd]. apply bool_decide_eq_true in Hrd.
  assert (Hnc : next <> c) by (intros ->; by rewrite Z.eqb_refl in Hne).
  destruct (pi_current _ _ _ _ _ Hinv c Hc) as (Hr & Hu & Hem).
  destruct (pi_slot _ _ _ _ _ Hinv c Hr Hu) as [S1 S2 S3 S4 S5 S6].
  assert (Hstc : p_state (descheduled (tick_count s) esp (pcb_at s c)) =
    if bool_decide (state_of s c = PROC_RUNNING) then PROC_READY else state_of s c).
  { unfold descheduled. simpl. fold (state_of s c). by destruct (bool_decide (state_of s c = PROC_RUNNING)). }
  assert (Hdesc : forall (P : pcb -> Prop), (forall st, P (set_p_state st (set_p_tick_last_run (tick_count s)
      (set_p_ticks_total (p_ticks_total (pcb_at s c) +w p_timeslice_len (pcb_at s c)) (set_p_esp_kernel esp (pcb_at s c))))))
      -> P (descheduled (tick_count s) esp (pcb_at s c))).
  { intros P HP. unfold descheduled. destruct (bool_decide _); [apply HP|]. specialize (HP (state_of s c)).
    unfold state_of in HP. by destruct (pcb_at s c). }
  assert (H2 : proc_inv [] s2 L A q).
  { apply inv_upd; try done. split.
    - by apply Hdesc.
    - by apply Hdesc.
    - by apply Hdesc.
    - by apply Hdesc.
    - by apply Hdesc.
    - rewrite Hstc. case_bool_decide; congruence.
    - intros _. by apply Hdesc.
    - intros Hin. right. rewrite Hstc. case_bool_decide; [by left|].
      by destruct (pi_member _ _ _ _ _ Hinv c Hin) as [_ [?%elem_of_nil|?]].
    - rewrite Hstc. intros Hrc. apply (pi_queued _ _ _ _ _ Hinv c Hr). case_bool_decide; [by right|done].
    - rewrite Hstc. case_bool_decide; congruence.
    - intros _. rewrite Hstc. case_bool_decide; congruence. }
  assert (Hst2 : forall i, i <> c -> state_of s2 i = state_of s i).
  { intros i Hi. subst s2. rewrite state_upd, decide_False by congruence. done. }
  assert (H3 : proc_inv [] s3 L A q).
  { apply dispatch_inv; try done.
    - by apply (inv_irrelevant [] s2).
    - change (state_of s2 next = PROC_READY). by rewrite Hst2.
    - intros i Hi. change (state_of s2 i <> PROC_RUNNING). destruct (decide (i = c)) as [->|Hne'].
      + subst s2. rewrite state_upd, decide_True by done. rewrite Hstc. case_bool_decide; congruence.
      + rewrite Hst2 by done. intros Hrun. apply (pi_running _ _ _ _ _ Hinv i Hi) in Hrun. congruence. }
  split_and!; [done| | |].
  - subst s3. rewrite state_upd, decide_True by done. done.
  - subst s3. rewrite pcb_upd, decide_True by done. change (p_esp_kernel (pcb_at s2 next) = p_esp_kernel (pcb_at s next)).
    subst s2. by rewrite pcb_upd, decide_False by congruence.
  - destruct (pi_member _ _ _ _ _ Hinv next Hq) as [Hrn _]. apply (pi_slot _ _ _ _ _ Hinv next Hrn); congruence.
Qed.

Lemma sched_switch_inv s L A q esp :
  proc_inv [] s L A q -> 0 < esp ->
  exists r s', sched_switch_esp esp s = Ok (r, s') /\ proc_inv [] s' L A q.
Proof.
  intros Hinv Hesp. unfold sched_switch_esp.
  destruct (_ || _); [by exists 0, s|]. destruct (current_proc s) as [c|] eqn:Hc.
  2: { exists 0, (set_tick_flag false s). split; [done|]. by apply (inv_irrelevant [] s). }
  destruct (slice_used_inv s L A q c Hinv Hc) as (H1 & Hc1 & _). set (s1 := slice_used c s) in *. cbv zeta.
  destruct (0 <? _); [by exists 0, s1|].
  pose proof (select_spec s1 q (eligible s1 c) (pi_queue _ _ _ _ _ H1)) as Hsel.
  destruct (select (eligible s1 c) s1) as [[next idx]|].
  - destruct Hsel as (_ & Hn & Hel & _). apply list_elem_of_lookup_2 in Hn.
    destruct (switch_to_inv s1 L A q c next idx esp H1 Hc1 Hn Hel Hesp) as (H3 & _).
    eexists _, _. split; [done|]. revert H3. by apply inv_irrelevant.
  - eexists _, _. split; [done|]. destruct (pi_current _ _ _ _ _ H1 c Hc1) as (Hr & Hu & _). by apply inv_upd_quiet.
Qed.

(** Yielding the CPU. *)
Lemma sched_yield_inv s L A q esp :
  proc_inv [] s L A q -> 0 < esp -> exists r s', sched_yield esp s = Ok (r, s') /\ proc_inv [] s' L A q.
Proof.
  intros Hinv Hesp. unfold sched_yield. unfold sched_force_switch, modify, mbind, M_bind.
  apply sched_switch_inv; [|done]. change (current_proc (set_tick_flag true s)) with (current_proc s).
  destruct (current_proc s) as [c|] eqn:Hc.
  - destruct (pi_current _ _ _ _ _ Hinv c Hc) as (Hr & Hu & _).
    apply inv_upd_quiet; try done. by apply (inv_irrelevant [] s).
  - by apply (inv_irrelevant [] s).
Qed.

(** The current process leaves the queue in state [st] and yields. *)
Lemma leave_queue_inv s L A q i f st esp :
  proc_inv [] s L A q -> current_proc s = Some i -> 0 < esp -> st <> PROC_UNUSED -> st <> PROC_EMBRYO -> st <> PROC_READY -> st <> PROC_RUNNING ->
  (forall p, p_pid (f p) = p_pid p /\ p_kstack_base (f p) = p_kstack_base p /\ p_kstack_top (f p) = p_kstack_top p /\
     p_ppid (f p) = p_ppid p /\ p_priority (f p) = p_priority p /\ p_state (f p) = st /\
     p_esp_kernel (f p) = p_esp_kernel p) ->
  proc_inv [i] (upd_pcb i f s) L A q.
Proof.
  intros Hinv Hc Hesp H1 H2 H2' H3 Hf. destruct (pi_current _ _ _ _ _ Hinv i Hc) as (Hr & Hu & Hem).
  destruct (pi_slot _ _ _ _ _ Hinv i Hr Hu) as [S1 S2 S3 S4 S5 S6].
  apply inv_upd; try done; [by apply inv_exempt|]. destruct (Hf (pcb_at s i)) as (F1 & F2 & F3 & F4 & F5 & F6 & F7).
  split; rewrite ?F1, ?F2, ?F3, ?F4, ?F5, ?F6, ?F7; try done.
  - intros _. by apply S6.
  - intros _. left. by left.
  - intros [?|?]; done.
Qed.

(** It then leaves the queue and yields. *)
Lemma remove_yield_inv s L A q i esp :
  proc_inv [i] s L A q -> ~ runnable s i -> 0 < esp ->
  exists r s' q', (sched_remove i ;; sched_yield esp) s = Ok (r, s') /\ proc_inv [] s' L A q'.
Proof.
  intros Hinv Hnr Hesp. destruct (sched_remove_inv _ _ _ _ _ Hinv) as (s2 & q2 & E2 & _ & H2 & _).
  rewrite (bind_ok _ _ _ _ _ E2). destruct (sched_yield_inv s2 L A q2 esp (H2 Hnr) Hesp) as (r & s3 & E3 & H3). eauto.
Qed.

Lemma proc_sleep_inv s L A q ticks esp :
  proc_inv [] s L A q -> 0 < esp ->
  exists r s' q', proc_sleep ticks esp s = Ok (r, s') /\ proc_inv [] s' L A q'.
Proof.
  intros Hinv Hesp. unfold proc_sleep. destruct (current_proc s) as [i|] eqn:Hc; [|by exists 0, s, q].
  destruct (ticks =? 0); [by exists 0, s, q|].
  set (f := fun p => set_p_state PROC_BLOCKED (set_p_wakeup_tick (tick_count s +w ticks) p)).
  pose proof (leave_queue_inv s L A q i f PROC_BLOCKED esp Hinv Hc Hesp) as H1.
  specialize (H1 ltac:(done) ltac:(done) ltac:(done) ltac:(done) ltac:(done)).
  rewrite (bind_ok _ _ s tt (upd_pcb i f s)) by done.
  apply (remove_yield_inv _ L A q); [done| |done]. rewrite state_upd, decide_True by done. by intros [].
Qed.

Lemma proc_exit_inv s L A q code esp :
  proc_inv [] s L A q -> 0 < esp ->
  exists r s' q', proc_exit code esp s = Ok (r, s') /\ proc_inv [] s' L A q'.
Proof.
  intros Hinv Hesp. unfold proc_exit. destruct (current_proc s) as [i|] eqn:Hc; [|by exists 0, s, q].
  destruct (pi_current _ _ _ _ _ Hinv i Hc) as (Hr & Hu & Hem).
  set (f := fun p => set_p_state PROC_ZOMBIE (set_p_exit_code code p)).
  pose proof (leave_queue_inv s L A q i f PROC_ZOMBIE esp Hinv Hc Hesp) as H1.
  specialize (H1 ltac:(done) ltac:(done) ltac:(done) ltac:(done) ltac:(done)). set (s1 := upd_pcb i f s) in *.
  rewrite (bind_ok _ _ s tt s1) by done. rewrite (bind_ok _ _ s1 (pcb_at s1 i) s1) by done.
  lazymatch goal with |- exists r s' q', (?w ≫= _) _ = _ /\ _ => set (wake := w) end.
  assert (Hwake : exists s2 q2, wake s1 = Ok (tt, s2) /\ proc_inv [i] s2 L A q2 /\ ~ runnable s2 i).
  { assert (Hz : ~ runnable s1 i) by (subst s1; rewrite state_upd, decide_True by done; by intros []).
    subst wake. destruct (_ || _) eqn:Epp; [by exists s1, q|]. apply orb_false_iff in Epp as [Epp _]. apply Z.eqb_neq in Epp.
    rewrite (bind_ok _ _ s1 (proc_get s1 (p_ppid (pcb_at s1 i))) s1) by done.
    destruct (proc_get s1 _) as [j|] eqn:Ej; [|by exists s1, q].
    assert (Hppid : p_ppid (pcb_at s1 i) = p_ppid (pcb_at s i)) by (subst s1; by rewrite pcb_upd, decide_True by done).
    destruct (so_ppid _ _ _ (pi_slot _ _ _ _ _ Hinv i Hr Hu)) as [Hpp Hne].
    rewrite Hppid in *. apply proc_get_Some in Ej as (-> & Hjr & Huj); [|done].
    rewrite (bind_ok _ _ s1 (pcb_at s1 (p_ppid (pcb_at s i))) s1) by done.
    destruct (_ && _); [|by exists s1, q]. unfold PID_KERNEL in Epp.
    destruct (proc_wake_inv [i] s1 L A q (p_ppid (pcb_at s i)) H1 ltac:(lia)) as (s2 & q2 & E2 & H2 & _ & Hkeep & _).
    { by rewrite list_elem_of_singleton. }
    exists s2, q2. split; [done|]. split; [done|]. unfold state_of. rewrite Hkeep by done. done. }
  destruct Hwake as (s2 & q2 & E2 & H2 & H2'). rewrite (bind_ok _ _ _ _ _ E2).
  by apply (remove_yield_inv _ L A q2).
Qed.

(** ** Wake-ups by the file layer *)

Definition wake_pcb (p : pcb) : pcb := set_p_state PROC_READY (set_p_wakeup_tick 0 p).

(** Every control block is the same, or was blocked and has been woken. *)
Definition woken s s' : Prop :=
  forall j, pcb_at s' j = pcb_at s j \/ state_of s j = PROC_BLOCKED /\ pcb_at s' j = wake_pcb (pcb_at s j).

Lemma woken_refl s : woken s s.
Proof. intros j. by left. Qed.
Lemma woken_trans s1 s2 s3 : woken s1 s2 -> woken s2 s3 -> woken s1 s3.
Proof.
  intros H1 H2 j. destruct (H1 j) as [E1|[B1 E1]], (H2 j) as [E2|[B2 E2]].
  - left. congruence.
  - right. unfold state_of in *. rewrite E1 in *. done.
  - right. split; [done|congruence].
  - unfold state_of in B2. rewrite E1 in B2. done.
Qed.

Lemma proc_wake_woken s i s' : proc_wake (Some i) s = Ok (tt, s') -> woken s s'.
Proof.
  unfold proc_wake, mbind, M_bind, gets, modify. destruct (decide (state_of s i = PROC_BLOCKED)) as [Hb|Hb].
  2: { rewrite bool_decide_false by done. intros [= <-]. apply woken_refl. }
  rewrite bool_decide_true by done. simpl. set (s1 := upd_pcb i _ s).
  assert (H1 : woken s s1).
  { intros j. subst s1. rewrite pcb_upd. case_decide as Hd; [subst|by left]. by right. }
  unfold sched_add. destruct (negb _); [by intros [= <-]|]. destruct (MAX_PROCS <=? _); intros [= <-]; exact H1.
Qed.

Lemma wake_all_inv ws : forall s L A q,
  proc_inv [] s L A q -> Forall (fun p => 0 <= p) ws ->
  exists q', proc_inv [] (wake_all ws s) L A q' /\ current_proc (wake_all ws s) = current_proc s /\
    woken s (wake_all ws s).
Proof.
  induction ws as [|p ws IH]; intros s L A q Hinv Hws; simpl.
  - exists q. split; [done|]. split; [done|apply woken_refl].
  - apply Forall_cons in Hws as [Hp Hws].
    assert (H1 : exists q1, proc_inv [] (wake_one s p) L A q1 /\ current_proc (wake_one s p) = current_proc s /\ woken s (wake_one s p)).
    { unfold wake_one. destruct (proc_get s p) as [j|] eqn:E; [|exists q; split; [done|split; [done|apply woken_refl]]].
      apply proc_get_Some in E as (-> & Hr & Hu); [|done].
      assert (p <> 0) by (intros ->; apply Hu, (pi_kernel _ _ _ _ _ Hinv)).
      destruct (proc_wake_inv [] s L A q p Hinv ltac:(lia) (not_elem_of_nil p)) as (s' & q' & E & Hinv' & Hc & _).
      rewrite E. exists q'. split; [done|]. split; [done|]. by apply (proc_wake_woken s p). }
    destruct H1 as (q1 & H1 & Hc1 & W1). destruct (IH _ L A q1 H1 Hws) as (q2 & H2 & Hc2 & W2).
    exists q2. split; [done|]. split; [congruence|]. by apply (woken_trans s (wake_one s p)).
Qed.

Lemma woken_zombie s s' i : woken s s' -> state_of s i <> PROC_BLOCKED -> pcb_at s' i = pcb_at s i.
Proof. intros Hw Hb. destruct (Hw i) as [?|[? _]]; [done|congruence]. Qed.

(** A slot that becomes unused: the state after [proc_destroy]. *)
Definition cleared_pcb (i : Z) : pcb :=
  PCB i (p_ppid zero_pcb) (p_name zero_pcb) PROC_UNUSED 0 zero_regs 0 0 0 0 0 0 0 0 0 0 0 0 0 0 0 false (p_fd_table zero_pcb).

Definition destroyed (i : Z) (h : H) (fs : F) (s : kstate H F) : kstate H F :=
  set_proc_table (<[i := cleared_pcb i]> (proc_table s))
    (set_pid_search_hint (Z.min i (pid_search_hint s)) (pid_bitmap_clear i (set_k_files fs (set_k_heap h s)))).

Lemma destroyed_inv s L L' A q i h fs :
  proc_inv [] s L A q -> 1 <= i < MAX_PROCS -> used s i -> i ∉ q -> current_proc s <> Some i ->
  heap_ok h L' (delete (p_kstack_base (pcb_at s i)) A) -> files_ok fs L' ->
  proc_inv [] (destroyed i h fs s) L' (delete (p_kstack_base (pcb_at s i)) A) q.
Proof.
  intros [I1 If I2 I3 I4 I5 I6 I7 I8 I9 Iq I10 I11 I12] Hi Hu Hq Hc Hh Hf.
  assert (Hp : forall j, pcb_at (destroyed i h fs s) j = if decide (i = j) then cleared_pcb i else pcb_at s j).
  { intros j. unfold pcb_at at 1. simpl. rewrite lookup_insert. by case_decide. }
  assert (Hst : forall j, state_of (destroyed i h fs s) j = if decide (i = j) then PROC_UNUSED else state_of s j).
  { intros j. unfold state_of. rewrite Hp. by case_decide. }
  assert (Hother : forall j, used (destroyed i h fs s) j -> i <> j /\ used s j).
  { intros j. rewrite Hst. by case_decide. }
  split; try done.
  - simpl. unfold MAX_PROCS in *. lia.
  - intros j Hj. rewrite Hp. case_decide; [done|auto].
  - intros j Hj. change (bm_test (bm_clear (pid_bitmap s) i) j = true <-> used (destroyed i h fs s) j).
    rewrite bm_test_clear, Hst. case_decide; [done|]. by apply I4.
  - intros j Hj Huj. destruct (Hother j Huj) as [Hne Hus]. destruct (I5 j Hj Hus) as [S1 S2 S3 S4 S5 S6].
    split; unfold prio_of in *; rewrite ?Hp, ?Hst, ?decide_False by done; try done.
    rewrite lookup_delete_ne; [done|]. by apply I6.
  - intros j k Hj Hk Hne Huj Huk. destruct (Hother j Huj), (Hother k Huk). rewrite !Hp, !decide_False by done. by apply I6.
  - intros p Hpq. destruct (I9 p Hpq) as [Hr Hm]. split; [done|]. rewrite Hst, decide_False by by intros ->. done.
  - intros j Hj. rewrite Hst. case_decide; [by intros []|by apply Iq].
  - intros j Hj. rewrite Hst. case_decide; [done|]. by apply I10.
  - intros c Hcc. destruct (I11 c Hcc) as (Hr & Huc & Hem). rewrite Hst, decide_False by by intros ->. done.
  - rewrite Hst, decide_False by (unfold PID_KERNEL; lia). done.
Qed.

(** [proc_destroy] of a zombie that is not current: the stack is freed, then
    the files are closed (which may wake processes), then the slot cleared. *)
Lemma proc_destroy_run s L A q i :
  proc_inv [] s L A q -> 1 <= i < MAX_PROCS -> state_of s i = PROC_ZOMBIE -> current_proc s <> Some i ->
  exists h0, match fd_table_close_all (p_fd_table (pcb_at s i)) (set_k_heap h0 s) with
  | Stop f => proc_destroy (Some i) s = Stop f
  | Ok _ => exists ws h fs L' q',
      proc_destroy (Some i) s = Ok (tt, destroyed i h fs (wake_all ws s)) /\ woken s (wake_all ws s) /\
      proc_inv [] (destroyed i h fs (wake_all ws s)) L' (delete (p_kstack_base (pcb_at s i)) A) q' /\
      (forall a, owned ∅ (delete (p_kstack_base (pcb_at s i)) A) a -> heap_word h a = heap_word (k_heap s) a)
  end.
Proof.
  intros Hinv Hi Hz Hc. assert (Hu : used s i) by congruence.
  destruct (pi_slot _ _ _ _ _ Hinv i Hi Hu) as [S1 S2 S3 S4 S5 S6].
  destruct (heap_free_aligned_law _ _ _ _ _ (pi_heap _ _ _ _ _ Hinv) S1) as (h0 & Eh & Hh0 & Hw0). exists h0.
  unfold proc_destroy. rewrite (bind_ok _ _ s (pcb_at s i) s) by done. fold (state_of s i).
  rewrite bool_decide_true by done. cbn [negb]. rewrite (proj2 (Z.eqb_neq _ 0)) by lia.
  rewrite (bind_ok _ _ s tt (set_k_heap h0 s)) by (unfold on_heap, zoom; by rewrite Eh).
  destruct (fd_table_close_all _ (set_k_heap h0 s)) as [[tb s1]|f] eqn:Ef; [|by apply bind_stop].
  destruct (fd_table_close_all_effect _ (set_k_heap h0 s) L _ tb s1 Hh0 (pi_files _ _ _ _ _ Hinv) Ef)
    as (ws & Hws & h & fs & L' & Hs1 & Hh & Hf & Hw).
  rewrite (bind_ok _ _ _ _ _ Ef). change (set_k_heap h0 s) with (set_k_files (k_files s) (set_k_heap h0 s)) in Hs1.
  rewrite wake_all_frame in Hs1. destruct (wake_all_inv ws s L A q Hinv Hws) as (q' & Hinv' & Hcur & Hwok).
  pose proof (woken_zombie _ _ i Hwok ltac:(congruence)) as Hpi.
  assert (Hz' : state_of (wake_all ws s) i = PROC_ZOMBIE) by (unfold state_of; by rewrite Hpi).
  exists ws, h, fs, L', q'. split; [|split; [done|split]].
  - rewrite (pi_pid _ _ _ _ _ Hinv i Hi). subst s1.
    destruct (pid_free_used (set_k_files fs (set_k_heap h (wake_all ws s))) i Hi) as (s2 & E2 & -> & _).
    + apply (pi_bit _ _ _ _ _ Hinv' i Hi). congruence.
    + apply (pi_hint _ _ _ _ _ Hinv').
    + by rewrite (bind_ok _ _ _ _ _ E2).
  - rewrite <- Hpi. apply (destroyed_inv _ L); try done; [congruence| |congruence|by rewrite Hpi].
    apply (not_queued [] (wake_all ws s) L A q'); [done|apply not_elem_of_nil|congruence|congruence].
  - intros a Ha. rewrite Hw by done. simpl. apply Hw0. destruct Ha as (p & n & [Hp|Hp] & Hr); [done|].
    exists p, n. split; [by right|done].
Qed.

Lemma zombie_child_Some s self pid c :
  zombie_child s self pid = Some c ->
  0 <= c < MAX_PROCS /\ used s c /\ state_of s c = PROC_ZOMBIE /\
  p_ppid (pcb_at s c) = p_pid (pcb_at s self) /\ (pid = PID_INVALID \/ p_pid (pcb_at s c) = pid) /\
  (forall j, 0 <= j < c -> ~ (used s j /\ state_of s j = PROC_ZOMBIE /\
     p_ppid (pcb_at s j) = p_pid (pcb_at s self) /\ (pid = PID_INVALID \/ p_pid (pcb_at s j) = pid))).
Proof.
  intros E. apply find_up_Some in E as (Hr & Hc & Hmin). rewrite Z2Nat.id in Hr by done.
  assert (Hget : forall j, 0 <= j < MAX_PROCS -> proc_get s j = if decide (state_of s j = PROC_UNUSED) then None else Some j).
  { intros j Hj. unfold proc_get. rewrite (proj2 (Z.leb_gt _ _)) by lia. by case_decide; [rewrite bool_decide_true|rewrite bool_decide_false]. }
  rewrite Hget in Hc by lia. case_decide; [done|].
  apply andb_true_iff in Hc as [Hc Hz]. apply andb_true_iff in Hc as [Hpp Hpid].
  apply bool_decide_eq_true in Hz. apply Z.eqb_eq in Hpp. apply orb_true_iff in Hpid.
  rewrite !Z.eqb_eq in Hpid. split; [lia|]. do 4 (split; [done|]).
  intros j Hj (Hu & Hzj & Hppj & Hpidj). specialize (Hmin j Hj). rewrite Hget, decide_False in Hmin by (done || lia).
  rewrite bool_decide_true, (proj2 (Z.eqb_eq _ _) Hppj), andb_true_r in Hmin by done. simpl in Hmin.
  apply orb_false_iff in Hmin as [H1 H2]. apply Z.eqb_neq in H1, H2. tauto.
Qed.
End laws.
