(* ===== verification/ProcOps.v ===== *)
(** * Creating, reaping and restarting processes

    The operations of the process manager that allocate or free a kernel
    stack: what they do on each branch, and that they keep [proc_inv]. *)

From Stdlib Require Import ZArith Lia.
From S2P Require Import Prelude HeapSpec Kstate Fd Proc ProcInv.

Section ops.
Context {H : Type} `{!Heap H} `{!HeapLaws H} {F : Type} `{!Vfs H F} `{!VfsLaws H F}.
Implicit Types (s : kstate H F) (q : list Z).

(** ** Waiting *)

(** The scan of [proc_wait] never picks the caller nor slot 0. *)
Lemma zombie_child_slot s L A q self pid c :
  proc_inv [] s L A q -> current_proc s = Some self -> zombie_child s self pid = Some c ->
  1 <= c < MAX_PROCS /\ state_of s c = PROC_ZOMBIE /\ c <> self /\ p_pid (pcb_at s c) = c.
Proof.
  intros Hinv Hc Ez. destruct (pi_current _ _ _ _ _ Hinv self Hc) as (Hr & Hu & _).
  destruct (zombie_child_Some s self pid c Ez) as (Hrc & Huc & Hz & Hpp & _).
  assert (c <> 0) by (intros ->; apply Huc, (pi_kernel _ _ _ _ _ Hinv)).
  assert (Hc1 : 1 <= c < MAX_PROCS) by lia. split; [done|]. split; [done|].
  split; [|by apply (pi_pid _ _ _ _ _ Hinv)]. intros ->.
  destruct (so_ppid _ _ _ (pi_slot _ _ _ _ _ Hinv self Hr Hu)) as [_ Hne].
  rewrite (pi_pid _ _ _ _ _ Hinv self Hr) in Hpp. done.
Qed.

Lemma proc_wait_inv s L A q pid esp r s' :
  proc_inv [] s L A q -> 0 < esp -> proc_wait_try pid esp s = Ok (r, s') ->
  exists L' A' q', proc_inv [] s' L' A' q'.
Proof.
  intros Hinv Hesp. unfold proc_wait_try. destruct (current_proc s) as [self|] eqn:Hc; [|intros [= <- <-]; eauto].
  destruct (zombie_child s self pid) as [c|] eqn:Ez.
  - destruct (zombie_child_slot s L A q self pid c Hinv Hc Ez) as (Hr & Hz & Hne & _).
    destruct (proc_destroy_run s L A q c Hinv Hr Hz ltac:(congruence)) as (h0 & Hd).
    destruct (fd_table_close_all _ _) as [[tb s1]|f].
    + destruct Hd as (ws & h & fs & L' & q' & E & _ & Hinv' & _). rewrite (bind_ok _ _ _ _ _ E). intros [= <- <-]. eauto.
    + rewrite (bind_stop _ _ _ _ Hd). done.
  - set (f := fun p => set_p_state PROC_BLOCKED (set_p_wakeup_tick 0 (set_p_waiting true (set_p_wait_for_pid pid p)))).
    pose proof (leave_queue_inv s L A q self f PROC_BLOCKED esp Hinv Hc Hesp) as H1.
    specialize (H1 ltac:(done) ltac:(done) ltac:(done) ltac:(done) ltac:(done)).
    rewrite (bind_ok _ _ s tt (upd_pcb self f s)) by done.
    destruct (remove_yield_inv _ L A q self esp H1) as (r2 & s2 & q2 & E2 & H2); [|done|].
    { rewrite state_upd, decide_True by done. by intros []. }
    unfold mbind, M_bind in E2 |- *. destruct (sched_remove self _) as [[[] s1]|] eqn:E1; [|done].
    rewrite E2. intros [= <- <-]. eauto.
Qed.

(** ** The initial stack frame *)

(** The words of an interrupt frame in memory order; the last two fields are
    absent when no privilege change happens. *)
Definition kernel_frame (r : regs_t) : list Z :=
  [r_gs r; r_fs r; r_es r; r_ds r; r_edi r; r_esi r; r_ebp r; r_esp_saved r; r_ebx r; r_edx r; r_ecx r; r_eax r;
   r_int_no r; r_err_code r; r_eip r; r_cs r; r_eflags r].

(** Pushing words downward inside a live block. *)
Lemma push_words_run ws : forall s L A base n sp,
  heap_ok (k_heap s) L A -> A !! base = Some n -> 0 < base -> sp <= base + n -> base + n < 2 ^ 32 ->
  base <= sp - 4 * Z.of_nat (length ws) -> Forall (fun w => 0 <= w < 2 ^ 32) ws ->
  exists h, push_words sp ws s = Ok (sp - 4 * Z.of_nat (length ws), set_k_heap h s) /\ heap_ok h L A /\
    forall a, owned L A a -> heap_word h a =
      if decide (sp - 4 * Z.of_nat (length ws) <= a < sp /\ (sp - a) mod 4 = 0)
      then default 0 (ws !! Z.to_nat ((sp - a) / 4 - 1)) else heap_word (k_heap s) a.
Proof.
  induction ws as [|w ws IH]; intros s L A base n sp Hh HA Hb Hsp Hn Hlow Hws.
  - exists (k_heap s). simpl. rewrite Z.sub_0_r. split; [by destruct s|]. split; [done|].
    intros a _. rewrite decide_False by lia. done.
  - apply Forall_cons in Hws as [Hw Hws]. cbn [length push_words] in *. rewrite Nat2Z.inj_succ in *.
    rewrite (u32_small (sp - 4)) by lia.
    assert (Hown : owned L A (sp - 4)) by (exists base, n; split; [by right|lia]).
    destruct (heap_store_law (k_heap s) L A (sp - 4) w Hh Hown Hw) as (h1 & E1 & Hh1 & Hw1).
    rewrite (bind_ok _ _ s tt (set_k_heap h1 s)) by (unfold on_heap, zoom; by rewrite E1).
    destruct (IH (set_k_heap h1 s) L A base n (sp - 4) Hh1 HA Hb ltac:(lia) Hn ltac:(lia) Hws) as (h & E & Hh2 & Hw2).
    exists h. split; [rewrite E; f_equal; f_equal; lia|]. split; [done|].
    intros a Ha. rewrite Hw2 by done. simpl k_heap. rewrite Hw1 by done.
    destruct (decide (a = sp - 4)) as [->|Hne].
    + rewrite decide_False by lia. rewrite decide_True by (replace (sp - (sp - 4)) with 4 by lia; split; [lia|done]).
      replace (sp - (sp - 4)) with 4 by lia. done.
    + destruct (decide (sp - 4 - 4 * Z.of_nat (length ws) <= a < sp - 4 /\ (sp - 4 - a) mod 4 = 0)) as [[Hr Hm]|Hno].
      * rewrite decide_True by (split; [lia|zlia]).
        replace (Z.to_nat ((sp - a) / 4 - 1)) with (S (Z.to_nat ((sp - 4 - a) / 4 - 1))) by zlia. done.
      * rewrite decide_False; [done|]. intros [Hr Hm]. apply Hno. split; [zlia|zlia].
Qed.

(** The registers a new process starts with. *)
Definition entry_regs (entry : Z) : regs_t :=
  Regs 0x10 0x10 0x10 0x10 0 0 0 0 0 0 0 0 0 0 entry 0x08 0x202 0 0.

Lemma frame_words_rev entry : reverse (frame_words entry) = kernel_frame (entry_regs entry).
Proof. reflexivity. Qed.

Lemma proc_init_frame_run x s L A q i entry :
  proc_inv x s L A q -> 1 <= i < MAX_PROCS -> used s i -> 0 <= entry < 2 ^ 32 ->
  let esp := p_kstack_top (pcb_at s i) - 68 in
  exists h, proc_init_frame (Some i) entry s = Ok (tt, upd_pcb i (set_p_esp_kernel esp) (set_k_heap h s)) /\
    heap_ok h L A /\ 0 < esp /\
    (forall k w, kernel_frame (entry_regs entry) !! k = Some w -> heap_word h (esp + 4 * Z.of_nat k) = w) /\
    (forall a, owned L A a -> ~ (esp <= a < esp + 68) -> heap_word h a = heap_word (k_heap s) a).
Proof.
  intros Hinv Hi Hu He esp. destruct (pi_slot _ _ _ _ _ Hinv i Hi Hu) as [S1 [S2 S2'] S3 S4 S5 S6].
  unfold KSTACK_SIZE in *. set (base := p_kstack_base (pcb_at s i)) in *.
  assert (Hesp : esp = base + 4096 - 68) by (subst esp; lia). clearbody esp.
  assert (Hws : Forall (fun w => 0 <= w < 2 ^ 32) (frame_words entry)) by (repeat constructor; done || lia).
  destruct (push_words_run (frame_words entry) s L A base 4096 (base + 4096) (pi_heap _ _ _ _ _ Hinv) S1)
    as (h & E & Hh & Hw); [lia|lia|lia|simpl; lia|done|].
  exists h. split.
  { unfold proc_init_frame. rewrite (bind_ok _ _ s (p_kstack_top (pcb_at s i)) s) by done. rewrite S3.
    rewrite (proj2 (Z.eqb_neq _ 0)) by lia. rewrite (bind_ok _ _ _ _ _ E), Hesp. done. }
  split; [done|]. split; [lia|]. change (4 * Z.of_nat (length (frame_words entry))) with 68 in Hw.
  split.
  - intros k w Hk. assert (Hk17 : (k < 17)%nat) by (apply lookup_lt_Some in Hk; done).
    rewrite Hw by (exists base, 4096; split; [by right|subst esp; lia]).
    rewrite decide_True by (subst esp; split; [lia|zlia]).
    rewrite <- frame_words_rev, reverse_lookup in Hk by (simpl; lia).
    replace (Z.to_nat ((base + 4096 - (esp + 4 * Z.of_nat k)) / 4 - 1)) with (length (frame_words entry) - S k)%nat.
    + by rewrite Hk.
    + subst esp. replace (base + 4096 - (base + 4096 - 68 + 4 * Z.of_nat k)) with ((17 - Z.of_nat k) * 4) by lia.
      rewrite Z.div_mul by lia. simpl length. lia.
  - intros a Ha Hout. rewrite Hw by done. rewrite decide_False; [done|]. subst esp. lia.
Qed.

Lemma inv_heap x s L L' A q h fs :
  proc_inv x s L A q -> heap_ok h L' A -> files_ok fs L' -> proc_inv x (set_k_files fs (set_k_heap h s)) L' A q.
Proof.
  intros [I1 If I2 I3 I4 I5 I6 I7 I8 I9 Iq I10 I11 I12] Hh Hf. split; try done.
  intros i Hi Hui. destruct (I5 i Hi Hui). by split.
Qed.

Lemma proc_init_frame_inv x s L A q i entry :
  proc_inv x s L A q -> 1 <= i < MAX_PROCS -> used s i -> 0 <= entry < 2 ^ 32 ->
  exists s', proc_init_frame (Some i) entry s = Ok (tt, s') /\ proc_inv x s' L A q /\
    s' = set_k_heap (k_heap s') (upd_pcb i (set_p_esp_kernel (p_esp_kernel (pcb_at s' i))) s) /\
    0 < p_esp_kernel (pcb_at s' i).
Proof.
  intros Hinv Hi Hu He. destruct (proc_init_frame_run x s L A q i entry Hinv Hi Hu He) as (h & E & Hh & Hpos & _).
  eexists. split; [exact E|]. pose proof (inv_heap x s L L A q h (k_files s) Hinv Hh (pi_files _ _ _ _ _ Hinv)) as Hinv1.
  assert (Hp : forall v, p_esp_kernel (pcb_at (upd_pcb i (set_p_esp_kernel v) (set_k_heap h s)) i) = v).
  { intros v. by rewrite pcb_upd, decide_True by done. }
  rewrite Hp. split; [|done].
  change (set_k_heap h s) with (set_k_files (k_files s) (set_k_heap h s)).
  destruct (pi_slot _ _ _ _ _ Hinv i Hi Hu) as [S1 S2 S3 S4 S5 S6].
  apply inv_upd; try done. split; try done; simpl.
  - by apply (pi_member _ _ _ _ _ Hinv i).
  - by apply (pi_queued _ _ _ _ _ Hinv i).
  - by apply (pi_running _ _ _ _ _ Hinv i).
  - by apply (pi_current _ _ _ _ _ Hinv i).
Qed.

(** ** Creation *)

(** A state with the same processes and queue. *)
Lemma inv_same x s s' L A q :
  proc_inv x s L A q -> heap_ok (k_heap s') L A -> files_ok (k_files s') L -> proc_table s' = proc_table s ->
  (forall k, pid_bitmap_test s' k = pid_bitmap_test s k) -> 1 <= pid_search_hint s' < MAX_PROCS ->
  ready_queue s' = ready_queue s -> queue_size s' = queue_size s -> current_proc s' = current_proc s ->
  proc_inv x s' L A q.
Proof.
  intros [I1 If I2 I3 I4 I5 I6 I7 I8 I9 Iq I10 I11 I12] Hh Hfs E2 Hb Hhint E5 E6 E7.
  assert (Hp : forall i, pcb_at s' i = pcb_at s i) by (intros i; unfold pcb_at; by rewrite E2).
  assert (Hst : forall i, state_of s' i = state_of s i) by (intros i; unfold state_of; by rewrite Hp).
  split; rewrite ?E5, ?E6, ?E7; try done; intros *; rewrite ?Hp, ?Hst, ?Hb; auto.
  - intros Hi Hu. destruct (I5 _ Hi Hu). split; unfold prio_of in *; rewrite ?Hp, ?Hst; done.
Qed.

(** A new embryo in an unused slot. *)
Lemma inv_new s s' L L' A q pid p' :
  proc_inv [] s L A q -> 1 <= pid < MAX_PROCS -> state_of s pid = PROC_UNUSED ->
  proc_table s' = <[pid := p']> (proc_table s) ->
  (forall k, pid_bitmap_test s' k = if decide (pid = k) then true else pid_bitmap_test s k) ->
  1 <= pid_search_hint s' < MAX_PROCS ->
  ready_queue s' = ready_queue s -> queue_size s' = queue_size s -> current_proc s' = current_proc s ->
  A !! p_kstack_base p' = None -> heap_ok (k_heap s') L' (<[p_kstack_base p' := KSTACK_SIZE]> A) ->
  files_ok (k_files s') L' ->
  p_pid p' = pid -> p_state p' = PROC_EMBRYO -> p_ppid p' = 0 -> 0 <= p_priority p' <= PROC_PRIO_IDLE ->
  0 < p_kstack_base p' < 2 ^ 31 -> p_kstack_base p' mod 4096 = 0 -> p_kstack_top p' = p_kstack_base p' + KSTACK_SIZE ->
  proc_inv [] s' L' (<[p_kstack_base p' := KSTACK_SIZE]> A) q.
Proof.
  intros [I1 If I2 I3 I4 I5 I6 I7 I8 I9 Iq I10 I11 I12] Hpid Hun E2 Hb Hhint E5 E6 E7 HA Hh Hfs P1 P2 P3 P4 P5 P6 P7.
  assert (Hp : forall i, pcb_at s' i = if decide (pid = i) then p' else pcb_at s i).
  { intros i. unfold pcb_at. rewrite E2, lookup_insert. by case_decide. }
  assert (Hst : forall i, state_of s' i = if decide (pid = i) then PROC_EMBRYO else state_of s i).
  { intros i. unfold state_of. rewrite Hp. by case_decide. }
  assert (Hfresh : forall i, 1 <= i < MAX_PROCS -> used s i -> p_kstack_base p' <> p_kstack_base (pcb_at s i)).
  { intros i Hi Hu Heq. destruct (I5 i Hi Hu) as [S1 _]. congruence. }
  split; rewrite ?E5, ?E6, ?E7; try done.
  - intros i Hi. rewrite Hp. case_decide; [by subst|auto].
  - intros i Hi. rewrite Hb, Hst. case_decide; [done|by apply I4].
  - intros i Hi. rewrite Hst. case_decide as Hd; intros Hu.
    + subst i. split; unfold prio_of; rewrite ?Hp, ?Hst, ?decide_True by done; try done; [by rewrite lookup_insert_eq|lia].
    + destruct (I5 i Hi Hu). split; unfold prio_of in *; rewrite ?Hp, ?Hst, ?decide_False by done; try done.
      rewrite lookup_insert_ne; [done|]. by apply Hfresh.
  - intros i j Hi Hj Hne. rewrite !Hst, !Hp. repeat case_decide; subst; try done.
    + intros _ Hu. by apply Hfresh.
    + intros Hu _ Heq. by apply (Hfresh i).
    + by apply I6.
  - intros p Hpq. destruct (I9 p Hpq) as [Hr Hm]. split; [done|]. rewrite Hst. case_decide; [|done]. subst.
    destruct Hm as [[]%elem_of_nil|[?|?]]; congruence.
  - intros i Hi. rewrite Hst. case_decide; [by intros []|by apply Iq].
  - intros i Hi. rewrite Hst. case_decide; [done|by apply I10].
  - intros c Hc. destruct (I11 c Hc) as (Hr & Hu & Hem). rewrite Hst. case_decide; [by subst|done].
  - rewrite Hst, decide_False by (unfold PID_KERNEL; lia). done.
Qed.

Lemma timeslice_range priority : 0 <= priority <= PROC_PRIO_IDLE -> 7 <= timeslice_of priority <= 18.
Proof.
  unfold timeslice_of, PROC_PRIO_IDLE, PROC_PRIO_NORMAL, PROC_TIMESLICE_DEFAULT. intros Hp.
  zbool; Z.to_euclidean_division_equations; lia.
Qed.

(** What [proc_create] does when it succeeds. *)
Record created (s s' : kstate H F) (A : gmap Z Z) (q : list Z) (name : option (list Z)) (priority pid : Z) : Prop := {
  cr_pid : 1 <= pid < MAX_PROCS;
  cr_free : state_of s pid = PROC_UNUSED;
  cr_state : state_of s' pid = PROC_EMBRYO;
  cr_name : p_name (pcb_at s' pid) = copy_name (default unnamed name);
  cr_prio : p_priority (pcb_at s' pid) = Z.min priority PROC_PRIO_IDLE;
  cr_slice : p_timeslice (pcb_at s' pid) = timeslice_of (Z.min priority PROC_PRIO_IDLE) /\
    p_timeslice_len (pcb_at s' pid) = timeslice_of (Z.min priority PROC_PRIO_IDLE);
  cr_other : forall j, j <> pid -> pcb_at s' j = pcb_at s j;
  cr_fresh : A !! p_kstack_base (pcb_at s' pid) = None;
  cr_inv : exists L', proc_inv [] s' L' (<[p_kstack_base (pcb_at s' pid) := KSTACK_SIZE]> A) q;
  cr_words : forall a, owned ∅ A a -> heap_word (k_heap s') a = heap_word (k_heap s) a;
  cr_rest : current_proc s' = current_proc s
}.

Lemma proc_create_run s L A q name priority :
  proc_inv [] s L A q -> 0 <= priority < 256 ->
  match proc_create name priority s with
  | Stop f => (exists msg, f = Panic msg) \/
      (exists s1 A', k_files s1 = k_files s /\ heap_ok (k_heap s1) L A' /\ fd_table_init s1 = Stop f)
  | Ok (None, s') => proc_inv [] s' L A q /\ proc_table s' = proc_table s /\
      ((forall i, 1 <= i < MAX_PROCS -> used s i) \/
       (exists h, heap_malloc_aligned KSTACK_SIZE (k_heap s) = Ok (0, h)))
  | Ok (Some pid, s') => created s s' A q name priority pid
  end.
Proof.
  intros Hinv Hprio. unfold proc_create.
  destruct (pid_alloc_cases s (pi_hint _ _ _ _ _ Hinv)) as [(pid & E & Hpid & Hfree & _)|[E Hall]].
  2: { rewrite (bind_ok _ _ _ _ _ E), Z.eqb_refl. split; [done|]. split; [done|]. left. intros i Hi.
       by apply (pi_bit _ _ _ _ _ Hinv i Hi), Hall. }
  rewrite (bind_ok _ _ _ _ _ E). rewrite (proj2 (Z.eqb_neq pid _)) by (unfold MAX_PROCS, PID_INVALID in *; lia).
  assert (Hun : state_of s pid = PROC_UNUSED).
  { destruct (decide (state_of s pid = PROC_UNUSED)) as [|Hu]; [done|]. apply (pi_bit _ _ _ _ _ Hinv pid Hpid) in Hu. congruence. }
  set (s1 := take_pid pid s). rewrite (bind_ok _ _ s1 (state_of s1 pid) s1) by done.
  change (state_of s1 pid) with (state_of s pid). rewrite bool_decide_true by done. cbn [negb].
  pose proof (heap_malloc_aligned_law (k_heap s) L A KSTACK_SIZE (pi_heap _ _ _ _ _ Hinv) ltac:(done)) as
    [(msg & Eh)|[(h & Eh & Hh & _)|(base & h & Eh & Hbase & (Hal & Hfr & Hh) & Hw)]].
  - rewrite (bind_stop _ _ s1 (Panic msg)) by (unfold on_heap, zoom; simpl; by rewrite Eh). left. eauto.
  - rewrite (bind_ok _ _ s1 0 (set_k_heap h s1)) by (unfold on_heap, zoom; simpl; by rewrite Eh). cbn [Z.eqb].
    destruct (pid_free_used (set_k_heap h s1) pid Hpid) as (s2 & E2 & Hs2 & Hb2).
    { unfold pid_bitmap_test. simpl. rewrite bm_test_set. by case_decide. }
    { apply (take_pid_hint pid s Hpid). }
    rewrite (bind_ok _ _ _ _ _ E2). split; [|split; [by rewrite Hs2|right; eauto]].
    apply (inv_same [] s); rewrite ?Hs2; try done.
    + apply (pi_files _ _ _ _ _ Hinv).
    + intros k. rewrite <- Hs2, Hb2. unfold pid_bitmap_test. simpl. rewrite bm_test_set. case_decide; [by subst|done].
    + pose proof (take_pid_hint pid s Hpid). simpl in *. lia.
  - rewrite (bind_ok _ _ s1 base (set_k_heap h s1)) by (unfold on_heap, zoom; simpl; by rewrite Eh).
    rewrite (proj2 (Z.eqb_neq base 0)) by lia. cbv zeta. set (s2 := set_k_heap h s1).
    replace (if PROC_PRIO_IDLE <? priority then PROC_PRIO_IDLE else priority) with (Z.min priority PROC_PRIO_IDLE)
      by (destruct (Z.ltb_spec PROC_PRIO_IDLE priority); lia).
    rewrite (bind_ok _ _ s2 (tick_count s2) s2) by done.
    destruct (fd_table_init s2) as [[tb s3]|f] eqn:Ef.
    2: { rewrite (bind_stop _ _ _ _ Ef). right. exists s2. eauto. }
    destruct (fd_table_init_effect s2 L _ tb s3 Hh (pi_files _ _ _ _ _ Hinv) Ef) as (_ & h' & fs & L' & Hs3 & Hh' & Hf' & Hw').
    rewrite (bind_ok _ _ _ _ _ Ef). subst s3. simpl wake_all.
    unfold modify, mbind, M_bind, mret, M_ret. rewrite (u32_small (base + KSTACK_SIZE)) by (unfold KSTACK_SIZE; lia).
    lazymatch goal with |- created _ (set_proc_table (<[_ := ?p]> _) _) _ _ _ _ _ => set (p' := p) end.
    lazymatch goal with |- created _ ?s' _ _ _ _ _ => set (s3 := s') end.
    assert (Hp : forall j, j <> pid -> pcb_at s3 j = pcb_at s j).
    { intros j Hj. unfold pcb_at. simpl. by rewrite lookup_insert_ne by done. }
    assert (Hp' : pcb_at s3 pid = p') by (unfold pcb_at; simpl; by rewrite lookup_insert_eq).
    split; unfold state_of; rewrite ?Hp'; try done.
    2: { intros a Ha. simpl. rewrite Hw'; [simpl; apply Hw|]; destruct Ha as (pa & n & [Hp1|Hp1] & Hr); try done; exists pa, n;
         (split; [right|done]); [done|rewrite lookup_insert_ne; [done|]; intros ->; congruence]. }
    exists L'. apply (inv_new s s3 L L' A q pid p'); try done.
    + intros k. apply (pid_test_set s pid k).
    + apply (take_pid_hint pid s Hpid).
    + change (0 <= Z.min priority PROC_PRIO_IDLE <= PROC_PRIO_IDLE). unfold PROC_PRIO_IDLE. lia.
Qed.

(** ** Launching *)

(** The three calls that make an embryo runnable, followed by anything. *)
Lemma launch_run {B} s L A q c entry (k : M (kstate H F) B) :
  proc_inv [] s L A q -> 1 <= c < MAX_PROCS -> state_of s c = PROC_EMBRYO -> 0 <= entry < 2 ^ 32 ->
  exists s', (proc_init_frame (Some c) entry ;; proc_set_ready (Some c) ;; sched_add (Some c) ;; k) s = k s' /\
    proc_inv [] s' L A (q ++ [c]) /\ state_of s' c = PROC_READY /\ current_proc s' = current_proc s /\
    (forall j, j <> c -> pcb_at s' j = pcb_at s j) /\ p_ppid (pcb_at s' c) = p_ppid (pcb_at s c) /\
    p_fd_table (pcb_at s' c) = p_fd_table (pcb_at s c) /\ p_priority (pcb_at s' c) = p_priority (pcb_at s c).
Proof.
  intros Hinv Hc Hem He. assert (Hu : used s c) by congruence.
  destruct (proc_init_frame_inv [] s L A q c entry Hinv Hc Hu He) as (s1 & E1 & H1 & Hs1 & Hpos).
  rewrite (bind_ok _ _ _ _ _ E1). set (v := p_esp_kernel (pcb_at s1 c)) in *. clearbody v.
  assert (Hp1 : forall j, pcb_at s1 j = if decide (c = j) then set_p_esp_kernel v (pcb_at s c) else pcb_at s j).
  { intros j. rewrite Hs1. apply (pcb_upd s c (set_p_esp_kernel v) j). }
  assert (Hst1 : state_of s1 c = PROC_EMBRYO) by (unfold state_of; by rewrite Hp1, decide_True by done).
  assert (E2 : proc_set_ready (Some c) s1 = Ok (tt, upd_pcb c (set_p_state PROC_READY) s1)).
  { unfold proc_set_ready. rewrite (bind_ok _ _ s1 (state_of s1 c) s1) by done. by rewrite Hst1. }
  rewrite (bind_ok _ _ _ _ _ E2).
  assert (Hnq : c ∉ q) by (apply (not_queued [] s1 L A q); [done|apply not_elem_of_nil|congruence|congruence]).
  destruct (pi_slot _ _ _ _ _ H1 c Hc) as [S1 S2 S3 S4 S5 S6]; [congruence|].
  assert (H2 : proc_inv [c] (upd_pcb c (set_p_state PROC_READY) s1) L A q).
  { apply inv_upd; try done; [by apply inv_exempt|congruence|]. split; simpl; try done.
    - intros _. by rewrite Hp1, decide_True by done.
    - intros _. left. by left. }
  destruct (sched_add_inv [] _ L A q c H2 Hc) as (s3 & E3 & H3 & Hs3); [by rewrite state_upd, decide_True by done|done|].
  rewrite (bind_ok _ _ _ _ _ E3). exists s3. split; [done|]. split; [done|].
  assert (Hp3 : forall j, pcb_at s3 j = pcb_at (upd_pcb c (set_p_state PROC_READY) s1) j).
  { intros j. unfold pcb_at. by rewrite Hs3. }
  unfold state_of. rewrite !Hp3, pcb_upd, decide_True by done. split; [done|].
  split; [rewrite Hs3; simpl; by rewrite Hs1|]. rewrite Hp1, decide_True by done. split; [|done].
  intros j Hj. rewrite Hp3, pcb_upd, decide_False by done. by rewrite Hp1, decide_False by done.
Qed.

(** A file operation that wakes nobody. *)
Lemma inv_quiet_effect x s s' L A q :
  proc_inv x s L A q -> file_effect files_ok [] A s s' ->
  exists h fs L', s' = set_k_files fs (set_k_heap h s) /\ proc_inv x s' L' A q.
Proof.
  intros Hinv (_ & h & fs & L' & -> & Hh & Hf & _). exists h, fs, L'. split; [done|]. by apply (inv_heap x s L).
Qed.

Lemma wire_child_inv s L A q i c s' :
  proc_inv [] s L A q -> current_proc s = Some i -> 1 <= c < MAX_PROCS -> state_of s c = PROC_EMBRYO ->
  wire_child (Some i) c s = Ok (tt, s') -> exists L' q', proc_inv [] s' L' A q' /\ state_of s' c = PROC_EMBRYO.
Proof.
  intros Hinv Hc Hcr Hem. destruct (pi_current _ _ _ _ _ Hinv i Hc) as (Hr & Hu & Hni).
  assert (Hic : i <> c) by congruence. unfold wire_child.
  rewrite (bind_ok _ _ s (p_pid (pcb_at s i)) s), (pi_pid _ _ _ _ _ Hinv i Hr) by done.
  rewrite (bind_ok _ _ s tt (upd_pcb c (set_p_ppid i) s)) by done.
  assert (Hq1 : proc_inv [] (upd_pcb c (set_p_ppid i) s) L A q).
  { destruct (pi_slot _ _ _ _ _ Hinv c Hcr) as [S1 S2 S3 S4 S5 S6]; [congruence|].
    apply inv_upd; try done; [congruence|]. split; simpl; try done; try lia; fold (state_of s c); rewrite Hem; try done.
    - intros Hq. destruct (pi_member _ _ _ _ _ Hinv c Hq) as [_ [[]%elem_of_nil|[?|?]]]; congruence.
    - by intros [].
    - congruence. }
  assert (Hst1 : state_of (upd_pcb c (set_p_ppid i) s) c = PROC_EMBRYO) by by rewrite state_upd, decide_True by done.
  set (sa := upd_pcb c (set_p_ppid i) s) in *. clearbody sa. intros E.
  rewrite (bind_ok _ _ sa (p_fd_table (pcb_at sa c)) sa) in E by done.
  apply bind_inv in E as (t1 & sb & Eb & E).
  destruct (fd_table_close_all_effect _ sa L A t1 sb (pi_heap _ _ _ _ _ Hq1) (pi_files _ _ _ _ _ Hq1) Eb)
    as (ws & Hws & h & fs & L1 & -> & Hh & Hf & _).
  destruct (wake_all_inv ws sa L A q Hq1 Hws) as (q1 & Hinvw & _ & Hwok).
  pose proof (inv_heap [] _ L L1 A q1 h fs Hinvw Hh Hf) as H2. set (sb := set_k_files fs (set_k_heap h (wake_all ws sa))) in *.
  assert (Hst2 : state_of sb c = PROC_EMBRYO).
  { unfold state_of. change (pcb_at sb c) with (pcb_at (wake_all ws sa) c). by rewrite (woken_zombie sa _ c Hwok) by congruence. }
  clearbody sb. rewrite (bind_ok _ _ _ (p_fd_table (pcb_at sb i)) sb) in E by done.
  apply bind_inv in E as (t2 & sc & Ec & E). injection E as <-.
  pose proof (fd_table_clone_effect _ sb L1 A t2 sc (pi_heap _ _ _ _ _ H2) (pi_files _ _ _ _ _ H2) Ec) as He.
  destruct (inv_quiet_effect [] sb sc L1 A q1 H2 He) as (h2 & fs2 & L2 & -> & H3).
  exists L2, q1. split; [|by rewrite state_upd, decide_True by done]. apply inv_upd_quiet; try done.
  change (used sb c). congruence.
Qed.

Lemma proc_fork_inv s L A q entry r s' :
  proc_inv [] s L A q -> 0 <= entry < 2 ^ 32 -> proc_fork entry s = Ok (r, s') ->
  exists L' A' q', proc_inv [] s' L' A' q'.
Proof.
  intros Hinv He. unfold proc_fork. rewrite (bind_ok _ _ s (current_proc s) s) by done.
  do 2 (rewrite (bind_ok _ _ s _ s) by done). set (name := match current_proc s with Some i => _ | None => child_name end).
  set (prio := match current_proc s with Some i => _ | None => PROC_PRIO_NORMAL end).
  assert (Hprio : 0 <= prio < 256).
  { subst prio. destruct (current_proc s) as [i|] eqn:Hc; [|done]. destruct (pi_current _ _ _ _ _ Hinv i Hc) as (Hr & Hu & _).
    pose proof (so_prio _ _ _ (pi_slot _ _ _ _ _ Hinv i Hr Hu)) as Hp. unfold prio_of, PROC_PRIO_IDLE in Hp. lia. }
  pose proof (proc_create_run s L A q (Some name) prio Hinv Hprio) as Hcr.
  intros Hf. apply bind_inv in Hf as (child & s1 & E1 & Hf). rewrite E1 in Hcr.
  destruct child as [c|]; [|destruct Hcr as [Hcr _]; injection Hf as <- <-; eauto].
  destruct Hcr as [C1 C2 C3 _ _ _ C7 _ (L1 & C9) _ C11]. set (A1 := <[_ := _]> A) in C9.
  apply bind_inv in Hf as ([] & s2 & E2 & Hf).
  assert (Hmid : exists L2 q2, proc_inv [] s2 L2 A1 q2 /\ state_of s2 c = PROC_EMBRYO).
  { destruct (current_proc s) as [i|] eqn:Hc; [|injection E2 as <-; eauto].
    by apply (wire_child_inv s1 L1 A1 q i c s2). }
  destruct Hmid as (L2 & q2 & H2 & Hst2).
  destruct (launch_run s2 L2 A1 q2 c entry (gets (fun s => p_pid (pcb_at s c))) H2 C1 Hst2 He) as (s3 & E3 & H3 & _).
  rewrite E3 in Hf. injection Hf as <- <-. eauto.
Qed.

(** [proc_exec] of a process that is not running. *)
Lemma proc_exec_inv s L A q i entry :
  proc_inv [] s L A q -> 1 <= i < MAX_PROCS -> used s i -> 0 <= entry < 2 ^ 32 ->
  exists r s' q', proc_exec (Some i) entry s = Ok (r, s') /\ proc_inv [] s' L A q' /\
    (r = 0 /\ state_of s i <> PROC_RUNNING /\ state_of s' i = PROC_READY /\ i ∈ q' \/
     r = -1 /\ state_of s i = PROC_RUNNING /\ s' = s).
Proof.
  intros Hinv Hi Hu He. unfold proc_exec. rewrite (bind_ok _ _ s (state_of s i) s) by done.
  destruct (decide (state_of s i = PROC_RUNNING)) as [Hrun|Hrun].
  { rewrite bool_decide_true by done. exists (-1), s, q. split; [done|]. split; [done|]. by right. }
  rewrite bool_decide_false by done.
  destruct (sched_remove_inv s L A q i (inv_exempt [i] s L A q Hinv)) as (s1 & q1 & E1 & H1 & _ & Hq1 & Hs1).
  rewrite (bind_ok _ _ _ _ _ E1). assert (Hp1 : forall j, pcb_at s1 j = pcb_at s j) by (intros j; by rewrite Hs1).
  assert (Hu1 : used s1 i) by (unfold state_of; by rewrite Hp1).
  destruct (proc_init_frame_inv [i] s1 L A q1 i entry H1 Hi Hu1 He) as (s2 & E2 & H2 & Hs2 & Hpos).
  rewrite (bind_ok _ _ _ _ _ E2). set (f := fun p : pcb => set_p_state PROC_READY _).
  rewrite (bind_ok _ _ _ tt (upd_pcb i f s2)) by done.
  assert (Hu2 : used s2 i).
  { rewrite Hs2. unfold state_of. change (p_state (pcb_at (upd_pcb i (set_p_esp_kernel (p_esp_kernel (pcb_at s2 i))) s1) i) <> PROC_UNUSED).
    by rewrite pcb_upd, decide_True by done. }
  assert (H3 : proc_inv [i] (upd_pcb i f s2) L A q1).
  { destruct (pi_slot _ _ _ _ _ H2 i Hi Hu2) as [S1 S2 S3 S4 S5 S6]. apply inv_upd; try done. split; simpl; try done.
    - intros _. by right; left.
    - intros _. left. by left. }
  destruct (sched_add_inv [] _ L A q1 i H3 Hi) as (s4 & E4 & H4 & Hs4);
    [by rewrite state_upd, decide_True by done|by rewrite Hq1; intros []|].
  rewrite (bind_ok _ _ _ _ _ E4). exists 0, s4, (q1 ++ [i]). split; [done|]. split; [done|]. left.
  split; [done|]. split; [done|]. split; [|apply elem_of_app; right; by left].
  rewrite Hs4. change (state_of (upd_pcb i f s2) i = PROC_READY). by rewrite state_upd, decide_True by done.
Qed.

(** [sched_start], before anything runs. *)
Lemma sched_start_inv s L A q :
  proc_inv [] s L A q -> current_proc s = None ->
  exists r s', sched_start s = Ok (r, s') /\ proc_inv [] s' L A q.
Proof.
  intros Hinv Hc. unfold sched_start. destruct (queue_size s =? 0); [by exists None, s|].
  pose proof (select_spec s q (fun p => bool_decide (state_of s p = PROC_READY)) (pi_queue _ _ _ _ _ Hinv)) as Hsel.
  destruct (select _ s) as [[first idx]|]; [|by exists None, s].
  destruct Hsel as (_ & Hn & Hok & _). apply list_elem_of_lookup_2 in Hn. apply bool_decide_eq_true in Hok.
  eexists _, _. split; [done|]. set (f := fun p : pcb => set_p_ticks_scheduled _ _).
  assert (H1 : proc_inv [] (upd_pcb first f (set_current_proc (Some first) s)) L A q).
  { apply dispatch_inv; try done. intros i Hi Hrun. apply (pi_running _ _ _ _ _ Hinv i Hi) in Hrun. congruence. }
  revert H1. by apply inv_irrelevant.
Qed.

(** Setting priority and time slice of a live process. *)
Lemma proc_set_priority_inv s L A q i priority :
  proc_inv [] s L A q -> 1 <= i < MAX_PROCS -> used s i -> 0 <= priority ->
  exists s', proc_set_priority (Some i) priority s = Ok (tt, s') /\ proc_inv [] s' L A q.
Proof.
  intros Hinv Hi Hu Hp. eexists. split; [done|]. destruct (pi_slot _ _ _ _ _ Hinv i Hi Hu) as [S1 S2 S3 S4 S5 S6].
  apply inv_upd; try done. split; simpl; try done.
  - destruct (Z.ltb_spec PROC_PRIO_IDLE priority); [done|lia].
  - by apply (pi_member _ _ _ _ _ Hinv i).
  - by apply (pi_queued _ _ _ _ _ Hinv i).
  - by apply (pi_running _ _ _ _ _ Hinv i).
  - by apply (pi_current _ _ _ _ _ Hinv i).
Qed.
Lemma proc_set_timeslice_inv s L A q i ticks :
  proc_inv [] s L A q -> 1 <= i < MAX_PROCS -> used s i ->
  exists s', proc_set_timeslice (Some i) ticks s = Ok (tt, s') /\ proc_inv [] s' L A q.
Proof.
  intros Hinv Hi Hu. unfold proc_set_timeslice. destruct (ticks <? 2); [by exists s|].
  eexists. split; [done|]. by apply inv_upd_quiet.
Qed.
End ops.
