(* ===== verification/ProcSteps.v ===== *)
(** * The process manager as a state machine

    [kstep] is the transition relation of the kernel's process manager: one
    constructor per entry point (interrupts, system calls, wake-ups), each a
    whole operation of Proc.v. Reachable states satisfy [proc_inv], from which
    the safety theorems follow. *)

From Stdlib Require Import ZArith Lia.
From S2P Require Import Prelude HeapSpec Kstate Fd Proc ProcInv ProcOps.

Section steps.
Context {H : Type} `{!Heap H} `{!HeapLaws H} {F : Type} `{!Vfs H F} `{!VfsLaws H F}.
Implicit Types (s : kstate H F) (q : list Z).

(** ** Boot *)

Inductive booted : kstate H F -> Prop :=
| boot h fs L A s : heap_ok h L A -> files_ok fs L -> proc_init (zeroed h fs) = Ok (tt, s) -> booted s.

Lemma reset_slots n s s' :
  (forall i, state_of s i = PROC_UNUSED) -> for_up n 0 reset_slot s = s' ->
  s' = set_proc_table (proc_table s') s /\ (forall i, state_of s' i = PROC_UNUSED) /\
  (forall i, 0 <= i < Z.of_nat n -> p_pid (pcb_at s' i) = i).
Proof.
  intros Hs <-. apply (for_up0_ind (fun k s' => s' = set_proc_table (proc_table s') s /\
    (forall i, state_of s' i = PROC_UNUSED) /\ (forall i, 0 <= i < k -> p_pid (pcb_at s' i) = i))).
  - split; [by destruct s|]. split; [done|lia].
  - intros j s' Hj (K1 & K2 & K3). split; [unfold reset_slot, upd_pcb; simpl; by rewrite K1|]. split.
    + intros i. unfold reset_slot. rewrite state_upd. by case_decide.
    + intros i Hi. unfold reset_slot. rewrite pcb_upd. case_decide; [done|]. apply K3. lia.
Qed.

Lemma reset_words n s s' :
  (forall i, bm_test (pid_bitmap s) i = false) -> for_up n 0 reset_word s = s' ->
  s' = set_pid_bitmap (pid_bitmap s') s /\ (forall i, bm_test (pid_bitmap s') i = false).
Proof.
  intros Hs <-. apply (for_up0_ind (fun k s' => s' = set_pid_bitmap (pid_bitmap s') s /\ forall i, bm_test (pid_bitmap s') i = false)).
  - split; [by destruct s|done].
  - intros j s' Hj [M1 M2]. split; [unfold reset_word; simpl; by rewrite M1|]. simpl. intros i. specialize (M2 i).
    rewrite bm_test_bit in M2 |- *. rewrite rd_insert. case_decide; [apply Z.bits_0|done].
Qed.

Lemma inv_no_process s L A :
  heap_ok (k_heap s) L A -> files_ok (k_files s) L -> 1 <= pid_search_hint s < MAX_PROCS -> (forall i, state_of s i = PROC_UNUSED) ->
  (forall i, 0 <= i < MAX_PROCS -> p_pid (pcb_at s i) = i) ->
  (forall i, 1 <= i < MAX_PROCS -> pid_bitmap_test s i = false) ->
  ready_queue s = ∅ -> queue_size s = 0 -> current_proc s = None -> proc_inv [] s L A [].
Proof.
  intros Hh Hfs Hhint Hst Hpid Hbit R2 R3 R4. split; rewrite ?R2, ?R3, ?R4; try done.
  - intros i Hi. apply Hpid. lia.
  - intros i Hi. rewrite Hst, Hbit by done. done.
  - intros i Hi Hu. by destruct (Hu (Hst i)).
  - intros i j Hi Hj _ Hu. by destruct (Hu (Hst i)).
  - split; [done|]. intros i. rewrite lookup_empty. by case_decide.
  - constructor.
  - intros p Hp. by apply elem_of_nil in Hp.
  - intros i Hi. rewrite Hst. by intros [].
  - intros i Hi. by rewrite Hst.
Qed.

Lemma proc_init_unfold s :
  proc_init s = Ok (tt, set_pid_search_hint PID_INIT (pid_bitmap_set PID_KERNEL
    (for_up (Z.to_nat (MAX_PROCS / 32)) 0 reset_word (for_up (Z.to_nat MAX_PROCS) 0 reset_slot s)))).
Proof. reflexivity. Qed.

Lemma init_loops h fs s1 s2 n m :
  for_up n 0 reset_slot (zeroed h fs) = s1 -> for_up m 0 reset_word s1 = s2 ->
  (forall i, state_of s2 i = PROC_UNUSED) /\ (forall i, 0 <= i < Z.of_nat n -> p_pid (pcb_at s2 i) = i) /\
  (forall i, bm_test (pid_bitmap s2) i = false) /\
  k_heap s2 = h /\ k_files s2 = fs /\ ready_queue s2 = ∅ /\ queue_size s2 = 0 /\ current_proc s2 = None.
Proof.
  intros E1 E2. destruct (reset_slots n (zeroed h fs) s1 (fun _ => eq_refl) E1) as (K1 & K2 & K3).
  destruct (reset_words m s1 s2) as [M1 M2]; [|done|].
  { rewrite K1. intros i. rewrite bm_test_bit. unfold rd. simpl. rewrite lookup_empty. apply Z.bits_0. }
  assert (Hp : forall i, pcb_at s2 i = pcb_at s1 i) by (intros i; by rewrite M1).
  split; [intros i; unfold state_of; rewrite Hp; apply K2|]. split; [intros i Hi; rewrite Hp; by apply K3|].
  split; [done|]. rewrite M1. simpl. by rewrite K1.
Qed.

Lemma proc_init_inv h fs L A :
  heap_ok h L A -> files_ok fs L -> exists s, proc_init (zeroed h fs) = Ok (tt, s) /\ proc_inv [] s L A [].
Proof.
  intros Hh Hfs. rewrite proc_init_unfold.
  destruct (init_loops h fs _ _ (Z.to_nat MAX_PROCS) (Z.to_nat (MAX_PROCS / 32)) eq_refl eq_refl)
    as (K1 & K2 & K3 & R1 & Rf & R2 & R3 & R4). rewrite Z2Nat.id in K2 by done.
  eexists. split; [reflexivity|]. revert K1 K2 K3 R1 Rf R2 R3 R4. generalize (for_up (Z.to_nat (MAX_PROCS / 32)) 0 reset_word
    (for_up (Z.to_nat MAX_PROCS) 0 reset_slot (zeroed h fs))).
  intros s2 K1 K2 K3 R1 Rf R2 R3 R4. apply inv_no_process; [by simpl; rewrite R1|by simpl; rewrite Rf|done|exact K1|exact K2|..|done|done|done].
  intros i Hi. change (bm_test (bm_set (pid_bitmap s2) PID_KERNEL) i = false). rewrite bm_test_set, K3.
  rewrite decide_False by (unfold PID_KERNEL; lia). done.
Qed.

(** ** Transitions *)

(** A saved stack pointer: the address of an interrupt frame. *)
Abbreviation stack_pointer esp := (0 < esp < 2 ^ 32).

Inductive kstep : kstate H F -> kstate H F -> Prop :=
| step_idle s s' entry : 0 <= entry < 2 ^ 32 -> launch_idle entry s = Ok (tt, s') -> kstep s s'
| step_start s r s' : current_proc s = None -> sched_start s = Ok (r, s') -> kstep s s'
| step_tick s s' : timer_handler s = Ok (tt, s') -> kstep s s'
| step_switch s esp r s' : stack_pointer esp -> sched_switch_esp esp s = Ok (r, s') -> kstep s s'
| step_yield s esp r s' : stack_pointer esp -> sched_yield esp s = Ok (r, s') -> kstep s s'
| step_exit s code esp r s' : stack_pointer esp -> proc_exit code esp s = Ok (r, s') -> kstep s s'
| step_sleep s ticks esp r s' : stack_pointer esp -> proc_sleep ticks esp s = Ok (r, s') -> kstep s s'
| step_wait s pid esp r s' : stack_pointer esp -> proc_wait_try pid esp s = Ok (r, s') -> kstep s s'
| step_wait_again s self pid esp r s' : stack_pointer esp -> current_proc s = Some self ->
    proc_wait_resume self pid esp s = Ok (r, s') -> kstep s s'
| step_block s esp r s' : stack_pointer esp -> block_self esp s = Ok (r, s') -> kstep s s'
| step_wake s pid s' : 0 <= pid -> proc_wake (proc_get s pid) s = Ok (tt, s') -> kstep s s'
| step_fork s entry r s' : 0 <= entry < 2 ^ 32 -> proc_fork entry s = Ok (r, s') -> kstep s s'
| step_exec s pid entry r s' : 0 <= pid -> 0 <= entry < 2 ^ 32 ->
    proc_exec (proc_get s pid) entry s = Ok (r, s') -> kstep s s'
| step_priority s pid priority s' : 0 <= pid -> 0 <= priority < 256 ->
    proc_set_priority (proc_get s pid) priority s = Ok (tt, s') -> kstep s s'
| step_timeslice s pid ticks s' : 0 <= pid ->
    proc_set_timeslice (proc_get s pid) ticks s = Ok (tt, s') -> kstep s s'.

Lemma proc_get_slot s L A q pid :
  proc_inv [] s L A q -> 0 <= pid -> proc_get s pid = None \/
  proc_get s pid = Some pid /\ 1 <= pid < MAX_PROCS /\ used s pid.
Proof.
  intros Hinv Hp. destruct (proc_get s pid) as [i|] eqn:E; [right|by left].
  apply proc_get_Some in E as (-> & Hr & Hu); [|done]. split; [done|]. split; [|done].
  assert (pid <> 0); [|lia]. intros ->. apply Hu, (pi_kernel _ _ _ _ _ Hinv).
Qed.

Lemma block_self_inv s L A q esp :
  proc_inv [] s L A q -> 0 < esp -> exists r s' q', block_self esp s = Ok (r, s') /\ proc_inv [] s' L A q'.
Proof.
  intros Hinv Hesp. unfold block_self. destruct (current_proc s) as [i|] eqn:Hc; [|by exists 0, s, q].
  pose proof (leave_queue_inv s L A q i (set_p_state PROC_BLOCKED) PROC_BLOCKED esp Hinv Hc Hesp) as H1.
  specialize (H1 ltac:(done) ltac:(done) ltac:(done) ltac:(done) ltac:(done)).
  rewrite (bind_ok _ _ s tt (upd_pcb i (set_p_state PROC_BLOCKED) s)) by done.
  apply (remove_yield_inv _ L A q); [done| |done]. rewrite state_upd, decide_True by done. by intros [].
Qed.

Lemma launch_idle_inv s L A q entry s' :
  proc_inv [] s L A q -> 0 <= entry < 2 ^ 32 -> launch_idle entry s = Ok (tt, s') ->
  exists L' A' q', proc_inv [] s' L' A' q'.
Proof.
  intros Hinv He Hf. pose proof (proc_create_run s L A q (Some idle_name) PROC_PRIO_IDLE Hinv ltac:(done)) as Hcr.
  unfold launch_idle in Hf. apply bind_inv in Hf as (idle & s1 & E1 & Hf). rewrite E1 in Hcr.
  destruct idle as [c|]; [|done].
  rewrite (bind_ok _ _ s1 tt s1) in Hf by done. destruct Hcr as [C1 _ C3 _ _ _ _ _ (L1 & C9) _ _].
  destruct (launch_run s1 L1 _ q c entry (mret tt) C9 C1 C3 He) as (s3 & E3 & H3 & _).
  assert (E4 : (proc_init_frame (Some c) entry ;; proc_set_ready (Some c) ;; sched_add (Some c)) s1 = Ok (tt, s3)).
  { unfold mbind, M_bind, mret, M_ret in E3 |- *. destruct (proc_init_frame _ _ s1) as [[[] sa]|]; [|done].
    destruct (proc_set_ready _ sa) as [[[] sb]|]; [|done]. by destruct (sched_add _ sb) as [[[] sc]|]. }
  rewrite E4 in Hf. injection Hf as <-. eauto.
Qed.

(** Two runs of one computation have one result. *)
Ltac same_result E E' := rewrite E in E'; injection E'; intros; subst; eauto.

(** Every transition keeps the invariant. *)
Lemma kstep_inv s s' L A q : kstep s s' -> proc_inv [] s L A q -> exists L' A' q', proc_inv [] s' L' A' q'.
Proof.
  intros Hstep Hinv.
  destruct Hstep as [s s' e He E|s r s' Hc E|s s' E|s esp r s' He E|s esp r s' He E|s code esp r s' He E
    |s ticks esp r s' He E|s pid esp r s' He E|s self pid esp r s' He Hc E|s esp r s' He E|s pid s' Hp E
    |s entry r s' He E|s pid entry r s' Hp He E|s pid prio s' Hp Hr E|s pid ticks s' Hp E].
  - by apply (launch_idle_inv s L A q e).
  - destruct (sched_start_inv s L A q Hinv Hc) as (? & ? & E' & ?). same_result E E'.
  - destruct (timer_handler_inv s L A q Hinv) as (? & ? & E' & ? & _). same_result E E'.
  - destruct (sched_switch_inv s L A q esp Hinv ltac:(lia)) as (? & ? & E' & ?). same_result E E'.
  - destruct (sched_yield_inv s L A q esp Hinv ltac:(lia)) as (? & ? & E' & ?). same_result E E'.
  - destruct (proc_exit_inv s L A q code esp Hinv ltac:(lia)) as (? & ? & ? & E' & ?). same_result E E'.
  - destruct (proc_sleep_inv s L A q ticks esp Hinv ltac:(lia)) as (? & ? & ? & E' & ?). same_result E E'.
  - by apply (proc_wait_inv s L A q pid esp r); [|lia|].
  - apply (proc_wait_inv (upd_pcb self (set_p_waiting false) s) L A q pid esp r); [|lia|done].
    destruct (pi_current _ _ _ _ _ Hinv self Hc) as (Hr & Hu & _). by apply inv_upd_quiet.
  - destruct (block_self_inv s L A q esp Hinv ltac:(lia)) as (? & ? & ? & E' & ?). same_result E E'.
  - destruct (proc_get_slot s L A q pid Hinv Hp) as [Eg|(Eg & Hr & Hu)]; rewrite Eg in E.
    + injection E as <-. eauto.
    + destruct (proc_wake_inv [] s L A q pid Hinv Hr (not_elem_of_nil _)) as (? & ? & E' & ? & _). same_result E E'.
  - by apply (proc_fork_inv s L A q entry r).
  - destruct (proc_get_slot s L A q pid Hinv Hp) as [Eg|(Eg & Hr & Hu)]; rewrite Eg in E.
    + injection E as <- <-. eauto.
    + destruct (proc_exec_inv s L A q pid entry Hinv Hr Hu He) as (? & ? & ? & E' & ? & _). same_result E E'.
  - destruct (proc_get_slot s L A q pid Hinv Hp) as [Eg|(Eg & Hr' & Hu)]; rewrite Eg in E.
    + injection E as <-. eauto.
    + destruct (proc_set_priority_inv s L A q pid prio Hinv Hr' Hu ltac:(lia)) as (? & E' & ?). same_result E E'.
  - destruct (proc_get_slot s L A q pid Hinv Hp) as [Eg|(Eg & Hr & Hu)]; rewrite Eg in E.
    + injection E as <-. eauto.
    + destruct (proc_set_timeslice_inv s L A q pid ticks Hinv Hr Hu) as (? & E' & ?). same_result E E'.
Qed.

Lemma reachable_inv s0 s : booted s0 -> rtc kstep s0 s -> exists L A q, proc_inv [] s L A q.
Proof.
  intros Hb Hr. destruct Hb as [h fs L A s0 Hh Hfs E0].
  assert (H0 : exists L A q, proc_inv [] s0 L A q).
  { destruct (proc_init_inv h fs L A Hh Hfs) as (s0' & E & Hinv). rewrite E0 in E. injection E as <-. eauto. }
  clear E0 Hh Hfs. induction Hr as [s|s s1 s2 Hstep _ IH].
  - done.
  - apply IH. destruct H0 as (L' & A' & q' & Hinv). by apply (kstep_inv s s1 L' A' q').
Qed.
End steps.
