(* ===== verification/ProcSafety.v ===== *)
(** * Safety and scheduling theorems of the process manager

    Theorems about every state the kernel can reach from boot by the
    transitions of ProcSteps.v, for any heap and file layer that satisfy the
    interfaces, and their instances on a demonstration machine that runs the
    allocator of Kheap.v. *)

From Stdlib Require Import ZArith Lia.
From S2P Require Import Prelude Kheap HeapSpec Kstate Fd Fs FsLaws Proc ProcInv ProcOps ProcSteps.

Section safety.
Context {H : Type} `{!Heap H} `{!HeapLaws H} {F : Type} `{!Vfs H F} `{!VfsLaws H F}.
Implicit Types (s : kstate H F) (q : list Z).

Definition reachable s : Prop := exists s0, booted s0 /\ rtc kstep s0 s.

Lemma reachable_proc_inv s : reachable s -> exists L A q, proc_inv [] s L A q.
Proof. intros (s0 & Hb & Hr). by apply (reachable_inv s0). Qed.

Lemma aligned_disjoint a b : a mod 4096 = 0 -> b mod 4096 = 0 -> a <> b -> a + 4096 <= b \/ b + 4096 <= a.
Proof. intros Ha Hb Hne. Z.to_euclidean_division_equations. lia. Qed.

(** ** The scheduler's choice *)

(** [n] is the process [sched_switch_esp] must choose when [c] runs: ready, and
    no other ready process has a lower priority number. *)
Definition best_ready s (c n : Z) : Prop :=
  1 <= n < MAX_PROCS /\ n <> c /\ state_of s n = PROC_READY /\
  forall p, 1 <= p < MAX_PROCS -> p <> c -> state_of s p = PROC_READY -> prio_of s n <= prio_of s p.

(** Among equal priorities the earlier entry of the queue wins. *)
Definition first_in_queue s (c n : Z) : Prop :=
  forall q, queue_rep (ready_queue s) (queue_size s) q -> exists i, q !! i = Some n /\
    forall j p, (j < i)%nat -> q !! j = Some p -> p <> c -> state_of s p = PROC_READY -> prio_of s n < prio_of s p.

Lemma queue_rep_unique rq n q q' : queue_rep rq n q -> queue_rep rq n q' -> q = q'.
Proof.
  intros [_ H1] [_ H2]. apply list_eq. intros i. specialize (H1 (Z.of_nat i)). specialize (H2 (Z.of_nat i)).
  rewrite decide_True, Nat2Z.id in H1 by lia. rewrite decide_True, Nat2Z.id in H2 by lia. congruence.
Qed.

Definition none_ready s (c : Z) : Prop :=
  forall p, 1 <= p < MAX_PROCS -> p <> c -> state_of s p <> PROC_READY.

Lemma eligible_true s c p : eligible s c p = true <-> p <> c /\ state_of s p = PROC_READY.
Proof. unfold eligible. rewrite andb_true_iff, negb_true_iff, Z.eqb_neq, bool_decide_eq_true. done. Qed.

Lemma select_best s L A q c :
  proc_inv [] s L A q ->
  match select (eligible s c) s with
  | Some (n, idx) => best_ready s c n /\ first_in_queue s c n /\ n ∈ q
  | None => none_ready s c
  end.
Proof.
  intros Hinv. pose proof (select_spec s q (eligible s c) (pi_queue _ _ _ _ _ Hinv)) as Hsel.
  assert (Hin : forall p, 1 <= p < MAX_PROCS -> state_of s p = PROC_READY -> p ∈ q).
  { intros p Hp Hst. by destruct (pi_queued _ _ _ _ _ Hinv p Hp (or_introl Hst)) as [?%elem_of_nil|?]. }
  destruct (select (eligible s c) s) as [[n idx]|].
  - destruct Hsel as (Hi & Hn & Hel & _ & Hmin & Hfirst). apply eligible_true in Hel as [Hne Hst].
    pose proof (list_elem_of_lookup_2 _ _ _ Hn) as Hnq. destruct (pi_member _ _ _ _ _ Hinv n Hnq) as [Hr _].
    split; [|split; [|done]].
    + split; [done|]. split; [done|]. split; [done|]. intros p Hp Hpc Hpst.
      pose proof (Hin p Hp Hpst) as Hpq. apply list_elem_of_lookup in Hpq as [j Hj]. by apply (Hmin j p Hj), eligible_true.
    + intros q' Hq'. rewrite (queue_rep_unique _ _ _ _ Hq' (pi_queue _ _ _ _ _ Hinv)). exists (Z.to_nat idx).
      split; [done|]. intros j p Hj Hp Hpc Hpst. apply (Hfirst j p Hp); [by apply eligible_true|lia].
  - intros p Hp Hpc Hpst. pose proof (proj2 (eligible_true s c p) (conj Hpc Hpst)) as Hel.
    pose proof (Hsel p (Hin p Hp Hpst) Hel). pose proof (eligible_prio s L A q c p Hinv (Hin p Hp Hpst) Hel). lia.
Qed.

(** The three outcomes of a tick for the running process [c]. *)
Inductive switch_outcome s (c esp r : Z) s' : Prop :=
| keeps_slice :
    1 < p_timeslice (pcb_at s c) -> r = 0 -> current_proc s' = Some c ->
    p_timeslice (pcb_at s' c) = p_timeslice (pcb_at s c) - 1 ->
    (forall p, state_of s' p = state_of s p) -> switch_outcome s c esp r s'
| runs_alone :
    p_timeslice (pcb_at s c) <= 1 -> none_ready s c -> r = 0 -> current_proc s' = Some c ->
    p_timeslice (pcb_at s' c) = p_timeslice_len (pcb_at s c) ->
    (forall p, state_of s' p = state_of s p) -> switch_outcome s c esp r s'
| switches n :
    p_timeslice (pcb_at s c) <= 1 -> best_ready s c n -> first_in_queue s c n -> r = p_esp_kernel (pcb_at s n) -> 0 < r ->
    current_proc s' = Some n -> state_of s' n = PROC_RUNNING -> tss_esp0 s' = p_esp0 (pcb_at s n) ->
    p_timeslice (pcb_at s' n) = p_timeslice_len (pcb_at s n) ->
    p_esp_kernel (pcb_at s' c) = esp ->
    state_of s' c = (if bool_decide (state_of s c = PROC_RUNNING) then PROC_READY else state_of s c) ->
    (forall p, p <> c -> p <> n -> pcb_at s' p = pcb_at s p) -> switch_outcome s c esp r s'.

Lemma slice_used_fields s c :
  p_timeslice (pcb_at (slice_used c s) c) =
    (if 0 <? p_timeslice (pcb_at s c) then p_timeslice (pcb_at s c) - 1 else p_timeslice (pcb_at s c)) /\
  p_timeslice_len (pcb_at (slice_used c s) c) = p_timeslice_len (pcb_at s c) /\
  (forall p, p <> c -> pcb_at (slice_used c s) p = pcb_at s p).
Proof.
  unfold slice_used. change (pcb_at (set_tick_flag false s) c) with (pcb_at s c).
  destruct (0 <? p_timeslice (pcb_at s c)); [|done]. split; [|split].
  - by rewrite pcb_upd, decide_True by done.
  - by rewrite pcb_upd, decide_True by done.
  - intros p Hp. by rewrite pcb_upd, decide_False by done.
Qed.

Lemma sched_switch_outcome s L A q c esp :
  proc_inv [] s L A q -> current_proc s = Some c -> sched_enabled s = true -> tick_flag s = true -> 0 < esp ->
  exists r s', sched_switch_esp esp s = Ok (r, s') /\ switch_outcome s c esp r s'.
Proof.
  intros Hinv Hc Hen Htf Hesp. unfold sched_switch_esp. rewrite Hen, Htf, Hc. cbn [negb orb].
  destruct (slice_used_inv s L A q c Hinv Hc) as (H1 & Hc1 & Hst1 & Hpr1).
  destruct (slice_used_fields s c) as (T1 & T2 & T3). set (s1 := slice_used c s) in *. cbv zeta.
  assert (Hbest : forall n, best_ready s1 c n -> best_ready s c n).
  { intros n (B1 & B2 & B3 & B4). rewrite Hst1 in B3. split; [done|]. split; [done|]. split; [done|].
    intros p Hp Hpc Hps. rewrite <- !Hpr1. apply B4; [done|done|by rewrite Hst1]. }
  destruct (Z.ltb_spec 0 (p_timeslice (pcb_at s1 c))) as [Hpos|Hnp].
  { exists 0, s1. split; [done|]. assert (1 < p_timeslice (pcb_at s c)) by (rewrite T1 in Hpos; zbool; lia).
    apply keeps_slice; try done. rewrite T1. zbool; lia. }
  assert (Hle : p_timeslice (pcb_at s c) <= 1) by (rewrite T1 in Hnp; zbool; lia).
  pose proof (select_best s1 L A q c H1) as Hsel. destruct (select (eligible s1 c) s1) as [[n idx]|].
  - destruct Hsel as (Hb & Hfst & Hn). pose proof Hb as (B1 & B2 & B3 & _).
    destruct (switch_to_inv s1 L A q c n idx esp H1 Hc1 Hn (proj2 (eligible_true s1 c n) (conj B2 B3)) Hesp)
      as (_ & Hrun & Hek & Hpos).
    eexists _, _. split; [done|]. apply (switches s c esp _ _ n); try done.
    + by apply Hbest.
    + intros q' Hq'. destruct (Hfst q') as (i & Hi & Hlt); [revert Hq'; subst s1; unfold slice_used; by destruct (0 <? _)|].
      exists i. split; [done|]. intros j p. rewrite <- !Hpr1, <- Hst1. apply Hlt.
    + rewrite Hek. by rewrite T3.
    + by rewrite Hek.
    + simpl. rewrite pcb_upd, decide_True by done. change (p_esp0 (pcb_at (upd_pcb c (descheduled (tick_count s1) esp) s1) n) = p_esp0 (pcb_at s n)).
      by rewrite pcb_upd, decide_False, T3 by done.
    + change (p_timeslice (pcb_at (upd_pcb n dispatched (upd_pcb c (descheduled (tick_count s1) esp) s1)) n) = p_timeslice_len (pcb_at s n)).
      rewrite pcb_upd, decide_True by done. simpl. by rewrite pcb_upd, decide_False, T3 by done.
    + change (p_esp_kernel (pcb_at (upd_pcb n dispatched (upd_pcb c (descheduled (tick_count s1) esp) s1)) c) = esp).
      rewrite pcb_upd, decide_False by done. rewrite pcb_upd, decide_True by done. unfold descheduled. by destruct (bool_decide _).
    + change (p_state (pcb_at (upd_pcb n dispatched (upd_pcb c (descheduled (tick_count s1) esp) s1)) c) =
        (if bool_decide (state_of s c = PROC_RUNNING) then PROC_READY else state_of s c)).
      rewrite pcb_upd, decide_False by done. rewrite pcb_upd, decide_True by done. rewrite <- !Hst1.
      unfold descheduled, state_of. simpl. by destruct (bool_decide _).
    + intros p Hpc Hpn. change (pcb_at (upd_pcb n dispatched (upd_pcb c (descheduled (tick_count s1) esp) s1)) p = pcb_at s p).
      rewrite !pcb_upd, !decide_False by done. by apply T3.
  - eexists _, _. split; [done|]. apply runs_alone; try done.
    + intros p Hp Hpc. rewrite <- Hst1. by apply Hsel.
    + rewrite pcb_upd, decide_True by done. done.
    + intros p. rewrite state_upd, <- Hst1. case_decide; [by subst|done].
Qed.

(** ** Interrupts only: ticks and context switches *)

Inductive cpu_step : kstate H F -> kstate H F -> Prop :=
| cpu_tick s s' : timer_handler s = Ok (tt, s') -> cpu_step s s'
| cpu_switch s esp r s' : 0 < esp < 2 ^ 32 -> sched_switch_esp esp s = Ok (r, s') -> cpu_step s s'.

(** [a] and [b] are at the head of the queue with the best priority, and one
    of them runs. *)
Record duopoly (L A : gmap Z Z) (a b : Z) s : Prop := {
  du_inv : exists rest, proc_inv [] s L A (a :: b :: rest);
  du_equal : prio_of s a = prio_of s b;
  du_best : forall p, 1 <= p < MAX_PROCS -> used s p -> prio_of s a <= prio_of s p;
  du_current : current_proc s = Some a \/ current_proc s = Some b
}.

Lemma switch_prios s c n esp s' idx now :
  s' = upd_pcb n dispatched (set_current_proc (Some n) (set_current_idx idx (upd_pcb c (descheduled now esp) s))) ->
  n <> c -> used s n -> prios_kept s s'.
Proof.
  intros -> Hne Hu j. unfold prio_of.
  change (p_priority (pcb_at (upd_pcb n dispatched (upd_pcb c (descheduled now esp) s)) j) = p_priority (pcb_at s j) /\
    (used (upd_pcb n dispatched (upd_pcb c (descheduled now esp) s)) j <-> used s j)).
  rewrite !state_upd, !pcb_upd. repeat case_decide; subst; try done.
  unfold state_of, descheduled. destruct (bool_decide _) eqn:E; [|done]. apply bool_decide_eq_true in E. simpl in *.
  split; [done|]. by rewrite E.
Qed.

Lemma slice_used_prios s L A q c : proc_inv [] s L A q -> current_proc s = Some c -> prios_kept s (slice_used c s).
Proof.
  intros Hinv Hc j. destruct (slice_used_inv s L A q c Hinv Hc) as (_ & _ & Hst & Hpr). by rewrite Hst, Hpr.
Qed.

Lemma sched_switch_prios s L A q esp r s' :
  proc_inv [] s L A q -> sched_switch_esp esp s = Ok (r, s') -> prios_kept s s'.
Proof.
  intros Hinv. unfold sched_switch_esp. destruct (_ || _); [by intros [= <- <-]|].
  destruct (current_proc s) as [c|] eqn:Hc; [|by intros [= <- <-]].
  pose proof (slice_used_prios s L A q c Hinv Hc) as H1.
  destruct (slice_used_inv s L A q c Hinv Hc) as (Hinv1 & _). set (s1 := slice_used c s) in *. cbv zeta.
  destruct (0 <? _); [by intros [= <- <-]|]. pose proof (select_best s1 L A q c Hinv1) as Hsel.
  destruct (select _ s1) as [[n idx]|]; intros [= <- <-]; apply (prios_kept_trans s s1); try done.
  - destruct Hsel as ((_ & B2 & B3 & _) & _).
    apply (switch_prios s1 c n esp (upd_pcb n dispatched (set_current_proc (Some n)
      (set_current_idx idx (upd_pcb c (descheduled (tick_count s1) esp) s1)))) idx (tick_count s1)); [done|done|congruence].
  - intros j. unfold prio_of. rewrite state_upd, pcb_upd. case_decide; [by subst|done].
Qed.

(** The process at the head of the queue that does not run is chosen next. *)
Lemma duopoly_choice L A a b rest s c n :
  proc_inv [] s L A (a :: b :: rest) -> prio_of s a = prio_of s b ->
  (forall p, 1 <= p < MAX_PROCS -> used s p -> prio_of s a <= prio_of s p) ->
  current_proc s = Some c -> (c = a \/ c = b) -> best_ready s c n -> first_in_queue s c n -> n = a \/ n = b.
Proof.
  intros Hinv Heq Hbest Hc Hab (B1 & B2 & B3 & B4) Hf.
  destruct (Hf _ (pi_queue _ _ _ _ _ Hinv)) as (i & Hi & Hlt).
  assert (Hn : prio_of s a <= prio_of s n) by (apply Hbest; congruence).
  assert (Hrdy : forall p, p ∈ a :: b :: rest -> p <> c -> state_of s p = PROC_READY).
  { intros p Hp Hpc. destruct (pi_member _ _ _ _ _ Hinv p Hp) as [Hr [?%elem_of_nil|[?|Hrun]]]; [done|done|].
    apply (pi_running _ _ _ _ _ Hinv p Hr) in Hrun. congruence. }
  pose proof (pi_nodup _ _ _ _ _ Hinv) as Hnd. apply NoDup_cons in Hnd as [Hna Hnd].
  assert (a <> b) by (intros ->; apply Hna; by left).
  destruct i as [|[|i]]; simpl in Hi; [left; congruence|right; congruence|]. exfalso. destruct Hab as [-> | ->].
  - pose proof (Hlt 1%nat b ltac:(lia) eq_refl ltac:(congruence)) as Hb. rewrite Heq in Hn.
    specialize (Hb ltac:(apply Hrdy; [right; by left|congruence])). lia.
  - pose proof (Hlt 0%nat a ltac:(lia) eq_refl ltac:(congruence)) as Ha.
    specialize (Ha ltac:(apply Hrdy; [by left|congruence])). lia.
Qed.

Lemma duopoly_kept L A a b s s' : cpu_step s s' -> duopoly L A a b s -> duopoly L A a b s'.
Proof.
  intros Hstep [[rest Hinv] D2 D3 D4].
  assert (Hkeep : prios_kept s s' -> prio_of s' a = prio_of s' b /\
    (forall p, 1 <= p < MAX_PROCS -> used s' p -> prio_of s' a <= prio_of s' p)).
  { intros Hp. split; [rewrite (proj1 (Hp a)), (proj1 (Hp b)); done|]. intros p Hr Hu.
    rewrite (proj1 (Hp a)), (proj1 (Hp p)). apply D3; [done|]. by apply Hp. }
  destruct Hstep as [s s' E|s esp r s' He E].
  - destruct (timer_handler_inv s L A _ Hinv) as (s1 & q1 & E1 & T1 & T2 & T3 & T4). rewrite E in E1. injection E1 as <-.
    destruct (Hkeep T3). destruct T4 as [t ->]. split; try done; [by exists (rest ++ t)|by rewrite T2].
  - destruct (Hkeep (sched_switch_prios _ _ _ _ _ _ _ Hinv E)).
    destruct (sched_switch_inv s L A _ esp Hinv ltac:(lia)) as (r1 & s1 & E1 & T1). rewrite E in E1. injection E1 as <- <-.
    split; [eauto|done|done|].
    assert (Hc : exists c, current_proc s = Some c /\ (c = a \/ c = b)) by (destruct D4; eauto). destruct Hc as (c & Hc & Hab).
    destruct (sched_enabled s) eqn:Hen, (tick_flag s) eqn:Htf.
    2-4: unfold sched_switch_esp in E; rewrite Hen, Htf in E; injection E as <- <-; done.
    destruct (sched_switch_outcome s L A _ c esp Hinv Hc Hen Htf ltac:(lia)) as (r2 & s2 & E2 & Ho).
    rewrite E in E2. injection E2 as <- <-. destruct Ho as [_ _ Hc' _ _|_ _ _ Hc' _ _|n _ Hb Hf _ _ Hc' _ _ _ _ _ _].
    + rewrite Hc'. destruct Hab as [-> | ->]; auto.
    + rewrite Hc'. destruct Hab as [-> | ->]; auto.
    + rewrite Hc'. destruct (duopoly_choice L A a b rest s c n Hinv D2 D3 Hc Hab Hb Hf) as [-> | ->]; auto.
Qed.

(** ** Blocking *)

(** A context switch keeps the state of a current process that is not
    running, and what the scheduler does not own in its control block. *)
Lemma sched_yield_keeps s L A q c esp r s' :
  proc_inv [] s L A q -> current_proc s = Some c -> state_of s c <> PROC_RUNNING -> 0 < esp ->
  sched_yield esp s = Ok (r, s') ->
  state_of s' c = state_of s c /\ p_waiting (pcb_at s' c) = p_waiting (pcb_at s c) /\
  p_wait_for_pid (pcb_at s' c) = p_wait_for_pid (pcb_at s c).
Proof.
  intros Hinv Hc Hnr Hesp. unfold sched_yield, sched_force_switch, modify, mbind, M_bind.
  change (current_proc (set_tick_flag true s)) with (current_proc s). rewrite Hc.
  set (s1 := upd_pcb c (set_p_timeslice 0) (set_tick_flag true s)).
  assert (Hp1 : pcb_at s1 c = set_p_timeslice 0 (pcb_at s c)) by (subst s1; by rewrite pcb_upd, decide_True by done).
  unfold sched_switch_esp. destruct (_ || _); [intros [= <- <-]; unfold state_of; by rewrite Hp1|].
  change (current_proc s1) with (current_proc s). rewrite Hc.
  assert (Hsl : pcb_at (slice_used c s1) c = set_p_timeslice 0 (pcb_at s c)).
  { unfold slice_used. change (pcb_at (set_tick_flag false s1) c) with (pcb_at s1 c). by rewrite Hp1. }
  rewrite Hsl. cbn. set (s2 := slice_used c s1) in *.
  destruct (select _ s2) as [[n idx]|] eqn:Es; intros [= <- <-].
  - assert (Hn : n <> c).
    { intros ->. assert (Hinv1 : proc_inv [] s1 L A q).
      { destruct (pi_current _ _ _ _ _ Hinv c Hc) as (Hr & Hu & _). apply inv_upd_quiet; try done. by apply (inv_irrelevant [] s). }
      destruct (slice_used_inv s1 L A q c Hinv1 Hc) as (Hinv2 & _). pose proof (select_best s2 L A q c Hinv2) as Hb.
      fold s2 in Hb. rewrite Es in Hb. by destruct Hb as ((_ & ? & _) & _). }
    unfold state_of.
    change (pcb_at (set_tss_esp0 _ _) c) with (pcb_at (upd_pcb n dispatched (upd_pcb c (descheduled (tick_count s2) esp) s2)) c).
    rewrite pcb_upd, decide_False, pcb_upd, decide_True, Hsl by done. unfold descheduled. simpl.
    fold (state_of s c). by rewrite bool_decide_false.
  - unfold state_of. by rewrite pcb_upd, decide_True, Hsl by done.
Qed.

Lemma proc_wait_blocks s L A q self pid esp :
  proc_inv [] s L A q -> 0 < esp -> current_proc s = Some self ->
  exists r s' q',
    (modify (upd_pcb self (fun p =>
       set_p_state PROC_BLOCKED (set_p_wakeup_tick 0 (set_p_waiting true (set_p_wait_for_pid pid p))))) ;;
     sched_remove self ;; r ← sched_yield esp; mret (WaitBlocked r)) s = Ok (WaitBlocked r, s') /\
    proc_inv [] s' L A q' /\ state_of s' self = PROC_BLOCKED /\ (self ∉ q') /\
    p_waiting (pcb_at s' self) = true /\ p_wait_for_pid (pcb_at s' self) = pid.
Proof.
  intros Hinv Hesp Hc.
  set (f := fun p => set_p_state PROC_BLOCKED (set_p_wakeup_tick 0 (set_p_waiting true (set_p_wait_for_pid pid p)))).
  pose proof (leave_queue_inv s L A q self f PROC_BLOCKED esp Hinv Hc Hesp) as H1.
  specialize (H1 ltac:(done) ltac:(done) ltac:(done) ltac:(done) ltac:(done)).
  rewrite (bind_ok _ _ s tt (upd_pcb self f s)) by done.
  assert (Hp : pcb_at (upd_pcb self f s) self = f (pcb_at s self)) by by rewrite pcb_upd, decide_True by done.
  destruct (sched_remove_inv _ _ _ _ _ H1) as (s2 & q2 & E2 & _ & H2 & Hq2 & Hs2). rewrite (bind_ok _ _ _ _ _ E2).
  specialize (H2 ltac:(rewrite state_upd, decide_True by done; by intros [])).
  assert (Hp2 : pcb_at s2 self = f (pcb_at s self)) by (rewrite <- Hp, Hs2; done).
  destruct (sched_yield_inv s2 L A q2 esp H2 Hesp) as (r & s3 & E3 & H3). rewrite (bind_ok _ _ _ _ _ E3).
  destruct (sched_yield_keeps s2 L A q2 self esp r s3 H2) as (K1 & K2 & K3); [by rewrite Hs2|unfold state_of; by rewrite Hp2|done|done|].
  exists r, s3, q2. split; [done|]. split; [done|]. rewrite K1, K2, K3. unfold state_of. rewrite Hp2.
  split; [done|]. split; [rewrite Hq2; by intros []|done].
Qed.

(** ** Theorems *)

(** C4: in every reachable state the ready queue holds each ready or running
    process exactly once and nothing else (no runnable process is lost, none
    is queued twice), a running process is the current one (so at most one
    runs), the PID bitmap marks exactly the live processes, the kernel stacks
    of two live processes do not overlap, and a process that left the embryo
    state has a stack pointer to resume from. *)
Theorem process_safety s :
  reachable s ->
  exists q, queue_rep (ready_queue s) (queue_size s) q /\ NoDup q /\
    (forall i, i ∈ q <-> 1 <= i < MAX_PROCS /\ (state_of s i = PROC_READY \/ state_of s i = PROC_RUNNING)) /\
    (forall i, 1 <= i < MAX_PROCS -> state_of s i = PROC_RUNNING -> current_proc s = Some i) /\
    (forall i, 1 <= i < MAX_PROCS -> pid_bitmap_test s i = true <-> state_of s i <> PROC_UNUSED) /\
    (forall i j, 1 <= i < MAX_PROCS -> 1 <= j < MAX_PROCS -> i <> j ->
       state_of s i <> PROC_UNUSED -> state_of s j <> PROC_UNUSED ->
       p_kstack_base (pcb_at s i) + KSTACK_SIZE <= p_kstack_base (pcb_at s j) \/
       p_kstack_base (pcb_at s j) + KSTACK_SIZE <= p_kstack_base (pcb_at s i)) /\
    (forall i, 1 <= i < MAX_PROCS -> state_of s i <> PROC_UNUSED -> state_of s i <> PROC_EMBRYO ->
       0 < p_esp_kernel (pcb_at s i)).
Proof.
  intros Hr. apply reachable_proc_inv in Hr as (L & A & q & Hinv). exists q.
  split; [apply (pi_queue _ _ _ _ _ Hinv)|]. split; [apply (pi_nodup _ _ _ _ _ Hinv)|].
  split; [intros i; split|split; [apply (pi_running _ _ _ _ _ Hinv)|split; [apply (pi_bit _ _ _ _ _ Hinv)|split]]].
  - intros Hi. by destruct (pi_member _ _ _ _ _ Hinv i Hi) as [? [?%elem_of_nil|?]].
  - intros [Hi Hst]. by destruct (pi_queued _ _ _ _ _ Hinv i Hi Hst) as [?%elem_of_nil|?].
  - intros i j Hi Hj Hne Hui Huj. apply aligned_disjoint.
    + apply (so_base _ _ _ (pi_slot _ _ _ _ _ Hinv i Hi Hui)).
    + apply (so_base _ _ _ (pi_slot _ _ _ _ _ Hinv j Hj Huj)).
    + by apply (pi_inj _ _ _ _ _ Hinv).
  - intros i Hi Hu. apply (so_esp _ _ _ (pi_slot _ _ _ _ _ Hinv i Hi Hu)).
Qed.

(** C18: in a reachable state the timer interrupt, the context switch, yielding,
    exiting, sleeping, blocking and restarting a process all run to
    completion: no panic, no page fault, no undefined behaviour. *)
Theorem scheduler_total s esp :
  reachable s -> 0 < esp < 2 ^ 32 ->
  (exists s', timer_handler s = Ok (tt, s')) /\
  (exists r s', sched_switch_esp esp s = Ok (r, s')) /\
  (exists r s', sched_yield esp s = Ok (r, s')) /\
  (forall code, exists r s', proc_exit code esp s = Ok (r, s')) /\
  (forall ticks, exists r s', proc_sleep ticks esp s = Ok (r, s')) /\
  (exists r s', block_self esp s = Ok (r, s')) /\
  (forall pid entry, 0 <= pid -> 0 <= entry < 2 ^ 32 -> exists r s', proc_exec (proc_get s pid) entry s = Ok (r, s')).
Proof.
  intros Hr He. apply reachable_proc_inv in Hr as (L & A & q & Hinv). assert (Hesp : 0 < esp) by lia.
  split_and!.
  - destruct (timer_handler_inv s L A q Hinv) as (s' & q' & E & _). eauto.
  - destruct (sched_switch_inv s L A q esp Hinv Hesp) as (r & s' & E & _). eauto.
  - destruct (sched_yield_inv s L A q esp Hinv Hesp) as (r & s' & E & _). eauto.
  - intros code. destruct (proc_exit_inv s L A q code esp Hinv Hesp) as (r & s' & q' & E & _). eauto.
  - intros ticks. destruct (proc_sleep_inv s L A q ticks esp Hinv Hesp) as (r & s' & q' & E & _). eauto.
  - destruct (block_self_inv s L A q esp Hinv Hesp) as (r & s' & q' & E & _). eauto.
  - intros pid entry Hp Hen. destruct (proc_get_slot s L A q pid Hinv Hp) as [->|(-> & Hpr & Hu)]; [by exists (-1), s|].
    destruct (proc_exec_inv s L A q pid entry Hinv Hpr Hu Hen) as (r & s' & q' & E & _). eauto.
Qed.

(** C19: a context switch with a pending tick decrements the time slice of the
    current process; when it is used up, the CPU goes to the ready process of
    best priority among the others (the earliest in the queue among equals),
    whose saved stack pointer is returned and whose kernel stack is installed in
    the TSS, and the current process keeps running exactly when no other one is
    ready. The priority of the current process plays no part: a real-time
    process gives way to a process of any priority. Without a pending tick
    nothing changes. *)
Theorem sched_switch_correct s esp c :
  reachable s -> 0 < esp < 2 ^ 32 -> current_proc s = Some c ->
  exists r s', sched_switch_esp esp s = Ok (r, s') /\
    (if sched_enabled s && tick_flag s then switch_outcome s c esp r s' else r = 0 /\ s' = s).
Proof.
  intros Hr He Hc. apply reachable_proc_inv in Hr as (L & A & q & Hinv).
  destruct (sched_enabled s) eqn:Hen, (tick_flag s) eqn:Htf; simpl.
  1: by apply (sched_switch_outcome s L A q c esp); [..|lia].
  all: exists 0, s; split; [|done]; unfold sched_switch_esp; by rewrite Hen, Htf.
Qed.

(** The scheduler does not rotate among equal priorities. When the two
    processes at the head of the queue have the best priority and one of them
    runs, every sequence of timer interrupts and context switches leaves the
    CPU with one of these two: a third ready process of the same priority is
    never dispatched. *)
Theorem scheduler_starves_third s s' a b rest :
  reachable s -> queue_rep (ready_queue s) (queue_size s) (a :: b :: rest) ->
  prio_of s a = prio_of s b ->
  (forall p, 1 <= p < MAX_PROCS -> state_of s p <> PROC_UNUSED -> prio_of s a <= prio_of s p) ->
  (current_proc s = Some a \/ current_proc s = Some b) ->
  rtc cpu_step s s' -> current_proc s' = Some a \/ current_proc s' = Some b.
Proof.
  intros Hr Hq Heq Hbest Hc Hsteps. apply reachable_proc_inv in Hr as (L & A & q & Hinv).
  assert (Hd : duopoly L A a b s).
  { split; try done. exists rest. by rewrite <- (queue_rep_unique _ _ _ _ (pi_queue _ _ _ _ _ Hinv) Hq). }
  clear Hq Heq Hbest Hc Hinv. induction Hsteps as [s|s s1 s2 Hstep _ IH]; [apply Hd|].
  apply IH. by apply (duopoly_kept L A a b s).
Qed.

(** [proc_create] either panics or stops where opening the standard
    descriptors does, or reports failure with
    the process table unchanged and only because no PID or no stack is left,
    or claims an unused slot for an embryo with the clamped priority, a time
    slice of 7 to 18 ticks and a page-aligned stack of its own, and leaves
    every other process and the contents of every other stack alone. *)
Theorem proc_create_correct s name priority :
  reachable s -> 0 <= priority < 256 ->
  match proc_create name priority s with
  | Stop f => (exists msg, f = Panic msg) \/ (exists s1, k_files s1 = k_files s /\ fd_table_init s1 = Stop f)
  | Ok (None, s') => proc_table s' = proc_table s /\
      ((forall i, 1 <= i < MAX_PROCS -> state_of s i <> PROC_UNUSED) \/
       (exists h, heap_malloc_aligned KSTACK_SIZE (k_heap s) = Ok (0, h)))
  | Ok (Some pid, s') => exists A q,
      created s s' A q name priority pid /\ 7 <= p_timeslice_len (pcb_at s' pid) <= 18 /\
      p_kstack_base (pcb_at s' pid) mod 4096 = 0 /\
      p_kstack_top (pcb_at s' pid) = p_kstack_base (pcb_at s' pid) + KSTACK_SIZE
  end.
Proof.
  intros Hr Hp. apply reachable_proc_inv in Hr as (L & A & q & Hinv).
  pose proof (proc_create_run s L A q name priority Hinv Hp) as Hcr.
  destruct (proc_create name priority s) as [[[pid|] s']|f]; [|tauto|destruct Hcr as [?|(s1 & A' & ? & _ & ?)]; eauto].
  exists A, q. split; [done|]. pose proof Hcr as [C1 C2 C3 C4 C5 [C6 C6'] C7 C8 (L' & C9) C10 C11].
  rewrite C6'. split; [apply timeslice_range; unfold PROC_PRIO_IDLE; lia|].
  destruct (pi_slot _ _ _ _ _ C9 pid C1) as [_ S2 S3 _ _ _]; [congruence|]. split; [apply S2|done].
Qed.

(** [proc_init_frame] builds on the kernel stack of a live process the
    interrupt frame that [iret] pops: kernel data segments, cleared general
    registers, the entry point, the kernel code segment and interrupts
    enabled. The saved stack pointer is the frame's address, and no word of a
    live heap block outside the frame changes. *)
Theorem proc_init_frame_correct s L A q i entry :
  proc_inv [] s L A q -> 1 <= i < MAX_PROCS -> state_of s i <> PROC_UNUSED -> 0 <= entry < 2 ^ 32 ->
  exists s', proc_init_frame (Some i) entry s = Ok (tt, s') /\ proc_inv [] s' L A q /\
    p_esp_kernel (pcb_at s' i) = p_kstack_top (pcb_at s i) - 68 /\
    (forall k w, kernel_frame (entry_regs entry) !! k = Some w ->
       heap_word (k_heap s') (p_esp_kernel (pcb_at s' i) + 4 * Z.of_nat k) = w) /\
    (forall a, owned L A a -> ~ (p_esp_kernel (pcb_at s' i) <= a < p_kstack_top (pcb_at s i)) ->
       heap_word (k_heap s') a = heap_word (k_heap s) a).
Proof.
  intros Hinv Hi Hu He. destruct (proc_init_frame_run [] s L A q i entry Hinv Hi Hu He) as (h & E & Hh & Hpos & Hw & Hk).
  destruct (proc_init_frame_inv [] s L A q i entry Hinv Hi Hu He) as (s1 & E1 & H1 & _).
  rewrite E in E1. injection E1 as <-. eexists. split; [exact E|]. split; [exact H1|].
  rewrite pcb_upd, decide_True by done. simpl. split; [done|]. split; [done|].
  intros a Ha Hout. apply Hk; [done|]. lia.
Qed.

(** A zombie child that a wait for [pid] may reap. *)
Definition zombie_of s (self pid c : Z) : Prop :=
  1 <= c < MAX_PROCS /\ state_of s c = PROC_ZOMBIE /\ p_ppid (pcb_at s c) = self /\ (pid = PID_INVALID \/ pid = c).

(** The scan of the process table finds the lowest one. *)
Lemma zombie_child_cases s L A q self pid :
  proc_inv [] s L A q -> current_proc s = Some self ->
  (exists c, zombie_child s self pid = Some c /\ zombie_of s self pid c /\ forall j, zombie_of s self pid j -> c <= j) \/
  (zombie_child s self pid = None /\ forall j, ~ zombie_of s self pid j).
Proof.
  intros Hinv Hc. destruct (pi_current _ _ _ _ _ Hinv self Hc) as (Hrs & _). pose proof (pi_pid _ _ _ _ _ Hinv) as Hpid.
  destruct (zombie_child s self pid) as [c|] eqn:Ez; [left|right].
  - destruct (zombie_child_slot s L A q self pid c Hinv Hc Ez) as (Hr & Hz & _ & Hpc).
    destruct (zombie_child_Some s self pid c Ez) as (_ & _ & _ & Hpp & Hm & Hmin). rewrite Hpid in Hpp by done. rewrite Hpc in Hm.
    exists c. split; [done|]. split; [split_and!; [lia..|done|done|by destruct Hm; auto]|]. intros j (Hj & Hjz & Hjp & Hjm).
    destruct (Z.le_gt_cases c j) as [|Hlt]; [done|]. exfalso. apply (Hmin j ltac:(lia)). rewrite !Hpid by done.
    split_and!; [unfold used; congruence|done|done|by destruct Hjm; auto].
  - split; [done|]. intros j (Hj & Hjz & Hjp & Hjm). unfold zombie_child in Ez. rewrite find_up_None in Ez.
    specialize (Ez j ltac:(rewrite Z2Nat.id by done; lia)). unfold proc_get in Ez. rewrite (proj2 (Z.leb_gt _ _)), bool_decide_false in Ez by (lia || congruence).
    rewrite !Hpid, Hjp, Z.eqb_refl, (bool_decide_true (state_of s j = PROC_ZOMBIE)), andb_true_r in Ez by done. cbn [andb] in Ez.
    apply orb_false_iff in Ez as [E1 E2]. apply Z.eqb_neq in E1, E2. destruct Hjm; congruence.
Qed.

(** C26: waiting. When the caller has a zombie child that matches, [proc_wait]
    reaps the one with the lowest PID: it returns its PID and exit code, marks
    the slot unused, makes the PID available again and frees the kernel stack;
    other processes are unchanged or, if they were blocked, woken by the closing
    of the child's files (if closing them fails, so does the call). When no
    child that matches is a zombie, the caller leaves the queue, blocked and
    marked as waiting. *)
Theorem proc_wait_correct s L A q self pid esp :
  proc_inv [] s L A q -> 0 < esp -> current_proc s = Some self ->
  (exists c, zombie_of s self pid c /\ (forall j, zombie_of s self pid j -> c <= j) /\
     exists h0, match fd_table_close_all (p_fd_table (pcb_at s c)) (set_k_heap h0 s) with
     | Stop f => proc_wait_try pid esp s = Stop f
     | Ok _ => exists s' L' q', proc_wait_try pid esp s = Ok (WaitReaped c (p_exit_code (pcb_at s c)), s') /\
         state_of s' c = PROC_UNUSED /\ pid_bitmap_test s' c = false /\
         (forall j, j <> c -> pcb_at s' j = pcb_at s j \/
            state_of s j = PROC_BLOCKED /\ pcb_at s' j = wake_pcb (pcb_at s j)) /\
         proc_inv [] s' L' (delete (p_kstack_base (pcb_at s c)) A) q'
     end) \/
  ((forall j, ~ zombie_of s self pid j) /\
   exists r s' q', proc_wait_try pid esp s = Ok (WaitBlocked r, s') /\ proc_inv [] s' L A q' /\
     state_of s' self = PROC_BLOCKED /\ (self ∉ q') /\
     p_waiting (pcb_at s' self) = true /\ p_wait_for_pid (pcb_at s' self) = pid).
Proof.
  intros Hinv Hesp Hc. destruct (zombie_child_cases s L A q self pid Hinv Hc) as [(c & Ez & Hzo & Hmin)|[Ez Hno]]; [left|right].
  2: { split; [done|]. unfold proc_wait_try. rewrite Hc, Ez. by apply (proc_wait_blocks s L A q self pid esp). }
  exists c. split; [done|]. split; [done|]. unfold proc_wait_try. rewrite Hc, Ez.
  destruct (zombie_child_slot s L A q self pid c Hinv Hc Ez) as (Hr & Hz & Hne & Hpid). rewrite Hpid in *.
  destruct (proc_destroy_run s L A q c Hinv Hr Hz ltac:(congruence)) as (h0 & Hd). exists h0.
  destruct (fd_table_close_all _ _) as [[tb s1]|f]; [|by rewrite (bind_stop _ _ _ _ Hd)].
  destruct Hd as (ws & h & fs & L' & q' & E & Hwok & Hinv' & _). rewrite (bind_ok _ _ _ _ _ E).
  exists (destroyed c h fs (wake_all ws s)), L', q'. split; [done|].
  assert (Hp : forall j, pcb_at (destroyed c h fs (wake_all ws s)) j =
    if decide (c = j) then cleared_pcb c else pcb_at (wake_all ws s) j).
  { intros j. unfold pcb_at at 1. simpl. rewrite lookup_insert. by case_decide. }
  split; [unfold state_of; by rewrite Hp, decide_True by done|].
  split; [unfold pid_bitmap_test; simpl; by rewrite bm_test_clear, decide_True by done|].
  split; [|done]. intros j Hj. rewrite Hp, decide_False by done. apply Hwok.
Qed.
End safety.

(** ** A demonstration machine

    The allocator of Kheap.v under the file layer of Fs.v, with the RAM file
    system mounted and the three devices registered: the idle process is
    started and forks two children; the first child exits and the idle process
    waits for it. *)

Definition demo_boot : demo_kstate := final proc_init (zeroed (k_heap demo_mounted) (k_files demo_mounted)).
Definition demo_idle : demo_kstate := final (launch_idle 0x100000) demo_boot.
Definition demo_started : demo_kstate := final sched_start demo_idle.
Definition demo_fork1 : demo_kstate := final (proc_fork 0x101000) demo_started.
Definition demo_fork2 : demo_kstate := final (proc_fork 0x102000) demo_fork1.
Definition demo_ticked : demo_kstate := final timer_handler demo_fork2.
Definition demo_child : demo_kstate := final (sched_yield 0x200000) demo_fork2.
Definition demo_exited : demo_kstate := final (proc_exit 7 0x300000) demo_child.

Lemma demo_fork2_reachable : reachable demo_fork2.
Proof.
  exists demo_boot. split.
  - destruct demo_mounted_ok as (L & Hh & Hf).
    destruct (run_final proc_init (zeroed (k_heap demo_mounted) (k_files demo_mounted))) as [[] E]; [vm_compute; reflexivity|].
    exact (boot _ _ L ∅ demo_boot Hh Hf E).
  - apply (rtc_l _ _ demo_idle).
    { destruct (run_final (launch_idle 0x100000) demo_boot) as [[] E]; [vm_compute; reflexivity|].
      apply (step_idle _ _ 0x100000); [lia|exact E]. }
    apply (rtc_l _ _ demo_started).
    { destruct (run_final sched_start demo_idle) as [r E]; [vm_compute; reflexivity|].
      apply (step_start _ r); [vm_compute; reflexivity|exact E]. }
    apply (rtc_l _ _ demo_fork1).
    { destruct (run_final (proc_fork 0x101000) demo_started) as [r E]; [vm_compute; reflexivity|].
      apply (step_fork _ 0x101000 r); [lia|exact E]. }
    apply rtc_once. destruct (run_final (proc_fork 0x102000) demo_fork1) as [r E]; [vm_compute; reflexivity|].
    apply (step_fork _ 0x102000 r); [lia|exact E].
Qed.

Lemma demo_exited_reachable : reachable demo_exited.
Proof.
  destruct demo_fork2_reachable as (s0 & Hb & Hr). exists s0. split; [exact Hb|]. apply (rtc_r _ demo_child).
  - apply (rtc_r _ demo_fork2); [exact Hr|].
    destruct (run_final (sched_yield 0x200000) demo_fork2) as [r E]; [vm_compute; reflexivity|].
    apply (step_yield _ 0x200000 r); [lia|exact E].
  - destruct (run_final (proc_exit 7 0x300000) demo_child) as [r E]; [vm_compute; reflexivity|].
    apply (step_exit _ 7 0x300000 r); [lia|exact E].
Qed.

(** The first process, made a real-time process, at the tick that ends its time
    slice. *)
Definition demo_realtime : demo_kstate := final (proc_set_priority (proc_get demo_fork2 1) PROC_PRIO_REALTIME) demo_fork2.
Definition demo_short : demo_kstate := final (proc_set_timeslice (proc_get demo_realtime 1) 2) demo_realtime.
Definition demo_first_tick : demo_kstate := final timer_handler demo_short.
Definition demo_slice : demo_kstate := final (sched_switch_esp 0x200000) demo_first_tick.
Definition demo_due : demo_kstate := final timer_handler demo_slice.

Lemma demo_due_reachable : reachable demo_due.
Proof.
  destruct demo_fork2_reachable as (s0 & Hb & Hr). exists s0. split; [exact Hb|]. transitivity demo_fork2; [exact Hr|].
  apply (rtc_l _ _ demo_realtime).
  { destruct (run_final (proc_set_priority (proc_get demo_fork2 1) PROC_PRIO_REALTIME) demo_fork2) as [[] E]; [vm_compute; reflexivity|].
    apply (step_priority _ 1 PROC_PRIO_REALTIME); [lia|unfold PROC_PRIO_REALTIME; lia|exact E]. }
  apply (rtc_l _ _ demo_short).
  { destruct (run_final (proc_set_timeslice (proc_get demo_realtime 1) 2) demo_realtime) as [[] E]; [vm_compute; reflexivity|].
    apply (step_timeslice _ 1 2); [lia|exact E]. }
  apply (rtc_l _ _ demo_first_tick).
  { destruct (run_final timer_handler demo_short) as [[] E]; [vm_compute; reflexivity|]. exact (step_tick _ _ E). }
  apply (rtc_l _ _ demo_slice).
  { destruct (run_final (sched_switch_esp 0x200000) demo_first_tick) as [r E]; [vm_compute; reflexivity|].
    apply (step_switch _ 0x200000 r); [lia|exact E]. }
  apply rtc_once. destruct (run_final timer_handler demo_slice) as [[] E]; [vm_compute; reflexivity|]. exact (step_tick _ _ E).
Qed.

#[global] Opaque demo_realtime demo_short demo_first_tick demo_slice demo_due demo_boot demo_idle demo_started demo_fork1 demo_fork2 demo_ticked demo_child demo_exited.

Lemma process_queue (s : demo_kstate) : reachable s -> exists q, queue_rep (ready_queue s) (queue_size s) q.
Proof. intros Hr. destruct (reachable_proc_inv s Hr) as (L & A & q & Hinv). exists q. apply (pi_queue _ _ _ _ _ Hinv). Qed.

(** The three processes have the idle priority. *)
Lemma demo_prios p :
  1 <= p < MAX_PROCS -> state_of demo_fork2 p <> PROC_UNUSED -> prio_of demo_fork2 1 <= prio_of demo_fork2 p.
Proof.
  intros Hp Hu.
  assert (Hall : forallb (fun i => bool_decide (state_of demo_fork2 i = PROC_UNUSED) ||
    (prio_of demo_fork2 1 <=? prio_of demo_fork2 i)) (seqZ 1 255) = true) by (vm_compute; reflexivity).
  rewrite forallb_forall in Hall. specialize (Hall p). apply orb_true_iff in Hall as [Hb|Hb].
  - apply bool_decide_eq_true in Hb. destruct (Hu Hb).
  - apply Z.leb_le. exact Hb.
  - apply list_elem_of_In, elem_of_seqZ. unfold MAX_PROCS in Hp. lia.
Qed.

(** ** The theorems on the demonstration machine *)

Lemma process_safety_witness :
  exists q, queue_rep (ready_queue demo_fork2) (queue_size demo_fork2) q /\ 3 ∈ q /\
    pid_bitmap_test demo_fork2 2 = true.
Proof.
  destruct (process_safety demo_fork2 demo_fork2_reachable) as (q & Hq & _ & Hm & _ & Hb & _).
  exists q. split; [exact Hq|]. split.
  - apply Hm. split; [unfold MAX_PROCS; lia|]. left. vm_compute. reflexivity.
  - apply Hb; [unfold MAX_PROCS; lia|]. vm_compute. discriminate.
Defined.

Lemma scheduler_total_witness : exists r s', proc_exit 7 0x300000 demo_fork2 = Ok (r, s').
Proof.
  destruct (scheduler_total demo_fork2 0x300000 demo_fork2_reachable ltac:(lia)) as (_ & _ & _ & H & _). exact (H 7).
Defined.

Lemma sched_switch_correct_witness :
  p_priority (pcb_at demo_due 1) = PROC_PRIO_REALTIME /\ p_priority (pcb_at demo_due 2) = PROC_PRIO_IDLE /\
  exists r s', sched_switch_esp 0x300000 demo_due = Ok (r, s') /\ switch_outcome demo_due 1 0x300000 r s' /\
    current_proc s' = Some 2 /\ state_of s' 1 = PROC_READY.
Proof.
  split; [vm_compute; reflexivity|]. split; [vm_compute; reflexivity|].
  assert (E : sched_enabled demo_due && tick_flag demo_due = true) by (vm_compute; reflexivity).
  assert (Ec : match sched_switch_esp 0x300000 demo_due with Ok (_, s') => (current_proc s', state_of s' 1) | _ => (None, PROC_UNUSED) end =
    (Some 2, PROC_READY)) by (vm_compute; reflexivity).
  destruct (sched_switch_correct demo_due 0x300000 1 demo_due_reachable ltac:(lia)) as (r & s' & H1 & H2);
    [vm_compute; reflexivity|]. rewrite E in H2. rewrite H1 in Ec. injection Ec as Ec1 Ec2. exists r, s'. exact (conj H1 (conj H2 (conj Ec1 Ec2))).
Defined.

Lemma scheduler_starves_third_witness :
  state_of demo_fork2 3 = PROC_READY /\ p_priority (pcb_at demo_fork2 3) = p_priority (pcb_at demo_fork2 1) /\
  (current_proc demo_ticked = Some 1 \/ current_proc demo_ticked = Some 2).
Proof.
  split; [vm_compute; reflexivity|]. split; [vm_compute; reflexivity|].
  apply (scheduler_starves_third demo_fork2 demo_ticked 1 2 [3] demo_fork2_reachable).
  - destruct (process_queue demo_fork2 demo_fork2_reachable) as (q & Hq).
    assert (Hv : queue_size demo_fork2 = 3 /\ ready_queue demo_fork2 !! 0 = Some 1 /\
      ready_queue demo_fork2 !! 1 = Some 2 /\ ready_queue demo_fork2 !! 2 = Some 3) by (vm_compute; auto).
    destruct Hv as (V0 & V1 & V2 & V3). destruct Hq as [Hn Hl]. rewrite V0 in Hn. 
    destruct q as [|x0 [|x1 [|x2 [|x3 q]]]]; simpl length in Hn; try lia.
    rewrite Hl in V1, V2, V3. injection V1 as ->. injection V2 as ->. injection V3 as ->. exact (conj V0 Hl).
  - vm_compute. reflexivity.
  - intros p Hp Hu. exact (demo_prios p Hp Hu).
  - left. vm_compute. reflexivity.
  - apply rtc_once. destruct (run_final timer_handler demo_fork2) as [[] E]; [vm_compute; reflexivity|].
    apply cpu_tick. exact E.
Defined.

Lemma proc_create_correct_witness :
  exists pid s', proc_create (Some idle_name) 40 demo_fork2 = Ok (Some pid, s') /\
    p_priority (pcb_at s' pid) = 31 /\ 7 <= p_timeslice_len (pcb_at s' pid) <= 18.
Proof.
  assert (Eo : match proc_create (Some idle_name) 40 demo_fork2 with Ok (Some _, _) => true | _ => false end = true)
    by (vm_compute; reflexivity).
  pose proof (proc_create_correct demo_fork2 (Some idle_name) 40 demo_fork2_reachable ltac:(lia)) as H.
  destruct (proc_create (Some idle_name) 40 demo_fork2) as [[[pid|] s']|f]; [|discriminate Eo|discriminate Eo].
  destruct H as (A & q & Hcr & H & _). exists pid, s'. split; [reflexivity|]. split; [exact (cr_prio _ _ _ _ _ _ _ Hcr)|exact H].
Defined.

Lemma proc_init_frame_correct_witness :
  exists s', proc_init_frame (Some 2) 0x123456 demo_fork2 = Ok (tt, s') /\
    heap_word (k_heap s') (p_esp_kernel (pcb_at s' 2) + 56) = 0x123456.
Proof.
  destruct (reachable_proc_inv demo_fork2 demo_fork2_reachable) as (L & A & q & Hinv).
  destruct (proc_init_frame_correct demo_fork2 L A q 2 0x123456 Hinv) as (s' & E & _ & _ & Hw & _);
    [unfold MAX_PROCS; lia|vm_compute; discriminate|lia|].
  exists s'. split; [exact E|]. exact (Hw 14%nat 0x123456 eq_refl).
Defined.

Lemma proc_wait_correct_witness :
  zombie_of demo_exited 1 PID_INVALID 2 /\
  exists s', proc_wait_try PID_INVALID 0x400000 demo_exited = Ok (WaitReaped 2 7, s') /\ state_of s' 2 = PROC_UNUSED.
Proof.
  assert (Hz : zombie_of demo_exited 1 PID_INVALID 2).
  { split; [unfold MAX_PROCS; lia|]. split; [vm_compute; reflexivity|]. split; [vm_compute; reflexivity|by left]. }
  split; [exact Hz|]. destruct (reachable_proc_inv demo_exited demo_exited_reachable) as (L & A & q & Hinv).
  assert (Hp : p_ppid (pcb_at demo_exited 1) <> 1) by (vm_compute; discriminate).
  assert (Ec : p_exit_code (pcb_at demo_exited 2) = 7) by (vm_compute; reflexivity).
  assert (Eo : succeeds (proc_wait_try PID_INVALID 0x400000) demo_exited = true) by (vm_compute; reflexivity).
  destruct (proc_wait_correct demo_exited L A q 1 PID_INVALID 0x400000 Hinv ltac:(lia) ltac:(vm_compute; reflexivity))
    as [(c & Hc & Hmin & h0 & Hw)|[Hno _]]; [|destruct (Hno 2 Hz)].
  assert (c = 2). { specialize (Hmin 2 Hz). destruct Hc as (Hr & _ & Hpp & _). destruct (decide (c = 1)) as [Hc1|Hc1]; [|clear -Hmin Hr Hc1; lia].
    rewrite Hc1 in Hpp. exact (False_ind _ (Hp Hpp)). }
  subst c. rewrite Ec in Hw. destruct (fd_table_close_all (p_fd_table (pcb_at demo_exited 2)) (set_k_heap h0 demo_exited)) as [[tb s1]|f].
  - destruct Hw as (s' & L' & q' & E & Hs & _). exists s'. exact (conj E Hs).
  - unfold succeeds in Eo. rewrite Hw in Eo. discriminate Eo.
Defined.
