(* ===== verification/Kinv.v ===== *)
(** * Preserving the kernel's invariant

    [kinv] is the invariant of the process manager over the concrete file
    layer. [preserves] composes it over the monad: file operations preserve it
    by their [keeps] lemma, operations of the process manager by being steps of
    [kstep]. The pipe, device and system call layers use it. *)

From Stdlib Require Import ZArith Lia.
From S2P Require Import Prelude HeapSpec Kstate Fd Fs FsLaws Proc ProcInv ProcOps ProcSteps.

Section preserves.
Context {H : Type} `{!Heap H} `{!HeapLaws H}.
Implicit Types (s : kstate H fstate).

Definition kinv s : Prop := exists L A q, proc_inv [] s L A q.

Definition preserves {T : Type} (c : M (kstate H fstate) T) : Prop :=
  forall s r s', kinv s -> c s = Ok (r, s') -> kinv s'.

Lemma preserves_ret {T} (x : T) : preserves (mret x).
Proof. intros s r s' Hi [= <- <-]. done. Qed.

Lemma preserves_stop {T} f : preserves (stop f : M (kstate H fstate) T).
Proof. intros s r s' _ E. discriminate E. Qed.

Lemma preserves_gets {T} (f : kstate H fstate -> T) : preserves (gets f).
Proof. intros s r s' Hi [= <- <-]. done. Qed.

Lemma preserves_bind {T U} (c : M (kstate H fstate) T) (k : T -> M (kstate H fstate) U) :
  preserves c -> (forall x, preserves (k x)) -> preserves (c ≫= k).
Proof. intros Hc Hk s r s' Hi E. apply bind_inv in E as (x & s1 & E1 & E2). apply (Hk x s1 r s'); [by apply (Hc s x s1)|done]. Qed.

(** A step that may look at the state it starts in. *)
Lemma preserves_bind_gets {T U} (f : kstate H fstate -> T) (k : T -> M (kstate H fstate) U) :
  (forall s r s', kinv s -> k (f s) s = Ok (r, s') -> kinv s') -> preserves (gets f ≫= k).
Proof. intros Hk s r s' Hi E. by apply (Hk s r s'). Qed.

Lemma kinv_effect s s' L A q ws : proc_inv [] s L A q -> file_effect fs_ok ws A s s' -> kinv s'.
Proof.
  intros Hinv (Hws & h & fs & L' & -> & Hh & Hf & _). destruct (wake_all_inv ws s L A q Hinv Hws) as (q' & H1 & _).
  exists L', A, q'. by apply (inv_heap [] _ L).
Qed.

Lemma preserves_keeps {T} b (c : M (kstate H fstate) T) : keeps b c -> preserves c.
Proof.
  intros Hk s r s' (L & A & q & Hinv) E.
  destruct (Hk s L A r s' (pi_heap _ _ _ _ _ Hinv) (pi_files _ _ _ _ _ Hinv) E) as (ws & _ & G). by apply (kinv_effect s s' L A q ws).
Qed.

(** A file operation does not change which process runs. *)
Lemma keeps_current {T} b (c : M (kstate H fstate) T) s r s' : keeps b c -> kinv s -> c s = Ok (r, s') -> current_proc s' = current_proc s.
Proof.
  intros Hk (L & A & q & Hinv) E.
  destruct (Hk s L A r s' (pi_heap _ _ _ _ _ Hinv) (pi_files _ _ _ _ _ Hinv) E) as (ws & _ & Hws & h & fs & L' & -> & _).
  simpl. by destruct (wake_all_inv ws s L A q Hinv Hws) as (_ & _ & -> & _).
Qed.

Lemma preserves_kstep {T} (c : M (kstate H fstate) T) : (forall s r s', c s = Ok (r, s') -> kstep s s') -> preserves c.
Proof.
  intros Hs s r s' (L & A & q & Hinv) E. destruct (kstep_inv s s' L A q (Hs s r s' E) Hinv) as (L' & A' & q' & Hinv'). by exists L', A', q'.
Qed.

Lemma preserves_load {T U} (view : obj -> option T) p (k : T -> M (kstate H fstate) U) :
  (forall o x, obj_ok o -> view o = Some x -> preserves (k x)) -> preserves (load view p ≫= k).
Proof.
  intros Hk s r s' Hi E. unfold mbind, M_bind, load in E. pose proof Hi as (L & A & q & Hinv).
  destruct (objs (k_files s) !! p) as [o|] eqn:Ep; [|done]. simpl in E. destruct (view o) as [x|] eqn:Ev; [|done].
  destruct (pi_files _ _ _ _ _ Hinv p o Ep) as (_ & _ & Ho). exact (Hk o x Ho Ev s r s' Hi E).
Qed.

Lemma preserves_store p o : obj_ok o -> preserves (store p o).
Proof. intros Ho. by apply (preserves_keeps true), keeps_store. Qed.

(** Descriptors are not part of the invariant. *)
Lemma kinv_fd_table s i table : kinv s -> current_proc s = Some i -> kinv (upd_pcb i (set_p_fd_table table) s).
Proof.
  intros (L & A & q & Hinv) Hc. destruct (pi_current _ _ _ _ _ Hinv i Hc) as (Hr & Hu & _). exists L, A, q. by apply inv_upd_quiet.
Qed.
End preserves.

(** Decompose an operation of the kernel. *)
Ltac preserves_step :=
  match goal with
  | |- preserves (load _ _ ≫= _) => apply preserves_load; intros
  | |- preserves (_ ≫= _) => apply preserves_bind; [|intros]
  | |- preserves (if ?b then _ else _) => destruct b
  | |- preserves (match ?x with _ => _ end) => destruct x
  | |- preserves (mret _) => apply preserves_ret
  | |- preserves (stop _) => apply preserves_stop
  | |- preserves (gets _) => apply preserves_gets
  | |- preserves (store _ _) => apply preserves_store
  | |- preserves (new_obj _ _) => apply (preserves_keeps true); apply keeps_new_obj
  | |- preserves (kfree_obj _) => apply (preserves_keeps true); apply keeps_kfree_obj
  end.
