(* ===== verification/Dir.v ===== *)
(** * Directories of the RAM file system (kernel/fs/ramfs.c) and the start of
      the file layer (ramfs_init, devfs_init)

    A directory is a vnode, its inode and a linked list of entries; [dir_at] says
    which list of entries they represent. Looking up a name, creating an entry
    and registering a device act on that list. *)

From Stdlib Require Import ZArith Lia.
From S2P Require Import Prelude Kheap HeapSpec Kstate Fd Fs FsLaws Ramfs Proc ProcInv ProcOps ProcSteps ProcSafety Kinv.

(** ** Running without a fault

    [runs c s P]: [c] ends, by a panic (the heap cannot grow) or with a result
    that satisfies [P]. *)
Definition runs {S T : Type} (c : M S T) (s : S) (P : T -> S -> Prop) : Prop :=
  (exists msg, c s = Stop (Panic msg)) \/ exists r s', c s = Ok (r, s') /\ P r s'.

Lemma runs_ok {S T} (c : M S T) s r s' (P : T -> S -> Prop) : c s = Ok (r, s') -> P r s' -> runs c s P.
Proof. intros E Hp. right. by exists r, s'. Qed.

Lemma runs_bind {S T U} (c : M S T) (k : T -> M S U) s (P : T -> S -> Prop) (Q : U -> S -> Prop) :
  runs c s P -> (forall r s', P r s' -> runs (k r) s' Q) -> runs (c ≫= k) s Q.
Proof.
  intros [(msg & E)|(r & s' & E & Hp)] Hk; [left; exists msg; by apply bind_stop|].
  destruct (Hk r s' Hp) as [(msg & E2)|(r2 & s2 & E2 & Hq)]; [left; exists msg|right; exists r2, s2; split; [|done]];
  by rewrite (bind_ok _ _ _ _ _ E).
Qed.

Lemma runs_step {S T U} (c : M S T) (k : T -> M S U) s r s' (Q : U -> S -> Prop) :
  c s = Ok (r, s') -> runs (k r) s' Q -> runs (c ≫= k) s Q.
Proof. intros E. unfold runs. by rewrite (bind_ok _ _ _ _ _ E). Qed.

Lemma runs_weaken {S T} (c : M S T) s (P Q : T -> S -> Prop) : runs c s P -> (forall r s', P r s' -> Q r s') -> runs c s Q.
Proof. intros [?|(r & s' & E & Hp)] Hw; [by left|right; eauto]. Qed.

(** ** Representation *)

(** The list of entries that starts at address [d]. *)
Inductive chain (m : gmap Z obj) : Z -> list (Z * ramfs_dirent) -> Prop :=
| chain_nil : chain m 0 []
| chain_cons a e es : a <> 0 -> m !! a = Some (ODirent e) -> chain m (d_next e) es -> chain m a ((a, e) :: es).

Record dir_at (m : gmap Z obj) (v : Z) (x : vnode) (ino : ramfs_inode) (es : list (Z * ramfs_dirent)) : Prop := {
  da_vnode : m !! v = Some (OVnode x);
  da_type : v_type x = VNODE_DIR;
  da_ops : v_ops x = ramfs_ops;
  da_inode : m !! v_data x = Some (OInode ino);
  da_chain : chain m (i_children ino) es
}.

(** The first entry with a name, and the vnode it names. *)
Fixpoint first_entry (name : list Z) (es : list (Z * ramfs_dirent)) : option (Z * ramfs_dirent) :=
  match es with
  | [] => None
  | (a, e) :: es' => if bool_decide (d_name e = name) then Some (a, e) else first_entry name es'
  end.
Definition named (name : list Z) (es : list (Z * ramfs_dirent)) : option Z := (fun ae => d_vnode ae.2) <$> first_entry name es.

Lemma chain_unique m d es es' : chain m d es -> chain m d es' -> es = es'.
Proof.
  intros Hc. revert es'. induction Hc as [|a e es Ha He Hc IH]; intros es' Hc'; inversion Hc'; subst; try done.
  assert (e0 = e) as -> by congruence. f_equal. by apply IH.
Qed.

Lemma chain_suffix m d es a : chain m d es -> a ∈ es.*1 -> exists es2, chain m a es2 /\ (length es2 <= length es)%nat.
Proof.
  induction 1 as [|b e es Hb He Hc IH]; simpl; [by intros ?%elem_of_nil|].
  intros [->|Hin]%elem_of_cons.
  - exists ((b, e) :: es). split; [by constructor|done].
  - destruct (IH Hin) as (es2 & ? & ?). exists es2. split; [done|lia].
Qed.

Lemma chain_NoDup m d es : chain m d es -> NoDup es.*1.
Proof.
  induction 1 as [|a e es Ha He Hc IH]; simpl; constructor; [|done].
  intros Hin. destruct (chain_suffix m _ es a Hc Hin) as (es2 & Hc2 & Hl).
  rewrite (chain_unique m a es2 ((a, e) :: es) Hc2 (chain_cons m a e es Ha He Hc)) in Hl. simpl in Hl. lia.
Qed.

Lemma chain_dom m d es a : chain m d es -> a ∈ es.*1 -> exists e, m !! a = Some (ODirent e).
Proof. induction 1 as [|b e es Hb He Hc IH]; simpl; [by intros ?%elem_of_nil|]. intros [->|Hin]%elem_of_cons; eauto. Qed.

(** The walk of [find_dirent] has enough fuel. *)
Lemma chain_length m d es : chain m d es -> (length es <= size m)%nat.
Proof.
  intros Hc. rewrite <- size_dom, <- (length_fmap fst), <- (size_list_to_set (C := gset Z) es.*1 (chain_NoDup m d es Hc)).
  apply subseteq_size. intros a Ha. apply elem_of_list_to_set in Ha. destruct (chain_dom m d es a Hc Ha) as [e He].
  by apply elem_of_dom_2 in He.
Qed.

(** Objects that are not entries of the list do not matter. *)
Lemma chain_frame m m' d es : chain m d es -> (forall a e, m !! a = Some (ODirent e) -> m' !! a = Some (ODirent e)) -> chain m' d es.
Proof. intros Hc Hk. induction Hc; constructor; auto. Qed.

Section dir.
Context {H : Type} `{!Heap H} `{!HeapLaws H}.
Implicit Types (s : kstate H fstate) (m : gmap Z obj).

(** ** Looking up *)

Lemma find_dirent_run s h m name d es fuel prev :
  chain m d es -> (length es < fuel)%nat ->
  exists o, find_dirent fuel prev d name (st s h m) = Ok (o, st s h m) /\ snd <$> o = fst <$> first_entry name es.
Proof.
  intros Hc. revert fuel prev. induction Hc as [|a e es Ha He Hc IH]; intros fuel prev Hf.
  - exists None. by destruct fuel.
  - destruct fuel as [|fuel]; [simpl in Hf; lia|]. simpl. rewrite (proj2 (Z.eqb_neq a 0)) by done. run_load He.
    case_bool_decide as Hn; [by exists (Some (prev, a))|]. apply IH. simpl in Hf. lia.
Qed.

Lemma first_entry_chain m d name es a e : chain m d es -> first_entry name es = Some (a, e) -> m !! a = Some (ODirent e).
Proof.
  induction 1 as [|b e' es Hb He Hc IH]; simpl; [done|]. case_bool_decide; [by intros [= <- <-]|done].
Qed.

Lemma ramfs_lookup_run s h m dir x ino es name :
  dir_at m dir x ino es -> ramfs_lookup dir name (st s h m) = Ok (named name es, st s h m).
Proof.
  intros [Ev Et Eo Ei Hc]. unfold ramfs_lookup. run_load Ev. rewrite Et, Z.eqb_refl. cbn [negb]. run_load Ei.
  rewrite (bind_ok _ _ _ (S (size m)) (st s h m)) by done.
  destruct (find_dirent_run s h m name (i_children ino) es (S (size m)) 0 Hc) as (o & E & Ho).
  { pose proof (chain_length m _ es Hc). lia. }
  rewrite (bind_ok _ _ _ _ _ E). unfold named. destruct (first_entry name es) as [[a e]|] eqn:Ef.
  - destruct o as [[p b]|]; [|done]. simpl in Ho. injection Ho as ->.
    pose proof (first_entry_chain m _ name es a e Hc Ef) as Ha. by run_load Ha.
  - by destruct o.
Qed.

(** ** Allocating *)

Lemma runs_load {T U} (view : obj -> option T) s h m p o y (k : T -> M (kstate H fstate) U) Q :
  m !! p = Some o -> view o = Some y -> runs (k y) (st s h m) Q -> runs (load view p ≫= k) (st s h m) Q.
Proof. intros Hp Hv. by apply runs_step, (load_st view s h m p o y). Qed.

(** The heap holds the objects of [m]. *)
Definition healthy (h : H) m (A : gmap Z Z) : Prop := exists L, heap_ok h L A /\ objs_ok m L.

Lemma healthy_insert h m A p o o' : healthy h m A -> m !! p = Some o' -> obj_ok o -> healthy h (<[p := o]> m) A.
Proof. intros (L & Hh & Hm) Hp Ho. exists L. split; [done|]. by apply (objs_ok_insert m L p o o'). Qed.

Lemma new_obj_runs s h m A size o :
  healthy h m A -> 0 < size < HEAP_REQUEST -> obj_ok o ->
  runs (new_obj size o) (st s h m) (fun p s' =>
    p = 0 /\ (exists h', s' = st s h' m /\ healthy h' m A) \/
    p <> 0 /\ m !! p = None /\ exists h', s' = st s h' (<[p := o]> m) /\ healthy h' (<[p := o]> m) A).
Proof.
  intros (L & Hh & Hm) Hs Ho. destruct (new_obj_st s h m L A size o Hh Hm Hs Ho) as [E|[(h' & E & K & _)|(p & h' & E & Hp & Hn & K1 & K2 & _)]].
  - by left.
  - eapply runs_ok; [exact E|]. left. split; [done|]. exists h'. split; [done|]. by exists L.
  - eapply runs_ok; [exact E|]. right. split; [done|]. split; [done|]. exists h'. split; [done|]. by eexists.
Qed.

Lemma kfree_obj_runs s h m A p o :
  healthy h m A -> m !! p = Some o -> exists h', kfree_obj p (st s h m) = Ok (tt, st s h' (delete p m)) /\ healthy h' (delete p m) A.
Proof.
  intros (L & Hh & Hm) Hp. destruct (kfree_obj_st s h m L A p o Hh Hm Hp) as (h' & E & K1 & K2 & _). exists h'. split; [done|]. by eexists.
Qed.

(** A fresh vnode with its inode. *)
Definition with_node m (i v type : Z) : gmap Z obj :=
  <[v := OVnode (Vnode type 0 0 ramfs_ops i)]> (<[i := OInode (Inode 0 0 0 0)]> m).

Lemma ramfs_new_vnode_runs s h m A type :
  healthy h m A ->
  runs (ramfs_new_vnode type) (st s h m) (fun v s' =>
    v = 0 /\ (exists h', s' = st s h' m /\ healthy h' m A) \/
    v <> 0 /\ m !! v = None /\ exists i h', m !! i = None /\ i <> v /\ s' = st s h' (with_node m i v type) /\ healthy h' (with_node m i v type) A).
Proof.
  intros Hh. unfold ramfs_new_vnode, vnode_alloc.
  eapply runs_bind; [apply (new_obj_runs s h m A); [done|done|apply cap_ok_0]|]. intros i s1 [(-> & h1 & -> & H1)|(Hi & Hni & h1 & -> & H1)].
  { eapply runs_ok; [reflexivity|]. left. eauto. }
  rewrite (proj2 (Z.eqb_neq i 0)) by done.
  eapply runs_bind; [by apply (new_obj_runs s h1 _ A)|]. intros v s2 [(-> & h2 & -> & H2)|(Hv & Hnv & h2 & -> & H2)].
  - cbn [Z.eqb]. destruct (kfree_obj_runs s h2 _ A i _ H2 (lookup_insert_eq m i _)) as (h3 & E & H3).
    eapply runs_ok; [rewrite (bind_ok _ _ _ _ _ E); reflexivity|]. left. split; [done|]. exists h3.
    rewrite delete_insert_id in H3 |- * by done. done.
  - rewrite (proj2 (Z.eqb_neq v 0)) by done. eapply runs_ok; [reflexivity|]. right. split; [done|].
    rewrite lookup_insert in Hnv. case_decide; [done|]. split; [done|]. exists i, h2. done.
Qed.


(** ** Adding an entry *)

(** The directory's objects after an entry [d] for [child] was put in front. *)
Definition with_entry m (x : vnode) (ino : ramfs_inode) (d : Z) (name : list Z) (child : Z) : gmap Z obj :=
  <[v_data x := OInode (set_i_children d (i_child_count ino +w 1) ino)]>
    (<[d := ODirent (Dirent (take (VFS_NAME_MAX - 1) name) child (i_children ino))]> m).

Lemma dir_with_entry m dir x ino es d name child :
  dir_at m dir x ino es -> d <> 0 -> m !! d = None ->
  dir_at (with_entry m x ino d name child) dir x (set_i_children d (i_child_count ino +w 1) ino)
    ((d, Dirent (take (VFS_NAME_MAX - 1) name) child (i_children ino)) :: es).
Proof.
  intros [Ev Et Eo Ei Hc] Hd Hn. assert (Hdv : d <> v_data x) by congruence. unfold with_entry. split; try done.
  - rewrite !lookup_insert_ne by congruence. done.
  - apply lookup_insert_eq.
  - simpl. constructor; [done| |].
    + rewrite lookup_insert_ne by done. apply lookup_insert_eq.
    + apply (chain_frame m); [done|]. intros a e Ha. rewrite !lookup_insert_ne by congruence. done.
Qed.

Lemma ramfs_add_dirent_runs s h m A dir x ino es name child :
  healthy h m A -> dir_at m dir x ino es ->
  runs (ramfs_add_dirent dir name child) (st s h m) (fun r s' =>
    r = -1 /\ (exists h', s' = st s h' m /\ healthy h' m A) \/
    r = 0 /\ exists d h', d <> 0 /\ m !! d = None /\ s' = st s h' (with_entry m x ino d name child) /\
      healthy h' (with_entry m x ino d name child) A).
Proof.
  intros Hh [Ev Et Eo Ei Hc]. unfold ramfs_add_dirent.
  assert (Hino : obj_ok (OInode ino)) by (destruct Hh as (L & _ & Hm); by destruct (Hm _ _ Ei) as (_ & _ & ?)).
  eapply runs_load; [exact Ev|done|]. eapply runs_load; [exact Ei|done|].
  eapply runs_bind; [by apply (new_obj_runs s h m A)|]. intros d s1 [(-> & h1 & -> & H1)|(Hd & Hn & h1 & -> & H1)].
  { eapply runs_ok; [reflexivity|]. left. eauto. }
  rewrite (proj2 (Z.eqb_neq d 0)) by done. assert (Hdv : d <> v_data x) by congruence.
  assert (Ei1 : (<[d := ODirent (Dirent (take (VFS_NAME_MAX - 1) name) child (i_children ino))]> m) !! v_data x = Some (OInode ino))
    by (rewrite lookup_insert_ne by done; exact Ei).
  eapply runs_ok; [rewrite (bind_ok _ _ _ _ _ (store_st _ _ _ _ _ _ Ei1)); reflexivity|]. right. split; [done|]. exists d, h1.
  split; [done|]. split; [done|]. split; [done|]. apply (healthy_insert h1 _ A _ _ _ H1 Ei1). exact Hino.
Qed.

(** ** Creating *)

Lemma dir_with_node m dir x ino es i v type :
  dir_at m dir x ino es -> m !! i = None -> m !! v = None -> dir_at (with_node m i v type) dir x ino es.
Proof.
  intros [Ev Et Eo Ei Hc] Hi Hv. unfold with_node. split; try done.
  1,2: rewrite !lookup_insert_ne by congruence; done.
  apply (chain_frame m); [done|]. intros a e Ha. rewrite !lookup_insert_ne by congruence. done.
Qed.

Lemma ramfs_create_runs s h m A dir x ino es name type :
  healthy h m A -> dir_at m dir x ino es ->
  runs (ramfs_create dir name type) (st s h m) (fun r s' =>
    match r, named name es with
    | Some v, Some w => v = w /\ s' = st s h m
    | None, Some _ => False
    | None, None => exists h', s' = st s h' m /\ healthy h' m A
    | Some v, None => exists i d h', v <> 0 /\ d <> 0 /\ m !! v = None /\ m !! i = None /\ i <> v /\ with_node m i v type !! d = None /\
        s' = st s h' (with_entry (with_node m i v type) x ino d name v) /\ healthy h' (with_entry (with_node m i v type) x ino d name v) A
    end).
Proof.
  intros Hh Hd. pose proof Hd as [Ev Et Eo Ei Hc]. unfold ramfs_create.
  eapply runs_load; [exact Ev|done|]. rewrite Et, Z.eqb_refl. cbn [negb].
  eapply runs_step; [apply (ramfs_lookup_run s h m dir x ino es name Hd)|].
  destruct (named name es) as [w|]; [by eapply runs_ok|].
  eapply runs_bind; [by apply ramfs_new_vnode_runs|]. intros v s1 [(-> & h1 & -> & H1)|(Hv & Hnv & i & h1 & Hni & Hiv & -> & H1)].
  { eapply runs_ok; [reflexivity|]. by exists h1. }
  rewrite (proj2 (Z.eqb_neq v 0)) by done. set (m1 := with_node m i v type) in *.
  pose proof (dir_with_node m dir x ino es i v type Hd Hni Hnv) as Hd1.
  eapply runs_bind; [by apply (ramfs_add_dirent_runs s h1 m1 A dir x ino es)|].
  intros r s1 [(-> & h2 & -> & H2)|(-> & d & h2 & Hdz & Hnd & -> & H2)].
  - cbn [Z.ltb Z.compare]. assert (Ev1 : m1 !! v = Some (OVnode (Vnode type 0 0 ramfs_ops i))) by apply lookup_insert_eq.
    eapply runs_load; [exact Ev1|done|]. cbn [v_data].
    assert (Ei1 : m1 !! i = Some (OInode (Inode 0 0 0 0))) by (unfold m1, with_node; rewrite lookup_insert_ne by done; apply lookup_insert_eq).
    destruct (kfree_obj_runs s h2 m1 A i _ H2 Ei1) as (h3 & E3 & H3).
    assert (Ev2 : delete i m1 !! v = Some (OVnode (Vnode type 0 0 ramfs_ops i))) by (rewrite lookup_delete_ne by done; exact Ev1).
    destruct (kfree_obj_runs s h3 _ A v _ H3 Ev2) as (h4 & E4 & H4).
    assert (Em : delete v (delete i m1) = m).
    { unfold m1, with_node. rewrite delete_insert_ne, !delete_insert_eq, (delete_id m i), (delete_id m v) by done. done. }
    rewrite Em in E4, H4. eapply runs_ok; [rewrite (bind_ok _ _ _ _ _ E3), (bind_ok _ _ _ _ _ E4); reflexivity|]. by exists h4.
  - cbn [Z.ltb Z.compare]. eapply runs_ok; [reflexivity|]. by exists i, d, h2.
Qed.

Lemma named_cons name e es : named name (e :: es) = if decide (name = d_name e.2) then Some (d_vnode e.2) else named name es.
Proof. destruct e as [a e]. unfold named. simpl. case_bool_decide; case_decide; done || congruence. Qed.

(** A run from a state that satisfies the invariant. *)
Lemma runs_kinv {T} (c : M (kstate H fstate) T) s P :
  preserves c -> kinv s -> runs c s P -> runs c s (fun r s' => kinv s' /\ P r s').
Proof. intros Hp Hi [?|(r & s' & E & HP)]; [by left|right]. exists r, s'. split; [done|]. split; [by apply (Hp s r s')|done]. Qed.

Lemma kinv_healthy s : kinv s -> exists A, healthy (k_heap s) (objs (k_files s)) A.
Proof. intros (L & A & q & Hinv). exists A, L. split; [apply Hinv|exact (pi_files _ _ _ _ _ Hinv)]. Qed.

(** C20: creating in a directory. [ramfs_create] on a directory either panics
    (the heap cannot grow), or returns. When the name exists it returns that
    node and changes nothing; when memory runs out it fails and the file layer
    is as before; otherwise it returns a new empty file or directory, put in
    front of the directory's entries under the first 63 characters of the name.
    From then on a lookup of these characters finds the new node, every other
    lookup gives what it gave before (so a name of more than 63 characters is
    not found again), and no other object but the directory's inode changes.
    The kernel's invariant is kept. *)
Theorem ramfs_create_correct s dir x ino es name type :
  kinv s -> dir_at (objs (k_files s)) dir x ino es ->
  runs (ramfs_create dir name type) s (fun r s' => kinv s' /\
    match r, named name es with
    | Some v, Some w => v = w /\ s' = s
    | None, Some _ => False
    | None, None => k_files s' = k_files s
    | Some v, None => exists e ino', dir_at (objs (k_files s')) dir x ino' (e :: es) /\ v <> 0 /\ objs (k_files s) !! v = None /\
        (forall n, ramfs_lookup dir n s' = Ok (if decide (n = take (VFS_NAME_MAX - 1) name) then Some v else named n es, s')) /\
        (type = VNODE_FILE -> exists y i, file_at (objs (k_files s')) v y i []) /\
        (type = VNODE_DIR -> exists y i, dir_at (objs (k_files s')) v y i []) /\
        (forall p o, p <> v_data x -> objs (k_files s) !! p = Some o -> objs (k_files s') !! p = Some o)
    end).
Proof.
  intros Hi Hd. apply runs_kinv; [by apply (preserves_keeps true), keeps_ramfs_create|done|].
  destruct (kinv_healthy s Hi) as [A Hh]. set (m := objs (k_files s)) in *.
  pose proof (ramfs_create_runs s (k_heap s) m A dir x ino es name type Hh Hd) as Hr. unfold m in Hr at 1. rewrite <- (st_self s) in Hr.
  eapply runs_weaken; [exact Hr|]. intros r s' K. destruct r as [v|], (named name es) as [w|]; try done.
  { destruct K as [-> ->]. split; [done|]. unfold m. by rewrite <- (st_self s). }
  2: { destruct K as (h' & -> & _). unfold m. by destruct s as [? []]. }
  destruct K as (i & d & h' & Hv & Hdz & Hnv & Hni & Hiv & Hnd & -> & _).
  set (m1 := with_node m i v type) in *. set (m2 := with_entry m1 x ino d name v).
  pose proof (dir_with_node m dir x ino es i v type Hd Hni Hnv) as Hd1.
  pose proof (dir_with_entry m1 dir x ino es d name v Hd1 Hdz Hnd) as Hd2. fold m2 in Hd2.
  pose proof Hd as [Ev Et Eo Ei Hc]. assert (Hxv : v_data x <> v) by congruence. assert (Hxi : v_data x <> i) by congruence.
  assert (Hv1 : m1 !! v = Some (OVnode (Vnode type 0 0 ramfs_ops i))) by apply lookup_insert_eq.
  assert (Hi1 : m1 !! i = Some (OInode (Inode 0 0 0 0))) by (unfold m1, with_node; rewrite lookup_insert_ne by done; apply lookup_insert_eq).
  assert (Hk2 : forall p o, p <> v_data x -> m1 !! p = Some o -> m2 !! p = Some o).
  { intros p o Hp Ho. unfold m2, with_entry. rewrite !lookup_insert_ne by congruence. done. }
  exists (d, Dirent (take (VFS_NAME_MAX - 1) name) v (i_children ino)). eexists. split; [exact Hd2|]. split; [done|]. split; [done|]. split_and!.
  - intros n. rewrite (ramfs_lookup_run s h' m2 dir x _ _ n Hd2). by rewrite named_cons.
  - intros ->. exists (Vnode VNODE_FILE 0 0 ramfs_ops i), (Inode 0 0 0 0). split; try done; [by apply Hk2|by apply Hk2|by apply buf_none].
  - intros ->. exists (Vnode VNODE_DIR 0 0 ramfs_ops i), (Inode 0 0 0 0). split; try done; [by apply Hk2|by apply Hk2|constructor].
  - intros p o Hp Ho. apply Hk2; [done|]. unfold m1, with_node. rewrite !lookup_insert_ne by congruence. done.
Qed.

(** ** Starting the file layer *)

Lemma dir_fresh m dir x ino es p o : dir_at m dir x ino es -> m !! p = None -> dir_at (<[p := o]> m) dir x ino es.
Proof.
  intros [Ev Et Eo Ei Hc] Hp. split; try done.
  1,2: rewrite lookup_insert_ne by congruence; done.
  apply (chain_frame m); [done|]. intros a e Ha. rewrite lookup_insert_ne by congruence. done.
Qed.

(** Adding to one directory leaves the others alone. *)
Lemma dir_other m dir x ino es y jno d name child :
  dir_at m dir x ino es -> m !! v_data y = Some (OInode jno) -> v_data y <> v_data x -> m !! d = None ->
  dir_at (with_entry m y jno d name child) dir x ino es.
Proof.
  intros Hd Hy Hne Hn. pose proof Hd as [Ev Et Eo Ei Hc].
  assert (Hdy : d <> v_data y) by congruence. unfold with_entry. set (o := ODirent _).
  destruct (dir_fresh m dir x ino es d o Hd Hn) as [Fv _ _ Fi Fc]. split; try done.
  - rewrite lookup_insert_ne; [done|]. intros Ey. rewrite Ey in Hy. congruence.
  - by rewrite lookup_insert_ne.
  - apply (chain_frame (<[d := o]> m)); [done|]. intros a e Ha. rewrite lookup_insert_ne; [done|].
    intros <-. rewrite lookup_insert_ne in Ha by done. congruence.
Qed.

(** Vnodes stay as they are. *)
Definition vnodes_kept m m' : Prop := forall p x, m !! p = Some (OVnode x) -> m' !! p = Some (OVnode x).

Lemma vnodes_fresh m p o : m !! p = None -> vnodes_kept m (<[p := o]> m).
Proof. intros Hp q x Hq. rewrite lookup_insert_ne by congruence. done. Qed.

Lemma vnodes_with_entry m x ino d name child :
  m !! v_data x = Some (OInode ino) -> m !! d = None -> vnodes_kept m (with_entry m x ino d name child).
Proof. intros Hi Hd q y Hq. unfold with_entry. rewrite !lookup_insert_ne by congruence. done. Qed.

(** "dev" *)
Definition dev_name : list Z := [100; 101; 118].

(** A root directory with the directory [dev] in it. *)
Definition tree m (root dev : Z) : Prop := exists xr ir er xd id ed,
  dir_at m root xr ir er /\ dir_at m dev xd id ed /\ named dev_name er = Some dev /\ dev <> 0 /\ v_data xd <> v_data xr.

(** The root is mounted at "/". *)
Definition rooted s (root : Z) : Prop :=
  forall path, path = [SLASH] \/ path = dev_dir -> find_mount (k_files s) path = Some (MountEntry [SLASH] root true).

Lemma parent_root_run s h m root x ino es :
  rooted s root -> root <> 0 -> dir_at m root x ino es -> parent_dir [SLASH] (st s h m) = Ok (root, st s h m).
Proof.
  intros Hr Hz [Ev Et _ _ _]. unfold parent_dir.
  assert (E : vfs_resolve [SLASH] (st s h m) = Ok (root, st s h m)).
  { unfold vfs_resolve. rewrite Z.eqb_refl. cbn [negb]. rewrite (bind_ok _ _ _ (k_files (st s h m)) (st s h m)) by done.
    change (find_mount (k_files (st s h m)) [SLASH]) with (find_mount (k_files s) [SLASH]). by rewrite (Hr [SLASH] (or_introl eq_refl)). }
  rewrite (bind_ok _ _ _ _ _ E), (proj2 (Z.eqb_neq root 0)) by done. run_load Ev. by rewrite Et, Z.eqb_refl.
Qed.

Lemma parent_dev_run s h m root dev :
  rooted s root -> tree m root dev -> parent_dir dev_dir (st s h m) = Ok (dev, st s h m).
Proof.
  intros Hr (xr & ir & er & xd & id & ed & Hroot & Hdev & Hn & Hz & _). pose proof Hroot as [Ev Et Eo Ei Hc]. unfold parent_dir.
  assert (E : vfs_resolve dev_dir (st s h m) = Ok (dev, st s h m)).
  { unfold vfs_resolve, dev_dir. change (negb (47 =? SLASH)) with false. cbv iota. rewrite (bind_ok _ _ _ (k_files (st s h m)) (st s h m)) by done.
    change (find_mount (k_files (st s h m)) _) with (find_mount (k_files s) dev_dir). rewrite (Hr dev_dir (or_intror eq_refl)).
    change (walk _ _ _) with (next ← ops_lookup root dev_name;
      match next with None => mret 0 | Some next => if next =? 0 then mret 0 else (mret next : M (kstate H fstate) Z) end).
    assert (El : ops_lookup root dev_name (st s h m) = Ok (Some dev, st s h m)).
    { unfold ops_lookup. run_load Ev. rewrite Eo. rewrite (ramfs_lookup_run s h m root xr ir er dev_name Hroot). by rewrite Hn. }
    rewrite (bind_ok _ _ _ _ _ El). by rewrite (proj2 (Z.eqb_neq dev 0)). }
  rewrite (bind_ok _ _ _ _ _ E), (proj2 (Z.eqb_neq dev 0)) by done. destruct Hdev as [Fv Ft _ _ _]. run_load Fv. by rewrite Ft, Z.eqb_refl.
Qed.

Lemma register_dev_runs s h m A root dev path leaf v :
  split_path path = Some (dev_dir, leaf) -> hd_error path = Some SLASH ->
  rooted s root -> healthy h m A -> tree m root dev ->
  runs (ramfs_register_dev path v) (st s h m) (fun _ s' => exists h' m', s' = st s h' m' /\ healthy h' m' A /\ tree m' root dev /\ vnodes_kept m m').
Proof.
  intros Hsp Hsl Hr Hh Ht. destruct path as [|c path]; [done|]. injection Hsl as ->. unfold ramfs_register_dev. rewrite Hsp. cbn [negb Z.eqb].
  change (negb (SLASH =? SLASH)) with false. cbv iota. eapply runs_step; [by apply (parent_dev_run s h m root)|].
  destruct Ht as (xr & ir & er & xd & id & ed & Hroot & Hdev & Hn & Hz & Hne). rewrite (proj2 (Z.eqb_neq dev 0)) by done.
  eapply runs_weaken; [by apply (ramfs_add_dirent_runs s h m A dev xd id ed)|].
  intros r s' [(_ & h' & -> & H')|(_ & d & h' & Hd & Hnd & -> & H')].
  - exists h', m. split; [done|]. split; [done|]. split; [by exists xr, ir, er, xd, id, ed|]. by intros p x.
  - exists h'. eexists. split; [reflexivity|]. split; [done|].
    pose proof (dir_with_entry m dev xd id ed d leaf v Hdev Hd Hnd) as Hdev'.
    pose proof (dir_other m root xr ir er xd id d leaf v Hroot (da_inode _ _ _ _ _ Hdev) Hne Hnd) as Hroot'.
    split; [eexists xr, ir, er, xd, _, _; split; [exact Hroot'|]; split; [exact Hdev'|]; done|].
    apply vnodes_with_entry; [apply Hdev|done].
Qed.

Lemma tree_fresh m root dev p o : tree m root dev -> m !! p = None -> tree (<[p := o]> m) root dev.
Proof.
  intros (xr & ir & er & xd & id & ed & Hroot & Hdev & K) Hp. exists xr, ir, er, xd, id, ed.
  split; [by apply dir_fresh|]. split; [by apply dir_fresh|done].
Qed.

(** A device vnode; 0 when memory is exhausted. *)
Definition device (ops : vops) : vnode := Vnode VNODE_DEV 0 0 ops 0.

Lemma device_runs s h m A root dev ops :
  healthy h m A -> tree m root dev ->
  runs (vnode_alloc VNODE_DEV ops 0) (st s h m) (fun p s' => exists h' m', s' = st s h' m' /\ healthy h' m' A /\ tree m' root dev /\
    vnodes_kept m m' /\ (p = 0 \/ m' !! p = Some (OVnode (device ops)))).
Proof.
  intros Hh Ht. eapply runs_weaken; [by apply (new_obj_runs s h m A)|].
  intros p s' [(Hp & h' & -> & H')|(_ & Hn & h' & -> & H')].
  - exists h', m. split; [done|]. split; [done|]. split; [done|]. split; [by intros q x|by left].
  - exists h'. eexists. split; [reflexivity|]. split; [done|]. split; [by apply tree_fresh|]. split; [by apply vnodes_fresh|].
    right. apply lookup_insert_eq.
Qed.

(** The directory "/dev" is made in the root. *)
Lemma make_dev_runs s h m A root x ino es :
  rooted s root -> root <> 0 -> healthy h m A -> dir_at m root x ino es -> named dev_name es = None ->
  runs (vfs_mkdir dev_dir) (st s h m) (fun r s' => exists h' m', s' = st s h' m' /\ healthy h' m' A /\
    (r < 0 \/ exists dev, tree m' root dev)).
Proof.
  intros Hr Hz Hh Hd Hn. pose proof Hd as [Ev Et Eo Ei Hc].
  change (vfs_mkdir dev_dir) with (dir ← parent_dir [SLASH]; if dir =? 0 then mret (-1) else
     newdir ← ops_mkdir dir dev_name; (mret (match newdir with None => -1 | Some _ => 0 end) : M (kstate H fstate) Z)).
  eapply runs_step; [by apply (parent_root_run s h m root x ino es)|]. rewrite (proj2 (Z.eqb_neq root 0)) by done.
  eapply (runs_bind _ _ _ (fun r s' => exists h' m', s' = st s h' m' /\ healthy h' m' A /\ (r = None \/ exists dev, tree m' root dev))).
  - unfold ops_mkdir. eapply runs_load; [exact Ev|done|]. rewrite Eo.
    eapply runs_weaken; [by apply (ramfs_create_runs s h m A root x ino es)|].
    intros [v|] s'; rewrite Hn.
    + intros (i & d & h' & Hv & Hdz & Hnv & Hni & Hiv & Hnd & -> & H'). exists h'. eexists. split; [reflexivity|]. split; [exact H'|]. right. exists v.
      pose proof (dir_with_node m root x ino es i v VNODE_DIR Hd Hni Hnv) as Hd1.
      assert (Hvd : dir_at (with_node m i v VNODE_DIR) v (Vnode VNODE_DIR 0 0 ramfs_ops i) (Inode 0 0 0 0) []).
      { split; try done; [apply lookup_insert_eq| |constructor]. unfold with_node. rewrite lookup_insert_ne by done. apply lookup_insert_eq. }
      assert (Hxi : v_data x <> i) by congruence.
      eexists x, _, _, _, _, _. split; [by apply (dir_with_entry _ root x ino es)|].
      split; [apply (dir_other _ v _ _ _ x ino); [exact Hvd|apply Hd1|done|done]|]. split; [|done]. by rewrite named_cons.
    + intros (h' & -> & H'). exists h', m. split; [done|]. split; [done|]. by left.
  - intros r s' (h' & m' & -> & H' & K). eapply runs_ok; [reflexivity|]. exists h', m'. split; [done|]. split; [done|].
    destruct K as [-> |K]; [by left|by right].
Qed.

(** The devices recorded by devfs.c, 0 for one that could not be allocated. *)
Definition devices (fs : fstate) : list Z := [g_stdin fs; g_stdout fs; g_stderr fs].
Definition is_device (m : gmap Z obj) (v : Z) : Prop := v = 0 \/ exists x, m !! v = Some (OVnode x) /\ v_ops x <> ramfs_ops.
Definition devices_ok (fs : fstate) : Prop := Forall (is_device (objs fs)) (devices fs).

(** The root directory is mounted, or there is none. *)
Definition root_ready s h m A : Prop := healthy h m A /\
  (find_mount (k_files s) [SLASH] = None \/ exists root x ino, rooted s root /\ root <> 0 /\ dir_at m root x ino []).

Lemma ramfs_init_runs h A (s := zeroed h initial_fstate) :
  healthy h ∅ A -> runs ramfs_init (st s h ∅) (fun _ s' => exists s1 h' m, s' = st s1 h' m /\ devices (k_files s1) = [0; 0; 0] /\ root_ready s1 h' m A).
Proof.
  intros Hh. unfold ramfs_init. eapply runs_bind; [by apply (ramfs_new_vnode_runs s h ∅ A)|].
  intros root s' [(-> & h' & -> & H')|(Hr & Hn & i & h' & Hni & Hiv & -> & H')].
  - eapply runs_ok; [reflexivity|]. exists (set_k_files (set_ramfs_root 0 initial_fstate) s), h', ∅. split; [done|]. split; [done|]. split; [done|]. by left.
  - set (fs1 := set_ramfs_root root initial_fstate). set (s1 := set_k_files fs1 s). set (m1 := with_node ∅ i root VNODE_DIR).
    eapply (runs_step _ _ _ tt (st s1 h' m1)); [reflexivity|]. rewrite (proj2 (Z.eqb_neq root 0)) by done.
    set (fs2 := set_mounts (<[0%nat := MountEntry [SLASH] root true]> (mount_table fs1)) 1 fs1).
    eapply (runs_step _ _ _ 0 (st (set_k_files fs2 s1) h' m1)).
    { unfold vfs_mount. rewrite (proj2 (Z.eqb_neq root 0)) by done. reflexivity. }
    eapply runs_ok; [reflexivity|]. exists (set_k_files fs2 s1), h', m1. split; [done|]. split; [done|]. split; [done|]. right.
    exists root, (Vnode VNODE_DIR 0 0 ramfs_ops i), (Inode 0 0 0 0). split; [intros path [-> | ->]; reflexivity|]. split; [done|].
    split; [apply lookup_insert_eq|done|done| |constructor]. simpl. unfold m1, with_node. rewrite lookup_insert_ne by done. apply lookup_insert_eq.
Qed.

Lemma dev_dir_runs s h m A :
  root_ready s h m A -> runs (vfs_mkdir dev_dir) (st s h m) (fun r s' => exists h' m', s' = st s h' m' /\ healthy h' m' A /\
    (r < 0 \/ exists root dev, rooted s root /\ tree m' root dev)).
Proof.
  intros [Hh [Hnone|(root & x & ino & Hr & Hz & Hd)]].
  - eapply (runs_ok _ _ (-1) (st s h m)); [|exists h, m; split; [done|]; split; [done|]; by left].
    assert (E : parent_dir [SLASH] (st s h m) = Ok (0, st s h m)).
    { unfold parent_dir, vfs_resolve. rewrite Z.eqb_refl. cbn [negb]. munfold.
      change (find_mount (k_files (st s h m)) [SLASH]) with (find_mount (k_files s) [SLASH]). by rewrite Hnone. }
    change (vfs_mkdir dev_dir (st s h m)) with ((dir ← parent_dir [SLASH]; if dir =? 0 then mret (-1) else
      newdir ← ops_mkdir dir dev_name; (mret (match newdir with None => -1 | Some _ => 0 end) : M (kstate H fstate) Z)) (st s h m)).
    by rewrite (bind_ok _ _ _ _ _ E).
  - eapply runs_weaken; [by apply (make_dev_runs s h m A root x ino [])|].
    intros r s' (h2 & m2 & -> & H2 & K). exists h2, m2. split; [done|]. split; [done|].
    destruct K as [K|[dev K]]; [by left|right; by exists root, dev].
Qed.

Lemma is_device_kept m m' v : vnodes_kept m m' -> is_device m v -> is_device m' v.
Proof. intros Hk [?|(x & Hx & Hn)]; [by left|right]. exists x. split; [by apply Hk|done]. Qed.

Lemma devfs_init_runs s h m A :
  root_ready s h m A -> devices (k_files s) = [0; 0; 0] -> runs devfs_init (st s h m) (fun _ s' => devices_ok (k_files s')).
Proof.
  intros Hr Hz. assert (Hnone : forall h m, devices_ok (k_files (st s h m))).
  { intros h1 m1. unfold devices_ok. change (devices (k_files (st s h1 m1))) with (devices (k_files s)). rewrite Hz.
    repeat (apply Forall_cons; split; [by left|]). by apply Forall_nil. }
  unfold devfs_init. eapply runs_bind; [by apply (dev_dir_runs s h m A)|].
  intros r s' (h2 & m2 & -> & H2 & [Hneg|(root & dev & Hroot & Ht)]).
  { rewrite (proj2 (Z.ltb_lt r 0)) by done. eapply runs_ok; [done|apply Hnone]. }
  destruct (r <? 0); [eapply runs_ok; [done|apply Hnone]|].
  eapply runs_bind; [by apply (device_runs s h2 m2 A root dev)|]. intros i s' (h3 & m3 & -> & H3 & T3 & _ & D3).
  eapply runs_bind; [by apply (device_runs s h3 m3 A root dev)|]. intros o s' (h4 & m4 & -> & H4 & T4 & V4 & D4).
  eapply runs_bind; [by apply (device_runs s h4 m4 A root dev)|]. intros e s' (h5 & m5 & -> & H5 & T5 & V5 & D5).
  set (s2 := set_k_files (set_devices i o e (k_files s)) s).
  assert (Hdev : forall h' m', vnodes_kept m5 m' -> devices_ok (k_files (st s2 h' m'))).
  { intros h' m' Hk. assert (Hd : forall m v ops, ops <> ramfs_ops -> v = 0 \/ m !! v = Some (OVnode (device ops)) -> is_device m v).
    { intros m0 v ops Hne [?|?]; [by left|right; by exists (device ops)]. }
    apply Forall_cons. split; [|apply Forall_cons; split; [|apply Forall_cons; split; [|by apply Forall_nil]]].
    - by apply (is_device_kept m5), (is_device_kept m4), (is_device_kept m3), (Hd m3 i stdin_ops).
    - by apply (is_device_kept m5), (is_device_kept m4), (Hd m4 o stdout_ops).
    - by apply (is_device_kept m5), (Hd m5 e stderr_ops). }
  eapply (runs_step _ _ _ tt (st s2 h5 m5)); [reflexivity|]. destruct (_ || _); [eapply runs_ok; [done|by apply Hdev; intros p x]|].
  assert (Hr2 : rooted s2 root) by exact Hroot.
  eapply runs_bind; [by eapply (register_dev_runs s2 h5 m5 A root dev dev_stdin)|]. intros _ s' (h6 & m6 & -> & H6 & T6 & V6).
  eapply runs_bind; [by eapply (register_dev_runs s2 h6 m6 A root dev dev_stdout)|]. intros _ s' (h7 & m7 & -> & H7 & T7 & V7).
  eapply runs_bind; [by eapply (register_dev_runs s2 h7 m7 A root dev dev_stderr)|]. intros _ s' (h8 & m8 & -> & H8 & T8 & V8).
  eapply runs_ok; [done|]. apply Hdev. intros p x Hp. by apply V8, V7, V6.
Qed.

(** The file layer starts without a fault from the initial state, however little
    memory there is. *)
Lemma start_files_runs h A :
  healthy h ∅ A -> runs (vfs_init ;; ramfs_init ;; devfs_init) (zeroed h initial_fstate) (fun _ s' => devices_ok (k_files s')).
Proof.
  intros Hh. eapply (runs_step _ _ _ tt (st (zeroed h initial_fstate) h ∅)); [reflexivity|].
  eapply runs_bind; [by apply (ramfs_init_runs h A)|]. intros [] s' (s1 & h' & m & -> & Hz & K). by apply (devfs_init_runs s1 h' m A).
Qed.

(** ** The standard descriptors *)

Lemma open_device_runs s h m A v flags :
  healthy h m A -> is_device m v ->
  runs (vfs_open_vnode_op v flags) (st s h m) (fun _ s' => exists h' m', s' = st s h' m' /\ healthy h' m' A /\ forall w, is_device m w -> is_device m' w).
Proof.
  intros Hh [->|(x & Hx & Hne)]; [eapply runs_ok; [done|by exists h, m]|]. unfold vfs_open_vnode_op.
  destruct (v =? 0); [eapply runs_ok; [done|by exists h, m]|].
  assert (Eo : ops_open v flags (st s h m) = Ok (0, st s h m)) by (unfold ops_open; run_load Hx; by destruct (v_ops x)).
  eapply runs_step; [exact Eo|]. cbn [Z.ltb Z.compare]. eapply runs_load; [exact Hx|done|].
  eapply runs_bind; [by apply (new_obj_runs s h m A)|]. intros f s' [(-> & h' & -> & H')|(Hf & Hn & h' & -> & H')].
  { eapply runs_ok; [done|]. by exists h', m. }
  rewrite (proj2 (Z.eqb_neq f 0)) by done. set (m1 := <[f := _]> m).
  assert (Hx1 : m1 !! v = Some (OVnode x)) by (unfold m1; rewrite lookup_insert_ne by congruence; done).
  assert (Er : vnode_ref v (st s h' m1) = Ok (tt, st s h' (if v =? 0 then m1 else <[v := OVnode (set_v_refcount (v_refcount x +w 1) x)]> m1))).
  { unfold vnode_ref. destruct (v =? 0); [done|]. run_load Hx1. by rewrite (store_st _ _ _ _ _ _ Hx1). }
  eapply runs_step; [exact Er|]. eapply runs_ok; [done|]. exists h'. eexists. split; [reflexivity|]. destruct (v =? 0).
  { split; [exact H'|]. intros w. by apply is_device_kept, vnodes_fresh. }
  split; [by apply (healthy_insert h' m1 A v _ _ H' Hx1)|]. intros w Hw.
  apply (is_device_kept m m1) in Hw; [|by apply vnodes_fresh]. destruct Hw as [->|(y & Hy & Hy')]; [by left|right].
  destruct (decide (w = v)) as [->|Hwv]; [|exists y; split; [by rewrite lookup_insert_ne|done]].
  eexists. split; [apply lookup_insert_eq|]. assert (y = x) as -> by congruence. done.
Qed.

Lemma fd_table_init_runs s A L :
  heap_ok (k_heap s) L A -> fs_ok (k_files s) L -> devices_ok (k_files s) -> runs fd_table_init s (fun _ _ => True).
Proof.
  intros Hh Hf Hd. set (h := k_heap s). set (m := objs (k_files s)).
  assert (Hm : healthy h m A) by (by exists L). rewrite (st_self s). fold h m.
  apply Forall_cons in Hd as [D0 [D1 [D2 _]%Forall_cons]%Forall_cons]. unfold fd_table_init.
  eapply (runs_step _ _ _ (g_stdin (k_files s)) (st s h m)); [done|].
  eapply runs_bind; [by apply (open_device_runs s h m A)|]. intros f0 s1 (h1 & m1 & -> & H1 & K1).
  eapply (runs_step _ _ _ (g_stdout (k_files s)) (st s h1 m1)); [done|].
  eapply runs_bind; [apply (open_device_runs s h1 m1 A); [done|by apply K1]|]. intros f1 s2 (h2 & m2 & -> & H2 & K2).
  eapply (runs_step _ _ _ (g_stderr (k_files s)) (st s h2 m2)); [done|].
  eapply runs_bind; [apply (open_device_runs s h2 m2 A); [done|by apply K2, K1]|]. intros f2 s3 _. by eapply runs_ok.
Qed.
End dir.

(** ** Witness *)

(** Read a directory off the store. *)
Fixpoint chain_of (fuel : nat) (m : gmap Z obj) (d : Z) : option (list (Z * ramfs_dirent)) :=
  if d =? 0 then Some [] else
  match fuel, m !! d with
  | S fuel', Some (ODirent e) => cons (d, e) <$> chain_of fuel' m (d_next e)
  | _, _ => None
  end.
Definition dir_of (fuel : nat) (m : gmap Z obj) (v : Z) : option (vnode * ramfs_inode * list (Z * ramfs_dirent)) :=
  match m !! v with
  | Some (OVnode x) =>
      if (v_type x =? VNODE_DIR) && match v_ops x with ramfs_ops => true | _ => false end then
        match m !! v_data x with
        | Some (OInode ino) => (fun es => (x, ino, es)) <$> chain_of fuel m (i_children ino)
        | _ => None
        end
      else None
  | _ => None
  end.

Lemma chain_of_chain fuel m d es : chain_of fuel m d = Some es -> chain m d es.
Proof.
  revert d es. induction fuel as [|fuel IH]; intros d es; simpl; destruct (Z.eqb_spec d 0) as [->|Hd]; try (intros [= <-]; constructor).
  destruct (m !! d) as [[]|] eqn:Ed; try done. destruct (chain_of fuel m (d_next d0)) as [es'|] eqn:Ec; [|done].
  intros [= <-]. constructor; [done|done|by apply IH].
Qed.

Lemma dir_of_dir fuel m v x ino es : dir_of fuel m v = Some (x, ino, es) -> dir_at m v x ino es.
Proof.
  unfold dir_of. destruct (m !! v) as [[y| | | | | |]|] eqn:Ev; try done. destruct (v_type y =? VNODE_DIR) eqn:Et; [|done].
  destruct (v_ops y) eqn:Eo; try done. simpl. destruct (m !! v_data y) as [[| |j| | | |]|] eqn:Ei; try done.
  destruct (chain_of fuel m (i_children j)) as [l|] eqn:Ec; [|done]. intros [= <- <- <-].
  split; try done; [by apply Z.eqb_eq|by apply (chain_of_chain fuel)].
Qed.

Definition demo_root : Z := ramfs_root (k_files demo_fork2).
Lemma demo_root_is : match dir_of 10 (objs (k_files demo_fork2)) demo_root with Some (_, _, es) => named [97] es | None => Some 0 end = None.
Proof. vm_compute. reflexivity. Qed.

Lemma ramfs_create_correct_witness :
  exists es, named [97] es = None /\ runs (ramfs_create demo_root [97] VNODE_FILE) demo_fork2 (fun r s' => kinv s' /\
    (r = None -> k_files s' = k_files demo_fork2) /\
    (forall v, r = Some v -> ramfs_lookup demo_root [97] s' = Ok (Some v, s'))).
Proof.
  pose proof demo_root_is as Hn. destruct (dir_of 10 (objs (k_files demo_fork2)) demo_root) as [[[x ino] es]|] eqn:Ed; [|discriminate Hn].
  exists es. split; [exact Hn|]. eapply runs_weaken; [exact (ramfs_create_correct demo_fork2 demo_root x ino es [97] VNODE_FILE
    (reachable_proc_inv demo_fork2 demo_fork2_reachable) (dir_of_dir 10 _ _ x ino es Ed))|].
  intros r s' [Hi K]. rewrite Hn in K. split; [exact Hi|]. split.
  - intros ->. exact K.
  - intros v ->. destruct K as (e & ino' & _ & _ & _ & Kl & _). rewrite Kl. by rewrite decide_True.
Defined.
