(* ===== verification/Typed.v ===== *)
(** * Well-typed objects of the file layer (kernel/fs/vfs.c, ramfs.c, pipe.c)

    The C code follows pointers between vnodes, inodes, directory entries,
    buffers, open files and pipe ends without a check. [typed] says that every
    pointer of the store leads to an object of the type the code expects, that
    the lists of entries end, and that inodes and buffers have one owner. The
    operations that resolve a path, create, make a directory, open and
    register a device run without undefined behaviour in such a store and
    leave it well typed. *)

From Stdlib Require Import ZArith Lia.
From S2P Require Import Prelude Kheap HeapSpec Kstate Fd Fs FsLaws Ramfs Proc ProcInv ProcOps ProcSteps ProcSafety Kinv Dir.

(** ** The typing of the store *)

Definition is_vnode (m : gmap Z obj) (p : Z) : Prop := exists y, m !! p = Some (OVnode y).

(** What the operations table of a vnode promises about its private data. *)
Definition node_typed (m : gmap Z obj) (x : vnode) : Prop :=
  match v_ops x with
  | ramfs_ops => exists ino, m !! v_data x = Some (OInode ino) /\
      (v_type x = VNODE_DIR /\ (exists es, chain m (i_children ino) es /\ Forall (fun e => is_vnode m (d_vnode e.2)) es) \/
       v_type x = VNODE_FILE /\ exists data, buf_at m (i_buf ino) (i_capacity ino) data /\ v_size x = Z.of_nat (length data) /\ v_size x < 2 ^ 31)
  | pipe_read_ops | pipe_write_ops => v_type x <> VNODE_DIR /\ exists e p, m !! v_data x = Some (OEnd e) /\ m !! e_pipe e = Some (OPipe p)
  | _ => v_type x <> VNODE_DIR
  end.

(** Sizes and positions are unsigned. *)
Definition unsigned (o : obj) : Prop :=
  match o with OVnode x => 0 <= v_size x | OFile f => 0 <= f_offset f | _ => True end.

Record typed (m : gmap Z obj) : Prop := {
  ty_null : m !! 0 = None;
  ty_file : forall p x, m !! p = Some (OFile x) -> is_vnode m (f_vnode x);
  ty_node : forall v x, m !! v = Some (OVnode x) -> node_typed m x;
  ty_inode : forall v w x y, m !! v = Some (OVnode x) -> m !! w = Some (OVnode y) -> v_ops x = ramfs_ops -> v_ops y = ramfs_ops ->
    v_data x = v_data y -> v = w;
  ty_ibuf : forall i a, m !! i = Some (OInode a) -> i_buf a <> 0 -> exists b, m !! i_buf a = Some (OBuf b);
  ty_buf : forall i j a b, m !! i = Some (OInode a) -> m !! j = Some (OInode b) -> i_buf a = i_buf b -> i_buf a <> 0 -> i = j;
  ty_unsigned : forall p o, m !! p = Some o -> unsigned o
}.

(** ** Changing the store

    [kept i b m m']: vnodes stay vnodes, inodes other than [i], buffers other
    than [b] and everything else but open files stay as they are. *)
Definition kept (i b : Z) (m m' : gmap Z obj) : Prop := forall p o, m !! p = Some o ->
  match o with
  | OVnode _ => is_vnode m' p
  | OFile _ => True
  | OInode _ => p <> i -> m' !! p = Some o
  | OBuf _ => p <> b -> m' !! p = Some o
  | _ => m' !! p = Some o
  end.

Lemma kept_vnode i b m m' p : kept i b m m' -> is_vnode m p -> is_vnode m' p.
Proof. intros Hk [y Hp]. exact (Hk p _ Hp). Qed.

Lemma kept_fresh m p o : m !! p = None -> kept 0 0 m (<[p := o]> m).
Proof.
  intros Hp q x Hq. assert (Hne : (<[p := o]> m) !! q = Some x) by (rewrite lookup_insert_ne by congruence; done).
  destruct x; try done. by eexists.
Qed.

Lemma chain_kept i b m m' d es : kept i b m m' -> chain m d es -> chain m' d es.
Proof. intros Hk Hc. apply (chain_frame m m' d es Hc). intros a e Ha. exact (Hk a _ Ha). Qed.

Lemma node_typed_kept i b m m' x :
  kept i b m m' -> node_typed m x -> (v_ops x = ramfs_ops -> v_data x <> i) ->
  (forall ino, v_ops x = ramfs_ops -> m !! v_data x = Some (OInode ino) -> i_buf ino <> 0 -> i_buf ino <> b) -> node_typed m' x.
Proof.
  intros Hk Ht Hi Hb. unfold node_typed in *. destruct (v_ops x) eqn:Eo; try done.
  - destruct Ht as (ino & Hino & Hd). exists ino. split; [exact (Hk _ _ Hino (Hi eq_refl))|].
    destruct Hd as [(Et & es & Hc & He)|(Et & data & Hbuf & Hs)]; [left|right]; (split; [done|]).
    + exists es. split; [by apply (chain_kept i b m)|]. eapply Forall_impl; [exact He|]. intros e. by apply (kept_vnode i b).
    + exists data. split; [|done]. destruct Hbuf as [? ? ?|k Hz Hc Hk' Hl Ebuf]; [by apply buf_none|].
      eapply buf_some; try done. exact (Hk _ _ Ebuf (Hb ino eq_refl Hino Hz)).
  - destruct Ht as (Ht & e & p & He & Hp). split; [done|]. exists e, p. split; [exact (Hk _ _ He)|exact (Hk _ _ Hp)].
  - destruct Ht as (Ht & e & p & He & Hp). split; [done|]. exists e, p. split; [exact (Hk _ _ He)|exact (Hk _ _ Hp)].
Qed.

(** A new object to which nothing points. *)
Lemma typed_fresh m p o : typed m -> p <> 0 -> m !! p = None -> unsigned o ->
  match o with
  | OVnode x => node_typed m x /\ v_ops x <> ramfs_ops
  | OFile x => is_vnode m (f_vnode x)
  | OInode a => i_buf a = 0
  | _ => True
  end -> typed (<[p := o]> m).
Proof.
  intros [T1 T2 T3 T4 T6 T5 T7] Hz Hp Hun Ho. pose proof (kept_fresh m p o Hp) as Hk.
  assert (Hn : forall x, node_typed m x -> node_typed (<[p := o]> m) x).
  { intros x Hx. apply (node_typed_kept 0 0 m _ x Hk Hx); [|done]. intros Eo E0. unfold node_typed in Hx. rewrite Eo, E0 in Hx.
    destruct Hx as (ino & Hi & _). congruence. }
  split.
  - by rewrite lookup_insert_ne.
  - intros q x. rewrite lookup_insert. case_decide as Hd; [intros [= ->]; by apply (kept_vnode 0 0 m)|]. intros Hq. by apply (kept_vnode 0 0 m), (T2 q).
  - intros q x. rewrite lookup_insert. case_decide as Hd; [intros [= ->]; apply Hn, Ho|]. intros Hq. by apply Hn, (T3 q).
  - intros q w x y. rewrite !lookup_insert. case_decide; case_decide; subst; try done; [intros [= ->] _ ? _; by destruct Ho|intros _ [= ->] _ ?; by destruct Ho|].
    by apply T4.
  - intros q a. rewrite lookup_insert. case_decide; [intros [= ->]; lia|]. intros Hq Hz'. destruct (T6 q a Hq Hz') as [b Hb]. exists b.
    rewrite lookup_insert_ne by congruence. done.
  - intros q w x y. rewrite !lookup_insert. case_decide; case_decide; subst; try done; [intros [= ->]; lia|intros _ [= ->] ?; lia|]. by apply T5.
  - intros q x. rewrite lookup_insert. case_decide; [by intros [= <-]|by apply T7].
Qed.

(** A vnode whose type, table, data and size stay (the size of a device is
    free), or an open file on the same vnode, at a position again. *)
Definition same_shape (o o' : obj) : Prop :=
  match o, o' with
  | OVnode x, OVnode x' => v_type x' = v_type x /\ v_ops x' = v_ops x /\ v_data x' = v_data x /\
      (v_size x' = v_size x \/ v_ops x <> ramfs_ops /\ 0 <= v_size x')
  | OFile f, OFile f' => f_vnode f' = f_vnode f /\ (0 <= f_offset f -> 0 <= f_offset f')
  | _, _ => False
  end.

Lemma typed_update m p o o' : typed m -> m !! p = Some o -> same_shape o o' -> typed (<[p := o']> m).
Proof.
  intros [T1 T2 T3 T4 T6 T5 T7] Hp Hs.
  assert (Hk : kept 0 0 m (<[p := o']> m)).
  { intros q x Hq. unfold is_vnode. rewrite lookup_insert. case_decide as Hd.
    - subst q. rewrite Hp in Hq. injection Hq as <-. destruct o, o'; try done. by eexists.
    - destruct x; try done. by eexists. }
  assert (Hn : forall x, node_typed m x -> node_typed (<[p := o']> m) x).
  { intros x Hx. apply (node_typed_kept 0 0 m _ x Hk Hx); [|done]. intros Eo E0. unfold node_typed in Hx. rewrite Eo, E0 in Hx.
    destruct Hx as (ino & Hi & _). congruence. }
  assert (Hback : forall v x, (<[p := o']> m) !! v = Some (OVnode x) -> exists x0, m !! v = Some (OVnode x0) /\
    v_type x = v_type x0 /\ v_ops x = v_ops x0 /\ v_data x = v_data x0 /\ (v_size x = v_size x0 \/ v_ops x0 <> ramfs_ops /\ 0 <= v_size x)).
  { intros v x. rewrite lookup_insert. case_decide as Hd; [|intros Hv; exists x; by auto 10]. intros [= ->]. subst v. destruct o; try done. by eexists. }
  assert (Hino : forall i a, (<[p := o']> m) !! i = Some (OInode a) -> m !! i = Some (OInode a)).
  { intros i a. rewrite lookup_insert. case_decide as Hd; [|done]. intros [= ->]. by destruct o. }
  split.
  - rewrite lookup_insert_ne; [done|]. congruence.
  - intros q x. rewrite lookup_insert. case_decide as Hd; [|intros Hq; by apply (kept_vnode 0 0 m), (T2 q)].
    intros [= ->]. subst q. apply (kept_vnode 0 0 m); [done|]. destruct o as [|f| | | | |]; try done. simpl in Hs. destruct Hs as [-> _]. by apply (T2 p).
  - intros v x (x0 & Hv & E1 & E2 & E3 & E4)%Hback. specialize (Hn x0 (T3 v x0 Hv)). unfold node_typed in *. rewrite E1, E2, E3.
    destruct E4 as [->|[E4 _]]; [done|]. by destruct (v_ops x0).
  - intros v w x y (x0 & Hv & _ & E2 & E3 & _)%Hback (y0 & Hw & _ & F2 & F3 & _)%Hback. rewrite E2, E3, F2, F3. by apply T4.
  - intros i a Ha%Hino Hz. destruct (T6 i a Ha Hz) as [b Hb]. exists b. rewrite lookup_insert_ne; [done|]. intros E. rewrite <- E, Hp in Hb. injection Hb as ->. done.
  - intros i j a b Ha%Hino Hb%Hino. by apply (T5 i j).
  - intros q x. rewrite lookup_insert. case_decide as Hd; [|by apply T7]. intros [= <-]. specialize (T7 p o Hp). destruct o, o'; try done; simpl in *; [|tauto].
    by destruct Hs as (_ & _ & _ & [->|[_ ?]]).
Qed.

(** A new file or directory. *)
Lemma typed_with_node m i v type : typed m -> i <> 0 -> v <> 0 -> m !! i = None -> m !! v = None -> i <> v ->
  type = VNODE_FILE \/ type = VNODE_DIR -> typed (with_node m i v type).
Proof.
  intros Ht Hi Hv Hni Hnv Hne Htype. unfold with_node. set (m1 := <[i := OInode (Inode 0 0 0 0)]> m).
  assert (T : typed m1) by (by apply typed_fresh). destruct T as [T1 T2 T3 T4 T6 T5 T7].
  assert (Hv1 : m1 !! v = None) by (unfold m1; by rewrite lookup_insert_ne). pose proof (kept_fresh m1 v (OVnode (Vnode type 0 0 ramfs_ops i)) Hv1) as Hk.
  assert (Hi1 : m1 !! i = Some (OInode (Inode 0 0 0 0))) by apply lookup_insert_eq.
  assert (Hfree : forall w y, m1 !! w = Some (OVnode y) -> v_ops y = ramfs_ops -> v_data y <> i).
  { intros w y Hw Ho E. unfold m1 in Hw. rewrite lookup_insert in Hw. case_decide; [done|].
    pose proof (ty_node _ Ht w y Hw) as Hy. unfold node_typed in Hy. rewrite Ho, E in Hy. destruct Hy as (ino & Hino & _). congruence. }
  assert (Hn : forall w x, m1 !! w = Some (OVnode x) -> node_typed (<[v := OVnode (Vnode type 0 0 ramfs_ops i)]> m1) x).
  { intros w x Hw. apply (node_typed_kept 0 0 m1 _ x Hk (T3 w x Hw)); [|done]. intros Eo E0. pose proof (T3 w x Hw) as Hx.
    unfold node_typed in Hx. rewrite Eo, E0 in Hx. destruct Hx as (ino & Hx & _). congruence. }
  split.
  - by rewrite lookup_insert_ne.
  - intros q x. rewrite lookup_insert. case_decide; [done|]. intros Hq. by apply (kept_vnode 0 0 m1), (T2 q).
  - intros w x. rewrite lookup_insert. case_decide as Hd; [|by apply Hn]. intros [= <-]. unfold node_typed. cbn [v_ops v_data v_type v_size].
    exists (Inode 0 0 0 0). split; [rewrite lookup_insert_ne by done; exact Hi1|]. destruct Htype as [->| ->]; [right|left]; (split; [done|]).
    + exists []. split; [by apply buf_none|done].
    + exists []. split; constructor.
  - intros w1 w2 x y. rewrite !lookup_insert. case_decide; case_decide; subst; try done.
    + intros [= <-] Hw _ Ho E. by destruct (Hfree w2 y Hw Ho).
    + intros Hw [= <-] Ho _ E. by destruct (Hfree w1 x Hw Ho).
    + by apply T4.
  - intros a y. rewrite lookup_insert. case_decide; [done|]. intros Ha Hz. destruct (T6 a y Ha Hz) as [b Hb]. exists b. rewrite lookup_insert_ne by congruence. done.
  - intros a b x y. rewrite !lookup_insert. case_decide; case_decide; try done. by apply T5.
  - intros q x. rewrite lookup_insert. case_decide; [by intros [= <-]|by apply T7].
Qed.

(** A new entry of a directory. *)
Lemma typed_with_entry m dir x ino es d name child : typed m -> dir_at m dir x ino es -> d <> 0 -> m !! d = None -> is_vnode m child ->
  typed (with_entry m x ino d name child).
Proof.
  intros [T1 T2 T3 T4 T6 T5 T7] Hd Hdz Hnd Hc. pose proof Hd as [Ev Et Eo Ei Hch].
  pose proof (dir_with_entry m dir x ino es d name child Hd Hdz Hnd) as Hd'. set (m' := with_entry m x ino d name child) in *.
  assert (Hdv : d <> v_data x) by congruence.
  assert (Hlk : forall p, m' !! p = if decide (v_data x = p) then Some (OInode (set_i_children d (i_child_count ino +w 1) ino)) else
    if decide (d = p) then Some (ODirent (Dirent (take (VFS_NAME_MAX - 1) name) child (i_children ino))) else m !! p).
  { intros p. unfold m', with_entry. rewrite !lookup_insert. done. }
  assert (Hk : kept (v_data x) 0 m m').
  { intros p o Hp. unfold is_vnode. rewrite Hlk. destruct (decide (v_data x = p)) as [<-|Hp1]; [rewrite Ei in Hp; by injection Hp as <-|].
    destruct (decide (d = p)) as [<-|]; [congruence|]. destruct o; try done. by eexists. }
  assert (Hold : forall w y, m' !! w = Some (OVnode y) -> m !! w = Some (OVnode y)) by (intros w y; rewrite Hlk; by repeat case_decide).
  assert (Hx0 : v_data x <> 0) by congruence.
  assert (Hino : forall a y, m' !! a = Some (OInode y) -> exists y0, m !! a = Some (OInode y0) /\ i_buf y = i_buf y0).
  { intros a0 y0. rewrite Hlk. case_decide as Hd1; [intros [= <-]; subst a0; by eexists|]. case_decide; [done|]. eauto. }
  split.
  - rewrite Hlk, !decide_False by congruence. done.
  - intros q y Hq. assert (Hq0 : m !! q = Some (OFile y)) by (revert Hq; rewrite Hlk; by repeat case_decide). by apply (kept_vnode _ _ m _ _ Hk), (T2 q).
  - intros w y Hw%Hold. destruct (decide (w = dir)) as [->|Hne].
    + rewrite Ev in Hw. injection Hw as <-. unfold node_typed. rewrite Eo. eexists. split; [apply Hd'|]. left. split; [done|].
      eexists. split; [apply Hd'|]. constructor; [by apply (kept_vnode _ _ m _ _ Hk)|]. pose proof (T3 dir x Ev) as Hx. unfold node_typed in Hx. rewrite Eo in Hx.
      destruct Hx as (ino' & Hi' & [(_ & es' & Hc' & He)|(Et' & _)]); [|unfold VNODE_FILE, VNODE_DIR in *; congruence].
      rewrite Ei in Hi'. injection Hi' as <-. rewrite (chain_unique m _ es es' Hch Hc').
      eapply Forall_impl; [exact He|]. intros e. by apply (kept_vnode _ _ m _ _ Hk).
    + apply (node_typed_kept (v_data x) 0 m m' y Hk (T3 w y Hw)); [|done]. intros Ho E. apply Hne. by apply (T4 w dir y x).
  - intros w1 w2 y z Hw1%Hold Hw2%Hold. by apply T4.
  - intros a y (y0 & Ha & ->)%Hino Hz. destruct (T6 a y0 Ha Hz) as [b Hb]. exists b. rewrite Hlk, !decide_False by congruence. done.
  - intros a b y z Ha Hb. destruct (Hino a y Ha) as (y0 & Ha0 & ->), (Hino b z Hb) as (z0 & Hb0 & ->). by apply (T5 a b y0 z0).
  - intros q y. rewrite Hlk. repeat case_decide; [by intros [= <-]..|by apply T7].
Qed.

(** A file cut to length 0. *)
Definition truncated (m : gmap Z obj) (v : Z) (x : vnode) (ino : ramfs_inode) : gmap Z obj :=
  <[v_data x := OInode (set_i_data 0 0 ino)]> (<[v := OVnode (set_v_size 0 x)]> (delete (i_buf ino) m)).

Lemma typed_truncated m v x ino : typed m -> m !! v = Some (OVnode x) -> v_ops x = ramfs_ops -> v_type x = VNODE_FILE ->
  m !! v_data x = Some (OInode ino) -> typed (truncated m v x ino).
Proof.
  intros [T1 T2 T3 T4 T6 T5 T7] Hv Ho Ht Hi. set (m' := truncated m v x ino). assert (Hne : v_data x <> v) by congruence.
  assert (Hbuf : forall o, m !! i_buf ino = Some o -> exists b, o = OBuf b).
  { pose proof (T3 v x Hv) as Hx. unfold node_typed in Hx. rewrite Ho in Hx. destruct Hx as (ino' & Hi' & [[Et _]|(_ & data & Hb & _)]).
    - unfold VNODE_FILE, VNODE_DIR in *. congruence.
    - rewrite Hi in Hi'. injection Hi' as <-. intros o Hbo. destruct Hb as [E _ _|k Hz _ _ _ Eb]; [rewrite E in Hbo; congruence|].
      rewrite Eb in Hbo. injection Hbo as <-. by eexists. }
  assert (Hlk : forall p, m' !! p = if decide (v_data x = p) then Some (OInode (set_i_data 0 0 ino)) else
    if decide (v = p) then Some (OVnode (set_v_size 0 x)) else if decide (i_buf ino = p) then None else m !! p).
  { intros p. unfold m', truncated. rewrite !lookup_insert, lookup_delete. done. }
  assert (Hk : kept (v_data x) (i_buf ino) m m').
  { intros p o Hp. unfold is_vnode. rewrite Hlk. destruct (decide (v_data x = p)) as [<-|]; [rewrite Hi in Hp; by injection Hp as <-|].
    destruct (decide (v = p)) as [<-|]; [rewrite Hv in Hp; injection Hp as <-; by eexists|].
    destruct (decide (i_buf ino = p)) as [<-|]; [destruct (Hbuf o Hp) as [b ->]; done|]. destruct o; try done. by eexists. }
  assert (Hold : forall w y, m' !! w = Some (OVnode y) -> w = v /\ y = set_v_size 0 x \/ w <> v /\ m !! w = Some (OVnode y)).
  { intros w y. rewrite Hlk. case_decide; [done|]. case_decide; [|case_decide; [done|right; done]]. intros [= <-]. by left. }
  assert (Hx0 : v_data x <> 0) by congruence. assert (Hv0 : v <> 0) by congruence.
  assert (Hj : forall a y, m' !! a = Some (OInode y) -> i_buf y = 0 \/ a <> v_data x /\ m !! a = Some (OInode y)).
  { intros a y. rewrite Hlk. case_decide; [intros [= <-]; by left|]. case_decide; [done|]. case_decide; [done|]. by right. }
  split.
  - rewrite Hlk, !(decide_False (P := _ = 0)) by congruence. by case_decide.
  - intros q y Hq. assert (Hq0 : m !! q = Some (OFile y)) by (revert Hq; rewrite Hlk; by repeat case_decide). by apply (kept_vnode _ _ m _ _ Hk), (T2 q).
  - intros w y [[-> ->]|[Hw Hy]]%Hold.
    + unfold node_typed. cbn [v_ops v_data v_type v_size set_v_size]. rewrite Ho. eexists. split; [rewrite Hlk, decide_True by done; reflexivity|].
      right. split; [done|]. exists []. split; [by apply buf_none|done].
    + apply (node_typed_kept (v_data x) (i_buf ino) m m' y Hk (T3 w y Hy)).
      * intros Hyo E. apply Hw. by apply (T4 w v y x).
      * intros jno Hyo Hjn Hz E. apply Hw. apply (T4 w v y x); try done. by apply (T5 _ _ jno ino).
  - assert (Hd : forall w y, m' !! w = Some (OVnode y) -> exists y0, m !! w = Some (OVnode y0) /\ v_ops y = v_ops y0 /\ v_data y = v_data y0).
    { intros w y [[-> ->]|[_ Hy]]%Hold; by eexists. }
    intros w1 w2 y z (y0 & H1 & -> & ->)%Hd (z0 & H2 & -> & ->)%Hd. by apply T4.
  - intros a y [E|[Hne' Ha]]%Hj Hz; [done|]. destruct (T6 a y Ha Hz) as [b Hb]. exists b. rewrite Hlk, !decide_False; [done|..]; try congruence.
    intros E. apply Hne'. symmetry. apply (T5 (v_data x) a ino y); congruence.
  - intros a b y z [E|[_ Ha]]%Hj [F|[_ Hb]]%Hj ? ?; try congruence. by apply (T5 a b y z).
  - intros q y. rewrite Hlk. repeat case_decide; [by intros [= <-]..|done|by apply T7].
Qed.

(** A file with new contents, in the old buffer or in a fresh one. *)
Lemma typed_refill m v x x' ino ino' d data (b := i_buf ino) (b' := i_buf ino') m' :
  typed m -> m !! v = Some (OVnode x) -> v_ops x = ramfs_ops -> m !! v_data x = Some (OInode ino) ->
  v_ops x' = v_ops x -> v_data x' = v_data x -> b' <> 0 -> m !! b' = None \/ b' = b ->
  (forall p, m' !! p = if decide (p = v) then Some (OVnode x') else if decide (p = v_data x) then Some (OInode ino') else
     if decide (p = b') then Some (OBuf d) else if decide (p = b) then None else m !! p) ->
  (forall o, m !! b = Some o -> exists e, o = OBuf e) -> file_at m' v x' ino' data -> v_size x' < 2 ^ 31 ->
  typed m' /\ forall p, is_vnode m p -> is_vnode m' p.
Proof.
  intros [T1 T2 T3 T4 T6 T5 T7] Hv Ho Hi Eo Ed Hz Hfr Hlk Hbuf Hf Hs. assert (Hne : v_data x <> v) by congruence.
  assert (Hnob : forall p o, m !! p = Some o -> (forall e, o <> OBuf e) -> p <> b /\ p <> b').
  { intros p o Hp Hno. assert (Hpb : p <> b) by (intros ->; destruct (Hbuf o Hp) as [e ->]; by destruct (Hno e)). split; [done|].
    destruct Hfr as [Hfr|Hfr]; [congruence|]. intros ->. congruence. }
  assert (Hbv : b' <> v /\ b' <> v_data x).
  { destruct Hfr as [Hfr|Hfr]; [split; congruence|]. destruct (T6 (v_data x) ino Hi) as [e He]; [unfold b in *; congruence|]. fold b in He. split; congruence. }
  assert (Hk : kept (v_data x) b m m').
  { intros p o Hp. unfold is_vnode. rewrite Hlk. destruct (decide (p = v)) as [->|]; [rewrite Hv in Hp; injection Hp as <-; by eexists|].
    destruct (decide (p = v_data x)) as [->|]; [rewrite Hi in Hp; by injection Hp as <-|].
    destruct o; try done; try (destruct (Hnob p _ Hp ltac:(done)) as [? ?]; rewrite !decide_False by done; first [done|by eexists]).
    destruct (decide (p = b')) as [Hpb|]; [|intros Hb; by rewrite decide_False]. intros Hb. destruct Hfr as [Hfr|Hfr]; congruence. }
  assert (Hold : forall w y, m' !! w = Some (OVnode y) -> w = v /\ y = x' \/ w <> v /\ m !! w = Some (OVnode y)).
  { intros w y. rewrite Hlk. case_decide; [intros [= <-]; by left|]. case_decide; [done|]. case_decide; [done|]. case_decide; [done|]. by right. }
  assert (Hino : forall a y, m' !! a = Some (OInode y) -> a = v_data x /\ y = ino' \/ a <> v_data x /\ m !! a = Some (OInode y)).
  { intros a y. rewrite Hlk. case_decide; [done|]. case_decide; [intros [= <-]; by left|]. case_decide; [done|]. case_decide; [done|]. by right. }
  assert (Hown : forall a y, a <> v_data x -> m !! a = Some (OInode y) -> i_buf y <> 0 -> i_buf y <> b /\ i_buf y <> b').
  { intros a y Ha Hy Hyz. assert (i_buf y <> b) by (intros E; apply Ha; by apply (T5 a (v_data x) y ino)). split; [done|].
    destruct Hfr as [Hfr|Hfr]; [|congruence]. destruct (T6 a y Hy Hyz) as [e He]. congruence. }
  split; [split|intros p; by apply (kept_vnode (v_data x) b)].
  - rewrite Hlk. repeat case_decide; subst; try done; congruence.
  - intros q y Hq. assert (Hq0 : m !! q = Some (OFile y)) by (revert Hq; rewrite Hlk; by repeat case_decide). by apply (kept_vnode _ _ m _ _ Hk), (T2 q).
  - intros w y [[-> ->]|[Hw Hy]]%Hold.
    + unfold node_typed. rewrite Eo, Ho. exists ino'. destruct Hf as [F1 F2 F3 F4 F5]. split; [done|]. right. split; [done|]. by exists data.
    + apply (node_typed_kept (v_data x) b m m' y Hk (T3 w y Hy)).
      * intros Hyo E. apply Hw. by apply (T4 w v y x).
      * intros jno Hyo Hj Hjz E. apply Hw. apply (T4 w v y x); try done. by apply (T5 _ _ jno ino).
  - assert (Hd : forall w y, m' !! w = Some (OVnode y) -> exists y0, m !! w = Some (OVnode y0) /\ v_ops y = v_ops y0 /\ v_data y = v_data y0).
    { intros w y [[-> ->]|[_ Hy]]%Hold; by eexists. }
    intros w1 w2 y z (y0 & H1 & -> & ->)%Hd (z0 & H2 & -> & ->)%Hd. by apply T4.
  - intros a y [[-> ->]|[Ha Hy]]%Hino Hyz.
    + exists d. destruct Hbv. by rewrite Hlk, decide_False, decide_False, decide_True.
    + destruct (T6 a y Hy Hyz) as [e He]. destruct (Hown a y Ha Hy Hyz). exists e. rewrite Hlk, !decide_False by congruence. done.
  - intros a1 a2 y z [[-> ->]|[Ha Hy]]%Hino [[-> ->]|[Ha' Hz']]%Hino E Hyz; [done|..].
    + destruct (Hown a2 z Ha' Hz'); [congruence|]. unfold b' in *. congruence.
    + destruct (Hown a1 y Ha Hy); [congruence|]. unfold b' in *. congruence.
    + by apply (T5 a1 a2 y z).
  - intros q y. rewrite Hlk. repeat case_decide; [intros [= <-]; simpl; rewrite (fa_size _ _ _ _ _ Hf); lia|by intros [= <-]..|done|by apply T7].
Qed.

(** ** What opening and creating leave alone

    Open files stay as they are, vnodes keep their operations, and new vnodes
    belong to the RAM file system. *)
Definition frame (m m' : gmap Z obj) : Prop :=
  (forall f x, m !! f = Some (OFile x) -> m' !! f = Some (OFile x)) /\
  (forall v x, m !! v = Some (OVnode x) -> exists x', m' !! v = Some (OVnode x') /\ v_ops x' = v_ops x) /\
  (forall v x', m' !! v = Some (OVnode x') -> v_ops x' = ramfs_ops \/ exists x, m !! v = Some (OVnode x) /\ v_ops x' = v_ops x).

#[export] Instance frame_preorder : PreOrder frame.
Proof.
  split.
  - intros m. split; [done|]. split; intros v x Hv; [by exists x|right; by exists x].
  - intros m1 m2 m3 (F1 & V1 & B1) (F2 & V2 & B2). split; [auto|]. split.
    + intros v x Hv. destruct (V1 v x Hv) as (x1 & Hv1 & E1). destruct (V2 v x1 Hv1) as (x2 & Hv2 & E2). exists x2. split; [done|congruence].
    + intros v x Hv. destruct (B2 v x Hv) as [?|(x1 & Hv1 & E1)]; [by left|]. destruct (B1 v x1 Hv1) as [?|(x2 & Hv2 & E2)]; [left; congruence|].
      right. exists x2. split; [done|congruence].
Qed.

(** No vnode is the end of a pipe. *)
Definition is_pipe_end (o : vops) : bool := match o with pipe_read_ops | pipe_write_ops => true | _ => false end.
Definition no_pipes (m : gmap Z obj) : Prop := forall v x, m !! v = Some (OVnode x) -> is_pipe_end (v_ops x) = false.

(** A file with new contents leaves the rest alone. *)
Lemma frame_refill m m' v x x' i b b' o1 o2 e : m !! v = Some (OVnode x) -> v_ops x' = v_ops x -> m !! i = Some (OInode o1) ->
  (forall o, m !! b = Some o -> exists e, o = OBuf e) -> m !! b' = None \/ b' = b ->
  (forall p, m' !! p = if decide (p = v) then Some (OVnode x') else if decide (p = i) then Some (OInode o2) else
     if decide (p = b') then Some (OBuf e) else if decide (p = b) then None else m !! p) -> frame m m'.
Proof.
  intros Hv Eo Hi Hbuf Hfr Hlk.
  assert (Hnob : forall p o, m !! p = Some o -> (forall e, o <> OBuf e) -> p <> b /\ p <> b').
  { intros p o Hp Hno. assert (Hpb : p <> b) by (intros ->; destruct (Hbuf o Hp) as [e' ->]; by destruct (Hno e')). split; [done|].
    destruct Hfr as [Hfr|Hfr]; [congruence|]. by rewrite Hfr. }
  split; [|split].
  - intros f y Hf. destruct (Hnob f _ Hf ltac:(done)). rewrite Hlk, !decide_False by congruence. done.
  - intros w y Hw. destruct (Hnob w _ Hw ltac:(done)). rewrite Hlk. destruct (decide (w = v)) as [->|]; [exists x'; split; [done|congruence]|].
    rewrite !decide_False by congruence. by exists y.
  - intros w y. rewrite Hlk. case_decide as Hd; [intros [= <-]; subst w; right; by exists x|]. repeat (case_decide; [done|]). intros Hw. right. by exists y.
Qed.

Lemma frame_no_pipes m m' : frame m m' -> no_pipes m -> no_pipes m'.
Proof. intros (_ & _ & B) Hp v x Hv. destruct (B v x Hv) as [->|(y & Hy & ->)]; [done|by apply (Hp v)]. Qed.

Lemma frame_insert m p o :
  match m !! p, o with
  | Some (OFile _), _ => False
  | Some (OVnode x), OVnode x' => v_ops x' = v_ops x
  | Some (OVnode _), _ => False
  | _, OVnode x' => v_ops x' = ramfs_ops
  | _, _ => True
  end -> frame m (<[p := o]> m).
Proof.
  intros Ho. split; [|split].
  - intros f x Hf. rewrite lookup_insert_ne; [done|]. intros ->. by rewrite Hf in Ho.
  - intros v x Hv. rewrite lookup_insert. case_decide as Hd; [|by exists x]. subst v. rewrite Hv in Ho. destruct o; try done. by eexists.
  - intros v x. rewrite lookup_insert. case_decide as Hd; [|intros Hv; right; by exists x]. subst v. intros [= ->].
    destruct (m !! p) as [[y| | | | | |]|] eqn:E; try (by left); try done. right. by exists y.
Qed.

Lemma frame_delete m p : (forall o, m !! p = Some o -> exists b, o = OBuf b) -> frame m (delete p m).
Proof.
  intros Hp. split; [|split].
  - intros f x Hf. rewrite lookup_delete_ne; [done|]. intros ->. by destruct (Hp _ Hf).
  - intros v x Hv. exists x. rewrite lookup_delete_ne; [done|]. intros ->. by destruct (Hp _ Hv).
  - intros v x. rewrite lookup_delete. case_decide; [done|]. intros Hv. right. by exists x.
Qed.

Lemma frame_truncated m v x ino data : typed m -> m !! v = Some (OVnode x) -> m !! v_data x = Some (OInode ino) ->
  buf_at m (i_buf ino) (i_capacity ino) data -> frame m (truncated m v x ino).
Proof.
  intros Ht Hv Hi Hb. assert (Hbuf : forall o, m !! i_buf ino = Some o -> exists b, o = OBuf b).
  { destruct Hb as [E _ _|k _ _ _ _ Eb]; intros o Ho; [rewrite E, (ty_null _ Ht) in Ho; done|]. rewrite Eb in Ho. injection Ho as <-. by eexists. }
  unfold truncated. etrans; [by apply (frame_delete m (i_buf ino))|]. assert (Hv1 : delete (i_buf ino) m !! v = Some (OVnode x)).
  { rewrite lookup_delete_ne; [done|]. intros E. rewrite E in Hbuf. by destruct (Hbuf _ Hv). }
  etrans; [apply (frame_insert _ v (OVnode (set_v_size 0 x))); by rewrite Hv1|]. apply frame_insert. rewrite lookup_insert_ne by congruence. rewrite lookup_delete.
  case_decide; [done|]. by rewrite Hi.
Qed.

(** ** Running in a typed store *)

Section typed_run.
Context {H : Type} `{!Heap H} `{!HeapLaws H}.
Implicit Types (s : kstate H fstate) (m : gmap Z obj).

Lemma chain_of_complete m d es : chain m d es -> forall fuel, (length es <= fuel)%nat -> chain_of fuel m d = Some es.
Proof.
  induction 1 as [|a e es Ha He Hc IH]; intros fuel Hf; [by destruct fuel|]. destruct fuel as [|fuel]; simpl in Hf; [lia|].
  simpl. rewrite (proj2 (Z.eqb_neq a 0)), He, IH by (done || lia). done.
Qed.

(** The node that a directory names, [None] for anything but a directory. *)
Definition child m (cur : Z) (name : list Z) : option Z :=
  match dir_of (size m) m cur with
  | Some (_, _, es) => named name es
  | None => None
  end.

Lemma child_dir m dir x ino es name : dir_at m dir x ino es -> child m dir name = named name es.
Proof.
  intros [Ev Et Eo Ei Hc]. unfold child, dir_of. rewrite Ev, Et, Z.eqb_refl, Eo, Ei. simpl.
  by rewrite (chain_of_complete m _ es Hc _ (chain_length m _ es Hc)).
Qed.

(** Directories belong to the RAM file system. *)
Lemma typed_dir_ops m v x : typed m -> m !! v = Some (OVnode x) -> v_type x = VNODE_DIR -> v_ops x = ramfs_ops.
Proof. intros Ht Hv Hd. pose proof (ty_node _ Ht v x Hv) as Hx. unfold node_typed in Hx. destruct (v_ops x); try done; by destruct Hx. Qed.

Lemma typed_dir m v x : typed m -> m !! v = Some (OVnode x) -> v_ops x = ramfs_ops -> v_type x = VNODE_DIR ->
  exists ino es, dir_at m v x ino es /\ Forall (fun e => is_vnode m (d_vnode e.2)) es.
Proof.
  intros Ht Hv Ho Hd. pose proof (ty_node _ Ht v x Hv) as Hx. unfold node_typed in Hx. rewrite Ho in Hx.
  destruct Hx as (ino & Hi & [(_ & es & Hc & He)|[E _]]); [|unfold VNODE_FILE, VNODE_DIR in *; congruence]. exists ino, es. by split.
Qed.

Lemma named_vnode m name es v : Forall (fun e => is_vnode m (d_vnode e.2)) es -> named name es = Some v -> is_vnode m v.
Proof.
  induction 1 as [|e es He Hes IH]; [done|]. rewrite named_cons. case_decide; [by intros [= <-]|done].
Qed.

Lemma ops_lookup_run s h m cur name : typed m -> is_vnode m cur ->
  ops_lookup cur name (st s h m) = Ok (child m cur name, st s h m) /\ forall v, child m cur name = Some v -> is_vnode m v.
Proof.
  intros Ht [x Hx]. unfold ops_lookup. run_load Hx.
  destruct (decide (v_ops x = ramfs_ops)) as [Ho|Ho].
  - rewrite Ho. destruct (Z.eqb_spec (v_type x) VNODE_DIR) as [Hd|Hd].
    + destruct (typed_dir m cur x Ht Hx Ho Hd) as (ino & es & Hdir & He). rewrite (child_dir m cur x ino es name Hdir).
      split; [by apply (ramfs_lookup_run s h m cur x ino)|]. intros v. by apply named_vnode.
    + assert (En : child m cur name = None) by (unfold child, dir_of; rewrite Hx, (proj2 (Z.eqb_neq _ _)) by done; done).
      rewrite En. split; [|done]. unfold ramfs_lookup. run_load Hx. rewrite (proj2 (Z.eqb_neq _ _)) by done. done.
  - assert (En : child m cur name = None).
    { unfold child, dir_of. rewrite Hx. destruct (v_type x =? VNODE_DIR); [|done]. by destruct (v_ops x). }
    rewrite En. split; [|done]. by destruct (v_ops x).
Qed.
(** The state after a file operation: the heap holds the objects, they are
    well typed and the vnodes are still vnodes. *)
Definition still_typed s m A (s' : kstate H fstate) m' : Prop :=
  exists h', s' = st s h' m' /\ healthy h' m' A /\ typed m' /\ forall p, is_vnode m p -> is_vnode m' p.

Lemma typed_nonzero m p o : typed m -> m !! p = Some o -> p <> 0.
Proof. intros Ht Hp ->. rewrite (ty_null _ Ht) in Hp. done. Qed.

(** Cutting a file to length 0 ([O_TRUNC] in [ramfs_open]). *)
Lemma truncate_run s h m A v x ino data (cut := truncated m v x ino) :
  healthy h m A -> typed m -> m !! v = Some (OVnode x) -> v_ops x = ramfs_ops -> v_type x = VNODE_FILE ->
  m !! v_data x = Some (OInode ino) -> buf_at m (i_buf ino) (i_capacity ino) data ->
  exists h', (store (v_data x) (OInode (set_i_data (i_buf ino) 0 ino)) ;;
    store v (OVnode (set_v_size 0 x)) ;;
    (if i_buf ino =? 0 then mret tt else kfree_obj (i_buf ino) ;; store (v_data x) (OInode (set_i_data 0 0 ino)))) (st s h m) =
    Ok (tt, st s h' cut) /\ healthy h' cut A.
Proof.
  intros Hh Ht Hv Ho Et Hi Hb. assert (Hne : v_data x <> v) by congruence.
  rewrite (bind_ok _ _ _ _ _ (store_st _ _ _ _ _ _ Hi)). set (m1 := <[v_data x := _]> m).
  assert (Hv1 : m1 !! v = Some (OVnode x)) by (unfold m1; by rewrite lookup_insert_ne).
  rewrite (bind_ok _ _ _ _ _ (store_st _ _ _ _ _ _ Hv1)). set (m2 := <[v := _]> m1).
  assert (Hh1 : healthy h m1 A) by (by apply (healthy_insert h m A _ _ (OInode ino)); [|done|apply cap_ok_0]).
  assert (Hh2 : healthy h m2 A) by (by apply (healthy_insert h m1 A _ _ (OVnode x))).
  destruct (Z.eqb_spec (i_buf ino) 0) as [Hz|Hz].
  - assert (Em : m2 = cut).
    { unfold m2, m1, cut, truncated. rewrite Hz, (delete_id m 0) by apply (ty_null _ Ht). by apply insert_insert_ne. }
    rewrite <- Em. by exists h.
  - destruct Hb as [|k _ Hc Hk Hl Eb]; [done|].
    assert (Hb2 : m2 !! i_buf ino = Some (OBuf (data ++ replicate (Z.to_nat (i_capacity ino) - length data) None))).
    { unfold m2, m1. rewrite !lookup_insert_ne by congruence. done. }
    destruct (kfree_obj_runs s h m2 A _ _ Hh2 Hb2) as (h3 & E3 & Hh3).
    assert (Hi3 : delete (i_buf ino) m2 !! v_data x = Some (OInode (set_i_data (i_buf ino) 0 ino))).
    { rewrite lookup_delete_ne by congruence. unfold m2, m1. rewrite lookup_insert_ne by done. apply lookup_insert_eq. }
    assert (Em : <[v_data x := OInode (set_i_data 0 0 ino)]> (delete (i_buf ino) m2) = cut).
    { apply map_eq. intros p. unfold cut, truncated, m2, m1. rewrite !lookup_insert, !lookup_delete, !lookup_insert.
      repeat case_decide; try done; congruence. }
    rewrite (bind_ok _ _ _ _ _ E3), (store_st _ _ _ _ _ _ Hi3), Em. exists h3. split; [done|]. rewrite <- Em.
    apply (healthy_insert h3 _ A _ _ _ Hh3 Hi3). apply cap_ok_0.
Qed.

(** Directories keep their entries, and a vnode its type and table; its size
    stays or becomes 0. *)
Definition dirs_kept m m' : Prop := forall v x ino es, dir_at m v x ino es -> exists x', dir_at m' v x' ino es.
Definition node_kept (x x' : vnode) : Prop := v_type x' = v_type x /\ v_ops x' = v_ops x /\ (v_size x' = v_size x \/ v_size x' = 0).

Lemma dirs_kept_truncated m v x ino data : typed m -> m !! v = Some (OVnode x) -> v_ops x = ramfs_ops -> v_type x = VNODE_FILE ->
  m !! v_data x = Some (OInode ino) -> buf_at m (i_buf ino) (i_capacity ino) data -> dirs_kept m (truncated m v x ino).
Proof.
  intros Ht Hv Ho Et Hi Hb w y jno es [Ev Edir Eops Ei Hc].
  assert (Hvw : v <> w) by (intros ->; rewrite Hv in Ev; injection Ev as ->; unfold VNODE_FILE, VNODE_DIR in *; congruence).
  assert (Hdd : v_data x <> v_data y) by (intros E; apply Hvw; by apply (ty_inode _ Ht v w x y)).
  assert (Hkeep : forall p o, m !! p = Some o -> p <> v_data x -> p <> v -> (forall b, o <> OBuf b) -> truncated m v x ino !! p = Some o).
  { intros p o Hp H1 H2 H3. unfold truncated. rewrite !lookup_insert_ne by congruence. rewrite lookup_delete_ne; [done|].
    intros <-. destruct Hb as [Hz _ _|k _ _ _ _ Eb]; [rewrite Hz, (ty_null _ Ht) in Hp; done|]. rewrite Eb in Hp. by destruct (H3 _ (eq_sym (Some_inj _ _ Hp))). }
  exists y. split; try done; [apply Hkeep; congruence..|].
  apply (chain_frame m); [done|]. intros a e Ha. apply Hkeep; congruence.
Qed.

Lemma ops_open_run s h m A v x flags : healthy h m A -> typed m -> m !! v = Some (OVnode x) ->
  exists s' m' x', ops_open v flags (st s h m) = Ok (0, s') /\ still_typed s m A s' m' /\ m' !! v = Some (OVnode x') /\
    node_kept x x' /\ dirs_kept m m' /\ frame m m'.
Proof.
  intros Hh Ht Hv. assert (Hsame : still_typed s m A (st s h m) m /\ m !! v = Some (OVnode x) /\ node_kept x x /\ dirs_kept m m /\ frame m m).
  { split; [exists h; by split_and!|]. split; [done|]. split; [split_and!; [done|done|by left]|]. split; [|done]. intros w y jno es Hd. by exists y. }
  unfold ops_open. run_load Hv. destruct (decide (v_ops x = ramfs_ops)) as [Ho|Ho].
  2: { exists (st s h m), m, x. split; [by destruct (v_ops x)|exact Hsame]. }
  rewrite Ho. unfold ramfs_open. run_load Hv. destruct (truthy _ && (v_type x =? VNODE_FILE)) eqn:Eb.
  2: { exists (st s h m), m, x. split; [done|exact Hsame]. }
  apply andb_prop in Eb as [_ Et%Z.eqb_eq]. pose proof (ty_node _ Ht v x Hv) as Hx. unfold node_typed in Hx. rewrite Ho in Hx.
  destruct Hx as (ino & Hi & [[E _]|(_ & data & Hb & Hs)]); [unfold VNODE_FILE, VNODE_DIR in *; congruence|]. run_load Hi.
  assert (Hne : v_data x <> v) by congruence.
  destruct (truncate_run s h m A v x ino data Hh Ht Hv Ho Et Hi Hb) as (h' & E & Hh').
  exists (st s h' (truncated m v x ino)), (truncated m v x ino), (set_v_size 0 x). split_and!.
  - apply bind_inv in E as (? & ? & E1 & E). apply bind_inv in E as (? & ? & E2 & E3).
    by rewrite (bind_ok _ _ _ _ _ E1), (bind_ok _ _ _ _ _ E2), (bind_ok _ _ _ _ _ E3).
  - exists h'. split; [done|]. split; [done|]. split; [by apply typed_truncated|]. intros p [y Hp]. unfold is_vnode, truncated.
    rewrite lookup_insert_ne by congruence. rewrite lookup_insert. case_decide; [by eexists|].
    rewrite lookup_delete_ne; [by exists y|]. intros Ep. destruct Hb as [Hz _ _|k _ _ _ _ Eb]; [|congruence].
    rewrite Hz in Ep. subst p. rewrite (ty_null _ Ht) in Hp. done.
  - unfold truncated. rewrite lookup_insert_ne by done. apply lookup_insert_eq.
  - split_and!; [done|done|by right].
  - by apply (dirs_kept_truncated m v x ino data).
  - by apply (frame_truncated m v x ino data).
Qed.

(** An open file. *)
Definition opened m (v f : Z) : Prop := exists x, m !! f = Some (OFile x) /\ f_vnode x = v /\ f_refcount x = 1.

Lemma dirs_kept_fresh m p o : m !! p = None -> dirs_kept m (<[p := o]> m).
Proof. intros Hp v x ino es Hd. exists x. by apply dir_fresh. Qed.

Lemma dirs_kept_update m p x x' : m !! p = Some (OVnode x) -> v_type x' = v_type x -> v_ops x' = v_ops x -> v_data x' = v_data x ->
  dirs_kept m (<[p := OVnode x']> m).
Proof.
  intros Hp E1 E2 E3 w y ino es [Ev Et Eo Ei Hc]. assert (Hi : p <> v_data y) by congruence.
  exists (if decide (p = w) then x' else y). split.
  - rewrite lookup_insert. by case_decide.
  - case_decide; subst; congruence.
  - case_decide; subst; congruence.
  - rewrite lookup_insert_ne; [|case_decide; subst; congruence]. case_decide; subst; congruence.
  - apply (chain_frame m); [done|]. intros a e Ha. rewrite lookup_insert_ne by congruence. done.
Qed.

Lemma dirs_kept_trans m1 m2 m3 : dirs_kept m1 m2 -> dirs_kept m2 m3 -> dirs_kept m1 m3.
Proof. intros H1 H2 v x ino es Hd. destruct (H1 v x ino es Hd) as (x' & Hd'). by apply (H2 v x' ino es). Qed.

Lemma still_typed_trans s m A s1 m1 s2 m2 : still_typed s m A s1 m1 -> still_typed s1 m1 A s2 m2 -> still_typed s m A s2 m2.
Proof. intros (h1 & -> & _ & _ & K1) (h2 & -> & H2 & T2 & K2). exists h2. split; [done|]. split; [done|]. split; [done|]. auto. Qed.

Lemma open_vnode_typed s h m A v x flags : healthy h m A -> typed m -> m !! v = Some (OVnode x) ->
  runs (vfs_open_vnode_op v flags) (st s h m) (fun f s' => exists m' x', still_typed s m A s' m' /\ (f = 0 \/ opened m' v f) /\
    m' !! v = Some (OVnode x') /\ node_kept x x' /\ dirs_kept m m' /\ frame m m' /\ (f <> 0 -> forall y, m !! f <> Some (OFile y))).
Proof.
  intros Hh Ht Hv. pose proof (typed_nonzero m v _ Ht Hv) as Hz. unfold vfs_open_vnode_op. rewrite (proj2 (Z.eqb_neq v 0)) by done.
  destruct (ops_open_run s h m A v x flags Hh Ht Hv) as (s1 & m1 & x1 & E & Hst & Hv1 & Hn1 & Hd1 & Hf1). eapply runs_step; [exact E|].
  cbn [Z.ltb Z.compare]. destruct Hst as (h1 & -> & Hh1 & Ht1 & Hk1). eapply runs_load; [exact Hv1|done|].
  set (o := OFile _). eapply runs_bind; [by apply (new_obj_runs s h1 m1 A)|]. intros f s2 [(-> & h2 & -> & H2)|(Hf & Hn & h2 & -> & H2)].
  { eapply runs_ok; [reflexivity|]. exists m1, x1. split; [exists h2; by split_and!|]. split; [by left|done]. }
  rewrite (proj2 (Z.eqb_neq f 0)) by done. set (m2 := <[f := o]> m1).
  assert (Ht2 : typed m2) by (apply typed_fresh; [done|done|done| |by eexists];
    pose proof (ty_unsigned _ Ht1 v _ Hv1) as Hu1; simpl in *; by destruct (truthy _)).
  assert (Hv2 : m2 !! v = Some (OVnode x1)) by (unfold m2; rewrite lookup_insert_ne by congruence; done).
  set (o' := OVnode (set_v_refcount (v_refcount x1 +w 1) x1)).
  assert (Er : vnode_ref v (st s h2 m2) = Ok (tt, st s h2 (<[v := o']> m2))).
  { unfold vnode_ref. rewrite (proj2 (Z.eqb_neq v 0)) by done. run_load Hv2. exact (store_st _ _ _ _ _ _ Hv2). }
  eapply runs_step; [exact Er|]. eapply runs_ok; [reflexivity|]. exists (<[v := o']> m2). eexists. split_and!; [..|apply lookup_insert_eq|exact Hn1| | |].
  - exists h2. split; [done|]. split; [by apply (healthy_insert h2 m2 A v _ _ H2 Hv2)|]. split; [apply (typed_update m2 v (OVnode x1)); simpl; by auto|].
    intros p Hp. apply Hk1 in Hp as [y Hp]. unfold is_vnode. rewrite lookup_insert. case_decide; [by eexists|]. exists y.
    unfold m2. rewrite lookup_insert_ne by congruence. done.
  - right. eexists. split; [rewrite lookup_insert_ne by congruence; apply lookup_insert_eq|done].
  - apply (dirs_kept_trans m m1); [done|]. apply (dirs_kept_trans m1 m2); [by apply dirs_kept_fresh|]. by apply (dirs_kept_update m2 v x1).
  - etrans; [exact Hf1|]. etrans; [apply (frame_insert m1 f o); by rewrite Hn|]. apply frame_insert. by rewrite Hv2.
  - intros _ y Hy. apply Hf1 in Hy. congruence.
Qed.

Lemma healthy_nonzero h m A p o : healthy h m A -> m !! p = Some o -> p <> 0.
Proof. intros (L & _ & Hm) Hp. by destruct (Hm p o Hp). Qed.

(** The store after a new node was put into a directory. *)
Lemma created_typed h m A dir x ino es name type i v d (m1 := with_node m i v type) (m2 := with_entry m1 x ino d name v) :
  typed m -> dir_at m dir x ino es -> type = VNODE_FILE \/ type = VNODE_DIR -> v <> 0 -> d <> 0 -> m !! v = None -> m !! i = None -> i <> v ->
  m1 !! d = None -> healthy h m2 A ->
  typed m2 /\ m2 !! v = Some (OVnode (Vnode type 0 0 ramfs_ops i)) /\ (forall p, is_vnode m p -> is_vnode m2 p) /\ frame m m2.
Proof.
  intros Ht Hd Htype Hv Hdz Hnv Hni Hiv Hnd Hh. pose proof (dir_with_node m dir x ino es i v type Hd Hni Hnv) as Hd1. fold m1 in Hd1.
  assert (Hi1 : m1 !! i = Some (OInode (Inode 0 0 0 0))) by (unfold m1, with_node; rewrite lookup_insert_ne by done; apply lookup_insert_eq).
  assert (Hi : i <> 0).
  { apply (healthy_nonzero h m2 A i (OInode (Inode 0 0 0 0)) Hh). unfold m2, with_entry. pose proof (da_inode _ _ _ _ _ Hd).
    rewrite !lookup_insert_ne by congruence. done. }
  assert (Ht1 : typed m1) by (by apply typed_with_node).
  assert (Hv1 : m1 !! v = Some (OVnode (Vnode type 0 0 ramfs_ops i))) by apply lookup_insert_eq.
  assert (Hkeep : vnodes_kept m1 m2) by (apply vnodes_with_entry; [apply Hd1|done]).
  split; [apply (typed_with_entry m1 dir x ino es); try done; by eexists|]. split; [by apply Hkeep|]. split.
  2: { etrans; [apply (frame_insert m i (OInode (Inode 0 0 0 0))); by rewrite Hni|].
       etrans; [apply (frame_insert _ v (OVnode (Vnode type 0 0 ramfs_ops i))); rewrite lookup_insert_ne by done; by rewrite Hnv|]. fold (with_node m i v type). fold m1.
       etrans; [apply (frame_insert m1 d (ODirent (Dirent (take (VFS_NAME_MAX - 1) name) v (i_children ino)))); by rewrite Hnd|]. apply frame_insert.
       rewrite lookup_insert_ne by (pose proof (da_inode _ _ _ _ _ Hd1); congruence). by rewrite (da_inode _ _ _ _ _ Hd1). }
  intros p [y Hp]. exists y. apply Hkeep. unfold m1, with_node. rewrite !lookup_insert_ne by congruence. done.
Qed.

Lemma create_typed s h m A dir x ino es name type : healthy h m A -> typed m -> dir_at m dir x ino es -> type = VNODE_FILE \/ type = VNODE_DIR ->
  Forall (fun e => is_vnode m (d_vnode e.2)) es ->
  runs (ramfs_create dir name type) (st s h m) (fun r s' => exists m', still_typed s m A s' m' /\ (forall v, r = Some v -> is_vnode m' v) /\ frame m m').
Proof.
  intros Hh Ht Hd Htype He. eapply runs_weaken; [by apply (ramfs_create_runs s h m A dir x ino es)|]. intros r s' K.
  destruct r as [v|], (named name es) as [w|] eqn:En; try done.
  - destruct K as [-> ->]. exists m. split; [exists h; by split_and!|]. split; [|done]. intros v [= <-]. by apply (named_vnode m name es).
  - destruct K as (i & d & h' & Hv & Hdz & Hnv & Hni & Hiv & Hnd & -> & Hh').
    destruct (created_typed h' m A dir x ino es name type i v d) as (T2 & V2 & K2 & F2); try done.
    eexists. split; [exists h'; by split_and!|]. split; [intros v' [= <-]; by eexists|done].
  - destruct K as (h' & -> & Hh'). exists m. split; [|done]. exists h'. by split_and!.
Qed.

(** ** Directories only grow *)

Definition children_kept m m' : Prop := forall cur name w, child m cur name = Some w -> child m' cur name = Some w.

Lemma child_inv m cur name w : child m cur name = Some w -> exists x ino es, dir_at m cur x ino es /\ named name es = Some w.
Proof.
  unfold child. destruct (dir_of (size m) m cur) as [[[x ino] es]|] eqn:Ed; [|done]. intros Hn. exists x, ino, es. by apply dir_of_dir in Ed.
Qed.

Lemma children_dirs m m' : dirs_kept m m' -> children_kept m m'.
Proof.
  intros Hk cur name w (x & ino & es & Hd & Hn)%child_inv. destruct (Hk cur x ino es Hd) as (x' & Hd'). by rewrite (child_dir m' cur x' ino es).
Qed.

(** A new node leaves every name that was there. *)
Lemma created_children m dir x ino es name type i v d (m1 := with_node m i v type) (m2 := with_entry m1 x ino d name v) :
  typed m -> dir_at m dir x ino es -> named name es = None -> (length name < VFS_NAME_MAX)%nat ->
  m !! v = None -> m !! i = None -> d <> 0 -> m1 !! d = None -> children_kept m m2 /\ child m2 dir name = Some v.
Proof.
  intros Ht Hd Hn Hl Hnv Hni Hdz Hnd. pose proof (dir_with_node m dir x ino es i v type Hd Hni Hnv) as Hd1. fold m1 in Hd1.
  pose proof (dir_with_entry m1 dir x ino es d name v Hd1 Hdz Hnd) as Hd2. fold m2 in Hd2.
  assert (Ename : take (VFS_NAME_MAX - 1) name = name) by (apply take_ge; lia). rewrite Ename in Hd2.
  split; [|rewrite (child_dir m2 dir x _ _ name Hd2), named_cons; by rewrite decide_True].
  intros cur n w (y & jno & fs & Hy & Hw)%child_inv. destruct (decide (cur = dir)) as [->|Hne].
  - assert (y = x) as -> by (pose proof (da_vnode _ _ _ _ _ Hy); pose proof (da_vnode _ _ _ _ _ Hd); congruence).
    assert (jno = ino) as -> by (pose proof (da_inode _ _ _ _ _ Hy); pose proof (da_inode _ _ _ _ _ Hd); congruence).
    assert (fs = es) as -> by (by apply (chain_unique m (i_children ino)); [apply Hy|apply Hd]).
    rewrite (child_dir m2 dir x _ _ n Hd2), named_cons. cbn [snd d_name]. rewrite decide_False by congruence. done.
  - rewrite (child_dir m2 cur y jno fs n); [done|]. apply dir_other; [by apply dir_with_node|apply Hd1| |done]. intros E. apply Hne.
    symmetry. apply (ty_inode _ Ht dir cur x y); try done; [apply Hd|apply Hy|apply Hd|apply Hy].
Qed.
End typed_run.
