(* ===== verification/Path.v ===== *)
(** * Paths (find_mount, vfs_resolve, vfs_open and vfs_mkdir of kernel/fs/vfs.c)

    The character loops of the code against a reference: [names] splits a path
    at its slashes, [follow] goes from node to node through the directories of
    the store. A name of more than 63 characters is looked up in pieces of 63
    ([chop]), as the code does. *)

From Stdlib Require Import ZArith Lia.
From S2P Require Import Prelude Kheap HeapSpec Kstate Fd Fs FsLaws Ramfs Proc ProcInv ProcOps ProcSteps ProcSafety Kinv Dir Typed.

(** ** The names of a path *)

Fixpoint split (p : list Z) : list (list Z) :=
  match p with
  | [] => [[]]
  | c :: p' =>
      if c =? SLASH then [] :: split p' else
      match split p' with
      | w :: ws => (c :: w) :: ws
      | [] => [[c]]
      end
  end.
Definition names (p : list Z) : list (list Z) := filter (fun w => w <> []) (split p).

(** A name in pieces of 63 characters. *)
Fixpoint chop_fuel (n : nat) (w : list Z) : list (list Z) :=
  match n, w with
  | S n', _ :: _ => take (VFS_NAME_MAX - 1) w :: chop_fuel n' (drop (VFS_NAME_MAX - 1) w)
  | _, _ => []
  end.
Definition chop (w : list Z) : list (list Z) := chop_fuel (length w) w.
Definition lookups (p : list Z) : list (list Z) := names p ≫= chop.

(** What follows a name: the end or a slash. *)
Definition at_slash (p : list Z) : Prop := p = [] \/ exists p', p = SLASH :: p'.

Lemma names_slash p : names (SLASH :: p) = names p.
Proof. unfold names. simpl. rewrite filter_cons_False; [done|]. by intros []. Qed.

Lemma names_skip p : names (skip_slashes p) = names p.
Proof.
  induction p as [|c p IH]; [done|]. simpl. destruct (Z.eqb_spec c SLASH) as [->|]; [|done]. by rewrite names_slash.
Qed.

Lemma split_word w tail : SLASH ∉ w -> split (w ++ tail) = match split tail with u :: us => (w ++ u) :: us | [] => [w] end.
Proof.
  induction w as [|c w IH]; intros Hw; simpl.
  - destruct tail as [|c tail]; [done|]. simpl. destruct (c =? SLASH); [done|]. by destruct (split tail).
  - apply not_elem_of_cons in Hw as [Hc Hw]. rewrite (proj2 (Z.eqb_neq c SLASH)), IH by congruence. by destruct (split tail).
Qed.

Lemma names_word w tail : w <> [] -> SLASH ∉ w -> at_slash tail -> names (w ++ tail) = w :: names tail.
Proof.
  intros Hz Hw [->|[t ->]]; unfold names; rewrite split_word by done; simpl; rewrite app_nil_r, filter_cons_True by done; done.
Qed.

Lemma word_split p : exists w tail, p = (w ++ tail) /\ (SLASH ∉ w) /\ at_slash tail /\ (forall c p', p = (c :: p') -> c <> SLASH -> w <> []).
Proof.
  induction p as [|c p (w & tail & -> & Hw & Ht & _)]; [exists [], []; split_and!; [done|set_solver|by left|done]|].
  destruct (Z.eqb_spec c SLASH) as [->|Hc].
  - exists [], (SLASH :: w ++ tail). split_and!; [done|set_solver|right; by eexists|]. intros c p' [= <- _]. done.
  - exists (c :: w), tail. split_and!; [done|set_solver|done|done].
Qed.

Lemma component_word n : forall w tail, SLASH ∉ w -> at_slash tail -> component n (w ++ tail) = (take n w, drop n w ++ tail).
Proof.
  induction n as [|n IH]; intros w tail Hw Ht; [by destruct w|]. destruct w as [|c w].
  - destruct Ht as [->|[t ->]]; done.
  - apply not_elem_of_cons in Hw as [Hc Hw]. simpl. rewrite (proj2 (Z.eqb_neq c SLASH)) by congruence. by rewrite IH.
Qed.

Lemma chop_fuel_enough n : forall w m, (length w <= n)%nat -> (length w <= m)%nat -> chop_fuel n w = chop_fuel m w.
Proof.
  induction n as [|n IH]; intros w m Hn Hm; [destruct w; [by destruct m|simpl in Hn; lia]|].
  destruct w as [|c w]; [by destruct m|]. destruct m as [|m]; [simpl in Hm; lia|]. cbn [chop_fuel]. f_equal.
  apply IH; rewrite length_drop; cbn [length] in *; unfold VFS_NAME_MAX; lia.
Qed.

Lemma chop_cons w : w <> [] -> chop w = take (VFS_NAME_MAX - 1) w :: chop (drop (VFS_NAME_MAX - 1) w).
Proof.
  intros Hw. unfold chop at 1. destruct w as [|c w]; [done|]. cbn [chop_fuel length]. f_equal.
  apply chop_fuel_enough; [rewrite length_drop; cbn [length]; unfold VFS_NAME_MAX; lia|done].
Qed.

Lemma chop_short w : w <> [] -> (length w < VFS_NAME_MAX)%nat -> chop w = [w].
Proof. intros Hz Hl. unfold VFS_NAME_MAX in *. rewrite chop_cons by done. unfold VFS_NAME_MAX. by rewrite take_ge, drop_ge by lia. Qed.

Lemma split_nonempty p : split p <> [].
Proof. destruct p as [|c p]; [done|]. simpl. destruct (c =? SLASH); [done|]. by destruct (split p). Qed.

Lemma split_app p q : split (p ++ SLASH :: q) = split p ++ split q.
Proof.
  induction p as [|c p IH]; [done|]. simpl. destruct (c =? SLASH); [by rewrite IH|]. rewrite IH.
  pose proof (split_nonempty p). by destruct (split p).
Qed.

Lemma lookups_app p q : lookups (p ++ SLASH :: q) = lookups p ++ lookups q.
Proof. unfold lookups, names. by rewrite split_app, filter_app, bind_app. Qed.

Lemma lookups_leaf w : w <> [] -> SLASH ∉ w -> (length w < VFS_NAME_MAX)%nat -> lookups w = [w].
Proof.
  intros Hz Hw Hl. unfold lookups. rewrite <- (app_nil_r w), names_word by (done || by left). cbn. rewrite app_nil_r. by rewrite chop_short, app_nil_r by done.
Qed.

Lemma lookups_short p : Forall (fun w => (length w < VFS_NAME_MAX)%nat) (names p) -> lookups p = names p.
Proof.
  unfold lookups. assert (Hz : Forall (fun w => w <> []) (names p)) by (apply Forall_forall; intros w Hw; by apply list_elem_of_filter in Hw as [? _]).
  induction Hz as [|w ws Hw Hws IH]; intros Hl; [done|]. apply Forall_cons in Hl as [Hl Hls]. cbn [mbind list_bind]. by rewrite chop_short, IH.
Qed.

(** One step of the walk takes the next name, or the next piece of it. *)
Lemma component_lookups c p : c <> SLASH ->
  let '(name, rest) := component (VFS_NAME_MAX - 1) (c :: p) in
  lookups (c :: p) = name :: lookups (skip_slashes rest) /\ (length (skip_slashes rest) <= length p)%nat.
Proof.
  intros Hc. destruct (word_split (c :: p)) as (w & tail & E & Hw & Ht & Hne). specialize (Hne c p eq_refl Hc).
  rewrite E, component_word by done. unfold lookups. rewrite names_word, names_skip by done. cbn [mbind list_bind]. rewrite chop_cons by done.
  assert (Hn : (0 < VFS_NAME_MAX - 1)%nat) by (unfold VFS_NAME_MAX; lia). revert Hn. generalize (VFS_NAME_MAX - 1)%nat. intros n Hn.
  assert (Hskip : forall q, (length (skip_slashes q) <= length q)%nat).
  { induction q as [|a q IH]; [done|]. simpl. destruct (a =? SLASH); simpl; lia. }
  split.
  - destruct (decide (drop n w = [])) as [Hd|Hd]; [by rewrite Hd|].
    rewrite names_word; [done|done| |done]. intros Hin. apply Hw. rewrite <- (take_drop n w). set_solver.
  - etrans; [apply Hskip|]. apply (f_equal length) in E. rewrite length_app in *. rewrite length_drop. destruct w; [done|].
    cbn [length] in *. lia.
Qed.

(** ** From node to node *)

(** The node that a list of names leads to, 0 when a name is missing. *)
Fixpoint follow (m : gmap Z obj) (cur : Z) (ns : list (list Z)) : Z :=
  match ns with
  | [] => cur
  | n :: ns' => match child m cur n with Some next => follow m next ns' | None => 0 end
  end.

Lemma follow_vnode m ns : forall cur, typed m -> is_vnode m cur -> follow m cur ns = 0 \/ is_vnode m (follow m cur ns).
Proof.
  induction ns as [|n ns IH]; intros cur Ht Hc; simpl; [by right|]. destruct (child m cur n) as [next|] eqn:E; [|by left].
  apply IH; [done|]. unfold child in E. destruct (dir_of (size m) m cur) as [[[x ino] es]|] eqn:Ed; [|done]. apply dir_of_dir in Ed as Hd.
  destruct (typed_dir m cur x Ht (da_vnode _ _ _ _ _ Hd) (da_ops _ _ _ _ _ Hd) (da_type _ _ _ _ _ Hd)) as (ino' & es' & Hd' & He).
  rewrite <- (child_dir m cur x ino es n Hd), (child_dir m cur x ino' es' n Hd') in E. by apply (named_vnode m n es').
Qed.

Lemma child_null m name : m !! 0 = None -> child m 0 name = None.
Proof. intros Hz. unfold child, dir_of. by rewrite Hz. Qed.

Lemma follow_null m ns : m !! 0 = None -> follow m 0 ns = 0.
Proof. intros Hz. destruct ns as [|n ns]; [done|]. simpl. by rewrite child_null. Qed.

Lemma follow_app m ns ns' : m !! 0 = None -> forall cur, follow m cur (ns ++ ns') = follow m (follow m cur ns) ns'.
Proof. intros Hz. induction ns as [|n ns IH]; intros cur; [done|]. simpl. destruct (child m cur n); [apply IH|]. by rewrite follow_null. Qed.

Lemma follow_kept m m' ns : children_kept m m' -> forall cur, follow m cur ns <> 0 -> follow m' cur ns = follow m cur ns.
Proof.
  intros Hk. induction ns as [|n ns IH]; intros cur; [done|]. simpl. destruct (child m cur n) as [w|] eqn:Ec; [|done].
  rewrite (Hk cur n w Ec). by apply IH.
Qed.

(** ** The mount of a path *)

(** [mp] is the path itself, or a prefix of it that ends at a slash. *)
Lemma covers_spec mp path : covers mp path = true <-> exists rest, path = (mp ++ rest) /\ (mp = [SLASH] \/ at_slash rest).
Proof.
  unfold covers. rewrite andb_true_iff, orb_true_iff, !bool_decide_eq_true. split.
  - intros [Hp Hb]. exists (drop (length mp) path). split; [rewrite <- (take_drop (length mp) path) at 1; by rewrite Hp|]. destruct Hb as [Hm|Hb]; [by left|right].
    destruct (drop (length mp) path) as [|c rest] eqn:Ed; [by left|right]. exists rest. f_equal.
    assert (El : path !! length mp = Some c).
    { rewrite <- (take_drop (length mp) path), Ed, lookup_app_r; rewrite length_take; [|lia].
      assert ((length mp < length path)%nat) by (apply (f_equal length) in Ed; rewrite length_drop in Ed; simpl in Ed; lia).
      rewrite Nat.min_l, Nat.sub_diag by lia. done. }
    rewrite El in Hb. by apply Z.eqb_eq.
  - intros (rest & -> & Hb). rewrite take_app_length. split; [done|]. destruct Hb as [->|[->|[r ->]]]; [by left|right..].
    + rewrite app_nil_r, lookup_ge_None_2 by done. done.
    + rewrite lookup_app_r, Nat.sub_diag by done. done.
Qed.

(** An active mount whose path covers the given one. *)
Definition mounts_at (fs : fstate) (path : list Z) (mt : mount_entry) : Prop :=
  mt ∈ mount_table fs /\ m_active mt = true /\ covers (m_path mt) path = true.

Lemma best_mount_spec path t : forall best n, (forall b, best = Some b -> length (m_path b) = n) -> (best = None -> n = 0%nat) ->
  match best_mount t path best n with
  | Some mt => (best = Some mt \/ mt ∈ t /\ m_active mt = true /\ covers (m_path mt) path = true) /\ (n <= length (m_path mt))%nat /\
      forall mt', mt' ∈ t -> m_active mt' = true -> covers (m_path mt') path = true -> (length (m_path mt') <= length (m_path mt))%nat
  | None => best = None /\ forall mt', mt' ∈ t -> m_active mt' = true -> covers (m_path mt') path = true -> m_path mt' = []
  end.
Proof.
  induction t as [|mt t IH]; intros best n Hb Hn; cbn [best_mount].
  { destruct best as [b|]; [|split; [done|set_solver]]. split; [by left|]. split; [by rewrite (Hb b)|set_solver]. }
  destruct (m_active mt && covers (m_path mt) path && (n <? length (m_path mt))%nat) eqn:Ec.
  - apply andb_prop in Ec as [[Ea Ecov]%andb_prop El%Nat.ltb_lt].
    specialize (IH (Some mt) (length (m_path mt)) ltac:(by intros b [= <-]) ltac:(done)).
    destruct (best_mount t path (Some mt) (length (m_path mt))) as [b|]; [|by destruct IH]. destruct IH as ([[= <-]|IH1] & IH2 & IH3).
    + split; [right; split; [set_solver|done]|]. split; [lia|]. intros mt' [->|Hin]%elem_of_cons ? ?; [done|by apply IH3].
    + split; [right; split; [set_solver|by apply IH1]|]. split; [lia|]. intros mt' [->|Hin]%elem_of_cons ? ?; [done|by apply IH3].
  - assert (Hmt : m_active mt = true -> covers (m_path mt) path = true -> (length (m_path mt) <= n)%nat).
    { intros Ha Hc. rewrite Ha, Hc in Ec. simpl in Ec. apply Nat.ltb_ge in Ec. lia. }
    specialize (IH best n Hb Hn). destruct (best_mount t path best n) as [b|].
    + destruct IH as (IH1 & IH2 & IH3). split; [destruct IH1 as [|[? ?]]; [by left|right; split; [set_solver|done]]|]. split; [done|].
      intros mt' [->|Hin]%elem_of_cons Ha Hc; [pose proof (Hmt Ha Hc); lia|by apply IH3].
    + destruct IH as [IH1 IH2]. split; [done|]. intros mt' [->|Hin]%elem_of_cons Ha Hc; [|by apply IH2].
      specialize (Hmt Ha Hc). rewrite (Hn IH1) in Hmt. destruct (m_path mt); [done|simpl in Hmt; lia].
Qed.

(** [find_mount] finds the covering mount with the longest path. *)
Lemma find_mount_longest fs path :
  match find_mount fs path with
  | Some mt => mounts_at fs path mt /\ forall mt', mounts_at fs path mt' -> (length (m_path mt') <= length (m_path mt))%nat
  | None => forall mt', mounts_at fs path mt' -> m_path mt' = []
  end.
Proof.
  pose proof (best_mount_spec path (mount_table fs) None 0 ltac:(done) ltac:(done)) as Hs. unfold find_mount.
  destruct (best_mount (mount_table fs) path None 0) as [mt|].
  - destruct Hs as ([?|Hm] & _ & Hl); [done|]. split; [done|]. intros mt' (H1 & H2 & H3). by apply Hl.
  - destruct Hs as [_ Hs]. intros mt' (H1 & H2 & H3). by apply Hs.
Qed.

(** ** Resolving *)

Definition mounts_typed (fs : fstate) (m : gmap Z obj) : Prop :=
  forall mt, mt ∈ mount_table fs -> m_active mt = true -> is_vnode m (m_root mt).

(** The reference: the longest mount that covers the path, then the names. *)
Definition resolve (fs : fstate) (path : list Z) : Z :=
  match path with
  | c :: _ =>
      if c =? SLASH then
        match find_mount fs path with
        | Some mt => follow (objs fs) (m_root mt) (lookups (drop (length (m_path mt)) path))
        | None => 0
        end
      else 0
  | [] => 0
  end.

Lemma resolve_kept fs m' path : children_kept (objs fs) m' -> resolve fs path <> 0 -> resolve (set_objs m' fs) path = resolve fs path.
Proof.
  intros Hk. unfold resolve. destruct path as [|c path]; [done|]. destruct (c =? SLASH); [|done].
  change (find_mount (set_objs m' fs)) with (find_mount fs). destruct (find_mount fs (c :: path)) as [mt|]; [|done]. by apply follow_kept.
Qed.

(** ** The parent of a path *)

(** The path of an entry [leaf] of [parent]; the root's is the slash alone. *)
Definition dir_path (parent : list Z) : list Z := match parent with [] => [SLASH] | _ => parent end.

Lemma last_slash_app p q i acc : last_slash (p ++ q) i acc = last_slash q (i + length p) (last_slash p i acc).
Proof.
  revert i acc. induction p as [|c p IH]; intros i acc; simpl; [by rewrite Nat.add_0_r|]. rewrite IH. f_equal. lia.
Qed.

Lemma last_slash_none q i acc : SLASH ∉ q -> last_slash q i acc = acc.
Proof.
  revert i acc. induction q as [|c q IH]; intros i acc Hq; [done|]. apply not_elem_of_cons in Hq as [Hc Hq]. simpl.
  rewrite (proj2 (Z.eqb_neq c SLASH)) by congruence. by apply IH.
Qed.

Lemma split_path_leaf parent leaf : SLASH ∉ leaf -> (length (parent ++ SLASH :: leaf) < VFS_PATH_MAX)%nat ->
  split_path (parent ++ SLASH :: leaf) = Some (dir_path parent, leaf).
Proof.
  intros Hs Hl. unfold split_path. rewrite (take_ge (parent ++ _)) by lia. rewrite last_slash_app. cbn [last_slash]. rewrite Z.eqb_refl, last_slash_none by done.
  cbn [plus]. rewrite take_app_length. replace (drop _ _) with leaf.
  - destruct parent; done.
  - rewrite cons_middle, app_assoc. symmetry. apply drop_app_length'. rewrite length_app. simpl. lia.
Qed.

(** A mount covers a path when it covers its parent, or is the path itself. *)
Lemma covers_leaf mp parent leaf : mp <> [] -> mp <> (parent ++ SLASH :: leaf) -> SLASH ∉ leaf -> leaf <> [] -> hd_error (parent ++ SLASH :: leaf) = Some SLASH ->
  covers mp (parent ++ SLASH :: leaf) = covers mp (dir_path parent).
Proof.
  intros Hz Hne Hs Hl Hh. apply eq_bool_prop_intro. rewrite !Is_true_true, !covers_spec. split.
  - intros (rest & E & Hb). destruct Hb as [->|Hb].
    + destruct parent as [|c parent]; [exists []; split; [done|by left]|]. injection Hh as ->. exists parent. split; [done|by left].
    + destruct Hb as [->|[r ->]]; [rewrite app_nil_r in E; congruence|]. destruct (decide (length mp <= length parent)%nat) as [Hle|Hlt].
      * assert (Hp : parent = mp ++ drop (length mp) parent).
        { rewrite <- (take_drop (length mp) parent) at 1. f_equal. apply (f_equal (take (length mp))) in E. by rewrite take_app_le, take_app_length in E. }
        destruct parent as [|c parent]; [destruct mp; [done|simpl in Hle; lia]|]. exists (drop (length mp) (c :: parent)). split; [done|]. right.
        rewrite Hp, <- app_assoc in E. apply app_inv_head in E. destruct (drop (length mp) (c :: parent)) as [|a t]; [by left|]. injection E as -> _. right. by exists t.
      * exfalso. apply Hs. apply (f_equal (drop (S (length parent)))) in E. rewrite cons_middle, app_assoc, drop_app_length' in E by (rewrite length_app; simpl; lia).
        rewrite E, drop_app_le by lia. apply elem_of_app. right. by left.
  - intros (rest & E & Hb). destruct parent as [|c parent].
    + destruct mp as [|a mp]; [done|]. injection E as -> [-> ->]%eq_sym%app_nil. exists leaf. split; [done|by left].
    + exists (rest ++ SLASH :: leaf). cbn [dir_path] in E. rewrite E, <- app_assoc. split; [done|]. destruct Hb as [->|[->|[r ->]]]; [by left|right..]; right; by eexists.
Qed.

Lemma best_mount_same t p q : (forall mt, mt ∈ t -> m_active mt = true -> m_path mt <> [] -> covers (m_path mt) p = covers (m_path mt) q) ->
  forall best n, best_mount t p best n = best_mount t q best n.
Proof.
  induction t as [|mt t IH]; intros Hc best n; [done|]. cbn [best_mount].
  assert (Hsame : m_active mt && covers (m_path mt) p && (n <? length (m_path mt))%nat = m_active mt && covers (m_path mt) q && (n <? length (m_path mt))%nat).
  { destruct (m_active mt) eqn:Ea; [|done]. destruct (decide (m_path mt = [])) as [->|Hz]; [by rewrite !andb_false_r|]. by rewrite (Hc mt); [|left|..]. }
  rewrite Hsame. clear Hsame. destruct (_ && _); apply IH; intros mt' Hin; by apply Hc; right.
Qed.

(** No file system is mounted at [path]. *)
Definition unmounted (fs : fstate) (path : list Z) : Prop := forall mt, mt ∈ mount_table fs -> m_active mt = true -> m_path mt <> path.

Lemma missing_unmounted fs path : (objs fs) !! 0 = None -> mounts_typed fs (objs fs) -> hd_error path = Some SLASH -> resolve fs path = 0 -> unmounted fs path.
Proof.
  intros Hz Hm Hh Hr mt Hin Ha E. destruct path as [|c path]; [done|]. injection Hh as ->. unfold resolve in Hr. rewrite Z.eqb_refl in Hr.
  assert (Hc : mounts_at fs (SLASH :: path) mt).
  { split; [done|]. split; [done|]. rewrite E. apply covers_spec. exists []. rewrite app_nil_r. split; [done|]. right. by left. }
  pose proof (find_mount_longest fs (SLASH :: path)) as Hf. destruct (find_mount fs (SLASH :: path)) as [b|]; [|rewrite (Hf mt Hc) in E; done].
  destruct Hf as [(Hb & Hba & Hbc) Hlen]. specialize (Hlen mt Hc). rewrite E in Hlen. apply covers_spec in Hbc as (rest & Er & _).
  rewrite drop_ge in Hr by done. simpl in Hr. destruct (Hm b Hb Hba) as [y Hy]. rewrite Hr in Hy. congruence.
Qed.

(** A path leads through its parent. *)
Lemma resolve_leaf fs parent leaf (path := parent ++ SLASH :: leaf) : (objs fs) !! 0 = None -> unmounted fs path ->
  hd_error path = Some SLASH -> leaf <> [] -> SLASH ∉ leaf -> (length leaf < VFS_NAME_MAX)%nat ->
  resolve fs path = default 0 (child (objs fs) (resolve fs (dir_path parent)) leaf).
Proof.
  intros Hz Hun Hh Hl Hs Hlen. assert (Hf : find_mount fs path = find_mount fs (dir_path parent)).
  { apply best_mount_same. intros mt Hin Ha Hne. apply covers_leaf; try done. by apply Hun. }
  assert (Hstep : forall cur ns, default 0 (child (objs fs) (follow (objs fs) cur ns) leaf) = follow (objs fs) cur (ns ++ [leaf])).
  { intros cur ns. rewrite follow_app by done. simpl. by destruct (child _ _ leaf). }
  assert (Hd : hd_error (dir_path parent) = Some SLASH) by (by destruct parent).
  unfold resolve. rewrite Hf. destruct path as [|c path'] eqn:Ep; [by destruct parent|]. injection Hh as ->. rewrite <- Ep in *.
  destruct (dir_path parent) as [|a dp] eqn:Ed; [done|]. injection Hd as ->. rewrite Z.eqb_refl.
  destruct (find_mount fs (SLASH :: dp)) as [mt|] eqn:Em; [|simpl; by rewrite child_null].
  rewrite Hstep. f_equal. pose proof (find_mount_longest fs (SLASH :: dp)) as Hlg. rewrite Em in Hlg. destruct Hlg as [(_ & _ & Hcov) _].
  apply covers_spec in Hcov as (rest & Er & _). rewrite Er, drop_app_length. unfold path in *. destruct parent as [|b parent].
  - injection Ed as <-. destruct (m_path mt) as [|x [|]]; simpl in Er; [|injection Er as -> <-|done].
    + subst rest. simpl. unfold lookups at 1. rewrite names_slash. fold (lookups leaf). by rewrite lookups_leaf.
    + simpl. by rewrite lookups_leaf.
  - simpl dir_path in Ed. rewrite Ed, Er, <- app_assoc, drop_app_length, lookups_app, (lookups_leaf leaf) by done. done.
Qed.

Section path.
Context {H : Type} `{!Heap H} `{!HeapLaws H}.
Implicit Types (s : kstate H fstate) (m : gmap Z obj).

Lemma walk_run s h m : typed m -> forall fuel cur rest, is_vnode m cur -> (length (skip_slashes rest) <= fuel)%nat ->
  walk fuel cur (skip_slashes rest) (st s h m) = Ok (follow m cur (lookups rest), st s h m).
Proof.
  intros Ht. induction fuel as [|fuel IH]; intros cur rest Hc Hl;
    (assert (El : lookups (skip_slashes rest) = lookups rest) by (unfold lookups; by rewrite names_skip)); rewrite <- El; clear El;
    (destruct (skip_slashes rest) as [|c p] eqn:Er; [done|]); [simpl in Hl; lia|].
  assert (Hs : c <> SLASH).
  { clear -Er. induction rest as [|a rest IH]; [done|]. simpl in Er. destruct (Z.eqb_spec a SLASH); [by apply IH|]. by injection Er as -> _. }
  pose proof (component_lookups c p Hs) as Hcomp. cbn [walk]. destruct (component (VFS_NAME_MAX - 1) (c :: p)) as [name r]. destruct Hcomp as [-> Hlen].
  destruct (ops_lookup_run s h m cur name Ht Hc) as [E Hv]. rewrite (bind_ok _ _ _ _ _ E). cbn [follow].
  destruct (child m cur name) as [next|]; [|done]. specialize (Hv next eq_refl). destruct Hv as [y Hy] eqn:Ey.
  rewrite (proj2 (Z.eqb_neq next 0)) by (by apply (typed_nonzero m next (OVnode y))). rewrite IH; [|by exists y|simpl in Hl; lia].
  unfold lookups. by rewrite names_skip.
Qed.

Lemma vfs_resolve_run s h m path : typed m -> mounts_typed (k_files s) m ->
  vfs_resolve path (st s h m) = Ok (resolve (set_objs m (k_files s)) path, st s h m).
Proof.
  intros Ht Hm. unfold vfs_resolve, resolve. destruct path as [|c path]; [done|]. destruct (c =? SLASH); [|done]. cbn [negb].
  rewrite (bind_ok _ _ _ (set_objs m (k_files s)) (st s h m)) by done. set (fs := set_objs m (k_files s)).
  pose proof (find_mount_longest fs (c :: path)) as Hf. destruct (find_mount fs (c :: path)) as [mt|]; [|done]. destruct Hf as [(Hin & Ha & _) _].
  apply (walk_run s h m Ht); [by apply (Hm mt)|].
  assert (Hskip : forall q, (length (skip_slashes q) <= length q)%nat).
  { induction q as [|a q IH]; [done|]. simpl. destruct (a =? SLASH); simpl; lia. }
  etrans; [apply Hskip|]. rewrite length_drop. lia.
Qed.

Lemma resolve_vnode fs path : typed (objs fs) -> mounts_typed fs (objs fs) -> resolve fs path = 0 \/ is_vnode (objs fs) (resolve fs path).
Proof.
  intros Ht Hm. unfold resolve. destruct path as [|c path]; [by left|]. destruct (c =? SLASH); [|by left].
  pose proof (find_mount_longest fs (c :: path)) as Hf. destruct (find_mount fs (c :: path)) as [mt|]; [|by left]. destruct Hf as [(Hin & Ha & _) _].
  apply follow_vnode; [done|]. by apply Hm.
Qed.

Lemma parent_dir_found s h m parent x : typed m -> mounts_typed (k_files s) m -> m !! resolve (set_objs m (k_files s)) parent = Some (OVnode x) ->
  v_type x = VNODE_DIR -> parent_dir parent (st s h m) = Ok (resolve (set_objs m (k_files s)) parent, st s h m).
Proof.
  intros Ht Hm Hx Hd. unfold parent_dir. rewrite (bind_ok _ _ _ _ _ (vfs_resolve_run s h m parent Ht Hm)).
  rewrite (proj2 (Z.eqb_neq _ 0)) by (by apply (typed_nonzero m _ (OVnode x))). run_load Hx. by rewrite Hd, Z.eqb_refl.
Qed.

(** ** Opening and making directories in a typed store *)

Lemma parent_dir_run s h m parent : typed m -> mounts_typed (k_files s) m ->
  exists dir, parent_dir parent (st s h m) = Ok (dir, st s h m) /\
    (dir = 0 \/ dir = resolve (set_objs m (k_files s)) parent /\ exists x, m !! dir = Some (OVnode x) /\ v_type x = VNODE_DIR).
Proof.
  intros Ht Hm. unfold parent_dir. rewrite (bind_ok _ _ _ _ _ (vfs_resolve_run s h m parent Ht Hm)).
  destruct (resolve_vnode (set_objs m (k_files s)) parent Ht Hm) as [->|[x Hx]]; [by exists 0; split; [|left]|].
  set (dir := resolve _ parent) in *. destruct (dir =? 0); [exists 0; split; [done|by left]|]. run_load Hx.
  destruct (Z.eqb_spec (v_type x) VNODE_DIR) as [Ed|Ed]; [|exists 0; split; [done|by left]]. exists dir. split; [done|]. right. split; [done|]. by exists x.
Qed.

Lemma ops_create_typed s h m A dir x name type : healthy h m A -> typed m -> m !! dir = Some (OVnode x) -> v_type x = VNODE_DIR ->
  type = VNODE_FILE \/ type = VNODE_DIR ->
  runs (ops_create dir name type) (st s h m) (fun r s' => exists m', still_typed s m A s' m' /\ (forall v, r = Some v -> is_vnode m' v) /\ frame m m').
Proof.
  intros Hh Ht Hx Hd Htype. unfold ops_create. eapply runs_load; [exact Hx|done|]. destruct (decide (v_ops x = ramfs_ops)) as [Ho|Ho].
  - rewrite Ho. destruct (typed_dir m dir x Ht Hx Ho Hd) as (ino & es & Hdir & He). by apply (create_typed s h m A dir x ino es).
  - eapply (runs_ok _ _ None (st s h m)); [by destruct (v_ops x)|]. exists m. split; [exists h; by split_and!|]. by split.
Qed.

Lemma still_typed_refl s h m A : healthy h m A -> typed m -> still_typed s m A (st s h m) m.
Proof. intros Hh Ht. exists h. by split_and!. Qed.

(** What an open returns: 0, or a new file on some vnode. *)
Definition open_result m m' (f : Z) : Prop := frame m m' /\ (f = 0 \/ (exists v, opened m' v f) /\ forall y, m !! f <> Some (OFile y)).

Lemma vfs_open_typed s h m A path flags : healthy h m A -> typed m -> mounts_typed (k_files s) m ->
  runs (vfs_open path flags) (st s h m) (fun f s' => exists m', still_typed s m A s' m' /\ open_result m m' f).
Proof.
  intros Hh Ht Hm. unfold vfs_open. eapply runs_step; [by apply vfs_resolve_run|].
  assert (Hnone : runs (mret 0) (st s h m) (fun f s' => exists m', still_typed s m A s' m' /\ open_result m m' f)).
  { eapply runs_ok; [reflexivity|]. exists m. split; [by apply still_typed_refl|]. split; [done|by left]. }
  assert (Hopen : forall h' m' v, healthy h' m' A -> typed m' -> (forall p, is_vnode m p -> is_vnode m' p) -> frame m m' -> is_vnode m' v ->
    runs (vfs_open_vnode_op v flags) (st s h' m') (fun f s' => exists m', still_typed s m A s' m' /\ open_result m m' f)).
  { intros h' m' v Hh' Ht' Hk' Hfr [x Hv]. eapply runs_weaken; [by apply (open_vnode_typed s h' m' A v x)|].
    intros f s' (m2 & x2 & (h2 & -> & H2 & T2 & K2) & Hf & _ & _ & _ & F2 & N2).
    exists m2. split; [exists h2; split; [done|]; split; [done|]; split; [done|]; auto|]. split; [by etrans|]. destruct Hf as [->|Hf]; [by left|right].
    split; [by exists v|]. intros y Hy. apply Hfr in Hy. destruct Hf as (z & Hz & _). by apply (N2 (typed_nonzero m2 f _ T2 Hz) y). }
  destruct (resolve_vnode (set_objs m (k_files s)) path Ht Hm) as [E|Hv].
  2: { unfold truthy. destruct (Z.eqb_spec (resolve (set_objs m (k_files s)) path) 0) as [E|E]; [|by apply Hopen].
       rewrite E in Hv. destruct Hv as [y Hy]. by destruct (typed_nonzero _ _ _ Ht Hy). }
  rewrite E. cbn [truthy negb Z.eqb]. destruct (negb (truthy (Z.land flags O_CREAT))); [done|].
  destruct (split_path path) as [[parent filename]|]; [|done]. destruct (parent_dir_run s h m parent Ht Hm) as (dir & Ep & Hdir).
  eapply runs_step; [exact Ep|]. destruct Hdir as [->|(_ & x & Hx & Hd)]; [done|].
  rewrite (proj2 (Z.eqb_neq dir 0)) by (by apply (typed_nonzero m dir (OVnode x))).
  eapply runs_bind; [apply (ops_create_typed s h m A dir x filename); try done; by left|].
  intros [v|] s' (m' & (h' & -> & H' & T' & K') & Hv & Hfr); [by apply Hopen; [..|apply Hv]|].
  eapply runs_ok; [reflexivity|]. exists m'. split; [exists h'; by split_and!|]. split; [done|by left].
Qed.

Lemma vfs_mkdir_typed s h m A path : healthy h m A -> typed m -> mounts_typed (k_files s) m ->
  runs (vfs_mkdir path) (st s h m) (fun r s' => exists m', still_typed s m A s' m' /\ (r = 0 \/ r = -1) /\ frame m m').
Proof.
  intros Hh Ht Hm. unfold vfs_mkdir.
  assert (Hnone : runs (mret (-1)) (st s h m) (fun r s' => exists m', still_typed s m A s' m' /\ (r = 0 \/ r = -1) /\ frame m m')).
  { eapply runs_ok; [reflexivity|]. exists m. split; [by apply still_typed_refl|]. split; [by right|done]. }
  destruct path as [|c path]; [done|]. destruct (negb (c =? SLASH)); [done|]. destruct (split_path (c :: path)) as [[parent dirname]|]; [|done].
  destruct (parent_dir_run s h m parent Ht Hm) as (dir & Ep & Hdir). eapply runs_step; [exact Ep|]. destruct Hdir as [->|(_ & x & Hx & Hd)]; [done|].
  rewrite (proj2 (Z.eqb_neq dir 0)) by (by apply (typed_nonzero m dir (OVnode x))).
  eapply runs_bind; [apply (ops_create_typed s h m A dir x dirname VNODE_DIR); try done; by right|].
  intros r s' (m' & Hst & _ & Hfr). eapply runs_ok; [reflexivity|]. exists m'. split; [done|]. split; [|done]. destruct r; [by left|by right].
Qed.

(** ** Starting the file layer *)

Lemma register_dev_typed s h m A path v : healthy h m A -> typed m -> mounts_typed (k_files s) m -> is_vnode m v ->
  runs (ramfs_register_dev path v) (st s h m) (fun _ s' => exists m', still_typed s m A s' m' /\ frame m m').
Proof.
  intros Hh Ht Hm Hv. unfold ramfs_register_dev.
  assert (Hnone : runs (mret (-1)) (st s h m) (fun (_ : Z) s' => exists m', still_typed s m A s' m' /\ frame m m')).
  { eapply runs_ok; [reflexivity|]. exists m. split; [by apply still_typed_refl|done]. }
  destruct path as [|c path]; [done|]. destruct (negb (c =? SLASH)); [done|]. destruct (split_path (c :: path)) as [[parent leaf]|]; [|done].
  destruct (parent_dir_run s h m parent Ht Hm) as (dir & Ep & Hdir). eapply runs_step; [exact Ep|]. destruct Hdir as [->|(_ & x & Hx & Hd)]; [done|].
  rewrite (proj2 (Z.eqb_neq dir 0)) by (by apply (typed_nonzero m dir (OVnode x))).
  destruct (typed_dir m dir x Ht Hx (typed_dir_ops m dir x Ht Hx Hd) Hd) as (ino & es & Hdir & He).
  eapply runs_weaken; [by apply (ramfs_add_dirent_runs s h m A dir x ino es)|].
  intros r s' [(_ & h' & -> & H')|(_ & d & h' & Hdz & Hnd & -> & H')]; [exists m; split; [exists h'; by split_and!|done]|].
  eexists. split.
  - exists h'. split; [done|]. split; [done|]. split; [by apply (typed_with_entry m dir x ino es)|].
    intros p [y Hp]. exists y. by apply vnodes_with_entry; [apply Hdir|..].
  - unfold with_entry. etrans; [apply (frame_insert m d (ODirent (Dirent (take (VFS_NAME_MAX - 1) leaf) v (i_children ino)))); by rewrite Hnd|].
    apply frame_insert. pose proof (da_inode _ _ _ _ _ Hdir) as Hi. rewrite lookup_insert_ne by congruence. by rewrite Hi.
Qed.

Lemma device_typed s h m A ops : healthy h m A -> typed m -> ops ∈ [stdin_ops; stdout_ops; stderr_ops] ->
  runs (vnode_alloc VNODE_DEV ops 0) (st s h m) (fun p s' => exists m', still_typed s m A s' m' /\ (p = 0 \/ is_vnode m' p) /\ (no_pipes m -> no_pipes m')).
Proof.
  intros Hh Ht Ho. eapply runs_weaken; [by apply (new_obj_runs s h m A)|].
  intros p s' [(Hp & h' & -> & H')|(Hz & Hn & h' & -> & H')]; [exists m; split; [exists h'; by split_and!|split; [by left|done]]|].
  exists (<[p := OVnode (Vnode VNODE_DEV 0 0 ops 0)]> m). split; [|split; [right; eexists; apply lookup_insert_eq|]].
  2: { intros Hnp q x. rewrite lookup_insert. case_decide; [|by apply Hnp]. intros [= <-]. cbn [v_ops].
       repeat (apply elem_of_cons in Ho as [->|Ho]; [reflexivity|]). by apply elem_of_nil in Ho. }
  exists h'. split; [done|]. split; [done|]. split.
  - apply typed_fresh; [done..|]. unfold node_typed. cbn [v_ops v_type]. repeat (apply elem_of_cons in Ho as [->|Ho]; [done|]). by apply elem_of_nil in Ho.
  - intros q [y Hq]. exists y. by apply vnodes_fresh.
Qed.

(** The file layer at rest: the heap holds its objects, they are well typed,
    and the mounts and devices are vnodes. *)
Record files_ok s (A : gmap Z Z) : Prop := {
  fo_heap : healthy (k_heap s) (objs (k_files s)) A;
  fo_typed : typed (objs (k_files s));
  fo_mounts : mounts_typed (k_files s) (objs (k_files s));
  fo_devices : Forall (fun v => v = 0 \/ is_vnode (objs (k_files s)) v) (devices (k_files s))
}.

Lemma files_ok_still s m A s' m' : mounts_typed (k_files s) m -> Forall (fun v => v = 0 \/ is_vnode m v) (devices (k_files s)) ->
  still_typed s m A s' m' -> files_ok s' A.
Proof.
  intros Hm Hd (h' & -> & Hh & Ht & Hk). split; [done|done| |].
  - intros mt Hin Ha. by apply Hk, (Hm mt).
  - eapply Forall_impl; [exact Hd|]. intros v [?|?]; [by left|right; by apply Hk].
Qed.

Lemma typed_empty : typed ∅.
Proof. by split. Qed.

Lemma initial_inactive mt : mt ∈ mount_table initial_fstate -> m_active mt = false.
Proof. intros Hin. by repeat (apply elem_of_cons in Hin as [->|Hin]; [done|]); apply elem_of_nil in Hin. Qed.

Lemma ramfs_init_typed h A (s := zeroed h initial_fstate) :
  healthy h ∅ A -> runs ramfs_init (st s h ∅) (fun _ s' => files_ok s' A /\ no_pipes (objs (k_files s')) /\ devices (k_files s') = [0; 0; 0]).
Proof.
  intros Hh. assert (Hzero : forall m, Forall (fun v => v = 0 \/ is_vnode m v) [0; 0; 0]) by (intros m; repeat constructor; by left).
  unfold ramfs_init. eapply runs_bind; [by apply (ramfs_new_vnode_runs s h ∅ A)|].
  intros root s' [(-> & h' & -> & H')|(Hr & Hn & i & h' & Hni & Hiv & -> & H')].
  - eapply runs_ok; [reflexivity|]. split; [|done]. split; [done|exact typed_empty| |apply Hzero].
    intros mt Hin Ha. by rewrite (initial_inactive mt Hin) in Ha.
  - set (fs1 := set_ramfs_root root initial_fstate). set (s1 := set_k_files fs1 s). set (m1 := with_node ∅ i root VNODE_DIR).
    eapply (runs_step _ _ _ tt (st s1 h' m1)); [reflexivity|]. rewrite (proj2 (Z.eqb_neq root 0)) by done.
    set (fs2 := set_mounts (<[0%nat := MountEntry [SLASH] root true]> (mount_table fs1)) 1 fs1).
    eapply (runs_step _ _ _ 0 (st (set_k_files fs2 s1) h' m1)).
    { unfold vfs_mount. rewrite (proj2 (Z.eqb_neq root 0)) by done. reflexivity. }
    eapply runs_ok; [reflexivity|]. split; [|split; [|done]].
    2: { intros v x. simpl. unfold m1, with_node. rewrite !lookup_insert. case_decide; [by intros [= <-]|]. by case_decide. }
    split; [done| | |apply Hzero].
    + apply typed_with_node; try done; [|by right]. apply (healthy_nonzero h' m1 A _ (OInode (Inode 0 0 0 0)) H').
      unfold m1, with_node. rewrite lookup_insert_ne by done. apply lookup_insert_eq.
    + intros mt Hin Ha. apply elem_of_cons in Hin as [->|Hin]; [eexists; apply lookup_insert_eq|].
      assert (Hin' : mt ∈ mount_table initial_fstate) by (apply elem_of_cons; by right). by rewrite (initial_inactive mt Hin') in Ha.
Qed.

Lemma devfs_init_typed s A : files_ok s A -> no_pipes (objs (k_files s)) -> devices (k_files s) = [0; 0; 0] ->
  runs devfs_init s (fun _ s' => files_ok s' A /\ no_pipes (objs (k_files s'))).
Proof.
  intros [Hh Ht Hm Hd] Hnp Hz. rewrite (st_self s). set (h := k_heap s) in *. set (m := objs (k_files s)) in *.
  unfold devfs_init. eapply runs_bind; [by apply (vfs_mkdir_typed s h m A)|]. intros r s1 (m1 & Hs1 & _ & Hfr1).
  apply (frame_no_pipes m m1) in Hnp; [|done].
  destruct (r <? 0); [eapply runs_ok; [done|]; split; [by apply (files_ok_still s m A s1 m1)|by destruct Hs1 as (h1 & -> & _)]|].
  destruct Hs1 as (h1 & -> & H1 & T1 & K1).
  eapply runs_bind; [apply (device_typed s h1 m1 A stdin_ops); [done|done|set_solver]|]. intros i s2 (m2 & (h2 & -> & H2 & T2 & K2) & D2 & N2).
  eapply runs_bind; [apply (device_typed s h2 m2 A stdout_ops); [done|done|set_solver]|]. intros o s3 (m3 & (h3 & -> & H3 & T3 & K3) & D3 & N3).
  eapply runs_bind; [apply (device_typed s h3 m3 A stderr_ops); [done|done|set_solver]|]. intros e s4 (m4 & (h4 & -> & H4 & T4 & K4) & D4 & N4).
  set (s5 := set_k_files (set_devices i o e (k_files s)) s). eapply (runs_step _ _ _ tt (st s5 h4 m4)); [reflexivity|].
  assert (Hm4 : mounts_typed (k_files s5) m4) by (intros mt Hin Ha; by apply K4, K3, K2, K1, (Hm mt)).
  assert (Hd4 : Forall (fun v => v = 0 \/ is_vnode m4 v) (devices (k_files s5))).
  { repeat apply Forall_cons_2; [..|by apply Forall_nil]; [destruct D2 as [?|?]; [by left|right; auto]|destruct D3 as [?|?]; [by left|right; auto]|done]. }
  assert (Hend : forall s' m', still_typed s5 m4 A s' m' -> frame m4 m' -> files_ok s' A /\ no_pipes (objs (k_files s'))).
  { intros s' m' Hst Hfr. split; [by apply (files_ok_still s5 m4 A s' m')|]. destruct Hst as (h' & -> & _). apply (frame_no_pipes m4); auto. }
  destruct (negb (truthy i) || negb (truthy o) || negb (truthy e)) eqn:Eb; [eapply runs_ok; [done|]; by apply (Hend _ m4); [apply still_typed_refl|]|].
  apply orb_false_elim in Eb as [[Ei Eo]%orb_false_elim Ee]. unfold truthy in Ei, Eo, Ee. rewrite negb_involutive in Ei, Eo, Ee.
  apply Z.eqb_neq in Ei, Eo, Ee. destruct D2 as [?|D2]; [done|]. destruct D3 as [?|D3]; [done|]. destruct D4 as [?|D4]; [done|].
  assert (Hnext : forall h' m' path v, healthy h' m' A -> typed m' -> (forall p, is_vnode m4 p -> is_vnode m' p) -> is_vnode m4 v -> frame m4 m' ->
    runs (ramfs_register_dev path v) (st s5 h' m') (fun _ s' => exists m', still_typed s5 m4 A s' m' /\ frame m4 m')).
  { intros h' m' path v H' T' K' Hv Hfr. eapply runs_weaken; [apply (register_dev_typed s5 h' m' A); [done|done| |by apply K']|].
    - intros mt Hin Ha. by apply K', (Hm4 mt).
    - intros _ s' (m2' & Hs' & Hfr'). exists m2'. split; [by apply (still_typed_trans s5 m4 A (st s5 h' m') m'); [exists h'|]|by etrans]. }
  eapply runs_bind; [apply (Hnext h4 m4); auto; done|]. intros _ s6 (m6 & (h6 & -> & H6 & T6 & K6) & F6).
  eapply runs_bind; [apply (Hnext h6 m6); auto|]. intros _ s7 (m7 & (h7 & -> & H7 & T7 & K7) & F7).
  eapply runs_bind; [apply (Hnext h7 m7); auto|]. intros _ s8 (m8 & Hs8 & F8). eapply runs_ok; [done|]. by apply (Hend _ m8).
Qed.

(** The file layer starts in a well-typed state. *)
Lemma start_files_typed h A :
  healthy h ∅ A -> runs (vfs_init ;; ramfs_init ;; devfs_init) (zeroed h initial_fstate) (fun _ s' => files_ok s' A /\ no_pipes (objs (k_files s'))).
Proof.
  intros Hh. eapply (runs_step _ _ _ tt (st (zeroed h initial_fstate) h ∅)); [reflexivity|].
  eapply runs_bind; [by apply (ramfs_init_typed h A)|]. intros [] s' (K & Hnp & Hz). by apply devfs_init_typed.
Qed.
(** ** Creating at a path *)

Lemma create_leaf_runs s h m A dir x name type : healthy h m A -> typed m -> m !! dir = Some (OVnode x) -> v_type x = VNODE_DIR ->
  child m dir name = None -> (length name < VFS_NAME_MAX)%nat -> type = VNODE_FILE \/ type = VNODE_DIR ->
  runs (ops_create dir name type) (st s h m) (fun r s' => exists m', still_typed s m A s' m' /\ children_kept m m' /\
    match r with
    | None => True
    | Some v => m !! v = None /\ (exists i, m' !! v = Some (OVnode (Vnode type 0 0 ramfs_ops i)) /\ m' !! i = Some (OInode (Inode 0 0 0 0))) /\
        child m' dir name = Some v
    end).
Proof.
  intros Hh Ht Hx Hd Hn Hl Htype. pose proof (typed_dir_ops m dir x Ht Hx Hd) as Ho. unfold ops_create. eapply runs_load; [exact Hx|done|]. rewrite Ho.
  destruct (typed_dir m dir x Ht Hx Ho Hd) as (ino & es & Hdir & He). rewrite (child_dir m dir x ino es name Hdir) in Hn.
  eapply runs_weaken; [by apply (ramfs_create_runs s h m A dir x ino es)|]. intros [v|] s' K; rewrite Hn in K.
  - destruct K as (i & d & h' & Hv & Hdz & Hnv & Hni & Hiv & Hnd & -> & Hh').
    destruct (created_typed h' m A dir x ino es name type i v d) as (T2 & V2 & K2 & _); try done.
    destruct (created_children m dir x ino es name type i v d) as (C2 & E2); try done.
    eexists. split; [exists h'; by split_and!|]. split; [done|]. split; [done|]. split; [|done]. exists i. split; [done|].
    pose proof (da_inode _ _ _ _ _ Hdir) as Ei. assert (v_data x <> i) by congruence.
    assert (Hi1 : with_node m i v type !! i = Some (OInode (Inode 0 0 0 0))) by (unfold with_node; rewrite lookup_insert_ne by done; apply lookup_insert_eq).
    unfold with_entry. by rewrite !lookup_insert_ne by congruence.
  - destruct K as (h' & -> & Hh'). exists m. split; [exists h'; by split_and!|]. split; [|done]. by intros cur n w.
Qed.

(** A path of the form [parent/leaf], absolute and not too long. *)
Record leaf_path (parent leaf : list Z) : Prop := {
  lp_slash : hd_error (parent ++ SLASH :: leaf) = Some SLASH;
  lp_length : (length (parent ++ SLASH :: leaf) < VFS_PATH_MAX)%nat;
  lp_leaf : leaf <> [];
  lp_name : SLASH ∉ leaf;
  lp_name_length : (length leaf < VFS_NAME_MAX)%nat
}.

Lemma vfs_mkdir_slash path : hd_error path = Some SLASH ->
  vfs_mkdir path = (match split_path path with
    | None => mret (-1)
    | Some (parent, dirname) =>
        dir ← parent_dir parent;
        if dir =? 0 then mret (-1) else newdir ← ops_mkdir dir dirname; mret (match newdir with None => -1 | Some _ => 0 end)
    end : M (kstate H fstate) Z).
Proof. intros Hh. unfold vfs_mkdir. destruct path as [|c path]; [done|]. injection Hh as ->. by rewrite Z.eqb_refl. Qed.

Lemma set_objs_self fs : set_objs (objs fs) fs = fs.
Proof. by destruct fs. Qed.

Section leaf.
Context (s : kstate H fstate) (A : gmap Z Z) (parent leaf : list Z) (x : vnode).
Let fs := k_files s.
Let m := objs fs.
Let path := parent ++ SLASH :: leaf.
Let dir := resolve fs (dir_path parent).
Context (Hs : files_ok s A) (Hp : leaf_path parent leaf) (Hx : m !! dir = Some (OVnode x)) (Hd : v_type x = VNODE_DIR) (Hr : resolve fs path = 0).

Let Hnull : m !! 0 = None := ty_null _ (fo_typed _ _ Hs).

Lemma leaf_unmounted : unmounted fs path.
Proof using All. apply missing_unmounted; [done|exact (fo_mounts _ _ Hs)|apply Hp|done]. Qed.

Lemma leaf_missing : child m dir leaf = None.
Proof using All.
  assert (E : resolve fs path = default 0 (child m dir leaf)) by (apply resolve_leaf; [exact Hnull|exact leaf_unmounted|apply Hp..]).
  rewrite Hr in E. destruct (child m dir leaf) as [w|] eqn:Ec; [|done]. simpl in E. subst w.
  destruct (ops_lookup_run s (k_heap s) m dir leaf (fo_typed _ _ Hs) (ex_intro _ x Hx)) as [_ Hv]. destruct (Hv 0 Ec) as [y Hy]. congruence.
Qed.

(** Once the directory names [v], so does the path. *)
Lemma leaf_found m' v : typed m' -> children_kept m m' -> child m' dir leaf = Some v -> resolve (set_objs m' fs) path = v.
Proof using All.
  intros Ht Hk Hc. unfold path. rewrite (resolve_leaf (set_objs m' fs) parent leaf); [|exact (ty_null _ Ht)|exact leaf_unmounted|apply Hp..].
  rewrite (resolve_kept fs m' _ Hk) by (by apply (typed_nonzero m dir (OVnode x)); [apply Hs|]). fold dir. simpl. by rewrite Hc.
Qed.

(** The end of an operation that left the store [m']. *)
Lemma leaf_end s' m' : still_typed s m A s' m' -> children_kept m m' ->
  files_ok s' A /\ (forall p, resolve fs p <> 0 -> resolve (k_files s') p = resolve fs p) /\
  (forall v, child m' dir leaf = Some v -> vfs_resolve path s' = Ok (v, s')).
Proof using All.
  intros Hst Hk. pose proof (files_ok_still s m A s' m' (fo_mounts _ _ Hs) (fo_devices _ _ Hs) Hst) as Hs'. split; [done|].
  destruct Hst as (h' & -> & Hh & Ht & Hv). split; [intros p; by apply resolve_kept|]. intros v Hc.
  rewrite (vfs_resolve_run s h' m' path Ht (fo_mounts _ _ Hs')). by rewrite <- (leaf_found m' v Ht Hk Hc).
Qed.

Lemma open_leaf_runs flags : truthy (Z.land flags O_CREAT) = true ->
  runs (vfs_open path flags) s (fun f s' => files_ok s' A /\
     (forall p, resolve fs p <> 0 -> resolve (k_files s') p = resolve fs p) /\
     (f = 0 \/ exists v y, opened (objs (k_files s')) v f /\ m !! v = None /\ vfs_resolve path s' = Ok (v, s') /\
        objs (k_files s') !! v = Some (OVnode y) /\ v_type y = VNODE_FILE /\ v_size y = 0)).
Proof using All.
  intros Hf. pose proof (fo_typed _ _ Hs) as Ht. fold fs m in Ht. pose proof (fo_mounts _ _ Hs) as Hm. fold fs m in Hm.
  assert (Es : s = st s (k_heap s) m) by apply st_self. assert (Ef : set_objs m fs = fs) by apply set_objs_self.
  unfold vfs_open. rewrite Es at 1. eapply runs_step; [by apply vfs_resolve_run|]. fold fs. rewrite Ef, Hr. cbn [truthy negb Z.eqb]. rewrite Hf.
  unfold path at 1. cbn [negb]. rewrite split_path_leaf by apply Hp.
  eapply runs_step; [apply (parent_dir_found s (k_heap s) m (dir_path parent) x Ht Hm); fold fs; rewrite ?Ef; done|]. fold fs. rewrite Ef. fold dir.
  rewrite (proj2 (Z.eqb_neq dir 0)) by (by apply (typed_nonzero m dir (OVnode x))).
  eapply runs_bind; [apply (create_leaf_runs s (k_heap s) m A dir x leaf VNODE_FILE); [apply Hs|done|done|done|exact leaf_missing|apply Hp|by left]|].
  intros [v|] s1 (m1 & Hst1 & Hk1 & K).
  2: { eapply runs_ok; [done|]. destruct (leaf_end s1 m1 Hst1 Hk1) as (E1 & E2 & _). split; [done|]. split; [done|by left]. }
  destruct K as (Hnv & (i & Hv & _) & Hc). pose proof Hst1 as (h1 & -> & H1 & T1 & K1).
  eapply runs_weaken; [exact (open_vnode_typed s h1 m1 A v _ flags H1 T1 Hv)|]. intros f s2 (m2 & y & Hst2 & Ho & Hy & Hnk & Hdk & _). apply children_dirs in Hdk.
  destruct (leaf_end s2 m2) as (E1 & E2 & E3); [by apply (still_typed_trans s m A (st s h1 m1) m1)|intros cur n w Hw; by apply Hdk, Hk1|].
  split; [done|]. split; [done|]. destruct Ho as [->|Ho]; [by left|right]. exists v, y. destruct Hst2 as (h2 & -> & _). destruct Hnk as (N1 & N2 & N3).
  split_and!; [done|done|by apply E3, Hdk|done|done|]. simpl in N3. by destruct N3.
Qed.

Lemma mkdir_leaf_runs :
  runs (vfs_mkdir path) s (fun r s' => files_ok s' A /\
     (forall p, resolve fs p <> 0 -> resolve (k_files s') p = resolve fs p) /\
     (r = -1 \/ r = 0 /\ exists v y ino, m !! v = None /\ vfs_resolve path s' = Ok (v, s') /\ dir_at (objs (k_files s')) v y ino [])).
Proof using All.
  pose proof (fo_typed _ _ Hs) as Ht. fold fs m in Ht. pose proof (fo_mounts _ _ Hs) as Hm. fold fs m in Hm.
  assert (Es : s = st s (k_heap s) m) by apply st_self. assert (Ef : set_objs m fs = fs) by apply set_objs_self.
  rewrite vfs_mkdir_slash by apply Hp. unfold path at 1. rewrite split_path_leaf by apply Hp. rewrite Es at 1.
  eapply runs_step; [apply (parent_dir_found s (k_heap s) m (dir_path parent) x Ht Hm); fold fs; rewrite ?Ef; done|]. fold fs. rewrite Ef. fold dir.
  rewrite (proj2 (Z.eqb_neq dir 0)) by (by apply (typed_nonzero m dir (OVnode x))).
  eapply runs_bind; [apply (create_leaf_runs s (k_heap s) m A dir x leaf VNODE_DIR); [apply Hs|done|done|done|exact leaf_missing|apply Hp|by right]|].
  intros [v|] s1 (m1 & Hst1 & Hk1 & K); (eapply runs_ok; [done|]); destruct (leaf_end s1 m1 Hst1 Hk1) as (E1 & E2 & E3);
    (split; [done|]; split; [done|]); [|by left].
  right. split; [done|]. destruct K as (Hnv & (i & Hv & Hi) & Hc). destruct Hst1 as (h1 & -> & _). exists v. eexists _, _. split; [done|]. split; [by apply E3|].
  split; [exact Hv|done|done|exact Hi|constructor].
Qed.
End leaf.

(** ** The theorems *)

(** C15: resolving a path. In a well-typed file layer [vfs_resolve] always
    returns, changes nothing and gives 0 or a vnode. The mount it uses is an
    active one that covers the path up to a component boundary, and no active
    mount that covers the path is longer. From its root the walk follows the
    names between the slashes of the rest, however many slashes there are, as
    [follow] does through the directories, and gives 0 when a name is missing
    or is looked up in something that is not a directory (for names of at most
    63 characters; a longer one is looked up in pieces of 63, as [resolve]
    says). A path that does not start with a slash gives 0. *)
Theorem vfs_resolve_correct s A path : files_ok s A ->
  exists v, vfs_resolve path s = Ok (v, s) /\ v = resolve (k_files s) path /\ (v = 0 \/ is_vnode (objs (k_files s)) v) /\
    match find_mount (k_files s) path with
    | Some mt => mounts_at (k_files s) path mt /\
        (forall mt', mounts_at (k_files s) path mt' -> (length (m_path mt') <= length (m_path mt))%nat) /\
        let ns := names (drop (length (m_path mt)) path) in
        (hd_error path = Some SLASH -> Forall (fun w => (length w < VFS_NAME_MAX)%nat) ns -> v = follow (objs (k_files s)) (m_root mt) ns)
    | None => v = 0
    end /\
    (hd_error path <> Some SLASH -> v = 0).
Proof.
  intros [Hh Ht Hm _]. exists (resolve (k_files s) path). split_and!.
  - rewrite (st_self s) at 1 3. rewrite (vfs_resolve_run s _ _ path Ht Hm). by destruct s as [? []].
  - done.
  - by apply resolve_vnode.
  - pose proof (find_mount_longest (k_files s) path) as Hf. destruct (find_mount (k_files s) path) as [mt|] eqn:Em.
    + destruct Hf as [H1 H2]. split; [done|]. split; [done|]. intros ns Hh1 Hs. unfold resolve. destruct path as [|c path]; [done|].
      injection Hh1 as ->. rewrite Z.eqb_refl, Em. f_equal. by apply lookups_short.
    + unfold resolve. destruct path as [|c path]; [done|]. destruct (c =? SLASH); [|done]. by rewrite Em.
  - intros Hn. unfold resolve. destruct path as [|c path]; [done|]. destruct (Z.eqb_spec c SLASH) as [->|]; done.
Qed.

(** C13: what is created is found. Take an absolute path of fewer than 128
    characters whose parent is a directory, which does not exist, and whose last
    name has at most 63 characters. [vfs_open] with O_CREAT either panics (the
    heap cannot grow) or returns in a well-typed file layer; if it returns an
    open file, the file is on a vnode that did not exist before, an empty regular
    file, and [vfs_resolve] of the path finds that vnode. Likewise [vfs_mkdir]:
    if it returns 0, the path leads to a new directory without entries. Every
    path that existed leads where it led. *)
Theorem vfs_create_resolve s A parent leaf flags x (path := parent ++ SLASH :: leaf) :
  files_ok s A -> leaf_path parent leaf -> objs (k_files s) !! resolve (k_files s) (dir_path parent) = Some (OVnode x) -> v_type x = VNODE_DIR ->
  resolve (k_files s) path = 0 ->
  (truthy (Z.land flags O_CREAT) = true ->
   runs (vfs_open path flags) s (fun f s' => files_ok s' A /\
     (forall p, resolve (k_files s) p <> 0 -> resolve (k_files s') p = resolve (k_files s) p) /\
     (f = 0 \/ exists v y, opened (objs (k_files s')) v f /\ objs (k_files s) !! v = None /\ vfs_resolve path s' = Ok (v, s') /\
        objs (k_files s') !! v = Some (OVnode y) /\ v_type y = VNODE_FILE /\ v_size y = 0))) /\
  runs (vfs_mkdir path) s (fun r s' => files_ok s' A /\
     (forall p, resolve (k_files s) p <> 0 -> resolve (k_files s') p = resolve (k_files s) p) /\
     (r = -1 \/ r = 0 /\ exists v y ino, objs (k_files s) !! v = None /\ vfs_resolve path s' = Ok (v, s') /\
        dir_at (objs (k_files s')) v y ino [])).
Proof. intros Hs Hp Hx Hd Hr. split; [by apply (open_leaf_runs s A parent leaf x)|by apply (mkdir_leaf_runs s A parent leaf x)]. Qed.
End path.

(** ** Witnesses *)

Lemma ok_state {S T} (r r' : T) (s s' : S) : Ok (r, s) = Ok (r', s') -> s = s'.
Proof. by intros [= _ <-]. Qed.

Lemma demo_mounted_files : files_ok demo_mounted ∅.
Proof.
  assert (Hh : heap_ok demo_heap ∅ ∅) by exact demo_heap_ok.
  assert (Hm : healthy demo_heap ∅ ∅) by (exists ∅; split; [exact Hh|exact (initial_fs_ok ∅)]).
  destruct demo_mounted_run as [r E]. destruct (start_files_typed demo_heap ∅ Hm) as [(msg & F)|(r' & s' & F & Hs & _)].
  - rewrite E in F. done.
  - rewrite E in F. rewrite (ok_state r r' demo_mounted s' F). exact Hs.
Qed.

Lemma vfs_resolve_correct_witness : exists v, vfs_resolve dev_stdin demo_mounted = Ok (v, demo_mounted) /\ v = g_stdin (k_files demo_mounted).
Proof.
  destruct (vfs_resolve_correct demo_mounted ∅ dev_stdin demo_mounted_files) as (v & E & Hv & _). exists v. split; [exact E|].
  rewrite Hv. vm_compute. reflexivity.
Defined.

Lemma demo_leaf : leaf_path [] [97].
Proof. split; try done; [unfold VFS_PATH_MAX; simpl; lia|set_solver|unfold VFS_NAME_MAX; simpl; lia]. Qed.

Definition demo_dir : vnode := match objs (k_files demo_mounted) !! resolve (k_files demo_mounted) [SLASH] with
  | Some (OVnode x) => x | _ => Vnode 0 0 0 ramfs_ops 0 end.
Lemma demo_dir_is : objs (k_files demo_mounted) !! resolve (k_files demo_mounted) [SLASH] = Some (OVnode demo_dir) /\
  v_type demo_dir = VNODE_DIR /\ resolve (k_files demo_mounted) [SLASH; 97] = 0.
Proof. vm_compute. done. Qed.

(** What a run that succeeds satisfies. *)
Lemma runs_result {S T} (c : M S T) s (P : T -> S -> Prop) : runs c s P -> succeeds c s = true -> exists r s', c s = Ok (r, s') /\ P r s'.
Proof. unfold succeeds. intros [(msg & E)|K] Hs; [by rewrite E in Hs|exact K]. Qed.

(** The file "/a" and the directory "/a" in a fresh file layer. *)
Lemma vfs_create_resolve_witness :
  (exists f s' v, vfs_open [SLASH; 97] O_CREAT demo_mounted = Ok (f, s') /\ files_ok s' ∅ /\ opened (objs (k_files s')) v f /\
     vfs_resolve [SLASH; 97] s' = Ok (v, s')) /\
  (exists s' v y ino, vfs_mkdir [SLASH; 97] demo_mounted = Ok (0, s') /\ vfs_resolve [SLASH; 97] s' = Ok (v, s') /\ dir_at (objs (k_files s')) v y ino []).
Proof.
  destruct demo_dir_is as (E1 & E2 & E3).
  assert (S1 : succeeds (vfs_open [SLASH; 97] O_CREAT) demo_mounted = true) by (vm_compute; reflexivity).
  assert (S2 : succeeds (vfs_mkdir [SLASH; 97]) demo_mounted = true) by (vm_compute; reflexivity).
  assert (R1 : negb (result 0 (vfs_open [SLASH; 97] O_CREAT) demo_mounted =? 0) = true) by (vm_compute; reflexivity).
  assert (R2 : result 0 (vfs_mkdir [SLASH; 97]) demo_mounted = 0) by (vm_compute; reflexivity).
  destruct (vfs_create_resolve demo_mounted ∅ [] [97] O_CREAT demo_dir demo_mounted_files demo_leaf E1 E2 E3) as [K1 K2]. split.
  - destruct (runs_result _ _ _ (K1 eq_refl) S1) as (f & s' & E & Hs & _ & [Hf|(v & y & Ho & _ & Hr & _)]).
    + exfalso. unfold result in R1. cbn [app] in E. rewrite E, Hf in R1. discriminate R1.
    + exists f, s', v. exact (conj E (conj Hs (conj Ho Hr))).
  - destruct (runs_result _ _ _ K2 S2) as (r & s' & E & _ & _ & [Hf|(Hr & v & y & ino & _ & Hv & Hd)]).
    + exfalso. unfold result in R2. cbn [app] in E. rewrite E, Hf in R2. discriminate R2.
    + rewrite Hr in E. exists s', v, y, ino. exact (conj E (conj Hv Hd)).
Defined.
