(* ===== verification/FileSafety.v ===== *)
(** * Calls into the file layer (kernel/fs/vfs.c, ramfs.c, devfs.c)

    Starting the file layer, and from then on any sequence of calls that
    resolve, open, create, read, list, share and close, as a transition system.
    Every state it reaches is well typed, and in such a state no call runs into
    undefined behaviour. *)

From Stdlib Require Import ZArith Lia.
From S2P Require Import Prelude Kheap HeapSpec Kstate Fd Fs FsLaws Ramfs Proc ProcInv ProcOps ProcSteps ProcSafety Kinv Dir Typed Path.

(** ** The calls *)

Inductive fcall : Type :=
| CallResolve (path : list Z)
| CallOpen (path : list Z) (flags : Z)
| CallMkdir (path : list Z)
| CallRead (v len offset : Z)
| CallWrite (v : Z) (src : list byte) (offset : Z)
| CallReaddir (dir index : Z)
| CallRef (f : Z)
| CallClose (f : Z)
| CallStandard.

(** A file of the store that is not the end of a pipe. *)
Definition plain_file (m : gmap Z obj) (f : Z) : Prop :=
  exists x y, m !! f = Some (OFile x) /\ m !! f_vnode x = Some (OVnode y) /\ is_pipe_end (v_ops y) = false.

(** The arguments the callers pass: pointers to open files and to nodes of the
    RAM file system; paths, flags, offsets and lengths are arbitrary, but for a
    write, which has to end below 2 GiB. *)
Definition call_ok (m : gmap Z obj) (c : fcall) : Prop :=
  match c with
  | CallRead v _ offset => 0 <= offset /\ exists x, m !! v = Some (OVnode x) /\ v_ops x = ramfs_ops
  | CallWrite v src offset => src <> [] /\ 0 <= offset /\ offset + Z.of_nat (length src) < 2 ^ 31 /\ exists x, m !! v = Some (OVnode x) /\ v_ops x = ramfs_ops
  | CallReaddir v _ => exists x, m !! v = Some (OVnode x) /\ v_ops x = ramfs_ops
  | CallRef f => exists x, m !! f = Some (OFile x)
  | CallClose f => f = 0 \/ plain_file m f
  | _ => True
  end.

Section calls.
Context {H : Type} `{!Heap H} `{!HeapLaws H}.
Implicit Types (s : kstate H fstate) (m : gmap Z obj).

Definition do_call (c : fcall) : M (kstate H fstate) unit :=
  match c with
  | CallResolve path => vfs_resolve path ;; mret tt
  | CallOpen path flags => vfs_open path flags ;; mret tt
  | CallMkdir path => vfs_mkdir path ;; mret tt
  | CallRead v len offset => ramfs_read v len offset ;; mret tt
  | CallWrite v src offset => ramfs_write v src offset ;; mret tt
  | CallReaddir dir index => ramfs_readdir dir index ;; mret tt
  | CallRef f => file_ref_op f
  | CallClose f => vfs_close_op f
  | CallStandard => fd_table_init ;; mret tt
  end.

(** ** Closing *)

(** A file that is freed: nothing in the store points to it. *)
Lemma typed_delete_file m f x : typed m -> m !! f = Some (OFile x) -> typed (delete f m).
Proof.
  intros [T1 T2 T3 T4 T6 T5 T7] Hf. assert (Hk : kept 0 0 m (delete f m)).
  { intros p o Hp. unfold is_vnode. destruct (decide (f = p)) as [<-|Hne]; [rewrite Hf in Hp; by injection Hp as <-|].
    rewrite lookup_delete_ne by done. destruct o; try done. by eexists. }
  assert (Hback : forall p o, delete f m !! p = Some o -> m !! p = Some o) by (intros p o; rewrite lookup_delete; by case_decide).
  split.
  - rewrite lookup_delete. by case_decide.
  - intros p y Hp%Hback. by apply (kept_vnode 0 0 m), (T2 p).
  - intros v y Hv%Hback. apply (node_typed_kept 0 0 m _ y Hk (T3 v y Hv)); [|done]. intros Eo E0. pose proof (T3 v y Hv) as Hy.
    unfold node_typed in Hy. rewrite Eo, E0 in Hy. destruct Hy as (ino & Hi & _). congruence.
  - intros v w y z Hv%Hback Hw%Hback. by apply T4.
  - intros i a Hi%Hback Hz. destruct (T6 i a Hi Hz) as [b Hb]. exists b. rewrite lookup_delete_ne by congruence. done.
  - intros i j a b Hi%Hback Hj%Hback. by apply T5.
  - intros p o Hp%Hback. by apply (T7 p).
Qed.

Lemma update_still s h m A p o o' : healthy h m A -> typed m -> m !! p = Some o -> same_shape o o' ->
  still_typed s m A (st s h (<[p := o']> m)) (<[p := o']> m).
Proof.
  intros Hh Ht Hp Hs. exists h. split; [done|]. split; [|split; [by apply (typed_update m p o)|]].
  - apply (healthy_insert h m A p _ o Hh Hp). destruct o, o'; done.
  - intros q [y Hq]. unfold is_vnode. rewrite lookup_insert. case_decide; [|by eexists]. subst q. rewrite Hp in Hq. injection Hq as ->. destruct o'; try done. by eexists.
Qed.

Lemma vnode_unref_typed s h m A v x : healthy h m A -> typed m -> m !! v = Some (OVnode x) ->
  exists s' m', vnode_unref v (st s h m) = Ok (tt, s') /\ still_typed s m A s' m' /\ frame m m'.
Proof.
  intros Hh Ht Hv. unfold vnode_unref. rewrite (proj2 (Z.eqb_neq v 0)) by (by apply (typed_nonzero m v (OVnode x))). run_load Hv.
  destruct (0 <? v_refcount x).
  - eexists _, _. split; [by rewrite (store_st _ _ _ _ _ _ Hv)|]. split; [apply (update_still s h m A v (OVnode x)); simpl; by auto|].
    apply frame_insert. by rewrite Hv.
  - exists (st s h m), m. split; [done|]. split; [by apply still_typed_refl|done].
Qed.

(** The other files stay as they are, vnodes keep their operations, and the
    file has one reference less, if there were more. *)
Definition closed m (f : Z) m' : Prop :=
  (forall g y, g <> f -> m !! g = Some (OFile y) -> m' !! g = Some (OFile y)) /\
  (forall v y, m' !! v = Some (OVnode y) -> v_ops y = ramfs_ops \/ exists y0, m !! v = Some (OVnode y0) /\ v_ops y = v_ops y0) /\
  (forall x, m !! f = Some (OFile x) -> 0 < f_refcount x -w 1 -> m' !! f = Some (OFile (set_f_refcount (f_refcount x -w 1) x))).

Lemma vfs_close_typed s h m A f : healthy h m A -> typed m -> f = 0 \/ plain_file m f ->
  runs (vfs_close_op f) (st s h m) (fun _ s' => exists m', still_typed s m A s' m' /\ closed m f m').
Proof.
  intros Hh Ht Hf. unfold vfs_close_op. destruct Hf as [->|(x & y & Hx & Hy & Hp)].
  { eapply runs_ok; [done|]. exists m. split; [by apply still_typed_refl|]. split; [done|]. split; [intros v y Hv; right; by exists y|].
    intros x Hx. by rewrite (ty_null _ Ht) in Hx. }
  rewrite (proj2 (Z.eqb_neq f 0)) by (by apply (typed_nonzero m f (OFile x))). eapply runs_load; [exact Hx|done|].
  eapply runs_step; [by apply (store_st _ _ _ _ _ _ Hx)|]. set (o := OFile _). set (m1 := <[f := o]> m).
  pose proof (update_still s h m A f (OFile x) o Hh Ht Hx ltac:(done)) as Hst1. fold m1 in Hst1.
  assert (Ho1 : forall g z, g <> f -> m !! g = Some (OFile z) -> m1 !! g = Some (OFile z)) by (intros g z Hg; unfold m1; by rewrite lookup_insert_ne).
  assert (Hv1 : forall v z, m1 !! v = Some (OVnode z) -> m !! v = Some (OVnode z)) by (intros v z; unfold m1; rewrite lookup_insert; by case_decide).
  destruct (Z.ltb_spec 0 (f_refcount x -w 1)) as [Hlt|Hge].
  { eapply runs_ok; [done|]. exists m1. split; [done|]. split; [done|]. split; [intros v z Hv%Hv1; right; by exists z|].
    intros x' Hx' _. rewrite Hx in Hx'. injection Hx' as <-. apply lookup_insert_eq. }
  pose proof Hst1 as (h1 & E1 & H1 & T1 & K1).
  assert (Hy1 : m1 !! f_vnode x = Some (OVnode y)) by (unfold m1; rewrite lookup_insert_ne by congruence; done).
  assert (Hz : truthy (f_vnode x) = true) by (unfold truthy; by rewrite (proj2 (Z.eqb_neq _ 0)) by (by apply (typed_nonzero m1 _ (OVnode y)))).
  rewrite Hz. assert (Ec : ops_close (f_vnode x) (st s h m1) = Ok (0, st s h m1)) by (unfold ops_close; run_load Hy1; by destruct (v_ops y)).
  eapply runs_step; [by rewrite (bind_ok _ _ _ _ _ Ec)|].
  destruct (vnode_unref_typed s h1 m1 A (f_vnode x) y H1 T1 Hy1) as (s2 & m2 & Eu & Hst2 & F2 & _ & B2). rewrite <- E1 in Eu. eapply runs_step; [exact Eu|].
  assert (Hf2 : m2 !! f = Some o) by (apply F2, lookup_insert_eq). destruct Hst2 as (h2 & -> & H2 & T2 & K2).
  destruct (kfree_obj_runs s h2 m2 A f o H2 Hf2) as (h3 & Ef & H3). eapply runs_ok; [exact Ef|]. exists (delete f m2). split.
  - exists h3. split; [done|]. split; [done|]. split; [by apply (typed_delete_file m2 f _ T2 Hf2)|]. intros p Hv. apply K1, K2 in Hv as [z Hv].
    exists z. rewrite lookup_delete_ne; [done|]. intros <-. rewrite Hf2 in Hv. done.
  - split; [intros g z Hg Hgz; rewrite lookup_delete_ne by done; by apply F2, Ho1|]. split; [|intros x' Hx'; rewrite Hx in Hx'; injection Hx' as <-; lia].
    intros v z. rewrite lookup_delete. case_decide; [done|]. intros Hv. destruct (B2 v z Hv) as [?|(z0 & Hz0 & Ez)]; [by left|right; exists z0; auto].
Qed.

(** ** Reading *)

Lemma ramfs_read_typed s h m v len offset x : typed m -> m !! v = Some (OVnode x) -> v_ops x = ramfs_ops -> 0 <= offset ->
  exists r, ramfs_read v len offset (st s h m) = Ok (r, st s h m).
Proof.
  intros Ht Hv Ho Hoff. pose proof (ty_node _ Ht v x Hv) as Hx. unfold node_typed in Hx. rewrite Ho in Hx. destruct Hx as (ino & Hi & Hx).
  unfold ramfs_read. run_load Hv. destruct (Z.eqb_spec (v_type x) VNODE_FILE) as [Et|]; [|by eexists]. cbn [negb]. run_load Hi.
  destruct Hx as [[E _]|(_ & data & Hb & Hs)]; [unfold VNODE_FILE, VNODE_DIR in *; congruence|].
  destruct (Z.leb_spec (v_size x) offset) as [|Hlt]; [by eexists|]. destruct Hb as [_ _ Hn|k Hz Hc Hk Hl Eb]; [rewrite Hn in Hs; simpl in Hs; lia|].
  run_load Eb. rewrite length_app, length_replicate.
  assert (Hn : (if len <? v_size x - offset then len else v_size x - offset) <= v_size x - offset) by (destruct (Z.ltb_spec len (v_size x - offset)); lia).
  rewrite (proj2 (Z.ltb_ge _ _)) by lia. by eexists.
Qed.

Lemma nth_dirent_total s h m d es index : chain m d es -> forall fuel i, (length es <= fuel)%nat ->
  exists r, nth_dirent fuel i index d (st s h m) = Ok (r, st s h m).
Proof.
  induction 1 as [|a e es Ha He Hc IH]; intros fuel i Hf; [by destruct fuel; eexists|]. destruct fuel as [|fuel]; [simpl in Hf; lia|].
  simpl. rewrite (proj2 (Z.eqb_neq a 0)) by done. run_load He. destruct (i =? index); [by eexists|]. apply IH. simpl in Hf. lia.
Qed.

Lemma ramfs_readdir_typed s h m v index x : typed m -> m !! v = Some (OVnode x) -> v_ops x = ramfs_ops ->
  exists r, ramfs_readdir v index (st s h m) = Ok (r, st s h m).
Proof.
  intros Ht Hv Ho. unfold ramfs_readdir. run_load Hv. destruct (Z.eqb_spec (v_type x) VNODE_DIR) as [Et|]; [|by eexists]. cbn [negb].
  destruct (typed_dir m v x Ht Hv Ho Et) as (ino & es & Hd & _). pose proof (da_inode _ _ _ _ _ Hd) as Hi. run_load Hi.
  rewrite (bind_ok _ _ _ (S (size m)) (st s h m)) by done. apply (nth_dirent_total s h m _ es); [apply Hd|].
  pose proof (chain_length m _ es (da_chain _ _ _ _ _ Hd)). lia.
Qed.

(** ** Writing *)

Lemma grown_typed m v x ino ino' data (m' := <[v_data x := OInode ino']> (delete (i_buf ino) (<[i_buf ino' :=
    OBuf (data ++ replicate (Z.to_nat (i_capacity ino') - length data) None)]> m))) :
  typed m -> v_ops x = ramfs_ops -> file_at m v x ino data -> file_at m' v x ino' data -> m !! i_buf ino' = None -> i_buf ino' <> 0 -> v_size x < 2 ^ 31 ->
  (typed m' /\ forall p, is_vnode m p -> is_vnode m' p) /\ frame m m'.
Proof.
  intros Ht Ho [Ev Et Es Ei Hb] Hf' Hn Hz Hs. set (d := data ++ replicate (Z.to_nat (i_capacity ino') - length data) None).
  assert (Hlk : forall p, m' !! p = if decide (p = v) then Some (OVnode x) else if decide (p = v_data x) then Some (OInode ino') else
     if decide (p = i_buf ino') then Some (OBuf d) else if decide (p = i_buf ino) then None else m !! p).
  { intros p. unfold m'. fold d. rewrite lookup_insert, lookup_delete, lookup_insert.
    assert (Hbv : i_buf ino <> v).
    { destruct Hb as [E _ _|k _ _ _ _ Eb]; [|congruence]. rewrite E. intros <-. rewrite (ty_null _ Ht) in Ev. done. }
    assert (Hbb : i_buf ino <> i_buf ino') by (destruct Hb as [E _ _|k _ _ _ _ Eb]; congruence).
    repeat case_decide; congruence. }
  assert (Hbuf : forall o, m !! i_buf ino = Some o -> exists e, o = OBuf e).
  { destruct Hb as [E _ _|k _ _ _ _ Eb]; intros o Hbo; [rewrite E, (ty_null _ Ht) in Hbo; done|]. rewrite Eb in Hbo. injection Hbo as <-. by eexists. }
  split; [by apply (typed_refill m v x x ino ino' d data); [..|left| | | |]|by apply (frame_refill m m' v x x (v_data x) (i_buf ino) (i_buf ino') ino ino' d); [..|left|]].
Qed.

Lemma copied_typed m v x x' ino data d new (m' := <[v := OVnode x']> (<[i_buf ino := OBuf d]> m)) :
  typed m -> v_ops x = ramfs_ops -> file_at m v x ino data -> file_at m' v x' ino new -> v_ops x' = v_ops x -> v_data x' = v_data x ->
  i_buf ino <> 0 -> v_size x' < 2 ^ 31 -> (typed m' /\ forall p, is_vnode m p -> is_vnode m' p) /\ frame m m'.
Proof.
  intros Ht Ho [Ev Et Es Ei Hb] Hf' Eo Ed Hz Hs. destruct Hb as [|k _ _ _ _ Eb]; [done|].
  assert (Hlk : forall p, m' !! p = if decide (p = v) then Some (OVnode x') else if decide (p = v_data x) then Some (OInode ino) else
     if decide (p = i_buf ino) then Some (OBuf d) else if decide (p = i_buf ino) then None else m !! p).
  { intros p. unfold m'. rewrite !lookup_insert. repeat case_decide; congruence. }
  assert (Hbuf : forall o, m !! i_buf ino = Some o -> exists e, o = OBuf e) by (intros o Hbo; rewrite Eb in Hbo; injection Hbo as <-; by eexists).
  split; [by apply (typed_refill m v x x' ino ino d new); [..|right| | | |]|by apply (frame_refill m m' v x x' (v_data x) (i_buf ino) (i_buf ino) ino ino d); [..|right|]].
Qed.

(** What a write leaves: a well typed store, the open files as they were, and a
    node that is as long as the bytes written reach. *)
Definition written s m A (v offset r : Z) (s' : kstate H fstate) : Prop :=
  exists m', still_typed s m A s' m' /\ frame m m' /\ (0 < r -> exists x', m' !! v = Some (OVnode x') /\ offset + r <= v_size x').

Lemma written_same s h m A v offset r h' : healthy h' m A -> typed m -> r <= 0 -> written s m A v offset r (st (st s h m) h' m).
Proof. intros Hh Ht Hr. exists m. split; [by exists h'|]. split; [done|lia]. Qed.

Lemma copy_typed s h m A v x ino data src offset : healthy h m A -> typed m -> v_ops x = ramfs_ops -> file_at m v x ino data -> src <> [] -> 0 <= offset ->
  offset + Z.of_nat (length src) <= i_capacity ino -> offset + Z.of_nat (length src) < 2 ^ 31 -> v_size x < 2 ^ 31 ->
  runs (copy_in (i_buf ino) offset src ;;
     (if v_size x <? offset +w Z.of_nat (length src) then store v (OVnode (set_v_size (offset +w Z.of_nat (length src)) x)) else mret tt) ;;
     mret (s32 (Z.of_nat (length src)))) (st s h m) (fun r s' => written s m A v offset r s').
Proof.
  intros (L & Hh & Hm) Ht Ho Hf Hne Hoff Hcap H31 Hs. pose proof (fa_size _ _ _ _ _ Hf) as Es.
  destruct (ramfs_copy_run s h m L v x ino data src offset Hm Hf Hne Hoff Hcap H31 ltac:(lia)) as (x' & m' & E & Hf' & Eo & Hm' & _ & Ed & Em).
  eapply runs_ok; [exact E|]. pose proof (fa_size _ _ _ _ _ Hf') as Es'. rewrite overwrite_length in Es'.
  assert (Hz : i_buf ino <> 0).
  { intros Hz. destruct (buf_capacity _ _ _ _ (fa_buf _ _ _ _ _ Hf)) as (_ & _ & Hc). apply Hc in Hz. assert (length src <> 0%nat) by (by intros ?%nil_length_inv). lia. }
  pose proof Hf' as Hf2. rewrite Em in Hf2. destruct (copied_typed m v x x' ino data _ _ Ht Ho Hf Hf2 Eo Ed Hz ltac:(lia)) as [HT HF]. rewrite <- Em in HT, HF.
  exists m'. split; [exists h; split; [done|split; [by exists L|done]]|]. split; [done|]. intros _. exists x'. split; [apply Hf'|lia].
Qed.

Lemma ramfs_write_typed s h m A v x src offset : healthy h m A -> typed m -> m !! v = Some (OVnode x) -> v_ops x = ramfs_ops -> src <> [] -> 0 <= offset ->
  offset + Z.of_nat (length src) < 2 ^ 31 -> runs (ramfs_write v src offset) (st s h m) (fun r s' => written s m A v offset r s').
Proof.
  intros Hh Ht Hv Ho Hne Hoff H31. pose proof (ty_node _ Ht v x Hv) as Hx. unfold node_typed in Hx. rewrite Ho in Hx. destruct Hx as (ino & Hi & Hx).
  unfold ramfs_write. eapply runs_load; [exact Hv|done|].
  destruct (Z.eqb_spec (v_type x) VNODE_FILE) as [Et|]; [|eapply runs_ok; [done|]; by apply (written_same s h m A)]. cbn [negb].
  destruct Hx as [[E _]|(_ & data & Hb & Es & Hs)]; [unfold VNODE_FILE, VNODE_DIR in *; congruence|].
  eapply runs_load; [exact Hi|done|]. cbv zeta. assert (Hf : file_at m v x ino data) by done. rewrite (u32_small (offset + _)) by lia.
  destruct (Z.ltb_spec (i_capacity ino) (offset + Z.of_nat (length src))) as [Hlt|Hge].
  2: { eapply (runs_step _ _ _ (Some ino) (st s h m)); [done|]. cbv iota.
       pose proof (copy_typed s h m A v x ino data src offset Hh Ht Ho Hf Hne Hoff Hge H31 Hs) as K. rewrite (u32_small (offset + _)) in K by lia. exact K. }
  destruct Hh as (L & Hh & Hm).
  destruct (ramfs_grow_run s h m L A v x ino data (offset + Z.of_nat (length src)) Hh Hm Hf ltac:(lia))
    as [(msg & E & _)|[(h1 & E & Hh1 & _)|(ino1 & h1 & m1 & L1 & E & Hf1 & Hc1 & Hb1 & Hh1 & Hm1 & _ & Em & _)]].
  - left. exists msg. by apply bind_stop.
  - eapply runs_step; [exact E|]. eapply runs_ok; [done|]. apply (written_same s h m A v offset (-1) h1); [by exists L|done|done].
  - eapply runs_step; [exact E|]. cbv iota. assert (Hz1 : i_buf ino1 <> 0).
    { intros Hz. destruct (buf_capacity _ _ _ _ (fa_buf _ _ _ _ _ Hf1)) as (_ & _ & Hc). apply Hc in Hz. assert (length src <> 0%nat) by (by intros ?%nil_length_inv). lia. }
    pose proof Hf1 as Hf1'. rewrite Em in Hf1'. 
    assert (HT : (typed m1 /\ forall p, is_vnode m p -> is_vnode m1 p) /\ frame m m1) by (rewrite Em; exact (grown_typed m v x ino ino1 data Ht Ho Hf Hf1' Hb1 Hz1 Hs)).
    destruct HT as [[T1 K1] F1].
    assert (Hh2 : healthy h1 m1 A) by (by exists L1).
    pose proof (copy_typed s h1 m1 A v x ino1 data src offset Hh2 T1 Ho Hf1 Hne Hoff Hc1 H31 Hs) as K. rewrite (u32_small (offset + _)) in K by lia.
    eapply runs_weaken; [exact K|]. intros r s' (m' & Hst & F2 & Hr). exists m'. split; [|split; [by transitivity m1|done]].
    by apply (still_typed_trans s m A (st s h1 m1) m1); [exists h1|].
Qed.

(** ** The standard descriptors *)

Lemma open_std_typed s h m A v flags : healthy h m A -> typed m -> v = 0 \/ is_vnode m v ->
  runs (vfs_open_vnode_op v flags) (st s h m) (fun f s' => exists m', still_typed s m A s' m' /\ open_result m m' f).
Proof.
  intros Hh Ht [->|[x Hv]]; [eapply runs_ok; [done|]; exists m; split; [by apply still_typed_refl|]; split; [done|by left]|].
  eapply runs_weaken; [by apply (open_vnode_typed s h m A v x)|]. intros f s' (m' & x' & Hst & Hf & _ & _ & _ & Hfr & Hn). exists m'. split; [done|]. split; [done|].
  destruct (decide (f = 0)) as [->|Hz]; [by left|]. destruct Hf as [->|Hf]; [by left|]. right. split; [by exists v|auto].
Qed.

Lemma standard_typed s A : files_ok s A -> runs fd_table_init s (fun _ s' => exists m', still_typed s (objs (k_files s)) A s' m').
Proof.
  intros [Hh Ht Hm Hd]. set (h := k_heap s) in *. set (m := objs (k_files s)) in *. rewrite (st_self s) at 1. fold h m.
  apply Forall_cons in Hd as [D0 [D1 [D2 _]%Forall_cons]%Forall_cons]. unfold fd_table_init.
  assert (Hk : forall m' v, (forall p, is_vnode m p -> is_vnode m' p) -> v = 0 \/ is_vnode m v -> v = 0 \/ is_vnode m' v) by (intros m' v Hk [?|?]; auto).
  eapply (runs_step _ _ _ (g_stdin (k_files s)) (st s h m)); [done|].
  eapply runs_bind; [by apply (open_std_typed s h m A)|]. intros f0 s1 (m1 & (h1 & -> & H1 & T1 & K1) & _).
  eapply (runs_step _ _ _ (g_stdout (k_files s)) (st s h1 m1)); [done|].
  eapply runs_bind; [apply (open_std_typed s h1 m1 A); [done|done|by apply Hk]|]. intros f1 s2 (m2 & (h2 & -> & H2 & T2 & K2) & _).
  eapply (runs_step _ _ _ (g_stderr (k_files s)) (st s h2 m2)); [done|].
  eapply runs_bind; [apply (open_std_typed s h2 m2 A); [done|done|apply Hk; auto]|]. intros f2 s3 (m3 & (h3 & -> & H3 & T3 & K3) & _).
  eapply runs_ok; [done|]. exists m3, h3. split; [done|]. split; [done|]. split; [done|]. auto.
Qed.

(** ** The transition system *)

(** The states the file layer reaches: from an empty heap, by its start and by
    calls that return. [A] are the blocks of the heap that are not its own. *)
Inductive file_reachable (A : gmap Z Z) : kstate H fstate -> Prop :=
| fr_start h s : healthy h ∅ A -> (vfs_init ;; ramfs_init ;; devfs_init) (zeroed h initial_fstate) = Ok (tt, s) -> file_reachable A s
| fr_call s c s' : file_reachable A s -> call_ok (objs (k_files s)) c -> do_call c s = Ok (tt, s') -> file_reachable A s'.

Lemma do_call_typed s A c : files_ok s A -> call_ok (objs (k_files s)) c ->
  runs (do_call c) s (fun _ s' => exists m', still_typed s (objs (k_files s)) A s' m').
Proof.
  intros Hs Hc. pose proof Hs as [Hh Ht Hm Hd]. set (h := k_heap s) in *. set (m := objs (k_files s)) in *.
  assert (Es : s = st s h m) by apply st_self.
  assert (Hsame : forall {T} (c : M (kstate H fstate) T) r, c (st s h m) = Ok (r, st s h m) -> runs c (st s h m) (fun _ s' => exists m', still_typed s m A s' m')).
  { intros T d r E. eapply runs_ok; [exact E|]. exists m. by apply still_typed_refl. }
  rewrite Es at 1. destruct c as [path|path flags|path|v len offset|v src offset|dir index|f|f|]; simpl in *.
  - eapply runs_bind; [eapply Hsame; by apply vfs_resolve_run|]. intros r s' K. by eapply runs_ok.
  - eapply runs_bind; [by apply (vfs_open_typed s h m A)|]. intros r s' (m' & K & _). eapply runs_ok; [done|by exists m'].
  - eapply runs_bind; [by apply (vfs_mkdir_typed s h m A)|]. intros r s' (m' & K & _). eapply runs_ok; [done|by exists m'].
  - destruct Hc as (Ho & x & Hx & Hr). destruct (ramfs_read_typed s h m v len offset x Ht Hx Hr Ho) as [r E].
    eapply runs_bind; [eapply Hsame; exact E|]. intros r' s' K. by eapply runs_ok.
  - destruct Hc as (Hne & Ho & H31 & x & Hx & Hr). eapply runs_bind; [by apply (ramfs_write_typed s h m A v x)|]. intros r s' (m' & K & _). eapply runs_ok; [done|by exists m'].
  - destruct Hc as (x & Hx & Hr). destruct (ramfs_readdir_typed s h m dir index x Ht Hx Hr) as [r E].
    eapply runs_bind; [eapply Hsame; exact E|]. intros r' s' K. by eapply runs_ok.
  - destruct Hc as (x & Hx). unfold file_ref_op. eapply runs_load; [exact Hx|done|]. eapply runs_ok; [by apply (store_st _ _ _ _ _ _ Hx)|].
    eexists. by apply (update_still s h m A f (OFile x)).
  - eapply runs_weaken; [by apply vfs_close_typed|]. intros r s' (m' & K & _). by exists m'.
  - rewrite <- Es. eapply runs_bind; [by apply (standard_typed s A)|]. intros r s' K. by eapply runs_ok.
Qed.

Lemma file_reachable_ok A s : file_reachable A s -> files_ok s A.
Proof.
  induction 1 as [h s Hh E|s c s' Hs IH Hc E].
  - destruct (start_files_typed h A Hh) as [(msg & F)|(r & s1 & F & K & _)]; rewrite E in F; [done|]. by injection F as _ <-.
  - destruct (do_call_typed s A c IH Hc) as [(msg & F)|(r & s1 & F & m' & K)]; rewrite E in F; [done|]. injection F as _ <-.
    exact (files_ok_still s (objs (k_files s)) A s' m' (fo_mounts _ _ IH) (fo_devices _ _ IH) K).
Qed.

(** C8: the file layer is type safe. From any state that the start of the file
    layer and calls to it can reach, every pointer that the code follows leads
    to an object of the type it expects: the vnode of an open file, the inode
    or pipe of a vnode, the vnode of a directory entry, the buffer of an inode,
    the roots of the mounts and the devices; the lists of entries end; no two
    vnodes share an inode and no two inodes a buffer. In such a state resolving,
    opening and creating at any path with any flags, making a directory,
    reading a node, writing to it below 2 GiB and listing it, sharing and closing an open file that is not
    the end of a pipe and opening the standard descriptors end, with a result
    or by the panic of a heap that cannot grow, never in undefined behaviour,
    and lead to such a state. *)
Theorem file_layer_typed A s : file_reachable A s ->
  files_ok s A /\ forall c, call_ok (objs (k_files s)) c -> runs (do_call c) s (fun _ s' => file_reachable A s').
Proof.
  intros Hr. pose proof (file_reachable_ok A s Hr) as Hs. split; [done|]. intros c Hc.
  destruct (do_call_typed s A c Hs Hc) as [(msg & E)|([] & s' & E & _)]; [left; by exists msg|right]. exists tt, s'. split; [done|]. by apply (fr_call A s c).
Qed.
End calls.

(** ** Witness *)

Lemma demo_file_reachable : file_reachable ∅ demo_mounted.
Proof.
  assert (Hh : heap_ok demo_heap ∅ ∅) by exact demo_heap_ok. destruct demo_mounted_run as [[] E].
  apply (fr_start ∅ demo_heap); [|exact E]. exists ∅. split; [exact Hh|exact (initial_fs_ok ∅)].
Qed.

Lemma file_layer_typed_witness : files_ok demo_mounted ∅ /\
  runs (do_call (CallOpen [SLASH; 97] O_CREAT)) demo_mounted (fun _ s' => file_reachable ∅ s').
Proof.
  destruct (file_layer_typed ∅ demo_mounted demo_file_reachable) as [H1 H2]. split; [exact H1|]. exact (H2 (CallOpen [SLASH; 97] O_CREAT) I).
Defined.
