(* ===== verification/Descriptors.v ===== *)
(** * Descriptor tables over the file layer (kernel/proc/fd.c, sys_open,
      sys_close and sys_dup2 of kernel/syscall/syscall.c, the tables in
      proc_create, proc_fork and proc_destroy)

    The descriptor tables of all processes point to open files, and the number
    of entries that point to a file is the reference count the file layer keeps
    in it. So a file is freed when the last entry goes and no entry is ever left
    pointing to a freed file. *)

From Stdlib Require Import ZArith Lia.
From S2P Require Import Prelude Kheap HeapSpec Kstate Fd Fs FsLaws Ramfs Proc ProcInv ProcOps ProcSteps ProcSafety Kinv Dir Typed Path FileSafety.

(** ** Counting entries *)

Fixpoint occ (f : Z) (l : list Z) : nat :=
  match l with
  | [] => 0
  | g :: l' => (if decide (g = f) then 1 else 0) + occ f l'
  end.

(** The entries of all tables that point to [f]. *)
Definition refs (tabs : list (list Z)) (f : Z) : nat := occ f (concat tabs).

Lemma occ_app f l l' : occ f (l ++ l') = (occ f l + occ f l')%nat.
Proof. induction l as [|g l IH]; [done|]. simpl. rewrite IH. lia. Qed.

Lemma occ_elem f l : f ∈ l -> (0 < occ f l)%nat.
Proof. induction 1 as [|g l Hin IH]; simpl; [rewrite decide_True by done; lia|lia]. Qed.

Lemma occ_zeros f n : f <> 0 -> occ f (repeat 0 n) = 0%nat.
Proof. intros Hf. induction n as [|n IH]; [done|]. simpl. rewrite decide_False by congruence. done. Qed.

Lemma occ_length f l : (occ f l <= length l)%nat.
Proof. induction l as [|g l IH]; simpl; [done|]. case_decide; lia. Qed.

Lemma occ_insert f l k old new : l !! k = Some old ->
  (occ f (<[k := new]> l) + (if decide (old = f) then 1 else 0) = occ f l + (if decide (new = f) then 1 else 0))%nat.
Proof.
  revert k. induction l as [|g l IH]; intros [|k] Hk; try done; simpl in *; [injection Hk as ->; lia|]. specialize (IH k Hk). lia.
Qed.

Lemma refs_insert f tabs i t t' : tabs !! i = Some t -> (refs (<[i := t']> tabs) f + occ f t = refs tabs f + occ f t')%nat.
Proof.
  unfold refs. revert i. induction tabs as [|u tabs IH]; intros [|i] Hi; try done; simpl in *; rewrite !occ_app; [injection Hi as ->; lia|].
  specialize (IH i Hi). lia.
Qed.

Lemma refs_table f tabs i t : tabs !! i = Some t -> (occ f t <= refs tabs f)%nat.
Proof.
  unfold refs. revert i. induction tabs as [|u tabs IH]; intros [|i] Hi; try done; simpl in *; rewrite occ_app; [injection Hi as ->; lia|].
  specialize (IH i Hi). lia.
Qed.

(** ** Files and their references *)

Definition add1 (R : Z -> nat) (f g : Z) : nat := R g + (if decide (f = g) then 1 else 0).

(** A file with references is open, and counts them. *)
Definition counted (m : gmap Z obj) (R : Z -> nat) : Prop :=
  forall f, f <> 0 -> (0 < R f)%nat -> exists x, m !! f = Some (OFile x) /\ f_refcount x = Z.of_nat (R f).

Section descriptors.
Context {H : Type} `{!Heap H} `{!HeapLaws H}.
Implicit Types (s : kstate H fstate) (m : gmap Z obj) (R : Z -> nat).

Record balanced s (A : gmap Z Z) R : Prop := {
  bl_files : files_ok s A;
  bl_plain : no_pipes (objs (k_files s));
  bl_count : counted (objs (k_files s)) R
}.

Lemma balanced_ext s A R R' : (forall f, f <> 0 -> R f = R' f) -> balanced s A R -> balanced s A R'.
Proof. intros He [Hf Hp Hc]. split; [done|done|]. intros f Hz Hr. rewrite <- He in Hr |- * by done. by apply Hc. Qed.

Lemma balanced_open s A R s' m' f : balanced s A R -> still_typed s (objs (k_files s)) A s' m' -> open_result (objs (k_files s)) m' f ->
  balanced s' A (if decide (f = 0) then R else add1 R f).
Proof.
  intros [Hf Hp Hc] Hst [(F1 & _ & B1) Hr]. assert (Hf' : files_ok s' A) by (eapply files_ok_still; [apply Hf|apply Hf|exact Hst]).
  destruct Hst as (h' & -> & _ & T' & _). split; [done| |].
  - intros v x Hv. destruct (B1 v x Hv) as [->|(y & Hy & ->)]; [done|by apply (Hp v)].
  - intros g Hg Hrg. change (objs (k_files (st s h' m'))) with m'. case_decide as Hz.
    + destruct (Hc g Hg Hrg) as (x & Hx & Ex). exists x. split; [by apply F1|done].
    + unfold add1 in *. destruct Hr as [?|((v & x & Hx & _ & Ex) & Hnew)]; [done|]. case_decide as Hfg.
      * subst g. exists x. split; [done|]. assert (R f = 0%nat); [|lia]. destruct (decide (R f = 0%nat)) as [|Hn]; [done|].
        destruct (Hc f Hz ltac:(lia)) as (y & Hy & _). by destruct (Hnew y).
      * destruct (Hc g Hg ltac:(lia)) as (y & Hy & Ey). exists y. split; [by apply F1|lia].
Qed.

Lemma balanced_plain s A R f : balanced s A R -> f <> 0 -> (0 < R f)%nat -> plain_file (objs (k_files s)) f.
Proof.
  intros [Hf Hp Hc] Hz Hr. destruct (Hc f Hz Hr) as (x & Hx & _). destruct (ty_file _ (fo_typed _ _ Hf) f x Hx) as [y Hy]. exists x, y. by split_and!; [..|apply (Hp (f_vnode x))].
Qed.

(** Closing takes one reference away. *)
Lemma close_balanced s A R f : balanced s A (add1 R f) -> f <> 0 -> Z.of_nat (R f) + 1 < 2 ^ 32 -> runs (vfs_close_op f) s (fun _ s' => balanced s' A R).
Proof.
  intros Hb Hz Hbound. assert (Hpos : (0 < add1 R f f)%nat) by (unfold add1; rewrite decide_True by done; lia).
  pose proof (balanced_plain s A _ f Hb Hz Hpos) as Hpl. destruct Hb as [Hf Hp Hc]. pose proof Hf as [Hh Ht Hm Hd].
  rewrite (st_self s) at 1. eapply runs_weaken; [by apply (vfs_close_typed s _ _ A f); [..|right]|]. intros _ s' (m' & Hst & C1 & C2 & C3).
  assert (Hf' : files_ok s' A) by (by apply (files_ok_still s (objs (k_files s)) A s' m')).
  destruct Hst as (h' & -> & _). split; [done| |].
  - intros v x Hv. destruct (C2 v x Hv) as [->|(y & Hy & ->)]; [done|by apply (Hp v)].
  - intros g Hg Hr. change (objs (k_files (st s h' m'))) with m'. destruct (Hc g Hg ltac:(unfold add1; lia)) as (x & Hx & Ex).
    unfold add1 in Ex. case_decide as Hfg; [|exists x; split; [by apply C1; [congruence|]|lia]]. subst g.
    assert (Er : f_refcount x -w 1 = Z.of_nat (R f)) by (rewrite u32_small; lia).
    exists (set_f_refcount (Z.of_nat (R f)) x). rewrite <- Er. split; [|done]. apply C3; [done|lia].
Qed.

(** [f->refcount++] adds one. *)
Lemma ref_balanced s A R f : balanced s A R -> f <> 0 -> (0 < R f)%nat -> Z.of_nat (R f) + 1 < 2 ^ 32 ->
  runs (file_ref_op f) s (fun _ s' => balanced s' A (add1 R f)).
Proof.
  intros [Hf Hp Hc] Hz Hr Hb. destruct (Hc f Hz Hr) as (x & Hx & Ex). pose proof Hf as [Hh Ht Hm Hd]. set (m := objs (k_files s)) in *.
  rewrite (st_self s) at 1. fold m. unfold file_ref_op. eapply runs_load; [exact Hx|done|].
  eapply runs_ok; [by apply (store_st _ _ _ _ _ _ Hx)|]. set (o := OFile _).
  pose proof (update_still s (k_heap s) m A f (OFile x) o Hh Ht Hx ltac:(done)) as Hst.
  split; [by apply (files_ok_still s m A _ _ Hm Hd Hst)| |]; simpl.
  - intros v y. rewrite lookup_insert. case_decide; [done|]. apply Hp.
  - intros g Hg Hrg. rewrite lookup_insert. unfold add1 in *. case_decide as Hfg.
    + subst g. eexists. split; [done|]. simpl. rewrite Ex, u32_small; lia.
    + destruct (Hc g Hg ltac:(lia)) as (y & Hy & Ey). exists y. split; [done|lia].
Qed.

(** ** Whole tables *)

Lemma clone_balanced A src : forall s R, balanced s A R -> (forall f, f ∈ src -> f <> 0 -> (0 < R f)%nat) ->
  (forall f, Z.of_nat (R f) + Z.of_nat (length src) < 2 ^ 32) ->
  runs (fd_table_clone src) s (fun t s' => t = src /\ balanced s' A (fun g => R g + occ g src)%nat).
Proof.
  induction src as [|f src IH]; intros s R Hb Hin Hbd.
  { eapply runs_ok; [done|]. split; [done|]. eapply balanced_ext; [|exact Hb]. intros g _. simpl. lia. }
  cbn [fd_table_clone]. cbn [length] in Hbd.
  eapply (runs_bind _ _ _ (fun _ s' => balanced s' A (if decide (f = 0) then R else add1 R f))).
  - destruct (Z.eqb_spec f 0) as [->|Hz]; [by eapply runs_ok|]. rewrite decide_False by done. apply ref_balanced; [done|done|by apply Hin; [left|]|specialize (Hbd f); lia].
  - intros _ s1 H1. eapply runs_bind; [apply (IH s1 _ H1)|].
    + intros g Hg Hgz. specialize (Hin g ltac:(by right) Hgz). case_decide; [done|]. unfold add1. lia.
    + intros g. specialize (Hbd g). case_decide; [lia|]. unfold add1. case_decide; lia.
    + intros t s2 [-> H2]. eapply runs_ok; [done|]. split; [done|]. eapply balanced_ext; [|exact H2]. intros g Hg. cbn [occ]. unfold add1. repeat case_decide; try lia; congruence.
Qed.

Lemma close_all_balanced A t : forall s R, balanced s A (fun g => R g + occ g t)%nat ->
  (forall f, Z.of_nat (R f) + Z.of_nat (length t) < 2 ^ 32) ->
  runs (fd_table_close_all t) s (fun t' s' => t' = repeat 0 (length t) /\ balanced s' A R).
Proof.
  induction t as [|f t IH]; intros s R Hb Hbd.
  { eapply runs_ok; [done|]. split; [done|]. eapply balanced_ext; [|exact Hb]. intros g _. simpl. lia. }
  cbn [fd_table_close_all length] in *.
  eapply (runs_bind _ _ _ (fun _ s' => balanced s' A (fun g => R g + occ g t)%nat)).
  - destruct (Z.eqb_spec f 0) as [->|Hz].
    + eapply runs_ok; [done|]. eapply balanced_ext; [|exact Hb]. intros g Hg. cbn [occ]. rewrite decide_False by congruence. lia.
    + apply close_balanced; [|done|specialize (Hbd f); pose proof (occ_length f t); lia]. eapply balanced_ext; [|exact Hb]. intros g _. cbn [occ]. unfold add1. lia.
  - intros _ s1 H1. eapply runs_bind; [apply (IH s1 R H1)|]; [intros g; specialize (Hbd g); lia|]. intros t' s2 [-> H2]. by eapply runs_ok.
Qed.

(** Three new files in an empty table. *)
Lemma init_balanced s A R : balanced s A R ->
  runs fd_table_init s (fun t s' => length t = FD_MAX /\ balanced s' A (fun g => R g + occ g t)%nat).
Proof.
  intros Hb. unfold fd_table_init.
  assert (Hopen : forall s0 R0 dev flags, balanced s0 A R0 -> (exists v, dev s0 = Ok (v, s0) /\ v ∈ devices (k_files s0)) ->
    runs (v ← dev; vfs_open_vnode v flags) s0 (fun f s' => balanced s' A (if decide (f = 0) then R0 else add1 R0 f) /\ devices (k_files s') = devices (k_files s0))).
  { intros s0 R0 dev flags H0 (v & Ev & Hv). eapply runs_step; [exact Ev|]. destruct (bl_files _ _ _ H0) as [Hh Ht Hm Hd].
    assert (Hv0 : v = 0 \/ is_vnode (objs (k_files s0)) v) by (rewrite Forall_forall in Hd; by apply Hd).
    rewrite (st_self s0) at 1. eapply runs_weaken; [by apply (open_std_typed s0 _ _ A v flags)|]. intros f s' (m' & Hst & Hr).
    split; [by apply (balanced_open s0 A R0 s' m')|]. by destruct Hst as (h' & -> & _). }
  assert (Hassoc : forall {X Y} (d : M (kstate H fstate) X) (k : X -> M (kstate H fstate) Y) Z0 (k2 : Y -> M (kstate H fstate) Z0) s0 P,
    runs ((x ← d; k x) ≫= k2) s0 P -> runs (x ← d; y ← k x; k2 y) s0 P).
  { intros X Y d k Z0 k2 s0 P. unfold runs, mbind, M_bind. by destruct (d s0) as [[x s1]|]. }
  apply Hassoc. eapply runs_bind; [apply (Hopen s R _ O_RDONLY Hb); eexists; split; [reflexivity|by left]|]. intros f0 s1 [H1 D1].
  apply Hassoc. eapply runs_bind; [apply (Hopen s1 _ _ O_WRONLY H1); eexists; split; [reflexivity|]; by right; left|]. intros f1 s2 [H2 D2].
  apply Hassoc. eapply runs_bind; [apply (Hopen s2 _ _ O_WRONLY H2); eexists; split; [reflexivity|]; by right; right; left|]. intros f2 s3 [H3 D3].
  eapply runs_ok; [done|]. split; [done|]. eapply balanced_ext; [|exact H3]. intros g Hg. unfold add1. simpl.
  repeat case_decide; try congruence; lia.
Qed.

(** ** The calls

    [tabs] are the tables of all process slots. A call gives the tables after
    it. [DReap] is the closing of a table by proc_destroy, when the process is
    reaped: proc_exit leaves the table of a zombie open. [DOpen] and [DDup2] are
    what sys_open and sys_dup2 do to the tables; SysFiles.v proves the same of
    the system calls themselves, on the tables in the process table. *)
Inductive dcall : Type :=
| DSpawn (i : nat)
| DFork (i child : nat)
| DReap (i : nat)
| DOpen (i : nat) (path : list Z) (flags : Z)
| DClose (i : nat) (fd : Z)
| DDup2 (i : nat) (oldfd newfd : Z).

Definition table_of (tabs : list (list Z)) (i : nat) : list Z := default (repeat 0 FD_MAX) (tabs !! i).

Definition do_dcall (c : dcall) (tabs : list (list Z)) : M (kstate H fstate) (list (list Z)) :=
  match c with
  | DSpawn i => t ← fd_table_init; mret (<[i := t]> tabs)
  | DFork i child => t ← fd_table_clone (table_of tabs i); mret (<[child := t]> tabs)
  | DReap i => t ← fd_table_close_all (table_of tabs i); mret (<[i := t]> tabs)
  | DOpen i path flags =>
      f ← vfs_open path flags;
      if f =? 0 then mret tabs else
      let '(fd, t) := fd_install (table_of tabs i) f in
      if fd <? 0 then vfs_close_op f ;; mret tabs else mret (<[i := t]> tabs)
  | DClose i fd => t ← fd_close (table_of tabs i) fd; mret (<[i := t]> tabs)
  | DDup2 i oldfd newfd =>
      if (oldfd <? 0) || (Z.of_nat FD_MAX <=? oldfd) || (newfd <? 0) || (Z.of_nat FD_MAX <=? newfd) then mret tabs else
      match fd_entry (table_of tabs i) oldfd with
      | None => mret tabs
      | Some f =>
          if oldfd =? newfd then mret tabs else
          t ← (match fd_entry (table_of tabs i) newfd with Some _ => fd_close (table_of tabs i) newfd | None => mret (table_of tabs i) end);
          file_ref_op f ;; mret (<[i := <[Z.to_nat newfd := f]> t]> tabs)
      end
  end.

(** The slots exist, that of a new process is empty. *)
Definition dcall_ok (tabs : list (list Z)) (c : dcall) : Prop :=
  match c with
  | DSpawn i => tabs !! i = Some (repeat 0 FD_MAX)
  | DFork i child => is_Some (tabs !! i) /\ tabs !! child = Some (repeat 0 FD_MAX)
  | DReap i | DOpen i _ _ | DClose i _ | DDup2 i _ _ => is_Some (tabs !! i)
  end.

Record fds_ok s A tabs : Prop := {
  fds_slots : length tabs = Z.to_nat MAX_PROCS;
  fds_tables : Forall (fun t => length t = FD_MAX) tabs;
  fds_count : balanced s A (refs tabs)
}.

Lemma refs_bound s A tabs f : fds_ok s A tabs -> Z.of_nat (refs tabs f) <= 4096.
Proof.
  intros [Hs Ht _]. unfold refs. etrans; [apply Nat2Z.inj_le, occ_length|]. assert (Hc : length (concat tabs) = (FD_MAX * length tabs)%nat); [|rewrite Hc, Hs; done].
  clear Hs. induction Ht as [|t tabs Hl Ht IH]; [done|]. cbn [concat length]. rewrite length_app, IH, Hl, Nat.mul_succ_r. lia.
Qed.

Lemma fds_put s A s' tabs i t t' : fds_ok s A tabs -> tabs !! i = Some t -> length t' = FD_MAX ->
  balanced s' A (fun g => refs tabs g + occ g t' - occ g t)%nat -> fds_ok s' A (<[i := t']> tabs).
Proof.
  intros Hf Hi Hl Hb. pose proof Hf as [Hs Ht _]. split; [by rewrite length_insert|by apply Forall_insert|]. eapply balanced_ext; [|exact Hb]. intros g _.
  cbn beta. pose proof (refs_insert g tabs i t t' Hi). pose proof (refs_table g tabs i t Hi). lia.
Qed.

Lemma table_of_at tabs i : is_Some (tabs !! i) -> tabs !! i = Some (table_of tabs i).
Proof. intros [t Hi]. unfold table_of. by rewrite Hi. Qed.

Lemma entry_at t fd f : length t = FD_MAX -> fd_entry t fd = Some f -> t !! Z.to_nat fd = Some f /\ f <> 0 /\ 0 <= fd < Z.of_nat FD_MAX.
Proof.
  intros Hl. unfold fd_entry. destruct (Z.ltb_spec fd 0), (Z.leb_spec (Z.of_nat FD_MAX) fd); try done; simpl. destruct (t !! Z.to_nat fd) as [g|]; [|done].
  destruct (Z.eqb_spec g 0); [done|]. intros [= <-]. split; [done|]. split; [done|lia].
Qed.

Lemma entry_none t fd : length t = FD_MAX -> 0 <= fd < Z.of_nat FD_MAX -> fd_entry t fd = None -> t !! Z.to_nat fd = Some 0.
Proof.
  intros Hl Hfd. unfold fd_entry. rewrite (proj2 (Z.ltb_ge fd 0)), (proj2 (Z.leb_gt _ fd)) by lia. simpl.
  destruct (lookup_lt_is_Some_2 t (Z.to_nat fd)) as [g Hg]; [unfold FD_MAX in *; lia|]. rewrite Hg. destruct (Z.eqb_spec g 0) as [->|]; [done|done].
Qed.

Lemma install_at t f : let '(fd, t') := fd_install t f in (fd = -1 /\ t' = t) \/ (0 <= fd /\ t !! Z.to_nat fd = Some 0 /\ t' = <[Z.to_nat fd := f]> t).
Proof.
  unfold fd_install. assert (Hs : forall l i, 0 <= i -> match free_slot l i with None => True | Some j => i <= j /\ l !! Z.to_nat (j - i) = Some 0 end).
  { induction l as [|g l IH]; intros i Hi; [done|]. simpl. destruct (Z.eqb_spec g 0) as [->|]; [rewrite Z.sub_diag; done|].
    specialize (IH (i + 1) ltac:(lia)). destruct (free_slot l (i + 1)) as [j|]; [|done]. destruct IH as [Hj Hl]. split; [lia|].
    replace (Z.to_nat (j - i)) with (S (Z.to_nat (j - (i + 1)))) by lia. done. }
  specialize (Hs t 0 ltac:(lia)). destruct (free_slot t 0) as [j|]; [|by left]. right. rewrite Z.sub_0_r in Hs. destruct Hs. by split_and!.
Qed.

(** A file that has a new entry in place of a null one. *)
Lemma fds_install s A s' tabs i t k f : fds_ok s A tabs -> tabs !! i = Some t -> t !! k = Some 0 -> f <> 0 ->
  balanced s' A (add1 (refs tabs) f) -> fds_ok s' A (<[i := <[k := f]> t]> tabs).
Proof.
  intros Hf Hi Hk Hz Hb. apply (fds_put s A s' tabs i t); [done|done|rewrite length_insert; by apply (Forall_lookup_1 _ _ _ _ (fds_tables _ _ _ Hf) Hi)|].
  eapply balanced_ext; [|exact Hb]. intros g Hg. cbn beta. pose proof (occ_insert g t k 0 f Hk) as E. pose proof (refs_table g tabs i t Hi).
  rewrite decide_False in E by congruence. unfold add1. lia.
Qed.

Lemma fd_close_runs s A tabs i t fd : fds_ok s A tabs -> tabs !! i = Some t ->
  runs (fd_close t fd) s (fun t' s' => fds_ok s' A (<[i := t']> tabs) /\ t' = match fd_entry t fd with Some _ => <[Z.to_nat fd := 0]> t | None => t end).
Proof.
  intros Hf Hi. assert (Hl : length t = FD_MAX) by (by apply (Forall_lookup_1 _ _ _ _ (fds_tables _ _ _ Hf) Hi)). unfold fd_close.
  destruct (fd_entry t fd) as [f|] eqn:Ee; [|eapply runs_ok; [done|]; split; [|done]; by rewrite list_insert_id].
  destruct (entry_at t fd f Hl Ee) as (Hk & Hz & _). pose proof (occ_insert f t _ f 0 Hk) as Eo. rewrite decide_True in Eo by done. rewrite decide_False in Eo by congruence.
  set (R := fun g => (refs tabs g + occ g (<[Z.to_nat fd := 0%Z]> t) - occ g t)%nat). eapply (runs_bind _ _ _ (fun _ s' => balanced s' A R)).
  - apply (close_balanced s A R f); [|done|unfold R; pose proof (refs_bound s A tabs f Hf); lia]. eapply balanced_ext; [|apply Hf]. intros g Hg. unfold add1, R.
    pose proof (occ_insert g t _ f 0 Hk) as Eg. rewrite (decide_False (P := 0 = g)) in Eg by congruence. pose proof (refs_table g tabs i t Hi). lia.
  - intros _ s' H1. eapply runs_ok; [done|]. split; [|done]. apply (fds_put s A s' tabs i t); [done|done|by rewrite length_insert|done].
Qed.

Lemma dup2_runs s A tabs i t oldfd newfd : fds_ok s A tabs -> tabs !! i = Some t -> table_of tabs i = t ->
  runs (do_dcall (DDup2 i oldfd newfd) tabs) s (fun tabs' s' => fds_ok s' A tabs').
Proof.
  intros Hf Hi Et. assert (Hl : length t = FD_MAX) by (by apply (Forall_lookup_1 _ _ _ _ (fds_tables _ _ _ Hf) Hi)). cbn [do_dcall]. rewrite Et.
  assert (Hsame : runs (mret tabs) s (fun tabs' s' => fds_ok s' A tabs')) by (by eapply runs_ok).
  destruct (Z.ltb_spec oldfd 0), (Z.leb_spec (Z.of_nat FD_MAX) oldfd), (Z.ltb_spec newfd 0), (Z.leb_spec (Z.of_nat FD_MAX) newfd); try done. cbn [orb].
  destruct (fd_entry t oldfd) as [f|] eqn:Eo; [|done]. destruct (entry_at t oldfd f Hl Eo) as (Hk & Hz & _).
  destruct (Z.eqb_spec oldfd newfd) as [|Hne]; [done|]. assert (Hk' : Z.to_nat newfd <> Z.to_nat oldfd) by lia.
  eapply (runs_bind _ _ _ (fun t' s' => fds_ok s' A (<[i := t']> tabs) /\ t' !! Z.to_nat newfd = Some 0 /\ t' !! Z.to_nat oldfd = Some f)).
  - destruct (fd_entry t newfd) as [g|] eqn:En.
    + eapply runs_weaken; [by apply (fd_close_runs s A tabs i t newfd)|]. intros t' s' [K1 E]. rewrite En in E. subst t'. split; [done|].
      split; [apply list_lookup_insert_eq; destruct (entry_at t newfd g Hl En) as (Hg & _); by eapply lookup_lt_Some|by rewrite list_lookup_insert_ne].
    + eapply runs_ok; [done|]. split; [by rewrite list_insert_id|]. split; [by apply entry_none|done].
  - intros t' s' (K1 & Hn & Ho). assert (Hi' : <[i := t']> tabs !! i = Some t') by (apply list_lookup_insert_eq; by eapply lookup_lt_Some).
    assert (Hr : (0 < refs (<[i := t']> tabs) f)%nat) by (pose proof (refs_table f _ i t' Hi'); pose proof (occ_elem f t' (list_elem_of_lookup_2 _ _ _ Ho)); lia).
    eapply runs_bind; [apply (ref_balanced s' A _ f (fds_count _ _ _ K1) Hz Hr); pose proof (refs_bound s' A _ f K1); lia|].
    intros [] s2 K2. eapply runs_ok; [done|]. pose proof (fds_install s' A s2 _ i t' _ f K1 Hi' Hn Hz K2) as K3. by rewrite list_insert_insert_eq in K3.
Qed.

(** Opening, before the file has an entry. *)
Lemma open_balanced s A tabs path flags : fds_ok s A tabs ->
  runs (vfs_open path flags) s (fun f s' => balanced s' A (if decide (f = 0) then refs tabs else add1 (refs tabs) f)).
Proof.
  intros [Hs Ht Hb]. destruct (bl_files _ _ _ Hb) as [Hh Hty Hm Hd]. rewrite (st_self s) at 1.
  eapply runs_weaken; [by apply (vfs_open_typed s _ _ A path flags)|]. intros f s' (m' & Hst & Hr). by apply (balanced_open s A _ s' m').
Qed.

Lemma open_runs s A tabs i t path flags : fds_ok s A tabs -> tabs !! i = Some t -> table_of tabs i = t ->
  runs (do_dcall (DOpen i path flags) tabs) s (fun tabs' s' => fds_ok s' A tabs').
Proof.
  intros Hf Hi Et. pose proof Hf as [Hs Ht Hb]. cbn [do_dcall]. rewrite Et. eapply runs_bind; [by apply (open_balanced s A tabs)|].
  intros f s' H1. cbn beta in H1. destruct (Z.eqb_spec f 0) as [->|Hz]; [eapply runs_ok; [done|]; by split|]. rewrite decide_False in H1 by done.
  pose proof (install_at t f) as Hins. destruct (fd_install t f) as [fd t'] eqn:Ei. destruct Hins as [[-> ->]|(Hfd & Hk & ->)].
  - cbn [Z.ltb Z.compare]. eapply runs_bind; [apply (close_balanced s' A (refs tabs) f H1 Hz); pose proof (refs_bound s A tabs f Hf); lia|].
    intros [] s2 H2. eapply runs_ok; [done|]. by split.
  - rewrite (proj2 (Z.ltb_ge fd 0)) by lia. eapply runs_ok; [done|]. by apply (fds_install s A s' tabs i t).
Qed.

Lemma do_dcall_runs s A tabs c : fds_ok s A tabs -> dcall_ok tabs c -> runs (do_dcall c tabs) s (fun tabs' s' => fds_ok s' A tabs').
Proof.
  intros Hf Hc. pose proof Hf as [Hs Ht Hb]. pose proof (fun f => refs_bound s A tabs f Hf) as Hbd.
  assert (Hlen : forall i t, tabs !! i = Some t -> length t = FD_MAX) by (intros i t Hi; by apply (Forall_lookup_1 _ _ _ _ Ht Hi)).
  destruct c as [i|i child|i|i path flags|i fd|i oldfd newfd]; cbn [dcall_ok] in Hc.
  - eapply runs_bind; [by apply (init_balanced s A (refs tabs))|]. intros t s' [Hl H1]. eapply runs_ok; [done|].
    apply (fds_put s A s' tabs i _ t Hf Hc Hl). eapply balanced_ext; [|exact H1]. intros g Hg. cbn beta. rewrite occ_zeros by done. lia.
  - destruct Hc as [Hi%table_of_at Hc]. cbn [do_dcall].
    eapply runs_bind; [apply (clone_balanced A (table_of tabs i) s (refs tabs) Hb)|].
    + intros f Hfi _. pose proof (occ_elem f _ Hfi). pose proof (refs_table f tabs i _ Hi). lia.
    + intros f. rewrite (Hlen i _ Hi). specialize (Hbd f). unfold FD_MAX. lia.
    + intros t s' [-> H1]. eapply runs_ok; [done|]. apply (fds_put s A s' tabs child _ _ Hf Hc (Hlen i _ Hi)). eapply balanced_ext; [|exact H1].
      intros g Hg. cbn beta. rewrite occ_zeros by done. lia.
  - apply table_of_at in Hc. cbn [do_dcall]. set (t := table_of tabs i) in *.
    eapply runs_bind; [apply (close_all_balanced A t s (fun g => refs tabs g - occ g t)%nat)|].
    + eapply balanced_ext; [|exact Hb]. intros g _. cbn beta. pose proof (refs_table g tabs i t Hc). lia.
    + intros f. rewrite (Hlen i t Hc). specialize (Hbd f). unfold FD_MAX. lia.
    + intros t' s' [-> H1]. eapply runs_ok; [done|]. apply (fds_put s A s' tabs i t); [done|done|rewrite repeat_length; by apply (Hlen i)|].
      eapply balanced_ext; [|exact H1]. intros g Hg. cbn beta. rewrite occ_zeros by done. lia.
  - by apply (open_runs s A tabs i (table_of tabs i)); [|apply table_of_at|].
  - apply table_of_at in Hc. cbn [do_dcall]. eapply runs_bind; [by apply (fd_close_runs s A tabs i)|]. intros t s' [H1 _]. by eapply runs_ok.
  - by apply (dup2_runs s A tabs i (table_of tabs i)); [|apply table_of_at|].
Qed.

(** ** The theorem *)

(** The states of file layer and tables that calls reach from the start. *)
Inductive fd_reachable (A : gmap Z Z) : kstate H fstate -> list (list Z) -> Prop :=
| fdr_start h s : healthy h ∅ A -> (vfs_init ;; ramfs_init ;; devfs_init) (zeroed h initial_fstate) = Ok (tt, s) ->
    fd_reachable A s (repeat (repeat 0 FD_MAX) (Z.to_nat MAX_PROCS))
| fdr_call s tabs c tabs' s' : fd_reachable A s tabs -> dcall_ok tabs c -> do_dcall c tabs s = Ok (tabs', s') -> fd_reachable A s' tabs'.

Lemma fds_start s A : files_ok s A -> no_pipes (objs (k_files s)) -> fds_ok s A (repeat (repeat 0 FD_MAX) (Z.to_nat MAX_PROCS)).
Proof.
  intros Hf Hp. split; [by rewrite repeat_length| |].
  - apply Forall_forall. intros t Ht%list_elem_of_In%repeat_spec. subst t. by rewrite repeat_length.
  - split; [done|done|]. intros f Hz Hr. exfalso. unfold refs in Hr. assert (E : forall n, occ f (concat (repeat (repeat 0 FD_MAX) n)) = 0%nat); [|rewrite E in Hr; lia].
    induction n as [|n IH]; [done|]. cbn [repeat concat]. by rewrite occ_app, occ_zeros, IH.
Qed.

Lemma fd_reachable_ok A s tabs : fd_reachable A s tabs -> fds_ok s A tabs.
Proof.
  induction 1 as [h s Hh E|s tabs c tabs' s' Hr IH Hc E].
  - destruct (start_files_typed h A Hh) as [(msg & F)|(r & s1 & F & K & Hp)]; rewrite E in F; [done|]. injection F as _ <-. by apply fds_start.
  - destruct (do_dcall_runs s A tabs c IH Hc) as [(msg & F)|(r & s1 & F & K)]; rewrite E in F; [done|]. by injection F as <- <-.
Qed.

(** C9: descriptors never dangle. In every state that the start of the file
    layer and any interleaving of the calls of all processes that open, close
    and duplicate descriptors, start with the standard ones, inherit those of a
    parent and are reaped can reach (as long as no pipe is made), every entry of every
    descriptor table is null or points to an open file on a vnode, and the
    reference count of that file is the number of entries that point to it. From
    such a state every further call ends without undefined behaviour, with a
    result or by the panic of a heap that cannot grow. *)
Theorem descriptors_safe A s tabs : fd_reachable A s tabs ->
  (forall i t k f, tabs !! i = Some t -> t !! k = Some f -> f <> 0 ->
     exists x, objs (k_files s) !! f = Some (OFile x) /\ is_vnode (objs (k_files s)) (f_vnode x) /\ f_refcount x = Z.of_nat (refs tabs f)) /\
  (forall c, dcall_ok tabs c -> runs (do_dcall c tabs) s (fun tabs' s' => fd_reachable A s' tabs')).
Proof.
  intros Hr. pose proof (fd_reachable_ok A s tabs Hr) as Hf. split.
  - intros i t k f Hi Hk Hz. destruct (fds_count _ _ _ Hf) as [Hfiles _ Hc]. destruct (Hc f Hz) as (x & Hx & Ex).
    { pose proof (refs_table f tabs i t Hi). pose proof (occ_elem f t (list_elem_of_lookup_2 _ _ _ Hk)). lia. }
    exists x. split; [done|]. split; [|done]. by apply (ty_file _ (fo_typed _ _ Hfiles) f).
  - intros c Hc. destruct (do_dcall_runs s A tabs c Hf Hc) as [(msg & E)|(tabs' & s' & E & _)]; [left; by exists msg|right].
    exists tabs', s'. split; [done|]. by apply (fdr_call A s tabs c).
Qed.
End descriptors.

(** ** Witness *)

Definition demo_tabs : list (list Z) := repeat (repeat 0 FD_MAX) (Z.to_nat MAX_PROCS).

Lemma demo_fd_reachable : fd_reachable ∅ demo_mounted demo_tabs.
Proof.
  assert (Hh : heap_ok demo_heap ∅ ∅) by exact demo_heap_ok. destruct demo_mounted_run as [[] E].
  apply (fdr_start ∅ demo_heap); [|exact E]. exists ∅. split; [exact Hh|exact (initial_fs_ok ∅)].
Qed.

(** A process starts, opens a file, duplicates it and its table is inherited. *)
Definition demo_calls : list dcall := [DSpawn 1; DOpen 1 [SLASH; 97] O_CREAT; DDup2 1 3 5; DFork 1 2; DReap 1].
Fixpoint do_dcalls (cs : list dcall) (tabs : list (list Z)) : M demo_kstate (list (list Z)) :=
  match cs with
  | [] => mret tabs
  | c :: cs' => tabs ← do_dcall c tabs; do_dcalls cs' tabs
  end.
Lemma demo_calls_run : match do_dcalls demo_calls demo_tabs demo_mounted with
  | Ok (tabs, s) => let t := table_of tabs 2 in
      match t !! 3%nat with
      | Some f => match objs (k_files s) !! f with Some (OFile x) => (f_refcount x =? 2) && bool_decide (t !! 5%nat = Some f) | _ => false end
      | None => false
      end
  | Stop _ => false
  end = true.
Proof. vm_compute. reflexivity. Qed.

Lemma descriptors_safe_witness : runs (do_dcall (DSpawn 1) demo_tabs) demo_mounted (fun tabs' s' => fd_reachable ∅ s' tabs').
Proof. exact (proj2 (descriptors_safe ∅ demo_mounted demo_tabs demo_fd_reachable) (DSpawn 1) eq_refl). Defined.
