(* ===== verification/Tables.v ===== *)
(** * The descriptor tables in the process table (kernel/proc/proc.c, sched.c,
      fork.c, exec.c over kernel/fs)

    The table of every process sits in its slot of the process table. The
    scheduler leaves the tables, the address spaces and the file layer alone and
    kills no process but the one that exits ([calm], [quiet]), operation by
    operation. *)

From Stdlib Require Import ZArith Lia.
From S2P Require Import Prelude Kheap HeapSpec Kstate Fd Fs FsLaws Ramfs Proc ProcInv ProcOps ProcSteps ProcSafety Kinv Dir Typed Path FileSafety Descriptors.

Section tables.
Context {H : Type} `{!Heap H} `{!HeapLaws H}.
Implicit Types (s : kstate H fstate).

(** ** The tables as a list *)

Definition tables s : list (list Z) := (fun i => p_fd_table (pcb_at s i)) <$> seqZ 0 MAX_PROCS.

Lemma tables_length s : length (tables s) = Z.to_nat MAX_PROCS.
Proof. unfold tables. by rewrite length_fmap, length_seqZ. Qed.

Lemma tables_at s i : 0 <= i < MAX_PROCS -> tables s !! Z.to_nat i = Some (p_fd_table (pcb_at s i)).
Proof.
  intros Hi. unfold tables. rewrite list_lookup_fmap, lookup_seqZ_lt by lia. simpl. do 3 f_equal. lia.
Qed.

Lemma tables_ext s s' : (forall i, p_fd_table (pcb_at s' i) = p_fd_table (pcb_at s i)) -> tables s' = tables s.
Proof. intros Ht. unfold tables. apply list_fmap_ext. intros _ i _. apply Ht. Qed.

(** One slot changes. *)
Lemma tables_slot s s' i : 0 <= i < MAX_PROCS -> (forall j, j <> i -> p_fd_table (pcb_at s' j) = p_fd_table (pcb_at s j)) ->
  tables s' = <[Z.to_nat i := p_fd_table (pcb_at s' i)]> (tables s).
Proof.
  intros Hi Ho. apply list_eq. intros j. destruct (decide (j < Z.to_nat MAX_PROCS)%nat) as [Hj|Hj].
  - rewrite <- (Nat2Z.id j), tables_at by lia. destruct (decide (Z.of_nat j = i)) as [<-|Hd].
    + rewrite list_lookup_insert_eq by (rewrite tables_length; lia). done.
    + rewrite list_lookup_insert_ne by lia. rewrite tables_at by lia. by rewrite Ho.
  - rewrite !lookup_ge_None_2; [done|rewrite length_insert|]; rewrite tables_length; lia.
Qed.

Lemma tables_put s i t : 0 <= i < MAX_PROCS -> tables (upd_pcb i (set_p_fd_table t) s) = <[Z.to_nat i := t]> (tables s).
Proof.
  intros Hi. rewrite (tables_slot s _ i Hi); [|intros j Hj; by rewrite pcb_upd, decide_False by done]. by rewrite pcb_upd, decide_True by done.
Qed.

(** ** What the scheduler leaves alone *)

Definition alive s i : Prop := state_of s i <> PROC_UNUSED /\ state_of s i <> PROC_ZOMBIE.

(** The slots keep their tables and address spaces, none becomes unused, and no
    process but [e] dies. *)
Record calm (e : option Z) s s' : Prop := {
  cm_table : forall i, p_fd_table (pcb_at s' i) = p_fd_table (pcb_at s i);
  cm_space : forall i, p_page_directory (pcb_at s' i) = p_page_directory (pcb_at s i);
  cm_unused : forall i, state_of s' i = PROC_UNUSED -> state_of s i = PROC_UNUSED;
  cm_alive : forall i, e <> Some i -> alive s i -> alive s' i
}.

(** The file layer is left alone too. *)
Definition quiet (e : option Z) s s' : Prop := calm e s s' /\ k_files s' = k_files s.

Lemma calm_refl e s : calm e s s.
Proof. by split. Qed.
Lemma calm_trans e s1 s2 s3 : calm e s1 s2 -> calm e s2 s3 -> calm e s1 s3.
Proof. intros [A1 A2 A3 A4] [B1 B2 B3 B4]. split; intros i; [by rewrite B1|by rewrite B2|auto|auto]. Qed.
#[export] Instance calm_preorder e : PreOrder (calm e).
Proof. split; [exact (calm_refl e)|exact (calm_trans e)]. Qed.
#[export] Instance quiet_preorder e : PreOrder (quiet e).
Proof. split; [by split|]. intros s1 s2 s3 [A1 A2] [B1 B2]. split; [by transitivity s2|congruence]. Qed.

Lemma calm_weaken e s s' : calm None s s' -> calm e s s'.
Proof. intros [A1 A2 A3 A4]. split; auto. Qed.
Lemma quiet_weaken e s s' : quiet None s s' -> quiet e s s'.
Proof. intros [A1 A2]. split; [by apply calm_weaken|done]. Qed.

(** The slots are the same. *)
Lemma calm_same e s s' : (forall i, pcb_at s' i = pcb_at s i) -> calm e s s'.
Proof. intros Hp. split; intros i; unfold alive, state_of; rewrite ?Hp; auto. Qed.
Lemma quiet_same e s s' : proc_table s' = proc_table s -> k_files s' = k_files s -> quiet e s s'.
Proof. intros Hp Hf. split; [|done]. apply calm_same. intros i. unfold pcb_at. by rewrite Hp. Qed.

(** One control block changes. *)
Lemma quiet_upd e s i f : let p := pcb_at s i in
  p_fd_table (f p) = p_fd_table p -> p_page_directory (f p) = p_page_directory p ->
  (p_state (f p) = PROC_UNUSED -> p_state p = PROC_UNUSED) -> (p_state (f p) = PROC_ZOMBIE -> p_state p = PROC_ZOMBIE \/ e = Some i) ->
  quiet e s (upd_pcb i f s).
Proof.
  intros p H1 H2 H3 H4. split; [|done]. split; intros j; unfold alive, state_of; rewrite pcb_upd; case_decide as Hd; subst; try done.
  - intros He [A1 A2]. split; [auto|]. intros Hz. destruct (H4 Hz) as [?|?]; done.
Qed.

(** Only the table of [i] changes. *)
Record calm_but (i : Z) s s' : Prop := {
  cb_table : forall j, j <> i -> p_fd_table (pcb_at s' j) = p_fd_table (pcb_at s j);
  cb_space : forall j, p_page_directory (pcb_at s' j) = p_page_directory (pcb_at s j);
  cb_unused : forall j, state_of s' j = PROC_UNUSED -> state_of s j = PROC_UNUSED;
  cb_alive : forall j, alive s j -> alive s' j
}.

#[export] Instance calm_but_preorder i : PreOrder (calm_but i).
Proof.
  split; [by split|]. intros s1 s2 s3 [A1 A2 A3 A4] [B1 B2 B3 B4]. split; intros j; [intros Hj; by rewrite B1, A1|by rewrite B2|auto|auto].
Qed.
Lemma calm_but_calm i s s' : calm None s s' -> calm_but i s s'.
Proof. intros [A1 A2 A3 A4]. split; auto. Qed.
Lemma calm_but_put i t s : calm_but i s (upd_pcb i (set_p_fd_table t) s).
Proof. split; intros j; unfold alive, state_of; rewrite pcb_upd; case_decide; subst; done. Qed.

(** *** Operations *)

Definition quietly {T : Type} (c : M (kstate H fstate) T) : Prop := forall s r s', c s = Ok (r, s') -> quiet None s s'.

Lemma quietly_ret {T} (x : T) : quietly (mret x).
Proof. intros s r s' [= <- <-]. reflexivity. Qed.
Lemma quietly_stop {T} f : quietly (stop f : M _ T).
Proof. intros s r s' E. done. Qed.
Lemma quietly_gets {T} (f : kstate H fstate -> T) : quietly (gets f).
Proof. intros s r s' [= <- <-]. reflexivity. Qed.
Lemma quietly_modify f : (forall s, quiet None s (f s)) -> quietly (modify f).
Proof. intros Hf s r s' [= <- <-]. apply Hf. Qed.
Lemma quietly_bind {T U} (c : M (kstate H fstate) T) (k : T -> M (kstate H fstate) U) : quietly c -> (forall x, quietly (k x)) -> quietly (c ≫= k).
Proof. intros Hc Hk s r s' E. apply bind_inv in E as (x & s1 & E1 & E2). transitivity s1; [by apply (Hc s x)|by apply (Hk x s1 r)]. Qed.
Lemma quietly_on_heap {T} (c : M H T) : quietly (on_heap c).
Proof. intros s r s' E. unfold on_heap, zoom in E. destruct (c (k_heap s)) as [[x h]|]; [|done]. injection E as <- <-. by apply quiet_same. Qed.

Lemma quietly_sched_add p : quietly (sched_add p).
Proof.
  intros s r s' E. unfold sched_add in E. destruct p as [i|]; [|by injection E as _ <-].
  destruct (negb _); [by injection E as _ <-|]. destruct (_ <=? _); injection E as _ <-; by apply quiet_same.
Qed.
Lemma quietly_sched_remove p : quietly (sched_remove p).
Proof. apply quietly_modify. intros s. destruct (find_up _ _ _); by apply quiet_same. Qed.

(** A control block whose process gets a state of the living. *)
Lemma quiet_live s i f : p_fd_table (f (pcb_at s i)) = p_fd_table (pcb_at s i) -> p_page_directory (f (pcb_at s i)) = p_page_directory (pcb_at s i) ->
  p_state (f (pcb_at s i)) <> PROC_UNUSED -> p_state (f (pcb_at s i)) <> PROC_ZOMBIE -> quiet None s (upd_pcb i f s).
Proof. intros H1 H2 H3 H4. by apply quiet_upd. Qed.
Lemma quiet_field s i f : p_fd_table (f (pcb_at s i)) = p_fd_table (pcb_at s i) -> p_page_directory (f (pcb_at s i)) = p_page_directory (pcb_at s i) ->
  p_state (f (pcb_at s i)) = p_state (pcb_at s i) -> quiet None s (upd_pcb i f s).
Proof. intros H1 H2 H3. apply quiet_upd; rewrite ?H3; auto. Qed.

Lemma quietly_proc_wake p : quietly (proc_wake p).
Proof.
  destruct p as [i|]; [|apply quietly_ret]. apply quietly_bind; [apply quietly_gets|]. intros x. destruct (negb _); [apply quietly_ret|].
  apply quietly_bind; [|intros _; apply quietly_sched_add]. apply quietly_modify. intros s. by apply quiet_live.
Qed.

Lemma for_upM_quiet (body : Z -> M (kstate H fstate) unit) n : forall i, (forall j, quietly (body j)) -> quietly (for_upM n i body).
Proof. induction n as [|n IH]; intros i Hb; simpl; [apply quietly_ret|]. apply quietly_bind; [apply Hb|]. intros _. by apply IH. Qed.

Lemma quietly_timer_handler : quietly timer_handler.
Proof.
  apply quietly_bind; [apply quietly_modify; intros s; by apply quiet_same|]. intros _. unfold sched_tick.
  apply quietly_bind; [apply quietly_modify; intros s; by apply quiet_same|]. intros _. apply quietly_bind; [apply quietly_gets|]. intros now.
  apply for_upM_quiet. intros j s r s' E. unfold tick_one in E. destruct (proc_get s j) as [i|]; [|by injection E as _ <-].
  destruct (negb _); [by injection E as _ <-|]. destruct (_ =? 0); [by injection E as _ <-|]. destruct (_ <=? now); [by apply (quietly_proc_wake (Some i) s r)|by injection E as _ <-].
Qed.

Lemma quiet_slice_used s c : quiet None s (slice_used c s).
Proof.
  unfold slice_used. transitivity (set_tick_flag false s); [by apply quiet_same|]. destruct (0 <? _); [|done]. by apply quiet_field.
Qed.

Lemma quietly_sched_switch esp : quietly (sched_switch_esp esp).
Proof.
  intros s r s' E. unfold sched_switch_esp in E. destruct (_ || _); [by injection E as _ <-|].
  destruct (current_proc s) as [c|]; [|injection E as _ <-; by apply quiet_same]. cbv zeta in E.
  transitivity (slice_used c s); [apply quiet_slice_used|]. set (s1 := slice_used c s) in *. clearbody s1.
  destruct (0 <? _); [by injection E as _ <-|]. destruct (select _ s1) as [[n idx]|]; injection E as _ <-; [|by apply quiet_field].
  transitivity (upd_pcb c (descheduled (tick_count s1) esp) s1).
  { apply quiet_upd; unfold descheduled; cbv zeta; case_bool_decide as Hd; simpl in *; auto; congruence. }
  set (s2 := upd_pcb c _ s1). set (s3 := set_current_proc (Some n) (set_current_idx idx s2)).
  transitivity s3; [by apply quiet_same|]. transitivity (upd_pcb n dispatched s3); [by apply quiet_live|by apply quiet_same].
Qed.

Lemma quietly_sched_yield esp : quietly (sched_yield esp).
Proof.
  apply quietly_bind; [|intros _; apply quietly_sched_switch]. apply quietly_modify. intros s. cbv zeta.
  destruct (current_proc (set_tick_flag true s)) as [c|]; [|by apply quiet_same].
  transitivity (set_tick_flag true s); [by apply quiet_same|by apply quiet_field].
Qed.

(** The current process leaves the processor, in state [st]. *)
Lemma quiet_leave s i f esp r s' e : quiet e s (upd_pcb i f s) -> (sched_remove i ;; sched_yield esp) (upd_pcb i f s) = Ok (r, s') -> quiet e s s'.
Proof.
  intros Hq E. etransitivity; [exact Hq|]. apply quiet_weaken. revert E.
  apply (quietly_bind _ _ (quietly_sched_remove i) (fun _ => quietly_sched_yield esp)).
Qed.

Lemma quietly_block_self esp : quietly (block_self esp).
Proof.
  intros s r s' E. unfold block_self in E. destruct (current_proc s) as [i|]; [|by injection E as _ <-].
  apply bind_inv in E as ([] & s1 & [= <-] & E). revert E. apply quiet_leave. by apply quiet_live.
Qed.

Lemma quietly_proc_sleep ticks esp : quietly (proc_sleep ticks esp).
Proof.
  intros s r s' E. unfold proc_sleep in E. destruct (current_proc s) as [i|]; [|by injection E as _ <-]. destruct (ticks =? 0); [by injection E as _ <-|].
  apply bind_inv in E as ([] & s1 & [= <-] & E). revert E. apply quiet_leave. by apply quiet_live.
Qed.

Lemma proc_exit_quiet s code esp r s' : proc_exit code esp s = Ok (r, s') -> quiet (current_proc s) s s'.
Proof.
  intros E. unfold proc_exit in E. destruct (current_proc s) as [i|]; [|by injection E as _ <-].
  apply bind_inv in E as ([] & s1 & [= <-] & E). set (f := fun p : pcb => set_p_state PROC_ZOMBIE (set_p_exit_code code p)) in E.
  transitivity (upd_pcb i f s); [apply quiet_upd; [done|done|done|by right]|]. apply quiet_weaken. revert E.
  generalize (upd_pcb i f s). clear f. intros s1. revert s1 r s'.
  apply quietly_bind; [apply quietly_gets|]. intros p. apply quietly_bind.
  - destruct (_ || _); [apply quietly_ret|]. apply quietly_bind; [apply quietly_gets|]. intros [j|]; [|apply quietly_ret].
    apply quietly_bind; [apply quietly_gets|]. intros w. destruct (_ && _); [apply quietly_proc_wake|apply quietly_ret].
  - intros _. apply quietly_bind; [apply quietly_sched_remove|]. intros _. apply quietly_sched_yield.
Qed.

Lemma quietly_push_words ws : forall sp, quietly (push_words sp ws).
Proof. induction ws as [|w ws IH]; intros sp; simpl; [apply quietly_ret|]. apply quietly_bind; [apply quietly_on_heap|]. intros _. apply IH. Qed.

Lemma quietly_init_frame p entry : quietly (proc_init_frame p entry).
Proof.
  destruct p as [i|]; [|apply quietly_ret]. apply quietly_bind; [apply quietly_gets|]. intros top. destruct (top =? 0); [apply quietly_ret|].
  apply quietly_bind; [apply quietly_push_words|]. intros sp. apply quietly_modify. intros s. by apply quiet_field.
Qed.

Lemma quietly_set_ready p : quietly (proc_set_ready p).
Proof.
  destruct p as [i|]; [|apply quietly_ret]. apply quietly_bind; [apply quietly_gets|]. intros x. destruct (negb _); [apply quietly_stop|].
  apply quietly_modify. intros s. by apply quiet_live.
Qed.

Lemma quietly_proc_exec p entry : quietly (proc_exec p entry).
Proof.
  destruct p as [i|]; [|apply quietly_ret]. apply quietly_bind; [apply quietly_gets|]. intros x. destruct (bool_decide _); [apply quietly_ret|].
  apply quietly_bind; [apply quietly_sched_remove|]. intros _. apply quietly_bind; [apply quietly_init_frame|]. intros _.
  apply quietly_bind; [apply quietly_modify; intros s; by apply quiet_live|]. intros _. apply quietly_bind; [apply quietly_sched_add|]. intros _. apply quietly_ret.
Qed.

Lemma quietly_sched_start : quietly sched_start.
Proof.
  intros s r s' E. unfold sched_start in E. destruct (_ =? 0); [by injection E as _ <-|]. destruct (select _ s) as [[n idx]|]; injection E as _ <-; [|done].
  set (s1 := set_current_idx idx (set_current_proc (Some n) s)). transitivity s1; [by apply quiet_same|].
  etransitivity; [apply (quiet_live s1 n (fun p => set_p_ticks_scheduled (p_ticks_scheduled p +w 1) (set_p_state PROC_RUNNING p))); done|by apply quiet_same].
Qed.

(** File operations wake processes, which is calm. *)
Lemma wake_all_calm ws : forall s, calm None s (wake_all ws s).
Proof.
  induction ws as [|p ws IH]; intros s; [reflexivity|]. simpl. transitivity (wake_one s p); [|apply IH]. unfold wake_one.
  destruct (proc_wake (proc_get s p) s) as [[[] s1]|] eqn:E; [|reflexivity]. by apply (quietly_proc_wake (proc_get s p) s tt).
Qed.

Lemma keeps_calm {T} b (c : M (kstate H fstate) T) s A r s' : keeps b c -> healthy (k_heap s) (objs (k_files s)) A -> c s = Ok (r, s') -> calm None s s'.
Proof.
  intros Hc (L & Hh & Hm) E. destruct (Hc s L A r s' Hh Hm E) as (ws & _ & _ & h & fs & L' & -> & _).
  transitivity (wake_all ws s); [apply wake_all_calm|by apply calm_same].
Qed.
End tables.
