(* ===== verification/Tasks.v ===== *)
(** * Creating, forking and reaping processes (proc_create, proc_destroy and
      proc_wait of kernel/proc/proc.c, kernel/proc/fork.c)

    [ksafe] is the invariant of processes and files together. The operations
    that create and destroy processes move descriptor tables between slots; they
    end without undefined behaviour, keep the invariant and leave the living
    processes they do not concern alone. *)

From Stdlib Require Import ZArith Lia.
From S2P Require Import Prelude Kheap HeapSpec Kstate Fd Fs FsLaws Ramfs Proc ProcInv ProcOps ProcSteps ProcSafety Kinv Dir Typed Path FileSafety Descriptors Tables.

(** A run together with the fact that it is one. *)
Lemma runs_eq {S T} (c : M S T) s (P : T -> S -> Prop) : runs c s P -> runs c s (fun r s' => c s = Ok (r, s') /\ P r s').
Proof. intros [?|(r & s' & E & Hp)]; [by left|right; eauto]. Qed.

(** Computations that agree in the state. *)
Lemma runs_same {S T} (c d : M S T) s (P : T -> S -> Prop) : c s = d s -> runs d s P -> runs c s P.
Proof. intros E. unfold runs. by rewrite E. Qed.

Section tasks.
Context {H : Type} `{!Heap H} `{!HeapLaws H}.
Implicit Types (s : kstate H fstate).

(** ** The invariant *)

(** An unused slot has no descriptors, and every process runs in the kernel's
    address space. *)
Record slots_ok s : Prop := {
  sk_unused : forall i, state_of s i = PROC_UNUSED -> p_fd_table (pcb_at s i) = repeat 0 FD_MAX;
  sk_space : forall i, p_page_directory (pcb_at s i) = 0
}.

Record ksafe s : Prop := {
  ks_inv : kinv s;
  ks_fds : exists A, fds_ok s A (tables s);
  ks_slots : slots_ok s
}.

Lemma inv_healthy x s L A q : proc_inv x s L A q -> healthy (k_heap s) (objs (k_files s)) A.
Proof. intros Hinv. exists L. split; [apply Hinv|]. exact (pi_files _ _ _ _ _ Hinv). Qed.

(** The tables and the file objects alone matter. *)
Lemma fds_move s s' A A' tabs : k_files s' = k_files s -> healthy (k_heap s') (objs (k_files s')) A' -> fds_ok s A tabs -> fds_ok s' A' tabs.
Proof. intros Hf Hh [H1 H2 [[G1 G2 G3 G4] Hp Hc]]. split; [done|done|]. rewrite <- Hf in *. by split. Qed.

Lemma ksafe_parts s : ksafe s -> exists L A q, proc_inv [] s L A q /\ fds_ok s A (tables s).
Proof.
  intros [(L & A & q & Hinv) [A' Hf] _]. exists L, A, q. split; [done|]. apply (fds_move s s A'); [done| |done]. by apply (inv_healthy [] s L A q).
Qed.

Lemma slots_calm e s s' : calm e s s' -> slots_ok s -> slots_ok s'.
Proof. intros Hc [S1 S2]. split; intros i; [rewrite (cm_table _ _ _ Hc)|rewrite (cm_space _ _ _ Hc)]; [|done]. intros Hu. by apply S1, (cm_unused _ _ _ Hc). Qed.

Lemma ksafe_quiet e s s' : ksafe s -> quiet e s s' -> kinv s' -> ksafe s'.
Proof.
  intros [_ [A Hf] Hs] [Hc Hq] Hi. pose proof Hi as (L' & A' & q' & Hinv). split; [done| |by apply (slots_calm e s)].
  exists A'. rewrite (tables_ext s s' (cm_table _ _ _ Hc)). apply (fds_move s s' A); [done| |done]. by apply (inv_healthy [] s' L' A' q').
Qed.

(** A file operation that leaves the tables alone and keeps their counts. *)
Lemma ksafe_counted s s' A : ksafe s -> calm None s s' -> kinv s' -> balanced s' A (refs (tables s)) -> ksafe s'.
Proof.
  intros [_ [A0 Hf] Hs] Hc Hi Hb. split; [done| |by apply (slots_calm None s)]. exists A. rewrite (tables_ext s s' (cm_table _ _ _ Hc)).
  destruct Hf. by split.
Qed.

(** Living processes outside [x] stay alive and keep their tables. *)
Definition spares (x : list Z) s s' : Prop := forall j, j ∉ x -> alive s j -> alive s' j /\ p_fd_table (pcb_at s' j) = p_fd_table (pcb_at s j).

Lemma spares_refl x s : spares x s s.
Proof. by intros j. Qed.
Lemma spares_trans x s1 s2 s3 : spares x s1 s2 -> spares x s2 s3 -> spares x s1 s3.
Proof. intros A B j Hj Ha. destruct (A j Hj Ha) as [A1 A2]. destruct (B j Hj A1) as [B1 B2]. split; [done|congruence]. Qed.
#[export] Instance spares_preorder x : PreOrder (spares x).
Proof. split; [exact (spares_refl x)|exact (spares_trans x)]. Qed.
Lemma spares_weaken x y s s' : (forall j, j ∈ x -> j ∈ y) -> spares x s s' -> spares y s s'.
Proof. intros Hxy Hs j Hj. apply Hs. auto. Qed.
Lemma spares_calm x s s' : calm None s s' -> spares x s s'.
Proof. intros Hc j _ Ha. split; [by apply (cm_alive _ _ _ Hc)|apply (cm_table _ _ _ Hc)]. Qed.
Lemma spares_calm_but i s s' : calm (Some i) s s' -> spares [i] s s'.
Proof. intros Hc j Hj Ha. split; [|apply (cm_table _ _ _ Hc)]. apply (cm_alive _ _ _ Hc); [|done]. intros [= <-]. apply Hj. by left. Qed.
Lemma spares_calm_table i s s' : calm_but i s s' -> spares [i] s s'.
Proof. intros Hc j Hj Ha. rewrite list_elem_of_singleton in Hj. split; [by apply (cb_alive _ _ _ Hc)|by apply (cb_table _ _ _ Hc)]. Qed.
Lemma slots_calm_but i s s' : calm_but i s s' -> used s i -> slots_ok s -> slots_ok s'.
Proof.
  intros Hc Hu [S1 S2]. split; intros j; [|by rewrite (cb_space _ _ _ Hc)]. intros Hj%(cb_unused _ _ _ Hc).
  rewrite (cb_table _ _ _ Hc) by congruence. by apply S1.
Qed.
(** A slot of the dead is nobody's concern. *)
Lemma spares_dead c x s1 s2 s3 : spares x s1 s2 -> spares (c :: x) s2 s3 -> ~ alive s1 c -> spares x s1 s3.
Proof.
  intros A B Hd j Hj Ha. destruct (A j Hj Ha) as [A1 A2]. destruct (B j) as [B1 B2]; [|done|split; [done|congruence]].
  rewrite not_elem_of_cons. split; [|done]. by intros ->.
Qed.

Lemma effect_calm ws A s s' : file_effect fs_ok ws A s s' -> calm None s s'.
Proof. intros (_ & h & fs & L' & -> & _). transitivity (wake_all ws s); [apply wake_all_calm|by apply calm_same]. Qed.

(** ** Creation *)

Lemma quietly_pid_alloc : quietly (pid_alloc : M (kstate H fstate) Z).
Proof.
  intros s r s' E. unfold pid_alloc in E. destruct (pid_scan s _ _); [injection E as _ <-; by apply quiet_same|].
  destruct (pid_scan s _ _); injection E as _ <-; by apply quiet_same.
Qed.
Lemma quietly_pid_free pid : quietly (pid_free pid : M (kstate H fstate) unit).
Proof.
  intros s r s' E. unfold pid_free in E. destruct (_ || _); [by injection E as _ <-|]. destruct (_ <=? _); [done|].
  destruct (negb _); [by injection E as _ <-|]. injection E as _ <-. destruct (_ <? _); by apply quiet_same.
Qed.

(** A creation that found no PID, slot or stack changed no process. *)
Lemma create_none_quiet s name priority s' : proc_create name priority s = Ok (None, s') -> quiet None s s'.
Proof.
  unfold proc_create. intros E. apply bind_inv in E as (pid & s1 & E1 & E). pose proof (quietly_pid_alloc s pid s1 E1) as Q1. etransitivity; [exact Q1|]. clear E1 Q1.
  assert (Hfree : forall s2, (pid_free pid ;; mret (None : option Z)) s2 = Ok (None, s') -> quiet None s2 s').
  { intros s2 F. apply bind_inv in F as ([] & s3 & F & [= <-]). by apply (quietly_pid_free pid s2 tt). }
  destruct (pid =? PID_INVALID); [by injection E as <-|]. apply bind_inv in E as (st0 & s2 & [= <- <-] & E). destruct (negb _); [auto|].
  apply bind_inv in E as (base & s3 & E3 & E). etransitivity; [by apply (quietly_on_heap _ _ _ _ E3)|]. destruct (base =? 0); [auto|].
  cbv zeta in E. apply bind_inv in E as (now & s4 & [= <- <-] & E). apply bind_inv in E as (tb & s5 & _ & E). done.
Qed.

(** A creation that succeeded opened the standard files for the new slot. *)
Lemma create_some_parts s name priority c s' : proc_create name priority s = Ok (Some c, s') ->
  exists base h tb s3, heap_malloc_aligned KSTACK_SIZE (k_heap s) = Ok (base, h) /\ base <> 0 /\
    fd_table_init (set_k_heap h (take_pid c s)) = Ok (tb, s3) /\ k_files s' = k_files s3 /\ k_heap s' = k_heap s3 /\
    p_fd_table (pcb_at s' c) = tb /\ p_page_directory (pcb_at s' c) = 0.
Proof.
  unfold proc_create. intros E. apply bind_inv in E as (pid & s1 & E1 & E). destruct (Z.eqb_spec pid PID_INVALID) as [|Hv]; [done|].
  assert (Es1 : s1 = take_pid pid s).
  { unfold pid_alloc in E1. destruct (pid_scan s _ _); [by injection E1 as <- <-|]. destruct (pid_scan s _ _); injection E1 as <- <-; [done|congruence]. }
  subst s1. apply bind_inv in E as (st0 & s2 & [= <- <-] & E).
  destruct (negb _); [apply bind_inv in E as ([] & ? & _ & E); done|]. apply bind_inv in E as (base & s3 & E3 & E).
  unfold on_heap, zoom in E3. destruct (heap_malloc_aligned KSTACK_SIZE (k_heap (take_pid pid s))) as [[b h]|] eqn:Eh; [|done]. injection E3 as <- <-.
  destruct (Z.eqb_spec b 0) as [|Hb]; [apply bind_inv in E as ([] & ? & _ & E); done|]. cbv zeta in E.
  apply bind_inv in E as (now & s4 & [= <- <-] & E). apply bind_inv in E as (tb & s5 & E5 & E). injection E as <- <-.
  exists b, h, tb, s5. split; [done|]. split; [done|]. split; [done|]. unfold pcb_at. simpl. by rewrite lookup_insert_eq.
Qed.

Lemma proc_create_runs s name priority : ksafe s -> 0 <= priority < 256 ->
  runs (proc_create name priority) s (fun r s' => ksafe s' /\ spares [] s s' /\
    match r with None => True | Some c => current_proc s' = current_proc s /\ 1 <= c < MAX_PROCS /\ state_of s c = PROC_UNUSED /\ state_of s' c = PROC_EMBRYO end).
Proof.
  intros Hs Hp. destruct (ksafe_parts s Hs) as (L & A & q & Hinv & Hf). pose proof (proc_create_run s L A q name priority Hinv Hp) as Hcr.
  pose proof (heap_malloc_aligned_law (k_heap s) L A KSTACK_SIZE (pi_heap _ _ _ _ _ Hinv) ltac:(done)) as Hal.
  destruct (proc_create name priority s) as [[[c|] s']|f] eqn:E.
  - eapply runs_ok; [exact E|]. destruct (create_some_parts s name priority c s' E) as (base & h & tb & s3 & Em & Hb & Ei & F1 & F2 & F3 & F4).
    destruct Hcr as [C1 C2 C3 _ _ _ C7 _ (L1 & C9) _ C11].
    destruct Hal as [(msg & E')|[(h' & E' & _)|(p & h' & E' & _ & (_ & _ & Hh) & _)]]; rewrite Em in E'; try done; [congruence|]. injection E' as <- <-.
    set (s2 := set_k_heap h (take_pid c s)) in *. set (A2 := <[base := KSTACK_SIZE]> A) in *.
    assert (Hf2 : fds_ok s2 A2 (tables s)) by (apply (fds_move s s2 A); [done| |done]; exists L; split; [done|exact (pi_files _ _ _ _ _ Hinv)]).
    destruct (init_balanced s2 A2 (refs (tables s)) (fds_count _ _ _ Hf2)) as [(msg & E')|(tb' & s3' & E' & Hl & Hb3)]; rewrite Ei in E'; [done|]. injection E' as <- <-.
    assert (Hoth : forall j, j <> c -> p_fd_table (pcb_at s' j) = p_fd_table (pcb_at s j)) by (intros j Hj; by rewrite C7).
    assert (Hsafe : ksafe s').
    { split; [by eexists _, _, _|exists A2|split].
      - rewrite (tables_slot s s' c ltac:(lia) Hoth), F3. apply (fds_put s2 A2 s' _ _ (repeat 0 FD_MAX)); [done| |done|].
        + rewrite tables_at by lia. by rewrite (sk_unused _ (ks_slots _ Hs) c C2).
        + assert (Hb' : balanced s' A2 (fun g => refs (tables s) g + occ g tb)%nat).
          { destruct Hb3 as [[G1 G2 G3 G4] G5 G6]. rewrite <- F1, <- F2 in *. by split. }
          eapply balanced_ext; [|exact Hb']. intros g Hg. cbn beta. rewrite occ_zeros by done. lia.
      - intros j. destruct (decide (j = c)) as [->|Hj]; [by rewrite C3|]. unfold state_of. rewrite C7 by done. apply (sk_unused _ (ks_slots _ Hs)).
      - intros j. destruct (decide (j = c)) as [->|Hj]; [done|]. rewrite C7 by done. apply (sk_space _ (ks_slots _ Hs)). }
    split; [done|]. split; [|done]. intros j _ Ha. assert (j <> c) by (intros ->; by destruct Ha). split; [|auto]. unfold alive, state_of. by rewrite C7.
  - eapply runs_ok; [exact E|]. destruct Hcr as (Hinv' & _). pose proof (create_none_quiet s name priority s' E) as Hq.
    split; [apply (ksafe_quiet None s); [done|done|by eexists _, _, _]|]. split; [by apply spares_calm, Hq|done].
  - left. destruct Hcr as [(msg & ->)|(s1 & A' & Hs1 & Hh1 & Ef)]; [by exists msg|].
    assert (Hf1 : fds_ok s1 A' (tables s)) by (apply (fds_move s s1 A); [done| |done]; exists L; split; [done|rewrite Hs1; exact (pi_files _ _ _ _ _ Hinv)]).
    destruct (init_balanced s1 A' (refs (tables s)) (fds_count _ _ _ Hf1)) as [(msg & E')|(tb' & s3' & E' & _)]; rewrite Ef in E'; [|done]. injection E' as ->. by exists msg.
Qed.

(** ** Destruction *)

Lemma pid_free_total pid s : 1 <= pid < MAX_PROCS -> exists s', pid_free pid s = Ok (tt, s').
Proof.
  intros Hp. unfold pid_free. destruct (_ || _); [by eexists|]. rewrite (proj2 (Z.leb_gt _ _)) by lia. destruct (negb _); by eexists.
Qed.

Lemma destroy_kinv s c s' : kinv s -> 1 <= c < MAX_PROCS -> state_of s c = PROC_ZOMBIE -> current_proc s <> Some c ->
  proc_destroy (Some c) s = Ok (tt, s') -> kinv s'.
Proof.
  intros (L & A & q & Hinv) Hc Hz Hne E. destruct (proc_destroy_run s L A q c Hinv Hc Hz Hne) as (h0 & Hd).
  destruct (fd_table_close_all _ _) as [[tb s1]|f]; [|congruence]. destruct Hd as (ws & h & fs & L' & q' & E' & _ & Hinv' & _).
  rewrite E in E'. injection E' as ->. by eexists _, _, _.
Qed.

(** The other entries of the tables when slot [c] is emptied. *)
Lemma close_slot_runs s A tabs i t : fds_ok s A tabs -> tabs !! i = Some t ->
  runs (fd_table_close_all t) s (fun t' s' => t' = repeat 0 FD_MAX /\ balanced s' A (fun g => refs tabs g - occ g t)%nat).
Proof.
  intros Hf Hi. assert (Hl : length t = FD_MAX) by (by apply (Forall_lookup_1 _ _ _ _ (fds_tables _ _ _ Hf) Hi)).
  rewrite <- Hl. apply close_all_balanced; [eapply balanced_ext; [|apply Hf]|]; intros g; [intros _|]; cbn beta; pose proof (refs_table g tabs i t Hi); [lia|].
  pose proof (refs_bound s A tabs g Hf). unfold FD_MAX in *. lia.
Qed.

Lemma proc_destroy_runs s c : ksafe s -> 1 <= c < MAX_PROCS -> state_of s c = PROC_ZOMBIE -> current_proc s <> Some c ->
  runs (proc_destroy (Some c)) s (fun _ s' => ksafe s' /\ spares [] s s').
Proof.
  intros Hs Hc Hz Hne. destruct (ksafe_parts s Hs) as (L & A & q & Hinv & Hf). assert (Hu : used s c) by congruence.
  destruct (pi_slot _ _ _ _ _ Hinv c Hc Hu) as [S1 S2 _ _ _ _]. set (t := p_fd_table (pcb_at s c)).
  destruct (heap_free_aligned_law _ _ _ _ _ (pi_heap _ _ _ _ _ Hinv) S1) as (h0 & Eh & Hh0 & _). set (A1 := delete _ A) in *. set (s0 := set_k_heap h0 s).
  assert (Hf0 : fds_ok s0 A1 (tables s)) by (apply (fds_move s s0 A); [done| |done]; exists L; split; [done|exact (pi_files _ _ _ _ _ Hinv)]).
  assert (Ht : tables s !! Z.to_nat c = Some t) by (apply tables_at; lia).
  assert (Hrun : runs (proc_destroy (Some c)) s (fun _ s' => exists s1, calm None s s1 /\ balanced s1 A1 (fun g => refs (tables s) g - occ g t)%nat /\
    k_files s' = k_files s1 /\ k_heap s' = k_heap s1 /\ forall j, pcb_at s' j = if decide (c = j) then cleared_pcb c else pcb_at s1 j)).
  { unfold proc_destroy. eapply (runs_step _ _ _ (pcb_at s c) s); [done|]. fold (state_of s c). rewrite bool_decide_true by done. cbn [negb].
    rewrite (proj2 (Z.eqb_neq _ 0)) by lia. eapply (runs_step _ _ _ tt s0); [unfold on_heap, zoom; by rewrite Eh|]. fold t.
    eapply runs_bind; [apply runs_eq; by apply (close_slot_runs s0 A1 (tables s) (Z.to_nat c) t)|]. intros t' s1 (E1 & _ & H1).
    destruct (fd_table_close_all_effect t s0 L A1 t' s1 Hh0 (pi_files _ _ _ _ _ Hinv) E1) as (ws & Heff).
    assert (Hcalm : calm None s s1) by (transitivity s0; [by apply calm_same|by apply (effect_calm ws A1)]).
    rewrite (pi_pid _ _ _ _ _ Hinv c Hc). destruct (pid_free_total c s1 Hc) as (s2 & E2). eapply runs_step; [exact E2|].
    eapply runs_ok; [done|]. exists s1. split; [done|]. split; [done|].
    unfold pid_free in E2. destruct (_ || _); [injection E2 as <-|destruct (_ <=? _); [done|]; destruct (negb _); [injection E2 as <-|injection E2 as <-; destruct (_ <? _)]];
      (split; [done|]; split; [done|]; intros j; unfold pcb_at at 1; simpl; rewrite lookup_insert; by case_decide). }
  apply runs_eq in Hrun. eapply runs_weaken; [exact Hrun|]. intros [] s' (E & s1 & Hcalm & Hb & F1 & F2 & Hp). pose proof (destroy_kinv s c s' (ks_inv _ Hs) Hc Hz Hne E) as Hi.
  assert (Hoth : forall j, j <> c -> p_fd_table (pcb_at s' j) = p_fd_table (pcb_at s j)) by (intros j Hj; rewrite Hp, decide_False by congruence; apply (cm_table _ _ _ Hcalm)).
  assert (Hst : forall j, j <> c -> state_of s' j = state_of s1 j) by (intros j Hj; unfold state_of; by rewrite Hp, decide_False by congruence).
  pose proof (slots_calm None s s1 Hcalm (ks_slots _ Hs)) as [K1 K2]. split.
  - split; [done|exists A1|split; intros j; rewrite ?Hp; case_decide as Hd; subst; try done].
    + rewrite (tables_slot s s' c ltac:(lia) Hoth), Hp, decide_True by done. apply (fds_put s0 A1 s' _ _ t); [done|done|done|].
      assert (Hb' : balanced s' A1 (fun g => refs (tables s) g - occ g t)%nat) by (destruct Hb as [[G1 G2 G3 G4] G5 G6]; rewrite <- F1, <- F2 in *; by split).
      eapply balanced_ext; [|exact Hb']. intros g Hg. cbn beta. change (p_fd_table (cleared_pcb c)) with (repeat 0 FD_MAX). rewrite occ_zeros by done. lia.
    + rewrite Hst by congruence. apply K1.
  - intros j _ Ha. assert (Hj : j <> c) by (intros ->; by destruct Ha). split; [|auto]. unfold alive. rewrite Hst by done. by apply (cm_alive _ _ _ Hcalm).
Qed.

(** ** Waiting *)

Lemma wait_blocked_total s L A q self pid esp : proc_inv [] s L A q -> current_proc s = Some self -> 0 < esp ->
  let f := fun p => set_p_state PROC_BLOCKED (set_p_wakeup_tick 0 (set_p_waiting true (set_p_wait_for_pid pid p))) in
  exists r s' , (sched_remove self ;; sched_yield esp) (upd_pcb self f s) = Ok (r, s') /\ kinv s'.
Proof.
  intros Hinv Hc He f. pose proof (leave_queue_inv s L A q self f PROC_BLOCKED esp Hinv Hc He) as H1.
  specialize (H1 ltac:(done) ltac:(done) ltac:(done) ltac:(done) ltac:(done)).
  destruct (remove_yield_inv _ L A q self esp H1) as (r & s' & q' & E & H2); [rewrite state_upd, decide_True by done; by intros []|done|].
  exists r, s'. split; [done|]. by eexists _, _, _.
Qed.

(** A process that went to sleep is alive. *)
Lemma proc_wait_runs s pid esp : ksafe s -> 0 < esp ->
  runs (proc_wait_try pid esp) s (fun r s' => ksafe s' /\ spares [] s s' /\
    match r, current_proc s with WaitBlocked _, Some self => alive s' self | _, _ => True end).
Proof.
  intros Hs He. destruct (ksafe_parts s Hs) as (L & A & q & Hinv & _). destruct (current_proc s) as [self|] eqn:Hc; [|by apply (runs_ok _ _ WaitNoProcess s); [unfold proc_wait_try; rewrite Hc|]].
  destruct (zombie_child s self pid) as [c|] eqn:Ez.
  - destruct (zombie_child_slot s L A q self pid c Hinv Hc Ez) as (Hr & Hz & Hne & _).
    apply (runs_same _ (proc_destroy (Some c) ;; mret (WaitReaped (p_pid (pcb_at s c)) (p_exit_code (pcb_at s c))))); [unfold proc_wait_try; by rewrite Hc, Ez|].
    eapply runs_bind; [apply (proc_destroy_runs s c Hs Hr Hz); congruence|]. intros _ s' [H1 H2]. by eapply runs_ok.
  - set (f := fun p => set_p_state PROC_BLOCKED (set_p_wakeup_tick 0 (set_p_waiting true (set_p_wait_for_pid pid p)))).
    destruct (wait_blocked_total s L A q self pid esp Hinv Hc He) as (r & s' & E & Hi). fold f in E.
    apply (runs_ok _ _ (WaitBlocked r) s').
    + unfold proc_wait_try. rewrite Hc, Ez. rewrite (bind_ok _ _ s tt (upd_pcb self f s)) by done. unfold mbind, M_bind in E |- *. destruct (sched_remove self _) as [[[] s1]|]; [|done]. by rewrite E.
    + assert (Hq : quiet None s s') by (revert E; apply quiet_leave; by apply quiet_live).
      split; [by apply (ksafe_quiet None s)|]. split; [by apply spares_calm, Hq|].
      assert (Hq2 : quiet None (upd_pcb self f s) s') by (revert E; apply (quietly_bind _ _ (quietly_sched_remove self) (fun _ => quietly_sched_yield esp))).
      apply (cm_alive _ _ _ (proj1 Hq2)); [done|]. unfold alive. by rewrite state_upd, decide_True by done.
Qed.

Lemma proc_wait_resume_runs s self pid esp : ksafe s -> current_proc s = Some self -> 0 < esp ->
  runs (proc_wait_resume self pid esp) s (fun r s' => ksafe s' /\ spares [] s s' /\ match r with WaitBlocked _ => alive s' self | _ => True end).
Proof.
  intros Hs Hc He. set (s1 := upd_pcb self (set_p_waiting false) s). eapply (runs_step _ _ _ tt s1); [done|].
  assert (Hq : quiet None s s1) by (by apply quiet_field).
  assert (Hs1 : ksafe s1).
  { apply (ksafe_quiet None s); [done|done|]. destruct (ks_inv _ Hs) as (L & A & q & Hinv). destruct (pi_current _ _ _ _ _ Hinv self Hc) as (Hr & Hu & _).
    exists L, A, q. by apply inv_upd_quiet. }
  eapply runs_weaken; [by apply (proc_wait_runs s1)|]. intros r s' (H1 & H2 & H3). change (current_proc s1) with (current_proc s) in H3. rewrite Hc in H3.
  split; [done|]. split; [|by destruct r]. transitivity s1; [apply spares_calm, Hq|done].
Qed.

(** ** Fork *)

(** The child drops the files of its creation and shares those of its parent. *)
Lemma wire_child_runs s i c : ksafe s -> current_proc s = Some i -> 1 <= c < MAX_PROCS -> state_of s c = PROC_EMBRYO ->
  runs (wire_child (Some i) c) s (fun _ s' => ksafe s' /\ spares [c] s s' /\ state_of s' c = PROC_EMBRYO).
Proof.
  intros Hs Hcur Hc Hem. destruct (ksafe_parts s Hs) as (L & A & q & Hinv & Hf). destruct (pi_current _ _ _ _ _ Hinv i Hcur) as (Hi & Hu & Hni).
  assert (Hne : i <> c) by congruence. set (t := p_fd_table (pcb_at s c)). set (ti := p_fd_table (pcb_at s i)).
  assert (Ht : tables s !! Z.to_nat c = Some t) by (apply tables_at; lia). assert (Hti : tables s !! Z.to_nat i = Some ti) by (apply tables_at; lia).
  assert (Hrun : runs (wire_child (Some i) c) s (fun _ s' => exists s2, calm None s s2 /\
    balanced s2 A (fun g => (refs (tables s) g - occ g t) + occ g ti)%nat /\ s' = upd_pcb c (set_p_fd_table ti) s2)).
  { unfold wire_child. eapply (runs_step _ _ _ (p_pid (pcb_at s i)) s); [done|]. set (f := set_p_ppid (p_pid (pcb_at s i))). set (s1 := upd_pcb c f s).
    eapply (runs_step _ _ _ tt s1); [done|]. assert (Q1 : quiet None s s1) by (by apply quiet_field).
    eapply (runs_step _ _ _ (p_fd_table (pcb_at s1 c)) s1); [done|]. rewrite (cm_table _ _ _ (proj1 Q1)). fold t.
    assert (Hf1 : fds_ok s1 A (tables s)) by (apply (fds_move s s1 A); [done|by apply (inv_healthy [] s L A q)|done]).
    eapply runs_bind; [apply runs_eq; by apply (close_slot_runs s1 A (tables s) (Z.to_nat c) t)|]. intros t' s2 (E2 & _ & H2).
    destruct (fd_table_close_all_effect t s1 L A t' s2 (pi_heap _ _ _ _ _ Hinv) (pi_files _ _ _ _ _ Hinv) E2) as (ws & Heff).
    assert (C2 : calm None s s2) by (transitivity s1; [apply Q1|by apply (effect_calm ws A)]).
    eapply (runs_step _ _ _ (p_fd_table (pcb_at s2 i)) s2); [done|]. rewrite (cm_table _ _ _ C2). fold ti.
    pose proof (fun g => refs_insert g (tables s) (Z.to_nat c) t (repeat 0 FD_MAX) Ht) as Hin.
    assert (Hti2 : <[Z.to_nat c := repeat 0 FD_MAX]> (tables s) !! Z.to_nat i = Some ti) by (rewrite list_lookup_insert_ne by lia; done).
    eapply runs_bind; [apply runs_eq, (clone_balanced A ti s2 _ H2)|].
    - intros g Hg Hgz. pose proof (occ_elem g ti Hg). pose proof (refs_table g _ _ ti Hti2). specialize (Hin g). rewrite occ_zeros in Hin by done. lia.
    - intros g. pose proof (refs_bound s A (tables s) g Hf). pose proof (occ_length g ti).
      rewrite (Forall_lookup_1 _ _ _ _ (fds_tables _ _ _ Hf) Hti). unfold FD_MAX. lia.
    - intros t2 s3 (E3 & -> & H3). destruct (effect_ok _ _ _ _ _ Heff) as (L2 & Hh2 & Hfs2).
      pose proof (fd_table_clone_effect ti s2 L2 A ti s3 Hh2 Hfs2 E3) as Heff3.
      eapply runs_ok; [done|]. exists s3. split; [|done]. transitivity s2; [done|by apply (effect_calm [] A)]. }
  apply runs_eq in Hrun. eapply runs_weaken; [exact Hrun|]. intros [] s' (E & s2 & Hcalm & Hb & Es').
  destruct (wire_child_inv s L A q i c s' Hinv Hcur Hc Hem E) as (L' & q' & Hinv' & Hem').
  assert (Hp : forall j, pcb_at s' j = if decide (c = j) then set_p_fd_table ti (pcb_at s2 c) else pcb_at s2 j) by (intros j; rewrite Es'; apply pcb_upd).
  assert (Hoth : forall j, j <> c -> p_fd_table (pcb_at s' j) = p_fd_table (pcb_at s j)) by (intros j Hj; rewrite Hp, decide_False by congruence; apply (cm_table _ _ _ Hcalm)).
  pose proof (slots_calm None s s2 Hcalm (ks_slots _ Hs)) as [K1 K2].
  assert (Hst : forall j, state_of s' j = state_of s2 j) by (intros j; unfold state_of; rewrite Hp; case_decide; by subst).
  split; [|split; [|done]].
  - split; [by eexists _, _, _|exists A|split; intros j].
    + rewrite (tables_slot s s' c ltac:(lia) Hoth), Hp, decide_True by done. simpl.
      apply (fds_put s A s' _ _ t); [done|done|by apply (Forall_lookup_1 _ _ _ _ (fds_tables _ _ _ Hf) Hti)|].
      assert (Hb' : balanced s' A (fun g => (refs (tables s) g - occ g t) + occ g ti)%nat) by (rewrite Es'; destruct Hb as [[G1 G2 G3 G4] G5 G6]; by split).
      eapply balanced_ext; [|exact Hb']. intros g Hg. cbn beta. pose proof (refs_table g _ _ t Ht). lia.
    + rewrite Hp. case_decide; [subst j; congruence|]. rewrite Hst. apply K1.
    + rewrite Hp. case_decide; [subst j|]; apply K2.
  - intros j Hj Ha. rewrite list_elem_of_singleton in Hj. split; [|by apply Hoth]. unfold alive. rewrite !Hst. by apply (cm_alive _ _ _ Hcalm).
Qed.

Lemma launch_quiet c entry : quietly (proc_init_frame (Some c) entry ;; proc_set_ready (Some c) ;; sched_add (Some c) ;; gets (fun s => p_pid (pcb_at s c)) : M (kstate H fstate) Z).
Proof.
  apply quietly_bind; [apply quietly_init_frame|]. intros _. apply quietly_bind; [apply quietly_set_ready|]. intros _.
  apply quietly_bind; [apply quietly_sched_add|]. intros _. apply quietly_gets.
Qed.

Lemma proc_fork_runs s entry : ksafe s -> 0 <= entry < 2 ^ 32 -> runs (proc_fork entry) s (fun _ s' => ksafe s' /\ spares [] s s').
Proof.
  intros Hs He. destruct (ks_inv _ Hs) as (L & A & q & Hinv). unfold proc_fork. eapply (runs_step _ _ _ (current_proc s) s); [done|].
  eapply runs_step; [reflexivity|]. eapply runs_step; [reflexivity|]. set (prio := match current_proc s with Some i => _ | None => PROC_PRIO_NORMAL end).
  assert (Hprio : 0 <= prio < 256).
  { subst prio. destruct (current_proc s) as [i|] eqn:Hc; [|done]. destruct (pi_current _ _ _ _ _ Hinv i Hc) as (Hr & Hu & _).
    pose proof (so_prio _ _ _ (pi_slot _ _ _ _ _ Hinv i Hr Hu)) as Hp. unfold prio_of, PROC_PRIO_IDLE in Hp. lia. }
  eapply runs_bind; [by apply (proc_create_runs s)|]. intros [c|] s1 (Hs1 & Sp1 & Hrest); [|by eapply runs_ok]. destruct Hrest as (Hcur1 & Hc & Hun & Hem).
  eapply (runs_bind _ _ _ (fun _ s2 => ksafe s2 /\ spares [c] s1 s2 /\ state_of s2 c = PROC_EMBRYO)).
  { destruct (current_proc s) as [i|]; [by apply wire_child_runs|]. by eapply runs_ok. }
  intros _ s2 (Hs2 & Sp2 & Hem2). destruct (ks_inv _ Hs2) as (L2 & A2 & q2 & Hinv2).
  destruct (launch_run s2 L2 A2 q2 c entry (gets (fun s => p_pid (pcb_at s c))) Hinv2 Hc Hem2 He) as (s3 & E3 & H3 & _).
  eapply runs_ok; [exact E3|]. pose proof (launch_quiet c entry s2 _ s3 E3) as Hq.
  split; [apply (ksafe_quiet None s2); [done|done|by eexists _, _, _]|]. apply (spares_dead c [] s s1); [done| |by intros []].
  transitivity s2; [done|by apply spares_calm, Hq].
Qed.

(** ** Exit, sleep, exec *)

(** An operation that always ends, keeps the process invariant and is quiet. *)
Lemma quiet_runs {T} (c : M (kstate H fstate) T) e s r s' L A q : c s = Ok (r, s') -> proc_inv [] s' L A q -> quiet e s s' -> ksafe s ->
  runs c s (fun _ s' => ksafe s' /\ calm e s s').
Proof. intros E Hinv Hq Hs. eapply runs_ok; [exact E|]. split; [apply (ksafe_quiet e s); [done|done|by eexists _, _, _]|apply Hq]. Qed.

Lemma proc_exit_runs s code esp : ksafe s -> 0 < esp -> runs (proc_exit code esp) s (fun _ s' => ksafe s' /\ calm (current_proc s) s s').
Proof.
  intros Hs He. destruct (ks_inv _ Hs) as (L & A & q & Hinv). destruct (proc_exit_inv s L A q code esp Hinv He) as (r & s' & q' & E & H1).
  eapply quiet_runs; [exact E|exact H1|by apply (proc_exit_quiet s code esp r)|done].
Qed.

Lemma proc_sleep_runs s ticks esp : ksafe s -> 0 < esp -> runs (proc_sleep ticks esp) s (fun _ s' => ksafe s' /\ calm None s s').
Proof.
  intros Hs He. destruct (ks_inv _ Hs) as (L & A & q & Hinv). destruct (proc_sleep_inv s L A q ticks esp Hinv He) as (r & s' & q' & E & H1).
  eapply quiet_runs; [exact E|exact H1|by apply (quietly_proc_sleep ticks esp s r)|done].
Qed.

Lemma proc_exec_runs s i entry : ksafe s -> 1 <= i < MAX_PROCS -> used s i -> 0 <= entry < 2 ^ 32 ->
  runs (proc_exec (Some i) entry) s (fun _ s' => ksafe s' /\ calm None s s').
Proof.
  intros Hs Hi Hu He. destruct (ks_inv _ Hs) as (L & A & q & Hinv). destruct (proc_exec_inv s L A q i entry Hinv Hi Hu He) as (r & s' & q' & E & H1 & _).
  eapply quiet_runs; [exact E|exact H1|by apply (quietly_proc_exec (Some i) entry s r)|done].
Qed.
End tasks.
