(* ===== verification/Keyboard.v ===== *)
(** * The PS/2 keyboard driver (kernel/drivers/keyboard.c) and the keyboard
      device (kbd_read of kernel/fs/devfs.c)

    The driver keeps a ring buffer of 64 bytes filled by the interrupt handler
    and drained by [kbd_read]; a reader that finds it empty blocks, and the
    handler wakes it through the process manager of Proc.v. The scan code read
    from port 0x60 is an argument, the bytes echoed to the serial line a log. *)

From Stdlib Require Import ZArith Lia Ascii String.
From S2P Require Import Prelude HeapSpec Kstate Fd Fs FsLaws Proc ProcInv ProcOps ProcSteps ProcSafety.

Definition KB_BUFFER_SIZE : Z := 64.
Definition NO_WAITER : Z := 0xFFFF.

Fixpoint chars (s : string) : list Z :=
  match s with
  | EmptyString => []
  | String c s' => Z.of_N (N_of_ascii c) :: chars s'
  end.

Definition scancode_normal : list Z :=
  [0; 0] ++ chars "1234567890-=" ++ [8; 9] ++ chars "qwertyuiop[]" ++ [10; 0] ++
  chars "asdfghjkl;'`" ++ [0] ++ chars "\zxcvbnm,./" ++ [0] ++ chars "*" ++ [0] ++ chars " " ++ [0] ++ repeat 0 69.

Definition scancode_shifted : list Z :=
  [0; 0] ++ chars "!@#$%^&*()_+" ++ [8; 9] ++ chars "QWERTYUIOP{}" ++ [10; 0] ++
  chars "ASDFGHJKL:" ++ [34] ++ chars "~" ++ [0] ++ chars "|ZXCVBNM<>?" ++ [0] ++ chars "*" ++ [0] ++ chars " " ++ [0] ++ repeat 0 69.

Record keyboard := Keyboard {
  kb_buf : gmap Z Z;
  kb_read : Z;
  kb_write : Z;
  kb_waiter_pid : Z;
  shift_held : bool;
  caps_lock : bool;
  serial_log : list Z
}.

Definition set_waiter (v : Z) (k : keyboard) : keyboard :=
  Keyboard (kb_buf k) (kb_read k) (kb_write k) v (shift_held k) (caps_lock k) (serial_log k).
Definition set_shift (v : bool) (k : keyboard) : keyboard :=
  Keyboard (kb_buf k) (kb_read k) (kb_write k) (kb_waiter_pid k) v (caps_lock k) (serial_log k).
Definition set_caps (v : bool) (k : keyboard) : keyboard :=
  Keyboard (kb_buf k) (kb_read k) (kb_write k) (kb_waiter_pid k) (shift_held k) v (serial_log k).
Definition serial_putchar (c : Z) (k : keyboard) : keyboard :=
  Keyboard (kb_buf k) (kb_read k) (kb_write k) (kb_waiter_pid k) (shift_held k) (caps_lock k) (serial_log k ++ [c]).

Definition initial_keyboard : keyboard := Keyboard ∅ 0 0 NO_WAITER false false [].

Definition keyboard_set_waiter (pid : Z) (k : keyboard) : keyboard := set_waiter pid k.

Definition buf_push (c : Z) (k : keyboard) : keyboard :=
  let next := Z.land (kb_write k +w 1) (KB_BUFFER_SIZE - 1) in
  if negb (next =? kb_read k) then
    Keyboard (<[kb_write k := c]> (kb_buf k)) (kb_read k) next (kb_waiter_pid k) (shift_held k) (caps_lock k) (serial_log k)
  else k.

Definition keyboard_getchar (k : keyboard) : Z * keyboard :=
  if kb_read k =? kb_write k then (0, k) else
  (rd (kb_buf k) (kb_read k),
   Keyboard (kb_buf k) (Z.land (kb_read k +w 1) (KB_BUFFER_SIZE - 1)) (kb_write k) (kb_waiter_pid k)
     (shift_held k) (caps_lock k) (serial_log k)).

Definition keyboard_has_char (k : keyboard) : bool := negb (kb_read k =? kb_write k).

(** The character of a pressed key; the two conditional assignments follow
    each other, as in the source. *)
Definition translate (shift caps : bool) (key : Z) : Z :=
  let c := default 0 ((if shift then scancode_shifted else scancode_normal) !! Z.to_nat key) in
  let c := if caps && (97 <=? c) && (c <=? 122) then c - 32 else c in
  let c := if caps && (65 <=? c) && (c <=? 90) then c + 32 else c in
  c.

Section driver.
Context {H : Type} `{!Heap H} {F : Type} `{!Vfs H F}.

Record kbd_state := KbdState { kbd : keyboard; kern : kstate H F }.
Definition set_kbd (k : keyboard) (s : kbd_state) : kbd_state := KbdState k (kern s).
Definition set_kern (v : kstate H F) (s : kbd_state) : kbd_state := KbdState (kbd s) v.
Definition on_kern {A : Type} (c : M (kstate H F) A) : M kbd_state A := zoom kern set_kern c.

Definition keyboard_handler (scancode : Z) : M kbd_state unit := fun s =>
  let k := kbd s in
  let released := Z.land scancode 0x80 in
  let key := Z.land scancode 0x7F in
  if (key =? 0x2A) || (key =? 0x36) then Ok (tt, set_kbd (set_shift (negb (truthy released)) k) s) else
  if (key =? 0x3A) && negb (truthy released) then Ok (tt, set_kbd (set_caps (negb (caps_lock k)) k) s) else
  if truthy released then Ok (tt, s) else
  if 128 <=? key then Ok (tt, s) else
  let c := translate (shift_held k) (caps_lock k) key in
  if negb (truthy c) then Ok (tt, s) else
  let s := set_kbd (serial_putchar c (buf_push c k)) s in
  if kb_waiter_pid (kbd s) =? NO_WAITER then Ok (tt, s) else
  let w := proc_get (kern s) (kb_waiter_pid (kbd s)) in
  let s := set_kbd (set_waiter NO_WAITER (kbd s)) s in
  match w with
  | Some i => on_kern (proc_wake (Some i)) s
  | None => Ok (tt, s)
  end.

(** The second loop of [kbd_read]: at most [len] characters. *)
Fixpoint drain (len : nat) (k : keyboard) : list Z * keyboard :=
  match len with
  | O => ([], k)
  | S len' =>
      if keyboard_has_char k then
        let '(c, k) := keyboard_getchar k in
        let '(cs, k) := drain len' k in (c :: cs, k)
      else ([], k)
  end.

(** One iteration of [kbd_read]: the characters read, or the process blocks
    and yields, and tries again when it is resumed. When no other process is
    ready sched_yield returns at once and the code goes round its loop: that is
    a resumption which follows immediately. *)
Inductive read_result : Type :=
| ReadChars (cs : list Z)
| ReadBlocked (esp : Z).

Definition kbd_read (len esp : Z) : M kbd_state read_result := fun s =>
  if keyboard_has_char (kbd s) then
    let '(cs, k) := drain (Z.to_nat len) (kbd s) in Ok (ReadChars cs, set_kbd k s)
  else
  match current_proc (kern s) with
  | None => Ok (ReadChars [], s)
  | Some self =>
      (on_kern (modify (upd_pcb self (set_p_state PROC_BLOCKED))) ;;
       on_kern (sched_remove self) ;;
       pid ← gets (fun s => p_pid (pcb_at (kern s) self));
       modify (fun s => set_kbd (keyboard_set_waiter (u16 pid) (kbd s)) s) ;;
       r ← on_kern (sched_yield esp);
       mret (ReadBlocked r)) s
  end.
End driver.
Arguments kbd_state : clear implicits.

(** ** The ring buffer is a bounded queue *)

Definition ring_ok (k : keyboard) : Prop :=
  0 <= kb_read k < KB_BUFFER_SIZE /\ 0 <= kb_write k < KB_BUFFER_SIZE.

(** Number of characters held, and the characters, oldest first. *)
Definition held (k : keyboard) : Z := (kb_write k - kb_read k) mod KB_BUFFER_SIZE.
Definition contents (k : keyboard) : list Z :=
  (fun i => rd (kb_buf k) ((kb_read k + i) mod KB_BUFFER_SIZE)) <$> seqZ 0 (held k).

Lemma kbd_ring_next x : 0 <= x < KB_BUFFER_SIZE -> Z.land (x +w 1) (KB_BUFFER_SIZE - 1) = (x + 1) mod KB_BUFFER_SIZE.
Proof.
  unfold KB_BUFFER_SIZE. intros Hx. rewrite u32_small by lia. change (64 - 1) with (Z.ones 6).
  by rewrite Z.land_ones by lia.
Qed.

Lemma held_range k : 0 <= held k < KB_BUFFER_SIZE.
Proof. apply Z.mod_pos_bound. done. Qed.

Lemma contents_length k : Z.of_nat (length (contents k)) = held k.
Proof. unfold contents. rewrite length_fmap, length_seqZ. pose proof (held_range k). lia. Qed.

Lemma tables_complete : length scancode_normal = 128%nat /\ length scancode_shifted = 128%nat.
Proof. split; reflexivity. Qed.

Lemma buf_push_spec k c :
  ring_ok k ->
  ring_ok (buf_push c k) /\
  contents (buf_push c k) = if held k =? KB_BUFFER_SIZE - 1 then contents k else contents k ++ [c].
Proof.
  intros [Hr Hw]. unfold buf_push. rewrite kbd_ring_next by done. unfold ring_ok, KB_BUFFER_SIZE in *.
  assert (Hfull : ((kb_write k + 1) mod 64 =? kb_read k) = (held k =? 64 - 1)).
  { unfold held, KB_BUFFER_SIZE. apply eq_true_iff_eq. rewrite !Z.eqb_eq. zlia. }
  rewrite Hfull. destruct (Z.eqb_spec (held k) (64 - 1)) as [|Hne]; simpl; [done|]. split; [split; [done|zlia]|].
  pose proof (held_range k) as Hh. unfold contents, KB_BUFFER_SIZE in *. simpl.
  assert (Hheld : held (Keyboard (<[kb_write k := c]> (kb_buf k)) (kb_read k) ((kb_write k + 1) mod 64) (kb_waiter_pid k)
    (shift_held k) (caps_lock k) (serial_log k)) = held k + 1).
  { unfold held, KB_BUFFER_SIZE in *. simpl. zlia. }
  rewrite Hheld, seqZ_app by lia. rewrite fmap_app. f_equal.
  - apply list_fmap_ext. intros i x Hx. apply lookup_seqZ in Hx as [-> Hi]. rewrite rd_insert, decide_False; [done|].
    unfold held, KB_BUFFER_SIZE in *. zlia.
  - change (seqZ (0 + held k) 1) with [Z.of_nat 0 + (0 + held k)]. simpl. rewrite rd_insert, decide_True; [done|].
    unfold held, KB_BUFFER_SIZE in *. zlia.
Qed.

Lemma keyboard_getchar_spec k :
  ring_ok k ->
  ring_ok (keyboard_getchar k).2 /\
  match contents k with
  | [] => keyboard_getchar k = (0, k)
  | c :: rest => (keyboard_getchar k).1 = c /\ contents (keyboard_getchar k).2 = rest
  end.
Proof.
  intros [Hr Hw]. unfold keyboard_getchar. pose proof (held_range k) as Hh. rewrite kbd_ring_next by done.
  assert (Hempty : (kb_read k =? kb_write k) = (held k =? 0)).
  { unfold held, KB_BUFFER_SIZE in *. apply eq_true_iff_eq. rewrite !Z.eqb_eq. zlia. }
  rewrite Hempty. unfold ring_ok, KB_BUFFER_SIZE in *. destruct (Z.eqb_spec (held k) 0) as [E|Hne]; simpl.
  { unfold contents. rewrite E. done. }
  split; [split; [zlia|done]|]. unfold contents at 1. rewrite seqZ_cons by lia. rewrite fmap_cons.
  split; [f_equal; rewrite Z.add_0_r, Z.mod_small; done|].
  unfold contents. simpl. match goal with |- _ <$> seqZ 0 ?h = _ => assert (Hheld : h = Z.pred (held k)) end.
  { unfold held, KB_BUFFER_SIZE in *. simpl. zlia. }
  change (Z.succ 0) with (1 + 0). rewrite Hheld, <- (fmap_add_seqZ 1 0 (Z.pred (held k))), <- list_fmap_compose. apply list_fmap_ext.
  intros i x Hx. simpl. f_equal. unfold KB_BUFFER_SIZE. rewrite Zplus_mod_idemp_l. f_equal. lia.
Qed.

(** The abstract device: a queue of at most 63 characters. *)
Inductive kb_op : Type :=
| Push (c : Z)
| Get.

Definition fifo_push (c : Z) (q : list Z) : list Z := if bool_decide (length q = 63%nat) then q else q ++ [c].

Fixpoint fifo_run (ops : list kb_op) (q : list Z) : list Z * list Z :=
  match ops with
  | [] => ([], q)
  | Push c :: ops => fifo_run ops (fifo_push c q)
  | Get :: ops =>
      let '(out, q') := fifo_run ops (tail q) in (hd 0 q :: out, q')
  end.

Fixpoint ring_run (ops : list kb_op) (k : keyboard) : list Z * keyboard :=
  match ops with
  | [] => ([], k)
  | Push c :: ops => ring_run ops (buf_push c k)
  | Get :: ops =>
      let '(c, k) := keyboard_getchar k in
      let '(out, k) := ring_run ops k in (c :: out, k)
  end.

Lemma buf_push_fifo k c : ring_ok k -> ring_ok (buf_push c k) /\ contents (buf_push c k) = fifo_push c (contents k).
Proof.
  intros Hk. destruct (buf_push_spec k c Hk) as [H1 H2]. split; [done|]. rewrite H2. unfold fifo_push.
  pose proof (contents_length k). unfold KB_BUFFER_SIZE. destruct (Z.eqb_spec (held k) (64 - 1)).
  - by rewrite bool_decide_true by lia.
  - by rewrite bool_decide_false by lia.
Qed.

Lemma getchar_fifo k :
  ring_ok k -> ring_ok (keyboard_getchar k).2 /\
  (keyboard_getchar k).1 = hd 0 (contents k) /\ contents (keyboard_getchar k).2 = tail (contents k).
Proof.
  intros Hk. destruct (keyboard_getchar_spec k Hk) as [H1 H2]. split; [done|].
  destruct (contents k) as [|c rest] eqn:E; [|done]. by rewrite H2.
Qed.

Lemma has_char_contents k : ring_ok k -> keyboard_has_char k = negb (bool_decide (contents k = [])).
Proof.
  intros [Hr Hw]. unfold keyboard_has_char. f_equal. pose proof (contents_length k) as Hl.
  unfold ring_ok, held, KB_BUFFER_SIZE in *. destruct (Z.eqb_spec (kb_read k) (kb_write k)) as [E|E].
  - rewrite E, Z.sub_diag in Hl. by destruct (contents k).
  - rewrite bool_decide_false; [done|]. intros E'. rewrite E' in Hl. simpl in Hl. zlia.
Qed.

(** [kbd_read] takes as many characters as fit, oldest first. *)
Lemma drain_spec n : forall k, ring_ok k ->
  (drain n k).1 = take n (contents k) /\ contents (drain n k).2 = List.skipn n (contents k) /\ ring_ok (drain n k).2.
Proof.
  induction n as [|n IH]; intros k Hk; simpl; [done|]. rewrite has_char_contents by done.
  destruct (contents k) as [|c rest] eqn:E; simpl.
  - rewrite ?bool_decide_true by done. simpl. by rewrite E.
  - rewrite ?bool_decide_false by done. simpl. destruct (getchar_fifo k Hk) as (H1 & H2 & H3).
    destruct (keyboard_getchar k) as [c' k']. simpl in *. rewrite E in H2, H3. simpl in H2, H3. subst c'.
    destruct (IH k' H1) as (G1 & G2 & G3). destruct (drain n k') as [cs k2]. simpl in *.
    rewrite G1, G2, H3. done.
Qed.

(** C28: the ring buffer implements a queue of at most 63 characters: from any
    consistent state, every sequence of pushes by the interrupt handler and
    reads returns the characters of the bounded queue in order (0 when it is
    empty, pushes into a full queue dropped), and the indices stay inside the
    buffer. *)
Theorem keyboard_ring_correct ops : forall k,
  ring_ok k ->
  (ring_run ops k).1 = (fifo_run ops (contents k)).1 /\
  contents (ring_run ops k).2 = (fifo_run ops (contents k)).2 /\
  ring_ok (ring_run ops k).2 /\
  keyboard_has_char (ring_run ops k).2 = negb (bool_decide ((fifo_run ops (contents k)).2 = [])).
Proof.
  induction ops as [|[c|] ops IH]; intros k Hk; simpl.
  - split_and!; try done. by apply has_char_contents.
  - destruct (buf_push_fifo k c Hk) as [H1 <-]. by apply IH.
  - destruct (getchar_fifo k Hk) as (H1 & H2 & H3). destruct (keyboard_getchar k) as [c k']. simpl in *.
    specialize (IH k' H1). rewrite H3 in IH. destruct (ring_run ops k') as [out k2], (fifo_run ops _) as [out' q2].
    simpl in *. destruct IH as (-> & ? & ? & ?). by subst c.
Qed.

Lemma keyboard_ring_correct_witness :
  (ring_run [Push 104; Push 105; Get; Get; Get] initial_keyboard).1 = [104; 105; 0] /\
  ring_ok (ring_run [Push 104; Push 105; Get; Get; Get] initial_keyboard).2.
Proof.
  destruct (keyboard_ring_correct [Push 104; Push 105; Get; Get; Get] initial_keyboard) as (H1 & _ & H3 & _);
    [split; vm_compute; split; congruence|]. split; [exact H1|exact H3].
Defined.

(** ** Caps lock *)

(** caps lock has no effect on unshifted keys: every key gives the same
    character with caps lock on and off when no shift key is held, so a letter
    key never gives its capital. With shift held, caps lock turns the capital
    into the small letter, and every other key keeps its character. *)
Theorem caps_lock_without_shift key :
  0 <= key < 128 ->
  translate false true key = translate false false key /\
  (65 <= translate false true key <= 90 -> False) /\
  translate true true key =
    (if (65 <=? translate true false key) && (translate true false key <=? 90)
     then translate true false key + 32 else translate true false key).
Proof.
  intros Hk.
  assert (Hall : forallb (fun key =>
      (translate false true key =? translate false false key) &&
      negb ((65 <=? translate false true key) && (translate false true key <=? 90)) &&
      (translate true true key =?
        (if (65 <=? translate true false key) && (translate true false key <=? 90)
         then translate true false key + 32 else translate true false key))) (seqZ 0 128) = true) by (vm_compute; reflexivity).
  rewrite forallb_forall in Hall. specialize (Hall key). rewrite !andb_true_iff, negb_true_iff, !Z.eqb_eq, andb_false_iff, !Z.leb_gt in Hall.
  destruct Hall as ((H1 & H2) & H3); [apply list_elem_of_In, elem_of_seqZ; lia|]. split; [done|]. split; [lia|done].
Qed.

Lemma caps_lock_without_shift_witness : translate false true 0x1E = 97 /\ translate true true 0x1E = 97.
Proof.
  destruct (caps_lock_without_shift 0x1E ltac:(lia)) as (H1 & _ & H3). split; [exact H1|exact H3].
Defined.

(** ** Waking the reader *)

Section wake.
Context {H : Type} `{!Heap H} `{!HeapLaws H} {F : Type} `{!Vfs H F} `{!VfsLaws H F}.
Implicit Types (s : kbd_state H F).

(** Modifier keys have no character. *)
Lemma translate_modifier shift caps : translate shift caps 0x2A = 0 /\ translate shift caps 0x36 = 0 /\ translate shift caps 0x3A = 0.
Proof. destruct shift, caps; vm_compute; auto. Qed.

(** The handler on a key press that has a character. *)
Lemma keyboard_handler_press s key :
  0 <= key < 128 -> translate (shift_held (kbd s)) (caps_lock (kbd s)) key <> 0 ->
  keyboard_handler key s =
    let c := translate (shift_held (kbd s)) (caps_lock (kbd s)) key in
    let s := set_kbd (serial_putchar c (buf_push c (kbd s))) s in
    if kb_waiter_pid (kbd s) =? NO_WAITER then Ok (tt, s) else
    match proc_get (kern s) (kb_waiter_pid (kbd s)) with
    | Some i => on_kern (proc_wake (Some i)) (set_kbd (set_waiter NO_WAITER (kbd s)) s)
    | None => Ok (tt, set_kbd (set_waiter NO_WAITER (kbd s)) s)
    end.
Proof.
  intros Hk Hc. unfold keyboard_handler. destruct (translate_modifier (shift_held (kbd s)) (caps_lock (kbd s))) as (M1 & M2 & M3).
  assert (Hkey : Z.land key 0x7F = key).
  { change 0x7F with (Z.ones 7). rewrite Z.land_ones by lia. apply Z.mod_small. lia. }
  assert (Hrel : Z.land key 0x80 = 0).
  { apply Z.bits_inj'. intros n Hn. rewrite Z.land_spec, Z.bits_0. change 0x80 with (2 ^ 7).
    destruct (decide (n = 7)) as [->|Hne].
    - rewrite (Z.bits_above_log2 key 7); [done|lia|]. destruct (decide (key = 0)) as [->|]; [done|].
      apply Z.log2_lt_pow2; lia.
    - rewrite Z.pow2_bits_false by done. apply andb_false_r. }
  rewrite Hkey, Hrel. cbv zeta. unfold truthy. cbn [negb Z.eqb].
  rewrite (proj2 (Z.eqb_neq key 0x2A)), (proj2 (Z.eqb_neq key 0x36)), (proj2 (Z.eqb_neq key 0x3A)) by (intros ->; done).
  rewrite (proj2 (Z.leb_gt 128 key)) by lia. rewrite (proj2 (Z.eqb_neq _ 0) Hc). done.
Qed.

Lemma buf_push_fields c k :
  kb_waiter_pid (buf_push c k) = kb_waiter_pid k /\ shift_held (buf_push c k) = shift_held k.
Proof. unfold buf_push. by destruct (negb _). Qed.

(** C27: a key press reaches a blocked reader. When a process is blocked in
    [kbd_read] and registered as the waiter, the interrupt of a key with a
    character appends it to the buffer, makes the process ready and queues it,
    and clears the registration; the process's next attempt to read returns at
    least one character and does not block again. *)
Theorem keyboard_wakes_reader s L A q key pid :
  proc_inv [] (kern s) L A q -> ring_ok (kbd s) -> 0 <= key < 128 ->
  translate (shift_held (kbd s)) (caps_lock (kbd s)) key <> 0 ->
  kb_waiter_pid (kbd s) = pid -> 1 <= pid < MAX_PROCS -> state_of (kern s) pid = PROC_BLOCKED ->
  exists s' q', keyboard_handler key s = Ok (tt, s') /\ proc_inv [] (kern s') L A q' /\
    state_of (kern s') pid = PROC_READY /\ pid ∈ q' /\ kb_waiter_pid (kbd s') = NO_WAITER /\
    contents (kbd s') = fifo_push (translate (shift_held (kbd s)) (caps_lock (kbd s)) key) (contents (kbd s)) /\
    forall len esp, 0 < len -> exists c cs s'', kbd_read len esp s' = Ok (ReadChars (c :: cs), s'').
Proof.
  intros Hinv Hring Hk Hc Hw Hpid Hb. rewrite keyboard_handler_press by done.
  set (c := translate _ _ key) in *. cbv zeta. destruct (buf_push_fields c (kbd s)) as [Hf1 Hf2].
  destruct (buf_push_fifo (kbd s) c Hring) as [Hring' Hcont].
  cbn [kbd kern set_kbd serial_putchar kb_waiter_pid]. rewrite Hf1, Hw.
  rewrite (proj2 (Z.eqb_neq pid NO_WAITER)) by (unfold NO_WAITER, MAX_PROCS in *; lia).
  assert (Hget : proc_get (kern s) pid = Some pid).
  { unfold proc_get. rewrite (proj2 (Z.leb_gt _ _)) by lia. rewrite bool_decide_false by congruence. done. }
  rewrite Hget. destruct (proc_wake_inv [] (kern s) L A q pid Hinv Hpid (not_elem_of_nil pid)) as (k' & q' & E & Hinv' & _).
  set (kb := set_waiter NO_WAITER _). exists (KbdState kb k'), q'.
  pose proof (proc_wake_ready (kern s) pid k' Hb E) as Hready.
  assert (Hkc : contents kb = fifo_push c (contents (kbd s))) by exact Hcont.
  assert (Hkr : ring_ok kb) by exact Hring'.
  split; [unfold on_kern, zoom; cbn [kern set_kbd]; by rewrite E|]. split; [done|]. split; [done|]. split.
  { by destruct (pi_queued _ _ _ _ _ Hinv' pid Hpid (or_introl Hready)) as [?%elem_of_nil|?]. }
  split; [done|]. split; [done|]. intros len esp Hlen.
  assert (Hne : contents kb <> []).
  { rewrite Hkc. unfold fifo_push. case_bool_decide as Hfull; [by destruct (contents (kbd s))|]. by destruct (contents (kbd s)). }
  unfold kbd_read. cbn [kbd]. rewrite has_char_contents, bool_decide_false by done. cbn [negb].
  destruct (drain_spec (Z.to_nat len) kb Hkr) as (D1 & _). destruct (drain (Z.to_nat len) kb) as [cs k2]. simpl in D1. subst cs.
  destruct (contents kb) as [|c0 cs]; [done|]. destruct (Z.to_nat len) as [|n] eqn:En; [lia|]. simpl. eauto.
Qed.
End wake.

(** The idle process of the demonstration machine blocked on the keyboard. *)
Definition demo_blocked : demo_kstate := final (block_self 0x500000) demo_fork2.
Lemma demo_blocked_reachable : reachable demo_blocked.
Proof.
  destruct demo_fork2_reachable as (s0 & Hb & Hr). exists s0. split; [exact Hb|]. apply (rtc_r _ demo_fork2); [exact Hr|].
  destruct (run_final (block_self 0x500000) demo_fork2) as [r E]; [vm_compute; reflexivity|].
  apply (step_block _ 0x500000 r); [lia|exact E].
Qed.
#[global] Opaque demo_blocked.

Lemma keyboard_wakes_reader_witness :
  exists s', keyboard_handler 0x1E (KbdState (set_waiter 1 initial_keyboard) demo_blocked) = Ok (tt, s') /\
    state_of (kern s') 1 = PROC_READY /\ contents (kbd s') = [97].
Proof.
  destruct (reachable_proc_inv demo_blocked demo_blocked_reachable) as (L & A & q & Hinv).
  destruct (keyboard_wakes_reader (KbdState (set_waiter 1 initial_keyboard) demo_blocked) L A q 0x1E 1 Hinv)
    as (s' & q' & E & _ & Hs & _ & _ & Hc & _).
  - split; vm_compute; split; congruence.
  - lia.
  - vm_compute. discriminate.
  - reflexivity.
  - unfold MAX_PROCS. lia.
  - vm_compute. reflexivity.
  - exists s'. split; [exact E|]. split; [exact Hs|]. rewrite Hc. vm_compute. reflexivity.
Defined.
