(* ===== verification/Pipe.v ===== *)
(** * Anonymous pipes (kernel/fs/pipe.c, include/pipe.h)

    A pipe is a ring buffer of 4096 bytes shared by a read end and a write end.
    [pipe_block] gives up the processor in the middle of the loops of
    [pipe_read_op] and [pipe_write_op]; a call that blocks ends in [IoBlocked],
    and running the loop again with the bytes transferred so far is what the
    process does when it is resumed. Closing is in Fs.v with the file objects.

    The theorems show that a pipe is a bounded first-in first-out queue under
    any interleaving of readers, writers and blocking, that every call ends,
    that writing wakes a sleeping reader, and what closing an end does. *)

From Stdlib Require Import ZArith Lia.
From S2P Require Import Prelude Kheap HeapSpec Kstate Fd Fs FsLaws Ramfs Proc ProcInv ProcOps ProcSteps ProcSafety Kinv.

Definition PIPE_BUFSZ : Z := 4096.
Definition SIZEOF_PIPE : Z := 4116.
Definition SIZEOF_PIPE_END : Z := 8.

(** Outcome of a transfer: the return value, or the call sleeps. Both carry the
    bytes moved so far. *)
Inductive io_result : Type :=
| IoDone (ret : Z) (moved : list Z)
| IoBlocked (esp : Z) (moved : list Z).

Definition set_ring (buf : gmap Z Z) (head count : Z) (p : pipe) : pipe :=
  Pipe buf head count (pp_readers p) (pp_writers p) (pp_blocked_reader p) (pp_blocked_writer p).

(** [dst[read++] = pipe->buf[pipe->head]; pipe->head = (pipe->head + 1) & (PIPE_BUFSZ - 1);]
    [n] times: the bytes and the new head. *)
Fixpoint ring_get (n : nat) (buf : gmap Z Z) (head : Z) : list Z * Z :=
  match n with
  | O => ([], head)
  | S n' => let '(bs, h) := ring_get n' buf (Z.land (head +w 1) (PIPE_BUFSZ - 1)) in (rd buf head :: bs, h)
  end.

(** [pipe->buf[tail] = src[written++]; tail = (tail + 1) & (PIPE_BUFSZ - 1);] *)
Fixpoint ring_put (src : list Z) (buf : gmap Z Z) (tail : Z) : gmap Z Z :=
  match src with
  | [] => buf
  | c :: src' => ring_put src' (<[tail := c]> buf) (Z.land (tail +w 1) (PIPE_BUFSZ - 1))
  end.

Section pipe.
Context {H : Type} `{!Heap H}.
Local Abbreviation M A := (M (kstate H fstate) A).

Definition pipe_block (p : Z) (is_write : bool) (esp : Z) : M Z :=
  self ← sched_current;
  match self with
  | None => mret 0
  | Some i =>
      pid ← gets (fun s => p_pid (pcb_at s i));
      x ← load as_pipe p;
      store p (OPipe (if is_write then set_blocked_writer (u16 pid) x else set_blocked_reader (u16 pid) x)) ;;
      block_self esp
  end.

(** The loop of [pipe_read_op] after [got] bytes have been read. [IoBlocked] is
    the point where sched_yield was called; the rest of the loop is the next
    call, with what was read so far. When no other process is ready sched_yield
    returns at once and the code goes round its inner loop: that is a next call
    which follows immediately, on a process that is marked blocked. *)
Fixpoint pipe_read_loop (fuel : nat) (p len esp : Z) (got : list Z) : M io_result :=
  let read := Z.of_nat (length got) in
  if len <=? read then mret (IoDone (s32 read) got) else
  match fuel with
  | O => stop OutOfFuel
  | S fuel' =>
      x ← load as_pipe p;
      if pp_count x =? 0 then
        if pp_writers x =? 0 then mret (IoDone (s32 read) got) else
        r ← pipe_block p false esp; mret (IoBlocked r got)
      else
        let batch := if pp_count x <? len - read then pp_count x else len - read in
        let '(bs, head) := ring_get (Z.to_nat batch) (pp_buf x) (pp_head x) in
        store p (OPipe (set_ring (pp_buf x) head (pp_count x - batch) x)) ;;
        pipe_wake_peer p false ;;
        pipe_read_loop fuel' p len esp (got ++ bs)
  end.

(** Two passes are enough: after the first one either [len] bytes have been
    read or the pipe is empty. *)
Definition PIPE_FUEL : nat := 3.

Definition pipe_read_op (v len esp : Z) : M io_result :=
  x ← load as_vnode v;
  e ← load as_end (v_data x);
  pipe_read_loop PIPE_FUEL (e_pipe e) len esp [].

(** The loop of [pipe_write_op] when [rest] is still to be written after
    [done]; [inner] says that the process comes back from [pipe_block] inside
    the inner loop, past the first test for readers. As for reading, coming
    back from sched_yield at once is a next call that follows immediately. The
    bytes to write are those in the buffer when the call was made. *)
Fixpoint pipe_write_loop (fuel : nat) (p esp : Z) (inner : bool) (rest done : list Z) : M io_result :=
  match rest with
  | [] => mret (IoDone (s32 (Z.of_nat (length done))) done)
  | _ =>
      match fuel with
      | O => stop OutOfFuel
      | S fuel' =>
          x ← load as_pipe p;
          if negb inner && (pp_readers x =? 0) then mret (IoDone (-1) done) else
          if pp_count x =? PIPE_BUFSZ then
            if pp_readers x =? 0 then mret (IoDone (-1) done) else
            r ← pipe_block p true esp; mret (IoBlocked r done)
          else
            let space := PIPE_BUFSZ - pp_count x in
            let left := Z.of_nat (length rest) in
            let batch := if space <? left then space else left in
            let tail := Z.land (pp_head x +w pp_count x) (PIPE_BUFSZ - 1) in
            let now := take (Z.to_nat batch) rest in
            store p (OPipe (set_ring (ring_put now (pp_buf x) tail) (pp_head x) (pp_count x + batch) x)) ;;
            pipe_wake_peer p true ;;
            pipe_write_loop fuel' p esp false (drop (Z.to_nat batch) rest) (done ++ now)
      end
  end.

Definition pipe_write_op (v esp : Z) (src : list Z) : M io_result :=
  x ← load as_vnode v;
  e ← load as_end (v_data x);
  pipe_write_loop PIPE_FUEL (e_pipe e) esp false src [].

(** The labels at the end of [pipe_create]: what is freed, in order. *)
Definition free_list (ps : list Z) : M unit := foldr (fun p k => kfree_obj p ;; k) (mret tt) ps.

Definition pipe_create (fd_table : list Z) : M (option (Z * Z) * list Z) :=
  pipe ← new_obj SIZEOF_PIPE (OPipe (Pipe ∅ 0 0 1 1 PIPE_NO_WAITER PIPE_NO_WAITER));
  if pipe =? 0 then mret (None, fd_table) else
  rend ← new_obj SIZEOF_PIPE_END (OEnd (PipeEnd pipe false));
  if rend =? 0 then free_list [pipe] ;; mret (None, fd_table) else
  rv ← vnode_alloc VNODE_PIPE pipe_read_ops rend;
  if rv =? 0 then free_list [rend; pipe] ;; mret (None, fd_table) else
  wend ← new_obj SIZEOF_PIPE_END (OEnd (PipeEnd pipe true));
  if wend =? 0 then free_list [rv; rend; pipe] ;; mret (None, fd_table) else
  wv ← vnode_alloc VNODE_PIPE pipe_write_ops wend;
  if wv =? 0 then free_list [wend; rv; rend; pipe] ;; mret (None, fd_table) else
  let err_free_wv := free_list [wv; wend; rv; rend; pipe] in
  rf ← vfs_open_vnode rv O_RDONLY;
  if rf =? 0 then err_free_wv ;; mret (None, fd_table) else
  wf ← vfs_open_vnode wv O_WRONLY;
  if wf =? 0 then vfs_close rf ;; err_free_wv ;; mret (None, fd_table) else
  let '(rfd, t1) := fd_install fd_table rf in
  if rfd <? 0 then vfs_close rf ;; vfs_close wf ;; err_free_wv ;; mret (None, fd_table) else
  let '(wfd, t2) := fd_install t1 wf in
  if wfd <? 0 then t3 ← fd_close t1 rfd; vfs_close wf ;; err_free_wv ;; mret (None, t3) else
  mret (Some (rfd, wfd), t2).
End pipe.

(** ** The ring as a queue *)

Definition pipe_ok (x : pipe) : Prop := 0 <= pp_head x < PIPE_BUFSZ /\ 0 <= pp_count x <= PIPE_BUFSZ.

Definition ring_data (n : nat) (buf : gmap Z Z) (head : Z) : list Z :=
  (fun i => rd buf ((head + Z.of_nat i) mod PIPE_BUFSZ)) <$> seq 0 n.

(** The bytes in the pipe, oldest first. *)
Definition pipe_data (x : pipe) : list Z := ring_data (Z.to_nat (pp_count x)) (pp_buf x) (pp_head x).

(** Everything but the ring and the sleepers. *)
Definition same_ends (x x' : pipe) : Prop := pp_readers x' = pp_readers x /\ pp_writers x' = pp_writers x.

Lemma ring_next h : 0 <= h < PIPE_BUFSZ -> Z.land (h +w 1) (PIPE_BUFSZ - 1) = (h + 1) mod PIPE_BUFSZ.
Proof.
  unfold PIPE_BUFSZ. intros Hh. rewrite u32_small by lia. exact (land_ones_mod (h + 1) 12 ltac:(lia)).
Qed.

Lemma ring_tail x : pipe_ok x -> Z.land (pp_head x +w pp_count x) (PIPE_BUFSZ - 1) = (pp_head x + pp_count x) mod PIPE_BUFSZ.
Proof.
  unfold pipe_ok, PIPE_BUFSZ. intros Hx. rewrite u32_small by lia. exact (land_ones_mod _ 12 ltac:(lia)).
Qed.

Lemma ring_data_length n buf h : length (ring_data n buf h) = n.
Proof. unfold ring_data. by rewrite length_fmap, length_seq. Qed.

Lemma pipe_data_length x : pipe_ok x -> Z.of_nat (length (pipe_data x)) = pp_count x.
Proof. intros [_ Hc]. unfold pipe_data. rewrite ring_data_length. lia. Qed.

Lemma ring_data_lookup n buf h i : (i < n)%nat -> ring_data n buf h !! i = Some (rd buf ((h + Z.of_nat i) mod PIPE_BUFSZ)).
Proof. intros Hi. unfold ring_data. by rewrite list_lookup_fmap, lookup_seq_lt by lia. Qed.

Lemma ring_data_take n m buf h : (n <= m)%nat -> take n (ring_data m buf h) = ring_data n buf h.
Proof.
  intros Hn. apply list_eq_same_length with n; rewrite ?length_take, ?ring_data_length; try lia.
  intros i a b Hi Ha Hb. rewrite lookup_take_lt, ring_data_lookup in Ha by lia. rewrite ring_data_lookup in Hb by lia. congruence.
Qed.

Lemma ring_data_drop n m buf h : 0 <= h -> (n <= m)%nat ->
  drop n (ring_data m buf h) = ring_data (m - n) buf ((h + Z.of_nat n) mod PIPE_BUFSZ).
Proof.
  intros Hh Hn. apply list_eq_same_length with (m - n)%nat; rewrite ?length_drop, ?ring_data_length; try lia.
  intros i a b Hi Ha Hb. rewrite lookup_drop, ring_data_lookup in Ha by lia. rewrite ring_data_lookup in Hb by lia.
  rewrite Z.add_mod_idemp_l in Hb by done. replace (h + Z.of_nat (n + i)) with (h + Z.of_nat n + Z.of_nat i) in Ha by lia. congruence.
Qed.

Lemma ring_get_spec n buf : forall h, 0 <= h < PIPE_BUFSZ ->
  ring_get n buf h = (ring_data n buf h, (h + Z.of_nat n) mod PIPE_BUFSZ).
Proof.
  induction n as [|n IH]; intros h Hh; simpl.
  - f_equal. rewrite Z.add_0_r. symmetry. by apply Z.mod_small.
  - rewrite ring_next by done. rewrite IH by (by apply Z.mod_pos_bound). f_equal.
    + unfold ring_data. cbn [seq fmap list_fmap]. rewrite <- fmap_S_seq. rewrite Z.add_0_r, (Z.mod_small h) by done. f_equal.
      rewrite <- list_fmap_compose. apply list_fmap_ext. intros i k _. simpl. f_equal.
      rewrite Z.add_mod_idemp_l by done. f_equal. lia.
    + rewrite Z.add_mod_idemp_l by done. f_equal. lia.
Qed.

Lemma ring_put_other src : forall buf t k, 0 <= t < PIPE_BUFSZ ->
  (forall j, (j < length src)%nat -> k <> (t + Z.of_nat j) mod PIPE_BUFSZ) -> rd (ring_put src buf t) k = rd buf k.
Proof.
  induction src as [|c src IH]; intros buf t k Ht Hk; simpl; [done|]. rewrite ring_next by done.
  rewrite IH by first [by apply Z.mod_pos_bound | intros j Hj; rewrite Z.add_mod_idemp_l by done;
    replace (t + 1 + Z.of_nat j) with (t + Z.of_nat (S j)) by lia; apply Hk; simpl; lia].
  apply rd_insert_ne. intros <-. apply (Hk 0%nat); [simpl; lia|]. rewrite Z.add_0_r. by rewrite Z.mod_small.
Qed.

Lemma ring_put_at src : forall buf t j c, 0 <= t < PIPE_BUFSZ -> Z.of_nat (length src) <= PIPE_BUFSZ ->
  src !! j = Some c -> rd (ring_put src buf t) ((t + Z.of_nat j) mod PIPE_BUFSZ) = c.
Proof.
  induction src as [|d src IH]; intros buf t j c Ht Hl Hj; simpl; [done|]. simpl in Hl. rewrite ring_next by done.
  destruct j as [|j]; simpl in Hj.
  - injection Hj as ->. rewrite ring_put_other; [|by apply Z.mod_pos_bound|].
    + rewrite Z.add_0_r, Z.mod_small by done. apply rd_insert_eq.
    + intros j Hj. rewrite Z.add_mod_idemp_l by done. unfold PIPE_BUFSZ in *. zlia.
  - replace (t + Z.of_nat (S j)) with (t + 1 + Z.of_nat j) by lia. rewrite <- (Z.add_mod_idemp_l (t + 1)) by done.
    apply IH; [by apply Z.mod_pos_bound|lia|done].
Qed.

(** Writing at the tail appends. *)
Lemma ring_put_data src buf h n : 0 <= h < PIPE_BUFSZ -> Z.of_nat n + Z.of_nat (length src) <= PIPE_BUFSZ ->
  ring_data (n + length src) (ring_put src buf ((h + Z.of_nat n) mod PIPE_BUFSZ)) h = ring_data n buf h ++ src.
Proof.
  intros Hh Hn. apply list_eq_same_length with (n + length src)%nat; rewrite ?length_app, ?ring_data_length; try lia.
  intros i a b Hi Ha Hb. rewrite ring_data_lookup in Ha by lia. injection Ha as <-. destruct (decide (i < n)%nat) as [Hlt|Hge].
  - rewrite lookup_app_l, ring_data_lookup in Hb by (rewrite ?ring_data_length; lia). injection Hb as <-.
    apply ring_put_other; [by apply Z.mod_pos_bound|]. intros j Hj. rewrite Z.add_mod_idemp_l by done. unfold PIPE_BUFSZ in *. zlia.
  - rewrite lookup_app_r, ring_data_length in Hb by (rewrite ring_data_length; lia).
    rewrite <- (ring_put_at src buf ((h + Z.of_nat n) mod PIPE_BUFSZ) (i - n) b); [|by apply Z.mod_pos_bound|lia|done].
    rewrite Z.add_mod_idemp_l by done. do 2 f_equal. lia.
Qed.

(** ** One call on the whole kernel state *)

Section calls.
Context {H : Type} `{!Heap H}.
Implicit Types (s : kstate H fstate) (x : pipe) (p : Z).

(** Only the pipe object [p] changes. *)
Definition pipe_at s p x : Prop := objs (k_files s) !! p = Some (OPipe x).
Definition only_pipe p s s' x' : Prop := k_heap s' = k_heap s /\ k_files s' = set_objs (<[p := OPipe x']> (objs (k_files s))) (k_files s).
Definition ring_of x := (pp_buf x, pp_head x, pp_count x, pp_readers x, pp_writers x).

Lemma only_pipe_at p s s' x' : only_pipe p s s' x' -> pipe_at s' p x'.
Proof. intros [_ E]. unfold pipe_at. rewrite E. apply lookup_insert_eq. Qed.

Lemma only_pipe_trans p s1 s2 s3 x2 x3 : only_pipe p s1 s2 x2 -> only_pipe p s2 s3 x3 -> only_pipe p s1 s3 x3.
Proof.
  intros [E1 F1] [E2 F2]. split; [congruence|]. rewrite F2, F1. unfold set_objs. simpl. by rewrite insert_insert_eq.
Qed.

Lemma only_pipe_refl p s x : pipe_at s p x -> only_pipe p s s x.
Proof. intros Hp. split; [done|]. rewrite insert_id by done. by destruct (k_files s). Qed.

Lemma load_at {T} (view : obj -> option T) s p o y :
  objs (k_files s) !! p = Some o -> view o = Some y -> load view p s = Ok (y, s).
Proof. intros Hp Hv. unfold load. rewrite Hp. simpl. by rewrite Hv. Qed.

Lemma load_pipe s p x : pipe_at s p x -> load as_pipe p s = Ok (x, s).
Proof. intros Hp. unfold load. by rewrite Hp. Qed.

Lemma store_pipe s p x x' : pipe_at s p x -> exists s', store p (OPipe x') s = Ok (tt, s') /\ only_pipe p s s' x' /\
  s' = set_k_files (k_files s') s.
Proof. intros Hp. unfold store. rewrite Hp. eexists. split; [reflexivity|]. done. Qed.

Lemma proc_wake_total (o : option Z) s : exists s', proc_wake o s = Ok (tt, s') /\ k_heap s' = k_heap s /\ k_files s' = k_files s.
Proof.
  destruct o as [i|]; [|by exists s]. unfold proc_wake, mbind, M_bind, gets, modify.
  destruct (negb _); [by exists s|]. unfold sched_add. destruct (negb _); [by eexists|]. destruct (MAX_PROCS <=? _); by eexists.
Qed.

Lemma sched_yield_total esp s : exists r s', sched_yield esp s = Ok (r, s') /\ k_heap s' = k_heap s /\ k_files s' = k_files s.
Proof.
  unfold sched_yield, sched_force_switch, mbind, M_bind, modify.
  set (s1 := match current_proc _ with Some c => _ | None => _ end).
  assert (Hs1 : k_heap s1 = k_heap s /\ k_files s1 = k_files s) by (unfold s1; by destruct (current_proc _)).
  clearbody s1. unfold sched_switch_esp. destruct (_ || _); [by exists 0, s1|]. destruct (current_proc s1) as [c|]; [|by exists 0, (set_tick_flag false s1)].
  set (s2 := slice_used c s1). assert (Hs2 : k_heap s2 = k_heap s1 /\ k_files s2 = k_files s1) by (unfold s2, slice_used; by destruct (0 <? _)).
  clearbody s2. destruct Hs1 as [E1 F1], Hs2 as [E2 F2]. rewrite E1 in E2. rewrite F1 in F2.
  destruct (0 <? _); [by exists 0, s2|]. destruct (select _ _) as [[next i]|]; by eexists _, _.
Qed.

Lemma sched_remove_total i s : exists s', sched_remove i s = Ok (tt, s') /\ k_heap s' = k_heap s /\ k_files s' = k_files s.
Proof.
  unfold sched_remove, modify. eexists. split; [reflexivity|]. destruct (find_up _ _ _); [|done].
  unfold queue_drop. by destruct (_ !! _).
Qed.

Lemma block_self_total esp s : exists r s', block_self esp s = Ok (r, s') /\ k_heap s' = k_heap s /\ k_files s' = k_files s.
Proof.
  unfold block_self. destruct (current_proc s) as [i|]; [|by exists 0, s].
  rewrite (bind_ok _ _ s tt (upd_pcb i (set_p_state PROC_BLOCKED) s)) by done.
  destruct (sched_remove_total i (upd_pcb i (set_p_state PROC_BLOCKED) s)) as (s1 & E1 & G1 & G2). rewrite (bind_ok _ _ _ _ _ E1).
  destruct (sched_yield_total esp s1) as (r & s' & E & E2 & E3). exists r, s'. split; [exact E|].
  rewrite E2, E3, G1, G2. done.
Qed.

Lemma pipe_wake_run s p x b : pipe_at s p x ->
  exists s' x', pipe_wake_peer p b s = Ok (tt, s') /\ only_pipe p s s' x' /\ ring_of x' = ring_of x.
Proof.
  intros Hp. unfold pipe_wake_peer. rewrite (bind_ok _ _ _ _ _ (load_pipe s p x Hp)).
  destruct (_ =? PIPE_NO_WAITER). { exists s, x. split; [done|]. split; [by apply only_pipe_refl|done]. }
  set (x1 := if b then set_blocked_reader _ _ else _).
  destruct (store_pipe s p x x1 Hp) as (s1 & E1 & H1 & _). rewrite (bind_ok _ _ _ _ _ E1).
  rewrite (bind_ok _ _ s1 (proc_get s1 (if b then pp_blocked_reader x else pp_blocked_writer x)) s1) by done.
  destruct (proc_wake_total (proc_get s1 (if b then pp_blocked_reader x else pp_blocked_writer x)) s1) as (s2 & E2 & G1 & G2).
  exists s2, x1. split; [destruct (proc_get s1 _); done|]. split; [|unfold x1; by destruct b].
  destruct H1 as [K1 K2]. split; congruence.
Qed.

Lemma pipe_block_run s p x b esp : pipe_at s p x ->
  exists r s' x', pipe_block p b esp s = Ok (r, s') /\ only_pipe p s s' x' /\ ring_of x' = ring_of x.
Proof.
  intros Hp. unfold pipe_block, sched_current. rewrite (bind_ok _ _ s (current_proc s) s) by done.
  destruct (current_proc s) as [i|] eqn:Hc. 2: { exists 0, s, x. split; [done|]. split; [by apply only_pipe_refl|done]. }
  rewrite (bind_ok _ _ s (p_pid (pcb_at s i)) s) by done. rewrite (bind_ok _ _ _ _ _ (load_pipe s p x Hp)).
  set (x1 := if b then set_blocked_writer _ _ else _). destruct (store_pipe s p x x1 Hp) as (s1 & E1 & H1 & _). rewrite (bind_ok _ _ _ _ _ E1).
  destruct (block_self_total esp s1) as (r & s2 & E2 & G1 & G2). exists r, s2, x1. split; [exact E2|].
  split; [|unfold x1; by destruct b]. destruct H1 as [K1 K2]. split; congruence.
Qed.

Lemma ring_of_data x x' : ring_of x' = ring_of x -> pipe_data x' = pipe_data x /\ (pipe_ok x -> pipe_ok x') /\ same_ends x x'.
Proof. intros [= E1 E2 E3 E4 E5]. unfold pipe_data, pipe_ok, same_ends. by rewrite E1, E2, E3. Qed.

(** *** Reading *)

Lemma read_loop_done fuel p len esp got s :
  len <= Z.of_nat (length got) -> Z.of_nat (length got) < 2 ^ 31 ->
  pipe_read_loop fuel p len esp got s = Ok (IoDone (Z.of_nat (length got)) got, s).
Proof.
  intros Hl Hb. destruct fuel; cbn [pipe_read_loop]; rewrite (proj2 (Z.leb_le _ _)) by done;
    unfold mret, M_ret, s32; rewrite u32_small, (proj2 (Z.ltb_lt _ _)) by lia; done.
Qed.

Lemma read_loop_empty fuel p len esp got s x :
  pipe_at s p x -> pp_count x = 0 -> Z.of_nat (length got) < len < 2 ^ 31 ->
  exists r s' x', pipe_read_loop (S fuel) p len esp got s = Ok (r, s') /\ only_pipe p s s' x' /\ ring_of x' = ring_of x /\
    if pp_writers x =? 0 then r = IoDone (Z.of_nat (length got)) got else exists e, r = IoBlocked e got.
Proof.
  intros Hp Hc Hl. cbn [pipe_read_loop]. rewrite (proj2 (Z.leb_gt _ _)) by lia.
  rewrite (bind_ok _ _ _ _ _ (load_pipe s p x Hp)), Hc, Z.eqb_refl. destruct (pp_writers x =? 0).
  - eexists _, s, x. split; [reflexivity|]. split; [by apply only_pipe_refl|]. split; [done|].
    unfold s32. rewrite u32_small, (proj2 (Z.ltb_lt _ _)) by lia. done.
  - destruct (pipe_block_run s p x false esp Hp) as (r & s' & x' & E & Ho & Hr). rewrite (bind_ok _ _ _ _ _ E).
    eexists _, s', x'. split; [reflexivity|]. eauto.
Qed.

Lemma read_loop_step fuel p len esp got s x :
  pipe_at s p x -> pipe_ok x -> pp_count x <> 0 -> Z.of_nat (length got) < len ->
  let n := Nat.min (Z.to_nat len - length got) (length (pipe_data x)) in
  exists s' x', pipe_read_loop (S fuel) p len esp got s = pipe_read_loop fuel p len esp (got ++ take n (pipe_data x)) s' /\
    only_pipe p s s' x' /\ pipe_ok x' /\ same_ends x x' /\ pipe_data x' = drop n (pipe_data x).
Proof.
  intros Hp Hok Hc Hl n. pose proof (pipe_data_length x Hok) as Hd. pose proof Hok as [Hh Hcr].
  cbn [pipe_read_loop]. rewrite (proj2 (Z.leb_gt _ _)) by lia.
  rewrite (bind_ok _ _ _ _ _ (load_pipe s p x Hp)), (proj2 (Z.eqb_neq _ 0)) by done. cbv zeta.
  set (batch := if _ <? _ then _ else _).
  assert (Hb : Z.to_nat batch = n /\ 0 <= batch <= pp_count x).
  { unfold batch, n. destruct (Z.ltb_spec (pp_count x) (len - Z.of_nat (length got))); lia. }
  destruct Hb as (Hbn & Hbr). rewrite ring_get_spec, Hbn by done. cbv iota.
  set (x1 := set_ring _ _ _ _). destruct (store_pipe s p x x1 Hp) as (s1 & E1 & H1 & _). rewrite (bind_ok _ _ _ _ _ E1).
  destruct (pipe_wake_run s1 p x1 false (only_pipe_at _ _ _ _ H1)) as (s2 & x2 & E2 & H2 & Hr2). rewrite (bind_ok _ _ _ _ _ E2).
  destruct (ring_of_data _ _ Hr2) as (D2 & O2 & S2).
  assert (Hx1 : pipe_ok x1 /\ pipe_data x1 = drop n (pipe_data x)).
  { split; [split; simpl; [by apply Z.mod_pos_bound|lia]|]. unfold pipe_data at 2. rewrite ring_data_drop by (unfold n; lia).
    unfold pipe_data. simpl. f_equal. lia. }
  destruct Hx1 as (O1 & D1). exists s2, x2. split_and!.
  - unfold pipe_data. rewrite ring_data_take; [done|]. unfold n. lia.
  - by apply (only_pipe_trans p s s1 s2 x1 x2).
  - by apply O2.
  - exact S2.
  - congruence.
Qed.

(** What reading does when [got] bytes have been read before. *)
Definition read_outcome s p x len (got : list Z) (result : res (io_result * kstate H fstate)) : Prop :=
  let n := Nat.min (Z.to_nat len - length got) (length (pipe_data x)) in
  let moved := got ++ take n (pipe_data x) in
  exists r s' x', result = Ok (r, s') /\
    only_pipe p s s' x' /\ pipe_ok x' /\ same_ends x x' /\ pipe_data x' = drop n (pipe_data x) /\
    (r = IoDone (Z.of_nat (length moved)) moved /\
       (Z.of_nat (length moved) = len \/ pipe_data x' = [] /\ pp_writers x = 0) \/
     (exists e, r = IoBlocked e moved) /\ Z.of_nat (length moved) < len /\ pipe_data x' = [] /\ pp_writers x <> 0).

(** The whole loop: one batch at most, then the end or sleep. *)
Lemma pipe_read_run s p x len esp got :
  pipe_at s p x -> pipe_ok x -> 0 <= len < 2 ^ 31 -> Z.of_nat (length got) <= len ->
  read_outcome s p x len got (pipe_read_loop PIPE_FUEL p len esp got s).
Proof.
  intros Hp Hok Hlen Hgot. cbv beta delta [read_outcome]. intros n moved. pose proof (pipe_data_length x Hok) as Hd. change PIPE_FUEL with (S (S (S 0))).
  destruct (decide (len <= Z.of_nat (length got))) as [Hfull|Hmore].
  { assert (En : n = 0%nat) by (unfold n; lia). unfold moved. rewrite En, take_0, drop_0, app_nil_r.
    eexists _, s, x. rewrite read_loop_done by lia. split; [reflexivity|]. split; [by apply only_pipe_refl|].
    split; [done|]. split; [done|]. split; [done|]. left. split; [done|]. left. lia. }
  destruct (decide (pp_count x = 0)) as [Hz|Hnz].
  { assert (En : n = 0%nat) by (unfold n; lia). unfold moved. rewrite En, take_0, drop_0, app_nil_r.
    destruct (read_loop_empty 2 p len esp got s x Hp Hz ltac:(lia)) as (r & s' & x' & E & Ho & Hr & Hres).
    destruct (ring_of_data _ _ Hr) as (D & O & S'). exists r, s', x'. split_and!; try done; [by apply O|].
    assert (pipe_data x = []) as Enil by (apply nil_length_inv; lia). rewrite D, Enil.
    destruct (Z.eqb_spec (pp_writers x) 0); [left|right]; split_and!; try done; [by right|lia]. }
  destruct (read_loop_step 2 p len esp got s x Hp Hok Hnz ltac:(lia)) as (s1 & x1 & E1 & H1 & O1 & S1 & D1).
  fold n in E1, D1. fold moved in E1. rewrite E1. clear E1.
  assert (Hm : length moved = (length got + n)%nat) by (unfold moved; rewrite length_app, length_take; unfold n; lia).
  destruct (decide (len <= Z.of_nat (length moved))) as [Hfull|Hmore2].
  { eexists _, s1, x1. rewrite read_loop_done by lia. split; [reflexivity|]. split_and!; try done. left. split; [done|]. left. lia. }
  assert (Ec : pp_count x1 = 0). { rewrite <- (pipe_data_length x1 O1), D1, length_drop. unfold n in *. lia. }
  destruct (read_loop_empty 1 p len esp moved s1 x1 (only_pipe_at _ _ _ _ H1) Ec ltac:(lia)) as (r & s2 & x2 & E2 & H2 & R2 & Hres).
  destruct (ring_of_data _ _ R2) as (D2 & O2 & S2). exists r, s2, x2.
  split; [exact E2|]. split; [by apply (only_pipe_trans p s s1 s2 x1 x2)|]. split; [by apply O2|]. split.
  { destruct S1, S2. split; congruence. }
  split; [congruence|]. assert (Enil : pipe_data x2 = []) by (apply nil_length_inv; rewrite D2; pose proof (pipe_data_length x1 O1); lia).
  destruct S1 as [_ Ew]. rewrite Ew in Hres. destruct (Z.eqb_spec (pp_writers x) 0); [left; auto|right; split_and!; try done; lia].
Qed.

(** C29: [pipe_read_op] always ends and moves the oldest bytes of the pipe, as
    many as the call still wants or the pipe holds; it returns their number
    when the request is filled or when the pipe is empty and no writer is left,
    and otherwise the process sleeps with the pipe empty. Resumed with [got]
    bytes already read, it goes on in the same way. No other object changes. *)
Theorem pipe_read_correct s v y e x len esp :
  objs (k_files s) !! v = Some (OVnode y) -> objs (k_files s) !! v_data y = Some (OEnd e) -> pipe_at s (e_pipe e) x ->
  pipe_ok x -> 0 <= len < 2 ^ 31 ->
  read_outcome s (e_pipe e) x len [] (pipe_read_op v len esp s) /\
  forall got, Z.of_nat (length got) <= len -> read_outcome s (e_pipe e) x len got (pipe_read_loop PIPE_FUEL (e_pipe e) len esp got s).
Proof.
  intros Hv He Hp Hok Hlen. split; [|intros got Hg; by apply pipe_read_run].
  unfold pipe_read_op. rewrite (bind_ok _ _ _ _ _ (load_at as_vnode s v _ y Hv eq_refl)).
  rewrite (bind_ok _ _ _ _ _ (load_at as_end s (v_data y) _ e He eq_refl)). by apply pipe_read_run; [..|simpl; lia].
Qed.

(** *** Writing *)

Lemma write_loop_done fuel p esp inner done_ s : Z.of_nat (length done_) < 2 ^ 31 ->
  pipe_write_loop fuel p esp inner [] done_ s = Ok (IoDone (Z.of_nat (length done_)) done_, s).
Proof.
  intros Hb. destruct fuel; simpl; unfold mret, M_ret, s32; rewrite u32_small, (proj2 (Z.ltb_lt _ _)) by lia; done.
Qed.

(** A broken pipe. *)
Lemma write_loop_broken fuel p esp inner rest done_ s x :
  pipe_at s p x -> pp_readers x = 0 -> (inner = false \/ pp_count x = PIPE_BUFSZ) -> rest <> [] ->
  pipe_write_loop (S fuel) p esp inner rest done_ s = Ok (IoDone (-1) done_, s).
Proof.
  intros Hp Hr Hi Hne. destruct rest as [|c rest]; [done|]. cbn [pipe_write_loop].
  rewrite (bind_ok _ _ _ _ _ (load_pipe s p x Hp)), Hr, Z.eqb_refl. destruct inner; [|done].
  destruct Hi as [|Hc]; [done|]. by rewrite Hc, Z.eqb_refl.
Qed.

Lemma write_loop_full fuel p esp inner rest done_ s x :
  pipe_at s p x -> pp_count x = PIPE_BUFSZ -> pp_readers x <> 0 -> rest <> [] ->
  exists e s' x', pipe_write_loop (S fuel) p esp inner rest done_ s = Ok (IoBlocked e done_, s') /\
    only_pipe p s s' x' /\ ring_of x' = ring_of x.
Proof.
  intros Hp Hc Hr Hne. destruct rest as [|c rest]; [done|]. cbn [pipe_write_loop].
  rewrite (bind_ok _ _ _ _ _ (load_pipe s p x Hp)), Hc, (proj2 (Z.eqb_neq _ 0)), andb_false_r, Z.eqb_refl by done.
  destruct (pipe_block_run s p x true esp Hp) as (e & s' & x' & E & Ho & Hrr). rewrite (bind_ok _ _ _ _ _ E). by exists e, s', x'.
Qed.

Lemma write_loop_step fuel p esp inner rest done_ s x :
  pipe_at s p x -> pipe_ok x -> pp_count x <> PIPE_BUFSZ -> (inner = true \/ pp_readers x <> 0) -> rest <> [] ->
  let n := Nat.min (Z.to_nat PIPE_BUFSZ - length (pipe_data x)) (length rest) in
  exists s' x', pipe_write_loop (S fuel) p esp inner rest done_ s =
      pipe_write_loop fuel p esp false (drop n rest) (done_ ++ take n rest) s' /\
    only_pipe p s s' x' /\ pipe_ok x' /\ same_ends x x' /\ pipe_data x' = pipe_data x ++ take n rest.
Proof.
  intros Hp Hok Hc Hr Hne n. pose proof (pipe_data_length x Hok) as Hd. pose proof Hok as [Hh Hcr].
  destruct rest as [|c rest]; [done|]. set (src := c :: rest) in *. unfold src at 1. cbn [pipe_write_loop]. fold src.
  rewrite (bind_ok _ _ _ _ _ (load_pipe s p x Hp)).
  assert (Eb : negb inner && (pp_readers x =? 0) = false).
  { destruct Hr as [->|Hr]; [done|]. by rewrite (proj2 (Z.eqb_neq _ 0)), andb_false_r by done. }
  rewrite Eb, (proj2 (Z.eqb_neq _ PIPE_BUFSZ)) by done. cbv zeta. rewrite (ring_tail x Hok).
  set (batch := if _ <? _ then _ else _).
  assert (Hb : Z.to_nat batch = n /\ 0 <= batch <= PIPE_BUFSZ - pp_count x).
  { unfold batch, n. destruct (Z.ltb_spec (PIPE_BUFSZ - pp_count x) (Z.of_nat (length src))); lia. }
  destruct Hb as (Hbn & Hbr). rewrite Hbn.
  set (x1 := set_ring _ _ _ _). destruct (store_pipe s p x x1 Hp) as (s1 & E1 & H1 & _). rewrite (bind_ok _ _ _ _ _ E1).
  destruct (pipe_wake_run s1 p x1 true (only_pipe_at _ _ _ _ H1)) as (s2 & x2 & E2 & H2 & Hr2). rewrite (bind_ok _ _ _ _ _ E2).
  destruct (ring_of_data _ _ Hr2) as (D2 & O2 & S2).
  assert (Hln : length (take n src) = n) by (rewrite length_take; unfold n; lia).
  assert (Hx1 : pipe_ok x1 /\ pipe_data x1 = pipe_data x ++ take n src).
  { split; [split; simpl; lia|]. unfold pipe_data at 1. simpl.
    replace (Z.to_nat (pp_count x + batch)) with (Z.to_nat (pp_count x) + length (take n src))%nat by lia.
    replace ((pp_head x + pp_count x) mod PIPE_BUFSZ) with ((pp_head x + Z.of_nat (Z.to_nat (pp_count x))) mod PIPE_BUFSZ) by (do 2 f_equal; lia).
    apply ring_put_data; [done|lia]. }
  destruct Hx1 as (O1 & D1). exists s2, x2. split_and!; [done| |by apply O2|exact S2|congruence].
  by apply (only_pipe_trans p s s1 s2 x1 x2).
Qed.

(** What writing [rest] does, readers being there, when [done_] has been
    written before. *)
Definition write_outcome s p x (rest done_ : list Z) (result : res (io_result * kstate H fstate)) : Prop :=
  let n := Nat.min (Z.to_nat PIPE_BUFSZ - length (pipe_data x)) (length rest) in
  let moved := done_ ++ take n rest in
  exists r s' x', result = Ok (r, s') /\
    only_pipe p s s' x' /\ pipe_ok x' /\ same_ends x x' /\ pipe_data x' = pipe_data x ++ take n rest /\
    (r = IoDone (Z.of_nat (length moved)) moved /\ n = length rest \/
     (exists e, r = IoBlocked e moved) /\ (n < length rest)%nat /\ Z.of_nat (length (pipe_data x')) = PIPE_BUFSZ).

(** The whole loop: one batch at most, then the end, sleep or failure. *)
Lemma pipe_write_run s p x esp rest done_ inner :
  pipe_at s p x -> pipe_ok x -> rest <> [] -> Z.of_nat (length done_ + length rest) < 2 ^ 31 ->
  if bool_decide (pp_readers x = 0) then
    (inner = false -> pipe_write_loop PIPE_FUEL p esp inner rest done_ s = Ok (IoDone (-1) done_, s))
  else write_outcome s p x rest done_ (pipe_write_loop PIPE_FUEL p esp inner rest done_ s).
Proof.
  intros Hp Hok Hne Hlen. pose proof (pipe_data_length x Hok) as Hd. change PIPE_FUEL with (S (S (S 0))).
  case_bool_decide as Hrd. { intros ->. apply (write_loop_broken 2 p esp false rest done_ s x); auto. }
  cbv beta delta [write_outcome]. intros n moved.
  destruct (decide (pp_count x = PIPE_BUFSZ)) as [Hf|Hnf].
  { assert (En : n = 0%nat) by (unfold n; lia). unfold moved. rewrite En, take_0, app_nil_r.
    destruct (write_loop_full 2 p esp inner rest done_ s x Hp Hf Hrd Hne) as (e & s' & x' & E & Ho & Hr).
    destruct (ring_of_data _ _ Hr) as (D & O & S'). eexists _, s', x'. split; [exact E|].
    rewrite D, app_nil_r. split_and!; try done; [by apply O|]. right. split; [eauto|]. split; [|lia]. destruct rest; [done|]. simpl. lia. }
  destruct (write_loop_step 2 p esp inner rest done_ s x Hp Hok Hnf (or_intror Hrd) Hne) as (s1 & x1 & E1 & H1 & O1 & S1 & D1).
  fold n in E1, D1. fold moved in E1. rewrite E1. clear E1.
  assert (Hln : length (take n rest) = n) by (rewrite length_take; unfold n; lia).
  destruct (decide (n = length rest)) as [En|Hlt].
  { rewrite drop_ge by lia. eexists _, s1, x1. rewrite write_loop_done by (unfold moved; rewrite length_app; lia).
    split; [reflexivity|]. split_and!; try done. by left. }
  assert (Ec : pp_count x1 = PIPE_BUFSZ). { rewrite <- (pipe_data_length x1 O1), D1, length_app, Hln. destruct Hok as [_ Hc]. unfold n, PIPE_BUFSZ in *. lia. }
  destruct S1 as [Er Ew].
  assert (Hd2 : drop n rest <> []) by (intros E; apply (f_equal length) in E; rewrite length_drop in E; simpl in E; unfold n in *; lia).
  destruct (write_loop_full 1 p esp false (drop n rest) moved s1 x1 (only_pipe_at _ _ _ _ H1) Ec ltac:(congruence) Hd2)
    as (e & s2 & x2 & E2 & H2 & R2).
  destruct (ring_of_data _ _ R2) as (D2 & O2 & S2). eexists _, s2, x2. split; [exact E2|].
  split; [by apply (only_pipe_trans p s s1 s2 x1 x2)|]. split; [by apply O2|]. split; [destruct S2; split; congruence|].
  split; [congruence|]. right. split; [eauto|]. split; [unfold n in *; lia|]. rewrite D2. by rewrite (pipe_data_length x1 O1).
Qed.

(** C30: [pipe_write_op] always ends. It fails with -1 and changes nothing when
    no reader is left; otherwise it appends to the pipe as many bytes as there
    is room for, and returns the number of bytes when all are written or sleeps
    with the pipe full. Resumed after [done_] bytes while readers are left, it
    goes on in the same way. No other object changes. *)
Theorem pipe_write_correct s v y e x esp src :
  objs (k_files s) !! v = Some (OVnode y) -> objs (k_files s) !! v_data y = Some (OEnd e) -> pipe_at s (e_pipe e) x ->
  pipe_ok x -> src <> [] -> Z.of_nat (length src) < 2 ^ 31 ->
  if bool_decide (pp_readers x = 0) then pipe_write_op v esp src s = Ok (IoDone (-1) [], s)
  else write_outcome s (e_pipe e) x src [] (pipe_write_op v esp src s) /\
    forall rest done_, rest <> [] -> src = done_ ++ rest ->
      write_outcome s (e_pipe e) x rest done_ (pipe_write_loop PIPE_FUEL (e_pipe e) esp true rest done_ s).
Proof.
  intros Hv He Hp Hok Hne Hlen. unfold pipe_write_op. rewrite (bind_ok _ _ _ _ _ (load_at as_vnode s v _ y Hv eq_refl)).
  rewrite (bind_ok _ _ _ _ _ (load_at as_end s (v_data y) _ e He eq_refl)).
  pose proof (pipe_write_run s (e_pipe e) x esp src [] false Hp Hok Hne Hlen) as Hw.
  case_bool_decide as Hrd; [by apply Hw|]. split; [exact Hw|]. intros rest done_ Hr ->.
  pose proof (pipe_write_run s (e_pipe e) x esp rest done_ true Hp Hok Hr ltac:(by rewrite <- length_app)) as Hw2.
  by rewrite bool_decide_false in Hw2.
Qed.

(** *** Any interleaving *)

Definition io_moved (r : io_result) : list Z := match r with IoDone _ m => m | IoBlocked _ m => m end.

(** Whatever the readers count and the point of resumption. *)
Lemma pipe_write_any s p x esp inner rest done_ :
  pipe_at s p x -> pipe_ok x -> Z.of_nat (length done_ + length rest) < 2 ^ 31 ->
  exists r s' x' bs, pipe_write_loop PIPE_FUEL p esp inner rest done_ s = Ok (r, s') /\ only_pipe p s s' x' /\ pipe_ok x' /\
    io_moved r = done_ ++ bs /\ pipe_data x' = pipe_data x ++ bs.
Proof.
  intros Hp Hok Hlen. destruct (decide (rest = [])) as [->|Hne].
  { eexists _, s, x, []. rewrite write_loop_done by lia. split; [reflexivity|]. rewrite !app_nil_r. split; [by apply only_pipe_refl|done]. }
  pose proof (pipe_write_run s p x esp rest done_ inner Hp Hok Hne Hlen) as Hw. case_bool_decide as Hrd.
  2: { destruct Hw as (r & s' & x' & E & Ho & Hok' & _ & Hd & Hr). exists r, s', x'. eexists. split; [exact E|]. split_and!; [done..| |exact Hd].
       destruct Hr as [[-> _]|[[e ->] _]]; done. }
  assert (Hstay : forall s0 x0 d, pipe_at s0 p x0 -> pipe_ok x0 -> exists r s' x' bs, Ok (IoDone (-1) d, s0) = Ok (r, s') /\
    only_pipe p s0 s' x' /\ pipe_ok x' /\ io_moved r = d ++ bs /\ pipe_data x' = pipe_data x0 ++ bs).
  { intros s0 x0 d H0 H1. eexists _, s0, x0, []. split; [reflexivity|]. rewrite !app_nil_r. split; [by apply only_pipe_refl|done]. }
  destruct inner; [|rewrite Hw by done; by apply Hstay]. clear Hw. change PIPE_FUEL with (S (S (S 0))).
  destruct (decide (pp_count x = PIPE_BUFSZ)) as [Hf|Hnf]; [rewrite (write_loop_broken _ _ _ _ _ _ _ x); auto|].
  destruct (write_loop_step 2 p esp true rest done_ s x Hp Hok Hnf (or_introl eq_refl) Hne) as (s1 & x1 & E1 & H1 & O1 & [Er _] & D1).
  rewrite E1. clear E1. set (n := Nat.min _ _) in *. destruct (decide (drop n rest = [])) as [En|Hne2].
  - rewrite En, write_loop_done by (rewrite length_app, length_take; lia). eexists _, s1, x1, _. split; [reflexivity|]. done.
  - rewrite (write_loop_broken 1 p esp false (drop n rest) _ s1 x1); [|by apply (only_pipe_at p s)|congruence|by left|done].
    eexists _, s1, x1, _. split; [reflexivity|]. done.
Qed.

(** Steps of a system with the pipe [p]: calls that read or write it, started
    or resumed by any process, and anything that leaves the pipe alone (other
    processes, interrupts). Each step is labelled with the bytes it puts into
    the pipe and the bytes it takes out. *)
Inductive pipe_step (p : Z) : kstate H fstate -> list Z -> list Z -> kstate H fstate -> Prop :=
| pipe_step_read s len esp got r s' bs : 0 <= len < 2 ^ 31 -> Z.of_nat (length got) <= len ->
    pipe_read_loop PIPE_FUEL p len esp got s = Ok (r, s') -> io_moved r = got ++ bs -> pipe_step p s [] bs s'
| pipe_step_write s esp inner rest done_ r s' bs : Z.of_nat (length done_ + length rest) < 2 ^ 31 ->
    pipe_write_loop PIPE_FUEL p esp inner rest done_ s = Ok (r, s') -> io_moved r = done_ ++ bs -> pipe_step p s bs [] s'
| pipe_step_other s s' : objs (k_files s') !! p = objs (k_files s) !! p -> pipe_step p s [] [] s'.

Inductive pipe_run (p : Z) : kstate H fstate -> list Z -> list Z -> kstate H fstate -> Prop :=
| pipe_run_nil s : pipe_run p s [] [] s
| pipe_run_cons s1 w r s2 ws rs s3 : pipe_step p s1 w r s2 -> pipe_run p s2 ws rs s3 -> pipe_run p s1 (w ++ ws) (r ++ rs) s3.

Lemma pipe_step_data p s w r s' x : pipe_step p s w r s' -> pipe_at s p x -> pipe_ok x ->
  exists x', pipe_at s' p x' /\ pipe_ok x' /\ pipe_data x ++ w = r ++ pipe_data x'.
Proof.
  intros Hs Hp Hok. destruct Hs as [s len esp got r s' bs Hl Hg E Hm|s esp inner rest done_ r s' bs Hl E Hm|s s' E].
  - destruct (pipe_read_run s p x len esp got Hp Hok Hl Hg) as (r' & s1 & x' & E' & Ho & Hok' & _ & Hd & Hr).
    rewrite E in E'. injection E' as <- <-. exists x'. split; [by apply (only_pipe_at p s)|]. split; [done|].
    rewrite app_nil_r, Hd. rewrite <- (take_drop (Nat.min (Z.to_nat len - length got) (length (pipe_data x))) (pipe_data x)) at 1.
    f_equal. destruct Hr as [[-> _]|[[e ->] _]]; simpl in Hm; by apply app_inv_head in Hm.
  - destruct (pipe_write_any s p x esp inner rest done_ Hp Hok Hl) as (r' & s1 & x' & bs' & E' & Ho & Hok' & Hm' & Hd).
    rewrite E in E'. injection E' as <- <-. exists x'. split; [by apply (only_pipe_at p s)|]. split; [done|].
    rewrite Hm in Hm'. apply app_inv_head in Hm' as ->. done.
  - exists x. unfold pipe_at in *. rewrite E. by rewrite app_nil_r.
Qed.

(** C7: a pipe is a first-in first-out channel. Over any interleaving of calls
    that read or write it, including calls that sleep half-way and are resumed,
    the bytes taken out followed by the bytes still inside are exactly the
    bytes that were inside followed by the bytes put in: none is lost,
    duplicated or reordered, and the ring stays well formed. *)
Theorem pipe_fifo p s ws rs s' x :
  pipe_run p s ws rs s' -> pipe_at s p x -> pipe_ok x ->
  exists x', pipe_at s' p x' /\ pipe_ok x' /\ pipe_data x ++ ws = rs ++ pipe_data x'.
Proof.
  intros Hr. revert x. induction Hr as [s|s1 w r s2 ws rs s3 Hs _ IH]; intros x Hp Hok.
  - exists x. by rewrite app_nil_r.
  - destruct (pipe_step_data p s1 w r s2 x Hs Hp Hok) as (x2 & H2 & O2 & D2). destruct (IH x2 H2 O2) as (x3 & H3 & O3 & D3).
    exists x3. split; [done|]. split; [done|]. by rewrite app_assoc, D2, <- app_assoc, D3, app_assoc.
Qed.
End calls.

(** ** Sleeping and waking *)

Section wake.
Context {H : Type} `{!Heap H} `{!HeapLaws H}.
Implicit Types (s : kstate H fstate) (x : pipe) (p : Z).

(** Waking the process registered in a pipe. *)
Lemma pipe_wake_ready s p x (b : bool) pid :
  kinv s -> pipe_at s p x -> (if b then pp_blocked_reader x else pp_blocked_writer x) = pid -> 1 <= pid < MAX_PROCS ->
  0 <= pp_blocked_reader x -> 0 <= pp_blocked_writer x ->
  state_of s pid = PROC_BLOCKED ->
  exists s', pipe_wake_peer p b s = Ok (tt, s') /\ kinv s' /\ state_of s' pid = PROC_READY /\
    (exists q, queue_rep (ready_queue s') (queue_size s') q /\ pid ∈ q) /\ 
    only_pipe p s s' (if b then set_blocked_reader PIPE_NO_WAITER x else set_blocked_writer PIPE_NO_WAITER x).
Proof.
  intros (L & A & q & Hinv) Hp Hb Hr H1 H2 Hst. unfold pipe_wake_peer. rewrite (bind_ok _ _ _ _ _ (load_pipe s p x Hp)). cbv zeta.
  rewrite Hb, (proj2 (Z.eqb_neq pid _)) by (unfold PIPE_NO_WAITER, MAX_PROCS in *; lia).
  set (x1 := if b then set_blocked_reader _ _ else _). destruct (store_pipe s p x x1 Hp) as (s1 & E1 & Ho1 & Es1).
  rewrite (bind_ok _ _ _ _ _ E1).
  assert (Hi1 : exists L1 A1 q1, proc_inv [] s1 L1 A1 q1).
  { apply (preserves_keeps true (store p (OPipe x1)) (keeps_store true p (OPipe x1) ltac:(unfold x1; by destruct b)) s tt s1); [by exists L, A, q|done]. }
  destruct Hi1 as (L1 & A1 & q1 & Hinv1).
  assert (Hst1 : state_of s1 pid = PROC_BLOCKED) by (by rewrite Es1).
  assert (Hget : proc_get s1 pid = Some pid).
  { unfold proc_get. rewrite (proj2 (Z.leb_gt _ _)) by lia. rewrite bool_decide_false by congruence. done. }
  rewrite (bind_ok _ _ s1 (proc_get s1 pid) s1), Hget by done.
  destruct (proc_wake_inv [] s1 L1 A1 q1 pid Hinv1 Hr (not_elem_of_nil pid)) as (s2 & q2 & E2 & Hinv2 & _).
  destruct (proc_wake_total (Some pid) s1) as (s2' & E2' & G1 & G2). rewrite E2 in E2'. injection E2' as <-.
  pose proof (proc_wake_ready s1 pid s2 Hst1 E2) as Hready. exists s2. split; [exact E2|]. split; [by exists L1, A1, q2|].
  split; [done|]. split.
  - exists q2. split; [apply (pi_queue _ _ _ _ _ Hinv2)|]. by destruct (pi_queued _ _ _ _ _ Hinv2 pid Hr (or_introl Hready)) as [?%elem_of_nil|?].
  - destruct Ho1 as [K1 K2]. split; congruence.
Qed.

(** C31: no lost wake-up. When a process sleeps in [pipe_read_op] and is
    registered with the pipe, a call of [pipe_write_op] that finds room for its
    bytes makes that process ready, puts it into the ready queue, clears the
    registration and keeps the kernel's invariant; the bytes are there for the
    sleeper when it runs. *)
Theorem pipe_write_wakes_reader s p x esp src pid :
  kinv s -> pipe_at s p x -> pipe_ok x -> 0 <= pp_blocked_writer x -> pp_blocked_reader x = pid -> 1 <= pid < MAX_PROCS ->
  state_of s pid = PROC_BLOCKED -> pp_readers x <> 0 -> src <> [] ->
  Z.of_nat (length (pipe_data x) + length src) <= PIPE_BUFSZ ->
  exists s' x', pipe_write_loop PIPE_FUEL p esp false src [] s = Ok (IoDone (Z.of_nat (length src)) src, s') /\ kinv s' /\
    state_of s' pid = PROC_READY /\ (exists q, queue_rep (ready_queue s') (queue_size s') q /\ pid ∈ q) /\
    pipe_at s' p x' /\ pp_blocked_reader x' = PIPE_NO_WAITER /\ pipe_data x' = pipe_data x ++ src.
Proof.
  intros Hi Hp Hok Hbw Hbr Hpid Hst Hrd Hne Hroom. pose proof (pipe_data_length x Hok) as Hd. pose proof Hok as [Hh Hcr].
  assert (Hl : length src <> 0%nat) by (by intros ?%nil_length_inv).
  assert (HF : exists fuel, PIPE_FUEL = S fuel) by (by exists 2%nat). destruct HF as [fuel ->].
  destruct src as [|c0 src0]; [done|]. set (src := c0 :: src0) in *. unfold src at 1. cbn [pipe_write_loop]. fold src.
  rewrite (bind_ok _ _ _ _ _ (load_pipe s p x Hp)), (proj2 (Z.eqb_neq _ 0)), andb_false_r, (proj2 (Z.eqb_neq _ PIPE_BUFSZ)) by lia.
  cbv zeta. rewrite (ring_tail x Hok), (proj2 (Z.ltb_ge (PIPE_BUFSZ - pp_count x) _)) by lia. rewrite Nat2Z.id, firstn_all, drop_all.
  set (x1 := set_ring _ _ _ _). destruct (store_pipe s p x x1 Hp) as (s1 & E1 & H1 & Es1). rewrite (bind_ok _ _ _ _ _ E1).
  assert (Hi1 : kinv s1).
  { apply (preserves_keeps true (store p (OPipe x1)) (keeps_store true p (OPipe x1) ltac:(simpl; lia)) s tt s1); done. }
  destruct (pipe_wake_ready s1 p x1 true pid Hi1 (only_pipe_at _ _ _ _ H1) Hbr Hpid ltac:(simpl; lia) Hbw ltac:(by rewrite Es1))
    as (s2 & E2 & Hi2 & Hst2 & Hq2 & H2).
  rewrite (bind_ok _ _ _ _ _ E2). rewrite write_loop_done by (cbn [app]; unfold PIPE_BUFSZ in *; lia).
  eexists s2, _. split; [done|]. split_and!; try done; [by apply (only_pipe_at p s1)|done|].
  unfold pipe_data at 1. simpl. 
  replace (Z.to_nat (pp_count x + Z.of_nat (S (length src0)))) with (Z.to_nat (pp_count x) + length src)%nat by (simpl; lia).
  replace ((pp_head x + pp_count x) mod PIPE_BUFSZ) with ((pp_head x + Z.of_nat (Z.to_nat (pp_count x))) mod PIPE_BUFSZ) by (do 2 f_equal; lia).
  apply (ring_put_data src); [done|]. lia.
Qed.
End wake.

(** ** Closing an end *)

Section close.
Context {H : Type} `{!Heap H} `{!HeapLaws H}.
Implicit Types (s : kstate H fstate) (x : pipe) (p : Z).

Definition files_fine s : Prop := exists L A, heap_ok (k_heap s) L A /\ fs_ok (k_files s) L.

Lemma kfree_at s p o : files_fine s -> objs (k_files s) !! p = Some o ->
  exists s', kfree_obj p s = Ok (tt, s') /\ files_fine s' /\ objs (k_files s') = delete p (objs (k_files s)).
Proof.
  intros (L & A & Hh & Hf) Hp. destruct (kfree_obj_run s L A p o Hh Hf Hp) as (h & E & Hh' & Hf' & _).
  eexists. split; [exact E|]. split; [by exists (delete p L), A|done].
Qed.

Lemma store_at s p o o' : files_fine s -> objs (k_files s) !! p = Some o' -> obj_ok o ->
  exists s', store p o s = Ok (tt, s') /\ files_fine s' /\ objs (k_files s') = <[p := o]> (objs (k_files s)).
Proof.
  intros (L & A & Hh & Hf) Hp Ho. unfold store. rewrite Hp. eexists. split; [reflexivity|]. split; [|done].
  exists L, A. split; [done|]. by apply (objs_ok_insert _ _ _ _ o').
Qed.

Lemma only_pipe_fine p s s' x x' : files_fine s -> pipe_at s p x -> only_pipe p s s' x' -> obj_ok (OPipe x') -> files_fine s'.
Proof.
  intros (L & A & Hh & Hf) Hp [E1 E2] Ho. exists L, A. rewrite E1, E2. split; [done|]. by apply (objs_ok_insert _ _ _ _ (OPipe x)).
Qed.

(** The end of both close operations: the end, the pipe once both ends are
    closed, and the vnode itself are freed. *)
Lemma close_tail_run s v y e p x :
  files_fine s -> objs (k_files s) !! v = Some (OVnode y) -> objs (k_files s) !! v_data y = Some (OEnd e) -> pipe_at s p x ->
  exists s', (kfree_obj (v_data y) ;; store v (OVnode (set_v_data 0 y)) ;; pipe_maybe_free p ;; kfree_obj v ;; mret 0) s = Ok (0, s') /\
    files_fine s' /\ objs (k_files s') !! v = None /\ objs (k_files s') !! v_data y = None /\
    objs (k_files s') !! p = if (pp_readers x =? 0) && (pp_writers x =? 0) then None else Some (OPipe x).
Proof.
  intros Hf Hv He Hp. unfold pipe_at in Hp. assert (Hne : v <> v_data y /\ v <> p /\ p <> v_data y) by (split_and!; congruence).
  destruct Hne as (N1 & N2 & N3). destruct (kfree_at s _ _ Hf He) as (s1 & E1 & F1 & O1). rewrite (bind_ok _ _ _ _ _ E1).
  assert (Hv1 : objs (k_files s1) !! v = Some (OVnode y)) by (rewrite O1, lookup_delete_ne; done).
  destruct (store_at s1 v (OVnode (set_v_data 0 y)) _ F1 Hv1 I) as (s2 & E2 & F2 & O2). rewrite (bind_ok _ _ _ _ _ E2).
  assert (Hp2 : objs (k_files s2) !! p = Some (OPipe x)) by (rewrite O2, lookup_insert_ne, O1, lookup_delete_ne; done).
  assert (H3 : exists s3, pipe_maybe_free p s2 = Ok (tt, s3) /\ files_fine s3 /\
    objs (k_files s3) = if (pp_readers x =? 0) && (pp_writers x =? 0) then delete p (objs (k_files s2)) else objs (k_files s2)).
  { unfold pipe_maybe_free. rewrite (bind_ok _ _ _ _ _ (load_at as_pipe s2 p _ x Hp2 eq_refl)).
    destruct (_ && _); [by apply (kfree_at s2 p (OPipe x))|]. by exists s2. }
  destruct H3 as (s3 & E3 & F3 & O3). rewrite (bind_ok _ _ _ _ _ E3).
  assert (Hk : forall q, q <> p -> objs (k_files s3) !! q = objs (k_files s2) !! q).
  { intros q Hq. rewrite O3. destruct (_ && _); [by rewrite lookup_delete_ne by congruence|done]. }
  destruct (kfree_at s3 v (OVnode (set_v_data 0 y)) F3) as (s4 & E4 & F4 & O4); [rewrite Hk, O2 by done; apply lookup_insert_eq|].
  rewrite (bind_ok _ _ _ _ _ E4). exists s4. split; [done|]. split; [done|]. rewrite O4. split; [apply lookup_delete_eq|]. split.
  - rewrite lookup_delete_ne, Hk, O2, lookup_insert_ne, O1 by congruence. apply lookup_delete_eq.
  - rewrite lookup_delete_ne by done. rewrite O3. destruct (_ && _); [apply lookup_delete_eq|done].
Qed.

(** The beginning of both: the count goes down and a sleeper at the other end
    is woken when it reaches zero. *)
Lemma close_head_run {T} s p x x1 (b : bool) (zero : pipe -> bool) (k : M (kstate H fstate) T) :
  files_fine s -> pipe_at s p x -> obj_ok (OPipe x1) ->
  exists s' x', pipe_at s' p x' /\ files_fine s' /\ (forall q, q <> p -> objs (k_files s') !! q = objs (k_files s) !! q) /\
    (store p (OPipe x1) ;; (y ← load as_pipe p; (if zero y then pipe_wake_peer p b else mret tt) ;; k)) s = k s' /\ ring_of x' = ring_of x1.
Proof.
  intros Hf Hp Ho. destruct (store_pipe s p x x1 Hp) as (s1 & E1 & Ho1 & _). rewrite (bind_ok _ _ _ _ _ E1).
  pose proof (only_pipe_at _ _ _ _ Ho1) as Hp1. rewrite (bind_ok _ _ _ _ _ (load_pipe s1 p x1 Hp1)).
  pose proof (only_pipe_fine p s s1 x x1 Hf Hp Ho1 Ho) as Hf1.
  assert (Hk1 : forall q, q <> p -> objs (k_files s1) !! q = objs (k_files s) !! q).
  { intros q Hq. destruct Ho1 as [_ ->]. simpl. by rewrite lookup_insert_ne by congruence. }
  destruct (zero x1).
  - destruct (pipe_wake_run s1 p x1 b Hp1) as (s2 & x2 & E2 & Ho2 & Hr2). rewrite (bind_ok _ _ _ _ _ E2). exists s2, x2.
    split; [by apply (only_pipe_at p s1)|]. destruct Hf1 as (L & A & Hh & Hfs).
    destruct (keeps_wake_peer p b s1 L A tt s2 Hh Hfs E2) as (ws & _ & G). destruct (effect_ok _ _ _ _ _ G) as (L2 & Hh2 & Hfs2).
    split; [by exists L2, A|]. split; [|done]. intros q Hq. destruct Ho2 as [_ ->]. simpl. rewrite lookup_insert_ne by congruence. by apply Hk1.
  - rewrite (bind_ok _ _ s1 tt s1) by done. exists s1, x1. done.
Qed.

(** An open end of a pipe: vnode, end and pipe object. *)
Record end_open s (v : Z) (y : vnode) (e : pipe_end) x : Prop := {
  eo_vnode : objs (k_files s) !! v = Some (OVnode y);
  eo_ops : v_ops y = if e_is_write e then pipe_write_ops else pipe_read_ops;
  eo_end : objs (k_files s) !! v_data y = Some (OEnd e);
  eo_pipe : pipe_at s (e_pipe e) x;
  eo_count : 0 < if e_is_write e then pp_writers x else pp_readers x
}.

Lemma pipe_close_run s v y e x : files_fine s -> end_open s v y e x ->
  exists s' x', (if e_is_write e then pipe_close_write v else pipe_close_read v) s = Ok (0, s') /\ files_fine s' /\
    objs (k_files s') !! v = None /\ objs (k_files s') !! v_data y = None /\
    ring_of x' = ring_of (if e_is_write e then set_writers (pp_writers x - 1) x else set_readers (pp_readers x - 1) x) /\
    objs (k_files s') !! e_pipe e = if (pp_readers x' =? 0) && (pp_writers x' =? 0) then None else Some (OPipe x').
Proof.
  intros Hf [Hv Hops He Hp Hc]. unfold pipe_at in Hp.
  assert (Ho : 0 <= pp_blocked_reader x /\ 0 <= pp_blocked_writer x).
  { destruct Hf as (L & A & _ & Hfs). destruct (Hfs _ _ Hp) as (_ & _ & ?). done. }
  assert (Hne : v <> e_pipe e /\ v_data y <> e_pipe e) by (split; congruence). destruct Hne as [N1 N2].
  assert (Hend : forall s1 x1, pipe_at s1 (e_pipe e) x1 -> files_fine s1 -> (forall q, q <> e_pipe e -> objs (k_files s1) !! q = objs (k_files s) !! q) ->
    exists s', (kfree_obj (v_data y) ;; store v (OVnode (set_v_data 0 y)) ;; pipe_maybe_free (e_pipe e) ;; kfree_obj v ;; mret 0) s1 = Ok (0, s') /\
      files_fine s' /\ objs (k_files s') !! v = None /\ objs (k_files s') !! v_data y = None /\
      objs (k_files s') !! e_pipe e = if (pp_readers x1 =? 0) && (pp_writers x1 =? 0) then None else Some (OPipe x1)).
  { intros s1 x1 Hp1 Hf1 Hk1. apply (close_tail_run s1 v y e (e_pipe e) x1); [done| | |done]; by rewrite Hk1. }
  destruct (e_is_write e).
  - unfold pipe_close_write. rewrite (bind_ok _ _ _ _ _ (load_at as_vnode s v _ y Hv eq_refl)).
    rewrite (bind_ok _ _ _ _ _ (load_at as_end s (v_data y) _ e He eq_refl)), (bind_ok _ _ _ _ _ (load_pipe s _ x Hp)).
    rewrite (proj2 (Z.ltb_lt _ _)) by done.
    destruct (close_head_run s (e_pipe e) x (set_writers (pp_writers x - 1) x) true (fun y => pp_writers y =? 0)
      (kfree_obj (v_data y) ;; store v (OVnode (set_v_data 0 y)) ;; pipe_maybe_free (e_pipe e) ;; kfree_obj v ;; mret 0) Hf Hp Ho)
      as (s1 & x1 & Hp1 & Hf1 & Hk1 & -> & Hr1). destruct (Hend s1 x1 Hp1 Hf1 Hk1) as (s' & E & F1 & F2 & F3 & F4). by exists s', x1.
  - unfold pipe_close_read. rewrite (bind_ok _ _ _ _ _ (load_at as_vnode s v _ y Hv eq_refl)).
    rewrite (bind_ok _ _ _ _ _ (load_at as_end s (v_data y) _ e He eq_refl)), (bind_ok _ _ _ _ _ (load_pipe s _ x Hp)).
    rewrite (proj2 (Z.ltb_lt _ _)) by done.
    destruct (close_head_run s (e_pipe e) x (set_readers (pp_readers x - 1) x) false (fun y => pp_readers y =? 0)
      (kfree_obj (v_data y) ;; store v (OVnode (set_v_data 0 y)) ;; pipe_maybe_free (e_pipe e) ;; kfree_obj v ;; mret 0) Hf Hp Ho)
      as (s1 & x1 & Hp1 & Hf1 & Hk1 & -> & Hr1). destruct (Hend s1 x1 Hp1 Hf1 Hk1) as (s' & E & F1 & F2 & F3 & F4). by exists s', x1.
Qed.

(** C32: closing the last reference to an end of a pipe uses freed memory. The
    close operation of the end itself runs to its end: it lowers the count,
    frees the end, the vnode, and the pipe when both ends are closed. But it
    frees the vnode, and [vfs_close] then decrements the vnode's reference
    count. *)
Theorem pipe_close_dangling s f off fl v y e x :
  files_fine s -> objs (k_files s) !! f = Some (OFile (File v off fl 1)) -> end_open s v y e x ->
  (exists s' x', ops_close v s = Ok (0, s') /\ objs (k_files s') !! v = None /\
     ring_of x' = ring_of (if e_is_write e then set_writers (pp_writers x - 1) x else set_readers (pp_readers x - 1) x) /\
     objs (k_files s') !! e_pipe e = if (pp_readers x' =? 0) && (pp_writers x' =? 0) then None else Some (OPipe x')) /\
  vfs_close_op f s = Stop (Undefined "dangling pointer").
Proof.
  intros Hf Hfile He. pose proof He as [Hv Hops Hend Hp Hc]. unfold pipe_at in Hp.
  assert (Hclose : forall s1, objs (k_files s1) !! v = Some (OVnode y) -> ops_close v s1 = (if e_is_write e then pipe_close_write v else pipe_close_read v) s1).
  { intros s1 H1. unfold ops_close. rewrite (bind_ok _ _ _ _ _ (load_at as_vnode s1 v _ y H1 eq_refl)), Hops. by destruct (e_is_write e). }
  split.
  - destruct (pipe_close_run s v y e x Hf He) as (s' & x' & E & _ & O1 & _ & R & O3). exists s', x'. by rewrite Hclose, E.
  - assert (Hnz : f <> 0 /\ v <> 0). { destruct Hf as (L & A & _ & Hfs). destruct (Hfs _ _ Hfile) as (? & _), (Hfs _ _ Hv) as (? & _). done. }
    unfold vfs_close_op. rewrite (proj2 (Z.eqb_neq f 0)) by apply Hnz. rewrite (bind_ok _ _ _ _ _ (load_at as_file s f _ _ Hfile eq_refl)).
    destruct (store_at s f (OFile (set_f_refcount (1 -w 1) (File v off fl 1))) _ Hf Hfile I) as (s1 & E1 & F1 & O1).
    rewrite (bind_ok _ _ _ _ _ E1). cbn [f_refcount f_vnode]. unfold truthy. rewrite (proj2 (Z.eqb_neq v 0)) by apply Hnz.
    change (0 <? 1 -w 1) with false. cbn [negb].
    assert (Hk : forall q, q <> f -> objs (k_files s1) !! q = objs (k_files s) !! q) by (intros q Hq; rewrite O1, lookup_insert_ne; congruence).
    assert (He1 : end_open s1 v y e x) by (split; unfold pipe_at in *; rewrite ?Hk by congruence; done).
    destruct (pipe_close_run s1 v y e x F1 He1) as (s2 & x2 & E2 & _ & O2 & _).
    rewrite <- Hclose in E2 by apply He1. rewrite (bind_ok _ _ s1 tt s2) by (by rewrite (bind_ok _ _ _ _ _ E2)).
    apply bind_stop. unfold vnode_unref. rewrite (proj2 (Z.eqb_neq v 0)) by apply Hnz. apply bind_stop. unfold load. by rewrite O2.
Qed.
End close.

(** ** Pipes keep the kernel's invariant *)

Section preserve.
Context {H : Type} `{!Heap H} `{!HeapLaws H}.

Lemma preserves_wake_peer p b : preserves (pipe_wake_peer p b : M (kstate H fstate) _).
Proof. apply (preserves_keeps false), keeps_wake_peer. Qed.

Lemma preserves_block_self esp : 0 < esp < 2 ^ 32 -> preserves (block_self esp : M (kstate H fstate) _).
Proof. intros He. apply preserves_kstep. intros s r s' E. by apply (step_block s esp r s'). Qed.

Lemma preserves_pipe_block p b esp : 0 < esp < 2 ^ 32 -> preserves (pipe_block p b esp : M (kstate H fstate) _).
Proof.
  intros He. unfold pipe_block. preserves_step; [apply preserves_gets|]. destruct x as [i|]; [|apply preserves_ret].
  preserves_step; [apply preserves_gets|]. apply preserves_load. intros o y Ho Ey. destruct (as_pipe_ok o y Ho Ey).
  preserves_step; [|by apply preserves_block_self]. apply preserves_store. pose proof (u16_range x). destruct b; simpl; lia.
Qed.

Lemma preserves_read_loop fuel p len esp : 0 < esp < 2 ^ 32 -> forall got, preserves (pipe_read_loop fuel p len esp got : M (kstate H fstate) _).
Proof.
  intros He. induction fuel as [|fuel IH]; intros got; cbn [pipe_read_loop]; (preserves_step; [apply preserves_ret|]); [apply preserves_stop|].
  apply preserves_load. intros o y Ho Ey. pose proof (as_pipe_ok o y Ho Ey). preserves_step.
  - preserves_step; [apply preserves_ret|]. preserves_step; [by apply preserves_pipe_block|apply preserves_ret].
  - cbv zeta. destruct (ring_get _ _ _) as [bs h]. preserves_step; [by apply preserves_store|]. preserves_step; [apply preserves_wake_peer|apply IH].
Qed.

Lemma preserves_write_loop fuel p esp : 0 < esp < 2 ^ 32 -> forall inner rest d, preserves (pipe_write_loop fuel p esp inner rest d : M (kstate H fstate) _).
Proof.
  intros He. induction fuel as [|fuel IH]; intros inner rest d; (destruct rest as [|c rest]; [apply preserves_ret|]); [apply preserves_stop|].
  cbn [pipe_write_loop]. apply preserves_load. intros o y Ho Ey. pose proof (as_pipe_ok o y Ho Ey).
  preserves_step; [apply preserves_ret|]. preserves_step.
  - preserves_step; [apply preserves_ret|]. preserves_step; [by apply preserves_pipe_block|apply preserves_ret].
  - cbv zeta. preserves_step; [by apply preserves_store|]. preserves_step; [apply preserves_wake_peer|apply IH].
Qed.

Lemma preserves_pipe_read v len esp : 0 < esp < 2 ^ 32 -> preserves (pipe_read_op v len esp : M (kstate H fstate) _).
Proof. intros He. unfold pipe_read_op. do 2 preserves_step. by apply preserves_read_loop. Qed.

Lemma preserves_pipe_write v esp src : 0 < esp < 2 ^ 32 -> preserves (pipe_write_op v esp src : M (kstate H fstate) _).
Proof. intros He. unfold pipe_write_op. do 2 preserves_step. by apply preserves_write_loop. Qed.

Lemma keeps_free_list ps : keeps false (free_list ps : M (kstate H fstate) _).
Proof. induction ps as [|p ps IH]; simpl; [apply keeps_ret|]. apply keeps_bind; [apply keeps_kfree_obj|done]. Qed.

Lemma keeps_fd_close table fd : keeps false (fd_close table fd : M (kstate H fstate) _).
Proof. unfold fd_close. destruct (fd_entry _ _); [|apply keeps_ret]. apply keeps_bind; [apply keeps_vfs_close|intros; apply keeps_ret]. Qed.

(** Every allocation and every error path of [pipe_create]. *)
Lemma keeps_pipe_create table : keeps false (pipe_create table : M (kstate H fstate) _).
Proof.
  unfold pipe_create, vnode_alloc.
  repeat first [apply keeps_ret | apply keeps_free_list | apply keeps_vfs_close | apply keeps_fd_close
    | apply keeps_weaken, keeps_vfs_open_vnode
    | apply keeps_new_obj; [unfold SIZEOF_PIPE, SIZEOF_PIPE_END, SIZEOF_VNODE, HEAP_REQUEST; lia|done]
    | keeps_step ].
Qed.
End preserve.

(** ** On the demonstration machine

    The idle process creates a pipe. *)

Definition demo_piped : demo_kstate := final (pipe_create (p_fd_table (pcb_at demo_fork2 1))) demo_fork2.

Definition end_of (fs : fstate) (f : Z) : option (file * vnode * pipe_end * pipe) :=
  match objs fs !! f with
  | Some (OFile x) =>
      match objs fs !! f_vnode x with
      | Some (OVnode y) =>
          match objs fs !! v_data y with
          | Some (OEnd e) => match objs fs !! e_pipe e with Some (OPipe z) => Some (x, y, e, z) | _ => None end
          | _ => None
          end
      | _ => None
      end
  | _ => None
  end.

Lemma end_of_inv fs f x y e z : end_of fs f = Some (x, y, e, z) ->
  objs fs !! f = Some (OFile x) /\ objs fs !! f_vnode x = Some (OVnode y) /\ objs fs !! v_data y = Some (OEnd e) /\
  objs fs !! e_pipe e = Some (OPipe z).
Proof.
  unfold end_of. destruct (objs fs !! f) as [[|x'| | | | |]|]; try done.
  destruct (objs fs !! f_vnode x') as [[y'| | | | | |]|] eqn:Ey; try done.
  destruct (objs fs !! v_data y') as [[| | | | | |e']|] eqn:Ee; try done.
  destruct (objs fs !! e_pipe e') as [[| | | | |z'|]|] eqn:Ez; try done. intros [= -> -> -> ->]. done.
Qed.

(** The files of the two ends, and the pipe. *)
Definition demo_ends : Z * Z :=
  match pipe_create (p_fd_table (pcb_at demo_fork2 1)) demo_fork2 with
  | Ok ((Some (r, w), t), _) => (default 0 (t !! Z.to_nat r), default 0 (t !! Z.to_nat w))
  | _ => (0, 0)
  end.
Definition demo_read_end : Z := demo_ends.1.
Definition demo_write_end : Z := demo_ends.2.
Definition demo_pipe_addr : Z := match end_of (k_files demo_piped) demo_read_end with Some (_, _, e, _) => e_pipe e | None => 0 end.

Definition demo_esp : Z := 0x500000.
Definition demo_written : demo_kstate := final (pipe_write_loop PIPE_FUEL demo_pipe_addr demo_esp false [1; 2; 3] []) demo_piped.
Definition demo_asleep : demo_kstate := final (pipe_read_loop PIPE_FUEL demo_pipe_addr 5 demo_esp []) demo_piped.

(** What is in the pipe behind the file [f], and who sleeps. *)
Definition pipe_is (s : demo_kstate) (f addr : Z) (data : list Z) (sleeper : Z) : bool :=
  match end_of (k_files s) f with
  | Some (_, _, e, x) => (e_pipe e =? addr) && bool_decide (pipe_ok x) && bool_decide (pipe_data x = data) && (pp_blocked_reader x =? sleeper) &&
      (pp_blocked_writer x =? PIPE_NO_WAITER) && (pp_readers x =? 1) && (pp_writers x =? 1)
  | _ => false
  end.

#[global] Opaque demo_piped demo_pipe_addr demo_read_end demo_write_end demo_written demo_asleep.

Lemma pipe_is_at s f addr data sleeper : pipe_is s f addr data sleeper = true ->
  exists v y e x, objs (k_files s) !! v = Some (OVnode y) /\ objs (k_files s) !! v_data y = Some (OEnd e) /\
    e_pipe e = addr /\ pipe_at s addr x /\ pipe_ok x /\ pipe_data x = data /\ pp_blocked_reader x = sleeper /\
    pp_blocked_writer x = PIPE_NO_WAITER /\ pp_readers x = 1 /\ pp_writers x = 1.
Proof.
  unfold pipe_is, pipe_at. destruct (end_of (k_files s) f) as [[[[f' y] e] x]|] eqn:Eend; [|done].
  apply end_of_inv in Eend as (Ef & Ey & Ee & Ex). intros E.
  repeat (apply andb_prop in E as [E ?]). repeat match goal with
  | H : bool_decide _ = true |- _ => apply bool_decide_eq_true_1 in H
  | H : (_ =? _) = true |- _ => apply Z.eqb_eq in H end. exists (f_vnode f'), y, e, x. rewrite E in Ex. done.
Qed.

Lemma demo_piped_is : pipe_is demo_piped demo_write_end demo_pipe_addr [] PIPE_NO_WAITER = true.
Proof. vm_compute. reflexivity. Qed.
Lemma demo_written_is : pipe_is demo_written demo_read_end demo_pipe_addr [1; 2; 3] PIPE_NO_WAITER = true.
Proof. vm_compute. reflexivity. Qed.
Lemma demo_asleep_is : pipe_is demo_asleep demo_write_end demo_pipe_addr [] 1 = true.
Proof. vm_compute. reflexivity. Qed.

Lemma demo_piped_inv : kinv demo_piped.
Proof.
  destruct (run_final (pipe_create (p_fd_table (pcb_at demo_fork2 1))) demo_fork2) as [r E]; [vm_compute; reflexivity|].
  exact (preserves_keeps false _ (keeps_pipe_create _) demo_fork2 r demo_piped (reachable_proc_inv demo_fork2 demo_fork2_reachable) E).
Qed.

Lemma demo_asleep_inv : kinv demo_asleep.
Proof.
  destruct (run_final (pipe_read_loop PIPE_FUEL demo_pipe_addr 5 demo_esp []) demo_piped) as [r E]; [vm_compute; reflexivity|].
  exact (preserves_read_loop PIPE_FUEL demo_pipe_addr 5 demo_esp ltac:(unfold demo_esp; lia) [] demo_piped r demo_asleep demo_piped_inv E).
Qed.
Lemma pipe_read_correct_witness :
  exists v s', pipe_read_op v 2 demo_esp demo_written = Ok (IoDone 2 [1; 2], s') /\
    exists x', pipe_at s' demo_pipe_addr x' /\ pipe_data x' = [3].
Proof.
  destruct (pipe_is_at _ _ _ _ _ demo_written_is) as (v & y & e & x & Hv & He & Hpe & Hp & Hok & Hd & _). rewrite <- Hpe in *.
  destruct (pipe_read_correct demo_written v y e x 2 demo_esp Hv He Hp Hok ltac:(lia)) as [(r & s' & x' & E & Ho & _ & _ & Hd' & Hr) _].
  rewrite Hd in Hd', Hr.
  destruct Hr as [(-> & _)|(_ & Hlt & _)]; [|exfalso; clear -Hlt; vm_compute in Hlt; discriminate Hlt].
  exists v, s'. split; [exact E|]. exists x'. split; [exact (only_pipe_at _ _ _ _ Ho)|exact Hd'].
Defined.

Lemma demo_room : Nat.min (Z.to_nat PIPE_BUFSZ - length (@nil Z)) (length [1; 2; 3]) = 3%nat.
Proof. vm_compute. reflexivity. Qed.

Lemma pipe_write_correct_witness :
  exists v s', pipe_write_op v demo_esp [1; 2; 3] demo_piped = Ok (IoDone 3 [1; 2; 3], s') /\
    exists x', pipe_at s' demo_pipe_addr x' /\ pipe_data x' = [1; 2; 3].
Proof.
  destruct (pipe_is_at _ _ _ _ _ demo_piped_is) as (v & y & e & x & Hv & He & Hpe & Hp & Hok & Hd & _ & _ & Hrd & _). rewrite <- Hpe in *.
  pose proof (pipe_write_correct demo_piped v y e x demo_esp [1; 2; 3] Hv He Hp Hok ltac:(discriminate) ltac:(simpl; lia)) as H.
  rewrite bool_decide_false in H by lia. destruct H as [(r & s' & x' & E & Ho & _ & _ & Hd' & Hr) _]. rewrite Hd, demo_room in Hd', Hr.
  destruct Hr as [(-> & _)|(_ & Hlt & _)]; [|exfalso; clear -Hlt; simpl in Hlt; lia].
  exists v, s'. split; [exact E|]. exists x'. split; [exact (only_pipe_at _ _ _ _ Ho)|exact Hd'].
Defined.

(** Three bytes go in, two come out, one stays. *)
Lemma demo_pipe_run : pipe_run demo_pipe_addr demo_piped [1; 2; 3] [1; 2] (final (pipe_read_loop PIPE_FUEL demo_pipe_addr 2 demo_esp []) demo_written).
Proof.
  assert (Hm : forall (c : M demo_kstate _) s m, match c s with Ok (r, _) => bool_decide (io_moved r = m) | Stop _ => false end = true ->
    exists r, c s = Ok (r, final c s) /\ io_moved r = m).
  { intros c s m. unfold final. destruct (c s) as [[r s']|]; [|done]. intros E%bool_decide_eq_true_1. eauto. }
  destruct (Hm (pipe_write_loop PIPE_FUEL demo_pipe_addr demo_esp false [1; 2; 3] []) demo_piped [1; 2; 3]) as (r1 & E1 & M1); [vm_compute; reflexivity|].
  destruct (Hm (pipe_read_loop PIPE_FUEL demo_pipe_addr 2 demo_esp []) demo_written [1; 2]) as (r2 & E2 & M2); [vm_compute; reflexivity|].
  apply (pipe_run_cons _ demo_piped [1; 2; 3] [] demo_written [] [1; 2]).
  - apply (pipe_step_write _ _ demo_esp false [1; 2; 3] [] r1); [simpl; lia|exact E1|exact M1].
  - apply (pipe_run_cons _ demo_written [] [1; 2] (final (pipe_read_loop PIPE_FUEL demo_pipe_addr 2 demo_esp []) demo_written) [] []); [|constructor].
    apply (pipe_step_read _ _ 2 demo_esp [] r2); [lia|simpl; lia|exact E2|exact M2].
Qed.

Lemma pipe_fifo_witness :
  exists s' x', pipe_run demo_pipe_addr demo_piped [1; 2; 3] [1; 2] s' /\ pipe_at s' demo_pipe_addr x' /\ pipe_data x' = [3].
Proof.
  destruct (pipe_is_at _ _ _ _ _ demo_piped_is) as (v & y & e & x & _ & _ & _ & Hp & Hok & Hd & _).
  destruct (pipe_fifo demo_pipe_addr demo_piped [1; 2; 3] [1; 2] _ x demo_pipe_run Hp Hok) as (x2 & Hp2 & _ & Hd2).
  rewrite Hd in Hd2. eexists _, x2. split; [exact demo_pipe_run|]. split; [exact Hp2|]. cbn [app] in Hd2. by injection Hd2.
Defined.

Lemma pipe_write_wakes_reader_witness :
  exists s', pipe_write_loop PIPE_FUEL demo_pipe_addr demo_esp false [7] [] demo_asleep = Ok (IoDone 1 [7], s') /\ state_of s' 1 = PROC_READY.
Proof.
  destruct (pipe_is_at _ _ _ _ _ demo_asleep_is) as (_ & _ & _ & x & _ & _ & _ & Hp & Hok & Hd & Hs & Hw & Hrd & _).
  assert (Hst : state_of demo_asleep 1 = PROC_BLOCKED) by (vm_compute; reflexivity).
  destruct (pipe_write_wakes_reader demo_asleep demo_pipe_addr x demo_esp [7] 1 demo_asleep_inv Hp Hok ltac:(rewrite Hw; unfold PIPE_NO_WAITER; lia)
    Hs ltac:(unfold MAX_PROCS; lia) Hst ltac:(lia) ltac:(discriminate) ltac:(rewrite Hd; unfold PIPE_BUFSZ; simpl; lia))
    as (s' & x' & E & _ & Hr & _). exists s'. split; [exact E|exact Hr].
Defined.

Lemma pipe_close_dangling_witness : vfs_close_op demo_read_end demo_piped = Stop (Undefined "dangling pointer").
Proof.
  assert (E : match end_of (k_files demo_piped) demo_read_end with
    | Some (f, y, e, x) => (f_refcount f =? 1) && negb (e_is_write e) && (0 <? pp_readers x) && match v_ops y with pipe_read_ops => true | _ => false end
    | None => false end = true) by (vm_compute; reflexivity).
  destruct (end_of (k_files demo_piped) demo_read_end) as [[[[f y] e] x]|] eqn:Eend; [|discriminate E].
  apply end_of_inv in Eend as (Ef & Ey & Ee & Ex).
  destruct f as [v off fl rc]. destruct e as [p []]; [by rewrite andb_false_r in E|]. apply andb_prop in E as [E Eo]. apply andb_prop in E as [E Er].
  apply andb_prop in E as [Erc _]. apply Z.eqb_eq in Erc. simpl in Erc, Ey, Ex. subst rc. destruct demo_piped_inv as (L & A & q & Hinv).
  apply (pipe_close_dangling demo_piped demo_read_end off fl v y (PipeEnd p false) x).
  - exists L, A. split; [exact (pi_heap _ _ _ _ _ Hinv)|exact (pi_files _ _ _ _ _ Hinv)].
  - exact Ef.
  - split; [exact Ey| |exact Ee|exact Ex|simpl; by apply Z.ltb_lt]. simpl. by destruct (v_ops y).
Defined.
