(* ===== verification/Vga.v ===== *)
(** * The VGA text terminal (kernel/drivers/vga.c, include/vga.h)

    The screen is an array of 80 x 25 cells at physical address 0xB8000; the
    driver keeps a cursor and a colour. Characters are written one after the
    other; after the last cell the cursor returns to the first one (there is no
    scrolling, and a newline is a character like any other). *)

From Stdlib Require Import ZArith Lia.
From S2P Require Import Prelude.

Definition VGA_WIDTH : Z := 80.
Definition VGA_HEIGHT : Z := 25.
Definition VGA_COLOUR_BLACK : Z := 0.
Definition VGA_COLOUR_LIGHT_GREY : Z := 7.

Record terminal := Terminal {
  terminal_row : Z;
  terminal_col : Z;
  terminal_colour : Z;
  terminal_buf : gmap Z Z
}.

Definition vga_colour (fg bg : Z) : Z := u8 (Z.lor fg (Z.shiftl bg 4)).
Definition vga_entry (c colour : Z) : Z := u16 (Z.lor (u8 c) (Z.shiftl colour 8)).

Definition terminal_putentryat (c colour x y : Z) (t : terminal) : terminal :=
  Terminal (terminal_row t) (terminal_col t) (terminal_colour t)
    (<[y * VGA_WIDTH + x := vga_entry c colour]> (terminal_buf t)).

Definition terminal_init (t : terminal) : terminal :=
  let colour := vga_colour VGA_COLOUR_LIGHT_GREY VGA_COLOUR_BLACK in
  for_up (Z.to_nat VGA_HEIGHT) 0 (fun y t =>
    for_up (Z.to_nat VGA_WIDTH) 0 (fun x t => terminal_putentryat 32 colour x y t) t)
    (Terminal 0 0 colour (terminal_buf t)).

Definition terminal_setcolour (colour : Z) (t : terminal) : terminal :=
  Terminal (terminal_row t) (terminal_col t) colour (terminal_buf t).

Definition terminal_putchar (c : Z) (t : terminal) : terminal :=
  let t := terminal_putentryat c (terminal_colour t) (terminal_col t) (terminal_row t) t in
  if terminal_col t + 1 =? VGA_WIDTH then
    let row := terminal_row t + 1 in
    Terminal (if row =? VGA_HEIGHT then 0 else row) 0 (terminal_colour t) (terminal_buf t)
  else Terminal (terminal_row t) (terminal_col t + 1) (terminal_colour t) (terminal_buf t).

Definition terminal_write (data : list Z) (t : terminal) : terminal := foldl (fun t c => terminal_putchar c t) t data.

(** [terminal_write(data, strlen(data))]: a C string is the list of its
    characters. *)
Definition terminal_writestring (data : list Z) (t : terminal) : terminal := terminal_write data t.

(** ** The cursor and the cells *)

Definition CELLS : Z := VGA_WIDTH * VGA_HEIGHT.
Definition term_ok (t : terminal) : Prop := 0 <= terminal_row t < VGA_HEIGHT /\ 0 <= terminal_col t < VGA_WIDTH.
Definition cursor (t : terminal) : Z := terminal_row t * VGA_WIDTH + terminal_col t.

Lemma cursor_range t : term_ok t -> 0 <= cursor t < CELLS.
Proof. unfold term_ok, cursor, CELLS, VGA_WIDTH, VGA_HEIGHT. lia. Qed.

Lemma putchar_spec c t : term_ok t ->
  term_ok (terminal_putchar c t) /\ cursor (terminal_putchar c t) = (cursor t + 1) mod CELLS /\
  terminal_buf (terminal_putchar c t) = <[cursor t := vga_entry c (terminal_colour t)]> (terminal_buf t) /\
  terminal_colour (terminal_putchar c t) = terminal_colour t.
Proof.
  unfold term_ok, cursor, terminal_putchar, CELLS, VGA_WIDTH, VGA_HEIGHT. intros Ht. simpl.
  destruct (Z.eqb_spec (terminal_col t + 1) 80); simpl; [destruct (Z.eqb_spec (terminal_row t + 1) 25); simpl|];
    (split; [lia|split; [|done]]); symmetry; [|rewrite Z.mod_small; lia..].
  replace (terminal_row t * 80 + terminal_col t + 1) with (1 * (80 * 25)) by lia. by apply Z.mod_mul.
Qed.

(** C34: writing [data] on the terminal puts character [i] of it into cell
    [cursor + i] (modulo the 2000 cells) with the current colour, for up to a
    screenful of characters, changes no other cell, and moves the cursor by the
    number of characters; every cell written is on the screen, and the driver's
    cursor stays on it for texts of any length. *)
Theorem terminal_write_correct data t :
  term_ok t ->
  let t' := terminal_write data t in
  let at_ i := (cursor t + Z.of_nat i) mod CELLS in
  term_ok t' /\ cursor t' = at_ (length data) /\ terminal_colour t' = terminal_colour t /\
  (forall k, ~ (0 <= k < CELLS) -> terminal_buf t' !! k = terminal_buf t !! k) /\
  (Z.of_nat (length data) <= CELLS ->
    (forall i c, data !! i = Some c -> terminal_buf t' !! at_ i = Some (vga_entry c (terminal_colour t))) /\
    (forall k, (forall i, (i < length data)%nat -> k <> at_ i) -> terminal_buf t' !! k = terminal_buf t !! k)).
Proof.
  revert t. induction data as [|c data IH]; intros t Ht; simpl.
  - pose proof (cursor_range t Ht). split; [done|]. rewrite Z.add_0_r, Z.mod_small by done. done.
  - destruct (putchar_spec c t Ht) as (Ht1 & Hc & Hb & Hcol). pose proof (cursor_range t Ht) as Hcr.
    destruct (IH _ Ht1) as (I1 & I2 & I3 & I4 & I5). fold (terminal_write data (terminal_putchar c t)).
    rewrite Hc in *. rewrite Hcol in *.
    assert (Hat : forall i, ((cursor t + 1) mod CELLS + Z.of_nat i) mod CELLS = (cursor t + Z.of_nat (S i)) mod CELLS).
    { intros i. rewrite Z.add_mod_idemp_l by done. f_equal. lia. }
    split; [done|]. split; [by rewrite I2, Hat|]. split; [done|]. split.
    { intros k Hk. rewrite I4, Hb, lookup_insert_ne by (done || congruence). done. }
    intros Hl. destruct I5 as [I5 I6]; [lia|]. split.
    + intros [|i] d Hd; simpl in Hd.
      * injection Hd as ->. rewrite Z.add_0_r, (Z.mod_small (cursor t)) by done. rewrite I6, Hb; [apply lookup_insert_eq|].
        intros i Hi. rewrite Hat. unfold CELLS, VGA_WIDTH, VGA_HEIGHT in *. zlia.
      * rewrite <- Hat. by apply I5.
    + intros k Hk. rewrite I6, Hb, lookup_insert_ne; [done| |].
      * intros <-. apply (Hk 0%nat); [lia|]. rewrite Z.add_0_r. by rewrite Z.mod_small.
      * intros i Hi. rewrite Hat. apply Hk. lia.
Qed.

Lemma terminal_write_correct_witness :
  let t := terminal_write [72; 105] (Terminal 24 79 7 ∅) in
  cursor t = 1 /\ terminal_buf t !! 1999 = Some 0x748 /\ terminal_buf t !! 0 = Some 0x769.
Proof.
  destruct (terminal_write_correct [72; 105] (Terminal 24 79 7 ∅)) as (_ & H1 & _ & _ & H2).
  - split; simpl; unfold VGA_HEIGHT, VGA_WIDTH; lia.
  - destruct H2 as [H2 _]; [unfold CELLS, VGA_WIDTH, VGA_HEIGHT; simpl; lia|]. split; [exact H1|]. split.
    + exact (H2 0%nat 72 eq_refl).
    + exact (H2 1%nat 105 eq_refl).
Defined.

(** A cleared screen: blanks in light grey, the cursor at the origin. *)
Lemma terminal_init_correct t :
  terminal_row (terminal_init t) = 0 /\ terminal_col (terminal_init t) = 0 /\
  forall k, terminal_buf (terminal_init t) !! k = if decide (0 <= k < CELLS) then Some 0x720 else terminal_buf t !! k.
Proof.
  set (inv n t' := terminal_row t' = 0 /\ terminal_col t' = 0 /\
    forall k, terminal_buf t' !! k = if decide (0 <= k < n) then Some 0x720 else terminal_buf t !! k).
  change (inv CELLS (terminal_init t)). unfold terminal_init.
  replace CELLS with (Z.of_nat (Z.to_nat VGA_HEIGHT) * VGA_WIDTH) by done.
  apply (for_up0_ind (fun y t' => inv (y * VGA_WIDTH) t')).
  - split; [done|]. split; [done|]. intros k. rewrite decide_False by lia. done.
  - intros y t' Hy Hi. replace ((y + 1) * VGA_WIDTH) with (y * VGA_WIDTH + Z.of_nat (Z.to_nat VGA_WIDTH)) by (simpl; unfold VGA_WIDTH; lia).
    apply (for_up0_ind (fun x t' => inv (y * VGA_WIDTH + x) t')); [by rewrite Z.add_0_r|].
    intros x t2 Hx (I1 & I2 & I3). split; [done|]. split; [done|]. intros k. simpl. rewrite lookup_insert.
    change (vga_entry 32 _) with 0x720. rewrite I3. repeat case_decide; try done; unfold VGA_WIDTH in *; lia.
Qed.
