(* ===== verification/Io.v ===== *)
(** * Reading and writing open files (vfs_read and vfs_write of
      kernel/fs/vfs.c, the device operations of kernel/fs/devfs.c, fd_read and
      fd_write of kernel/proc/fd.c)

    [machine] adds the keyboard, the serial line and the terminal to the kernel
    state of Kstate.v. A transfer on a pipe or on the keyboard can put the
    process to sleep in the middle; the point where it goes on is a value of
    [blocked], and [vfs_read_resume] and [vfs_write_resume] go on from there. *)

From Stdlib Require Import ZArith Lia.
From S2P Require Import Prelude Kheap HeapSpec Kstate Fd Fs FsLaws Ramfs Proc ProcInv ProcOps ProcSteps ProcSafety Kinv Keyboard Pipe Vga.

(** Where a sleeping process goes on. *)
Inductive blocked : Type :=
| InPipeRead (pipe len : Z) (got : list Z)
| InPipeWrite (pipe : Z) (rest done : list Z)
| InKeyboardRead (len : Z).

(** The outcome of a transfer: the return value and, for a read, the bytes
    stored in the caller's buffer; or the process sleeps. *)
Inductive io : Type :=
| IoRet (n : Z) (data : list byte)
| IoSleep (esp : Z) (at_ : blocked).

Section io.
Context {H : Type} `{!Heap H}.

Record machine := Machine { m_in : kbd_state H fstate; m_term : terminal }.
Definition set_in (v : kbd_state H fstate) (m : machine) : machine := Machine v (m_term m).
Definition set_term (v : terminal) (m : machine) : machine := Machine (m_in m) v.
Definition m_kern (m : machine) : kstate H fstate := kern (m_in m).
Definition on_in {A : Type} (c : M (kbd_state H fstate) A) : M machine A := zoom m_in set_in c.
Definition on_k {A : Type} (c : M (kstate H fstate) A) : M machine A := on_in (on_kern c).

(** ** Devices *)

Definition vga_write_op (src : list Z) : M machine Z :=
  modify (fun m => set_term (foldl (fun t c => terminal_putchar c t) (m_term m) src) m) ;;
  mret (s32 (Z.of_nat (length src))).

Definition serial_write_op (src : list Z) : M machine Z :=
  on_in (modify (fun s => set_kbd (foldl (fun k c => serial_putchar c k) (kbd s) src) s)) ;;
  mret (s32 (Z.of_nat (length src))).

(** ** Reading *)

Definition pipe_read_out (pipe len : Z) (r : io_result) : io :=
  match r with
  | IoDone n got => IoRet n (Some <$> got)
  | IoBlocked esp got => IoSleep esp (InPipeRead pipe len got)
  end.
Definition kbd_read_out (len : Z) (r : read_result) : io :=
  match r with
  | ReadChars cs => IoRet (s32 (Z.of_nat (length cs))) (Some <$> cs)
  | ReadBlocked esp => IoSleep esp (InKeyboardRead len)
  end.

(** [f->vnode->ops->read]; [None] when the table has no such entry. *)
Definition ops_read (v len offset esp : Z) : M machine (option io) :=
  x ← on_k (load as_vnode v);
  match v_ops x with
  | ramfs_ops => r ← on_k (ramfs_read v len offset); mret (Some (IoRet r.1 r.2))
  | pipe_read_ops =>
      e ← on_k (load as_end (v_data x));
      r ← on_k (pipe_read_loop PIPE_FUEL (e_pipe e) len esp []);
      mret (Some (pipe_read_out (e_pipe e) len r))
  | stdin_ops => r ← on_in (kbd_read len esp); mret (Some (kbd_read_out len r))
  | _ => mret None
  end.

(** [if (n > 0) f->offset += (uint32_t)n; return n;] *)
Definition read_done (f : Z) (r : io) : M machine io :=
  match r with
  | IoRet n data =>
      (if 0 <? n then on_k (x ← load as_file f; store f (OFile (set_f_offset (f_offset x +w n) x))) else mret tt) ;;
      mret r
  | IoSleep _ _ => mret r
  end.

Definition vfs_read (f buf len esp : Z) : M machine io :=
  if f =? 0 then mret (IoRet (-1) []) else
  x ← on_k (load as_file f);
  if (f_vnode x =? 0) || (buf =? 0) || (len =? 0) then mret (IoRet (-1) []) else
  r ← ops_read (f_vnode x) len (f_offset x) esp;
  match r with
  | None => mret (IoRet (-1) [])
  | Some r => read_done f r
  end.

Definition vfs_read_resume (f esp : Z) (at_ : blocked) : M machine io :=
  match at_ with
  | InPipeRead pipe len got => r ← on_k (pipe_read_loop PIPE_FUEL pipe len esp got); read_done f (pipe_read_out pipe len r)
  | InKeyboardRead len => r ← on_in (kbd_read len esp); read_done f (kbd_read_out len r)
  | InPipeWrite _ _ _ => mret (IoRet (-1) [])
  end.

(** ** Writing *)

Definition has_write (o : vops) : bool :=
  match o with ramfs_ops | pipe_write_ops | stdout_ops | stderr_ops => true | _ => false end.

Definition pipe_write_out (pipe : Z) (src : list Z) (r : io_result) : io :=
  match r with
  | IoDone n _ => IoRet n []
  | IoBlocked esp done => IoSleep esp (InPipeWrite pipe (drop (length done) src) done)
  end.

Definition ops_write (v : Z) (x : vnode) (src : list Z) (offset esp : Z) : M machine io :=
  match v_ops x with
  | ramfs_ops => n ← on_k (ramfs_write v (Some <$> src) offset); mret (IoRet n [])
  | pipe_write_ops =>
      e ← on_k (load as_end (v_data x));
      r ← on_k (pipe_write_loop PIPE_FUEL (e_pipe e) esp false src []);
      mret (pipe_write_out (e_pipe e) src r)
  | stdout_ops => n ← vga_write_op src; mret (IoRet n [])
  | stderr_ops => n ← serial_write_op src; mret (IoRet n [])
  | _ => mret (IoRet (-1) [])
  end.

(** [if (n > 0) { f->offset += n; if (f->offset > f->vnode->size) f->vnode->size = f->offset; } return n;] *)
Definition write_done (f : Z) (r : io) : M machine io :=
  match r with
  | IoRet n _ =>
      (if 0 <? n then
         on_k (x ← load as_file f;
               store f (OFile (set_f_offset (f_offset x +w n) x)) ;;
               v ← load as_vnode (f_vnode x);
               if v_size v <? f_offset x +w n then store (f_vnode x) (OVnode (set_v_size (f_offset x +w n) v)) else mret tt)
       else mret tt) ;;
      mret r
  | IoSleep _ _ => mret r
  end.

Definition vfs_write (f buf : Z) (src : list Z) (esp : Z) : M machine io :=
  if f =? 0 then mret (IoRet (-1) []) else
  x ← on_k (load as_file f);
  if (f_vnode x =? 0) || (buf =? 0) || (Z.of_nat (length src) =? 0) then mret (IoRet (-1) []) else
  v ← on_k (load as_vnode (f_vnode x));
  if negb (has_write (v_ops v)) then mret (IoRet (-1) []) else
  (if truthy (Z.land (f_flags x) O_APPEND) then on_k (store f (OFile (set_f_offset (v_size v) x))) else mret tt) ;;
  y ← on_k (load as_file f);
  r ← ops_write (f_vnode x) v src (f_offset y) esp;
  write_done f r.

Definition vfs_write_resume (f esp : Z) (at_ : blocked) : M machine io :=
  match at_ with
  | InPipeWrite pipe rest done =>
      r ← on_k (pipe_write_loop PIPE_FUEL pipe esp true rest done); write_done f (pipe_write_out pipe (done ++ rest) r)
  | _ => mret (IoRet (-1) [])
  end.

(** ** Descriptors *)

Definition fd_read (table : list Z) (fd buf len esp : Z) : M machine io :=
  match fd_entry table fd with
  | None => mret (IoRet (-1) [])
  | Some f => vfs_read f buf len esp
  end.

Definition fd_write (table : list Z) (fd buf : Z) (src : list Z) (esp : Z) : M machine io :=
  match fd_entry table fd with
  | None => mret (IoRet (-1) [])
  | Some f => vfs_write f buf src esp
  end.
End io.
Arguments machine : clear implicits.

(** ** Regular files *)

Section regular.
Context {H : Type} `{!Heap H} `{!HeapLaws H}.
Implicit Types (m : machine H) (s : kstate H fstate).

Definition with_kern s m : machine H := set_in (set_kern s (m_in m)) m.

Lemma on_k_ok {A} (c : M (kstate H fstate) A) m r s : c (m_kern m) = Ok (r, s) -> on_k c m = Ok (r, with_kern s m).
Proof. intros E. unfold on_k, on_in, on_kern, zoom. unfold m_kern in E. by rewrite E. Qed.

Lemma on_k_stop {A} (c : M (kstate H fstate) A) m f : c (m_kern m) = Stop f -> on_k c m = Stop f.
Proof. intros E. unfold on_k, on_in, on_kern, zoom. unfold m_kern in E. by rewrite E. Qed.

Lemma with_kern_kern s m : m_kern (with_kern s m) = s.
Proof. done. Qed.
Lemma with_kern_same m : with_kern (m_kern m) m = m.
Proof. by destruct m as [[]]. Qed.
Lemma with_kern_twice s s' m : with_kern s' (with_kern s m) = with_kern s' m.
Proof. done. Qed.

(** [f] is open on the regular file [v] that holds [data]. *)
Record open_on s (f : Z) (x : file) (v : Z) (y : vnode) (ino : ramfs_inode) (data : list byte) : Prop := {
  oo_file : objs (k_files s) !! f = Some (OFile x);
  oo_vnode : f_vnode x = v;
  oo_ops : v_ops y = ramfs_ops;
  oo_data : file_at (objs (k_files s)) v y ino data;
  oo_offset : 0 <= f_offset x < 2 ^ 31;
  oo_size : Z.of_nat (length data) < 2 ^ 31
}.

Lemma file_parts_ne o f x v y ino data p : o !! f = Some (OFile x) -> file_at o v y ino data -> f <> 0 ->
  p = v \/ p = v_data y \/ p = i_buf ino -> p <> f.
Proof.
  intros Hf [Ev _ _ Ei Hb] Hz Hp <-. destruct Hp as [->|[->| ->]]; [congruence..|].
  destruct Hb as [E _ _|]; congruence.
Qed.

Lemma open_on_nonzero s f x v y ino data : kinv s -> open_on s f x v y ino data -> f <> 0 /\ v <> 0.
Proof.
  intros (L & A & q & Hinv) [Hf _ _ Hat _ _]. pose proof (pi_files _ _ _ _ _ Hinv) as Hfs.
  destruct (Hfs _ _ Hf) as (? & _), (Hfs _ _ (fa_vnode _ _ _ _ _ Hat)) as (? & _). done.
Qed.

(** The kernel state with one object replaced. *)
Definition put_obj (p : Z) (o : obj) s : kstate H fstate := set_k_files (set_objs (<[p := o]> (objs (k_files s))) (k_files s)) s.

Lemma ops_read_regular m f x v y ino data len esp :
  open_on (m_kern m) f x v y ino data -> 0 <= len ->
  ops_read v len (f_offset x) esp m =
    Ok (Some (IoRet (Z.of_nat (length (slice data (f_offset x) len))) (slice data (f_offset x) len)), m).
Proof.
  intros [Hf Hv Hops Hat Hoff Hsz] Hl. unfold ops_read.
  pose proof (fa_vnode _ _ _ _ _ Hat) as Ev. rewrite (bind_ok _ _ _ _ _ (on_k_ok _ m _ _ (load_at as_vnode (m_kern m) v _ y Ev eq_refl))).
  rewrite with_kern_same, Hops.
  pose proof (ramfs_read_run (m_kern m) (k_heap (m_kern m)) _ v y ino data (f_offset x) len Hat Hsz ltac:(lia) Hl) as Hr.
  rewrite <- st_self in Hr. rewrite (bind_ok _ _ _ _ _ (on_k_ok _ m _ _ Hr)), with_kern_same. done.
Qed.

Lemma vfs_read_run m f x v y ino data buf len esp :
  kinv (m_kern m) -> open_on (m_kern m) f x v y ino data -> buf <> 0 -> 0 < len ->
  let got := slice data (f_offset x) len in
  let n := Z.of_nat (length got) in
  vfs_read f buf len esp m =
    Ok (IoRet n got, if 0 <? n then with_kern (put_obj f (OFile (set_f_offset (f_offset x + n) x)) (m_kern m)) m else m).
Proof.
  intros Hi Ho Hbuf Hlen got n. pose proof Ho as [Hf Hv Hops Hat Hoff Hsz].
  pose proof (open_on_nonzero _ f x v y ino data Hi Ho) as Hnz.
  assert (Hn : 0 < n -> f_offset x + n <= Z.of_nat (length data)).
  { unfold n, got, slice. rewrite length_take, length_drop. lia. }
  unfold vfs_read. rewrite (proj2 (Z.eqb_neq f 0)) by apply Hnz.
  rewrite (bind_ok _ _ _ _ _ (on_k_ok _ m _ _ (load_at as_file (m_kern m) f _ x Hf eq_refl))), with_kern_same.
  rewrite Hv, (proj2 (Z.eqb_neq v 0)), (proj2 (Z.eqb_neq buf 0)), (proj2 (Z.eqb_neq len 0)) by (done || lia || apply Hnz). cbn [orb].
  rewrite (bind_ok _ _ _ _ _ (ops_read_regular m f x v y ino data len esp Ho ltac:(lia))). fold got. fold n. unfold read_done.
  destruct (Z.ltb_spec 0 n) as [Hpos|]; [|done].
  assert (E : (x ← load as_file f; store f (OFile (set_f_offset (f_offset x +w n) x))) (m_kern m) =
    Ok (tt, put_obj f (OFile (set_f_offset (f_offset x + n) x)) (m_kern m))).
  { rewrite (bind_ok _ _ _ _ _ (load_at as_file (m_kern m) f _ x Hf eq_refl)). unfold store. rewrite Hf, u32_small by lia. done. }
  rewrite (bind_ok _ _ _ _ _ (on_k_ok _ m _ _ E)). done.
Qed.

(** C33: reading a regular file through a descriptor, whatever access mode it was
    opened with (vfs.c does not look at it), returns the bytes at the file's
    position, at most [len] and up to the end of the file, advances the position
    by their number, and changes nothing else; at the end of the file the result
    is 0 bytes. Two reads in a row therefore return consecutive pieces of the
    file. *)
Theorem vfs_read_correct m f x v y ino data buf len esp :
  kinv (m_kern m) -> open_on (m_kern m) f x v y ino data -> buf <> 0 -> 0 < len ->
  let got := slice data (f_offset x) len in
  let n := Z.of_nat (length got) in
  vfs_read f buf len esp m =
    Ok (IoRet n got, if 0 <? n then with_kern (put_obj f (OFile (set_f_offset (f_offset x + n) x)) (m_kern m)) m else m) /\
  (0 < n -> f_offset x + n <= Z.of_nat (length data)) /\
  (0 < n -> open_on (put_obj f (OFile (set_f_offset (f_offset x + n) x)) (m_kern m)) f (set_f_offset (f_offset x + n) x) v y ino data).
Proof.
  intros Hi Ho Hbuf Hlen got n. pose proof Ho as [Hf Hv Hops Hat Hoff Hsz].
  pose proof (open_on_nonzero _ f x v y ino data Hi Ho) as Hnz.
  assert (Hn : 0 < n -> f_offset x + n <= Z.of_nat (length data)).
  { unfold n, got, slice. rewrite length_take, length_drop. lia. }
  split; [|split; [exact Hn|]].
  - by apply (vfs_read_run m f x v y ino data).
  - intros Hpos. assert (Hfr : forall p o, p <> f -> objs (k_files (m_kern m)) !! p = Some o ->
      objs (k_files (put_obj f (OFile (set_f_offset (f_offset x + n) x)) (m_kern m))) !! p = Some o).
    { intros p o Hp Hpo. simpl. by rewrite lookup_insert_ne by congruence. }
    split; [simpl; apply lookup_insert_eq|done|done| |simpl; lia|done].
    apply (file_at_frame _ _ v y ino data Hat). intros p o Hp Hpo. apply Hfr; [|done].
    by apply (file_parts_ne _ f x v y ino data p Hf Hat (proj1 Hnz)).
Qed.
End regular.

(** ** The kernel's invariant *)

Section invariant.
Context {H : Type} `{!Heap H} `{!HeapLaws H}.
Implicit Types (m : machine H).

Definition mpreserves {T : Type} (c : M (machine H) T) : Prop := forall m r m', kinv (m_kern m) -> c m = Ok (r, m') -> kinv (m_kern m').

Lemma mpreserves_ret {T} (x : T) : mpreserves (mret x).
Proof. intros m r m' Hi [= <- <-]. done. Qed.

Lemma mpreserves_bind {T U} (c : M (machine H) T) (k : T -> M (machine H) U) :
  mpreserves c -> (forall x, mpreserves (k x)) -> mpreserves (c ≫= k).
Proof. intros Hc Hk m r m' Hi E. apply bind_inv in E as (x & m1 & E1 & E2). apply (Hk x m1 r m'); [by apply (Hc m x m1)|done]. Qed.

Lemma mpreserves_on_k {T} (c : M (kstate H fstate) T) : preserves c -> mpreserves (on_k c).
Proof.
  intros Hc m r m' Hi E. unfold on_k, on_in, on_kern, zoom in E. destruct (c (kern (m_in m))) as [[x s]|] eqn:Ec; [|done].
  injection E as <- <-. by apply (Hc (kern (m_in m)) x s).
Qed.

Lemma kbd_read_kern len esp (s : kbd_state H fstate) r s' :
  kbd_read len esp s = Ok (r, s') -> kern s' = kern s \/ exists e, block_self esp (kern s) = Ok (e, kern s').
Proof.
  unfold kbd_read. destruct (keyboard_has_char (kbd s)).
  { destruct (drain _ _) as [cs k]. intros [= <- <-]. by left. }
  destruct (current_proc (kern s)) as [self|] eqn:Hc; [|intros [= <- <-]; by left]. intros E. right.
  apply bind_inv in E as ([] & s1 & E1 & E). injection E1 as <-.
  apply bind_inv in E as ([] & s2 & E2 & E). apply bind_inv in E as (pid & s3 & E3 & E). injection E3 as <- <-.
  apply bind_inv in E as ([] & s4 & E4 & E). injection E4 as <-. apply bind_inv in E as (e & s5 & E5 & E). injection E as <- <-.
  exists e. unfold block_self. rewrite Hc. rewrite (bind_ok _ _ (kern s) tt (upd_pcb self (set_p_state PROC_BLOCKED) (kern s))) by done.
  unfold on_kern, zoom in E2, E5. cbn [kern set_kern] in E2.
  destruct (sched_remove self (upd_pcb self (set_p_state PROC_BLOCKED) (kern s))) as [[[] k2]|] eqn:Er; [|done]. injection E2 as <-.
  rewrite (bind_ok _ _ _ _ _ Er). cbn [kern set_kern set_kbd] in E5. destruct (sched_yield esp k2) as [[e' k5]|]; [|done].
  injection E5 as <- <-. done.
Qed.

Lemma mpreserves_kbd_read len esp : 0 < esp < 2 ^ 32 -> mpreserves (on_in (kbd_read len esp)).
Proof.
  intros He m r m' Hi E. unfold on_in, zoom in E. destruct (kbd_read len esp (m_in m)) as [[x s]|] eqn:Ek; [|done].
  injection E as <- <-. destruct (kbd_read_kern len esp _ _ _ Ek) as [Es|(e & Eb)].
  - unfold m_kern. simpl. by rewrite Es.
  - exact (preserves_block_self esp He _ _ _ Hi Eb).
Qed.

Lemma mpreserves_vga src : mpreserves (vga_write_op src).
Proof. intros m r m' Hi [= <- <-]. done. Qed.
Lemma mpreserves_serial src : mpreserves (serial_write_op src).
Proof. intros m r m' Hi [= <- <-]. done. Qed.

(** Decompose a transfer. *)
Ltac mstep :=
  match goal with
  | |- mpreserves (_ ≫= _) => apply mpreserves_bind; [|intros]
  | |- mpreserves (if ?b then _ else _) => destruct b
  | |- mpreserves (match ?x with _ => _ end) => destruct x
  | |- mpreserves (mret _) => apply mpreserves_ret
  | |- mpreserves (vga_write_op _) => apply mpreserves_vga
  | |- mpreserves (serial_write_op _) => apply mpreserves_serial
  | |- mpreserves (on_in (kbd_read _ _)) => by apply mpreserves_kbd_read
  | |- mpreserves (on_k _) => apply mpreserves_on_k
  | |- preserves (pipe_read_loop _ _ _ _ _) => by apply preserves_read_loop
  | |- preserves (pipe_write_loop _ _ _ _ _ _) => by apply preserves_write_loop
  | |- preserves (ramfs_read _ _ _) => apply (preserves_keeps true), keeps_ramfs_read
  | |- preserves (ramfs_write _ _ _) => apply (preserves_keeps true), keeps_ramfs_write
  | |- preserves (load _ _) => apply (preserves_keeps true), keeps_load_ret
  | |- preserves _ => preserves_step
  | |- obj_ok _ => exact I
  end.

Lemma mpreserves_read_done f r : mpreserves (read_done f r).
Proof. unfold read_done. repeat mstep. Qed.

Lemma mpreserves_write_done f r : mpreserves (write_done f r).
Proof. unfold write_done. repeat mstep. Qed.

Lemma mpreserves_vfs_read f buf len esp : 0 < esp < 2 ^ 32 -> mpreserves (vfs_read f buf len esp).
Proof. intros He. unfold vfs_read, ops_read. repeat mstep. all: apply mpreserves_read_done. Qed.

Lemma mpreserves_vfs_write f buf src esp : 0 < esp < 2 ^ 32 -> mpreserves (vfs_write f buf src esp).
Proof. intros He. unfold vfs_write, ops_write. repeat mstep. all: apply mpreserves_write_done. Qed.

Lemma mpreserves_read_resume f esp b : 0 < esp < 2 ^ 32 -> mpreserves (vfs_read_resume f esp b).
Proof. intros He. unfold vfs_read_resume. destruct b; repeat mstep; apply mpreserves_read_done. Qed.

Lemma mpreserves_write_resume f esp b : 0 < esp < 2 ^ 32 -> mpreserves (vfs_write_resume f esp b).
Proof. intros He. unfold vfs_write_resume. destruct b; repeat mstep; apply mpreserves_write_done. Qed.
End invariant.

(** ** Writing to regular files *)

Section regular_write.
Context {H : Type} `{!Heap H} `{!HeapLaws H}.
Implicit Types (m : machine H) (s : kstate H fstate).

Definition appends (x : file) : bool := truthy (Z.land (f_flags x) O_APPEND).

(** The position at which a write starts. *)
Definition write_pos (x : file) (data : list byte) : Z := if appends x then Z.of_nat (length data) else f_offset x.

Lemma open_on_put s f x v y ino data off :
  open_on s f x v y ino data -> f <> 0 -> 0 <= off < 2 ^ 31 ->
  open_on (put_obj f (OFile (set_f_offset off x)) s) f (set_f_offset off x) v y ino data.
Proof.
  intros [Hf Hv Hops Hat Hoff Hsz] Hz Ho. split; [simpl; apply lookup_insert_eq|done|done| |done|done].
  apply (file_at_frame _ _ v y ino data Hat). intros p o Hp Hpo. simpl. rewrite lookup_insert_ne; [done|].
  symmetry. by apply (file_parts_ne _ f x v y ino data p Hf Hat Hz).
Qed.

(** The O_APPEND adjustment. *)
Lemma append_run m f x v y ino data :
  open_on (m_kern m) f x v y ino data -> f <> 0 ->
  exists s1, (if appends x then on_k (store f (OFile (set_f_offset (v_size y) x))) else mret tt) m = Ok (tt, with_kern s1 m) /\
    open_on s1 f (set_f_offset (write_pos x data) x) v y ino data /\ k_heap s1 = k_heap (m_kern m) /\
    forall p, p <> f -> objs (k_files s1) !! p = objs (k_files (m_kern m)) !! p.
Proof.
  intros Ho Hz. pose proof Ho as [Hf Hv Hops Hat Hoff Hsz]. unfold write_pos. destruct (appends x).
  - exists (put_obj f (OFile (set_f_offset (v_size y) x)) (m_kern m)). rewrite <- (fa_size _ _ _ _ _ Hat). split.
    + apply on_k_ok. unfold store. by rewrite Hf.
    + split; [apply open_on_put; [done|done|rewrite (fa_size _ _ _ _ _ Hat); lia]|]. split; [done|].
      intros p Hp. simpl. by rewrite lookup_insert_ne by congruence.
  - exists (m_kern m). split; [by rewrite with_kern_same|]. split; [|done]. by destruct x.
Qed.

(** The adjustment after a write: the position moves, the size is already right. *)
Lemma write_done_run m f x v y ino data n off :
  open_on (m_kern m) f (set_f_offset off x) v y ino data -> f <> 0 -> 0 < n -> off + n <= Z.of_nat (length data) -> 
  write_done f (IoRet n []) m = Ok (IoRet n [], with_kern (put_obj f (OFile (set_f_offset (off + n) x)) (m_kern m)) m) /\
  open_on (put_obj f (OFile (set_f_offset (off + n) x)) (m_kern m)) f (set_f_offset (off + n) x) v y ino data.
Proof.
  intros Ho Hz Hn Hle. pose proof Ho as [Hf Hv Hops Hat Hoff Hsz]. simpl in Hoff.
  assert (Hput : open_on (put_obj f (OFile (set_f_offset (off + n) x)) (m_kern m)) f (set_f_offset (off + n) x) v y ino data).
  { apply (open_on_put (m_kern m) f (set_f_offset off x) v y ino data (off + n) Ho Hz). lia. }
  split; [|exact Hput]. unfold write_done. rewrite (proj2 (Z.ltb_lt 0 n)) by done. simpl in Hv. subst v.
  set (s2 := put_obj f (OFile (set_f_offset (off + n) x)) (m_kern m)) in *.
  lazymatch goal with |- (on_k ?c ≫= _) m = _ => assert (E : c (m_kern m) = Ok (tt, s2)) end.
  { rewrite (bind_ok _ _ _ _ _ (load_at as_file (m_kern m) f _ (set_f_offset off x) Hf eq_refl)). cbn [f_offset f_vnode set_f_offset].
    rewrite u32_small by lia. rewrite (bind_ok _ _ (m_kern m) tt s2) by (unfold store, s2, put_obj; by rewrite Hf).
    pose proof (oo_data _ _ _ _ _ _ _ Hput) as Hat2.
    rewrite (bind_ok _ _ _ _ _ (load_at as_vnode s2 _ _ y (fa_vnode _ _ _ _ _ Hat2) eq_refl)).
    rewrite (fa_size _ _ _ _ _ Hat2), (proj2 (Z.ltb_ge _ _)) by lia. done. }
  by rewrite (bind_ok _ _ _ _ _ (on_k_ok _ m _ _ E)).
Qed.

(** The checks of [vfs_write] pass. *)
Lemma vfs_write_head m f x v y ino data buf src esp s1 :
  open_on (m_kern m) f x v y ino data -> f <> 0 /\ v <> 0 -> buf <> 0 -> Z.of_nat (length src) <> 0 ->
  (if appends x then on_k (store f (OFile (set_f_offset (v_size y) x))) else mret tt) m = Ok (tt, with_kern s1 m) ->
  objs (k_files s1) !! f = Some (OFile (set_f_offset (write_pos x data) x)) ->
  vfs_write f buf src esp m = (ops_write v y src (write_pos x data) esp ≫= write_done f) (with_kern s1 m).
Proof.
  intros [Hf Hv Hops Hat Hoff Hsz] Hnz Hbuf Hlen E1 Hf1. unfold vfs_write. rewrite (proj2 (Z.eqb_neq f 0)) by apply Hnz.
  rewrite (bind_ok _ _ _ _ _ (on_k_ok _ m _ _ (load_at as_file (m_kern m) f _ x Hf eq_refl))), with_kern_same.
  rewrite Hv, (proj2 (Z.eqb_neq v 0)), (proj2 (Z.eqb_neq buf 0)), (proj2 (Z.eqb_neq _ 0)) by (done || apply Hnz). cbn [orb].
  rewrite (bind_ok _ _ _ _ _ (on_k_ok _ m _ _ (load_at as_vnode (m_kern m) v _ y (fa_vnode _ _ _ _ _ Hat) eq_refl))), with_kern_same.
  rewrite Hops. cbn [has_write negb]. rewrite (bind_ok _ _ _ _ _ E1).
  by rewrite (bind_ok _ _ _ _ _ (on_k_ok _ (with_kern s1 m) _ _ (load_at as_file s1 f _ _ Hf1 eq_refl))).
Qed.

End regular_write.

(** ** On the demonstration machine

    The idle process creates the file "/a" and writes two bytes to it. *)

Definition demo_path : list Z := [47; 97].
Definition demo_flags : Z := Z.lor O_RDWR O_CREAT.
Definition demo_opened : demo_kstate := final (vfs_open demo_path demo_flags) demo_fork2.
Definition demo_fptr : Z := result 0 (vfs_open demo_path demo_flags) demo_fork2.
Definition demo_machine : machine kheap_state := Machine (KbdState initial_keyboard demo_opened) (Terminal 0 0 7 ∅).
Definition demo_buf : Z := 0x200000.
Definition demo_filled : machine kheap_state := final (vfs_write demo_fptr demo_buf [104; 105] demo_esp) demo_machine.
(** The file's position back at the start. *)
Definition demo_rewound : machine kheap_state :=
  match objs (k_files (m_kern demo_filled)) !! demo_fptr with
  | Some (OFile x) => with_kern (put_obj demo_fptr (OFile (set_f_offset 0 x)) (m_kern demo_filled)) demo_filled
  | _ => demo_filled
  end.

(** [f] is open at position 0 on a regular file with these bytes. *)
Definition open_is (fs : fstate) (f : Z) (data : list byte) : bool :=
  match objs fs !! f with
  | Some (OFile x) =>
      match objs fs !! f_vnode x with
      | Some (OVnode y) =>
          match objs fs !! v_data y with
          | Some (OInode i) =>
              (f_refcount x =? 1) && (f_offset x =? 0) && (v_type y =? VNODE_FILE) && (v_size y =? Z.of_nat (length data)) &&
              negb (appends x) &&
              match v_ops y with ramfs_ops => true | _ => false end &&
              (if i_buf i =? 0 then (i_capacity i =? 0) && bool_decide (data = []) else
               let m := Z.log2 (i_capacity i) in
               (6 <=? m) && (m <? 31) && (i_capacity i =? 2 ^ m) && (Z.of_nat (length data) <=? 2 ^ m) && match objs fs !! i_buf i with
               | Some (OBuf b) => bool_decide (b = data ++ replicate (Z.to_nat (2 ^ m) - length data) None) | _ => false end)
          | _ => false
          end
      | _ => false
      end
  | _ => false
  end.

Lemma open_is_on {H} (s : kstate H fstate) f data : open_is (k_files s) f data = true ->
  exists x v y ino, open_on s f x v y ino data /\ f_offset x = 0 /\ appends x = false /\ f_refcount x = 1.
Proof.
  unfold open_is. destruct (objs (k_files s) !! f) as [[|x| | | | |]|] eqn:Ef; try done.
  destruct (objs (k_files s) !! f_vnode x) as [[y| | | | | |]|] eqn:Ey; try done.
  destruct (objs (k_files s) !! v_data y) as [[| |i| | | |]|] eqn:Ei; try done. intros E.
  apply andb_prop in E as [E Eb]. apply andb_prop in E as [E Eops]. apply andb_prop in E as [E Eap].
  apply andb_prop in E as [E Es]. apply andb_prop in E as [E Et]. apply andb_prop in E as [Er Eo]. apply Z.eqb_eq in Er, Eo, Es, Et.
  assert (Hb : buf_at (objs (k_files s)) (i_buf i) (i_capacity i) data /\ Z.of_nat (length data) < 2 ^ 31).
  { destruct (Z.eqb_spec (i_buf i) 0) as [Hb|Hb].
    - apply andb_prop in Eb as [Ec Eb]. apply Z.eqb_eq in Ec. apply bool_decide_eq_true_1 in Eb. subst data. split; [by apply buf_none|done].
    - cbv zeta in Eb. set (m := Z.log2 (i_capacity i)) in *. destruct (objs (k_files s) !! i_buf i) as [[| | | |b| |]|] eqn:Ebuf; try (by rewrite andb_false_r in Eb).
      apply andb_prop in Eb as [Eb Ed]. apply andb_prop in Eb as [Eb El]. apply andb_prop in Eb as [Eb Ec]. apply andb_prop in Eb as [Em1 Em2].
      apply bool_decide_eq_true_1 in Ed. subst b. apply Z.eqb_eq in Ec. apply Z.leb_le in El, Em1. apply Z.ltb_lt in Em2.
      assert (2 ^ m <= 2 ^ 30) by (apply Z.pow_le_mono_r; lia). split; [|lia]. apply (buf_some _ _ _ _ m); rewrite ?Ec; try done; lia. }
  exists x, (f_vnode x), y, i. split; [|split; [done|split; [by apply negb_true_iff|done]]].
  split; try done; [by destruct (v_ops y)|split; try done; apply Hb|lia|apply Hb].
Qed.

Lemma demo_opened_is : open_is (k_files (m_kern demo_machine)) demo_fptr [] = true.
Proof. vm_compute. reflexivity. Qed.
Lemma demo_rewound_is : open_is (k_files (m_kern demo_rewound)) demo_fptr [Some 104; Some 105] = true.
Proof. vm_compute. reflexivity. Qed.

Lemma demo_machine_inv : kinv (m_kern demo_machine).
Proof.
  destruct (run_final (vfs_open demo_path demo_flags) demo_fork2) as [r E]; [vm_compute; reflexivity|].
  exact (preserves_keeps true _ (keeps_vfs_open _ _) demo_fork2 r demo_opened (reachable_proc_inv demo_fork2 demo_fork2_reachable) E).
Qed.

Lemma put_obj_inv {H} `{!Heap H} `{!HeapLaws H} (s : kstate H fstate) p o o' :
  kinv s -> objs (k_files s) !! p = Some o' -> obj_ok o -> kinv (put_obj p o s).
Proof.
  intros Hi Hp Ho. apply (preserves_store p o Ho s tt (put_obj p o s) Hi). unfold store. by rewrite Hp.
Qed.

Lemma demo_filled_inv : kinv (m_kern demo_filled).
Proof.
  destruct (run_final (vfs_write demo_fptr demo_buf [104; 105] demo_esp) demo_machine) as [r E]; [vm_compute; reflexivity|].
  exact (mpreserves_vfs_write demo_fptr demo_buf [104; 105] demo_esp ltac:(unfold demo_esp; lia) demo_machine r demo_filled demo_machine_inv E).
Qed.

Lemma demo_rewound_inv : kinv (m_kern demo_rewound).
Proof.
  unfold demo_rewound. pose proof demo_filled_inv as Hi. generalize demo_fptr. generalize dependent demo_filled.
  intros m Hi f. destruct (objs (k_files (m_kern m)) !! f) as [[|x| | | | |]|] eqn:Ef; try exact Hi.
  exact (put_obj_inv (m_kern m) f (OFile (set_f_offset 0 x)) (OFile x) Hi Ef I).
Qed.
#[global] Opaque demo_opened demo_fptr demo_machine demo_filled demo_rewound.

Lemma vfs_read_correct_witness :
  exists m', vfs_read demo_fptr demo_buf 10 demo_esp demo_rewound = Ok (IoRet 2 [Some 104; Some 105], m').
Proof.
  destruct (open_is_on _ _ _ demo_rewound_is) as (x & v & y & ino & Ho & Hoff & _).
  destruct (vfs_read_correct demo_rewound demo_fptr x v y ino [Some 104; Some 105] demo_buf 10 demo_esp demo_rewound_inv Ho
    ltac:(discriminate) ltac:(lia)) as (E & _). rewrite Hoff in E. eexists. exact E.
Defined.


(** The access mode of a descriptor is not enforced: a file opened for reading
    only can be written, and one opened for writing only can be read. *)
Definition open_then {A : Type} (mode : Z) (c : Z -> M (machine kheap_state) A) : M (machine kheap_state) A :=
  f ← on_k (vfs_open demo_path (Z.lor mode O_CREAT)); c f.

Theorem access_mode_ignored :
  let m := Machine (KbdState initial_keyboard demo_fork2) (Terminal 0 0 7 ∅) in
  result (IoRet 0 []) (open_then O_RDONLY (fun f => vfs_write f demo_buf [104; 105] demo_esp)) m = IoRet 2 [] /\
  result (IoRet 0 []) (open_then O_WRONLY (fun f => vfs_write f demo_buf [104; 105] demo_esp ;;
    g ← on_k (vfs_open demo_path O_WRONLY); vfs_read g demo_buf 2 demo_esp)) m = IoRet 2 [Some 104; Some 105].
Proof. split; vm_compute; reflexivity. Qed.
