(* ===== verification/Transfers.v ===== *)
(** * Reading and writing on a safe kernel (vfs_read and vfs_write of
      kernel/fs/vfs.c, the device operations of kernel/fs/devfs.c)

    A transfer on an open file that some descriptor table holds ends without
    undefined behaviour, with a result, asleep in the keyboard driver, or by the
    panic of a heap that cannot grow, and keeps the invariant [ksafe]. *)

From Stdlib Require Import ZArith Lia.
From S2P Require Import Prelude Kheap HeapSpec Kstate Fd Fs FsLaws Ramfs Proc ProcInv ProcOps ProcSteps ProcSafety Kinv Dir Typed Path FileSafety Descriptors Tables Tasks.
From S2P Require Import Keyboard Pipe Vga Io.

Section transfers.
Context {H : Type} `{!Heap H} `{!HeapLaws H}.
Implicit Types (m : machine H) (s : kstate H fstate).

(** ** Changes of file objects *)

(** An object of the same shape, with the same number of references. *)
Definition same_refs (o o' : obj) : Prop := match o, o' with OFile x, OFile x' => f_refcount x' = f_refcount x | _, _ => True end.

Lemma balanced_update s A R p o o' : balanced s A R -> objs (k_files s) !! p = Some o -> same_shape o o' -> same_refs o o' -> balanced (put_obj p o' s) A R.
Proof.
  intros [[Hh Ht Hm Hd] Hp Hc] Ho Hs Hr. set (h := k_heap s) in *. set (ms := objs (k_files s)) in *.
  pose proof (update_still s h ms A p o o' Hh Ht Ho Hs) as Hst.
  split; [exact (files_ok_still s ms A _ _ Hm Hd Hst)| |]; simpl; fold ms.
  - intros v x. rewrite lookup_insert. case_decide as Hd'; [|apply Hp]. intros [= ->]. subst v. destruct o; try done. simpl in Hs.
    destruct Hs as (_ & -> & _). by apply (Hp p).
  - intros f Hz Hrf. destruct (Hc f Hz Hrf) as (x & Hx & Ex). rewrite lookup_insert. case_decide as Hd'; [|by exists x]. subst f.
    rewrite Ho in Hx. injection Hx as ->. destruct o'; try done. simpl in Hr. eexists. split; [done|]. congruence.
Qed.

Lemma store_runs s p o o' : ksafe s -> objs (k_files s) !! p = Some o -> same_shape o o' -> same_refs o o' -> obj_ok o' ->
  store p o' s = Ok (tt, put_obj p o' s) /\ ksafe (put_obj p o' s) /\ calm None s (put_obj p o' s).
Proof.
  intros Hs Ho Hsh Hr Hok. assert (E : store p o' s = Ok (tt, put_obj p o' s)) by (unfold store; by rewrite Ho).
  assert (Hc : calm None s (put_obj p o' s)) by (by apply calm_same). split; [done|]. split; [|done].
  destruct (ksafe_parts s Hs) as (L & A & q & _ & Hf). apply (ksafe_counted s _ A); [done|done|by apply (preserves_store p o' Hok s tt (put_obj p o' s)); [apply Hs|]|].
  by apply (balanced_update s A _ p o); [apply Hf|..].
Qed.

(** After a file operation that leaves the open files as they are. *)
Lemma balanced_frame s A R s' (m' : gmap Z obj) : balanced s A R -> still_typed s (objs (k_files s)) A s' m' -> frame (objs (k_files s)) m' -> balanced s' A R.
Proof.
  intros [[Hh Ht Hm Hd] Hp Hc] Hst Hfr. split.
  - exact (files_ok_still s _ A _ _ Hm Hd Hst).
  - destruct Hst as (h' & -> & _). exact (frame_no_pipes _ m' Hfr Hp).
  - destruct Hst as (h' & -> & _). intros f Hz Hr. destruct (Hc f Hz Hr) as (x & Hx & Ex). exists x. split; [by apply Hfr|done].
Qed.

(** A file that some table holds. *)
Definition held s (f : Z) : Prop := f <> 0 /\ (0 < refs (tables s) f)%nat.

Lemma held_calm e s s' f : calm e s s' -> held s f -> held s' f.
Proof. intros Hc Hh. unfold held. by rewrite (tables_ext s s' (cm_table _ _ _ Hc)). Qed.

Lemma held_file s f : ksafe s -> held s f -> exists x y, objs (k_files s) !! f = Some (OFile x) /\ objs (k_files s) !! f_vnode x = Some (OVnode y) /\
  is_pipe_end (v_ops y) = false /\ 0 <= f_offset x /\ 0 <= v_size y /\ f_vnode x <> 0.
Proof.
  intros Hs [Hz Hr]. destruct (ksafe_parts s Hs) as (L & A & q & _ & Hf). pose proof (fds_count _ _ _ Hf) as Hb.
  destruct (balanced_plain s A _ f Hb Hz Hr) as (x & y & Hx & Hy & Hp). pose proof (fo_typed _ _ (bl_files _ _ _ Hb)) as Ht.
  exists x, y. split_and!; try done; [exact (ty_unsigned _ Ht f _ Hx)|exact (ty_unsigned _ Ht _ _ Hy)|by apply (typed_nonzero _ _ _ Ht Hy)].
Qed.

(** ** The machine *)

Record msafe m : Prop := { ms_kern : ksafe (m_kern m); ms_waiter : 0 <= kb_waiter_pid (kbd (m_in m)) }.

Lemma runs_on_k {T} (c : M (kstate H fstate) T) m P : runs c (m_kern m) P -> runs (on_k c) m (fun r m' => exists s, m' = with_kern s m /\ P r s).
Proof.
  intros [(msg & E)|(r & s & E & Hp)]; [left; exists msg; by apply on_k_stop|]. eapply runs_ok; [by apply on_k_ok|]. by exists s.
Qed.

Lemma msafe_kern m s : msafe m -> ksafe s -> msafe (with_kern s m).
Proof. intros [_ Hw] Hs. by split. Qed.

(** The outcome of a read of [len] bytes: no more bytes than were asked for, or
    asleep in the keyboard driver for as many. *)
Definition transferred m (len : Z) (o : io) m' : Prop := msafe m' /\ calm None (m_kern m) (m_kern m') /\
  match o with
  | IoRet _ data => Z.of_nat (length data) <= len
  | IoSleep _ (InKeyboardRead l) => l = len /\ forall i, current_proc (m_kern m) = Some i -> alive (m_kern m') i
  | IoSleep _ _ => False
  end.

Lemma transferred_none m len n data : msafe m -> Z.of_nat (length data) <= len -> transferred m len (IoRet n data) m.
Proof. intros Hm Hl. by split; [|split; [apply calm_refl|]]. Qed.

Lemma load_runs {T U} (view : obj -> option T) m p o y (k : T -> M (machine H) U) Q :
  objs (k_files (m_kern m)) !! p = Some o -> view o = Some y -> runs (k y) m Q -> runs (on_k (load view p) ≫= k) m Q.
Proof.
  intros Hp Hv Hk. eapply (runs_step _ _ _ y m); [|done]. rewrite <- (with_kern_same m) at 2. apply on_k_ok. by apply (load_at view _ p o y).
Qed.

(** ** Reading *)

Lemma drain_waiter n : forall k, kb_waiter_pid (drain n k).2 = kb_waiter_pid k.
Proof.
  induction n as [|n IH]; intros k; [done|]. simpl. destruct (keyboard_has_char k); [|done].
  assert (Hg : kb_waiter_pid (keyboard_getchar k).2 = kb_waiter_pid k) by (unfold keyboard_getchar; by destruct (_ =? _)).
  destruct (keyboard_getchar k) as [c k1]. specialize (IH k1). destruct (drain n k1) as [cs k2]. simpl in *. congruence.
Qed.

Lemma drain_length n : forall k, (length (drain n k).1 <= n)%nat.
Proof.
  induction n as [|n IH]; intros k; [done|]. simpl. destruct (keyboard_has_char k); [|simpl; lia].
  destruct (keyboard_getchar k) as [c k1]. specialize (IH k1). destruct (drain n k1). simpl in *. lia.
Qed.

(** A file gives no more bytes than were asked for. *)
Lemma ramfs_read_length v len offset s r s' : 0 <= len -> ramfs_read v len offset s = Ok (r, s') -> Z.of_nat (length r.2) <= len.
Proof.
  intros Hl E. unfold ramfs_read in E. apply bind_inv in E as (x & s1 & _ & E). destruct (negb _); [by injection E as <- <-|].
  apply bind_inv in E as (ino & s2 & _ & E). destruct (_ <=? _); [by injection E as <- <-|]. apply bind_inv in E as (data & s3 & _ & E).
  destruct (_ <? offset + _); [done|]. injection E as <- <-. cbn [snd]. rewrite length_take.
  destruct (Z.ltb_spec len (v_size x - offset)); lia.
Qed.

Lemma kbd_read_runs len esp (k : kbd_state H fstate) : 0 <= len -> kinv (kern k) -> 0 < esp < 2 ^ 32 -> 0 <= kb_waiter_pid (kbd k) ->
  exists r k', kbd_read len esp k = Ok (r, k') /\ kinv (kern k') /\ quiet None (kern k) (kern k') /\ 0 <= kb_waiter_pid (kbd k') /\
    match r with ReadChars cs => Z.of_nat (length cs) <= len | ReadBlocked _ => forall i, current_proc (kern k) = Some i -> alive (kern k') i end.
Proof.
  intros Hl Hi He Hw. unfold kbd_read. destruct (keyboard_has_char (kbd k)).
  { pose proof (drain_waiter (Z.to_nat len) (kbd k)) as Hd. pose proof (drain_length (Z.to_nat len) (kbd k)) as Hn.
    destruct (drain (Z.to_nat len) (kbd k)) as [cs k1]. simpl in Hd, Hn.
    eexists _, _. split; [done|]. split; [done|]. split; [reflexivity|]. split; [simpl; congruence|lia]. }
  destruct (current_proc (kern k)) as [self|] eqn:Hc; [|eexists _, _; split; [done|]; by split_and!].
  destruct Hi as (L & A & q & Hinv). destruct (block_self_inv (kern k) L A q esp Hinv ltac:(lia)) as (e & s' & q' & E & Hinv').
  pose proof (quietly_block_self esp (kern k) e s' E) as Hq. unfold block_self in E. rewrite Hc in E.
  set (s1 := upd_pcb self (set_p_state PROC_BLOCKED) (kern k)) in *. apply bind_inv in E as ([] & s1' & [= <-] & E). fold s1 in E.
  assert (Ha : alive s' self).
  { pose proof (quietly_bind _ _ (quietly_sched_remove self) (fun _ => quietly_sched_yield esp) s1 e s' E) as [Hq1 _].
    apply (cm_alive _ _ _ Hq1); [done|]. unfold alive, s1. by rewrite state_upd, decide_True by done. }
  apply bind_inv in E as ([] & s2 & E2 & E3).
  eexists (ReadBlocked e), (KbdState (keyboard_set_waiter (u16 (p_pid (pcb_at s2 self))) (kbd k)) s').
  split; [|split; [by exists L, A, q'|split; [done|split; [simpl; apply u16_range|by intros i [= <-]]]]].
  destruct k as [kb kn]. unfold mbind, M_bind, on_kern, zoom, modify, gets, mret, M_ret. cbn [kern kbd set_kern set_kbd] in *. fold s1. rewrite E2.
  cbn [kern kbd set_kern set_kbd]. by rewrite E3.
Qed.

(** The position of the file moves. *)
Lemma read_done_runs m f o : msafe m -> held (m_kern m) f ->
  runs (read_done f o) m (fun o' m' => o' = o /\ msafe m' /\ calm None (m_kern m) (m_kern m')).
Proof.
  intros Hm Hf. destruct (held_file _ f (ms_kern _ Hm) Hf) as (x & y & Hx & Hy & _ & Hoff & _).
  unfold read_done. destruct o as [n data|e b]; [|by eapply runs_ok; [|split; [|split; [|apply calm_refl]]]].
  destruct (0 <? n); [|by eapply runs_ok; [|split; [|split; [|apply calm_refl]]]].
  set (o' := OFile (set_f_offset (f_offset x +w n) x)).
  destruct (store_runs (m_kern m) f (OFile x) o' (ms_kern _ Hm) Hx) as (E & Hs & Hc); [split; [done|intros _; apply u32_range]|done|done|].
  eapply (runs_step _ _ _ tt (with_kern (put_obj f o' (m_kern m)) m)).
  { apply on_k_ok. rewrite (bind_ok _ _ _ _ _ (load_at as_file (m_kern m) f _ x Hx eq_refl)). exact E. }
  eapply runs_ok; [done|]. split; [done|]. split; [by apply msafe_kern|done].
Qed.

(** The end of a read that came back from the operations table. *)
Lemma read_end_runs m len m1 f o : transferred m len o m1 -> held (m_kern m) f ->
  runs (read_done f o) m1 (fun o' m' => transferred m len o' m').
Proof.
  intros (Hm1 & Hc1 & Ho) Hf. destruct o as [n data|e b]; [|eapply runs_ok; [done|]; by split].
  eapply runs_weaken; [apply (read_done_runs m1 f (IoRet n data) Hm1); by apply (held_calm None (m_kern m))|].
  intros o' m' (-> & Hm' & Hc'). split; [done|]. split; [by transitivity (m_kern m1)|done].
Qed.

Lemma kbd_transfer m len esp : 0 <= len -> msafe m -> 0 < esp < 2 ^ 32 ->
  exists r m', on_in (kbd_read len esp) m = Ok (r, m') /\ transferred m len (kbd_read_out len r) m'.
Proof.
  intros Hl [Hs Hw] He. destruct (kbd_read_runs len esp (m_in m) Hl (ks_inv _ Hs) He Hw) as (r & k & E & Hi & Hq & Hw' & Ha).
  exists r, (set_in k m). split; [unfold on_in, zoom; by rewrite E|]. split; [|split; [apply Hq|destruct r; [simpl; by rewrite length_fmap|done]]].
  split; [|done]. by apply (ksafe_quiet None (m_kern m)).
Qed.

Lemma vfs_read_runs m f buf len esp : 0 <= len -> msafe m -> held (m_kern m) f -> 0 < esp < 2 ^ 32 ->
  runs (vfs_read f buf len esp) m (fun o m' => transferred m len o m').
Proof.
  intros Hl Hm Hf He. destruct (held_file _ f (ms_kern _ Hm) Hf) as (x & y & Hx & Hy & Hp & Hoff & _ & Hvz).
  pose proof (transferred_none m len (-1) [] Hm Hl) as Hnone. unfold vfs_read. rewrite (proj2 (Z.eqb_neq f 0)) by apply Hf.
  apply (load_runs as_file m f (OFile x) x); [done|done|]. destruct (_ || _); [by eapply runs_ok|].
  unfold ops_read. set (k := fun r : option io => _). eapply (runs_bind _ _ _ (fun r m1 => match r with None => m1 = m | Some o => transferred m len o m1 end)).
  - apply (load_runs as_vnode m (f_vnode x) (OVnode y) y); [done|done|]. destruct (v_ops y) eqn:Eo; try done; try (by eapply runs_ok).
    + destruct (ksafe_parts _ (ms_kern _ Hm)) as (L & A & q & _ & Hfd). pose proof (fo_typed _ _ (bl_files _ _ _ (fds_count _ _ _ Hfd))) as Ht.
      destruct (ramfs_read_typed (m_kern m) (k_heap (m_kern m)) _ (f_vnode x) len (f_offset x) y Ht Hy Eo Hoff) as [r E]. rewrite <- st_self in E.
      eapply runs_step; [by apply on_k_ok|]. rewrite with_kern_same. eapply runs_ok; [done|].
      apply transferred_none; [done|]. by apply (ramfs_read_length _ _ _ _ _ _ Hl E).
    + destruct (kbd_transfer m len esp Hl Hm He) as (r & m1 & E & Ht). eapply runs_step; [exact E|]. by eapply runs_ok.
  - intros [o|] m1 H1; unfold k; [by apply (read_end_runs m len)|]. subst m1. by eapply runs_ok.
Qed.

Lemma vfs_read_resume_runs m f esp len : 0 <= len -> msafe m -> held (m_kern m) f -> 0 < esp < 2 ^ 32 ->
  runs (vfs_read_resume f esp (InKeyboardRead len)) m (fun o m' => transferred m len o m').
Proof.
  intros Hl Hm Hf He. destruct (kbd_transfer m len esp Hl Hm He) as (r & m1 & E & Ht). eapply runs_step; [exact E|]. by apply (read_end_runs m len).
Qed.

(** ** Writing *)

(** The bytes end below 2 GiB, where the growth of a file stops to terminate. *)
Definition write_fits s (f n : Z) : Prop := forall x y, objs (k_files s) !! f = Some (OFile x) -> objs (k_files s) !! f_vnode x = Some (OVnode y) ->
  v_ops y = ramfs_ops -> (if appends x then v_size y else f_offset x) + n < 2 ^ 31.

(** The position moves; a device gets a size, the size of a file is right. *)
Lemma write_done_runs m f x y n data : msafe m -> f <> 0 -> objs (k_files (m_kern m)) !! f = Some (OFile x) ->
  objs (k_files (m_kern m)) !! f_vnode x = Some (OVnode y) -> v_ops y <> ramfs_ops \/ (0 < n -> f_offset x +w n <= v_size y) ->
  runs (write_done f (IoRet n data)) m (fun o m' => o = IoRet n data /\ msafe m' /\ calm None (m_kern m) (m_kern m')).
Proof.
  intros Hm Hz Hx Hy Hsize. unfold write_done. destruct (Z.ltb_spec 0 n) as [Hn|]; [|by eapply runs_ok; [|split; [|split; [|apply calm_refl]]]].
  set (o1 := OFile (set_f_offset (f_offset x +w n) x)).
  destruct (store_runs (m_kern m) f (OFile x) o1 (ms_kern _ Hm) Hx) as (E1 & Hs1 & Hc1); [split; [done|intros _; apply u32_range]|done|done|].
  set (s1 := put_obj f o1 (m_kern m)) in *. assert (Hy1 : objs (k_files s1) !! f_vnode x = Some (OVnode y)) by (simpl; rewrite lookup_insert_ne by congruence; done).
  assert (E2 : exists s2, (if v_size y <? f_offset x +w n then store (f_vnode x) (OVnode (set_v_size (f_offset x +w n) y)) else mret tt) s1 = Ok (tt, s2) /\
    ksafe s2 /\ calm None s1 s2).
  { destruct (Z.ltb_spec (v_size y) (f_offset x +w n)); [|exists s1; split; [done|split; [done|apply calm_refl]]].
    eexists. apply (store_runs s1 (f_vnode x) (OVnode y)); [done|done| |done|done]. split; [done|]. split; [done|]. split; [done|]. right.
    split; [by destruct Hsize as [?|Hle]; [|specialize (Hle Hn); lia]|apply u32_range]. }
  destruct E2 as (s2 & E2 & Hs2 & Hc2). eapply (runs_step _ _ _ tt (with_kern s2 m)).
  { apply on_k_ok. rewrite (bind_ok _ _ _ _ _ (load_at as_file (m_kern m) f _ x Hx eq_refl)), (bind_ok _ _ _ _ _ E1).
    rewrite (bind_ok _ _ _ _ _ (load_at as_vnode s1 _ _ y Hy1 eq_refl)). exact E2. }
  eapply runs_ok; [done|]. split; [done|]. split; [by apply msafe_kern|by transitivity s1].
Qed.

(** A write never sleeps, as there is no pipe. *)
Definition wrote m (o : io) m' : Prop := (exists n, o = IoRet n []) /\ msafe m' /\ calm None (m_kern m) (m_kern m').

Lemma wrote_trans m m1 o m' : calm None (m_kern m) (m_kern m1) -> wrote m1 o m' -> wrote m o m'.
Proof. intros Hc (H1 & H2 & H3). split; [done|]. split; [done|by transitivity (m_kern m1)]. Qed.

(** Bytes written to a regular file. *)
Lemma write_regular_runs m f x y src esp : msafe m -> f <> 0 -> objs (k_files (m_kern m)) !! f = Some (OFile x) ->
  objs (k_files (m_kern m)) !! f_vnode x = Some (OVnode y) -> v_ops y = ramfs_ops -> src <> [] -> 0 <= f_offset x ->
  f_offset x + Z.of_nat (length src) < 2 ^ 31 ->
  runs (r ← ops_write (f_vnode x) y src (f_offset x) esp; write_done f r) m (fun o m' => wrote m o m').
Proof.
  intros Hm Hz Hx Hy Ho Hne Hoff Hfit. destruct (ksafe_parts _ (ms_kern _ Hm)) as (L & A & q & _ & Hfd). pose proof (fds_count _ _ _ Hfd) as Hb.
  destruct (bl_files _ _ _ Hb) as [Hh Ht _ _]. set (s := m_kern m) in *. unfold ops_write. rewrite Ho.
  pose proof (ramfs_write_typed s (k_heap s) _ A (f_vnode x) y (Some <$> src) (f_offset x) Hh Ht Hy Ho ltac:(by destruct src) Hoff ltac:(by rewrite length_fmap)) as Hrun.
  rewrite <- st_self in Hrun.
  eapply (runs_bind _ _ _ (fun o m1 => exists n s1, o = IoRet n [] /\ m1 = with_kern s1 m /\ ksafe s1 /\ calm None s s1 /\
    objs (k_files s1) !! f = Some (OFile x) /\ exists y1, objs (k_files s1) !! f_vnode x = Some (OVnode y1) /\ (0 < n -> f_offset x + n <= v_size y1))).
  - eapply runs_bind; [apply runs_on_k, runs_eq, Hrun|]. intros n m1 (s1 & -> & E & m' & Hst & Hfr & Hsize). eapply runs_ok; [done|].
    pose proof (keeps_calm true _ s A n s1 (keeps_ramfs_write true _ _ _) Hh E) as Hc. exists n, s1. split; [done|]. split; [done|].
    split; [|split; [done|]].
    + apply (ksafe_counted s s1 A); [apply Hm|done| |by apply (balanced_frame s A _ s1 m')].
      exact (preserves_keeps true _ (keeps_ramfs_write true _ _ _) s n s1 (ks_inv _ (ms_kern _ Hm)) E).
    + destruct Hst as (h' & -> & _). change (objs (k_files (st s h' m'))) with m'. split; [by apply Hfr|].
      destruct (proj1 (proj2 Hfr) _ _ Hy) as (y1 & Hy1 & _). exists y1. split; [done|]. intros Hn. destruct (Hsize Hn) as (y2 & Hy2 & Hle). congruence.
  - intros o m1 (n & s1 & -> & -> & Hs1 & Hc1 & Hx1 & y1 & Hy1 & Hsize).
    eapply runs_weaken; [apply (write_done_runs (with_kern s1 m) f x y1 n []); [by apply msafe_kern|done|done|done|]|].
    + right. intros Hn. specialize (Hsize Hn). etrans; [|exact Hsize]. unfold u32. apply Z.mod_le; lia.
    + intros o m' (-> & Hm' & Hc'). apply (wrote_trans m (with_kern s1 m)); [done|]. split; [by exists n|done].
Qed.

(** Bytes written to a device. *)
Lemma write_device_runs m f x y src esp : msafe m -> f <> 0 -> objs (k_files (m_kern m)) !! f = Some (OFile x) ->
  objs (k_files (m_kern m)) !! f_vnode x = Some (OVnode y) -> v_ops y <> ramfs_ops -> is_pipe_end (v_ops y) = false ->
  runs (r ← ops_write (f_vnode x) y src (f_offset x) esp; write_done f r) m (fun o m' => wrote m o m').
Proof.
  intros Hm Hz Hx Hy Ho Hp. eapply (runs_bind _ _ _ (fun o m1 => exists n, o = IoRet n [] /\ msafe m1 /\ m_kern m1 = m_kern m)).
  - unfold ops_write. destruct (v_ops y); try done; (eapply runs_ok; [reflexivity|]; eexists; split; [done|]; split; [|done]); try done; split; try apply Hm.
    + simpl. pose proof (ms_waiter _ Hm) as Hw. revert Hw. generalize (kbd (m_in m)). induction src as [|c src IH]; intros kb Hw; [done|]. simpl. by apply IH.
  - intros o m1 (n & -> & Hm1 & Ek). eapply runs_weaken; [apply (write_done_runs m1 f x y n []); rewrite ?Ek; auto|].
    intros o m' (-> & Hm' & Hc'). rewrite Ek in Hc'. split; [by exists n|done].
Qed.

Lemma vfs_write_runs m f buf src esp : msafe m -> held (m_kern m) f -> write_fits (m_kern m) f (Z.of_nat (length src)) ->
  runs (vfs_write f buf src esp) m (fun o m' => wrote m o m').
Proof.
  intros Hm Hf Hfit. destruct (held_file _ f (ms_kern _ Hm) Hf) as (x & y & Hx & Hy & Hp & Hoff & Hsz & Hvz). pose proof (proj1 Hf) as Hz.
  assert (Hnone : wrote m (IoRet (-1) []) m) by (split; [by exists (-1)|by split; [|apply calm_refl]]). unfold vfs_write. rewrite (proj2 (Z.eqb_neq f 0)) by done.
  apply (load_runs as_file m f (OFile x) x); [done|done|].
  destruct (Z.eqb_spec (Z.of_nat (length src)) 0) as [|Hlen]; [rewrite orb_true_r; by eapply runs_ok|]. destruct (_ || _); [by eapply runs_ok|].
  assert (Hne : src <> []) by (by intros ->). apply (load_runs as_vnode m _ (OVnode y) y); [done|done|]. destruct (negb _); [by eapply runs_ok|].
  set (pos := if appends x then v_size y else f_offset x). set (x1 := set_f_offset pos x).
  assert (Happ : exists s1, (if truthy (Z.land (f_flags x) O_APPEND) then on_k (store f (OFile (set_f_offset (v_size y) x))) else mret tt) m = Ok (tt, with_kern s1 m) /\
    ksafe s1 /\ calm None (m_kern m) s1 /\ objs (k_files s1) !! f = Some (OFile x1) /\ objs (k_files s1) !! f_vnode x1 = Some (OVnode y)).
  { unfold x1, pos, appends. destruct (truthy _).
    - destruct (store_runs (m_kern m) f (OFile x) (OFile (set_f_offset (v_size y) x)) (ms_kern _ Hm) Hx) as (E & Hs1 & Hc1); [by split|done|done|].
      eexists. split; [by apply on_k_ok|]. split; [done|]. split; [done|]. simpl. split; [apply lookup_insert_eq|]. rewrite lookup_insert_ne by congruence. done.
    - exists (m_kern m). rewrite with_kern_same. split; [done|]. split; [apply Hm|]. split; [apply calm_refl|]. by destruct x. }
  destruct Happ as (s1 & E1 & Hs1 & Hc1 & Hx1 & Hy1). eapply runs_step; [exact E1|].
  apply (load_runs as_file _ f (OFile x1) x1); [done|done|]. set (m1 := with_kern s1 m). assert (Hm1 : msafe m1) by (by apply msafe_kern).
  change (f_vnode x) with (f_vnode x1).
  assert (Hpos : 0 <= f_offset x1) by (unfold x1, pos; simpl; by destruct (appends x)).
  eapply runs_weaken; [|intros o m'; by apply (wrote_trans m m1)]. destruct (decide (v_ops y = ramfs_ops)) as [Ho|Ho].
  - apply write_regular_runs; try done. by apply (Hfit x y Hx Hy Ho).
  - by apply write_device_runs.
Qed.
End transfers.
