(* ===== verification/Ops.v ===== *)
(** * Operations tables (struct vfs_ops of include/vfs.h, the tables of
      kernel/fs/ramfs.c, kernel/fs/pipe.c and kernel/fs/devfs.c)

    A vnode points to a table of functions, null where a file system has none.
    In the object store a vnode carries the name of its table; [ops_of] gives the
    table of that name. The calls [v->ops->f(v, ...)] of the layers above select
    by the name; [dispatch_correct] says that each of them calls the function
    that the table holds, and takes the path of the null test where it holds
    none. *)

From Stdlib Require Import ZArith Lia.
From S2P Require Import Prelude Kheap HeapSpec Kstate Fd Fs FsLaws Ramfs Proc ProcInv ProcOps ProcSteps ProcSafety Kinv Keyboard Pipe Vga Io.

Section ops.
Context {H : Type} `{!Heap H}.
Local Abbreviation K := (kstate H fstate).
Local Abbreviation D := (@machine H).

Record vfs_ops := VfsOps {
  o_open : option (Z -> Z -> M K Z);
  o_close : option (Z -> M K Z);
  o_read : option (Z -> Z -> Z -> Z -> M D io);
  o_write : option (Z -> list Z -> Z -> Z -> M D io);
  o_lookup : option (Z -> list Z -> M K (option Z));
  o_create : option (Z -> list Z -> Z -> M K (option Z));
  o_mkdir : option (Z -> list Z -> M K (option Z));
  o_unlink : option (Z -> list Z -> M K Z);
  o_readdir : option (Z -> Z -> M K (option (list Z * Z)))
}.

(** ** The functions the other files do not have *)

Definition ramfs_close (v : Z) : M K Z := mret 0.
Definition pipe_open_noop (v flags : Z) : M K Z := mret 0.

(** The transfers with the outcome of [vfs_read] and [vfs_write]. *)
Definition ramfs_read_io (v len offset esp : Z) : M D io :=
  r ← on_k (ramfs_read v len offset); mret (IoRet r.1 r.2).
Definition ramfs_write_io (v : Z) (src : list Z) (offset esp : Z) : M D io :=
  n ← on_k (ramfs_write v (Some <$> src) offset); mret (IoRet n []).
Definition pipe_read_io (v len offset esp : Z) : M D io :=
  x ← on_k (load as_vnode v);
  e ← on_k (load as_end (v_data x));
  r ← on_k (pipe_read_loop PIPE_FUEL (e_pipe e) len esp []);
  mret (pipe_read_out (e_pipe e) len r).
Definition pipe_write_io (v : Z) (src : list Z) (offset esp : Z) : M D io :=
  x ← on_k (load as_vnode v);
  e ← on_k (load as_end (v_data x));
  r ← on_k (pipe_write_loop PIPE_FUEL (e_pipe e) esp false src []);
  mret (pipe_write_out (e_pipe e) src r).
Definition kbd_read_io (v len offset esp : Z) : M D io :=
  r ← on_in (kbd_read len esp); mret (kbd_read_out len r).
Definition vga_write_io (v : Z) (src : list Z) (offset esp : Z) : M D io :=
  n ← vga_write_op src; mret (IoRet n []).
Definition serial_write_io (v : Z) (src : list Z) (offset esp : Z) : M D io :=
  n ← serial_write_op src; mret (IoRet n []).

(** ** The tables *)

Definition ramfs_ops_table : vfs_ops := {|
  o_open := Some ramfs_open;
  o_close := Some ramfs_close;
  o_read := Some ramfs_read_io;
  o_write := Some ramfs_write_io;
  o_lookup := Some ramfs_lookup;
  o_create := Some ramfs_create;
  o_mkdir := Some ramfs_mkdir_op;
  o_unlink := Some ramfs_unlink;
  o_readdir := Some ramfs_readdir
|}.

Definition pipe_read_ops_table : vfs_ops := {|
  o_open := Some pipe_open_noop;
  o_close := Some pipe_close_read;
  o_read := Some pipe_read_io;
  o_write := None;
  o_lookup := None;
  o_create := None;
  o_mkdir := None;
  o_unlink := None;
  o_readdir := None
|}.

Definition pipe_write_ops_table : vfs_ops := {|
  o_open := Some pipe_open_noop;
  o_close := Some pipe_close_write;
  o_read := None;
  o_write := Some pipe_write_io;
  o_lookup := None;
  o_create := None;
  o_mkdir := None;
  o_unlink := None;
  o_readdir := None
|}.

(** Entries that an initialiser does not name are null. *)
Definition stdin_ops_table : vfs_ops := VfsOps None None (Some kbd_read_io) None None None None None None.
Definition stdout_ops_table : vfs_ops := VfsOps None None None (Some vga_write_io) None None None None None.
Definition stderr_ops_table : vfs_ops := VfsOps None None None (Some serial_write_io) None None None None None.

Definition ops_of (o : vops) : vfs_ops :=
  match o with
  | ramfs_ops => ramfs_ops_table
  | pipe_read_ops => pipe_read_ops_table
  | pipe_write_ops => pipe_write_ops_table
  | stdin_ops => stdin_ops_table
  | stdout_ops => stdout_ops_table
  | stderr_ops => stderr_ops_table
  end.

(** ** Calls through the tables *)

(** [v->ops->f] is read; [call] when it is not null, [null] otherwise. *)
Definition through {S A B : Type} (get : M S vnode) (entry : vfs_ops -> option A) (call : A -> M S B) (null : M S B) : M S B :=
  x ← get;
  match entry (ops_of (v_ops x)) with
  | Some f => call f
  | None => null
  end.

Lemma load_state {T} (view : obj -> option T) p (s s' : K) x : load view p s = Ok (x, s') -> s' = s.
Proof. unfold load. destruct (_ ≫= _); [|done]. by intros [= _ <-]. Qed.

Lemma on_k_load {T} (view : obj -> option T) p (s s' : D) x : on_k (load view p) s = Ok (x, s') -> s' = s.
Proof.
  destruct s as [[kb k] t]. unfold on_k, on_in, on_kern, zoom. simpl. destruct (load view p k) as [[y k']|] eqn:E; [|done].
  apply load_state in E as ->. by intros [= _ <-].
Qed.

(** A vnode that was just loaded is loaded again. *)
Lemma load_again {A} (v : Z) (s : D) x (k : vnode -> M D A) : on_k (load as_vnode v) s = Ok (x, s) -> (on_k (load as_vnode v) ≫= k) s = k x s.
Proof. intros E. by rewrite (bind_ok _ _ _ _ _ E). Qed.

(** Selecting by the name of the table is calling through the table. *)
Theorem dispatch_correct :
  (forall v flags s, ops_open v flags s = through (load as_vnode v) o_open (fun f => f v flags) (mret 0) s) /\
  (forall v s, ops_close v s = through (load as_vnode v) o_close (fun f => f v) (mret 0) s) /\
  (forall v name s, ops_lookup v name s = through (load as_vnode v) o_lookup (fun f => f v name) (mret None) s) /\
  (forall v name type s, ops_create v name type s = through (load as_vnode v) o_create (fun f => f v name type) (mret None) s) /\
  (forall v name s, ops_mkdir v name s = through (load as_vnode v) o_mkdir (fun f => f v name) (mret None) s) /\
  (forall v len offset esp s, ops_read v len offset esp s =
     through (on_k (load as_vnode v)) o_read (fun f => r ← f v len offset esp; mret (Some r)) (mret None) s) /\
  (forall v x src offset esp s, on_k (load as_vnode v) s = Ok (x, s) ->
     (if has_write (v_ops x) then ops_write v x src offset esp else mret (IoRet (-1) [])) s =
     through (on_k (load as_vnode v)) o_write (fun f => f v src offset esp) (mret (IoRet (-1) [])) s).
Proof.
  assert (Hb : forall {S A B} (c : M S A) (k1 k2 : A -> M S B) s, (forall x s', c s = Ok (x, s') -> k1 x s' = k2 x s') -> (c ≫= k1) s = (c ≫= k2) s).
  { intros S A B c k1 k2 s Hk. unfold mbind, M_bind. destruct (c s) as [[x s']|f] eqn:E; [by apply Hk|done]. }
  assert (Hassoc : forall {S A B C} (c : M S A) (k1 : A -> M S B) (k2 : B -> M S C) s, ((c ≫= k1) ≫= k2) s = (c ≫= (fun x => k1 x ≫= k2)) s).
  { intros S A B C c k1 k2 s. unfold mbind, M_bind. by destruct (c s) as [[x s']|]. }
  split_and!; intros; unfold through.
  1-5: apply Hb; intros x s' _; by destruct (v_ops x).
  - apply Hb. intros x s' E. pose proof (on_k_load _ _ _ _ _ E) as ->. destruct (v_ops x); try done; simpl.
    + unfold ramfs_read_io. by rewrite Hassoc.
    + unfold pipe_read_io. rewrite Hassoc, (load_again v s x _ E), Hassoc. apply Hb. intros e s' _. by rewrite Hassoc.
    + unfold kbd_read_io. by rewrite Hassoc.
  - rewrite (load_again v s x _ H0). unfold ops_write. destruct (v_ops x); try done; simpl. unfold pipe_write_io. by rewrite (load_again v s x _ H0).
Qed.
End ops.
