(* ===== verification/Irq.v ===== *)
(** * Hardware interrupts (kernel/arch/x86/irq.c, irq.asm; timer_init of
      kernel/drivers/timer.c, keyboard_init of kernel/drivers/keyboard.c)

    The interrupt controllers and the timer chip are programmed through the
    ports of Serial.v; [pic] and [pit] are the state machines of the 8259 and of
    channel 0 of the 8254 that run over the port history, from their data
    sheets. [irq_entry] is the path of a hardware interrupt: the stub of irq.asm
    calls [irq_handler] on the saved frame and then [sched_switch_esp]. *)

From Stdlib Require Import ZArith Lia.
From S2P Require Import Prelude Libk Serial Kheap HeapSpec Kstate Fd Fs FsLaws Ramfs Proc ProcInv ProcOps ProcSteps ProcSafety Kinv Dir Typed Path FileSafety Descriptors Tables Keyboard Pipe Vga Io.

(** The functions that are ever installed as handlers. *)
Inductive irq_fn : Type := fn_timer | fn_keyboard.

Definition PIT_CHANNEL0 : Z := 0x40.
Definition PIT_CMD : Z := 0x43.
Definition PIT_BASE_FREQ : Z := 1193182.

Section irq.
Variable hw : list access -> Z -> Z.
Context {H : Type} `{!Heap H}.

(** The port history, the handler table and the rest of the machine. *)
Record irqs := IrqState { ports : list access; irq_handlers : list (option irq_fn); mach : machine H }.
Definition set_ports v s := IrqState v (irq_handlers s) (mach s).
Definition set_handlers v s := IrqState (ports s) v (mach s).
Definition set_mach v s := IrqState (ports s) (irq_handlers s) v.
Local Abbreviation M A := (M irqs A).
Definition on_ports {A : Type} (c : Prelude.M (list access) A) : M A := zoom ports set_ports c.
Definition on_mach {A : Type} (c : Prelude.M (machine H) A) : M A := zoom mach set_mach c.

Definition irq_install_handler (irq : Z) (handler : irq_fn) : M unit :=
  if (irq <? 0) || (15 <? irq) then mret tt else
  modify (fun s => set_handlers (<[Z.to_nat irq := Some handler]> (irq_handlers s)) s).

Definition irq_uninstall_handler (irq : Z) : M unit :=
  if (irq <? 0) || (15 <? irq) then mret tt else
  modify (fun s => set_handlers (<[Z.to_nat irq := None]> (irq_handlers s)) s).

Definition PIC_remap : Prelude.M (list access) unit :=
  master_mask ← inb hw 0x21;
  slave_mask ← inb hw 0xA1;
  outb 0x20 0x11 ;;
  outb 0xA0 0x11 ;;
  outb 0x21 0x20 ;;
  outb 0xA1 0x28 ;;
  outb 0x21 0x04 ;;
  outb 0xA1 0x02 ;;
  outb 0x21 0x01 ;;
  outb 0xA1 0x01 ;;
  outb 0x21 master_mask ;;
  outb 0xA1 slave_mask.

Definition pic_eoi (irq : Z) : Prelude.M (list access) unit :=
  (if 8 <=? irq then outb 0xA0 0x20 else mret tt) ;;
  outb 0x20 0x20.

Definition IRQ_init : M unit := on_ports PIC_remap.

(** [handler(r)]; the keyboard handler starts by reading the scan code. *)
Definition run_handler (f : irq_fn) : M unit :=
  match f with
  | fn_timer => on_mach (on_k timer_handler)
  | fn_keyboard => scancode ← on_ports (inb hw 0x60); on_mach (on_in (keyboard_handler scancode))
  end.

Definition irq_handler (int_no : Z) : M unit :=
  let irq := u8 (int_no - 32) in
  if irq <? 16 then
    table ← gets irq_handlers;
    match table !! Z.to_nat irq with
    | Some (Some handler) => run_handler handler
    | _ => mret tt
    end ;;
    on_ports (pic_eoi irq)
  else mret tt.

(** The common stub of irq.asm; [esp] is the address of the saved frame. The
    result is the stack to go on with, 0 for the same one. *)
Definition irq_entry (int_no esp : Z) : M Z :=
  irq_handler int_no ;; on_mach (on_k (sched_switch_esp esp)).

Definition timer_divisor (hz : Z) : Z :=
  let divisor := PIT_BASE_FREQ / hz in
  let divisor := if divisor =? 0 then 1 else divisor in
  if 0xFFFF <? divisor then 0xFFFF else divisor.

Definition timer_init (hz : Z) : M unit :=
  if hz =? 0 then stop (Undefined "division by zero") else
  let divisor := timer_divisor hz in
  on_ports (outb PIT_CMD 0x36 ;;
            outb PIT_CHANNEL0 (u8 (Z.land divisor 0xFF)) ;;
            outb PIT_CHANNEL0 (u8 (Z.land (Z.shiftr divisor 8) 0xFF))) ;;
  irq_install_handler 0 fn_timer.

Definition keyboard_init : M unit := irq_install_handler 1 fn_keyboard.

End irq.
Arguments irqs : clear implicits.

(** ** The 8259 and the 8254 *)

(** [pc_next] is the initialisation word the data port expects (0 when the
    controller is set up and the port is the interrupt mask); [pc_isr] the set
    of interrupts in service, bit 0 with the highest priority. *)
Record pic := Pic {
  pc_next : Z;
  pc_single : bool;
  pc_icw4 : bool;
  pc_vector : Z;
  pc_cascade : Z;
  pc_mode : Z;
  pc_imr : Z;
  pc_isr : Z
}.

Definition eoi (p : pic) : pic :=
  Pic (pc_next p) (pc_single p) (pc_icw4 p) (pc_vector p) (pc_cascade p) (pc_mode p) (pc_imr p) (Z.land (pc_isr p) (pc_isr p - 1)).

Definition pic_command (p : pic) (v : Z) : pic :=
  if Z.testbit v 4 then Pic 2 (Z.testbit v 1) (Z.testbit v 0) (pc_vector p) (pc_cascade p) (pc_mode p) 0 0
  else if v =? 0x20 then eoi p else p.

Definition pic_data (p : pic) (v : Z) : pic :=
  let last := if pc_icw4 p then 4 else 0 in
  if pc_next p =? 2 then
    Pic (if pc_single p then last else 3) (pc_single p) (pc_icw4 p) (Z.land v 0xF8) (pc_cascade p) (pc_mode p) (pc_imr p) (pc_isr p)
  else if pc_next p =? 3 then
    Pic last (pc_single p) (pc_icw4 p) (pc_vector p) v (pc_mode p) (pc_imr p) (pc_isr p)
  else if pc_next p =? 4 then
    Pic 0 (pc_single p) (pc_icw4 p) (pc_vector p) (pc_cascade p) v (pc_imr p) (pc_isr p)
  else Pic (pc_next p) (pc_single p) (pc_icw4 p) (pc_vector p) (pc_cascade p) (pc_mode p) v (pc_isr p).

(** The controller whose ports are [base] and [base + 1]. *)
Definition pic_step (base : Z) (p : pic) (a : access) : pic :=
  match a with
  | In _ _ => p
  | Out port v => if port =? base then pic_command p v else if port =? base + 1 then pic_data p v else p
  end.
Definition master_after (m : pic) (h : list access) : pic := run_device (pic_step 0x20) m h.
Definition slave_after (sl : pic) (h : list access) : pic := run_device (pic_step 0xA0) sl h.

(** The vector at which line [n] of the pair interrupts the processor. *)
Definition irq_vector (m sl : pic) (n : Z) : Z := if n <? 8 then pc_vector m + n else pc_vector sl + (n - 8).

(** Channel 0 of the timer: its mode, the reload value (0 stands for 65536)
    and, when it waits for the second byte, the first. *)
Record pit := Pit { pt_access : Z; pt_mode : Z; pt_bcd : bool; pt_low : option Z; pt_reload : Z }.

Definition pit_step (t : pit) (a : access) : pit :=
  match a with
  | Out port v =>
      if port =? PIT_CMD then
        if v / 64 =? 0 then Pit (v / 16 mod 4) (v / 2 mod 8) (Z.testbit v 0) None (pt_reload t) else t
      else if (port =? PIT_CHANNEL0) && (pt_access t =? 3) then
        match pt_low t with
        | None => Pit 3 (pt_mode t) (pt_bcd t) (Some v) (pt_reload t)
        | Some low => Pit 3 (pt_mode t) (pt_bcd t) None (low + 256 * v)
        end
      else t
  | In _ _ => t
  end.

(** ** Setting the controllers up *)

Section remap.
Variable hw : list access -> Z -> Z.
Variables m sl : pic.
(** Reading the data port of a controller that is set up gives its mask. *)
Hypothesis Hmaster : forall h, pc_next (master_after m h) = 0 -> hw h 0x21 = pc_imr (master_after m h).
Hypothesis Hslave : forall h, pc_next (slave_after sl h) = 0 -> hw h 0xA1 = pc_imr (slave_after sl h).

(** After [PIC_remap] both controllers are set up in 8086 mode, the slave
    hangs on line 2 of the master, the sixteen interrupt lines arrive at the
    vectors 32 to 47 (clear of the processor's exceptions, and the ones whose
    gates [idt_init] fills), and the masks are the ones found. *)
Theorem PIC_remap_correct h :
  pc_next (master_after m h) = 0 -> pc_next (slave_after sl h) = 0 ->
  0 <= pc_imr (master_after m h) < 256 -> 0 <= pc_imr (slave_after sl h) < 256 ->
  exists t, PIC_remap hw h = Ok (tt, h ++ t) /\
    pc_next (master_after m (h ++ t)) = 0 /\ pc_next (slave_after sl (h ++ t)) = 0 /\
    (forall n, 0 <= n < 16 -> irq_vector (master_after m (h ++ t)) (slave_after sl (h ++ t)) n = 32 + n) /\
    Z.testbit (pc_cascade (master_after m (h ++ t))) (pc_cascade (slave_after sl (h ++ t))) = true /\
    pc_mode (master_after m (h ++ t)) = 1 /\ pc_mode (slave_after sl (h ++ t)) = 1 /\
    pc_imr (master_after m (h ++ t)) = pc_imr (master_after m h) /\ pc_imr (slave_after sl (h ++ t)) = pc_imr (slave_after sl h).
Proof.
  intros Hm Hs Rm Rs. set (a := pc_imr (master_after m h)) in *. set (b := pc_imr (slave_after sl h)) in *.
  assert (Ea : hw h 0x21 = a) by (by apply Hmaster).
  assert (Eb : hw (h ++ [In 0x21 a]) 0xA1 = b).
  { rewrite Hslave; unfold slave_after in *; rewrite run_device_app; done. }
  assert (Ua : u8 a = a) by (apply Z.mod_small; lia). assert (Ub : u8 b = b) by (apply Z.mod_small; lia).
  exists [In 0x21 a; In 0xA1 b; Out 0x20 0x11; Out 0xA0 0x11; Out 0x21 0x20; Out 0xA1 0x28; Out 0x21 0x04; Out 0xA1 0x02;
          Out 0x21 0x01; Out 0xA1 0x01; Out 0x21 a; Out 0xA1 b].
  split.
  { unfold PIC_remap, inb, outb. munfold. change (u16 0x21) with 0x21. change (u16 0xA1) with 0xA1.
    rewrite Ea, Ua, Eb, Ub, Ua, Ub, <- !app_assoc. reflexivity. }
  unfold master_after, slave_after in *. rewrite !run_device_app.
  destruct (run_device (pic_step 0x20) m h) as [mn ms mi mv mc mm mr mz]. destruct (run_device (pic_step 0xA0) sl h) as [sn ss si sv sc sm sr sz].
  simpl in Hm, Hs. subst. split_and!; try done.
  intros n Hn. unfold irq_vector. destruct (Z.ltb_spec n 8).
  - change (pc_vector _) with 0x20. lia.
  - change (pc_vector _) with 0x28. lia.
Qed.
End remap.

(** ** Handling an interrupt *)

Section handling.
Variable hw : list access -> Z -> Z.
Context {H : Type} `{!Heap H} `{!HeapLaws H}.
Implicit Types s : irqs H.

(** Reading ports does not disturb the controllers. *)
Definition reads_only (t : list access) : Prop := Forall (fun a => match a with In _ _ => True | Out _ _ => False end) t.

Lemma reads_only_pic base p t : reads_only t -> run_device (pic_step base) p t = p.
Proof. induction 1 as [|[]]; [done| |done]. done. Qed.

(** The keyboard driver's record of a waiting reader is a [uint16_t]. *)
Definition waiter_ok s : Prop := 0 <= kb_waiter_pid (kbd (m_in (mach s))).

Lemma keyboard_handler_run c (k : kbd_state H fstate) :
  0 <= kb_waiter_pid (kbd k) -> kinv (kern k) ->
  exists k', keyboard_handler c k = Ok (tt, k') /\ kinv (kern k') /\ 0 <= kb_waiter_pid (kbd k') /\ quiet None (kern k) (kern k').
Proof.
  intros Hw Hi. unfold keyboard_handler. cbv zeta.
  repeat match goal with |- context [if ?b then Ok _ else _] => destruct b; [eexists; split; [reflexivity|split_and!; [done|done|reflexivity]]|] end.
  cbn [kbd kern set_kbd]. set (k1 := serial_putchar _ (buf_push _ _)).
  assert (Hw1 : kb_waiter_pid k1 = kb_waiter_pid (kbd k)) by (unfold k1, buf_push; by destruct (_ =? _)).
  rewrite Hw1. destruct (kb_waiter_pid (kbd k) =? NO_WAITER).
  { eexists. split; [reflexivity|]. cbn [kbd kern set_kbd]. rewrite Hw1. split_and!; [done|done|reflexivity]. }
  destruct (proc_get (kern k) (kb_waiter_pid (kbd k))) as [i|] eqn:Eg; [|eexists; split; [reflexivity|split_and!; [done|done|reflexivity]]].
  destruct (proc_wake_total (Some i) (kern k)) as (s' & E & _). unfold on_kern, zoom. cbn [kern set_kbd]. rewrite E.
  eexists. split; [reflexivity|]. split; [|split; [done|exact (quietly_proc_wake _ _ _ _ E)]]. cbn [kern set_kern].
  destruct Hi as (L & A & q & Hinv).
  destruct (kstep_inv (kern k) s' L A q) as (L' & A' & q' & Hinv'); [|done|by exists L', A', q'].
  apply (step_wake _ (kb_waiter_pid (kbd k))); [done|]. by rewrite Eg.
Qed.

Lemma run_handler_run f s :
  waiter_ok s -> kinv (m_kern (mach s)) ->
  exists s', run_handler hw f s = Ok (tt, s') /\ kinv (m_kern (mach s')) /\ waiter_ok s' /\ irq_handlers s' = irq_handlers s /\
    quiet None (m_kern (mach s)) (m_kern (mach s')) /\ exists t, ports s' = ports s ++ t /\ reads_only t.
Proof.
  intros Hw Hi. destruct f.
  - destruct Hi as (L & A & q & Hinv). destruct (timer_handler_inv _ L A q Hinv) as (k & q' & E & K & _).
    eexists. split; [unfold run_handler, on_mach, on_k, on_in, on_kern, zoom, m_kern in *; rewrite E; reflexivity|].
    split; [by exists L, A, q'|]. split; [done|]. split; [done|]. split; [exact (quietly_timer_handler _ _ _ E)|]. exists []. split; [by rewrite app_nil_r|constructor].
  - set (v := u8 (hw (ports s) 0x60)). destruct (keyboard_handler_run v (m_in (mach s)) Hw Hi) as (k & E & K1 & K2 & K3).
    exists (set_mach (set_in k (mach s)) (set_ports (ports s ++ [In 0x60 v]) s)).
    split; [|split; [done|split; [done|split; [done|split; [done|]]]]].
    + unfold run_handler, on_mach, on_in, on_ports, zoom, mbind, M_bind, inb. change (u16 0x60) with 0x60. fold v.
      cbn [mach set_ports]. by rewrite E.
    + exists [In 0x60 v]. split; [done|]. by repeat constructor.
Qed.

(** The stack the processor goes on with is the one of the current process. *)
Lemma switch_result esp (k : kstate H fstate) r k' :
  sched_switch_esp esp k = Ok (r, k') -> r = 0 \/ exists c, current_proc k' = Some c /\ r = p_esp_kernel (pcb_at k' c).
Proof.
  unfold sched_switch_esp. destruct (_ || _); [intros [= <- _]; by left|].
  destruct (current_proc k) as [c|]; [|intros [= <- _]; by left]. cbv zeta.
  destruct (0 <? _); [intros [= <- _]; by left|]. destruct (select _ _) as [[n idx]|]; intros [= <- <-]; [|by left].
  right. exists n. done.
Qed.

(** Besides what the claim below says, the tables and the file layer are left
    alone. *)
Lemma irq_entry_run n esp s :
  0 <= n < 16 -> 0 < esp < 2 ^ 32 -> waiter_ok s -> kinv (m_kern (mach s)) ->
  exists r s', irq_entry hw (32 + n) esp s = Ok (r, s') /\ kinv (m_kern (mach s')) /\ waiter_ok s' /\ irq_handlers s' = irq_handlers s /\
    quiet None (m_kern (mach s)) (m_kern (mach s')) /\
    (r = 0 \/ exists c, current_proc (m_kern (mach s')) = Some c /\ r = p_esp_kernel (pcb_at (m_kern (mach s')) c)) /\
    forall m sl, master_after m (ports s') = eoi (master_after m (ports s)) /\
      slave_after sl (ports s') = if n <? 8 then slave_after sl (ports s) else eoi (slave_after sl (ports s)).
Proof.
  intros Hn He Hw Hi.
  assert (Hh : exists s1, (match irq_handlers s !! Z.to_nat n with Some (Some f) => run_handler hw f | _ => mret tt end) s = Ok (tt, s1) /\
     kinv (m_kern (mach s1)) /\ waiter_ok s1 /\ irq_handlers s1 = irq_handlers s /\
     quiet None (m_kern (mach s)) (m_kern (mach s1)) /\ exists t, ports s1 = ports s ++ t /\ reads_only t).
  { destruct (irq_handlers s !! Z.to_nat n) as [[f|]|]; [by apply run_handler_run| |];
    (exists s; do 4 (split; [done|]); split; [reflexivity|]; exists []; split; [by rewrite app_nil_r|constructor]). }
  destruct Hh as (s1 & E1 & (L & A & q & Hinv) & W1 & T1 & Q1 & t & P1 & R1).
  set (ack := (if 8 <=? n then [Out 0xA0 0x20] else []) ++ [Out 0x20 0x20]).
  set (s2 := set_ports (ports s1 ++ ack) s1).
  assert (E2 : on_ports (pic_eoi n) s1 = Ok (tt, s2)).
  { unfold on_ports, zoom, pic_eoi, s2, ack, mbind, M_bind, mret, M_ret, outb, modify. destruct (8 <=? n); [|done].
    by rewrite <- app_assoc. }
  assert (Hirq : irq_handler hw (32 + n) s = Ok (tt, s2)).
  { unfold irq_handler. replace (u8 (32 + n - 32)) with n by (unfold u8; rewrite Z.mod_small by lia; lia). cbv zeta.
    rewrite (proj2 (Z.ltb_lt n 16)) by lia. rewrite (bind_ok _ _ s (irq_handlers s) s) by done.
    rewrite (bind_ok _ _ _ _ _ E1). exact E2. }
  destruct (sched_switch_inv (m_kern (mach s1)) L A q esp Hinv ltac:(lia)) as (r & k & E3 & H3).
  exists r, (set_mach (set_in (set_kern k (m_in (mach s1))) (mach s1)) s2). split.
  { unfold irq_entry. rewrite (bind_ok _ _ _ _ _ Hirq). unfold on_mach, on_k, on_in, on_kern, zoom.
    change (kern (m_in (mach s2))) with (m_kern (mach s1)). by rewrite E3. }
  split; [by exists L, A, q|]. split; [exact W1|]. split; [exact T1|].
  split; [transitivity (m_kern (mach s1)); [done|exact (quietly_sched_switch _ _ _ _ E3)]|]. split; [exact (switch_result esp _ r k E3)|].
  intros m sl. unfold master_after, slave_after. simpl ports. rewrite P1, !run_device_app, !(reads_only_pic _ _ _ R1).
  unfold ack. destruct (Z.leb_spec 8 n), (Z.ltb_spec n 8); try lia; done.
Qed.

(** C10: a hardware interrupt is handled to its end. On a kernel that satisfies
    its invariant, with any handlers installed, the path of interrupt line [n]
    from the stub through the handler and the scheduler runs without a fault,
    keeps the invariant and the handler table, acknowledges the interrupt at
    the controllers (at the slave as well exactly for the lines 8 to 15), and
    the processor goes on with the interrupted stack or with the saved stack of
    the process the scheduler made current. *)
Theorem irq_entry_correct n esp s :
  0 <= n < 16 -> 0 < esp < 2 ^ 32 -> waiter_ok s -> kinv (m_kern (mach s)) ->
  exists r s', irq_entry hw (32 + n) esp s = Ok (r, s') /\ kinv (m_kern (mach s')) /\ waiter_ok s' /\ irq_handlers s' = irq_handlers s /\
    (r = 0 \/ exists c, current_proc (m_kern (mach s')) = Some c /\ r = p_esp_kernel (pcb_at (m_kern (mach s')) c)) /\
    forall m sl, master_after m (ports s') = eoi (master_after m (ports s)) /\
      slave_after sl (ports s') = if n <? 8 then slave_after sl (ports s) else eoi (slave_after sl (ports s)).
Proof.
  intros Hn He Hw Hi. destruct (irq_entry_run n esp s Hn He Hw Hi) as (r & s' & E & K1 & K2 & K3 & _ & K4). by exists r, s'.
Qed.
End handling.

(** ** The timer chip *)

(** The timer is programmed to the frequency asked for. For every non-zero
    [hz] the square-wave generator of channel 0 ends with a reload value between
    1 and 65535 (never the 0 that stands for 65536); inside the chip's range, 19
    to 1193182 Hz, it is the largest count whose frequency is at least [hz]; and
    the timer handler is installed on line 0. For [hz] = 0 the code divides by
    zero. *)
Theorem timer_init_correct {H} `{!Heap H} hz (s : irqs H) t :
  0 <= hz < 2 ^ 32 -> length (irq_handlers s) = 16%nat ->
  (hz = 0 -> timer_init hz s = Stop (Undefined "division by zero")) /\
  (hz <> 0 -> exists h, timer_init hz s = Ok (tt, set_handlers (<[0%nat := Some fn_timer]> (irq_handlers s)) (set_ports (ports s ++ h) s)) /\
     let p := run_device pit_step t (ports s ++ h) in
     pt_mode p = 3 /\ pt_bcd p = false /\ 1 <= pt_reload p <= 65535 /\
     (19 <= hz <= PIT_BASE_FREQ -> pt_reload p * hz <= PIT_BASE_FREQ < (pt_reload p + 1) * hz)).
Proof.
  intros Hz Hl. split; [by intros ->|]. intros Hne. set (d := timer_divisor hz).
  assert (Hd : 1 <= d <= 65535 /\ (19 <= hz <= PIT_BASE_FREQ -> d * hz <= PIT_BASE_FREQ < (d + 1) * hz)).
  { unfold d, timer_divisor, PIT_BASE_FREQ.
    pose proof (Z.div_mod 1193182 hz ltac:(lia)) as Hdm. pose proof (Z.mod_pos_bound 1193182 hz ltac:(lia)) as Hmb.
    set (x := 1193182 / hz) in *. assert (0 <= x) by (apply Z.div_pos; lia).
    destruct (Z.eqb_spec x 0); [split; [done|nia]|]. destruct (Z.ltb_spec 0xFFFF x); [split; [done|nia]|]. split; [lia|nia]. }
  exists [Out 0x43 0x36; Out 0x40 (d mod 256); Out 0x40 (d / 256)]. split.
  - unfold timer_init. rewrite (proj2 (Z.eqb_neq hz 0)) by done. fold d.
    assert (B1 : u8 (u8 (Z.land d 0xFF)) = d mod 256).
    { change 0xFF with (2 ^ 8 - 1). rewrite land_ones_mod by lia. unfold u8. change (2 ^ 8) with 256. zlia. }
    assert (B2 : u8 (u8 (Z.land (Z.shiftr d 8) 0xFF)) = d / 256).
    { change 0xFF with (2 ^ 8 - 1). rewrite land_ones_mod, Z.shiftr_div_pow2 by lia. unfold u8. change (2 ^ 8) with 256. zlia. }
    unfold on_ports, zoom, mbind, M_bind, outb, modify. rewrite B1, B2, <- !app_assoc. reflexivity.
  - cbv zeta. rewrite run_device_app. destruct (run_device pit_step t (ports s)) as [pa pm pb pl pr].
    assert (E : run_device pit_step (Pit pa pm pb pl pr) [Out 0x43 0x36; Out 0x40 (d mod 256); Out 0x40 (d / 256)] =
      Pit 3 3 false None (d mod 256 + 256 * (d / 256))) by done.
    rewrite E. simpl pt_reload. replace (d mod 256 + 256 * (d / 256)) with d by zlia. done.
Qed.

(** ** Witnesses *)

(** Controllers as the BIOS leaves them (lines at vectors 8 and 0x70), and the
    hardware that shows their masks. *)
Definition bios_master : pic := Pic 0 false true 0x08 0x04 0x01 0xB8 0.
Definition bios_slave : pic := Pic 0 false true 0x70 0x02 0x01 0x8E 0.
Definition demo_pic_hw (h : list access) (port : Z) : Z :=
  if port =? 0x21 then pc_imr (master_after bios_master h) else
  if port =? 0xA1 then pc_imr (slave_after bios_slave h) else 0x1E.

Lemma PIC_remap_correct_witness :
  exists t, PIC_remap demo_pic_hw [] = Ok (tt, [] ++ t) /\
    irq_vector (master_after bios_master ([] ++ t)) (slave_after bios_slave ([] ++ t)) 1 = 33 /\
    pc_imr (master_after bios_master ([] ++ t)) = 0xB8.
Proof.
  destruct (PIC_remap_correct demo_pic_hw bios_master bios_slave (fun h _ => eq_refl) (fun h _ => eq_refl) [] eq_refl eq_refl)
    as (t & E & _ & _ & K & _ & _ & _ & I & _); [vm_compute; split; congruence|vm_compute; split; congruence|].
  exists t. split_and!; [exact E|apply K; lia|exact I].
Defined.

Definition demo_irqs : irqs kheap_state :=
  IrqState [] (Some fn_timer :: Some fn_keyboard :: replicate 14 None) (Machine (KbdState initial_keyboard demo_opened) (Terminal 0 0 7 ∅)).

Lemma irq_entry_correct_witness :
  exists r s', irq_entry demo_pic_hw (32 + 1) 0x5000 demo_irqs = Ok (r, s') /\ kinv (m_kern (mach s')) /\
    pc_isr (master_after (Pic 0 false true 32 4 1 0 2) (ports s')) = 0.
Proof.
  destruct (irq_entry_correct demo_pic_hw 1 0x5000 demo_irqs ltac:(lia) ltac:(lia)) as (r & s' & E & K & _ & _ & _ & P).
  - unfold waiter_ok. vm_compute. congruence.
  - exact demo_machine_inv.
  - exists r, s'. split_and!; [exact E|exact K|]. destruct (P (Pic 0 false true 32 4 1 0 2) bios_slave) as [-> _]. reflexivity.
Defined.

Lemma timer_init_correct_witness :
  exists h, timer_init 100 demo_irqs = Ok (tt, set_handlers (<[0%nat := Some fn_timer]> (irq_handlers demo_irqs)) (set_ports ([] ++ h) demo_irqs)) /\
    pt_reload (run_device pit_step (Pit 0 0 false None 0) ([] ++ h)) * 100 <= PIT_BASE_FREQ.
Proof.
  destruct (timer_init_correct 100 demo_irqs (Pit 0 0 false None 0) ltac:(lia) eq_refl) as [_ T].
  destruct (T ltac:(lia)) as (h & E & _ & _ & _ & F). exists h. split; [exact E|]. apply F. vm_compute. split; congruence.
Defined.
