(* ===== verification/Elf.v ===== *)
(** * The ELF32 loader (kernel/proc/elf.c, include/elf.h)

    [system] adds the memory that programs see, a byte at every virtual
    address, to the machine of Io.v. The loader reads a file through the file
    layer, maps fresh frames with the virtual memory manager and fills them.
    [garbage] stands for the value of a byte that was never written (the gap a
    file has after a write beyond its end). *)

From Stdlib Require Import ZArith Lia.
From S2P Require Import Prelude Pmm Vmm Kheap HeapSpec Kstate Fd Fs FsLaws Ramfs Proc ProcInv ProcOps ProcSteps ProcSafety Kinv Keyboard Pipe Vga Io.

Definition ELF_MAGIC0 : Z := 0x7F.
Definition ELF_MAGIC1 : Z := 69.
Definition ELF_MAGIC2 : Z := 76.
Definition ELF_MAGIC3 : Z := 70.
Definition ELFCLASS32 : Z := 1.
Definition ELFDATA2LSB : Z := 1.
Definition ET_EXEC : Z := 2.
Definition EM_386 : Z := 3.
Definition PT_LOAD : Z := 1.
Definition SIZEOF_EHDR : Z := 52.
Definition SIZEOF_PHDR : Z := 32.

Record Elf32_Ehdr := Ehdr {
  e_ident : list Z;
  e_type : Z;
  e_machine : Z;
  e_version : Z;
  e_entry : Z;
  e_phoff : Z;
  e_phentsize : Z;
  e_phnum : Z
}.

Record Elf32_Phdr := Phdr {
  p_type : Z;
  p_offset : Z;
  p_vaddr : Z;
  p_filesz : Z;
  p_memsz : Z
}.

(** Little-endian fields of a packed structure. *)
Definition byte_of (d : list Z) (i : nat) : Z := default 0 (d !! i).
Definition half_of (d : list Z) (i : nat) : Z := byte_of d i + 2 ^ 8 * byte_of d (i + 1).
Definition word_of (d : list Z) (i : nat) : Z := half_of d i + 2 ^ 16 * half_of d (i + 2).

Definition ehdr_of (d : list Z) : Elf32_Ehdr :=
  Ehdr (take 16 d) (half_of d 16) (half_of d 18) (word_of d 20) (word_of d 24) (word_of d 28) (half_of d 42) (half_of d 44).
Definition phdr_of (d : list Z) : Elf32_Phdr :=
  Phdr (word_of d 0) (word_of d 4) (word_of d 8) (word_of d 16) (word_of d 20).

(** The tests between the reading of the header and the loop. *)
Definition ehdr_ok (h : Elf32_Ehdr) : bool :=
  let id i := byte_of (e_ident h) i in
  (id 0%nat =? ELF_MAGIC0) && (id 1%nat =? ELF_MAGIC1) && (id 2%nat =? ELF_MAGIC2) && (id 3%nat =? ELF_MAGIC3) &&
  (id 4%nat =? ELFCLASS32) && (id 5%nat =? ELFDATA2LSB) && (e_type h =? ET_EXEC) && (e_machine h =? EM_386) &&
  negb (e_phnum h =? 0) && (e_version h =? 1).

(** The kernel, and the memory that programs see as bytes by virtual address.
    The bytes that hold the kernel's own data are the fields of [sys] and not
    part of [umem]; which bytes a program may use is a condition of the theorems
    that need it ([user] in SysSafety.v and Kernel.v). *)
Record system := System { sys : machine kheap_state; umem : gmap Z Z }.
Definition set_sys (m : machine kheap_state) (s : system) : system := System m (umem s).
Definition set_umem (u : gmap Z Z) (s : system) : system := System (sys s) u.
Definition sys_kern (s : system) : demo_kstate := m_kern (sys s).
Definition on_sys {A : Type} (c : M (machine kheap_state) A) : M system A := zoom sys set_sys c.
Definition on_vm {A : Type} (c : M vmm_state A) : M system A := on_sys (on_k (on_heap (vm c))).

Section elf.
Variable garbage : Z -> Z.

(** Bytes stored from address [a] on; addresses wrap. *)
Fixpoint store_bytes (a : Z) (data : list byte) (u : gmap Z Z) : gmap Z Z :=
  match data with
  | [] => u
  | b :: data' => store_bytes (a +w 1) data' (<[a := default (garbage a) b]> u)
  end.

(** Is every byte of the range in a mapped page? *)
Definition all_mapped (s : system) (a : Z) (n : nat) : bool :=
  forallb (fun i => match Vmm.translate (hvm (k_heap (sys_kern s))) (a +w Z.of_nat i) with Some _ => true | None => false end) (seq 0 n).

(** The bytes of a local variable after [elf_read_at] filled it. *)
Definition local_bytes (data : list byte) : list Z := imap (fun i b => default (garbage (Z.of_nat i)) b) data.

(** The result of an operation that may have to wait for a device: the path can
    name the keyboard. *)
Inductive elf_result (A : Type) : Type :=
| Loaded (a : A)
| ElfSleep (esp : Z).
Arguments Loaded {A} a.
Arguments ElfSleep {A} esp.

Definition elf_read_at (f buf len offset esp : Z) : M system (elf_result (Z * list byte)) :=
  on_sys (on_k (x ← load as_file f; store f (OFile (set_f_offset offset x)))) ;;
  r ← on_sys (vfs_read f buf len esp);
  mret (match r with IoRet n data => Loaded (n, data) | IoSleep e _ => ElfSleep e end).

(** The loop over the pages of a segment; false when memory is exhausted. *)
Fixpoint map_pages (n : nat) (page : Z) : M system bool :=
  match n with
  | O => mret true
  | S n' =>
      mapped ← on_vm (vmm_is_mapped page);
      if mapped : bool then map_pages n' (page +w PAGE_SIZE) else
      frame ← on_vm alloc_frame;
      if frame =? 0 then mret false else
      on_vm (vmm_map_page page frame VMM_KERNEL_RW) ;;
      modify (fun s => set_umem (store_bytes page (replicate (Z.to_nat PAGE_SIZE) (Some 0)) (umem s)) s) ;;
      map_pages n' (page +w PAGE_SIZE)
  end.

Definition page_start (vaddr : Z) : Z := Z.land vaddr (u32 (Z.lnot (PAGE_SIZE - 1))).
Definition page_end (vaddr memsz : Z) : Z := Z.land (u32 (vaddr + memsz + PAGE_SIZE - 1)) (u32 (Z.lnot (PAGE_SIZE - 1))).

Definition elf_load_segment (f : Z) (ph : Elf32_Phdr) (esp : Z) : M system (elf_result Z) :=
  let vaddr := p_vaddr ph in
  let filesz := p_filesz ph in
  let memsz := p_memsz ph in
  if memsz <? filesz then mret (Loaded (-1)) else
  if memsz =? 0 then mret (Loaded 0) else
  ok ← map_pages (Z.to_nat ((page_end vaddr memsz - page_start vaddr) / PAGE_SIZE)) (page_start vaddr);
  if negb ok then mret (Loaded (-1)) else
  if negb (0 <? filesz) then mret (Loaded 0) else
  r ← elf_read_at f vaddr filesz (p_offset ph) esp;
  match r with
  | ElfSleep e => mret (ElfSleep e)
  | Loaded (n, data) =>
      mapped ← gets (fun s => all_mapped s vaddr (length data));
      if negb mapped then stop (PageFault vaddr) else
      modify (fun s => set_umem (store_bytes vaddr data (umem s)) s) ;;
      mret (Loaded (if (n <? 0) || (n <? filesz) then -1 else 0))
  end.

(** The loop over the program headers: is the image complete? *)
Fixpoint load_segments (n : nat) (i f : Z) (h : Elf32_Ehdr) (esp : Z) : M system (elf_result bool) :=
  match n with
  | O => mret (Loaded true)
  | S n' =>
      r ← elf_read_at f 1 SIZEOF_PHDR (u32 (e_phoff h + i * e_phentsize h)) esp;
      match r with
      | ElfSleep e => mret (ElfSleep e)
      | Loaded (k, data) =>
          if negb (k =? SIZEOF_PHDR) then mret (Loaded false) else
          let ph := phdr_of (local_bytes data) in
          if negb (p_type ph =? PT_LOAD) then load_segments n' (i + 1) f h esp else
          r ← elf_load_segment f ph esp;
          match r with
          | ElfSleep e => mret (ElfSleep e)
          | Loaded v => if negb (v =? 0) then mret (Loaded false) else load_segments n' (i + 1) f h esp
          end
      end
  end.

(** [path] is not null here; the local variables ehdr and phdr are at some
    non-null address of the stack. *)
Definition elf_load (path : list Z) (esp : Z) : M system (elf_result Z) :=
  f ← on_sys (on_k (vfs_open path O_RDONLY));
  if f =? 0 then mret (Loaded 0) else
  r ← elf_read_at f 1 SIZEOF_EHDR 0 esp;
  match r with
  | ElfSleep e => mret (ElfSleep e)
  | Loaded (n, data) =>
      let h := ehdr_of (local_bytes data) in
      if negb (n =? SIZEOF_EHDR) || negb (ehdr_ok h) then on_sys (on_k (vfs_close_op f)) ;; mret (Loaded 0) else
      r ← load_segments (Z.to_nat (e_phnum h)) 0 f h esp;
      match r with
      | ElfSleep e => mret (ElfSleep e)
      | Loaded ok => on_sys (on_k (vfs_close_op f)) ;; mret (Loaded (if ok : bool then e_entry h else 0))
      end
  end.
End elf.
Arguments Loaded {A} a.
Arguments ElfSleep {A} esp.

(** ** Files that are not executables are refused *)

Section refuse.
Variable garbage : Z -> Z.
Implicit Types (s : system).

Lemma on_sys_ok {A} (c : M (machine kheap_state) A) s r m : c (sys s) = Ok (r, m) -> on_sys c s = Ok (r, set_sys m s).
Proof. intros E. unfold on_sys, zoom. by rewrite E. Qed.

Lemma store_file_run (k : demo_kstate) f x o : objs (k_files k) !! f = Some (OFile x) ->
  (x ← load as_file f; store f (OFile (set_f_offset o x))) k = Ok (tt, put_obj f (OFile (set_f_offset o x)) k).
Proof. intros Hf. rewrite (bind_ok _ _ _ _ _ (load_at as_file k f _ x Hf eq_refl)). unfold store. by rewrite Hf. Qed.

Lemma put_obj_twice (k : demo_kstate) p o o' : put_obj p o' (put_obj p o k) = put_obj p o' k.
Proof. unfold put_obj, set_k_files, set_objs. simpl. by rewrite insert_insert_eq. Qed.

(** Reading [len] bytes at [offset] of an open regular file. *)
Lemma elf_read_run s f x v y ino data buf len offset esp :
  kinv (sys_kern s) -> open_on (sys_kern s) f x v y ino data -> buf <> 0 -> 0 < len -> 0 <= offset < 2 ^ 31 ->
  let got := slice data offset len in
  exists s', elf_read_at f buf len offset esp s = Ok (Loaded (Z.of_nat (length got), got), s') /\
    umem s' = umem s /\ kinv (sys_kern s') /\
    exists off, sys_kern s' = put_obj f (OFile (set_f_offset off x)) (sys_kern s) /\ open_on (sys_kern s') f (set_f_offset off x) v y ino data.
Proof.
  intros Hi Ho Hb Hl Hoff got. pose proof (open_on_nonzero _ _ _ _ _ _ _ Hi Ho) as [Hz _]. unfold elf_read_at.
  set (k1 := put_obj f (OFile (set_f_offset offset x)) (sys_kern s)).
  assert (Ho1 : open_on k1 f (set_f_offset offset x) v y ino data) by (by apply open_on_put).
  assert (Hi1 : kinv k1) by (by apply (put_obj_inv _ _ _ (OFile x)); [|apply Ho|]).
  set (m1 := with_kern k1 (sys s)).
  assert (E1 : on_k (x ← load as_file f; store f (OFile (set_f_offset offset x))) (sys s) = Ok (tt, m1)).
  { apply on_k_ok. apply store_file_run. apply Ho. }
  rewrite (bind_ok _ _ _ _ _ (on_sys_ok _ s _ _ E1)).
  pose proof (vfs_read_run m1 f (set_f_offset offset x) v y ino data buf len esp Hi1 Ho1 Hb Hl) as E2. cbv zeta in E2.
  cbn [f_offset set_f_offset] in E2. fold got in E2. set (n := Z.of_nat (length got)) in *.
  rewrite (bind_ok _ _ _ _ _ (on_sys_ok _ (set_sys m1 s) _ _ E2)). eexists. split; [reflexivity|]. split; [done|].
  destruct (Z.ltb_spec 0 n) as [Hn|].
  - split; [by apply (put_obj_inv _ _ _ (OFile (set_f_offset offset x))); [|apply Ho1|]|]. exists (offset + n).
    split; [exact (put_obj_twice (sys_kern s) _ _ _)|].
    apply (open_on_put k1 f (set_f_offset offset x) v y ino data (offset + n) Ho1 Hz).
    assert (n <= Z.of_nat (length data) - offset) by (revert Hn; unfold n, got, slice; rewrite length_take, length_drop; lia).
    pose proof (oo_size _ _ _ _ _ _ _ Ho). lia.
  - split; [done|]. exists offset. by split.
Qed.

Lemma store_put (k : demo_kstate) p o o' : objs (k_files k) !! p = Some o' -> store p o k = Ok (tt, put_obj p o k).
Proof. intros Hp. unfold store. by rewrite Hp. Qed.

(** Two states with the same translation and the same frames in use. *)
Record same_vm (v v' : vmm_state) : Prop := {
  sv_pmm : vm_pmm v' = vm_pmm v;
  sv_translate : forall a, 0 <= a < 2 ^ 32 -> Vmm.translate v' a = Vmm.translate v a
}.

(** Freeing an object changes neither. *)
Lemma kfree_obj_vm (k : demo_kstate) p o :
  kinv k -> objs (k_files k) !! p = Some o ->
  exists k', kfree_obj p k = Ok (tt, k') /\ same_vm (hvm (k_heap k)) (hvm (k_heap k')) /\ objs (k_files k') = delete p (objs (k_files k)).
Proof.
  intros (L & A & q & Hinv) Hp. pose proof (pi_heap _ _ _ _ _ Hinv) as Hh.
  destruct (pi_files _ _ _ _ _ Hinv p o Hp) as (Hz & [n Hn] & _). pose proof Hh as [_ (bl & Hb & HL & _)].
  destruct (HL p n Hn) as (_ & j & Hl & _). destruct (kfree_contract _ bl p j Hb Hl) as (h & bl' & E & Hr).
  unfold kfree_obj. rewrite (proj2 (Z.eqb_neq p 0)), Hp by done.
  rewrite (bind_ok _ _ k tt (set_k_heap h k)) by (unfold on_heap, zoom; simpl; by rewrite E).
  eexists. split; [reflexivity|]. split; [|done]. split; apply (re_same _ _ _ _ _ Hr).
Qed.

(** The open file [f] is gone and its vnode has one reference less; everything
    else is as it was. *)
Definition closed (f v : Z) (y : vnode) (m m' : gmap Z obj) : Prop :=
  m' = <[v := OVnode (if 0 <? v_refcount y then set_v_refcount (v_refcount y - 1) y else y)]> (delete f m).

Lemma closed_gone f v y m m' : v <> f -> closed f v y m m' -> m' !! f = None.
Proof. intros Hne ->. by rewrite lookup_insert_ne, lookup_delete_eq. Qed.

(** Closing the only reference to a regular file. *)
Lemma vfs_close_regular (k : demo_kstate) f x v y ino data :
  kinv k -> open_on k f x v y ino data -> f_refcount x = 1 ->
  exists k', vfs_close_op f k = Ok (tt, k') /\ kinv k' /\ same_vm (hvm (k_heap k)) (hvm (k_heap k')) /\
    closed f v y (objs (k_files k)) (objs (k_files k')).
Proof.
  intros Hi Ho Hr. pose proof (open_on_nonzero _ _ _ _ _ _ _ Hi Ho) as [Hz Hvz]. pose proof Ho as [Hf Hv Hops Hat Hoff Hsz].
  assert (Hx : exists k', vfs_close_op f k = Ok (tt, k') /\ same_vm (hvm (k_heap k)) (hvm (k_heap k')) /\
    closed f v y (objs (k_files k)) (objs (k_files k'))).
  2: { destruct Hx as (k' & E & Ht). exists k'. split; [done|]. split; [|done].
       exact (preserves_keeps false _ (keeps_vfs_close f) _ _ _ Hi E). }
  unfold vfs_close_op. rewrite (proj2 (Z.eqb_neq f 0)) by done. rewrite (bind_ok _ _ _ _ _ (load_at as_file k f _ x Hf eq_refl)), Hr.
  rewrite (bind_ok _ _ _ _ _ (store_put k f _ _ Hf)). set (k1 := put_obj f _ k).
  assert (Hi1 : kinv k1) by (by apply (put_obj_inv _ _ _ (OFile x))).
  change (0 <? 1 -w 1) with false. cbv iota. rewrite Hv. unfold truthy. rewrite (proj2 (Z.eqb_neq v 0)) by done. cbn [negb].
  assert (Hy : objs (k_files k1) !! v = Some (OVnode y)).
  { simpl. rewrite lookup_insert_ne; [apply Hat|]. symmetry. by apply (file_parts_ne _ f x v y ino data v Hf Hat Hz); left. }
  assert (Hf1 : exists o, objs (k_files k1) !! f = Some o) by (simpl; rewrite lookup_insert_eq; eauto).
  assert (Ec : ops_close v k1 = Ok (0, k1)). { unfold ops_close. by rewrite (bind_ok _ _ _ _ _ (load_at as_vnode k1 v _ y Hy eq_refl)), Hops. }
  rewrite (bind_ok _ _ k1 tt k1) by (by rewrite (bind_ok _ _ _ _ _ Ec)).
  assert (Hfv : f <> v) by (symmetry; by apply (file_parts_ne _ f x v y ino data v Hf Hat Hz); left).
  assert (Eu : exists k2, vnode_unref v k1 = Ok (tt, k2) /\ kinv k2 /\ k_heap k2 = k_heap k /\ (exists o, objs (k_files k2) !! f = Some o) /\
    objs (k_files k2) = <[v := OVnode (if 0 <? v_refcount y then set_v_refcount (v_refcount y - 1) y else y)]> (objs (k_files k1))).
  { unfold vnode_unref. rewrite (proj2 (Z.eqb_neq v 0)) by done. rewrite (bind_ok _ _ _ _ _ (load_at as_vnode k1 v _ y Hy eq_refl)).
    destruct (0 <? v_refcount y); [|exists k1; split_and!; [done..|by rewrite insert_id]]. rewrite (store_put k1 v _ _ Hy). eexists. split; [reflexivity|].
    split; [by apply (put_obj_inv _ _ _ (OVnode y))|]. split; [done|]. split; [|done]. destruct Hf1 as [o Ho1]. simpl in *.
    rewrite lookup_insert. case_decide; [eauto|by exists o]. }
  destruct Eu as (k2 & Eu & Hi2 & Hh2 & [o Hf2] & Eo). rewrite (bind_ok _ _ _ _ _ Eu), <- Hh2.
  destruct (kfree_obj_vm k2 f o Hi2 Hf2) as (k3 & E3 & Hs3 & Hd3). exists k3. split; [done|]. split; [done|].
  unfold closed. rewrite Hd3, Eo. simpl. by rewrite delete_insert_ne, delete_insert_eq by done.
Qed.

(** The value of byte [n] of a file, as the loader reads it into its header. *)
Definition header_byte (data : list byte) (n : nat) : Z := default (garbage (Z.of_nat n)) (default None (data !! n)).

(** The header of a 32-bit little-endian executable for the 80386, version 1,
    with program headers, byte by byte as the ELF specification lays it out. *)
Definition elf_valid (data : list byte) : Prop :=
  let b := header_byte data in
  b 0%nat = 0x7F /\ b 1%nat = 0x45 /\ b 2%nat = 0x4C /\ b 3%nat = 0x46 /\ b 4%nat = 1 /\ b 5%nat = 1 /\
  b 16%nat + 0x100 * b 17%nat = 2 /\ b 18%nat + 0x100 * b 19%nat = 3 /\
  b 20%nat + 0x100 * b 21%nat + 0x10000 * (b 22%nat + 0x100 * b 23%nat) = 1 /\ b 44%nat + 0x100 * b 45%nat <> 0.

Lemma header_bytes data n : SIZEOF_EHDR <= Z.of_nat (length data) -> (n < 52)%nat ->
  byte_of (local_bytes garbage (slice data 0 SIZEOF_EHDR)) n = header_byte data n.
Proof.
  intros Hl Hn. unfold byte_of, local_bytes, header_byte, slice. unfold SIZEOF_EHDR in *. rewrite list_lookup_imap, lookup_take_lt, lookup_drop by lia.
  change (Z.to_nat 0 + n)%nat with n. unfold byte in *. destruct (data !! n) as [b|] eqn:Eb; [done|]. apply lookup_ge_None in Eb. lia.
Qed.

(** The tests of the loader decide it. *)
Lemma ehdr_ok_valid data : SIZEOF_EHDR <= Z.of_nat (length data) ->
  ehdr_ok (ehdr_of (local_bytes garbage (slice data 0 SIZEOF_EHDR))) = true <-> elf_valid data.
Proof.
  intros Hl. pose proof (header_bytes data) as Hb. specialize (fun n => Hb n Hl). set (d := local_bytes garbage (slice data 0 SIZEOF_EHDR)) in *.
  assert (Hid : forall n, (n < 16)%nat -> byte_of (take 16 d) n = header_byte data n).
  { intros n Hn. unfold byte_of. rewrite lookup_take_lt by done. fold (byte_of d n). apply Hb. lia. }
  unfold ehdr_ok, ehdr_of, elf_valid, half_of, word_of, half_of. cbv zeta. cbn [e_ident e_type e_machine e_version e_phnum].
  rewrite !Hid, !Hb by lia. rewrite !andb_true_iff, negb_true_iff, !Z.eqb_eq, Z.eqb_neq. cbn [Nat.add].
  unfold ELF_MAGIC0, ELF_MAGIC1, ELF_MAGIC2, ELF_MAGIC3, ELFCLASS32, ELFDATA2LSB, ET_EXEC, EM_386. tauto.
Qed.

Lemma elf_refused_run s path esp f k x v y ino data :
  vfs_open path O_RDONLY (sys_kern s) = Ok (f, k) -> kinv k -> open_on k f x v y ino data -> f_refcount x = 1 ->
  Z.of_nat (length data) < SIZEOF_EHDR \/ ~ elf_valid data ->
  exists s', elf_load garbage path esp s = Ok (Loaded 0, s') /\ umem s' = umem s /\ kinv (sys_kern s') /\
    closed f v y (objs (k_files k)) (objs (k_files (sys_kern s'))) /\ same_vm (hvm (k_heap k)) (hvm (k_heap (sys_kern s'))).
Proof.
  intros Eo Hi Ho Hr Hbad. unfold elf_load. set (m1 := with_kern k (sys s)). set (s1 := set_sys m1 s).
  rewrite (bind_ok _ _ s f s1) by (apply on_sys_ok, on_k_ok; exact Eo).
  pose proof (open_on_nonzero _ _ _ _ _ _ _ Hi Ho) as [Hz _]. rewrite (proj2 (Z.eqb_neq f 0)) by done.
  destruct (elf_read_run s1 f x v y ino data 1 SIZEOF_EHDR 0 esp Hi Ho ltac:(done) ltac:(done) ltac:(lia)) as (s2 & E2 & Hu & Hi2 & off & Hk2 & Ho2).
  rewrite (bind_ok _ _ _ _ _ E2). cbv zeta iota beta.
  assert (Ht : negb (Z.of_nat (length (slice data 0 SIZEOF_EHDR)) =? SIZEOF_EHDR) || negb (ehdr_ok (ehdr_of (local_bytes garbage (slice data 0 SIZEOF_EHDR)))) = true).
  { destruct (Z.lt_ge_cases (Z.of_nat (length data)) SIZEOF_EHDR) as [Hs|Hs].
    - rewrite (proj2 (Z.eqb_neq _ _)); [done|]. unfold slice. rewrite length_take, length_drop. lia.
    - destruct Hbad as [?|Hb]; [lia|]. destruct (ehdr_ok _) eqn:Eh; [|by rewrite orb_true_r]. apply ehdr_ok_valid in Eh; done. }
  rewrite Ht. destruct (vfs_close_regular (sys_kern s2) f (set_f_offset off x) v y ino data Hi2 Ho2 Hr) as (k3 & E3 & Hi3 & Hs3 & Hc3).
  rewrite (bind_ok _ _ _ _ _ (on_sys_ok _ s2 _ _ (on_k_ok _ (sys s2) _ _ E3))). eexists. split; [reflexivity|]. split; [exact Hu|]. split; [exact Hi3|].
  rewrite Hk2 in Hc3, Hs3. unfold closed in Hc3 |- *. cbn in Hc3. rewrite delete_insert_eq in Hc3. by split.
Qed.

(** C35: a regular file that is too short for an ELF header, or whose header bytes
    have the wrong magic number, class, byte order, type, machine or version or
    no program headers, is refused: the loader returns 0, the file it opened is
    closed again (the open file is gone, its vnode has lost the reference, no
    other object has changed), the address space translates as before with the
    same frames free, and the memory of programs is untouched. *)
Theorem elf_load_refuses s path esp f k x v y ino data :
  vfs_open path O_RDONLY (sys_kern s) = Ok (f, k) -> kinv k -> open_on k f x v y ino data -> f_refcount x = 1 ->
  Z.of_nat (length data) < SIZEOF_EHDR \/ ~ elf_valid data ->
  exists s', elf_load garbage path esp s = Ok (Loaded 0, s') /\ umem s' = umem s /\ kinv (sys_kern s') /\
    closed f v y (objs (k_files k)) (objs (k_files (sys_kern s'))) /\ same_vm (hvm (k_heap k)) (hvm (k_heap (sys_kern s'))).
Proof. exact (elf_refused_run s path esp f k x v y ino data). Qed.
End refuse.

(** The two-byte file of the demonstration machine is not an executable. *)
Definition demo_system : system := System demo_rewound ∅.
Definition demo_exec_file : Z := result 0 (vfs_open demo_path O_RDONLY) (sys_kern demo_system).

Lemma demo_exec_is : open_is (k_files (final (vfs_open demo_path O_RDONLY) (sys_kern demo_system))) demo_exec_file [Some 104; Some 105] = true.
Proof. vm_compute. reflexivity. Qed.

Lemma elf_load_refuses_witness : exists s', elf_load (fun _ => 0) demo_path demo_esp demo_system = Ok (Loaded 0, s') /\
  objs (k_files (sys_kern s')) !! demo_exec_file = None.
Proof.
  destruct (open_is_on _ _ _ demo_exec_is) as (x & v & y & ino & Ho & _ & _ & Hr).
  assert (Eo : vfs_open demo_path O_RDONLY (sys_kern demo_system) = Ok (demo_exec_file, final (vfs_open demo_path O_RDONLY) (sys_kern demo_system))).
  { apply run_result. vm_compute. reflexivity. }
  pose proof (preserves_keeps true _ (keeps_vfs_open demo_path O_RDONLY) _ _ _ demo_rewound_inv Eo) as Hi.
  pose proof (open_on_nonzero _ _ _ _ _ _ _ Hi Ho) as [Hz _]. pose proof Ho as [Hf _ _ Hat _ _].
  pose proof (file_parts_ne _ _ x v y ino _ v Hf Hat Hz (or_introl eq_refl)) as Hne.
  destruct (elf_load_refuses (fun _ => 0) demo_system demo_path demo_esp _ _ x v y ino [Some 104; Some 105] Eo Hi Ho Hr ltac:(left; simpl; unfold SIZEOF_EHDR; lia))
    as (s' & E & _ & _ & Hc & _). exists s'. split; [exact E|]. exact (closed_gone _ _ _ _ _ Hne Hc).
Defined.
