(* ===== verification/Loader.v ===== *)
(** * Loading a program (elf_load and elf_load_segment of kernel/proc/elf.c)

    What the memory of programs holds after a successful load, against the
    reference [image]: the file bytes of the segments, laid one over the other
    in the order of the program headers, on pages that are zero where the loader
    mapped them and as they were where it found them mapped. The segments lie in
    a [window] of the address space outside the identity map and the heap. *)

From Stdlib Require Import ZArith Lia.
From S2P Require Import Prelude Pmm Vmm Kheap HeapSpec Kstate Fd Fs FsLaws Ramfs Proc ProcInv ProcOps ProcSteps ProcSafety Kinv Keyboard Pipe Vga Io Elf.

Abbreviation vm_of s := (hvm (k_heap (sys_kern s))).
Abbreviation mapped v a := (Vmm.translate v a <> None).

(** A page-aligned range that neither the identity map nor the heap uses. *)
Record window (lo hi : Z) : Prop := {
  w_aligned : lo mod 4096 = 0 /\ hi mod 4096 = 0;
  w_range : LOW_END <= lo <= hi /\ hi < 2 ^ 32;
  w_heap : hi <= HEAP_START \/ HEAP_MAX <= lo
}.

(** Pages of the window got frames of their own, frames that were free;
    every address mapped before is mapped as before. *)
Record pages_added (lo hi : Z) (v v' : vmm_state) : Prop := {
  pa_pmm : forall f, bitmap_test (vm_pmm v) f = true -> bitmap_test (vm_pmm v') f = true;
  pa_old : forall a q, 0 <= a < 2 ^ 32 -> Vmm.translate v a = Some q -> Vmm.translate v' a = Some q;
  pa_new : forall a q, 0 <= a < 2 ^ 32 -> Vmm.translate v a = None -> Vmm.translate v' a = Some q ->
    lo <= a < hi /\ q mod 4096 = a mod 4096 /\ bitmap_test (vm_pmm v) (q / 4096) = false /\ bitmap_test (vm_pmm v') (q / 4096) = true;
  pa_inj : forall a b q r, 0 <= a < 2 ^ 32 -> 0 <= b < 2 ^ 32 -> Vmm.translate v a = None -> Vmm.translate v b = None ->
    Vmm.translate v' a = Some q -> Vmm.translate v' b = Some r -> q / 4096 = r / 4096 -> a / 4096 = b / 4096
}.

#[export] Instance pages_added_preorder lo hi : PreOrder (pages_added lo hi).
Proof.
  split.
  - intros v. split; [done|done|congruence|congruence].
  - intros v1 v2 v3 [A1 A2 A3 A4] [B1 B2 B3 B4].
    assert (Hmid : forall a q, 0 <= a < 2 ^ 32 -> Vmm.translate v1 a = None -> Vmm.translate v3 a = Some q ->
      Vmm.translate v2 a = Some q /\ bitmap_test (vm_pmm v2) (q / 4096) = true \/
      Vmm.translate v2 a = None /\ bitmap_test (vm_pmm v2) (q / 4096) = false).
    { intros a q Ha H1 H3. destruct (Vmm.translate v2 a) as [q'|] eqn:H2; [left|right].
      - assert (q' = q) as -> by (pose proof (B2 a q' Ha H2); congruence). split; [done|]. by apply (A3 a q).
      - split; [done|]. by apply (B3 a q). }
    split; [auto|auto| |].
    + intros a q Ha H1 H3. destruct (Hmid a q Ha H1 H3) as [[H2 _]|[H2 Hf]].
      * destruct (A3 a q Ha H1 H2) as (? & ? & ? & ?). split; [done|]. auto.
      * destruct (B3 a q Ha H2 H3) as (? & ? & ? & ?). split; [done|]. split; [done|]. split; [|done].
        destruct (bitmap_test (vm_pmm v1) (q / 4096)) eqn:E; [|done]. apply A1 in E. congruence.
    + intros a b q r Ha Hb Ha1 Hb1 Ha3 Hb3 Heq.
      destruct (Hmid a q Ha Ha1 Ha3) as [[Ha2 Ea]|[Ha2 Ea]], (Hmid b r Hb Hb1 Hb3) as [[Hb2 Eb]|[Hb2 Eb]]; try congruence; eauto.
Qed.

(** The bytes of the pages that are new in [v'] are zero. *)
Definition cleared (v v' : vmm_state) (u : gmap Z Z) (a : Z) : option Z :=
  match Vmm.translate v a, Vmm.translate v' a with
  | None, Some _ => Some 0
  | _, _ => u !! a
  end.

Lemma cleared_same v u a : cleared v v u a = u !! a.
Proof. unfold cleared. by destruct (Vmm.translate v a). Qed.

Lemma fresh_added lo hi v v' page phys :
  vmm_inv v -> fresh_page v v' page phys -> page mod 4096 = 0 -> lo <= page -> page + 4096 <= hi -> 0 <= lo -> hi < 2 ^ 32 ->
  Vmm.translate v page = None -> pages_added lo hi v v'.
Proof.
  intros Hinv G Hal Hlo Hhi H0 H1 Hn. pose proof (fp_translate _ _ _ _ G) as Ht. destruct (fp_phys _ _ _ _ G) as [Hp Hpal].
  assert (Hpage : forall a, 0 <= a < 2 ^ 32 -> a / 4096 = page / 4096 -> Vmm.translate v a = None).
  { intros a Ha Heq. by apply (translate_page v page); [|lia|..]. }
  assert (Hnew : forall a q, 0 <= a < 2 ^ 32 -> Vmm.translate v a = None -> Vmm.translate v' a = Some q -> a / 4096 = page / 4096 /\ q = phys + a mod 4096).
  { intros a q Ha Hv. rewrite Ht by done. case_decide; [|congruence]. by intros [= <-]. }
  split.
  - apply (fp_ext _ _ _ _ G).
  - intros a q Ha Hq. rewrite Ht by done. case_decide as Hd; [|done]. rewrite Hpage in Hq; done.
  - intros a q Ha Hv Hq. destruct (Hnew a q Ha Hv Hq) as [He ->]. replace ((phys + a mod 4096) / 4096) with (phys / 4096) by zlia.
    split_and!; [zlia|zlia|zlia|apply (fp_new _ _ _ _ G)|apply (fp_data _ _ _ _ G)].
  - intros a b q r Ha Hb Ha1 Hb1 Hq Hr _. destruct (Hnew a q Ha Ha1 Hq) as [-> _], (Hnew b r Hb Hb1 Hr) as [-> _]. done.
Qed.

(** ** Bytes stored in memory *)

Section bytes.
Variable garbage : Z -> Z.

Definition byte_at (data : list byte) (i a : Z) : Z := default (garbage a) (default None (data !! Z.to_nat i)).

Lemma store_bytes_lookup data : forall a u b, 0 <= a -> a + Z.of_nat (length data) <= 2 ^ 32 ->
  store_bytes garbage a data u !! b =
    if decide (a <= b < a + Z.of_nat (length data)) then Some (byte_at data (b - a) b) else u !! b.
Proof.
  induction data as [|d data IH]; intros a u b Ha Hl; cbn [store_bytes length] in *; [rewrite decide_False by lia; done|].
  destruct data as [|d' data].
  { cbn [store_bytes length]. rewrite lookup_insert. case_decide as Hd.
    - subst b. rewrite decide_True by lia. unfold byte_at. by rewrite Z.sub_diag.
    - by rewrite decide_False by lia. }
  rewrite u32_small by (cbn [length] in Hl; lia). rewrite IH by (cbn [length] in *; lia). rewrite lookup_insert.
  destruct (decide (a + 1 <= b < a + 1 + Z.of_nat (length (d' :: data)))) as [Hd|Hd].
  - rewrite decide_True by lia. unfold byte_at. f_equal. replace (Z.to_nat (b - a)) with (S (Z.to_nat (b - (a + 1)))) by lia. done.
  - case_decide as He; [subst b; rewrite decide_True by lia; unfold byte_at; by rewrite Z.sub_diag|]. by rewrite decide_False by lia.
Qed.
End bytes.

(** ** Mapping the pages of a segment *)

Definition set_vm (v : vmm_state) (s : system) : system :=
  set_sys (with_kern (set_k_heap (set_hvm v (k_heap (sys_kern s))) (sys_kern s)) (sys s)) s.

Lemma on_vm_ok {A} (c : M vmm_state A) s r v : c (vm_of s) = Ok (r, v) -> on_vm c s = Ok (r, set_vm v s).
Proof. intros E. apply on_sys_ok, on_k_ok. unfold on_heap, vm, zoom. unfold sys_kern in E. by rewrite E. Qed.
Lemma on_vm_stop {A} (c : M vmm_state A) s f : c (vm_of s) = Stop f -> on_vm c s = Stop f.
Proof.
  intros E. unfold on_vm, on_sys, zoom. rewrite (on_k_stop _ (sys s) f); [done|].
  unfold on_heap, vm, zoom. unfold sys_kern in E. by rewrite E.
Qed.

Lemma set_vm_same s : set_vm (vm_of s) s = s.
Proof. destruct s as [[[kb k] t] u]. by destruct k as [[]]. Qed.
Lemma set_vm_twice v v' s : set_vm v' (set_vm v s) = set_vm v' s.
Proof. done. Qed.

(** The kernel keeps its invariant when a page outside the heap is mapped. *)
Lemma kinv_fresh (k : demo_kstate) v' page phys :
  kinv k -> fresh_page (hvm (k_heap k)) v' page phys -> page mod 4096 = 0 -> page < HEAP_START \/ HEAP_MAX <= page ->
  kinv (set_k_heap (set_hvm v' (k_heap k)) k).
Proof.
  intros (L & A & q & Hinv) G Hal Hout.
  destruct (kheap_ok_fresh _ L A v' page phys (pi_heap _ _ _ _ _ Hinv) G Hal Hout) as [Hok Hw].
  apply (kinv_effect k _ L A q [] Hinv). split; [constructor|]. exists (set_hvm v' (k_heap k)), (k_files k), L.
  split; [by destruct k|]. split; [done|]. split; [apply (pi_files _ _ _ _ _ Hinv)|].
  intros a (p & n & [Hp|Hp] & Ha); [done|]. apply Hw. exists p, n. split; [by right|done].
Qed.

Lemma kinv_vmm (k : demo_kstate) : kinv k -> vmm_inv (hvm (k_heap k)).
Proof. intros (L & A & q & Hinv). destruct (pi_heap _ _ _ _ _ Hinv) as [_ (bl & [[Hs _ _ _] _] & _)]. apply (hs_vm _ _ _ Hs). Qed.

Section load.
Variable garbage : Z -> Z.
Context (lo hi : Z) (Hw : window lo hi).
Implicit Types (s : system).

(** What [map_pages] leaves behind in the address space and in memory. *)
Record pages_mapped s (v' : vmm_state) (u' : gmap Z Z) : Prop := {
  pm_inv : kinv (sys_kern (set_vm v' s));
  pm_mono : vm_mono (vm_of s) v';
  pm_added : pages_added lo hi (vm_of s) v';
  pm_bytes : forall a, 0 <= a < 2 ^ 32 -> u' !! a = cleared (vm_of s) v' (umem s) a
}.

Lemma pages_mapped_refl s : kinv (sys_kern s) -> pages_mapped s (vm_of s) (umem s).
Proof. intros Hi. split; [by rewrite set_vm_same|done|done|]. intros a _. by rewrite cleared_same. Qed.

Lemma pages_mapped_trans s v1 u1 v2 u2 :
  pages_mapped s v1 u1 -> pages_mapped (set_umem u1 (set_vm v1 s)) v2 u2 -> pages_mapped s v2 u2.
Proof.
  intros [A1 A2 A3 A4] [B1 B2 B3 B4]. change (vm_of (set_umem u1 (set_vm v1 s))) with v1 in *. split; [done|by etrans|by etrans|].
  intros a Ha. rewrite B4 by done. unfold cleared in *. cbn [umem set_umem].
  destruct (Vmm.translate v1 a) as [q|] eqn:E1.
  - rewrite A4, E1 by done. rewrite (pa_old _ _ _ _ B3 a q Ha E1). done.
  - destruct (Vmm.translate (vm_of s) a) as [q|] eqn:E0; [pose proof (pa_old _ _ _ _ A3 a q Ha E0); congruence|].
    destruct (Vmm.translate v2 a); [done|]. rewrite A4, E0, E1 by done. done.
Qed.

(** One new page. *)
Lemma page_mapped s v' page phys :
  kinv (sys_kern s) -> fresh_page (vm_of s) v' page phys -> page mod 4096 = 0 -> lo <= page -> page + 4096 <= hi ->
  Vmm.translate (vm_of s) page = None ->
  pages_mapped s v' (store_bytes garbage page (replicate (Z.to_nat PAGE_SIZE) (Some 0)) (umem s)).
Proof.
  intros Hi G Hal Hlo Hhi Hn. destruct Hw as [Hwa [Hwr Hwt] Hwh]. unfold LOW_END in Hwr.
  assert (Hadd : pages_added lo hi (vm_of s) v') by (apply (fresh_added lo hi _ _ page phys); try done; [by apply kinv_vmm|lia]).
  split; [apply (kinv_fresh _ _ page phys); try done; lia|by apply vm_mono_ext; apply G|done|].
  intros a Ha. rewrite store_bytes_lookup; rewrite ?length_replicate; try (unfold PAGE_SIZE; lia).
  unfold cleared. rewrite (fp_translate _ _ _ _ G) by done. replace (Z.of_nat (Z.to_nat PAGE_SIZE)) with 4096 by done.
  destruct (decide (a / 4096 = page / 4096)) as [He|He].
  - rewrite decide_True by zlia. rewrite (translate_page (vm_of s) page a) by (done || lia || by apply kinv_vmm).
    unfold byte_at. rewrite lookup_replicate_2 by (unfold PAGE_SIZE; zlia). done.
  - rewrite decide_False by zlia. by destruct (Vmm.translate (vm_of s) a).
Qed.

Lemma map_pages_run n : forall page s,
  kinv (sys_kern s) -> (forall a, lo <= a < hi -> table_ready (vm_of s) a) ->
  page mod 4096 = 0 -> lo <= page -> page + 4096 * Z.of_nat n <= hi ->
  map_pages garbage n page s = Stop map_panic \/
  exists ok v' u', map_pages garbage n page s = Ok (ok, set_umem u' (set_vm v' s)) /\ pages_mapped s v' u' /\
    if ok : bool then forall a, page <= a < page + 4096 * Z.of_nat n -> mapped v' a else (pmm_alloc_frame (vm_pmm v')).1 = 0.
Proof.
  destruct Hw as [Hwa [Hwr Hwt] Hwh]. unfold LOW_END in Hwr.
  induction n as [|n IH]; intros page s Hi Hready Hal Hlo Hhi.
  { right. exists true, (vm_of s), (umem s). split; [rewrite set_vm_same; by destruct s|]. split; [by apply pages_mapped_refl|lia]. }
  pose proof (kinv_vmm _ Hi) as Hinv. cbn [map_pages].
  rewrite (bind_ok _ _ _ _ _ (on_vm_ok _ s _ _ (vmm_is_mapped_run _ page Hinv ltac:(lia)))), set_vm_same.
  assert (Hnext : page +w PAGE_SIZE = page + 4096) by (apply u32_small; unfold PAGE_SIZE; lia). rewrite Hnext.
  assert (Hgo : forall v1 u1, pages_mapped s v1 u1 -> mapped v1 page -> vmm_inv v1 ->
    map_pages garbage n (page + 4096) (set_umem u1 (set_vm v1 s)) = Stop map_panic \/
    exists ok v' u', map_pages garbage n (page + 4096) (set_umem u1 (set_vm v1 s)) = Ok (ok, set_umem u' (set_vm v' s)) /\ pages_mapped s v' u' /\
      if ok : bool then forall a, page <= a < page + 4096 * Z.of_nat (S n) -> mapped v' a else (pmm_alloc_frame (vm_pmm v')).1 = 0).
  { intros v1 u1 Hp Hm Hv1. set (s1 := set_umem u1 (set_vm v1 s)).
    destruct (IH (page + 4096) s1) as [E|(ok & v' & u' & E & Hp' & Hok)]; try (zlia || lia).
    - apply Hp.
    - intros a Ha. apply (table_ready_mono (vm_of s)); [apply Hp|lia|by apply Hready].
    - by left.
    - right. exists ok, v', u'. split; [exact E|]. split; [by apply (pages_mapped_trans s v1 u1)|]. destruct ok; [|done].
      intros a Ha. destruct (decide (page + 4096 <= a)); [apply Hok; lia|].
      destruct (Vmm.translate v1 a) as [q|] eqn:Eq; [rewrite (pa_old _ _ _ _ (pm_added _ _ _ Hp') a q) by (done || lia); done|].
      destruct Hm. apply (translate_page v1 a); done || lia || zlia. }
  destruct (Vmm.translate (vm_of s) page) as [q|] eqn:Ept; cbn.
  { pose proof (Hgo (vm_of s) (umem s)) as H0. rewrite set_vm_same in H0. replace (set_umem (umem s) s) with s in H0 by (by destruct s).
    apply H0; [by apply pages_mapped_refl|congruence|done]. }
  destruct (pmm_alloc_frame (vm_pmm (vm_of s))) as [phys p] eqn:Ea.
  rewrite (bind_ok _ _ _ phys _ (on_vm_ok alloc_frame s phys (set_pmm p (vm_of s)) ltac:(unfold alloc_frame; by rewrite Ea))).
  destruct (Z.eqb_spec phys 0) as [->|Hnz].
  { right. destruct (pmm_alloc_frame_cases _ _ _ (vi_pmm _ Hinv) Ea) as [(g & Hg & _ & Heq & _)|(_ & -> & _)]; [unfold PAGE_SIZE in *; lia|].
    exists false, (vm_of s), (umem s). replace (set_pmm (vm_pmm (vm_of s)) (vm_of s)) with (vm_of s) by (by destruct (vm_of s)).
    rewrite set_vm_same. split; [by destruct s|]. split; [by apply pages_mapped_refl|]. by rewrite Ea. }
  destruct (map_page_ready (vm_of s) page phys p Hinv) as [(v' & E & G)|E]; try done.
  { unfold LOW_END. lia. }
  { apply Hready. lia. }
  - rewrite (bind_ok _ _ _ _ _ (on_vm_ok _ (set_vm (set_pmm p (vm_of s)) s) _ _ E)), set_vm_twice.
    rewrite (bind_ok _ _ _ tt _ eq_refl). apply Hgo; [|rewrite (fp_translate _ _ _ _ G), decide_True by (lia || done); done|apply G].
    apply (page_mapped s v' page phys); done || lia.
  - left. apply bind_stop. by apply on_vm_stop.
Qed.
(** ** The reference image *)

(** The file bytes of a segment over what memory held before. *)
Definition overlay (data : list byte) (ph : Elf32_Phdr) (under : Z -> option Z) (a : Z) : option Z :=
  if decide (p_vaddr ph <= a < p_vaddr ph + p_filesz ph)
  then Some (byte_at garbage data (p_offset ph + (a - p_vaddr ph)) a) else under a.
Definition image (data : list byte) (segs : list Elf32_Phdr) (under : Z -> option Z) : Z -> option Z :=
  foldl (fun m ph => overlay data ph m) under segs.

Lemma image_snoc data segs ph under : image data (segs ++ [ph]) under = overlay data ph (image data segs under).
Proof. unfold image. by rewrite foldl_app. Qed.

(** The image at an address depends on what was below at that address only. *)
Lemma image_at data segs a : forall u1 u2 : Z -> option Z, u1 a = u2 a -> image data segs u1 a = image data segs u2 a.
Proof. induction segs as [|ph segs IH]; intros u1 u2 Hu; simpl; [done|]. apply IH. unfold overlay. by case_decide. Qed.

Lemma image_outside data segs a : (forall ph, ph ∈ segs -> ~ p_vaddr ph <= a < p_vaddr ph + p_filesz ph) ->
  forall under, image data segs under a = under a.
Proof using. clear Hw lo hi.
  induction segs as [|ph segs IH]; intros Hout under; simpl; [done|]. rewrite IH; [|intros; apply Hout; set_solver].
  unfold overlay. rewrite decide_False; [done|]. apply Hout. set_solver.
Qed.

(** The pages of a segment. *)
Definition covered (ph : Elf32_Phdr) (a : Z) : Prop :=
  0 < p_memsz ph /\ page_start (p_vaddr ph) <= a < page_end (p_vaddr ph) (p_memsz ph).

(** A segment of the file [data] that the window holds. *)
Record seg_ok (data : list byte) (ph : Elf32_Phdr) : Prop := {
  so_sizes : 0 <= p_filesz ph <= p_memsz ph;
  so_window : lo <= p_vaddr ph /\ p_vaddr ph + p_memsz ph <= hi;
  so_file : 0 <= p_offset ph < 2 ^ 31 /\ p_offset ph + p_filesz ph <= Z.of_nat (length data)
}.

Lemma page_start_round a : 0 <= a < 2 ^ 32 -> page_start a = a - a mod 4096.
Proof using. intros Ha. unfold page_start. change (PAGE_SIZE - 1) with (2 ^ 12 - 1). by rewrite mask_round. Qed.

Lemma page_end_round a n : 0 <= a -> 0 <= n -> a + n + 4095 < 2 ^ 32 -> page_end a n = a + n + 4095 - (a + n + 4095) mod 4096.
Proof using.
  intros Ha Hn Hl. unfold page_end, PAGE_SIZE. change (Z.lnot (4096 - 1)) with (Z.lnot (2 ^ 12 - 1)). rewrite u32_small, mask_round by lia.
  replace (a + n + 4096 - 1) with (a + n + 4095) by lia. done.
Qed.

(** The pages of such a segment are pages of the window and hold its bytes. *)
Lemma seg_pages data ph : seg_ok data ph ->
  page_start (p_vaddr ph) mod 4096 = 0 /\ lo <= page_start (p_vaddr ph) <= p_vaddr ph /\
  p_vaddr ph + p_memsz ph <= page_end (p_vaddr ph) (p_memsz ph) <= hi /\ page_end (p_vaddr ph) (p_memsz ph) mod 4096 = 0.
Proof using Hw. clear garbage.
  intros [H1 H2 H3]. destruct Hw as [Hwa [Hwr Hwt] Hwh]. unfold LOW_END in Hwr.
  assert (hi + 4096 <= 2 ^ 32) by zlia. rewrite page_start_round, page_end_round by lia. zlia.
Qed.

Lemma seg_covered data ph a : seg_ok data ph -> p_vaddr ph <= a < p_vaddr ph + p_filesz ph -> covered ph a.
Proof using Hw. clear garbage. intros Hok Ha. pose proof (seg_pages data ph Hok). pose proof (so_sizes _ _ Hok). unfold covered. lia. Qed.
(** ** Loading the segments *)

Context (s0 : system) (f : Z) (x : file) (v : Z) (y : vnode) (ino : ramfs_inode) (data : list byte) (esp : Z).

(** The state while the program is loaded; [segs] are the segments done. *)
Record image_inv s (segs : list Elf32_Phdr) : Prop := {
  ii_inv : kinv (sys_kern s);
  ii_open : exists off, open_on (sys_kern s) f (set_f_offset off x) v y ino data /\
    objs (k_files (sys_kern s)) = <[f := OFile (set_f_offset off x)]> (objs (k_files (sys_kern s0)));
  ii_ready : forall a, lo <= a < hi -> table_ready (vm_of s) a;
  ii_added : pages_added lo hi (vm_of s0) (vm_of s);
  ii_mapped : forall ph a, ph ∈ segs -> covered ph a -> mapped (vm_of s) a;
  ii_ok : Forall (seg_ok data) segs;
  ii_current : current_proc (sys_kern s) = current_proc (sys_kern s0);
  ii_bytes : forall a, 0 <= a < 2 ^ 32 -> umem s !! a = image data segs (cleared (vm_of s0) (vm_of s) (umem s0)) a
}.

Lemma read_run s segs buf len offset :
  image_inv s segs -> buf <> 0 -> 0 < len -> 0 <= offset < 2 ^ 31 ->
  let got := slice data offset len in
  exists s', elf_read_at f buf len offset esp s = Ok (Loaded (Z.of_nat (length got), got), s') /\ image_inv s' segs /\ vm_of s' = vm_of s.
Proof.
  intros [I1 (off & I2 & I2') I3 I4 I5 I6 Ic I7] Hb Hl Ho got.
  destruct (elf_read_run s f _ v y ino data buf len offset esp I1 I2 Hb Hl Ho) as (s' & E & Hu & Hi & off' & Hk & Ho').
  exists s'. split; [exact E|]. split; [|by rewrite Hk]. split; rewrite ?Hu; try done; [|by rewrite Hk..].
  exists off'. split; [done|]. rewrite Hk. simpl. by rewrite I2', insert_insert_eq.
Qed.

(** The pages of the next segment are mapped. *)
Lemma image_pages s segs v' u' :
  image_inv s segs -> pages_mapped s v' u' -> image_inv (set_umem u' (set_vm v' s)) segs.
Proof.
  intros [I1 I2 I3 I4 I5 I6 Ic I7] [P1 P2 P3 P4]. split; [exact P1|destruct I2 as (off & [] & ?); by exists off|..|exact I6|exact Ic|].
  - intros a Ha. destruct Hw as [_ [Hwr Hwt] _]. unfold LOW_END in Hwr. apply (table_ready_mono (vm_of s)); [done|lia|by apply I3].
  - by etrans.
  - intros ph a Hph Hc. specialize (I5 ph a Hph Hc). change (vm_of (set_umem u' (set_vm v' s))) with v'.
    destruct (Vmm.translate (vm_of s) a) as [q|] eqn:E; [|done].
    rewrite Forall_forall in I6. pose proof (seg_pages data ph (I6 ph Hph)) as Hp. destruct Hc as [_ Hc]. destruct Hw as [_ [Hwr Hwt] _].
    unfold LOW_END in Hwr. rewrite (pa_old _ _ _ _ P3 a q) by (done || lia). done.
  - intros a Ha. change (vm_of (set_umem u' (set_vm v' s))) with v'. cbn [umem set_umem]. rewrite P4 by done. unfold cleared at 1.
    destruct (Vmm.translate (vm_of s) a) as [q|] eqn:E.
    + rewrite I7 by done. apply image_at. unfold cleared. by rewrite E, (pa_old _ _ _ _ P3 a q Ha E).
    + assert (E0 : Vmm.translate (vm_of s0) a = None).
      { destruct (Vmm.translate (vm_of s0) a) as [q|] eqn:E0; [|done]. pose proof (pa_old _ _ _ _ I4 a q Ha E0). congruence. }
      destruct (Vmm.translate v' a) as [q|] eqn:E'.
      * rewrite image_outside; [unfold cleared; by rewrite E0, E'|]. intros ph Hph Hc. rewrite Forall_forall in I6.
        apply (I5 ph a Hph); [|done]. by apply (seg_covered data), Hc; apply I6.
      * rewrite I7 by done. apply image_at. unfold cleared. by rewrite E0, E, E'.
Qed.

(** The file part of the segment is copied. *)
Lemma image_copy s segs ph :
  image_inv s segs -> seg_ok data ph -> (forall a, covered ph a -> mapped (vm_of s) a) ->
  image_inv (set_umem (store_bytes garbage (p_vaddr ph) (slice data (p_offset ph) (p_filesz ph)) (umem s)) s) (segs ++ [ph]).
Proof.
  intros [I1 I2 I3 I4 I5 I6 Ic I7] Hok Hm. pose proof Hok as [H1 H2 H3]. destruct Hw as [_ [Hwr Hwt] _]. unfold LOW_END in Hwr.
  split; try done.
  - intros ph' a [Hp| ->%list_elem_of_singleton]%elem_of_app; [by apply I5|by apply Hm].
  - apply Forall_app. split; [done|]. by apply Forall_singleton.
  - intros a Ha. cbn [umem set_umem]. rewrite image_snoc.
    assert (Hlen : length (slice data (p_offset ph) (p_filesz ph)) = Z.to_nat (p_filesz ph)).
    { unfold slice. rewrite length_take, length_drop. lia. }
    rewrite store_bytes_lookup by (rewrite ?Hlen; lia). rewrite Hlen, Z2Nat.id by lia. unfold overlay. case_decide as Hd; [|by apply I7].
    f_equal. unfold byte_at, slice. rewrite lookup_take_lt, lookup_drop by lia. f_equal. f_equal. f_equal. lia.
Qed.
Definition exhausted s : Prop := (pmm_alloc_frame (vm_pmm (vm_of s))).1 = 0.

Lemma all_mapped_run s ph : seg_ok data ph -> (forall a, covered ph a -> mapped (vm_of s) a) ->
  all_mapped s (p_vaddr ph) (length (slice data (p_offset ph) (p_filesz ph))) = true.
Proof.
  intros Hok Hm. pose proof (seg_pages data ph Hok) as Hp. destruct Hw as [_ [Hwr Hwt] _]. unfold LOW_END in Hwr.
  apply forallb_forall. intros i [_ Hi]%in_seq. unfold slice in Hi. rewrite length_take, length_drop in Hi.
  pose proof (so_sizes _ _ Hok). rewrite u32_small by lia.
  assert (Hc : mapped (vm_of s) (p_vaddr ph + Z.of_nat i)) by (apply Hm, (seg_covered data); [done|lia]).
  by destruct (Vmm.translate (vm_of s) (p_vaddr ph + Z.of_nat i)).
Qed.

Lemma image_empty s segs ph :
  image_inv s segs -> seg_ok data ph -> (forall a, covered ph a -> mapped (vm_of s) a) -> p_filesz ph = 0 -> image_inv s (segs ++ [ph]).
Proof.
  intros Hi Hok Hm Hz. pose proof (image_copy s segs ph Hi Hok Hm) as Hc. rewrite Hz in Hc. by destruct s.
Qed.

Lemma segment_run s segs ph : image_inv s segs -> seg_ok data ph ->
  elf_load_segment garbage f ph esp s = Stop map_panic \/
  (exists s', elf_load_segment garbage f ph esp s = Ok (Loaded (-1), s') /\ image_inv s' segs /\ exhausted s') \/
  (exists s', elf_load_segment garbage f ph esp s = Ok (Loaded 0, s') /\ image_inv s' (segs ++ [ph])).
Proof.
  intros Hi Hok. pose proof Hok as [H1 H2 H3]. pose proof (seg_pages data ph Hok) as Hp. unfold elf_load_segment.
  rewrite (proj2 (Z.ltb_ge _ _)) by lia. destruct (Z.eqb_spec (p_memsz ph) 0) as [Hz|Hz].
  { right. right. exists s. split; [done|]. apply image_empty; [done|done|intros a [Hc _]; lia|lia]. }
  set (n := Z.to_nat _).
  assert (Hn : page_start (p_vaddr ph) + 4096 * Z.of_nat n = page_end (p_vaddr ph) (p_memsz ph)) by (unfold n, PAGE_SIZE; zlia).
  destruct (map_pages_run n (page_start (p_vaddr ph)) s (ii_inv _ _ Hi) (ii_ready _ _ Hi)) as [E|(ok & v' & u' & E & Hm & Hr)]; try lia.
  { left. by apply bind_stop. }
  rewrite (bind_ok _ _ _ _ _ E). pose proof (image_pages s segs v' u' Hi Hm) as Hi1. set (s1 := set_umem u' (set_vm v' s)) in *.
  destruct ok; cbn [negb]; [|right; left; by exists s1].
  assert (Hmap : forall a, covered ph a -> mapped (vm_of s1) a) by (intros a [_ Hc]; apply Hr; lia).
  right. right. destruct (Z.ltb_spec 0 (p_filesz ph)) as [Hf|Hf]; cbn [negb].
  2: { exists s1. split; [done|]. apply image_empty; [done..|lia]. }
  destruct Hw as [_ [Hwr _] _]. unfold LOW_END in Hwr.
  destruct (read_run s1 segs (p_vaddr ph) (p_filesz ph) (p_offset ph) Hi1) as (s2 & E2 & Hi2 & Hv2); [lia..|].
  rewrite (bind_ok _ _ _ _ _ E2). cbv zeta iota beta. rewrite <- Hv2 in Hmap.
  rewrite (bind_ok _ _ s2 true s2) by (unfold gets; by rewrite (all_mapped_run s2 ph)). cbn [negb].
  set (s3 := set_umem (store_bytes garbage (p_vaddr ph) (slice data (p_offset ph) (p_filesz ph)) (umem s2)) s2).
  rewrite (bind_ok _ _ s2 tt s3) by done. exists s3. split; [|by apply image_copy].
  assert (Hlen : Z.of_nat (length (slice data (p_offset ph) (p_filesz ph))) = p_filesz ph).
  { unfold slice. rewrite length_take, length_drop. lia. }
  rewrite Hlen, (proj2 (Z.ltb_ge (p_filesz ph) 0)), (proj2 (Z.ltb_ge (p_filesz ph) (p_filesz ph))) by lia. done.
Qed.

(** The program headers, and the segments they announce. *)
Definition ph_offset (h : Elf32_Ehdr) (i : Z) : Z := u32 (e_phoff h + i * e_phentsize h).
Definition phdr_at (h : Elf32_Ehdr) (i : Z) : Elf32_Phdr := phdr_of (local_bytes garbage (slice data (ph_offset h i) SIZEOF_PHDR)).
Fixpoint program (h : Elf32_Ehdr) (n : nat) (i : Z) : list Elf32_Phdr :=
  match n with
  | O => []
  | S n' => (if p_type (phdr_at h i) =? PT_LOAD then [phdr_at h i] else []) ++ program h n' (i + 1)
  end.
Definition headers_in (h : Elf32_Ehdr) (n : Z) : Prop := forall i, 0 <= i < n ->
  ph_offset h i < 2 ^ 31 /\ ph_offset h i + SIZEOF_PHDR <= Z.of_nat (length data).

Lemma load_segments_run h n : forall i s segs,
  image_inv s segs -> 0 <= i -> headers_in h (i + Z.of_nat n) -> Forall (seg_ok data) (program h n i) ->
  load_segments garbage n i f h esp s = Stop map_panic \/
  (exists s' segs', load_segments garbage n i f h esp s = Ok (Loaded false, s') /\ image_inv s' segs' /\ exhausted s') \/
  (exists s', load_segments garbage n i f h esp s = Ok (Loaded true, s') /\ image_inv s' (segs ++ program h n i)).
Proof.
  induction n as [|n IH]; intros i s segs Hi H0 Hh Hok; cbn [load_segments program].
  { right. right. exists s. rewrite app_nil_r. done. }
  destruct (Hh i ltac:(lia)) as [Hoff Hlen]. fold (ph_offset h i).
  assert (Hr : 0 <= ph_offset h i) by apply u32_range.
  destruct (read_run s segs 1 SIZEOF_PHDR (ph_offset h i) Hi) as (s1 & E1 & Hi1 & _); [done|done|lia|].
  rewrite (bind_ok _ _ _ _ _ E1). cbv zeta iota beta.
  assert (Hgot : Z.of_nat (length (slice data (ph_offset h i) SIZEOF_PHDR)) = SIZEOF_PHDR).
  { unfold slice. rewrite length_take, length_drop. unfold SIZEOF_PHDR in *. lia. }
  rewrite Hgot. cbn [negb Z.eqb SIZEOF_PHDR Pos.eqb]. fold (phdr_at h i).
  assert (Hh' : headers_in h (i + 1 + Z.of_nat n)) by (intros j Hj; apply Hh; lia).
  cbn [program] in Hok. apply Forall_app in Hok as [Hph Hok].
  destruct (p_type (phdr_at h i) =? PT_LOAD) eqn:Et; cbn [negb]; [|by apply IH; [|lia|..]].
  rewrite Forall_singleton in Hph.
  destruct (segment_run s1 segs (phdr_at h i) Hi1 Hph) as [E|[(s2 & E & Hi2 & Hx)|(s2 & E & Hi2)]].
  - left. by apply bind_stop.
  - right. left. exists s2, segs. by rewrite (bind_ok _ _ _ _ _ E).
  - rewrite (bind_ok _ _ _ _ _ E). cbv iota beta. destruct (IH (i + 1) s2 _ Hi2 ltac:(lia) Hh' Hok) as [E'|[E'|E']]; [by left|right; by left|].
    rewrite app_assoc. by right; right.
Qed.
End load.

(** ** Loading a file *)

Lemma same_vm_added lo hi v v' : same_vm v v' -> pages_added lo hi v v'.
Proof.
  intros [Hp Ht]. split; [by rewrite Hp|..].
  - intros a q Ha. by rewrite Ht.
  - intros a q Ha. rewrite Ht by done. congruence.
  - intros a b q r Ha Hb. rewrite !Ht by done. congruence.
Qed.

Section file.
Variable garbage : Z -> Z.
Implicit Types (s : system).

Definition file_header (data : list byte) : Elf32_Ehdr := ehdr_of (local_bytes garbage (slice data 0 SIZEOF_EHDR)).
Definition phdr_count (data : list byte) : nat := Z.to_nat (e_phnum (file_header data)).
Definition file_segments (data : list byte) : list Elf32_Phdr := program garbage data (file_header data) (phdr_count data) 0.

(** An executable for the window. *)
Record loadable (lo hi : Z) (data : list byte) : Prop := {
  lb_size : SIZEOF_EHDR <= Z.of_nat (length data);
  lb_header : elf_valid garbage data;
  lb_phdrs : headers_in data (file_header data) (Z.of_nat (phdr_count data));
  lb_segments : Forall (seg_ok lo hi data) (file_segments data)
}.

(** The bytes of a segment are where its header says, and the rest of its
    memory is zero. *)
Definition placed (u : gmap Z Z) (data : list byte) (ph : Elf32_Phdr) : Prop := forall i, 0 <= i < p_memsz ph ->
  u !! (p_vaddr ph + i) = Some (if i <? p_filesz ph then byte_at garbage data (p_offset ph + i) (p_vaddr ph + i) else 0).

(** The file bytes of [ph'] lie outside the memory of [ph]. *)
Definition apart (ph ph' : Elf32_Phdr) : Prop :=
  p_vaddr ph' + p_filesz ph' <= p_vaddr ph \/ p_vaddr ph + p_memsz ph <= p_vaddr ph'.

Lemma image_covered data ph a under : p_vaddr ph <= a < p_vaddr ph + p_filesz ph -> forall segs,
  (forall ph', ph' ∈ segs -> ph' = ph \/ ~ p_vaddr ph' <= a < p_vaddr ph' + p_filesz ph') -> ph ∈ segs ->
  image garbage data segs under a = Some (byte_at garbage data (p_offset ph + (a - p_vaddr ph)) a).
Proof.
  intros Ha segs. induction segs as [|ph' segs IH] using rev_ind; intros Hall Hin; [set_solver|].
  rewrite image_snoc. unfold overlay. destruct (Hall ph') as [->|Hout]; [set_solver|by rewrite decide_True|].
  rewrite decide_False by done. apply IH; [intros; apply Hall; set_solver|]. apply elem_of_app in Hin as [|Hin]; [done|].
  apply list_elem_of_singleton in Hin as ->. done.
Qed.

Lemma image_placed lo hi data ph segs u u' v v' :
  window lo hi -> seg_ok lo hi data ph -> ph ∈ segs -> (forall ph', ph' ∈ segs -> ph' = ph \/ apart ph ph') ->
  (forall a, lo <= a < hi -> Vmm.translate v a = None) -> (forall a, covered ph a -> 0 <= a < 2 ^ 32 -> mapped v' a) ->
  (forall a, 0 <= a < 2 ^ 32 -> u' !! a = image garbage data segs (cleared v v' u) a) -> placed u' data ph.
Proof.
  intros Hw Hok Hin Hap Hnew Hmap Hu i Hi. pose proof (seg_pages lo hi Hw data ph Hok) as Hp. pose proof Hok as [H1 H2 H3].
  destruct Hw as [_ [Hwr Hwt] _]. unfold LOW_END in Hwr. rewrite Hu by lia. destruct (Z.ltb_spec i (p_filesz ph)).
  - rewrite (image_covered data ph); [f_equal; f_equal; lia|lia| |done].
    intros ph' Hp'. destruct (Hap ph' Hp') as [|Ha]; [by left|right]. unfold apart in Ha. lia.
  - rewrite image_outside.
    + unfold cleared. rewrite Hnew by lia. specialize (Hmap (p_vaddr ph + i)). destruct (Vmm.translate v' (p_vaddr ph + i)); [done|].
      destruct Hmap; [unfold covered; lia|lia|done].
    + intros ph' Hp'. destruct (Hap ph' Hp') as [->|Ha]; [lia|]. unfold apart in Ha. lia.
Qed.

(** The rest of [elf_load] once the file is open. *)
Lemma elf_load_run s path esp f k x v y ino data lo hi :
  vfs_open path O_RDONLY (sys_kern s) = Ok (f, k) -> kinv (sys_kern s) -> open_on k f x v y ino data -> f_refcount x = 1 ->
  window lo hi -> (forall a, lo <= a < hi -> table_ready (hvm (k_heap k)) a) -> loadable lo hi data ->
  elf_load garbage path esp s = Stop map_panic \/
  exists s' segs,
    (elf_load garbage path esp s = Ok (Loaded 0, s') /\ exhausted s' \/
      elf_load garbage path esp s = Ok (Loaded (e_entry (file_header data)), s') /\ segs = file_segments data) /\
    kinv (sys_kern s') /\ closed f v y (objs (k_files k)) (objs (k_files (sys_kern s'))) /\
    current_proc (sys_kern s') = current_proc (sys_kern s) /\ pages_added lo hi (hvm (k_heap k)) (vm_of s') /\
    (forall ph a, ph ∈ segs -> covered ph a -> 0 <= a < 2 ^ 32 -> mapped (vm_of s') a) /\
    (forall a, 0 <= a < 2 ^ 32 -> umem s' !! a = image garbage data segs (cleared (hvm (k_heap k)) (vm_of s') (umem s)) a).
Proof.
  intros Eo Hi0 Ho Hr Hw Hready [L1 L2 L3 L4]. pose proof (preserves_keeps true _ (keeps_vfs_open path O_RDONLY) _ _ _ Hi0 Eo) as Hi. unfold elf_load. set (s1 := set_sys (with_kern k (sys s)) s).
  rewrite (bind_ok _ _ s f s1) by (apply on_sys_ok, on_k_ok; exact Eo).
  pose proof (open_on_nonzero _ _ _ _ _ _ _ Hi Ho) as [Hz _]. rewrite (proj2 (Z.eqb_neq f 0)) by done.
  assert (Hinv : image_inv garbage lo hi s1 f x v y ino data s1 []).
  { split; [done|exists (f_offset x); split; [by destruct x|]; rewrite insert_id; [done|]; etrans; [exact (oo_file _ _ _ _ _ _ _ Ho)|by destruct x]|done|done|set_solver|constructor|done|]. intros a _. simpl. by rewrite cleared_same. }
  destruct (read_run garbage lo hi s1 f x v y ino data esp s1 [] 1 SIZEOF_EHDR 0 Hinv) as (s2 & E2 & Hi2 & _); [done|done|lia|].
  rewrite (bind_ok _ _ _ _ _ E2). cbv zeta iota beta. fold (file_header data).
  assert (Hgot : Z.of_nat (length (slice data 0 SIZEOF_EHDR)) = SIZEOF_EHDR).
  { unfold slice. rewrite length_take, length_drop. unfold SIZEOF_EHDR in *. lia. }
  apply (ehdr_ok_valid garbage data L1) in L2. fold (file_header data) in L2. rewrite Hgot, L2, Z.eqb_refl. cbn [negb orb]. fold (phdr_count data).
  assert (Hclose : forall s3 segs, image_inv garbage lo hi s1 f x v y ino data s3 segs -> exists s',
    on_sys (on_k (vfs_close_op f)) s3 = Ok (tt, s') /\ kinv (sys_kern s') /\ closed f v y (objs (k_files k)) (objs (k_files (sys_kern s'))) /\
    current_proc (sys_kern s') = current_proc (sys_kern s) /\ same_vm (vm_of s3) (vm_of s') /\ umem s' = umem s3).
  { intros s3 segs Hi3. destruct (ii_open _ _ _ _ _ _ _ _ _ _ _ _ Hi3) as (off & Ho3 & Eo3).
    destruct (vfs_close_regular (sys_kern s3) f _ v y ino data (ii_inv _ _ _ _ _ _ _ _ _ _ _ _ Hi3) Ho3 Hr) as (k4 & E4 & Hi4 & Hs4 & Hc4).
    exists (set_sys (with_kern k4 (sys s3)) s3). split; [apply on_sys_ok, on_k_ok; exact E4|]. split; [done|].
    split; [unfold closed in *; rewrite Eo3, delete_insert_eq in Hc4; exact Hc4|]. split; [|done].
    change (current_proc k4 = current_proc (sys_kern s)).
    rewrite (keeps_current false _ _ _ _ (keeps_vfs_close f) (ii_inv _ _ _ _ _ _ _ _ _ _ _ _ Hi3) E4), (ii_current _ _ _ _ _ _ _ _ _ _ _ _ Hi3).
    exact (keeps_current true _ _ _ _ (keeps_vfs_open path O_RDONLY) Hi0 Eo). }
  assert (Hend : forall s3 segs s', image_inv garbage lo hi s1 f x v y ino data s3 segs -> same_vm (vm_of s3) (vm_of s') -> umem s' = umem s3 ->
     pages_added lo hi (hvm (k_heap k)) (vm_of s') /\
     (forall ph a, ph ∈ segs -> covered ph a -> 0 <= a < 2 ^ 32 -> mapped (vm_of s') a) /\
     (forall a, 0 <= a < 2 ^ 32 -> umem s' !! a = image garbage data segs (cleared (hvm (k_heap k)) (vm_of s') (umem s)) a)).
  { intros s3 segs s' [_ _ _ I4 I5 _ _ I7] Hs Hu. split; [etrans; [exact I4|by apply same_vm_added]|]. destruct Hs as [_ Ht]. split.
    - intros ph a Hph Hc Ha. rewrite Ht by done. by apply (I5 ph).
    - intros a Ha. rewrite Hu, I7 by done. apply image_at. unfold cleared. by rewrite Ht. }
  destruct (load_segments_run garbage lo hi Hw s1 f x v y ino data esp (file_header data) (phdr_count data) 0 s2 [] Hi2 ltac:(lia) L3 L4)
    as [E|[(s3 & segs & E & Hi3 & Hx)|(s3 & E & Hi3)]]; [left; by apply bind_stop|right..];
    destruct (Hclose _ _ Hi3) as (s' & E' & Hk' & Hcl' & Hc' & Hs' & Hu'); rewrite (bind_ok _ _ _ _ _ E); cbv iota beta; rewrite (bind_ok _ _ _ _ _ E');
    exists s'; eexists; (split; [|split; [done|split; [done|split; [done|by apply (Hend s3)]]]]).
  - left. split; [done|]. unfold exhausted. by rewrite (sv_pmm _ _ Hs').
  - by right.
Qed.


(** Pages that were mapped before the load are not cleared: a byte of such a
    page that no segment of the file covers, a byte of the bss say, keeps
    what it held, for instance the data of the program loaded there before. *)
Theorem elf_bss_stale s path esp f k x v y ino data lo hi a :
  vfs_open path O_RDONLY (sys_kern s) = Ok (f, k) -> kinv (sys_kern s) -> open_on k f x v y ino data -> f_refcount x = 1 ->
  window lo hi -> (forall a, lo <= a < hi -> table_ready (hvm (k_heap k)) a) -> loadable lo hi data ->
  0 <= a < 2 ^ 32 -> mapped (hvm (k_heap k)) a ->
  (forall ph, ph ∈ file_segments data -> ~ p_vaddr ph <= a < p_vaddr ph + p_filesz ph) ->
  forall s', elf_load garbage path esp s = Ok (Loaded (e_entry (file_header data)), s') -> e_entry (file_header data) <> 0 ->
  umem s' !! a = umem s !! a.
Proof.
  intros Eo Hi Ho Hr Hw Hready Hl Ha Hm Hout s' E Hnz.
  destruct (elf_load_run s path esp f k x v y ino data lo hi Eo Hi Ho Hr Hw Hready Hl) as [E'|(s2 & segs & [[E' _]|[E' ->]] & _ & _ & _ & _ & _ & Hu)];
    rewrite E in E'; [done|by injection E'|]. injection E' as <-. rewrite Hu, image_outside by done.
  unfold cleared. by destruct (Vmm.translate (hvm (k_heap k)) a).
Qed.
End file.

(** ** On the demonstration machine

    The file "/a" holds an executable with one segment, four bytes and four
    more of bss at 0x08048000. *)

Definition demo_elf : list Z :=
  [0x7F; 69; 76; 70; 1; 1; 1; 0; 0; 0; 0; 0; 0; 0; 0; 0; 2; 0; 3; 0; 1; 0; 0; 0; 0x10; 0x80; 0x04; 0x08; 52; 0; 0; 0; 0; 0; 0; 0;
   0; 0; 0; 0; 52; 0; 32; 0; 1; 0; 40; 0; 0; 0; 0; 0;
   1; 0; 0; 0; 84; 0; 0; 0; 0; 0x80; 0x04; 0x08; 0; 0x80; 0x04; 0x08; 4; 0; 0; 0; 8; 0; 0; 0; 5; 0; 0; 0; 0; 0x10; 0; 0;
   1; 2; 3; 4].
Definition demo_elf_data : list byte := Some <$> demo_elf.
Definition no_garbage (a : Z) : Z := 0.

Definition demo_exec : machine kheap_state := final (vfs_write demo_fptr demo_buf demo_elf demo_esp) demo_machine.
Definition demo_exec_system : system := System demo_exec ∅.
Abbreviation demo_exec_open := (vfs_open demo_path O_RDONLY (sys_kern demo_exec_system)).

Lemma demo_exec_inv : kinv (sys_kern demo_exec_system).
Proof.
  destruct (run_final (vfs_write demo_fptr demo_buf demo_elf demo_esp) demo_machine) as [r E]; [vm_compute; reflexivity|].
  exact (mpreserves_vfs_write demo_fptr demo_buf demo_elf demo_esp ltac:(unfold demo_esp; lia) demo_machine r demo_exec demo_machine_inv E).
Qed.

Lemma demo_exec_opens : match demo_exec_open with
  | Ok (f, k) => open_is (k_files k) f demo_elf_data && bool_decide (Vmm.translate (hvm (k_heap k)) 0x08048000 = None) &&
      negb (truthy (Z.land (pde_at (hvm (k_heap k)) (PD_INDEX 0x4C00000)) VMM_PRESENT))
  | Stop _ => false
  end = true.
Proof. vm_compute. reflexivity. Qed.

Lemma demo_exec_loads : match elf_load no_garbage demo_path demo_esp demo_exec_system with
  | Ok (Loaded n, _) => n | _ => 0 end = 0x08048010.
Proof. vm_compute. reflexivity. Qed.

(** The heap's tables are not all there, so every free frame is low. *)
Lemma kinv_low (k : demo_kstate) a : kinv k -> HEAP_START <= a < HEAP_MAX ->
  present (pde_at (hvm (k_heap k)) (PD_INDEX a)) = false -> low_memory (vm_pmm (hvm (k_heap k))).
Proof.
  intros (L & A & q & Hinv) Ha Hp. destruct (pi_heap _ _ _ _ _ Hinv) as [Ht _].
  destruct (Ht (a + 1) a) as [Hx|Hl]; [lia|lia|congruence|done].
Qed.

Definition demo_ph : Elf32_Phdr := Phdr 1 84 0x08048000 4 8.

Lemma demo_segments : file_segments no_garbage demo_elf_data = [demo_ph].
Proof. vm_compute. reflexivity. Qed.

Lemma demo_loadable : loadable no_garbage 0x08048000 0x08049000 demo_elf_data.
Proof.
  split; [vm_compute; discriminate|unfold elf_valid; split_and!; vm_compute; (reflexivity || discriminate)| |rewrite demo_segments].
  - assert (E : phdr_count no_garbage demo_elf_data = 1%nat) by (vm_compute; reflexivity). rewrite E. intros i Hi.
    assert (i = 0) as -> by lia. vm_compute. split; [reflexivity|discriminate].
  - apply Forall_singleton. split; vm_compute; repeat split; discriminate || reflexivity.
Qed.

Lemma demo_window_free (k : demo_kstate) : kinv k -> Vmm.translate (hvm (k_heap k)) 0x08048000 = None ->
  forall a, 0x08048000 <= a < 0x08049000 -> Vmm.translate (hvm (k_heap k)) a = None.
Proof.
  intros Hi Ht a Ha. apply (translate_page (hvm (k_heap k)) 0x08048000); [exact (kinv_vmm k Hi)|lia|lia| |exact Ht].
  change (0x08048000 / 4096) with 0x8048. apply (Z.div_unique_pos _ _ _ (a - 0x08048000)); lia.
Qed.

Lemma demo_window : window 0x08048000 0x08049000.
Proof. split; [done|unfold LOW_END; lia|right; vm_compute; discriminate]. Qed.
#[global] Opaque demo_exec.

