(* ===== verification/Syscall.v ===== *)
(** * System calls (kernel/syscall/syscall.c, include/syscall.h)

    [syscall_dispatch] reads the call number and the arguments from the saved
    register frame and writes the result into its eax. The handlers call the
    process manager, the file layer and the loader on the whole [system].

    A handler that puts the process to sleep inside the kernel ends in [Sleep]
    with the point where it goes on; [syscall_resume] goes on from there. For
    [sys_exit] and [sys_sleep], whose processor is given away at their end, the
    result is the value the frame gets when the process runs again. [esp] is the
    stack pointer that the nested interrupt of [sched_yield] saves. *)

From Stdlib Require Import ZArith Lia.
From S2P Require Import Prelude Pmm Vmm Kheap HeapSpec Kstate Fd Fs FsLaws Ramfs Proc ProcInv ProcOps ProcSteps ProcSafety Kinv Keyboard Pipe Vga Io Elf Loader.

Definition SYS_YIELD : Z := 0.
Definition SYS_EXIT : Z := 1.
Definition SYS_GETPID : Z := 2.
Definition SYS_SLEEP : Z := 3.
Definition SYS_FORK : Z := 4.
Definition SYS_EXEC : Z := 5.
Definition SYS_WRITE : Z := 6.
Definition SYS_READ : Z := 7.
Definition SYS_OPEN : Z := 8.
Definition SYS_CLOSE : Z := 9.
Definition SYS_PIPE : Z := 10.
Definition SYS_DUP2 : Z := 11.
Definition SYS_EXECVE : Z := 12.
Definition SYS_WAIT : Z := 13.
Definition SYSCALL_COUNT : Z := 14.

(** Where a sleeping call goes on. *)
Inductive suspended : Type :=
| InRead (f buf : Z) (at_ : blocked)
| InWrite (f : Z) (at_ : blocked)
| InWait (self pid out_code : Z)
| InExecve.

Inductive outcome (A : Type) : Type :=
| Done (a : A)
| Sleep (esp : Z) (at_ : suspended).
Arguments Done {A} a.
Arguments Sleep {A} esp at_.

(** The frame with another eax. *)
Definition set_r_eax (v : Z) (r : regs_t) : regs_t :=
  Regs (r_gs r) (r_fs r) (r_es r) (r_ds r) (r_edi r) (r_esi r) (r_ebp r) (r_esp_saved r) (r_ebx r) (r_edx r) (r_ecx r) v
    (r_int_no r) (r_err_code r) (r_eip r) (r_cs r) (r_eflags r) (r_useresp r) (r_ss r).

(** The frame [sys_execve] leaves: a new program with clean registers. *)
Definition execve_frame (entry : Z) (r : regs_t) : regs_t :=
  Regs (r_gs r) (r_fs r) (r_es r) (r_ds r) 0 0 0 (r_esp_saved r) 0 0 0 0
    (r_int_no r) (r_err_code r) entry (r_cs r) 0x202 (r_useresp r) (r_ss r).

Section syscall.
Variable garbage : Z -> Z.
Local Abbreviation M A := (M system A).

(** ** The caller's memory *)

Definition load_bytes (u : gmap Z Z) (a : Z) (n : nat) : list Z := (fun i => rd u (a +w Z.of_nat i)) <$> seq 0 n.

(** A C string; the fuel is more than any string in the first 4 MiB. *)
Fixpoint load_string (fuel : nat) (u : gmap Z Z) (a : Z) : option (list Z) :=
  match fuel with
  | O => None
  | S fuel' => if rd u a =? 0 then Some [] else cons (rd u a) <$> load_string fuel' u (a +w 1)
  end.
Definition STRING_FUEL : nat := KHEAP_FUEL.

Definition user_string (a : Z) : M (list Z) := fun s =>
  match load_string STRING_FUEL (umem s) a with
  | Some str => Ok (str, s)
  | None => Stop OutOfFuel
  end.

(** A 32-bit integer, little-endian. *)
Definition word_bytes (v : Z) : list byte :=
  Some <$> [u32 v mod 256; u32 v / 2 ^ 8 mod 256; u32 v / 2 ^ 16 mod 256; u32 v / 2 ^ 24].
Definition user_store (a : Z) (data : list byte) : M unit :=
  modify (fun s => set_umem (store_bytes garbage a data (umem s)) s).

(** Pages checked: at most 2^20. *)
Definition VALIDATE_FUEL : nat := KHEAP_FUEL.

Definition syscall_validate_ptr (ptr len : Z) : M bool :=
  if (ptr =? 0) || (len =? 0) then mret false else
  p ← gets (fun s => current_proc (sys_kern s));
  match p with
  | None => mret false
  | Some i =>
      pd ← gets (fun s => p_page_directory (pcb_at (sys_kern s) i));
      if pd =? 0 then mret true else on_vm (vmm_range_mapped VALIDATE_FUEL pd ptr len false)
  end.

(** ** Processes *)

Local Abbreviation kern c := (on_sys (on_k c)).

Definition sys_yield : M (outcome Z) := mret (Done 0).

Definition sys_exit (r : regs_t) (esp : Z) : M (outcome Z) :=
  kern (proc_exit (s32 (r_ebx r)) esp) ;; mret (Done 0).

Definition sys_getpid : M (outcome Z) :=
  p ← gets (fun s => current_proc (sys_kern s));
  match p with
  | Some i => pid ← gets (fun s => p_pid (pcb_at (sys_kern s) i)); mret (Done pid)
  | None => mret (Done (-1))
  end.

Definition sys_sleep (r : regs_t) (esp : Z) : M (outcome Z) :=
  kern (proc_sleep (r_ebx r) esp) ;; mret (Done 0).

Definition sys_fork (r : regs_t) : M (outcome Z) :=
  let entry := r_ebx r in
  if entry =? 0 then mret (Done (-1)) else
  child ← kern (proc_fork entry);
  mret (Done (if child =? PID_INVALID then -1 else child)).

Definition sys_exec (r : regs_t) : M (outcome Z) :=
  p ← gets (fun s => proc_get (sys_kern s) (u16 (r_ebx r)));
  match p with
  | None => mret (Done (-1))
  | Some i => if r_ecx r =? 0 then mret (Done (-1)) else
      v ← kern (proc_exec (Some i) (r_ecx r)); mret (Done v)
  end.

Definition wait_done (self pid out_code : Z) (w : wait_result) : M (outcome Z) :=
  match w with
  | WaitNoProcess => mret (Done (-1))
  | WaitReaped cpid code =>
      (if out_code =? 0 then mret tt else user_store out_code (word_bytes code)) ;;
      mret (Done (if cpid =? PID_INVALID then -1 else cpid))
  | WaitBlocked e => mret (Sleep e (InWait self pid out_code))
  end.

Definition sys_wait (r : regs_t) (esp : Z) : M (outcome Z) :=
  let pid := u16 (r_ebx r) in
  let out_code := r_ecx r in
  ok ← (if out_code =? 0 then mret true else syscall_validate_ptr out_code 4);
  if negb ok then mret (Done (-1)) else
  self ← gets (fun s => default 0 (current_proc (sys_kern s)));
  w ← kern (proc_wait_try pid esp);
  wait_done self pid out_code w.

(** ** Files *)

(** [p->fd_table] of the current process. *)
Definition with_table {A : Type} (none : A) (k : Z -> list Z -> M A) : M A :=
  p ← gets (fun s => current_proc (sys_kern s));
  match p with
  | None => mret none
  | Some i => table ← gets (fun s => p_fd_table (pcb_at (sys_kern s) i)); k i table
  end.
Definition put_table (i : Z) (table : list Z) : M unit := kern (modify (upd_pcb i (set_p_fd_table table))).

Definition write_out (f : Z) (o : io) : outcome Z :=
  match o with IoRet n _ => Done n | IoSleep e b => Sleep e (InWrite f b) end.

Definition sys_write (r : regs_t) (esp : Z) : M (outcome Z) :=
  let fd := s32 (r_ebx r) in
  let buf := r_ecx r in
  let len := r_edx r in
  ok ← syscall_validate_ptr buf len;
  if negb ok then mret (Done (-1)) else
  with_table (Done (-1)) (fun i table =>
    src ← gets (fun s => load_bytes (umem s) buf (Z.to_nat len));
    o ← on_sys (fd_write table fd buf src esp);
    mret (write_out (default 0 (fd_entry table fd)) o)).

(** The bytes of a read go to the caller's buffer as they arrive; [skip] of
    them are there already. *)
Definition got_of (b : blocked) : list byte := match b with InPipeRead _ _ got => Some <$> got | _ => [] end.
Definition read_out (f buf : Z) (skip : nat) (o : io) : M (outcome Z) :=
  match o with
  | IoRet n data => user_store (buf +w Z.of_nat skip) (drop skip data) ;; mret (Done n)
  | IoSleep e b => user_store (buf +w Z.of_nat skip) (drop skip (got_of b)) ;; mret (Sleep e (InRead f buf b))
  end.

Definition sys_read (r : regs_t) (esp : Z) : M (outcome Z) :=
  let fd := s32 (r_ebx r) in
  let buf := r_ecx r in
  let len := r_edx r in
  ok ← syscall_validate_ptr buf len;
  if negb ok then mret (Done (-1)) else
  with_table (Done (-1)) (fun i table =>
    o ← on_sys (fd_read table fd buf len esp);
    read_out (default 0 (fd_entry table fd)) buf 0 o).

Definition sys_open (r : regs_t) : M (outcome Z) :=
  let flags := s32 (r_ecx r) in
  ok ← syscall_validate_ptr (r_ebx r) 1;
  if negb ok then mret (Done (-1)) else
  with_table (Done (-1)) (fun i table =>
    path ← user_string (r_ebx r);
    f ← kern (vfs_open path flags);
    if f =? 0 then mret (Done (-1)) else
    let '(fd, table) := fd_install table f in
    if fd <? 0 then kern (vfs_close_op f) ;; mret (Done (-1)) else
    put_table i table ;; mret (Done fd)).

Definition sys_close (r : regs_t) : M (outcome Z) :=
  let fd := s32 (r_ebx r) in
  with_table (Done (-1)) (fun i table =>
    match fd_entry table fd with
    | None => mret (Done (-1))
    | Some _ => table ← kern (fd_close table fd); put_table i table ;; mret (Done 0)
    end).

Definition sys_pipe (r : regs_t) : M (outcome Z) :=
  let pipefd := r_ebx r in
  ok ← syscall_validate_ptr pipefd 8;
  if negb ok then mret (Done (-1)) else
  with_table (Done (-1)) (fun i table =>
    res ← kern (pipe_create table);
    put_table i res.2 ;;
    match res.1 with
    | None => mret (Done (-1))
    | Some (rfd, wfd) => user_store pipefd (word_bytes rfd ++ word_bytes wfd) ;; mret (Done 0)
    end).

Definition sys_dup2 (r : regs_t) : M (outcome Z) :=
  let oldfd := s32 (r_ebx r) in
  let newfd := s32 (r_ecx r) in
  with_table (Done (-1)) (fun i table =>
    if (oldfd <? 0) || (Z.of_nat FD_MAX <=? oldfd) then mret (Done (-1)) else
    if (newfd <? 0) || (Z.of_nat FD_MAX <=? newfd) then mret (Done (-1)) else
    match fd_entry table oldfd with
    | None => mret (Done (-1))
    | Some f =>
        if oldfd =? newfd then mret (Done newfd) else
        table ← (match fd_entry table newfd with Some _ => kern (fd_close table newfd) | None => mret table end);
        put_table i (<[Z.to_nat newfd := f]> table) ;;
        kern (file_ref_op f) ;;
        mret (Done newfd)
    end).

(** The new frame, [None] when it stays as it is. *)
Definition sys_execve (r : regs_t) (esp : Z) : M (outcome Z * regs_t) :=
  ok ← syscall_validate_ptr (r_ebx r) 1;
  if negb ok then mret (Done (-1), r) else
  path ← user_string (r_ebx r);
  e ← elf_load garbage path esp;
  match e with
  | ElfSleep e => mret (Sleep e InExecve, r)
  | Loaded entry =>
      if entry =? 0 then mret (Done (-1), r) else
      p ← gets (fun s => current_proc (sys_kern s));
      match p with
      | None => mret (Done (-1), r)
      | Some i =>
          kern (modify (upd_pcb i (fun p => set_p_ticks_scheduled 0 (set_p_ticks_total 0 (set_p_timeslice (p_timeslice_len p) p))))) ;;
          mret (Done 0, execve_frame entry r)
      end
  end.

(** ** Dispatch *)

(** A handler that leaves the rest of the frame alone. *)
Definition plain (r : regs_t) (c : M (outcome Z)) : M (outcome Z * regs_t) := o ← c; mret (o, r).

Definition syscall_table (n : Z) (r : regs_t) (esp : Z) : option (M (outcome Z * regs_t)) :=
  if n =? SYS_YIELD then Some (plain r sys_yield) else
  if n =? SYS_EXIT then Some (plain r (sys_exit r esp)) else
  if n =? SYS_GETPID then Some (plain r sys_getpid) else
  if n =? SYS_SLEEP then Some (plain r (sys_sleep r esp)) else
  if n =? SYS_FORK then Some (plain r (sys_fork r)) else
  if n =? SYS_EXEC then Some (plain r (sys_exec r)) else
  if n =? SYS_WRITE then Some (plain r (sys_write r esp)) else
  if n =? SYS_READ then Some (plain r (sys_read r esp)) else
  if n =? SYS_OPEN then Some (plain r (sys_open r)) else
  if n =? SYS_CLOSE then Some (plain r (sys_close r)) else
  if n =? SYS_PIPE then Some (plain r (sys_pipe r)) else
  if n =? SYS_DUP2 then Some (plain r (sys_dup2 r)) else
  if n =? SYS_EXECVE then Some (sys_execve r esp) else
  if n =? SYS_WAIT then Some (plain r (sys_wait r esp)) else None.

Definition finish (r : regs_t) (o : outcome Z) : outcome regs_t :=
  match o with
  | Done ret => Done (set_r_eax (u32 ret) r)
  | Sleep e at_ => Sleep e at_
  end.

(** The frame after the call; eax is written when the call is over. *)
Definition syscall_dispatch (r : regs_t) (esp : Z) : M (outcome regs_t) :=
  let n := r_eax r in
  if SYSCALL_COUNT <=? n then mret (Done (set_r_eax (u32 (-1)) r)) else
  match syscall_table n r esp with
  | None => mret (Done (set_r_eax (u32 (-1)) r))
  | Some handler =>
      res ← handler;
      mret (finish res.2 res.1)
  end.

(** A sleeping call goes on. The loader waiting for a device is the one case
    without a continuation here. *)
Definition syscall_resume (r : regs_t) (esp : Z) (at_ : suspended) : option (M (outcome regs_t)) :=
  match at_ with
  | InRead f buf b => Some (
      o ← on_sys (vfs_read_resume f esp b);
      res ← read_out f buf (length (got_of b)) o;
      mret (finish r res))
  | InWrite f b => Some (
      o ← on_sys (vfs_write_resume f esp b);
      mret (finish r (write_out f o)))
  | InWait self pid out_code => Some (
      w ← kern (proc_wait_resume self pid esp);
      res ← wait_done self pid out_code w;
      mret (finish r res))
  | InExecve => None
  end.
End syscall.
Arguments Done {A} a.
Arguments Sleep {A} esp at_.

(** ** System calls keep the kernel's invariant *)

Section invariant.
Variable garbage : Z -> Z.
Implicit Types (s : system) (P Q R : system -> Prop).

(** Partial correctness of a system call's parts. *)
Definition hoare {A : Type} P (c : M system A) Q : Prop := forall s r s', P s -> c s = Ok (r, s') -> Q s'.

Lemma hoare_ret {A} P (x : A) : hoare P (mret x) P.
Proof. intros s r s' HP [= <- <-]. done. Qed.
Lemma hoare_gets {A} P (f : system -> A) : hoare P (gets f) P.
Proof. intros s r s' HP [= <- <-]. done. Qed.
Lemma hoare_bind {A B} P Q R (c : M system A) (k : A -> M system B) :
  hoare P c R -> (forall x, hoare R (k x) Q) -> hoare P (c ≫= k) Q.
Proof. intros Hc Hk s r s' HP E. apply bind_inv in E as (x & s1 & E1 & E2). by apply (Hk x s1 r s'); [apply (Hc s x s1)|]. Qed.
Lemma hoare_weaken {A} P P' Q Q' (c : M system A) : hoare P c Q -> (forall s, P' s -> P s) -> (forall s, Q s -> Q' s) -> hoare P' c Q'.
Proof. intros Hc HP HQ s r s' HP' E. by apply HQ, (Hc s r s'); [apply HP|]. Qed.

Definition sinv s : Prop := kinv (sys_kern s).
(** The invariant, and process [i] is running. *)
Definition scur (i : Z) s : Prop := sinv s /\ current_proc (sys_kern s) = Some i.

Lemma on_sys_on_k {A} (c : M demo_kstate A) s r s' : on_sys (on_k c) s = Ok (r, s') -> c (sys_kern s) = Ok (r, sys_kern s').
Proof.
  unfold on_sys, on_k, on_in, on_kern, zoom, sys_kern, m_kern. destruct (c (kern (m_in (sys s)))) as [[x k]|]; [|done].
  by intros [= <- <-].
Qed.

Lemma hoare_kern {A} (c : M demo_kstate A) : preserves c -> hoare sinv (on_sys (on_k c)) sinv.
Proof. intros Hc s r s' HP E%on_sys_on_k. exact (Hc _ _ _ HP E). Qed.

Lemma hoare_machine {A} (c : M (machine kheap_state) A) : mpreserves c -> hoare sinv (on_sys c) sinv.
Proof.
  intros Hc s r s' HP E. unfold on_sys, zoom in E. destruct (c (sys s)) as [[x m]|] eqn:Ec; [|done]. injection E as <- <-. exact (Hc _ _ _ HP Ec).
Qed.

(** A file operation does not change which process runs. *)
Lemma hoare_keeps {A} i b (c : M demo_kstate A) : keeps b c -> hoare (scur i) (on_sys (on_k c)) (scur i).
Proof.
  intros Hc s r s' [Hi Hcur] E%on_sys_on_k. split; [exact (preserves_keeps b c Hc _ _ _ Hi E)|].
  by rewrite (keeps_current b c _ _ _ Hc Hi E).
Qed.

Lemma hoare_put_table i table : hoare (scur i) (put_table i table) sinv.
Proof.
  intros s r s' [Hi Hcur] E. unfold put_table in E. apply on_sys_on_k in E. injection E as _ E. unfold sinv. rewrite <- E. by apply kinv_fd_table.
Qed.

Lemma hoare_put_table_cur i table : hoare (scur i) (put_table i table) (scur i).
Proof.
  intros s r s' Hs E. split; [exact (hoare_put_table i table s r s' Hs E)|]. destruct Hs as [_ Hcur].
  unfold put_table in E. apply on_sys_on_k in E. injection E as _ E. rewrite <- E. exact Hcur.
Qed.

Lemma hoare_user_store P a data : (forall s u, P s -> P (set_umem u s)) -> hoare P (user_store garbage a data) P.
Proof. intros HP s r s' Hs [= <- <-]. by apply HP. Qed.

Lemma hoare_user_string P a : hoare P (user_string a) P.
Proof. intros s r s' Hs E. unfold user_string in E. destruct (load_string _ _ _); [|done]. by injection E as <- <-. Qed.

Lemma hoare_with_table {A} (none : A) (k : Z -> list Z -> M system A) :
  (forall i table, hoare (scur i) (k i table) sinv) -> hoare sinv (with_table none k) sinv.
Proof.
  intros Hk s r s' Hi E. unfold with_table in E. rewrite (bind_ok _ _ s (current_proc (sys_kern s)) s) in E by done.
  destruct (current_proc (sys_kern s)) as [i|] eqn:Hc; [|by injection E as <- <-].
  rewrite (bind_ok _ _ s (p_fd_table (pcb_at (sys_kern s) i)) s) in E by done. by apply (Hk i (p_fd_table (pcb_at (sys_kern s) i)) s r s').
Qed.

(** The page-table walk only reads. *)
Lemma vload_same a (v : vmm_state) r v' : vload a v = Ok (r, v') -> v' = v.
Proof. unfold vload. destruct (Vmm.translate v a); [|done]. by intros [= <- <-]. Qed.

Lemma range_mapped_same fuel : forall pd a e u v r v', range_mapped_loop fuel pd a e u v = Ok (r, v') -> v' = v.
Proof.
  induction fuel as [|fuel IH]; intros pd a e u v r v'; simpl; (destruct (a <? e); [|by intros [= <- <-]]); [done|].
  intros E. apply bind_inv in E as (pde & v1 & E1 & E). apply vload_same in E1 as ->. destruct (negb _); [by injection E as <- <-|].
  destruct (u && _); [by injection E as <- <-|]. apply bind_inv in E as (pte & v1 & E1 & E). apply vload_same in E1 as ->.
  destruct (negb _); [by injection E as <- <-|]. destruct (u && _); [by injection E as <- <-|]. by apply IH in E.
Qed.

Lemma hoare_validate ptr len : hoare sinv (syscall_validate_ptr ptr len) sinv.
Proof.
  unfold syscall_validate_ptr. destruct (_ || _); [apply hoare_ret|]. eapply hoare_bind; [apply hoare_gets|].
  intros [i|]; [|apply hoare_ret]. eapply hoare_bind; [apply hoare_gets|]. intros pd. destruct (pd =? 0); [apply hoare_ret|].
  intros s r s' Hi E. unfold on_vm in E. apply on_sys_on_k in E. unfold on_heap, vm, zoom in E.
  destruct (vmm_range_mapped _ _ _ _ _ _) as [[x v]|] eqn:Ev; [|done]. injection E as _ E. unfold sinv. rewrite <- E.
  assert (v = hvm (k_heap (sys_kern s))) as ->.
  { unfold vmm_range_mapped in Ev. destruct (_ || _); [by injection Ev|]. by apply range_mapped_same in Ev. }
  unfold sinv in Hi. by destruct (sys_kern s) as [[]].
Qed.

(** Registers hold 32-bit values. *)
Definition regs_ok (r : regs_t) : Prop :=
  0 <= r_ebx r < 2 ^ 32 /\ 0 <= r_ecx r < 2 ^ 32 /\ 0 <= r_edx r < 2 ^ 32 /\ 0 <= r_eax r < 2 ^ 32.

Lemma scur_sinv i s : scur i s -> sinv s.
Proof. by intros []. Qed.

(** Process calls are steps of the process manager. *)
Ltac by_kstep c := apply hoare_kern, preserves_kstep; intros ? ? ? E; eapply c; [|exact E]; lia.

Lemma hoare_wait_done self pid out w : hoare sinv (wait_done garbage self pid out w) sinv.
Proof.
  unfold wait_done. destruct w; try apply hoare_ret. eapply hoare_bind; [|intros; apply hoare_ret].
  destruct (out =? 0); [apply hoare_ret|by apply hoare_user_store].
Qed.

Lemma hoare_sys_wait r esp : 0 < esp < 2 ^ 32 -> hoare sinv (sys_wait garbage r esp) sinv.
Proof.
  intros He. unfold sys_wait. eapply hoare_bind; [destruct (_ =? 0); [apply hoare_ret|apply hoare_validate]|].
  intros ok. destruct (negb ok); [apply hoare_ret|]. eapply hoare_bind; [apply hoare_gets|]. intros self.
  eapply hoare_bind; [|intros; apply hoare_wait_done]. by_kstep step_wait.
Qed.

Lemma hoare_read_out f buf skip o : hoare sinv (read_out garbage f buf skip o) sinv.
Proof. unfold read_out. destruct o; (eapply hoare_bind; [by apply hoare_user_store|intros; apply hoare_ret]). Qed.

Lemma hoare_sys_read r esp : 0 < esp < 2 ^ 32 -> hoare sinv (sys_read garbage r esp) sinv.
Proof.
  intros He. unfold sys_read. eapply hoare_bind; [apply hoare_validate|]. intros ok. destruct (negb ok); [apply hoare_ret|].
  apply hoare_with_table. intros i table. apply (hoare_weaken sinv _ sinv); [|apply scur_sinv|done].
  eapply hoare_bind; [|intros; apply hoare_read_out]. apply hoare_machine. unfold fd_read.
  destruct (fd_entry _ _); [by apply mpreserves_vfs_read|apply mpreserves_ret].
Qed.

Lemma hoare_sys_write r esp : 0 < esp < 2 ^ 32 -> hoare sinv (sys_write r esp) sinv.
Proof.
  intros He. unfold sys_write. eapply hoare_bind; [apply hoare_validate|]. intros ok. destruct (negb ok); [apply hoare_ret|].
  apply hoare_with_table. intros i table. apply (hoare_weaken sinv _ sinv); [|apply scur_sinv|done].
  eapply hoare_bind; [apply hoare_gets|]. intros src. eapply hoare_bind; [|intros; apply hoare_ret]. apply hoare_machine. unfold fd_write.
  destruct (fd_entry _ _); [by apply mpreserves_vfs_write|apply mpreserves_ret].
Qed.

Lemma hoare_ret_sinv {A} i (x : A) : hoare (scur i) (mret x) sinv.
Proof. apply (hoare_weaken (scur i) _ (scur i)); [apply hoare_ret|done|apply scur_sinv]. Qed.

Lemma hoare_sys_open r : hoare sinv (sys_open r) sinv.
Proof.
  unfold sys_open. eapply hoare_bind; [apply hoare_validate|]. intros ok. destruct (negb ok); [apply hoare_ret|].
  apply hoare_with_table. intros i table. eapply hoare_bind; [apply hoare_user_string|]. intros path.
  eapply hoare_bind; [apply (hoare_keeps i true), keeps_vfs_open|]. intros f. destruct (f =? 0); [apply hoare_ret_sinv|].
  destruct (fd_install table f) as [fd table']. destruct (fd <? 0).
  - eapply hoare_bind; [apply (hoare_keeps i false), keeps_vfs_close|]. intros. apply hoare_ret_sinv.
  - eapply hoare_bind; [apply hoare_put_table|]. intros. apply hoare_ret.
Qed.

Lemma hoare_sys_close r : hoare sinv (sys_close r) sinv.
Proof.
  unfold sys_close. apply hoare_with_table. intros i table. destruct (fd_entry _ _); [|apply hoare_ret_sinv].
  eapply hoare_bind; [apply (hoare_keeps i false), keeps_fd_close|]. intros t. eapply hoare_bind; [apply hoare_put_table|intros; apply hoare_ret].
Qed.

Lemma hoare_sys_pipe r : hoare sinv (sys_pipe garbage r) sinv.
Proof.
  unfold sys_pipe. eapply hoare_bind; [apply hoare_validate|]. intros ok. destruct (negb ok); [apply hoare_ret|].
  apply hoare_with_table. intros i table. eapply hoare_bind; [apply (hoare_keeps i false), keeps_pipe_create|]. intros [[[rfd wfd]|] t]; simpl.
  - eapply hoare_bind; [apply hoare_put_table|]. intros _. eapply hoare_bind; [by apply hoare_user_store|]. intros. apply hoare_ret.
  - eapply hoare_bind; [apply hoare_put_table|]. intros. apply hoare_ret.
Qed.

Lemma hoare_sys_dup2 r : hoare sinv (sys_dup2 r) sinv.
Proof.
  unfold sys_dup2. apply hoare_with_table. intros i table. destruct (_ || _); [apply hoare_ret_sinv|]. destruct (_ || _); [apply hoare_ret_sinv|].
  destruct (fd_entry _ _) as [f|]; [|apply hoare_ret_sinv]. destruct (_ =? _); [apply hoare_ret_sinv|].
  eapply (hoare_bind _ _ (scur i)). { destruct (fd_entry _ _); [apply (hoare_keeps i false), keeps_fd_close|apply hoare_ret]. }
  intros t. eapply (hoare_bind _ _ (scur i)); [apply hoare_put_table_cur|]. intros _.
  eapply (hoare_bind _ _ (scur i)); [apply (hoare_keeps i true), keeps_file_ref|]. intros. apply hoare_ret_sinv.
Qed.

Lemma hoare_plain r c : hoare sinv c sinv -> hoare sinv (plain r c) sinv.
Proof. intros Hc. eapply hoare_bind; [exact Hc|]. intros. apply hoare_ret. Qed.

Lemma hoare_table n r esp h : regs_ok r -> 0 < esp < 2 ^ 32 -> n <> SYS_EXECVE -> syscall_table garbage n r esp = Some h -> hoare sinv h sinv.
Proof.
  intros (Hb & Hc & Hd & _) He Hn. unfold syscall_table. rewrite (proj2 (Z.eqb_neq n SYS_EXECVE)) by done.
  repeat (destruct (n =? _); [intros [= <-]; apply hoare_plain|]); [..|done].
  - apply hoare_ret.
  - eapply hoare_bind; [|intros; apply hoare_ret]. by_kstep step_exit.
  - eapply hoare_bind; [apply hoare_gets|]. intros [i|]; [|apply hoare_ret]. eapply hoare_bind; [apply hoare_gets|intros; apply hoare_ret].
  - eapply hoare_bind; [|intros; apply hoare_ret]. by_kstep step_sleep.
  - unfold sys_fork. destruct (_ =? 0); [apply hoare_ret|]. eapply hoare_bind; [|intros; apply hoare_ret]. by_kstep step_fork.
  - intros s x s' Hi E. unfold sys_exec in E. rewrite (bind_ok _ _ s (proc_get (sys_kern s) (u16 (r_ebx r))) s) in E by done.
    destruct (proc_get (sys_kern s) (u16 (r_ebx r))) as [i|] eqn:Eg; [|by injection E as <- <-].
    destruct (r_ecx r =? 0); [by injection E as <- <-|]. apply bind_inv in E as (v & s1 & E & E2). injection E2 as _ <-.
    apply on_sys_on_k in E. destruct Hi as (L & A & q & Hinv).
    destruct (kstep_inv (sys_kern s) (sys_kern s1) L A q) as (L' & A' & q' & Hinv'); [|done|by exists L', A', q'].
    apply (step_exec _ (u16 (r_ebx r)) (r_ecx r) v); [apply u16_range|done|]. by rewrite Eg.
  - by apply hoare_sys_write.
  - by apply hoare_sys_read.
  - apply hoare_sys_open.
  - apply hoare_sys_close.
  - apply hoare_sys_pipe.
  - apply hoare_sys_dup2.
  - by apply hoare_sys_wait.
Qed.

(** Calls that never fault: an unknown number, and the process calls. *)
Definition process_call (n : Z) : Prop := n = SYS_YIELD \/ n = SYS_EXIT \/ n = SYS_GETPID \/ n = SYS_SLEEP \/ n = SYS_EXEC.

Lemma on_sys_kern_ok {A} (c : M demo_kstate A) s r k : c (sys_kern s) = Ok (r, k) -> exists s', on_sys (on_k c) s = Ok (r, s').
Proof. intros E. exists (set_sys (with_kern k (sys s)) s). apply on_sys_ok, on_k_ok. exact E. Qed.

Lemma dispatch_done r esp s c v s' : syscall_table garbage (r_eax r) r esp = Some (plain r c) -> r_eax r < SYSCALL_COUNT ->
  c s = Ok (Done v, s') -> syscall_dispatch garbage r esp s = Ok (Done (set_r_eax (u32 v) r), s').
Proof.
  intros Et Hlt E. unfold syscall_dispatch. rewrite (proj2 (Z.leb_gt _ _)) by done. rewrite Et.
  rewrite (bind_ok _ _ s (Done v, r) s'); [done|]. unfold plain. by rewrite (bind_ok _ _ _ _ _ E).
Qed.

(** C36: an unknown call number returns -1 and changes nothing; yield, exit,
    getpid, sleep and exec run to their end in every state that satisfies the
    invariant, without a fault; getpid returns the number of the running
    process. *)
Theorem syscall_total r esp s :
  regs_ok r -> 0 < esp < 2 ^ 32 -> kinv (sys_kern s) -> SYSCALL_COUNT <= r_eax r \/ process_call (r_eax r) ->
  exists v s', syscall_dispatch garbage r esp s = Ok (Done (set_r_eax v r), s') /\
    (SYSCALL_COUNT <= r_eax r -> v = 0xFFFFFFFF /\ s' = s) /\
    (r_eax r = SYS_GETPID -> s' = s /\ v = match current_proc (sys_kern s) with Some i => i | None => 0xFFFFFFFF end).
Proof.
  intros (Hb & Hc & _ & _) He (L & A & q & Hinv) [Hn|Hp].
  { exists 0xFFFFFFFF, s. unfold syscall_dispatch. rewrite (proj2 (Z.leb_le _ _)) by done. split; [done|]. split; [done|].
    unfold SYSCALL_COUNT, SYS_GETPID in *. lia. }
  assert (Hlt : r_eax r < SYSCALL_COUNT) by (unfold process_call, SYSCALL_COUNT, SYS_YIELD, SYS_EXIT, SYS_GETPID, SYS_SLEEP, SYS_EXEC in *; lia).
  assert (Hfin : forall c v s', syscall_table garbage (r_eax r) r esp = Some (plain r c) -> c s = Ok (Done v, s') ->
    (r_eax r = SYS_GETPID -> s' = s /\ u32 v = match current_proc (sys_kern s) with Some i => i | None => 0xFFFFFFFF end) ->
    exists v s', syscall_dispatch garbage r esp s = Ok (Done (set_r_eax v r), s') /\ (SYSCALL_COUNT <= r_eax r -> v = 0xFFFFFFFF /\ s' = s) /\
      (r_eax r = SYS_GETPID -> s' = s /\ v = match current_proc (sys_kern s) with Some i => i | None => 0xFFFFFFFF end)).
  { intros c v s' Et E Hg. exists (u32 v), s'. split; [by apply (dispatch_done r esp s c v s')|]. split; [lia|done]. }
  destruct Hp as [E|[E|[E|[E|E]]]]; rewrite E in Hfin |- *.
  - by apply (Hfin sys_yield 0 s).
  - destruct (proc_exit_inv (sys_kern s) L A q (s32 (r_ebx r)) esp Hinv ltac:(lia)) as (e & k & q' & Ek & _).
    destruct (on_sys_kern_ok _ s _ _ Ek) as (s' & Es). apply (Hfin (sys_exit r esp) 0 s'); [done| |done]. unfold sys_exit. by rewrite (bind_ok _ _ _ _ _ Es).
  - destruct (current_proc (sys_kern s)) as [i|] eqn:Hcur.
    + destruct (pi_current _ _ _ _ _ Hinv i Hcur) as (Hi & _). apply (Hfin sys_getpid i s); [done| |].
      * unfold sys_getpid. rewrite (bind_ok _ _ s (Some i) s) by (unfold gets; by rewrite Hcur).
        rewrite (bind_ok _ _ s i s) by (unfold gets; by rewrite (pi_pid _ _ _ _ _ Hinv i Hi)). done.
      * intros _. split; [done|]. apply u32_small. unfold MAX_PROCS in Hi. lia.
    + apply (Hfin sys_getpid (-1) s); [done| |done]. unfold sys_getpid. by rewrite (bind_ok _ _ s None s) by (unfold gets; by rewrite Hcur).
  - destruct (proc_sleep_inv (sys_kern s) L A q (r_ebx r) esp Hinv ltac:(lia)) as (e & k & q' & Ek & _).
    destruct (on_sys_kern_ok _ s _ _ Ek) as (s' & Es). apply (Hfin (sys_sleep r esp) 0 s'); [done| |done]. unfold sys_sleep. by rewrite (bind_ok _ _ _ _ _ Es).
  - assert (Hx : exists v s', sys_exec r s = Ok (Done v, s')).
    { unfold sys_exec. rewrite (bind_ok _ _ s (proc_get (sys_kern s) (u16 (r_ebx r))) s) by done.
      destruct (proc_get_slot _ L A q (u16 (r_ebx r)) Hinv ltac:(apply u16_range)) as [Eg|(Eg & Hi & Hu)]; rewrite Eg; [by eexists _, _|].
      destruct (r_ecx r =? 0); [by eexists _, _|].
      destruct (proc_exec_inv _ L A q (u16 (r_ebx r)) (r_ecx r) Hinv Hi Hu ltac:(lia)) as (v & k & q' & Ek & _).
      destruct (on_sys_kern_ok _ s _ _ Ek) as (s' & Es). rewrite (bind_ok _ _ _ _ _ Es). by eexists _, _. }
    destruct Hx as (v & s' & Ex). by apply (Hfin (sys_exec r) v s').
Qed.
(** ** Starting a program *)

(** The accounting of the process that starts a program. *)
Lemma kinv_accounting (k : demo_kstate) i f :
  kinv k -> current_proc k = Some i ->
  (forall p, p_pid (f p) = p_pid p /\ p_kstack_base (f p) = p_kstack_base p /\ p_kstack_top (f p) = p_kstack_top p /\
     p_ppid (f p) = p_ppid p /\ p_priority (f p) = p_priority p /\ p_state (f p) = p_state p /\ p_esp_kernel (f p) = p_esp_kernel p) ->
  kinv (upd_pcb i f k).
Proof.
  intros (L & A & q & Hinv) Hc Hf. destruct (pi_current _ _ _ _ _ Hinv i Hc) as (Hr & Hu & _). exists L, A, q. by apply inv_upd_quiet.
Qed.

Lemma dispatch_execve r esp s : r_eax r = SYS_EXECVE ->
  syscall_dispatch garbage r esp s = (res ← sys_execve garbage r esp; mret (finish res.2 res.1)) s.
Proof. intros Hn. unfold syscall_dispatch. rewrite Hn. reflexivity. Qed.

(** A frame that enters a program: the entry point, cleared general registers,
    interrupts enabled, and the segments and stack of the caller. *)
Record enters (entry : Z) (r r' : regs_t) : Prop := {
  en_eip : r_eip r' = entry;
  en_general : r_eax r' = 0 /\ r_ebx r' = 0 /\ r_ecx r' = 0 /\ r_edx r' = 0 /\ r_esi r' = 0 /\ r_edi r' = 0 /\ r_ebp r' = 0;
  en_flags : r_eflags r' = 0x202;
  en_segments : r_cs r' = r_cs r /\ r_ds r' = r_ds r /\ r_es r' = r_es r /\ r_fs r' = r_fs r /\ r_gs r' = r_gs r /\ r_ss r' = r_ss r;
  en_stack : r_esp_saved r' = r_esp_saved r /\ r_useresp r' = r_useresp r
}.

(** The process that enters it has a whole time slice and no ticks. *)
Definition fresh_slice (p : pcb) : Prop := p_timeslice p = p_timeslice_len p /\ p_ticks_total p = 0 /\ p_ticks_scheduled p = 0.

Section execve.
Context (r : regs_t) (esp : Z) (s : system) (path : list Z) (i : Z).
Hypothesis Hn : r_eax r = SYS_EXECVE.
Hypothesis Hv : syscall_validate_ptr (r_ebx r) 1 s = Ok (true, s).
Hypothesis Hp : load_string STRING_FUEL (umem s) (r_ebx r) = Some path.
Hypothesis Hc : current_proc (sys_kern s) = Some i.

(** The calls before the loader pass. *)
Lemma execve_loads : syscall_dispatch garbage r esp s =
  ((e ← elf_load garbage path esp;
    match e with
    | ElfSleep e => mret (Sleep e InExecve, r)
    | Loaded entry =>
        if entry =? 0 then mret (Done (-1), r) else
        p ← gets (fun s => current_proc (sys_kern s));
        match p with
        | None => mret (Done (-1), r)
        | Some i =>
            on_sys (on_k (modify (upd_pcb i (fun p => set_p_ticks_scheduled 0 (set_p_ticks_total 0 (set_p_timeslice (p_timeslice_len p) p)))))) ;;
            mret (Done 0, execve_frame entry r)
        end
    end) ≫= (fun res => mret (finish res.2 res.1))) s.
Proof using Hn Hv Hp.
  rewrite dispatch_execve by done. unfold mbind at 1 3, M_bind at 1 3. f_equal. unfold sys_execve. rewrite (bind_ok _ _ _ _ _ Hv). cbn [negb].
  by rewrite (bind_ok _ _ s path s) by (unfold user_string; by rewrite Hp).
Qed.

Lemma execve_fails s' : elf_load garbage path esp s = Ok (Loaded 0, s') -> syscall_dispatch garbage r esp s = Ok (Done (set_r_eax 0xFFFFFFFF r), s').
Proof using Hn Hv Hp. intros E. rewrite execve_loads. rewrite (bind_ok _ _ s (Done (-1), r) s'); [done|]. by rewrite (bind_ok _ _ _ _ _ E). Qed.

Lemma execve_enters entry s' : elf_load garbage path esp s = Ok (Loaded entry, s') -> entry <> 0 -> current_proc (sys_kern s') = Some i -> kinv (sys_kern s') ->
  exists r' s2, syscall_dispatch garbage r esp s = Ok (Done r', s2) /\ enters entry r r' /\ kinv (sys_kern s2) /\ fresh_slice (pcb_at (sys_kern s2) i) /\
    umem s2 = umem s' /\ vm_of s2 = vm_of s' /\ k_files (sys_kern s2) = k_files (sys_kern s').
Proof using Hn Hv Hp.
  intros E Hnz Hcur Hk. set (g := fun p => set_p_ticks_scheduled 0 (set_p_ticks_total 0 (set_p_timeslice (p_timeslice_len p) p))).
  set (s2 := set_sys (with_kern (upd_pcb i g (sys_kern s')) (sys s')) s'). exists (execve_frame entry r), s2.
  split; [|split; [by split|split; [by apply kinv_accounting|split; [|done]]]].
  - rewrite execve_loads, (bind_ok _ _ s (Done 0, execve_frame entry r) s2); [done|]. rewrite (bind_ok _ _ _ _ _ E). cbv iota beta.
    rewrite (proj2 (Z.eqb_neq entry 0)) by done. by rewrite (bind_ok _ _ s' (Some i) s') by (unfold gets; by rewrite Hcur).
  - change (fresh_slice (pcb_at (upd_pcb i g (sys_kern s')) i)). by rewrite pcb_upd, decide_True by done.
Qed.

(** C14: execve, on a path that is a string and for a caller that is running.
    When the path cannot be opened, and when it names a regular file that is too
    short or has not the header of an executable, the call ends with -1 and the
    rest of the frame as it was, and the file is closed again and the memory of
    programs untouched. For an executable whose segments lie in a window outside
    the kernel's memory, with page tables at hand, the call panics when no frame
    is left for a page table, ends with -1 in the same frame when the frames ran
    out, and else ends with a frame that enters the program: its entry point,
    cleared registers, interrupts enabled, the caller's segments and stack. Then
    the image of the file is in memory, the caller has a fresh time slice, and
    the file is closed. The kernel's invariant holds in each case. *)
Theorem sys_execve_correct :
  kinv (sys_kern s) ->
  (forall k, vfs_open path O_RDONLY (sys_kern s) = Ok (0, k) ->
     exists s', syscall_dispatch garbage r esp s = Ok (Done (set_r_eax 0xFFFFFFFF r), s') /\ kinv (sys_kern s') /\ umem s' = umem s) /\
  (forall f k x v y ino data, vfs_open path O_RDONLY (sys_kern s) = Ok (f, k) -> open_on k f x v y ino data -> f_refcount x = 1 ->
     (Z.of_nat (length data) < SIZEOF_EHDR \/ ~ elf_valid garbage data ->
      exists s', syscall_dispatch garbage r esp s = Ok (Done (set_r_eax 0xFFFFFFFF r), s') /\ kinv (sys_kern s') /\ umem s' = umem s /\
        closed f v y (objs (k_files k)) (objs (k_files (sys_kern s')))) /\
     (forall lo hi, window lo hi -> (forall a, lo <= a < hi -> table_ready (hvm (k_heap k)) a) -> loadable garbage lo hi data ->
      let entry := e_entry (file_header garbage data) in
      entry <> 0 ->
      syscall_dispatch garbage r esp s = Stop map_panic \/
      exists s', kinv (sys_kern s') /\ closed f v y (objs (k_files k)) (objs (k_files (sys_kern s'))) /\
        (syscall_dispatch garbage r esp s = Ok (Done (set_r_eax 0xFFFFFFFF r), s') /\ exhausted s' \/
         exists r', syscall_dispatch garbage r esp s = Ok (Done r', s') /\ enters entry r r' /\ fresh_slice (pcb_at (sys_kern s') i) /\
           (forall ph a, ph ∈ file_segments garbage data -> covered ph a -> 0 <= a < 2 ^ 32 -> mapped (vm_of s') a) /\
           (forall a, 0 <= a < 2 ^ 32 -> umem s' !! a =
              image garbage data (file_segments garbage data) (cleared (hvm (k_heap k)) (vm_of s') (umem s)) a)))).
Proof using Hn Hv Hp Hc.
  intros Hi. split; [|intros f k x v y ino data Eo Ho Hr; split].
  - intros k Eo. set (s1 := set_sys (with_kern k (sys s)) s). exists s1.
    split; [apply execve_fails; unfold elf_load; by rewrite (bind_ok _ _ s 0 s1) by (apply on_sys_ok, on_k_ok; exact Eo)|].
    split; [|done]. exact (preserves_keeps true _ (keeps_vfs_open path O_RDONLY) _ _ _ Hi Eo).
  - intros Hbad. pose proof (preserves_keeps true _ (keeps_vfs_open path O_RDONLY) _ _ _ Hi Eo) as Hk.
    destruct (elf_refused_run garbage s path esp f k x v y ino data Eo Hk Ho Hr Hbad) as (s' & E & Hu & Hk' & Hcl & _).
    exists s'. split; [by apply execve_fails|done].
  - intros lo hi Hw Hready Hl entry Hnz.
    destruct (elf_load_run garbage s path esp f k x v y ino data lo hi Eo Hi Ho Hr Hw Hready Hl) as [E|(s' & segs & Hres & Hk & Hcl & Hcur & Ha & Hm & Hu)].
    { left. rewrite execve_loads. by do 2 apply bind_stop. }
    right. destruct Hres as [[E Hx]|[E ->]]; [exists s'; split_and!; [done..|]; left; split; [by apply execve_fails|done]|].
    destruct (execve_enters entry s' E Hnz ltac:(congruence) Hk) as (r' & s2 & E2 & He & Hk2 & Hf & U2 & V2 & F2). exists s2.
    split; [done|]. split; [by rewrite F2|]. right. exists r'. rewrite V2, U2. by split_and!.
Qed.
End execve.
End invariant.

(** ** On the demonstration machine *)

Definition demo_regs (eax ebx ecx edx : Z) : regs_t := Regs 0 0 0 0 0 0 0 0 ebx edx ecx eax 0 0 0 0 0 0 0.

Lemma syscall_total_witness :
  exists s', syscall_dispatch (fun _ => 0) (demo_regs SYS_GETPID 0 0 0) demo_esp demo_system =
    Ok (Done (demo_regs 1 0 0 0), s') /\ s' = demo_system.
Proof.
  destruct (syscall_total (fun _ => 0) (demo_regs SYS_GETPID 0 0 0) demo_esp demo_system) as (v & s' & E & _ & Hg).
  - unfold regs_ok, SYS_GETPID. simpl. lia.
  - unfold demo_esp. lia.
  - exact demo_rewound_inv.
  - right. right. right. left. reflexivity.
  - destruct (Hg eq_refl) as [-> Hv]. exists demo_system. split; [|reflexivity].
    assert (Hc : current_proc (sys_kern demo_system) = Some 1) by (vm_compute; reflexivity). rewrite Hc in Hv. rewrite Hv in E. exact E.
Defined.

(** The program of the demonstration machine, with its path in memory. *)
Definition demo_exec_umem : gmap Z Z := <[0x200000 := 47]> (<[0x200001 := 97]> ∅).
Definition demo_execve_system : system := System demo_exec demo_exec_umem.

Lemma demo_execve_ready :
  bool_decide (p_page_directory (pcb_at (sys_kern demo_execve_system) 1) = 0) && bool_decide (current_proc (sys_kern demo_execve_system) = Some 1) &&
  bool_decide (load_string STRING_FUEL demo_exec_umem 0x200000 = Some demo_path) = true.
Proof. vm_compute. reflexivity. Qed.

Lemma demo_execve_runs : match syscall_dispatch no_garbage (demo_regs SYS_EXECVE 0x200000 0 0) demo_esp demo_execve_system with
  | Ok (Done r, _) => r_eip r | _ => 0 end = 0x08048010.
Proof. vm_compute. reflexivity. Qed.

Lemma sys_execve_correct_witness :
  exists r' s', syscall_dispatch no_garbage (demo_regs SYS_EXECVE 0x200000 0 0) demo_esp demo_execve_system = Ok (Done r', s') /\
    enters 0x08048010 (demo_regs SYS_EXECVE 0x200000 0 0) r' /\ kinv (sys_kern s').
Proof.
  pose proof demo_execve_ready as Hready. apply andb_prop in Hready as [Hready Hs]. apply andb_prop in Hready as [Hpd Hc].
  apply bool_decide_eq_true_1 in Hs, Hpd, Hc.
  assert (Hval : syscall_validate_ptr 0x200000 1 demo_execve_system = Ok (true, demo_execve_system)).
  { unfold syscall_validate_ptr. cbn [Z.eqb orb]. rewrite (bind_ok _ _ _ (Some 1) demo_execve_system) by (unfold gets; by rewrite Hc).
    rewrite (bind_ok _ _ _ 0 demo_execve_system) by (unfold gets; by rewrite Hpd). reflexivity. }
  pose proof demo_exec_opens as Ho. destruct demo_exec_open as [[f k]|] eqn:Eo; [|discriminate Ho].
  apply andb_prop in Ho as [Ho Hp]. apply andb_prop in Ho as [Ho Ht]. apply negb_true_iff in Hp.
  destruct (open_is_on _ _ _ Ho) as (x & v & y & ino & Hopen & _ & _ & Hr).
  pose proof (preserves_keeps true _ (keeps_vfs_open demo_path O_RDONLY) _ _ _ demo_exec_inv Eo) as Hi.
  assert (En : e_entry (file_header no_garbage demo_elf_data) = 0x08048010) by (vm_compute; reflexivity).
  pose proof demo_execve_runs as Er.
  destruct (proj2 (sys_execve_correct no_garbage (demo_regs SYS_EXECVE 0x200000 0 0) demo_esp demo_execve_system demo_path 1 eq_refl Hval Hs Hc demo_exec_inv)
    f k x v y ino demo_elf_data Eo Hopen Hr) as [_ Hload].
  destruct (Hload 0x08048000 0x08049000 demo_window) as [E|(s' & Hk & _ & [[E _]|(r' & E & Hen & _)])].
  - intros a _. right. apply (kinv_low k 0x4C00000 Hi); [unfold HEAP_START, HEAP_MAX; lia|exact Hp].
  - exact demo_loadable.
  - rewrite En. discriminate.
  - rewrite E in Er. discriminate Er.
  - rewrite E in Er. discriminate Er.
  - rewrite En in Hen. exists r', s'. split; [exact E|]. split; [exact Hen|exact Hk].
Defined.
