(* ===== verification/SysFiles.v ===== *)
(** * The file calls of processes (sys_open, sys_close and sys_dup2 of
      kernel/syscall/syscall.c)

    The tables of Descriptors.v are those in the process table: on a kernel whose
    tables and reference counts agree the three calls end without undefined
    behaviour, whatever their arguments, and the tables and counts agree
    afterwards. *)

From Stdlib Require Import ZArith Lia.
From S2P Require Import Prelude Vmm Kheap HeapSpec Kstate Fd Fs FsLaws Ramfs Proc ProcInv ProcOps ProcSteps ProcSafety Kinv Dir Typed Path FileSafety Descriptors Tables.
From S2P Require Import Keyboard Pipe Vga Io Elf Loader Syscall.

(** ** Calls of the kernel inside a system call *)

Lemma runs_kern_ret {T} (c : M demo_kstate T) s (P : T -> demo_kstate -> Prop) : runs c (sys_kern s) P ->
  runs (on_sys (on_k c)) s (fun r s' => c (sys_kern s) = Ok (r, sys_kern s') /\ umem s' = umem s /\ P r (sys_kern s')).
Proof.
  destruct s as [[[kb k] t] u]. unfold sys_kern, m_kern. cbn [sys m_in kern]. intros [(msg & E)|(r & k' & E & Hp)].
  - left. exists msg. unfold on_sys, on_k, on_in, on_kern, zoom. simpl. by rewrite E.
  - eapply (runs_ok _ _ r (System (Machine (KbdState kb k') t) u)); [unfold on_sys, on_k, on_in, on_kern, zoom; simpl; by rewrite E|done].
Qed.

Lemma runs_kern {T U} (c : M demo_kstate T) (f : T -> M system U) s (P : T -> demo_kstate -> Prop) Q :
  runs c (sys_kern s) P ->
  (forall r s', c (sys_kern s) = Ok (r, sys_kern s') -> umem s' = umem s -> P r (sys_kern s') -> runs (f r) s' Q) -> runs (on_sys (on_k c) ≫= f) s Q.
Proof. intros Hc Hf. eapply runs_bind; [by apply (runs_kern_ret c s P)|]. intros r s' (E & Hu & Hp). by apply Hf. Qed.

Section calls.
Context (A : gmap Z Z).

(** Tables and reference counts agree. *)
Definition fds_agree (s : system) : Prop := fds_ok (sys_kern s) A (tables (sys_kern s)).
Definition current_ok (s : system) : Prop := forall i, current_proc (sys_kern s) = Some i -> 0 <= i < MAX_PROCS.

(** They agree again, and only the table of the caller has changed. *)
Definition agree_after (s s' : system) : Prop :=
  fds_agree s' /\ forall i, current_proc (sys_kern s) = Some i -> calm_but i (sys_kern s) (sys_kern s').

Lemma agree_refl s : fds_agree s -> agree_after s s.
Proof. intros Hf. by split. Qed.

Lemma agree_put {U} i t (f : unit -> M system U) s Q : 0 <= i < MAX_PROCS ->
  (forall s', sys_kern s' = upd_pcb i (set_p_fd_table t) (sys_kern s) -> umem s' = umem s -> runs (f tt) s' Q) -> runs (put_table i t ≫= f) s Q.
Proof.
  intros Hi Hf. unfold put_table. apply (runs_kern _ _ _ (fun _ _ => True)); [by eapply runs_ok|]. intros [] s' E Hu _. apply Hf; [|done]. by injection E as <-.
Qed.

(** The end of a call that put a table in place. *)
Lemma agree_end s0 s s' i t : 0 <= i < MAX_PROCS -> current_proc (sys_kern s0) = Some i -> calm_but i (sys_kern s0) (sys_kern s) ->
  sys_kern s' = upd_pcb i (set_p_fd_table t) (sys_kern s) ->
  fds_ok (sys_kern s) A (<[Z.to_nat i := t]> (tables (sys_kern s))) -> agree_after s0 s'.
Proof.
  intros Hi Hcur Hc E Hf. split.
  - unfold fds_agree. rewrite E, tables_put by done. destruct Hf as [H1 H2 [[? ? ? ?] ? ?]]. by split.
  - intros j Hj. rewrite Hcur in Hj. injection Hj as <-. transitivity (sys_kern s); [done|]. rewrite E. apply calm_but_put.
Qed.

Lemma with_table_runs {T} (none : T) (f : Z -> list Z -> M system T) s Q : current_ok s -> Q none s ->
  (forall i, current_proc (sys_kern s) = Some i -> 0 <= i < MAX_PROCS -> runs (f i (p_fd_table (pcb_at (sys_kern s) i))) s Q) -> runs (with_table none f) s Q.
Proof.
  intros Hc Hn Hf. unfold with_table. eapply runs_step; [reflexivity|]. destruct (current_proc (sys_kern s)) as [i|] eqn:E; [|by eapply runs_ok].
  eapply runs_step; [reflexivity|]. apply Hf; [done|by apply Hc].
Qed.

(** A file operation that only read the tables. *)
Lemma agree_calm {T} b (c : M demo_kstate T) s s' r B R : keeps b c -> balanced (sys_kern s) B R -> c (sys_kern s) = Ok (r, sys_kern s') ->
  calm None (sys_kern s) (sys_kern s').
Proof. intros Hc Hf E. exact (keeps_calm b c _ B _ _ Hc (fo_heap _ _ (bl_files _ _ _ Hf)) E). Qed.

Lemma agree_same s s' : fds_agree s -> calm None (sys_kern s) (sys_kern s') -> balanced (sys_kern s') A (refs (tables (sys_kern s))) -> agree_after s s'.
Proof.
  intros [H1 H2 _] Hc Hb. split; [|intros i _; by apply calm_but_calm]. unfold fds_agree. rewrite (tables_ext _ _ (cm_table _ _ _ Hc)). by split.
Qed.

Lemma sys_close_runs r s : fds_agree s -> current_ok s -> runs (sys_close r) s (fun _ s' => agree_after s s').
Proof.
  intros Hf Hc. pose proof (agree_refl s Hf) as Hsame. unfold sys_close. apply with_table_runs; [done|done|]. intros i Hcur Hi. set (t := p_fd_table _).
  destruct (fd_entry t (s32 (r_ebx r))) as [f|]; [|by eapply runs_ok].
  eapply runs_kern; [apply (fd_close_runs _ A _ (Z.to_nat i) t _ Hf); by apply tables_at|]. intros t' s1 E1 _ [H1 _].
  pose proof (agree_calm false _ s s1 t' _ _ (keeps_fd_close t _) (fds_count _ _ _ Hf) E1) as Hcalm.
  apply agree_put; [done|]. intros s2 E2 _. eapply runs_ok; [done|]. apply (agree_end s s1 s2 i t' Hi Hcur); [by apply calm_but_calm|done|].
  by rewrite (tables_ext _ _ (cm_table _ _ _ Hcalm)).
Qed.

Lemma sys_open_runs r s ok : fds_agree s -> current_ok s -> syscall_validate_ptr (r_ebx r) 1 s = Ok (ok, s) ->
  is_Some (load_string STRING_FUEL (umem s) (r_ebx r)) -> runs (sys_open r) s (fun _ s' => agree_after s s').
Proof.
  intros Hf Hc Hv [path Hp]. pose proof (agree_refl s Hf) as Hsame. unfold sys_open. eapply runs_step; [exact Hv|]. destruct (negb ok); [by eapply runs_ok|].
  apply with_table_runs; [done|done|]. intros i Hcur Hi. set (t := p_fd_table _). pose proof (tables_at (sys_kern s) i Hi) as Ht. fold t in Ht.
  eapply (runs_step _ _ _ path s); [unfold user_string; by rewrite Hp|].
  eapply runs_kern; [by apply (open_balanced _ A (tables (sys_kern s)))|]. intros f s1 E1 _ H1. cbn beta in H1.
  pose proof (agree_calm true _ s s1 f _ _ (keeps_vfs_open path _) (fds_count _ _ _ Hf) E1) as C1.
  destruct (Z.eqb_spec f 0) as [->|Hz]; [eapply runs_ok; [done|]; by apply agree_same|]. rewrite decide_False in H1 by done.
  pose proof (install_at t f) as Hins. destruct (fd_install t f) as [fd t'] eqn:Ei. destruct Hins as [[-> ->]|(Hfd & Hk & ->)].
  - cbn [Z.ltb Z.compare]. eapply runs_kern; [apply (close_balanced _ A (refs (tables (sys_kern s))) f H1 Hz); pose proof (refs_bound _ A _ f Hf); lia|].
    intros [] s2 E2 _ H2. eapply runs_ok; [done|]. apply agree_same; [done| |done]. transitivity (sys_kern s1); [done|].
    exact (agree_calm false _ s1 s2 tt _ _ (keeps_vfs_close f) H1 E2).
  - rewrite (proj2 (Z.ltb_ge fd 0)) by lia. apply agree_put; [done|]. intros s2 E2 _. eapply runs_ok; [done|].
    eapply (agree_end s s1 s2 i); [done|done|by apply calm_but_calm|exact E2|]. rewrite (tables_ext _ _ (cm_table _ _ _ C1)). by apply (fds_install (sys_kern s) A).
Qed.

Lemma sys_dup2_runs r s : fds_agree s -> current_ok s -> runs (sys_dup2 r) s (fun _ s' => agree_after s s').
Proof.
  intros Hf Hc. pose proof (agree_refl s Hf) as Hsame. unfold sys_dup2. apply with_table_runs; [done|done|]. intros i Hcur Hi. set (t := p_fd_table _).
  pose proof (tables_at (sys_kern s) i Hi) as Ht. fold t in Ht.
  set (oldfd := s32 (r_ebx r)). set (newfd := s32 (r_ecx r)). assert (Hl : length t = FD_MAX) by (by apply (Forall_lookup_1 _ _ _ _ (fds_tables _ _ _ Hf) Ht)).
  destruct (Z.ltb_spec oldfd 0), (Z.leb_spec (Z.of_nat FD_MAX) oldfd); try (by eapply runs_ok). cbn [orb].
  destruct (Z.ltb_spec newfd 0), (Z.leb_spec (Z.of_nat FD_MAX) newfd); try (by eapply runs_ok). cbn [orb].
  destruct (fd_entry t oldfd) as [f|] eqn:Eo; [|by eapply runs_ok]. destruct (entry_at t oldfd f Hl Eo) as (Hk & Hz & _).
  destruct (Z.eqb_spec oldfd newfd) as [|Hne]; [by eapply runs_ok|]. assert (Hk' : Z.to_nat newfd <> Z.to_nat oldfd) by lia.
  eapply (runs_bind _ _ _ (fun t' s' => fds_ok (sys_kern s') A (<[Z.to_nat i := t']> (tables (sys_kern s'))) /\ calm None (sys_kern s) (sys_kern s') /\
    t' !! Z.to_nat newfd = Some 0 /\ t' !! Z.to_nat oldfd = Some f)).
  - destruct (fd_entry t newfd) as [g|] eqn:En.
    + eapply runs_weaken; [apply runs_kern_ret; by apply (fd_close_runs _ A _ (Z.to_nat i) t newfd Hf)|]. intros t' s1 (E1 & _ & K1 & E).
      pose proof (agree_calm false _ s s1 t' _ _ (keeps_fd_close t _) (fds_count _ _ _ Hf) E1) as C1.
      rewrite En in E. subst t'. split; [by rewrite (tables_ext _ _ (cm_table _ _ _ C1))|]. split; [done|].
      split; [apply list_lookup_insert_eq; destruct (entry_at t newfd g Hl En) as (Hg & _); by eapply lookup_lt_Some|by rewrite list_lookup_insert_ne].
    + eapply runs_ok; [done|]. split; [by rewrite list_insert_id|]. split; [apply calm_refl|]. split; [by apply entry_none|done].
  - intros t' s1 (K1 & C1 & Hn & Ho). pose proof (tables_at (sys_kern s1) i Hi) as Ht1. apply agree_put; [done|]. intros s2 E2 _. set (tabs := <[Z.to_nat i := t']> (tables (sys_kern s1))) in *.
    assert (Hi' : tabs !! Z.to_nat i = Some t') by (apply list_lookup_insert_eq; by eapply lookup_lt_Some).
    assert (Hr : (0 < refs tabs f)%nat) by (pose proof (refs_table f _ _ t' Hi'); pose proof (occ_elem f t' (list_elem_of_lookup_2 _ _ _ Ho)); lia).
    assert (Hb2 : balanced (sys_kern s2) A (refs tabs)) by (rewrite E2; destruct (fds_count _ _ _ K1) as [[? ? ? ?] ? ?]; by split).
    eapply runs_kern; [apply (ref_balanced _ A _ f Hb2 Hz Hr); pose proof (refs_bound _ A _ f K1); lia|]. intros [] s3 E3 _ K3. eapply runs_ok; [done|].
    pose proof (agree_calm true _ s2 s3 tt _ _ (keeps_file_ref f) Hb2 E3) as C3. split.
    + unfold fds_agree. rewrite (tables_ext _ _ (cm_table _ _ _ C3)), E2, tables_put by done.
      pose proof (fds_install (sys_kern s1) A (sys_kern s3) tabs _ t' _ f K1 Hi' Hn Hz K3) as K4. unfold tabs in K4. by rewrite list_insert_insert_eq in K4.
    + intros j Hj. rewrite Hcur in Hj. injection Hj as <-. transitivity (sys_kern s2); [|by apply calm_but_calm].
      transitivity (sys_kern s1); [by apply calm_but_calm|]. rewrite E2. apply calm_but_put.
Qed.

(** the file calls of processes are memory safe. When the descriptor tables
    in the process table and the reference counts of the open files agree (and
    there is no pipe), close and dup2 with any register values end without
    undefined behaviour, with a result or by the panic of a heap that cannot
    grow, and so does open with any flags on any string that ends, once the
    check of its pointer has returned; tables and reference counts agree
    afterwards. *)
Theorem file_calls_safe r s ok : fds_agree s -> current_ok s -> syscall_validate_ptr (r_ebx r) 1 s = Ok (ok, s) ->
  is_Some (load_string STRING_FUEL (umem s) (r_ebx r)) ->
  runs (sys_open r) s (fun _ s' => fds_agree s') /\ runs (sys_close r) s (fun _ s' => fds_agree s') /\ runs (sys_dup2 r) s (fun _ s' => fds_agree s').
Proof.
  intros Hf Hc Hv Hp. split; [|split]; (apply (runs_weaken _ _ (fun _ s' => agree_after s s')); [|by intros o s' [Ha _]]); [by apply (sys_open_runs r s ok)|by apply sys_close_runs|by apply sys_dup2_runs].
Qed.
End calls.

(** ** Witness *)

(** The demonstration machine with process 1 running. *)
Definition demo_running : demo_kstate := set_current_proc (Some 1) demo_mounted.
Definition demo_fd_system : system := System (Machine (KbdState initial_keyboard demo_running) (Terminal 0 0 7 ∅)) demo_exec_umem.

Lemma demo_running_tables : tables (sys_kern demo_fd_system) = demo_tabs.
Proof. vm_compute. reflexivity. Qed.

Lemma fds_current (k : demo_kstate) A tabs c : fds_ok k A tabs -> fds_ok (set_current_proc c k) A tabs.
Proof. intros [H1 H2 [[? ? ? ?] ? ?]]. by split. Qed.

Lemma demo_fd_agree : fds_agree ∅ demo_fd_system.
Proof.
  unfold fds_agree. rewrite demo_running_tables. change (sys_kern demo_fd_system) with (set_current_proc (Some 1) demo_mounted).
  apply fds_current, fd_reachable_ok. exact demo_fd_reachable.
Qed.

Lemma demo_path_string : load_string STRING_FUEL demo_exec_umem 0x200000 = Some demo_path.
Proof. vm_compute. reflexivity. Qed.

Lemma demo_open_fd : match sys_open (demo_regs SYS_OPEN 0x200000 O_CREAT 0) demo_fd_system with
  | Ok (Done fd, s') => (fd =? 0) && (negb (default 0 (p_fd_table (pcb_at (sys_kern s') 1) !! 0%nat) =? 0))
  | _ => false
  end = true.
Proof. vm_compute. reflexivity. Qed.

Lemma demo_pd : p_page_directory (pcb_at (sys_kern demo_fd_system) 1) = 0.
Proof. vm_compute. reflexivity. Qed.

Lemma file_calls_safe_witness : exists o s', sys_open (demo_regs SYS_OPEN 0x200000 O_CREAT 0) demo_fd_system = Ok (o, s') /\ fds_agree ∅ s'.
Proof.
  assert (Hval : syscall_validate_ptr 0x200000 1 demo_fd_system = Ok (true, demo_fd_system)).
  { unfold syscall_validate_ptr. cbn [Z.eqb orb]. rewrite (bind_ok _ _ _ (Some 1) demo_fd_system) by reflexivity.
    rewrite (bind_ok _ _ _ 0 demo_fd_system) by (unfold gets; by rewrite demo_pd). reflexivity. }
  destruct (file_calls_safe ∅ (demo_regs SYS_OPEN 0x200000 O_CREAT 0) demo_fd_system true demo_fd_agree) as [[(msg & E)|(o & s' & E & K)] _].
  - intros i [= <-]. unfold MAX_PROCS. lia.
  - exact Hval.
  - exists demo_path. exact demo_path_string.
  - pose proof demo_open_fd as Ho. rewrite E in Ho. discriminate Ho.
  - exists o, s'. split; [exact E|exact K].
Defined.
