(* ===== verification/SysSafety.v ===== *)
(** * System calls on a safe kernel (kernel/syscall/syscall.c)

    On a kernel that satisfies [ksafe] every system call except pipe and execve,
    and every resumption of one that sleeps, ends without undefined behaviour:
    with a result, asleep, or by the panic of a heap that cannot grow. The
    invariant holds afterwards, and no living process but the caller loses a
    descriptor or its life.

    The kernel runs in the address space of its processes and checks no pointer
    against its own data. [user] names the bytes of memory that processes pass
    pointers to: with such pointers, no call changes a byte outside of [user]. *)

From Stdlib Require Import ZArith Lia.
From S2P Require Import Prelude Vmm Kheap HeapSpec Kstate Fd Fs FsLaws Ramfs Proc ProcInv ProcOps ProcSteps ProcSafety Kinv Dir Typed Path FileSafety Descriptors Tables Tasks.
From S2P Require Import Keyboard Pipe Vga Io Transfers Elf Loader Syscall SysFiles.

Section calls.
Variable garbage : Z -> Z.
Variable user : Z -> Prop.
Implicit Types (s : system) (k : demo_kstate).

(** ** The memory of processes *)

(** The [n] bytes at address [a]. *)
Definition in_user (a n : Z) : Prop := forall i, 0 <= i < n -> user (a +w i).

(** Memory changes in [user] at most. *)
Definition kept_outside (u u' : gmap Z Z) : Prop := forall a, ~ user a -> u' !! a = u !! a.

#[local] Instance kept_outside_preorder : PreOrder kept_outside.
Proof. split; [by intros u a|]. intros u1 u2 u3 H1 H2 a Ha. by rewrite (H2 a Ha), (H1 a Ha). Qed.

Lemma store_kept_outside data : forall a u, 0 <= a < 2 ^ 32 -> in_user a (Z.of_nat (length data)) -> kept_outside u (store_bytes garbage a data u).
Proof.
  induction data as [|d data IH]; intros a u Ha Hin; cbn [store_bytes]; [done|]. cbn [length] in Hin.
  transitivity (<[a := default (garbage a) d]> u).
  - intros b Hb. rewrite lookup_insert_ne; [done|]. intros ->. apply Hb. specialize (Hin 0 ltac:(lia)). by rewrite Z.add_0_r, u32_small in Hin by lia.
  - apply IH; [apply u32_range|]. intros i Hi. specialize (Hin (1 + i) ltac:(lia)). unfold u32 in *. rewrite Zplus_mod_idemp_l. by rewrite <- Z.add_assoc.
Qed.

(** ** Outcomes *)

Definition ssafe s : Prop := msafe (sys s).

(** A call that sleeps belongs to a living process, and goes on reading from a
    file that its table holds or waiting for a child, with its result for
    [user]. *)
Definition sleeping_ok k (i : Z) (at_ : suspended) : Prop := alive k i /\
  match at_ with
  | InRead f buf (InKeyboardRead len) => f <> 0 /\ f ∈ p_fd_table (pcb_at k i) /\ 0 <= buf < 2 ^ 32 /\ 0 <= len /\ in_user buf len
  | InWait self _ out_code => self = i /\ 0 <= out_code < 2 ^ 32 /\ (out_code = 0 \/ in_user out_code 4)
  | _ => False
  end.

(** What a call of process [i] leaves. *)
Definition called (i : Z) s (o : outcome Z) s' : Prop := ssafe s' /\ spares [i] (sys_kern s) (sys_kern s') /\ kept_outside (umem s) (umem s') /\
  match o with Done _ => True | Sleep _ at_ => sleeping_ok (sys_kern s') i at_ end.

Lemma called_none i s v : ssafe s -> called i s (Done v) s.
Proof. intros Hs. split; [done|]. split; [apply spares_refl|]. by split. Qed.

(** ** Parts of calls *)

Definition put_kern k s : system := set_sys (with_kern k (sys s)) s.

Lemma ssafe_put k s : ssafe s -> ksafe k -> ssafe (put_kern k s).
Proof. apply msafe_kern. Qed.

Lemma runs_on_sys {T} (c : M (machine kheap_state) T) s P : runs c (sys s) P -> runs (on_sys c) s (fun r s' => exists m, s' = set_sys m s /\ P r m).
Proof.
  intros [(msg & E)|(r & m & E & Hp)]; [left; exists msg; unfold on_sys, zoom; by rewrite E|]. eapply runs_ok; [by apply on_sys_ok|]. by exists m.
Qed.

Lemma runs_sys_kern {T} (c : M demo_kstate T) s P : runs c (sys_kern s) P -> runs (on_sys (on_k c)) s (fun r s' => exists k, s' = put_kern k s /\ P r k).
Proof.
  intros Hc. eapply runs_weaken; [apply runs_on_sys, runs_on_k, Hc|]. intros r s' (m & -> & k & -> & Hp). by exists k.
Qed.

(** Pointers are always accepted, as every process runs in the kernel's address
    space. *)
Lemma validate_same s ptr len : ssafe s -> exists b, syscall_validate_ptr ptr len s = Ok (b, s).
Proof.
  intros Hs. unfold syscall_validate_ptr. destruct (_ || _); [by eexists|]. unfold mbind, M_bind, gets. destruct (current_proc (sys_kern s)) as [i|]; [|by eexists].
  pose proof (sk_space _ (ks_slots _ (ms_kern _ Hs)) i) as E. change (m_kern (sys s)) with (sys_kern s) in E. rewrite E. by eexists.
Qed.

Lemma current_used s i : ssafe s -> current_proc (sys_kern s) = Some i -> 1 <= i < MAX_PROCS /\ used (sys_kern s) i.
Proof. intros Hs Hc. destruct (ks_inv _ (ms_kern _ Hs)) as (L & A & q & Hinv). by destruct (pi_current _ _ _ _ _ Hinv i Hc) as (? & ? & _). Qed.

(** The file of a descriptor. *)
Lemma entry_held s i fd f : ssafe s -> current_proc (sys_kern s) = Some i -> fd_entry (p_fd_table (pcb_at (sys_kern s) i)) fd = Some f ->
  f <> 0 /\ f ∈ p_fd_table (pcb_at (sys_kern s) i) /\ held (sys_kern s) f.
Proof.
  intros Hs Hc He. destruct (current_used s i Hs Hc) as [Hi _]. destruct (ksafe_parts _ (ms_kern _ Hs)) as (L & A & q & _ & Hf).
  pose proof (tables_at (sys_kern s) i ltac:(lia)) as Ht.
  destruct (entry_at _ fd f (Forall_lookup_1 _ _ _ _ (fds_tables _ _ _ Hf) Ht) He) as (Hk & Hz & _). apply list_elem_of_lookup_2 in Hk.
  split; [done|]. split; [done|]. split; [done|]. pose proof (occ_elem f _ Hk). pose proof (refs_table f _ _ _ Ht). lia.
Qed.

Lemma in_table_held k i f : 1 <= i < MAX_PROCS -> f <> 0 -> f ∈ p_fd_table (pcb_at k i) -> held k f.
Proof. intros Hi Hz Hin. split; [done|]. pose proof (occ_elem f _ Hin). pose proof (refs_table f _ _ _ (tables_at k i ltac:(lia))). lia. Qed.

(** The process table alone changed, calmly. *)
Lemma called_calm i s k o : ssafe s -> ksafe k -> calm (Some i) (sys_kern s) k ->
  match o with Done _ => True | Sleep _ at_ => sleeping_ok k i at_ end -> called i s o (put_kern k s).
Proof. intros Hs Hk Hc Ho. split; [by apply ssafe_put|]. split; [by apply spares_calm_but|]. by split. Qed.

(** ** Processes *)

Lemma sys_exit_runs i r esp s : ssafe s -> current_proc (sys_kern s) = Some i -> 0 < esp -> runs (sys_exit r esp) s (called i s).
Proof.
  intros Hs Hc He. unfold sys_exit. eapply runs_bind; [apply runs_sys_kern, (proc_exit_runs _ _ esp (ms_kern _ Hs) He)|].
  intros e s' (k & -> & Hk & Hcalm). eapply runs_ok; [done|]. apply called_calm; [done|done| |done]. change (m_kern (sys s)) with (sys_kern s) in Hcalm. by rewrite Hc in Hcalm.
Qed.

Lemma sys_getpid_runs i s : ssafe s -> runs sys_getpid s (called i s).
Proof. intros Hs. unfold sys_getpid. eapply runs_step; [reflexivity|]. destruct (current_proc _); [eapply runs_step; [reflexivity|]|]; (eapply runs_ok; [done|by apply called_none]). Qed.

Lemma sys_sleep_runs i r esp s : ssafe s -> 0 < esp -> runs (sys_sleep r esp) s (called i s).
Proof.
  intros Hs He. unfold sys_sleep. eapply runs_bind; [apply runs_sys_kern, (proc_sleep_runs _ _ esp (ms_kern _ Hs) He)|].
  intros e s' (k & -> & Hk & Hcalm). eapply runs_ok; [done|]. apply called_calm; [done|done|by apply calm_weaken|done].
Qed.

Lemma sys_fork_runs i r s : ssafe s -> regs_ok r -> runs (sys_fork r) s (called i s).
Proof.
  intros Hs (Hb & _). unfold sys_fork. destruct (r_ebx r =? 0); [eapply runs_ok; [done|by apply called_none]|].
  eapply runs_bind; [apply runs_sys_kern, (proc_fork_runs _ _ (ms_kern _ Hs) Hb)|]. intros c s' (k & -> & Hk & Hsp). eapply runs_ok; [done|].
  split; [by apply ssafe_put|]. split; [apply (spares_weaken []); [by intros j ?%elem_of_nil|exact Hsp]|]. by split.
Qed.

Lemma sys_exec_runs i r s : ssafe s -> regs_ok r -> runs (sys_exec r) s (called i s).
Proof.
  intros Hs (_ & Hcx & _). unfold sys_exec. eapply runs_step; [reflexivity|]. destruct (ks_inv _ (ms_kern _ Hs)) as (L & A & q & Hinv).
  destruct (proc_get_slot _ L A q (u16 (r_ebx r)) Hinv ltac:(apply u16_range)) as [Eg|(Eg & Hi & Hu)]; change (m_kern (sys s)) with (sys_kern s) in Eg; rewrite Eg;
    [eapply runs_ok; [done|by apply called_none]|]. destruct (r_ecx r =? 0); [eapply runs_ok; [done|by apply called_none]|].
  eapply runs_bind; [apply runs_sys_kern, (proc_exec_runs _ _ (r_ecx r) (ms_kern _ Hs) Hi Hu Hcx)|]. intros v s' (k & -> & Hk & Hcalm). eapply runs_ok; [done|].
  apply called_calm; [done|done|by apply calm_weaken|done].
Qed.

(** The exit code goes to the caller's memory. *)
Lemma wait_done_runs i s0 s pid out_code w : ssafe s -> spares [i] (sys_kern s0) (sys_kern s) -> umem s = umem s0 ->
  0 <= out_code < 2 ^ 32 -> out_code = 0 \/ in_user out_code 4 ->
  match w with WaitBlocked _ => alive (sys_kern s) i | _ => True end -> runs (wait_done garbage i pid out_code w) s (called i s0).
Proof.
  intros Hs Hsp Hu Hr Hout Hw. assert (Hsame : kept_outside (umem s0) (umem s)) by (by rewrite Hu).
  unfold wait_done. destruct w as [|cpid code|e]; [eapply runs_ok; [done|]; by split| |eapply runs_ok; [done|]; by split].
  eapply (runs_step _ _ _ tt (if out_code =? 0 then s else set_umem (store_bytes garbage out_code (word_bytes code) (umem s)) s)); [by destruct (out_code =? 0)|].
  eapply runs_ok; [done|]. destruct (Z.eqb_spec out_code 0); [by split|]. split; [done|]. split; [done|]. split; [|done].
  rewrite <- Hu. apply store_kept_outside; [done|]. by destruct Hout.
Qed.

Lemma sys_wait_runs i r esp s : ssafe s -> current_proc (sys_kern s) = Some i -> 0 < esp -> regs_ok r -> r_ecx r = 0 \/ in_user (r_ecx r) 4 ->
  runs (sys_wait garbage r esp) s (called i s).
Proof.
  intros Hs Hc He (_ & Hcx & _) Hout. unfold sys_wait.
  assert (Hv : exists b, (if r_ecx r =? 0 then mret true else syscall_validate_ptr (r_ecx r) 4) s = Ok (b, s)) by (destruct (r_ecx r =? 0); [by eexists|by apply validate_same]).
  destruct Hv as [b Eb]. eapply runs_step; [exact Eb|]. destruct (negb b); [eapply runs_ok; [done|by apply called_none]|].
  eapply runs_step; [reflexivity|]. rewrite Hc. cbn [default].
  eapply runs_bind; [apply runs_sys_kern, (proc_wait_runs _ _ esp (ms_kern _ Hs) He)|]. intros w s' (k & -> & Hk & Hsp & Hw).
  change (m_kern (sys s)) with (sys_kern s) in Hw, Hsp. rewrite Hc in Hw.
  apply wait_done_runs; [by apply ssafe_put| |done|done|done|by destruct w]. apply (spares_weaken []); [by intros j ?%elem_of_nil|exact Hsp].
Qed.

(** ** Transfers *)

(** The bytes of a read go to the caller's memory. *)
Lemma read_out_runs i s m f buf len o : ssafe s -> current_proc (sys_kern s) = Some i -> f <> 0 -> f ∈ p_fd_table (pcb_at (sys_kern s) i) ->
  0 <= buf < 2 ^ 32 -> 0 <= len -> in_user buf len -> transferred (sys s) len o m -> runs (read_out garbage f buf 0 o) (set_sys m s) (called i s).
Proof.
  intros Hs Hc Hz Hin Hbuf Hlen Hu (Hm & Hcalm & Ho). assert (Hsp : spares [i] (sys_kern s) (m_kern m)) by (by apply spares_calm).
  assert (Hst : forall data, Z.of_nat (length data) <= len -> kept_outside (umem s) (store_bytes garbage (buf +w 0) (drop 0 data) (umem s))).
  { intros data Hl. rewrite Z.add_0_r, u32_small by lia. apply store_kept_outside; [done|]. intros j Hj. apply Hu. rewrite drop_0 in Hj. lia. }
  unfold read_out. destruct o as [n data|e b]; (eapply runs_step; [reflexivity|]); (eapply runs_ok; [done|]); (split; [done|]); (split; [done|]).
  - split; [by apply Hst|done].
  - destruct b as [| |l]; try done. destruct Ho as [-> Ho]. split; [by apply (Hst [])|]. split; [by apply Ho|]. split; [done|]. split; [|done].
    change (f ∈ p_fd_table (pcb_at (m_kern m) i)). by rewrite (cm_table _ _ _ Hcalm).
Qed.

(** The bytes that a read or a write names, where its pointer is accepted. *)
Definition buffer_in_user (r : regs_t) : Prop := r_ecx r = 0 \/ in_user (r_ecx r) (r_edx r).

Lemma sys_read_runs i r esp s : ssafe s -> current_proc (sys_kern s) = Some i -> 0 < esp < 2 ^ 32 -> regs_ok r -> buffer_in_user r ->
  runs (sys_read garbage r esp) s (called i s).
Proof.
  intros Hs Hc He (_ & Hcx & Hdx & _) Hbuf. unfold sys_read. destruct Hbuf as [E|Hbuf].
  { rewrite E. eapply runs_ok; [reflexivity|]. by apply called_none. }
  destruct (validate_same s (r_ecx r) (r_edx r) Hs) as [b Eb]. eapply runs_step; [exact Eb|].
  destruct (negb b); [eapply runs_ok; [done|by apply called_none]|]. unfold with_table. eapply runs_step; [reflexivity|]. rewrite Hc. eapply runs_step; [reflexivity|].
  unfold fd_read. destruct (fd_entry _ (s32 (r_ebx r))) as [f|] eqn:Ee.
  - destruct (entry_held s i _ f Hs Hc Ee) as (Hz & Hin & Hheld).
    eapply runs_bind; [apply runs_on_sys, (vfs_read_runs (sys s) f (r_ecx r) (r_edx r) esp ltac:(lia) Hs Hheld He)|]. intros o s' (m & -> & Ht).
    apply (read_out_runs i s m f (r_ecx r) (r_edx r)); try done; lia.
  - eapply (runs_step _ _ _ (IoRet (-1) []) s); [by destruct s|]. unfold read_out. eapply runs_step; [reflexivity|]. eapply runs_ok; [done|].
    split; [done|]. split; [done|]. by split.
Qed.

(** The write call names a range of bytes that fits below 2 GiB in the file. *)
Definition write_call_fits s (r : regs_t) : Prop := forall i f, current_proc (sys_kern s) = Some i ->
  fd_entry (p_fd_table (pcb_at (sys_kern s) i)) (s32 (r_ebx r)) = Some f -> write_fits (sys_kern s) f (r_edx r).

Lemma sys_write_runs i r esp s : ssafe s -> current_proc (sys_kern s) = Some i -> regs_ok r -> write_call_fits s r -> runs (sys_write r esp) s (called i s).
Proof.
  intros Hs Hc (_ & _ & Hd & _) Hfit. unfold sys_write. destruct (validate_same s (r_ecx r) (r_edx r) Hs) as [b Eb]. eapply runs_step; [exact Eb|].
  destruct (negb b); [eapply runs_ok; [done|by apply called_none]|]. unfold with_table. eapply runs_step; [reflexivity|]. rewrite Hc. eapply runs_step; [reflexivity|].
  eapply runs_step; [reflexivity|]. set (src := load_bytes _ _ _).
  assert (Hlen : Z.of_nat (length src) = r_edx r) by (unfold src, load_bytes; rewrite length_fmap, length_seq; lia). clearbody src.
  unfold fd_write. destruct (fd_entry _ (s32 (r_ebx r))) as [f|] eqn:Ee; cbn [default].
  - destruct (entry_held s i _ f Hs Hc Ee) as (Hz & Hin & Hheld). specialize (Hfit i f Hc Ee). rewrite <- Hlen in Hfit.
    eapply runs_bind; [apply runs_on_sys, (vfs_write_runs (sys s) f (r_ecx r) src esp Hs Hheld Hfit)|]. intros o s' (m & -> & (n & ->) & Hm & Hcalm).
    eapply runs_ok; [done|]. split; [done|]. split; [by apply spares_calm|]. by split.
  - eapply (runs_step _ _ _ (IoRet (-1) []) s); [by destruct s|]. eapply runs_ok; [done|]. by apply called_none.
Qed.

(** ** Descriptors *)

(** The keyboard and the memory of processes are not touched. *)
Definition same_rest {T : Type} (c : M system T) : Prop := forall s r s', c s = Ok (r, s') ->
  kbd (m_in (sys s')) = kbd (m_in (sys s)) /\ umem s' = umem s.

Lemma same_rest_ret {T} (x : T) : same_rest (mret x).
Proof. by intros s r s' [= <- <-]. Qed.
Lemma same_rest_gets {T} (f : system -> T) : same_rest (gets f).
Proof. by intros s r s' [= <- <-]. Qed.
Lemma same_rest_bind {T U} (c : M system T) (k : T -> M system U) : same_rest c -> (forall x, same_rest (k x)) -> same_rest (c ≫= k).
Proof. intros Hc Hk s r s' E. apply bind_inv in E as (x & s1 & E1 & E2). destruct (Hk x _ _ _ E2) as [-> ->]. by apply (Hc s x). Qed.
Lemma same_rest_kern {T} (c : M demo_kstate T) : same_rest (on_sys (on_k c)).
Proof.
  intros s r s' E. unfold on_sys, on_k, on_in, on_kern, zoom in E. destruct (c _) as [[x k]|]; [|done]. by injection E as <- <-.
Qed.
Lemma same_rest_string a : same_rest (user_string a).
Proof. intros s r s' E. unfold user_string in E. destruct (load_string _ _ _); [|done]. by injection E as <- <-. Qed.
Lemma same_rest_validate ptr len : same_rest (syscall_validate_ptr ptr len).
Proof.
  unfold syscall_validate_ptr. destruct (_ || _); [apply same_rest_ret|]. apply same_rest_bind; [apply same_rest_gets|]. intros [i|]; [|apply same_rest_ret].
  apply same_rest_bind; [apply same_rest_gets|]. intros pd. destruct (pd =? 0); [apply same_rest_ret|apply same_rest_kern].
Qed.

Ltac same_rest_step :=
  match goal with
  | |- same_rest (_ ≫= _) => apply same_rest_bind; [|intros]
  | |- same_rest (if ?b then _ else _) => destruct b
  | |- same_rest (match ?x with _ => _ end) => destruct x
  | |- same_rest (mret _) => apply same_rest_ret
  | |- same_rest (gets _) => apply same_rest_gets
  | |- same_rest (user_string _) => apply same_rest_string
  | |- same_rest (syscall_validate_ptr _ _) => apply same_rest_validate
  | |- same_rest (on_sys (on_k _)) => apply same_rest_kern
  | |- same_rest (put_table _ _) => apply same_rest_kern
  | |- same_rest (with_table _ _) => unfold with_table
  end.

Lemma same_rest_open r : same_rest (sys_open r).
Proof. unfold sys_open. repeat same_rest_step. Qed.
Lemma same_rest_close r : same_rest (sys_close r).
Proof. unfold sys_close. repeat same_rest_step. Qed.
Lemma same_rest_dup2 r : same_rest (sys_dup2 r).
Proof. unfold sys_dup2. repeat same_rest_step. Qed.

(** A call on descriptors whose tables and counts agree afterwards. *)
Lemma agree_called A n i r esp c s : syscall_table garbage n r esp = Some (plain r c) -> n <> SYS_EXECVE -> regs_ok r -> 0 < esp < 2 ^ 32 ->
  same_rest c -> ssafe s -> current_proc (sys_kern s) = Some i -> (forall o s', c s = Ok (o, s') -> exists v, o = Done v) ->
  runs c s (fun _ s' => agree_after A s s') -> runs c s (called i s).
Proof.
  intros Et Hn Hr He Hk Hs Hc Hdone Hrun. apply runs_eq in Hrun. eapply runs_weaken; [exact Hrun|]. intros o s' (E & Hf & Hb). specialize (Hb i Hc).
  destruct (current_used s i Hs Hc) as [Hi Hu]. destruct (Hdone o s' E) as [v ->].
  assert (Hi' : kinv (sys_kern s')).
  { apply (hoare_table garbage n r esp _ Hr He Hn Et s (Done v, r) s'); [exact (ks_inv _ (ms_kern _ Hs))|]. unfold plain. by rewrite (bind_ok _ _ _ _ _ E). }
  destruct (Hk s _ s' E) as [Ek Eu]. split; [|split; [by apply spares_calm_table|by rewrite Eu]]. split; [|rewrite Ek; apply Hs].
  split; [done|by exists A|]. by apply (slots_calm_but i (sys_kern s)), Hs.
Qed.

Lemma ssafe_agree s : ssafe s -> exists A, fds_agree A s.
Proof. intros Hs. destruct (ksafe_parts _ (ms_kern _ Hs)) as (L & A & q & _ & Hf). by exists A. Qed.
Lemma ssafe_current s : ssafe s -> current_ok s.
Proof. intros Hs i Hc. destruct (current_used s i Hs Hc) as [? _]. lia. Qed.

(** Handlers that never sleep. *)
Definition finishes (c : M system (outcome Z)) : Prop := forall s o s', c s = Ok (o, s') -> exists v, o = Done v.
Lemma finishes_ret v : finishes (mret (Done v)).
Proof. intros s o s' [= <- <-]. by exists v. Qed.
Lemma finishes_bind {T} (c : M system T) (f : T -> M system (outcome Z)) : (forall x, finishes (f x)) -> finishes (c ≫= f).
Proof. intros Hf s o s' E. apply bind_inv in E as (x & s1 & _ & E). by apply (Hf x s1 o s'). Qed.
Ltac finishes_step :=
  match goal with
  | |- finishes (if ?b then _ else _) => destruct b
  | |- finishes (match ?x with _ => _ end) => destruct x
  | |- finishes (mret _) => apply finishes_ret
  | |- finishes (with_table _ _) => unfold with_table
  | |- finishes (_ ≫= _) => apply finishes_bind; intros
  end.
Lemma finishes_open r : finishes (sys_open r).
Proof. unfold sys_open. repeat finishes_step. Qed.
Lemma finishes_close r : finishes (sys_close r).
Proof. unfold sys_close. repeat finishes_step. Qed.
Lemma finishes_dup2 r : finishes (sys_dup2 r).
Proof. unfold sys_dup2. repeat finishes_step. Qed.

(** ** All calls *)

(** The path of an open ends, in [user]. *)
Definition path_in_user s (a : Z) : Prop := exists path, load_string STRING_FUEL (umem s) a = Some path /\ in_user a (Z.of_nat (length path) + 1).

(** What a call relies on: registers are words, pointers name bytes of [user]
    (or are null), the path of an open ends, and a write ends below 2 GiB. Pipes
    and execve are left out. *)
Record call_fits s (r : regs_t) (esp : Z) : Prop := {
  cf_regs : regs_ok r;
  cf_esp : 0 < esp < 2 ^ 32;
  cf_pipe : r_eax r <> SYS_PIPE;
  cf_execve : r_eax r <> SYS_EXECVE;
  cf_open : r_eax r = SYS_OPEN -> r_ebx r = 0 \/ path_in_user s (r_ebx r);
  cf_buffer : r_eax r = SYS_READ \/ r_eax r = SYS_WRITE -> buffer_in_user r;
  cf_code : r_eax r = SYS_WAIT -> r_ecx r = 0 \/ in_user (r_ecx r) 4;
  cf_write : r_eax r = SYS_WRITE -> write_call_fits s r
}.

Lemma handler_runs i r esp s h : ssafe s -> current_proc (sys_kern s) = Some i -> call_fits s r esp -> syscall_table garbage (r_eax r) r esp = Some h ->
  exists c, h = plain r c /\ runs c s (called i s).
Proof.
  intros Hs Hc [Hr He Hp Hx Ho Hbuf Hcode Hw] Et. destruct (ssafe_agree s Hs) as [A Hf]. pose proof (ssafe_current s Hs) as Hcur. pose proof Et as Et0.
  unfold syscall_table in Et. rewrite (proj2 (Z.eqb_neq _ SYS_PIPE)), (proj2 (Z.eqb_neq _ SYS_EXECVE)) in Et by done.
  destruct (Z.eqb_spec (r_eax r) SYS_YIELD); [injection Et as <-; eexists; split; [done|]; eapply runs_ok; [done|by apply called_none]|].
  destruct (Z.eqb_spec (r_eax r) SYS_EXIT); [injection Et as <-; eexists; split; [done|]; by apply sys_exit_runs; [..|lia]|].
  destruct (Z.eqb_spec (r_eax r) SYS_GETPID); [injection Et as <-; eexists; split; [done|]; by apply sys_getpid_runs|].
  destruct (Z.eqb_spec (r_eax r) SYS_SLEEP); [injection Et as <-; eexists; split; [done|]; by apply sys_sleep_runs; [..|lia]|].
  destruct (Z.eqb_spec (r_eax r) SYS_FORK); [injection Et as <-; eexists; split; [done|]; by apply sys_fork_runs|].
  destruct (Z.eqb_spec (r_eax r) SYS_EXEC); [injection Et as <-; eexists; split; [done|]; by apply sys_exec_runs|].
  destruct (Z.eqb_spec (r_eax r) SYS_WRITE); [injection Et as <-; eexists; split; [done|]; apply sys_write_runs; auto|].
  destruct (Z.eqb_spec (r_eax r) SYS_READ); [injection Et as <-; eexists; split; [done|]; apply sys_read_runs; auto|].
  destruct (Z.eqb_spec (r_eax r) SYS_OPEN) as [E|_].
  { injection Et as <-. eexists. split; [done|]. destruct (Ho E) as [E0|(path & Hpath & _)].
    { unfold sys_open. rewrite E0. eapply runs_ok; [reflexivity|]. by apply called_none. }
    destruct (validate_same s (r_ebx r) 1 Hs) as [b Eb].
    apply (agree_called A (r_eax r) i r esp); [done|done|done|done|apply same_rest_open|done|done|intros o s'; apply finishes_open|]. by apply (sys_open_runs A r s b). }
  destruct (Z.eqb_spec (r_eax r) SYS_CLOSE).
  { injection Et as <-. eexists. split; [done|]. 
    apply (agree_called A (r_eax r) i r esp); [done|done|done|done|apply same_rest_close|done|done|intros o s'; apply finishes_close|]. by apply (sys_close_runs A r s). }
  destruct (Z.eqb_spec (r_eax r) SYS_DUP2).
  { injection Et as <-. eexists. split; [done|].
    apply (agree_called A (r_eax r) i r esp); [done|done|done|done|apply same_rest_dup2|done|done|intros o s'; apply finishes_dup2|]. by apply (sys_dup2_runs A r s). }
  destruct (Z.eqb_spec (r_eax r) SYS_WAIT); [|done]. injection Et as <-. eexists. split; [done|]. by apply sys_wait_runs; auto; lia.
Qed.

(** The outcome of a dispatched call. *)
Definition dispatched_ok (i : Z) s (o : outcome regs_t) s' : Prop := ssafe s' /\ spares [i] (sys_kern s) (sys_kern s') /\
  kept_outside (umem s) (umem s') /\ match o with Done _ => True | Sleep _ at_ => sleeping_ok (sys_kern s') i at_ end.

Lemma called_finish i s r o s' : called i s o s' -> dispatched_ok i s (finish r o) s'.
Proof. intros (H1 & H2 & H3 & H4). split_and!; try done. by destruct o. Qed.

Lemma syscall_dispatch_runs i r esp s : ssafe s -> current_proc (sys_kern s) = Some i -> call_fits s r esp ->
  runs (syscall_dispatch garbage r esp) s (dispatched_ok i s).
Proof.
  intros Hs Hc Hfit. unfold syscall_dispatch. destruct (SYSCALL_COUNT <=? r_eax r); [eapply runs_ok; [done|by apply (called_none i s 0)]|].
  destruct (syscall_table garbage (r_eax r) r esp) as [h|] eqn:Et; [|eapply runs_ok; [done|by apply (called_none i s 0)]].
  destruct (handler_runs i r esp s h Hs Hc Hfit Et) as (c & -> & Hrun).
  eapply (runs_bind _ _ _ (fun x s' => called i s x.1 s')); [unfold plain; eapply runs_bind; [exact Hrun|]; intros o s' Ho; by eapply runs_ok|].
  intros [o r'] s' Hc'. eapply runs_ok; [done|]. by apply called_finish.
Qed.

(** A sleeping call of the current process goes on. *)
Lemma syscall_resume_runs i r esp at_ s : ssafe s -> current_proc (sys_kern s) = Some i -> 0 < esp < 2 ^ 32 -> sleeping_ok (sys_kern s) i at_ ->
  exists c, syscall_resume garbage r esp at_ = Some c /\ runs c s (dispatched_ok i s).
Proof.
  intros Hs Hc He [Ha Hat]. destruct (current_used s i Hs Hc) as [Hi _].
  destruct at_ as [f buf b|f b|self pid out|]; try done.
  - destruct b as [| |len]; try done. destruct Hat as (Hz & Hin & Hbuf & Hlen & Hu). eexists. split; [reflexivity|].
    eapply runs_bind; [apply runs_on_sys, (vfs_read_resume_runs (sys s) f esp len Hlen Hs (in_table_held _ i f Hi Hz Hin) He)|]. intros o s' (m & -> & Ht).
    eapply runs_bind; [by apply (read_out_runs i s m f buf len o)|]. intros o' s' Hc'. eapply runs_ok; [done|]. by apply called_finish.
  - destruct Hat as (-> & Hr & Hout). eexists. split; [reflexivity|].
    eapply runs_bind; [apply runs_sys_kern, (proc_wait_resume_runs _ i pid esp (ms_kern _ Hs) Hc ltac:(lia))|]. intros w s' (k & -> & Hk & Hsp & Hw).
    eapply runs_bind; [apply (wait_done_runs i s); [by apply ssafe_put| |done|done|done|done]|].
    + apply (spares_weaken []); [by intros j ?%elem_of_nil|exact Hsp].
    + intros o' s' Hc'. eapply runs_ok; [done|]. by apply called_finish.
Qed.
End calls.
