(* ===== verification/Dump.v ===== *)
(** * Diagnostic output (proc_dump and proc_dump_all of kernel/proc/proc.c,
      sched_dump of kernel/proc/sched.c, syscall_init of kernel/syscall/syscall.c)

    These functions only print. Each is the text it hands to [kprintf], [None]
    when a format asks for an argument that is not there or when a name is read
    past its array. A format and its arguments are checked against each other by
    [fits], and [kprintf] prints whatever passes that check. *)

From Stdlib Require Import ZArith Lia.
From S2P Require Import Prelude Libk Kheap Kstate Fd Proc Syscall.

(** ** Text *)

Definition text (s : string) : list Z := (fun a => Z.of_nat (Ascii.nat_of_ascii a)) <$> String.list_ascii_of_string s.
Definition NEWLINE : list Z := [10].
Definition QUOTE : list Z := [34].

Definition printf (fmt : list Z) (args : list arg) : option (list Z) := kprintf (S (length fmt)) fmt args.

(** The characters of an array up to its terminator. *)
Fixpoint c_string (a : list Z) : option (list Z) :=
  match a with
  | [] => None
  | c :: a' => if c =? 0 then Some [] else cons c <$> c_string a'
  end.

Lemma c_string_terminated a : 0 ∈ a -> is_Some (c_string a).
Proof.
  induction a as [|c a IH]; [by intros ?%elem_of_nil|]. intros Hin. simpl. destruct (Z.eqb_spec c 0); [by eexists|].
  apply elem_of_cons in Hin as [?|Hin]; [done|]. destruct (IH Hin) as [s ->]. by eexists.
Qed.

(** ** Formats and arguments *)

(** The arguments left after one conversion. *)
Definition takes (c : Z) (args : list arg) : option (list arg) :=
  if bool_decide (c = 115) then match args with AStr _ :: args => Some args | _ => None end
  else if bool_decide (c ∈ [99; 100; 117; 120; 112]) then match args with AInt _ :: args => Some args | _ => None end
  else Some args.

Fixpoint fits (fuel : nat) (fmt : list Z) (args : list arg) : bool :=
  match fuel with
  | O => false
  | S fuel' =>
      match fmt with
      | [] => true
      | c :: p =>
          if negb (c =? 37) then fits fuel' p args else
          let '(_, p) := match p with 48 :: p' => (48, p') | _ => (32, p) end in
          let '(_, p) := scan_width p 0 in
          match p with
          | [] => false
          | c :: p => match takes c args with Some args => fits fuel' p args | None => false end
          end
      end
  end.

Lemma write_uint_base_some v base width pad : 10 <= base <= 16 -> 0 <= v < 2 ^ 32 -> exists out, write_uint_base v base width pad = Some out.
Proof. intros Hb Hv. destruct (write_uint_base_spec v base width pad Hb Hv) as (ds & E & _). by eexists. Qed.

Lemma conversion_takes c width pad args args' : takes c args = Some args' -> exists out, conversion c width pad args = Some (out, args').
Proof.
  assert (Hu : forall v base w q, 10 <= base <= 16 -> exists out, write_uint_base (u32 v) base w q = Some out).
  { intros v base w q Hb. apply write_uint_base_some; [done|]. unfold u32. pose proof (Z.mod_pos_bound v (2 ^ 32)). lia. }
  unfold takes. case_bool_decide as Hs.
  { subst c. destruct args as [|[v|s] args]; try done. intros [= <-]. by eexists. }
  case_bool_decide as Hc.
  - destruct args as [|[v|s] args]; try done. intros [= <-]. unfold conversion.
    repeat (apply elem_of_cons in Hc as [->|Hc]; [try (by eexists)|]); [..|by apply elem_of_nil in Hc].
    + destruct (Hu (if s32 v <? 0 then - s32 v else s32 v) 10 width pad ltac:(lia)) as [out E]. cbn -[s32 u32 write_uint_base]. rewrite E. by eexists.
    + destruct (Hu v 10 width pad ltac:(lia)) as [out E]. cbn -[s32 u32 write_uint_base]. rewrite E. by eexists.
    + destruct (Hu v 16 width pad ltac:(lia)) as [out E]. cbn -[s32 u32 write_uint_base]. rewrite E. by eexists.
    + destruct (Hu v 16 8 48 ltac:(lia)) as [out E]. cbn -[s32 u32 write_uint_base]. rewrite E. by eexists.
  - intros [= <-]. assert (Hn : forall n, n ∈ [99; 100; 117; 120; 112] -> c <> n) by (intros n Hn ->; done).
    pose proof (Hn 99 ltac:(set_solver)). pose proof (Hn 100 ltac:(set_solver)). pose proof (Hn 117 ltac:(set_solver)).
    pose proof (Hn 120 ltac:(set_solver)). pose proof (Hn 112 ltac:(set_solver)). unfold conversion.
    repeat (match goal with |- context [match ?x with _ => _ end] => destruct x end; try done; try (by eexists)).
Qed.

(** A format that fits its arguments is printed. *)
Lemma kprintf_fits fuel : forall fmt args, fits fuel fmt args = true -> exists out, kprintf fuel fmt args = Some out.
Proof.
  induction fuel as [|fuel IH]; intros fmt args; [done|]. cbn [fits kprintf]. destruct fmt as [|c p]; [by eexists|].
  destruct (negb (c =? 37)).
  { intros Hf. destruct (IH p args Hf) as [out ->]. by eexists. }
  destruct (match p with 48 :: p' => (48, p') | _ => (32, p) end) as [pad q]. destruct (scan_width q 0) as [width r].
  destruct r as [|c' r]; [done|]. destruct (takes c' args) as [args'|] eqn:Et; [|done]. intros Hf.
  destruct (conversion_takes c' width pad args args' Et) as [out1 E1]. destruct (IH r args' Hf) as [out2 E2].
  rewrite E1. simpl. rewrite E2. by eexists.
Qed.

Lemma printf_fits fmt args : fits (S (length fmt)) fmt args = true -> exists out, printf fmt args = Some out.
Proof. apply kprintf_fits. Qed.

(** ** Process table *)

Section dump.
Context {H F : Type}.
Implicit Types (s : kstate H F) (p : pcb).

(** The lines one after the other. *)
Fixpoint printed (lines : list (option (list Z))) : option (list Z) :=
  match lines with
  | [] => Some []
  | l :: ls => out ← l; rest ← printed ls; Some (out ++ rest)
  end.

Definition proc_dump (p : option pcb) : option (list Z) :=
  match p with
  | None => Some []
  | Some p =>
      name ← c_string (p_name p);
      printed ([
        printf (text "  +- PCB [%u] " ++ QUOTE ++ text "%s" ++ QUOTE ++ NEWLINE) [AInt (p_pid p); AStr (Some name)];
        printf (text "  |  state        = %s" ++ NEWLINE) [AStr (Some (text (proc_state_name (p_state p))))];
        printf (text "  |  ppid         = %u" ++ NEWLINE) [AInt (p_ppid p)];
        printf (text "  |  priority     = %u (base=%u)" ++ NEWLINE) [AInt (p_priority p); AInt (p_base_priority p)];
        printf (text "  |  timeslice    = %u / %u ticks" ++ NEWLINE) [AInt (p_timeslice p); AInt (p_timeslice_len p)];
        printf (text "  |  kstack_base  = %p  top = %p" ++ NEWLINE) [AInt (p_kstack_base p); AInt (p_kstack_top p)];
        printf (text "  |  esp0         = %p" ++ NEWLINE) [AInt (p_esp0 p)];
        printf (text "  |  esp_kernel  = 0x%p" ++ NEWLINE) [AInt (p_esp_kernel p)];
        printf (text "  |  eip          = %p  eflags = %p" ++ NEWLINE) [AInt (r_eip (p_context p)); AInt (r_eflags (p_context p))];
        printf (text "  |  ticks_total  = %u  scheduled = %ux" ++ NEWLINE) [AInt (p_ticks_total p); AInt (p_ticks_scheduled p)];
        printf (text "  |  created tick = %u" ++ NEWLINE) [AInt (p_tick_created p)];
        (if bool_decide (p_state p = PROC_BLOCKED) && truthy (p_wakeup_tick p)
         then printf (text "  |  wakeup_tick  = %u" ++ NEWLINE) [AInt (p_wakeup_tick p)] else Some []);
        (if bool_decide (p_state p = PROC_ZOMBIE)
         then printf (text "  |  exit_code    = %u" ++ NEWLINE) [AInt (p_exit_code p)] else Some []);
        printf (text "  +---------------------------------" ++ NEWLINE) []
      ])
  end.

(** The loop over the table: the text and the number of processes. *)
Fixpoint dump_slots s (slots : list Z) (count : Z) : option (list Z * Z) :=
  match slots with
  | [] => Some ([], count)
  | i :: slots' =>
      if negb (bool_decide (state_of s i = PROC_UNUSED)) then
        out ← proc_dump (Some (pcb_at s i));
        rest ← dump_slots s slots' (count +w 1);
        Some (out ++ rest.1, rest.2)
      else dump_slots s slots' count
  end.

Definition proc_dump_all s : option (list Z) :=
  slots ← dump_slots s (seqZ 0 MAX_PROCS) 0;
  printed [
    printf (text "PROC: -- process table dump --" ++ NEWLINE) [];
    Some slots.1;
    (if slots.2 =? 0 then printf (text "  (empty)" ++ NEWLINE) [] else Some []);
    printf (text "PROC: total active: %u" ++ NEWLINE ++ NEWLINE) [AInt slots.2]
  ].

(** ** Ready queue *)

Definition queue_line s (i : Z) : option (list Z) :=
  if MAX_PROCS <=? i then None else
  match ready_queue s !! i with
  | None => Some []
  | Some q =>
      let p := pcb_at s q in
      name ← c_string (p_name p);
      printf (text "SCHED:   [%u] idx=%u " ++ QUOTE ++ text "%s" ++ QUOTE ++ text " state=%s prio=%u slice=%u" ++ NEWLINE)
        [AInt (p_pid p); AInt i; AStr (Some name); AStr (Some (text (proc_state_name (p_state p)))); AInt (p_priority p); AInt (p_timeslice p)]
  end.

Definition sched_dump s : option (list Z) :=
  printed ([
    printf (text "SCHED: -- scheduler dump --" ++ NEWLINE) [];
    printf (text "SCHED: enabled=%d  queue_size=%u  current_idx=%u" ++ NEWLINE)
      [AInt (if sched_enabled s then 1 else 0); AInt (queue_size s); AInt (current_idx s)];
    match current_proc s with
    | Some i =>
        let p := pcb_at s i in
        name ← c_string (p_name p);
        printf (text "SCHED: current = [%u] " ++ QUOTE ++ text "%s" ++ QUOTE ++ text "  timeslice=%u" ++ NEWLINE)
          [AInt (p_pid p); AStr (Some name); AInt (p_timeslice p)]
    | None => printf (text "SCHED: current = (none)" ++ NEWLINE) []
    end
  ] ++ (queue_line s <$> seqZ 0 (queue_size s)) ++ [printf NEWLINE []]).

(** [syscall_init] *)
Definition syscall_init : option (list Z) :=
  printf (text "SYSCALL: Dispatcher ready (%u syscalls)" ++ NEWLINE) [AInt SYSCALL_COUNT].

(** ** Everything is printed *)

Lemma printed_some lines : Forall is_Some lines -> is_Some (printed lines).
Proof. induction 1 as [|l ls [x ->] Hls [y Hy]]; simpl; [by eexists|]. rewrite Hy. by eexists. Qed.

Lemma printf_some fmt args : fits (S (length fmt)) fmt args = true -> is_Some (printf fmt args).
Proof. intros Hf. destruct (printf_fits fmt args Hf) as [out E]. by exists out. Qed.

(** The name of a process ends inside its array. *)
Definition named_ok p : Prop := 0 ∈ p_name p.

Lemma proc_dump_some p : named_ok p -> is_Some (proc_dump (Some p)).
Proof.
  intros Hn. destruct (c_string_terminated _ Hn) as [name E]. unfold proc_dump. rewrite E. cbn [mbind option_bind].
  apply printed_some. repeat apply Forall_cons_2; [..|by apply Forall_nil]; try (apply printf_some; reflexivity); case_match; (apply printf_some; reflexivity) || by eexists.
Qed.

Lemma printf_text fmt : Forall (fun c => c <> 37) fmt -> printf fmt [] = Some fmt.
Proof.
  intros Hf. unfold printf. replace (S (length fmt)) with (length fmt + 1)%nat by lia. rewrite <- (app_nil_r fmt) at 2.
  rewrite kprintf_text by done. simpl. by rewrite app_nil_r.
Qed.

(** Text, a number in decimal, text. *)
Lemma printf_number before v after : Forall (fun c => c <> 37) before -> Forall (fun c => c <> 37) after -> 0 <= v < 2 ^ 32 ->
  exists ds, numeral 10 ds = v /\ printf (before ++ text "%u" ++ after) [AInt v] = Some (before ++ ds ++ after).
Proof.
  intros Hb Ha Hv. destruct (write_uint_base_spec v 10 0 32 ltac:(lia) Hv) as (ds & E & Hn & Hl). exists ds. split; [done|]. unfold printf.
  replace (S (length (before ++ text "%u" ++ after))) with (length before + S (length after + 2))%nat by (rewrite !length_app; simpl; lia).
  rewrite kprintf_text by done.
  assert (Hk : kprintf (S (length after + 2)) (text "%u" ++ after) [AInt v] = Some (ds ++ after)).
  { change (text "%u" ++ after) with (37 :: 117 :: after). cbn [kprintf]. cbn -[u32 write_uint_base kprintf].
    rewrite u32_small, E by lia. replace (Z.to_nat (0 - Z.of_nat (length ds))) with O by lia. cbn -[kprintf].
    rewrite <- (app_nil_r after) at 2. rewrite kprintf_text by done. simpl. by rewrite app_nil_r. }
  by rewrite Hk.
Qed.

Definition in_use s (i : Z) : Prop := state_of s i <> PROC_UNUSED.
#[local] Instance in_use_dec s i : Decision (in_use s i).
Proof. unfold in_use. apply _. Defined.

Lemma dump_slots_spec s slots : forall count, 0 <= count -> count + Z.of_nat (length slots) < 2 ^ 32 ->
  (forall i, i ∈ slots -> in_use s i -> named_ok (pcb_at s i)) ->
  exists dumps, Forall2 (fun i d => proc_dump (Some (pcb_at s i)) = Some d) (filter (in_use s) slots) dumps /\
    dump_slots s slots count = Some (concat dumps, count + Z.of_nat (length (filter (in_use s) slots))).
Proof.
  induction slots as [|i slots IH]; intros count Hc Hl Hn; [exists []; split; [constructor|]; simpl; by rewrite Z.add_0_r|]. cbn [length] in Hl.
  assert (Hn' : forall j, j ∈ slots -> in_use s j -> named_ok (pcb_at s j)) by (intros j Hj; apply Hn; by right).
  cbn [dump_slots]. case_bool_decide as Hu; cbn [negb].
  - destruct (IH count Hc ltac:(lia) Hn') as (dumps & Hd & E). exists dumps. rewrite filter_cons_False by (by intros ?). done.
  - destruct (IH (count +w 1)) as (dumps & Hd & E); [rewrite u32_small; lia|rewrite u32_small; lia|done|].
    rewrite filter_cons_True by done. destruct (proc_dump_some (pcb_at s i)) as [d Hi]; [apply Hn; [left|done]|].
    exists (d :: dumps). split; [by constructor|]. rewrite Hi, E. cbn [mbind option_bind fst snd concat length]. rewrite u32_small by lia. do 2 f_equal. lia.
Qed.

(** The dump of the process table prints every process in use, in the order of
    the table, says when there is none, and ends with their number in decimal. *)
Theorem proc_dump_all_correct s (used := filter (in_use s) (seqZ 0 MAX_PROCS)) :
  (forall i, 0 <= i < MAX_PROCS -> in_use s i -> named_ok (pcb_at s i)) ->
  exists dumps ds, Forall2 (fun i d => proc_dump (Some (pcb_at s i)) = Some d) used dumps /\ numeral 10 ds = Z.of_nat (length used) /\
    proc_dump_all s = Some (text "PROC: -- process table dump --" ++ NEWLINE ++ concat dumps ++
      (if decide (used = []) then text "  (empty)" ++ NEWLINE else []) ++ text "PROC: total active: " ++ ds ++ NEWLINE ++ NEWLINE).
Proof.
  intros Hn. assert (Hlen : (length used <= 256)%nat).
  { unfold used. etrans; [apply length_filter|]. by rewrite length_seqZ. }
  destruct (dump_slots_spec s (seqZ 0 MAX_PROCS) 0) as (dumps & Hd & E); [lia|by rewrite length_seqZ|intros i Hi%elem_of_seqZ; apply Hn; lia|].
  fold used in Hd, E. destruct (printf_number (text "PROC: total active: ") (Z.of_nat (length used)) (NEWLINE ++ NEWLINE)) as (ds & Hds & Ep);
    [repeat constructor; done|repeat constructor; done|lia|].
  exists dumps, ds. split; [done|]. split; [done|]. unfold proc_dump_all. rewrite E. cbn [mbind option_bind fst snd printed].
  rewrite !printf_text by (repeat constructor; done). cbn [mbind option_bind]. rewrite Z.add_0_l.
  assert (Ee : (if Z.of_nat (length used) =? 0 then Some (text "  (empty)" ++ NEWLINE) else Some []) =
    Some (if decide (used = []) then text "  (empty)" ++ NEWLINE else [])).
  { destruct (Z.eqb_spec (Z.of_nat (length used)) 0) as [Hz|Hz]; case_decide as Hu; try done.
    - destruct used; [done|simpl in Hz; lia].
    - by rewrite Hu in Hz. }
  rewrite Ee. cbn [mbind option_bind]. change (text "PROC: total active: %u" ++ NEWLINE ++ NEWLINE) with (text "PROC: total active: " ++ text "%u" ++ NEWLINE ++ NEWLINE).
  rewrite Ep. cbn [mbind option_bind]. f_equal. rewrite <- !app_assoc. by rewrite app_nil_r.
Qed.

(** The dump of the ready queue is printed whenever the queue fits its array. *)
Lemma sched_dump_some s : queue_size s <= MAX_PROCS -> (forall i, named_ok (pcb_at s i)) -> is_Some (sched_dump s).
Proof.
  intros Hq Hn. unfold sched_dump. apply printed_some. apply Forall_app_2; [|apply Forall_app_2].
  - repeat apply Forall_cons_2; [apply printf_some; reflexivity..| |by apply Forall_nil]. destruct (current_proc s) as [i|]; [|apply printf_some; reflexivity].
    destruct (c_string_terminated _ (Hn i)) as [name E]. rewrite E. apply printf_some. reflexivity.
  - apply Forall_fmap, Forall_forall. intros i Hi%elem_of_seqZ. simpl. unfold queue_line. rewrite (proj2 (Z.leb_gt _ _)) by lia.
    destruct (ready_queue s !! i) as [q|]; [|by eexists]. destruct (c_string_terminated _ (Hn q)) as [name E]. rewrite E. apply printf_some. reflexivity.
  - apply Forall_cons_2; [apply printf_some; reflexivity|by apply Forall_nil].
Qed.
End dump.
