(* ===== verification/Boot.v ===== *)
(** * Booting (kernel/kernel.c)

    [kernel_main] composes the start of every component on one state, the
    [board]. The theorem says that on a machine whose usable memory lies below 4
    MiB (the part the kernel keeps identity-mapped) it runs to the first process
    or panics for lack of memory, and that the kernel it starts satisfies the
    invariants of the other files. The static data of the kernel are fields of
    records, apart from the physical memory of Vmm.v: what a client would do to
    the last page of the image, which pmm_init can leave free
    ([pmm_init_kernel_tail_free]), is not visible here. *)

From Stdlib Require Import ZArith Lia.
From S2P Require Import Prelude Libk Serial Arch Pmm Vmm Kheap HeapSpec Kstate Fd Fs FsLaws Ramfs Proc ProcInv ProcOps ProcSteps ProcSafety Kinv Dir Typed Path FileSafety Descriptors Tables Tasks Keyboard Pipe Vga Io Transfers Irq.

Definition MULTIBOOT_MAGIC : Z := 0x2BADB002.

(** The whole machine: what interrupts see, and the processor's tables. *)
Record board := Board { b_irqs : irqs kheap_state; b_arch : arch }.
Definition set_b_irqs v b := Board v (b_arch b).
Definition set_b_arch v b := Board (b_irqs b) v.
Definition b_kern (b : board) : demo_kstate := m_kern (mach (b_irqs b)).

Section boot.
Variable hw : list access -> Z -> Z.
(** Polls of the serial line, entries of the memory map. *)
Variables uart_fuel map_fuel : nat.
(** What the boot loader and the linker decide. *)
Variables (magic : Z) (mbi : multiboot_info_t) (entry_at : Z -> multiboot_mmap_entry_t) (kernel_start kernel_end : Z).
Variables (gdt_addr tss_addr idt_addr : Z) (isr irq : Z -> Z) (syscall_entry idle_process : Z).
Local Abbreviation M A := (M board A).

Definition on_irqs {A : Type} (c : Prelude.M (irqs kheap_state) A) : M A := zoom b_irqs set_b_irqs c.
Definition on_arch {A : Type} (c : Prelude.M arch A) : M A := zoom b_arch set_b_arch c.
Definition on_kernel {A : Type} (c : Prelude.M demo_kstate A) : M A := on_irqs (on_mach (on_k c)).
Definition on_kheap {A : Type} (c : Prelude.M kheap_state A) : M A := on_kernel (on_heap c).

Definition init_pmm : Prelude.M kheap_state unit := fun s =>
  match pmm_init map_fuel mbi entry_at kernel_start kernel_end (vm_pmm (hvm s)) with
  | Ok p => Ok (tt, set_hvm (set_pmm p (hvm s)) s)
  | Stop f => Stop f
  end.

(** The stack of the first process, which [sched_start_first] loads;
    [syscall_init] only prints. *)
Definition kernel_main : M (option Z) :=
  on_irqs (on_mach (modify (fun m => set_term (terminal_init (m_term m)) m))) ;;
  on_irqs (on_ports (serial_init hw uart_fuel)) ;;
  on_arch (idt_init idt_addr isr irq) ;;
  on_irqs (IRQ_init hw) ;;
  on_arch (gdt_init gdt_addr ;; tss_init tss_addr) ;;
  kassert (magic =? MULTIBOOT_MAGIC) "multiboot_magic == MULTIBOOT_MAGIC" ;;
  on_kheap init_pmm ;;
  on_kheap (vm vmm_init) ;;
  on_kheap (kheap_init KHEAP_FUEL) ;;
  on_kernel (vfs_init ;; ramfs_init ;; devfs_init) ;;
  on_kernel proc_init ;;
  on_arch (idt_install_syscall syscall_entry) ;;
  on_irqs (timer_init 100) ;;
  on_irqs keyboard_init ;;
  on_kernel (launch_idle idle_process) ;;
  on_kernel sched_start.

End boot.

(** ** The steps *)

(** A board with explicit parts. *)
Definition bd p hs kb (k : demo_kstate) t a : board := Board (IrqState p hs (Machine (KbdState kb k) t)) a.

Lemma runs_zoom {S T A} (prj : S -> T) (upd : T -> S -> S) (c : M T A) s P :
  runs c (prj s) P -> runs (zoom prj upd c) s (fun r s' => exists t, s' = upd t s /\ P r t).
Proof.
  intros [(msg & E)|(r & t & E & K)]; [left; exists msg|right; exists r, (upd t s); split; [|eauto]]; unfold zoom; by rewrite E.
Qed.

Lemma runs_kernel {A} (c : M demo_kstate A) p hs kb k t a P :
  runs c k P -> runs (on_kernel c) (bd p hs kb k t a) (fun r b => exists k', b = bd p hs kb k' t a /\ P r k').
Proof.
  intros Hc. unfold on_kernel, on_irqs, on_mach, on_k, on_in, on_kern.
  eapply runs_weaken; [repeat apply runs_zoom; exact Hc|].
  intros r b (i & -> & m & -> & kb' & -> & k' & -> & K). by exists k'.
Qed.

Lemma runs_kheap {A} (c : M kheap_state A) p hs kb h fs t a P :
  runs c h P -> runs (on_kheap c) (bd p hs kb (zeroed h fs) t a) (fun r b => exists h', b = bd p hs kb (zeroed h' fs) t a /\ P r h').
Proof.
  intros Hc. eapply runs_weaken; [apply runs_kernel; apply runs_zoom; exact Hc|]. intros r b (k & -> & h' & -> & K). by exists h'.
Qed.

Lemma runs_arch {A} (c : M arch A) p hs kb k t a P :
  runs c a P -> runs (on_arch c) (bd p hs kb k t a) (fun r b => exists a', b = bd p hs kb k t a' /\ P r a').
Proof. intros Hc. eapply runs_weaken; [apply runs_zoom; exact Hc|]. intros r b (a' & -> & K). by exists a'. Qed.

Lemma arch_step {A} (c : M arch A) p hs kb k t a r a' :
  c a = Ok (r, a') -> on_arch c (bd p hs kb k t a) = Ok (r, bd p hs kb k t a').
Proof. intros E. unfold on_arch, zoom. cbn [bd b_arch]. by rewrite E. Qed.

Lemma ports_step {A} (c : M (list access) A) p hs kb k t a r p' :
  c p = Ok (r, p') -> on_irqs (on_ports c) (bd p hs kb k t a) = Ok (r, bd p' hs kb k t a).
Proof. intros E. unfold on_irqs, on_ports, zoom. cbn [bd b_irqs ports]. by rewrite E. Qed.

Lemma terminal_step f p hs kb k t a :
  on_irqs (on_mach (modify (fun m => set_term (f (m_term m)) m))) (bd p hs kb k t a) = Ok (tt, bd p hs kb k (f t) a).
Proof. reflexivity. Qed.

Lemma timer_step p hs kb k t a :
  exists p', on_irqs (timer_init 100) (bd p hs kb k t a) = Ok (tt, bd p' (<[0%nat := Some fn_timer]> hs) kb k t a).
Proof. eexists. reflexivity. Qed.

Lemma keyboard_step p hs kb k t a :
  on_irqs keyboard_init (bd p hs kb k t a) = Ok (tt, bd p (<[1%nat := Some fn_keyboard]> hs) kb k t a).
Proof. reflexivity. Qed.

Lemma PIC_remap_total hw p : exists p', PIC_remap hw p = Ok (tt, p').
Proof. eexists. reflexivity. Qed.

(** Frames taken from low memory are in the identity-mapped part. *)
Lemma low_alloc p a p' : pmm_inv p -> low_memory p -> pmm_alloc_frame p = (a, p') ->
  pmm_inv p' /\ low_memory p' /\ a < LOW_END.
Proof.
  intros Hp Hl E. destruct (pmm_alloc_frame_cases p a p' Hp E) as [(f & Hf & Hfree & -> & Hp' & Ht & _)|(-> & -> & _)]; [|done].
  split; [done|]. split; [|by apply Hl]. intros g [Hg Hg']. apply Hl. split; [done|]. rewrite Ht in Hg'. by case_decide.
Qed.

Lemma vmm_init_runs s :
  pmm_inv (vm_pmm s) -> words32 (pmem s) -> paging s = false -> low_memory (vm_pmm s) ->
  runs vmm_init s (fun _ s' => vmm_inv s' /\ low_memory (vm_pmm s')).
Proof.
  intros Hp Hw Hoff Hl. destruct (pmm_alloc_frame (vm_pmm s)) as [a1 p1] eqn:E1. destruct (pmm_alloc_frame p1) as [a2 p2] eqn:E2.
  destruct (low_alloc _ _ _ Hp Hl E1) as (Hp1 & Hl1 & Ha1). destruct (low_alloc _ _ _ Hp1 Hl1 E2) as (Hp2 & Hl2 & Ha2).
  destruct (decide (a1 = 0)) as [->|Hz1].
  { left. eexists. unfold vmm_init. by rewrite (bind_ok _ _ s 0 (set_pmm p1 s)) by (unfold alloc_frame; by rewrite E1). }
  destruct (decide (a2 = 0)) as [->|Hz2].
  - left. eexists. unfold vmm_init. rewrite (bind_ok _ _ s a1 (set_pmm p1 s)) by (unfold alloc_frame; by rewrite E1).
    rewrite (proj2 (Z.eqb_neq a1 0) Hz1). set (s2 := VmmState p1 (pmem s) a1 a1 (cr3 s) (paging s)).
    rewrite (bind_ok _ _ (set_pmm p1 s) tt s2) by done.
    assert (Hal : a1 mod 4096 = 0 /\ 4096 <= a1).
    { destruct (pmm_alloc_frame_cases _ _ _ Hp E1) as [(f & Hf & _ & -> & _)|(? & _)]; [|done]. unfold PAGE_SIZE. rewrite Z.mod_mul by done. lia. }
    destruct (fill_table s2 a1 (fun _ => 0)) as (m1 & F1 & _); try done; try (unfold LOW_END in *; lia).
    { intros. by apply translate_off. }
    unfold zero_table. rewrite (bind_ok _ _ _ _ _ F1).
    by rewrite (bind_ok _ _ (set_pmem m1 s2) 0 (set_pmm p2 (set_pmem m1 s2))) by (unfold alloc_frame; simpl; by rewrite E2).
  - destruct (vmm_init_state s a1 p1 a2 p2) as (m & E & _); try done.
    destruct (vmm_init_spec s a1 p1 a2 p2) as (s' & E' & Hv & _); try done.
    rewrite E in E'. injection E' as <-. eapply runs_ok; [exact E|]. by split.
Qed.

Lemma kheap_init_runs h :
  vmm_inv (hvm h) -> low_memory (vm_pmm (hvm h)) -> runs (kheap_init KHEAP_FUEL) h (fun _ h' => heap_ok (h' : kheap_state) ∅ ∅).
Proof.
  intros Hv Hl. assert (Ht : forall e, tables_ready (hvm h) e) by (intros e a _ _; right; exact Hl).
  destruct (kheap_init_spec h KHEAP_FUEL Hv kheap_fuel_ok (Ht _)) as [E|(h' & E & Hi & Hm)]; [by left|].
  eapply runs_ok; [exact E|]. split; [intros e; by apply (tables_ready_mono (hvm h))|].
  exists [(HEAP_INITIAL, false)]. split; [done|]. split; intros p n Hp; by rewrite lookup_empty in Hp.
Qed.

(** The file layer leaves the static data of the process manager alone. *)
Lemma files_runs h :
  heap_ok (h : kheap_state) ∅ ∅ ->
  runs (vfs_init ;; ramfs_init ;; devfs_init) (zeroed h initial_fstate) (fun _ k => exists h' fs L,
    k = zeroed h' fs /\ heap_ok h' L ∅ /\ fs_ok fs L /\ files_ok k ∅ /\ no_pipes (objs fs)).
Proof.
  intros Hh. assert (Hm : healthy h ∅ ∅) by (exists ∅; split; [exact Hh|by intros p o]).
  destruct (start_files_typed h ∅ Hm) as [E|([] & k & E & Hf & Hp)]; [by left|]. eapply runs_ok; [exact E|].
  assert (Hk : keeps true (vfs_init ;; ramfs_init ;; devfs_init : M demo_kstate unit)).
  { apply keeps_bind; [by apply keeps_on_fs|]. intros _. apply keeps_bind; [apply keeps_ramfs_init|]. intros _. apply keeps_devfs_init. }
  destruct (keeps_quiet _ (zeroed h initial_fstate) ∅ ∅ tt k Hk Hh (initial_fs_ok ∅) E) as (_ & h' & fs & L & -> & H1 & H2 & _).
  exists h', fs, L. done.
Qed.

Section processes.
Implicit Types k : demo_kstate.

(** No process yet. *)
Definition no_process k : Prop := ksafe k /\ (exists L, proc_inv [] k L ∅ []) /\ current_proc k = None.

(** The loops of [proc_init] reset slots that are still zero. *)
Lemma proc_init_quiet h fs k : proc_init (zeroed h fs) = Ok (tt, k) -> quiet None (zeroed h fs) k.
Proof.
  rewrite proc_init_unfold. set (s0 := zeroed h fs).
  assert (H1 : quiet None s0 (for_up (Z.to_nat MAX_PROCS) 0 reset_slot s0) /\ forall i, state_of (for_up (Z.to_nat MAX_PROCS) 0 reset_slot s0) i = PROC_UNUSED).
  { apply (for_up0_ind (fun _ s => quiet None s0 s /\ forall i, state_of s i = PROC_UNUSED)); [done|]. intros j s _ [Hq Hu]. split.
    - transitivity s; [done|]. unfold reset_slot. apply quiet_upd; [done|done|intros _; apply Hu|done].
    - intros i. unfold reset_slot. rewrite state_upd. by case_decide. }
  destruct H1 as [H1 _]. revert H1. generalize (for_up (Z.to_nat MAX_PROCS) 0 reset_slot s0). intros s1 H1.
  assert (H2 : quiet None s0 (for_up (Z.to_nat (MAX_PROCS / 32)) 0 reset_word s1)).
  { apply (for_up0_ind (fun _ s => quiet None s0 s)); [done|]. intros j s _ Hq. transitivity s; [done|by apply quiet_same]. }
  revert H2. generalize (for_up (Z.to_nat (MAX_PROCS / 32)) 0 reset_word s1). intros s2 H2 [= <-]. transitivity s2; [done|by apply quiet_same].
Qed.

Lemma zeroed_tables h fs : tables (zeroed h fs : demo_kstate) = repeat (repeat 0 FD_MAX) (Z.to_nat MAX_PROCS).
Proof. vm_compute. reflexivity. Qed.

Lemma proc_init_runs h fs L :
  heap_ok (h : kheap_state) L ∅ -> fs_ok fs L -> files_ok (zeroed h fs) ∅ -> no_pipes (objs fs) -> runs proc_init (zeroed h fs) (fun _ k => no_process k).
Proof.
  intros Hh Hf Hd Hp. assert (Hi : exists k, proc_init (zeroed h fs) = Ok (tt, k) /\ proc_inv [] k L ∅ []) by (apply proc_init_inv; [exact Hh|exact Hf]).
  destruct Hi as (k & E & Hinv). eapply runs_ok; [exact E|]. pose proof (proc_init_quiet h fs k E) as [Hc Hq]. split; [|split; [by exists L|]].
  - split; [by exists L, ∅, []|exists ∅|apply (slots_calm None (zeroed h fs)); [done|by split]].
    rewrite (tables_ext _ _ (cm_table _ _ _ Hc)), zeroed_tables. apply (fds_move (zeroed h fs) k ∅ ∅); [done|by apply (inv_healthy [] k L ∅ [])|by apply fds_start].
  - rewrite proc_init_unfold in E. revert E.
    pose proof (init_loops h fs _ _ (Z.to_nat MAX_PROCS) (Z.to_nat (MAX_PROCS / 32)) eq_refl eq_refl) as (_ & _ & _ & _ & _ & _ & _ & R4).
    revert R4. generalize (for_up (Z.to_nat (MAX_PROCS / 32)) 0 reset_word (for_up (Z.to_nat MAX_PROCS) 0 reset_slot (zeroed h fs))). by intros s2 R4 [= <-].
Qed.

(** One process, ready to run. *)
Definition one_ready k (c : Z) : Prop := ksafe k /\ exists L A, proc_inv [] k L A [c] /\ state_of k c = PROC_READY /\ current_proc k = None.

Lemma launch_idle_runs k entry :
  no_process k -> 0 <= entry < 2 ^ 32 -> runs (launch_idle entry) k (fun _ k' => exists c, one_ready k' c).
Proof.
  intros (Hs & (L & Hinv) & Hc) He. pose proof (proc_create_run k L ∅ [] (Some idle_name) PROC_PRIO_IDLE Hinv ltac:(done)) as Hcr.
  unfold launch_idle. pose proof (runs_eq _ _ _ (proc_create_runs k (Some idle_name) PROC_PRIO_IDLE Hs ltac:(unfold PROC_PRIO_IDLE; lia))) as Hr.
  eapply runs_bind; [exact Hr|]. intros [c|] k1 (E & Hs1 & _); [|left; by eexists].
  rewrite E in Hcr. destruct Hcr as [C1 _ C3 _ _ _ _ _ (L1 & C9) _ C11]. eapply (runs_step _ _ _ tt k1); [done|].
  destruct (launch_run k1 L1 _ [] c entry (mret tt) C9 C1 C3 He) as (k3 & E3 & H3 & S3 & R3 & _).
  assert (E4 : (proc_init_frame (Some c) entry ;; proc_set_ready (Some c) ;; sched_add (Some c)) k1 = Ok (tt, k3)).
  { unfold mbind, M_bind, mret, M_ret in E3 |- *. destruct (proc_init_frame _ _ k1) as [[[] ka]|]; [|done].
    destruct (proc_set_ready _ ka) as [[[] kb]|]; [|done]. by destruct (sched_add _ kb) as [[[] kc]|]. }
  eapply runs_ok; [exact E4|]. exists c. split; [|exists L1; eexists; split; [exact H3|]; split; [done|]; by rewrite R3, C11].
  apply (ksafe_quiet None k1); [done| |by eexists _, _, _]. revert E4. apply quietly_bind; [apply quietly_init_frame|]. intros _.
  apply quietly_bind; [apply quietly_set_ready|]. intros _. apply quietly_sched_add.
Qed.

(** The processor is given to the process. *)
Definition running k (c : Z) : Prop :=
  current_proc k = Some c /\ state_of k c = PROC_RUNNING /\ sched_enabled k = true /\ 0 < p_esp_kernel (pcb_at k c).

Lemma sched_start_runs k c :
  one_ready k c -> runs sched_start k (fun r k' => ksafe k' /\ running k' c /\ r = Some (p_esp_kernel (pcb_at k' c))).
Proof.
  intros (Hs & L & A & Hinv & Hst & Hc). destruct (sched_start_inv k L A [c] Hinv Hc) as (r & k' & E & Hinv').
  eapply runs_ok; [exact E|]. split; [apply (ksafe_quiet None k); [done|exact (quietly_sched_start k r k' E)|by exists L, A, [c]]|].
  assert (Hin : 1 <= c < MAX_PROCS) by (apply (pi_member _ _ _ _ _ Hinv c); apply list_elem_of_here).
  unfold sched_start in E. pose proof (pi_queue _ _ _ _ _ Hinv) as Hq. destruct (Z.eqb_spec (queue_size k) 0) as [Hz|_].
  { destruct Hq as [Hn _]. rewrite Hz in Hn. done. }
  pose proof (select_spec k [c] (fun p => bool_decide (state_of k p = PROC_READY)) Hq) as Hsel.
  destruct (select _ k) as [[f idx]|].
  - destruct Hsel as (_ & Hn & _). apply list_elem_of_lookup_2, list_elem_of_singleton in Hn as ->.
    injection E as <- <-. split; [|done].
    match type of Hinv' with proc_inv _ ?s _ _ _ => set (k' := s) in * end.
    assert (Hrun : state_of k' c = PROC_RUNNING).
    { unfold k'. change (state_of (upd_pcb c (fun p => set_p_ticks_scheduled (p_ticks_scheduled p +w 1) (set_p_state PROC_RUNNING p))
        (set_current_idx idx (set_current_proc (Some c) k))) c = PROC_RUNNING). by rewrite state_upd, decide_True. }
    split; [done|]. split; [done|]. split; [done|].
    destruct (pi_slot _ _ _ _ _ Hinv' c Hin) as [_ _ _ _ _ S6]; [by rewrite Hrun|]. apply S6. by rewrite Hrun.
  - exfalso. specialize (Hsel c (list_elem_of_here _ _)). rewrite bool_decide_true in Hsel by done.
    destruct (pi_slot _ _ _ _ _ Hinv c Hin) as [_ _ _ _ S5 _]; [by rewrite Hst|]. specialize (Hsel eq_refl). unfold PROC_PRIO_IDLE in *. lia.
Qed.
End processes.

(** ** The whole boot *)

(** The machine when the boot loader hands over: static storage zeroed, paging
    off, tables of their sizes. *)
Record power_on (b : board) : Prop := {
  po_gdt : length (gdt (b_arch b)) = 6%nat;
  po_idt : length (idt (b_arch b)) = 256%nat;
  po_handlers : length (irq_handlers (b_irqs b)) = 16%nat;
  po_kern : exists p m, b_kern b = zeroed (KheapState (VmmState p m 0 0 0 false) 0 0 0) initial_fstate /\ words32 m /\
    (forall i, ~ (0 <= i < PMM_BITMAP_SIZE) -> bitmap p !! i = None) /\ 1 <= pmm_alloc_search p < PMM_MAX_FRAMES
}.

Section main.
Variable hw : list access -> Z -> Z.
Variables uart_fuel map_fuel : nat.
Variables (magic : Z) (mbi : multiboot_info_t) (entry_at : Z -> multiboot_mmap_entry_t) (kernel_start kernel_end : Z).
Variables (gdt_addr tss_addr idt_addr : Z) (isr irq : Z -> Z) (syscall_entry idle_process : Z).
Variable memory : list multiboot_mmap_entry_t.
(** The serial line drains, the linker's addresses are addresses. *)
Hypothesis Hready : forall h, ready_within hw uart_fuel h = true.
Hypothesis Htss : 0 <= tss_addr < 2 ^ 32.
Hypothesis Hsyscall : 0 <= syscall_entry < 2 ^ 32.
Hypothesis Hisr : forall n, 0 <= isr n < 2 ^ 32.
Hypothesis Hirq : forall n, 0 <= irq n < 2 ^ 32.
Hypothesis Hidle : 0 <= idle_process < 2 ^ 32.
(** The boot loader passes a memory map whose usable part lies below 4 MiB. *)
Hypothesis Hflags : truthy (Z.land (mb_flags mbi) MULTIBOOT_FLAG_MMAP) = true.
Hypothesis Hmap : mmap_table entry_at (mmap_addr mbi +w mmap_length mbi) (mmap_addr mbi) memory.
Hypothesis Hfuel : (length memory <= map_fuel)%nat.
Hypothesis Himage : 0 <= kernel_start <= kernel_end /\ kernel_end < 2 ^ 32.
Hypothesis Hlow : forall f, is_frame f -> covered memory f -> f * 4096 < LOW_END.

Local Abbreviation main := (kernel_main hw uart_fuel map_fuel magic mbi entry_at kernel_start kernel_end gdt_addr tss_addr idt_addr isr irq syscall_entry idle_process).

Lemma init_pmm_runs p m l1 l2 l3 :
  (forall i, ~ (0 <= i < PMM_BITMAP_SIZE) -> bitmap p !! i = None) -> 1 <= pmm_alloc_search p < PMM_MAX_FRAMES ->
  runs (init_pmm map_fuel mbi entry_at kernel_start kernel_end) (KheapState (VmmState p m 0 0 0 false) l1 l2 l3)
    (fun _ h => exists p', h = KheapState (VmmState p' m 0 0 0 false) l1 l2 l3 /\ pmm_inv p' /\ low_memory p').
Proof.
  intros Hb Hs. destruct (pmm_init_spec map_fuel mbi entry_at memory kernel_start kernel_end p Hb Hs Hflags Hmap Hfuel (proj1 Himage) (proj2 Himage))
    as (p' & E & Hp & Hf).
  eapply runs_ok; [unfold init_pmm; simpl; rewrite E; reflexivity|]. exists p'. split; [done|]. split; [done|].
  intros f [Hr Hfree]. apply Hf in Hfree as (_ & Hc & _); [by apply Hlow|done].
Qed.

Lemma heap_runs p m l1 l2 l3 kb hs po t a :
  words32 m -> (forall i, ~ (0 <= i < PMM_BITMAP_SIZE) -> bitmap p !! i = None) -> 1 <= pmm_alloc_search p < PMM_MAX_FRAMES ->
  forall (T : Type) (k : M board T) Q,
  (forall h, heap_ok (h : kheap_state) ∅ ∅ -> runs k (bd po hs kb (zeroed h initial_fstate) t a) Q) ->
  runs (on_kheap (init_pmm map_fuel mbi entry_at kernel_start kernel_end) ;; on_kheap (vm vmm_init) ;; on_kheap (kheap_init KHEAP_FUEL) ;; k)
    (bd po hs kb (zeroed (KheapState (VmmState p m 0 0 0 false) l1 l2 l3) initial_fstate) t a) Q.
Proof.
  intros Hw Hb Hs T k Q Hk.
  eapply runs_bind; [apply runs_kheap, (init_pmm_runs p m l1 l2 l3 Hb Hs)|]. intros _ b1 (h1 & -> & p' & -> & Hp & Hl).
  eapply runs_bind; [apply runs_kheap, runs_zoom, vmm_init_runs; done|]. intros _ b2 (h2 & -> & v & -> & Hv & Hl2).
  eapply runs_bind; [apply runs_kheap, kheap_init_runs; done|]. intros _ b3 (h3 & -> & Hh3). by apply Hk.
Qed.

(** What the start leaves for the first process. *)
Definition started (r : option Z) (b' : board) : Prop :=
  (exists c, running (b_kern b') c /\ r = Some (p_esp_kernel (pcb_at (b_kern b') c))) /\
  irq_handlers (b_irqs b') !! 0%nat = Some (Some fn_timer) /\ irq_handlers (b_irqs b') !! 1%nat = Some (Some fn_keyboard) /\
  task_reg (b_arch b') = 0x28 /\ gate_at (b_arch b') 32 = Some (Gate (irq 0) 0x08 true 0 14) /\
  gate_at (b_arch b') 33 = Some (Gate (irq 1) 0x08 true 0 14) /\ gate_at (b_arch b') 0x80 = Some (Gate syscall_entry 0x08 true 3 15).

(** The kernel's whole invariant holds, and no key has been typed. *)
Lemma kernel_main_run b :
  power_on b ->
  runs main b (fun r b' => magic = MULTIBOOT_MAGIC /\ ksafe (b_kern b') /\ kbd (m_in (mach (b_irqs b'))) = kbd (m_in (mach (b_irqs b))) /\
    length (irq_handlers (b_irqs b')) = 16%nat /\ started r b').
Proof.
  intros [Hg Hi Hh (p & m & Hk & Hw & Hb & Hs)]. destruct b as [[po hs [[kb k] t]] a].
  change (k = zeroed (KheapState (VmmState p m 0 0 0 false) 0 0 0) initial_fstate) in Hk. subst k. simpl in Hg, Hi, Hh.
  change (Board _ a) with (bd po hs kb (zeroed (KheapState (VmmState p m 0 0 0 false) 0 0 0) initial_fstate) t a).
  change (kbd (m_in (mach (b_irqs (bd po hs kb _ t a))))) with kb.
  unfold kernel_main. eapply runs_step; [apply terminal_step|]. generalize (terminal_init t). clear t. intros t.
  destruct (serial_init_run hw uart_fuel Hready po) as (t1 & E1 & _). eapply runs_step; [by apply ports_step|].
  destruct (idt_init_run idt_addr isr irq a Hi) as (it & E2 & L2 & K2). eapply runs_step; [by apply arch_step|].
  destruct (PIC_remap_total hw (po ++ t1)) as [po2 E3]. eapply runs_step; [by apply ports_step|].
  destruct (segments_run gdt_addr tss_addr (set_idtr (TablePtr 2047 idt_addr) (set_idt it (set_idtp (TablePtr 2047 idt_addr) a))) Htss Hg)
    as (a4 & E4 & A1 & A2 & _ & _ & _ & _ & A3 & _). eapply runs_step; [by apply arch_step|].
  destruct (Z.eqb_spec magic MULTIBOOT_MAGIC) as [Hm|_]; [|left; by eexists].
  eapply (runs_step _ _ _ tt); [reflexivity|]. apply (heap_runs p m 0 0 0 kb hs po2 t a4 Hw Hb Hs). intros h Hh0.
  eapply runs_bind; [apply runs_kernel, (files_runs h Hh0)|]. intros _ b1 (k1 & -> & h1 & fs & L & -> & Hh1 & Hf1 & Hfo & Hnp).
  eapply runs_bind; [apply runs_kernel, (proc_init_runs h1 fs L Hh1 Hf1 Hfo Hnp)|]. intros _ b2 (k2 & -> & Hk2).
  destruct (idt_install_run idt_addr isr irq syscall_entry a4) as (a5 & E5 & _ & _ & A5 & G1 & G2);
    [by rewrite A1|by rewrite A2|exact Hsyscall|exact Hisr|exact Hirq|by rewrite A1|].
  eapply runs_step; [by apply arch_step|].
  destruct (timer_step po2 hs kb k2 t a5) as [po3 E6]. eapply runs_step; [exact E6|]. eapply runs_step; [apply keyboard_step|].
  eapply runs_bind; [apply runs_kernel, (launch_idle_runs k2 idle_process Hk2 Hidle)|]. intros _ b3 (k3 & -> & c & Hc).
  eapply runs_weaken; [apply runs_kernel, (sched_start_runs k3 c Hc)|]. intros r b4 (k4 & -> & Hinv & Hrun & ->).
  split; [done|]. split; [done|]. split; [done|]. split; [simpl; by rewrite !length_insert|]. split; [by exists c|]. split; [simpl; rewrite list_lookup_insert_ne by done; apply list_lookup_insert_eq; lia|].
  split; [simpl; apply list_lookup_insert_eq; rewrite length_insert; lia|]. simpl b_arch. split; [congruence|].
  split; [by rewrite (G2 32)|]. split; [by rewrite (G2 33)|done].
Qed.

(** C5: the kernel boots. On a machine with usable memory below 4 MiB, started
    by a boot loader that passes the magic number, [kernel_main] runs without a
    fault: it panics for lack of memory, or it reaches the first process, the
    idle process, which then is the current one, running, on a stack of its own.
    The kernel's invariant holds, and the timer, keyboard and system call
    vectors lead through the interrupt table to their stubs with the timer and
    keyboard handlers installed. With any other magic number it panics. *)
Theorem kernel_main_correct b :
  power_on b ->
  runs main b (fun r b' => magic = MULTIBOOT_MAGIC /\ kinv (b_kern b') /\
    (exists c, running (b_kern b') c /\ r = Some (p_esp_kernel (pcb_at (b_kern b') c))) /\
    irq_handlers (b_irqs b') !! 0%nat = Some (Some fn_timer) /\ irq_handlers (b_irqs b') !! 1%nat = Some (Some fn_keyboard) /\
    task_reg (b_arch b') = 0x28 /\ gate_at (b_arch b') 32 = Some (Gate (irq 0) 0x08 true 0 14) /\
    gate_at (b_arch b') 33 = Some (Gate (irq 1) 0x08 true 0 14) /\ gate_at (b_arch b') 0x80 = Some (Gate syscall_entry 0x08 true 3 15)).
Proof.
  intros Hb. eapply runs_weaken; [apply (kernel_main_run b Hb)|]. intros r b' (Hm & Hs & _ & _ & Hr). split; [done|]. split; [apply (ks_inv _ Hs)|exact Hr].
Qed.
End main.

(** ** Witness *)

(** A machine with 1 MiB of usable memory from 1 MiB on; the image takes part of
    it. *)
Definition demo_board : board :=
  bd [] (replicate 16 None) initial_keyboard (zeroed (KheapState (VmmState demo_static ∅ 0 0 0 false) 0 0 0) initial_fstate) (Terminal 0 0 7 ∅) demo_arch.
Definition demo_isr (n : Z) : Z := 0x100000 + n mod 256.
Definition demo_irq (n : Z) : Z := 0x101000 + n mod 256.
Local Abbreviation demo_main :=
  (kernel_main demo_hw 1 1 MULTIBOOT_MAGIC demo_mbi demo_entry_at 0x100000 0x120000 0x108000 0x109000 0x10A000 demo_isr demo_irq 0x102000 0x103000).

Lemma demo_boots : is_ok (demo_main demo_board) = true.
Proof. vm_compute. reflexivity. Qed.

Lemma demo_power_on : power_on demo_board.
Proof.
  split; try reflexivity. exists demo_static, ∅. split; [reflexivity|]. split; [|exact demo_static_ok].
  intros i. unfold rd. by rewrite lookup_empty.
Qed.

Lemma demo_low f : is_frame f -> covered [demo_entry_at 0x9000] f -> f * 4096 < LOW_END.
Proof.
  intros Hf Hc. apply Exists_cons in Hc as [Hc|Hc]; [|by apply Exists_nil in Hc].
  unfold entry_covers, frame_inside, PAGE_SIZE in Hc. simpl in Hc. unfold LOW_END. lia.
Qed.

Lemma kernel_main_correct_witness :
  exists c r b', demo_main demo_board = Ok (Some r, b') /\ kinv (b_kern b') /\ running (b_kern b') c /\
    gate_at (b_arch b') 33 = Some (Gate 0x101001 0x08 true 0 14).
Proof.
  pose proof demo_boots as Hok.
  destruct (kernel_main_correct demo_hw 1 1 MULTIBOOT_MAGIC demo_mbi demo_entry_at 0x100000 0x120000 0x108000 0x109000 0x10A000 demo_isr demo_irq
    0x102000 0x103000 [demo_entry_at 0x9000] demo_hw_ready ltac:(lia) ltac:(lia) ltac:(unfold demo_isr; zlia) ltac:(unfold demo_irq; zlia) ltac:(lia)
    eq_refl demo_table ltac:(done) ltac:(lia) demo_low demo_board demo_power_on) as [[msg E]|(r & b' & E & _ & Hi & (c & Hr & ->) & _ & _ & _ & _ & G & _)].
  - exfalso. rewrite E in Hok. discriminate Hok.
  - exists c, (p_esp_kernel (pcb_at (b_kern b') c)), b'. split_and!; [exact E|exact Hi|exact Hr|exact G].
Defined.
