(* ===== verification/Kernel.v ===== *)
(** * The whole kernel (kernel/kernel.c, kernel/syscall/syscall.c,
      kernel/arch/x86/irq.c with their entry stubs syscall.asm and irq.asm)

    What the processor does in the kernel once it is started is a sequence of
    [event]s: a system call of the current process, the continuation of a call
    that slept, the scheduler at the end of a stub, and a hardware interrupt.
    Between them user code changes its memory at will. The theorem composes the
    boot, the system calls, the interrupts and every component below them: no
    such sequence leads to undefined behaviour. *)

From Stdlib Require Import ZArith Lia.
From S2P Require Import Prelude Libk Serial Arch Pmm Vmm Kheap HeapSpec Kstate Fd Fs FsLaws Ramfs Proc ProcInv ProcOps ProcSteps ProcSafety Kinv.
From S2P Require Import Dir Typed Path FileSafety Descriptors Tables Tasks Keyboard Pipe Vga Io Transfers Irq Elf Loader Syscall SysFiles SysSafety Boot.

(** ** Events *)

(** The machine after the boot: what interrupts see, user memory, and the calls
    that sleep, each with the frame it was made with. *)
Record world := World { w_irqs : irqs kheap_state; w_umem : gmap Z Z; w_sleeping : gmap Z (regs_t * suspended) }.

Definition w_system (w : world) : system := System (mach (w_irqs w)) (w_umem w).
Definition w_kern (w : world) : demo_kstate := m_kern (mach (w_irqs w)).
Definition set_w_irqs v w := World v (w_umem w) (w_sleeping w).
Definition set_w_system s w := World (set_mach (sys s) (w_irqs w)) (umem s) (w_sleeping w).
Definition set_w_sleeping v w := World (w_irqs w) (w_umem w) v.
Definition on_system {A : Type} (c : M system A) : M world A := zoom w_system set_w_system c.

Inductive event : Type :=
| ECall (r : regs_t) (esp : Z)
| EResume (esp : Z)
| ESwitch (esp : Z)
| EIrq (n esp : Z)
| EUser (u : gmap Z Z).

Section events.
Variable hw : list access -> Z -> Z.
Variable garbage : Z -> Z.
Variable user : Z -> Prop.

(** The call of process [i] has ended or sleeps. *)
Definition park (i : Z) (r : regs_t) (o : outcome regs_t) (w : world) : world :=
  match o with
  | Done _ => w
  | Sleep _ at_ => set_w_sleeping (<[i := (r, at_)]> (w_sleeping w)) w
  end.

(** A process given another program no longer goes on with its call. *)
Definition forget (r : regs_t) (o : outcome regs_t) (w : world) : world :=
  match o with
  | Done r' => if (r_eax r =? SYS_EXEC) && (r_eax r' =? 0) then set_w_sleeping (delete (u16 (r_ebx r)) (w_sleeping w)) w else w
  | Sleep _ _ => w
  end.

(** What the current process goes on with. *)
Definition continuation (w : world) (esp : Z) : option (Z * regs_t * M system (outcome regs_t)) :=
  match current_proc (w_kern w) with
  | None => None
  | Some i =>
      match w_sleeping w !! i with
      | None => None
      | Some (r, at_) =>
          match syscall_resume garbage r esp at_ with
          | None => None
          | Some k => Some (i, r, k)
          end
      end
  end.

Definition do_event (e : event) : M world unit :=
  match e with
  | ECall r esp =>
      c ← gets (fun w => current_proc (w_kern w));
      match c with
      | None => mret tt
      | Some i => o ← on_system (syscall_dispatch garbage r esp); modify (fun w => park i r o (forget r o w))
      end
  | EResume esp =>
      c ← gets (fun w => continuation w esp);
      match c with
      | None => mret tt
      | Some (i, r, k) =>
          modify (fun w => set_w_sleeping (delete i (w_sleeping w)) w) ;;
          o ← on_system k; modify (park i r o)
      end
  | ESwitch esp => on_system (on_sys (on_k (sched_switch_esp esp))) ;; mret tt
  | EIrq n esp => zoom w_irqs set_w_irqs (irq_entry hw (32 + n) esp) ;; mret tt
  | EUser u => modify (fun w => World (w_irqs w) u (w_sleeping w))
  end.

(** When an event can happen: a process calls when it has no call asleep, goes
    on only when it has one, the stack pointer is an address, and what processes
    write themselves lies in [user]. *)
Definition event_ok (w : world) (e : event) : Prop :=
  match e with
  | ECall r esp => (exists i, current_proc (w_kern w) = Some i /\ w_sleeping w !! i = None) /\ call_fits user (w_system w) r esp
  | EResume esp => (exists i, current_proc (w_kern w) = Some i /\ is_Some (w_sleeping w !! i)) /\ 0 < esp < 2 ^ 32
  | ESwitch esp => 0 < esp < 2 ^ 32
  | EIrq n esp => 0 <= n < 16 /\ 0 < esp < 2 ^ 32
  | EUser u => kept_outside user (w_umem w) u
  end.

Definition wstep (w w' : world) : Prop := exists e, event_ok w e /\ do_event e w = Ok (tt, w').

(** ** The invariant *)

(** Each sleeping call belongs to a living process that still holds the file it
    reads. *)
Definition sleepers_ok (w : world) : Prop := forall i x, w_sleeping w !! i = Some x -> sleeping_ok user (w_kern w) i x.2.

Record winv (w : world) : Prop := { wi_safe : ssafe (w_system w); wi_sleep : sleepers_ok w }.

Lemma sleeping_spares x k k' i at_ : spares x k k' -> i ∉ x -> sleeping_ok user k i at_ -> sleeping_ok user k' i at_.
Proof. intros Hs Hi [Ha Hat]. destruct (Hs i Hi Ha) as [Ha' Ht]. split; [done|]. destruct at_ as [f buf []| | |]; try done. by rewrite Ht. Qed.

(** The sleeping calls of a set of processes that a step spares. *)
Lemma winv_step w s sl (x : list Z) : ssafe s -> spares x (w_kern w) (sys_kern s) -> sleepers_ok w ->
  (forall i y, sl !! i = Some y -> ((i ∉ x) /\ w_sleeping w !! i = Some y) \/ sleeping_ok user (sys_kern s) i y.2) ->
  winv (set_w_sleeping sl (set_w_system s w)).
Proof.
  intros Hs Hsp Hw Hsl. split; [exact Hs|]. intros i y Hy. destruct (Hsl i y Hy) as [[Hi Hy']|Hok]; [|done].
  apply (sleeping_spares x (w_kern w)); [done|done|]. by apply Hw.
Qed.

Lemma winv_quiet w ir : winv w -> kinv (m_kern (mach ir)) -> waiter_ok ir -> quiet None (w_kern w) (m_kern (mach ir)) -> winv (set_w_irqs ir w).
Proof.
  intros [[Hk _] Hw] Hi Hwt Hq. split; [split; [by apply (ksafe_quiet None (w_kern w))|done]|].
  intros i x Hx. apply (sleeping_spares [] (w_kern w)); [by apply spares_calm, Hq|by apply not_elem_of_nil|by apply Hw].
Qed.

Lemma runs_on_system {T} (c : M system T) w P : runs c (w_system w) P -> runs (on_system c) w (fun r w' => exists s, w' = set_w_system s w /\ P r s).
Proof. apply runs_zoom. Qed.

(** *** The events *)

(** An event keeps the invariant and the memory outside of [user]. *)
Definition wnext (w w' : world) : Prop := winv w' /\ kept_outside user (w_umem w) (w_umem w').

(** The end of a call or of its continuation; [sl] are the calls of others. *)
Lemma park_winv i r o w s sl : winv w -> dispatched_ok user i (w_system w) o s ->
  (forall j y, sl !! j = Some y -> j <> i /\ w_sleeping w !! j = Some y) -> wnext w (park i r o (set_w_sleeping sl (set_w_system s w))).
Proof.
  intros [_ Hw] (Hs & Hsp & Hu & Ho) Hsl. split; [|by destruct o]. assert (Hold : forall j y, sl !! j = Some y -> (j ∉ [i]) /\ w_sleeping w !! j = Some y).
  { intros j y Hy. destruct (Hsl j y Hy). split; [by rewrite list_elem_of_singleton|done]. }
  destruct o as [r'|e at_]; [apply (winv_step w s sl [i]); auto|]. apply (winv_step w s (<[i := (r, at_)]> sl) [i]); [done|done|done|].
  intros j y. rewrite lookup_insert. case_decide as Hd; [|auto]. intros [= <-]. subst j. by right.
Qed.

Lemma forget_same r o w : exists sl, forget r o w = set_w_sleeping sl w /\ sl ⊆ w_sleeping w.
Proof.
  destruct w as [ir u sl]. unfold forget. destruct o as [r'|]; [|by exists sl]. destruct (_ && _); [|by exists sl].
  eexists. split; [reflexivity|]. apply delete_subseteq.
Qed.

Lemma call_winv r esp w : winv w -> event_ok w (ECall r esp) -> runs (do_event (ECall r esp)) w (fun _ => wnext w).
Proof.
  intros Hw [(i & Hc & Hn) Hfit]. eapply runs_step; [reflexivity|]. rewrite Hc.
  eapply runs_bind; [apply runs_on_system, (syscall_dispatch_runs garbage user i r esp (w_system w) (wi_safe _ Hw) Hc Hfit)|].
  intros o w1 (s & -> & Ho). eapply runs_ok; [done|]. destruct (forget_same r o (set_w_system s w)) as (sl & -> & Hsub).
  apply (park_winv i r o w s sl Hw Ho). intros j y Hy. apply (lookup_weaken _ _ _ _ Hy) in Hsub. simpl in Hsub. split; [congruence|done].
Qed.

Lemma resume_winv esp w : winv w -> event_ok w (EResume esp) -> runs (do_event (EResume esp)) w (fun _ => wnext w).
Proof.
  intros Hw [(i & Hc & [[r at_] Hx]) He]. eapply runs_step; [reflexivity|].
  destruct (syscall_resume_runs garbage user i r esp at_ (w_system w) (wi_safe _ Hw) Hc He (wi_sleep _ Hw i _ Hx)) as (k & Ek & Hrun).
  unfold continuation. rewrite Hc, Hx, Ek. eapply runs_step; [reflexivity|].
  eapply runs_bind; [apply runs_on_system; exact Hrun|]. intros o w1 (s & -> & Ho). eapply runs_ok; [done|].
  apply (park_winv i r o w s (delete i (w_sleeping w)) Hw Ho). intros j y. rewrite lookup_delete_Some. intros [? ?]. by split.
Qed.

Lemma switch_winv esp w : winv w -> 0 < esp < 2 ^ 32 -> runs (do_event (ESwitch esp)) w (fun _ => wnext w).
Proof.
  intros Hw He. pose proof (ks_inv _ (ms_kern _ (wi_safe _ Hw))) as (L & A & q & Hinv).
  destruct (sched_switch_inv (w_kern w) L A q esp Hinv ltac:(lia)) as (r & k & E & Hinv').
  eapply (runs_step _ _ _ r (set_w_irqs (set_mach (with_kern k (mach (w_irqs w))) (w_irqs w)) w)).
  { unfold on_system, on_sys, on_k, on_in, on_kern, zoom. change (kern (m_in (sys (w_system w)))) with (w_kern w). by rewrite E. }
  eapply runs_ok; [done|]. split; [|by intros a].
  apply (winv_quiet w); [done|by exists L, A, q|apply (wi_safe _ Hw)|exact (quietly_sched_switch _ _ _ _ E)].
Qed.

Lemma irq_winv n esp w : winv w -> 0 <= n < 16 -> 0 < esp < 2 ^ 32 -> runs (do_event (EIrq n esp)) w (fun _ => wnext w).
Proof.
  intros Hw Hn He. pose proof (wi_safe _ Hw) as [Hk Hwt].
  destruct (irq_entry_run hw n esp (w_irqs w) Hn He Hwt (ks_inv _ Hk)) as (r & ir & E & Hi & Hwt' & _ & Hq & _).
  eapply (runs_step _ _ _ r (set_w_irqs ir w)); [unfold zoom; by rewrite E|]. eapply runs_ok; [done|].
  split; [by apply winv_quiet|by intros a].
Qed.

Lemma event_runs w e : winv w -> event_ok w e -> runs (do_event e) w (fun _ => wnext w).
Proof.
  intros Hw He. destruct e as [r esp|esp|esp|n esp|u]; [by apply call_winv|by apply resume_winv|by apply switch_winv|apply irq_winv; by try apply He|].
  eapply runs_ok; [done|]. split; [|exact He]. by split; [apply (wi_safe _ Hw)|apply (wi_sleep _ Hw)].
Qed.

Lemma wsteps_next w w' : winv w -> rtc wstep w w' -> wnext w w'.
Proof.
  intros Hw Hsteps. revert Hw. induction Hsteps as [w|w w1 w' (e & He & E) _ IH]; intros Hw; [split; [done|by intros a]|].
  destruct (event_runs w e Hw He) as [[msg E']|([] & w2 & E' & Hw2 & Hu)]; rewrite E in E'; [done|]. injection E' as ->.
  destruct (IH Hw2) as [Hw' Hu']. split; [done|]. intros a Ha. by rewrite (Hu' a Ha), (Hu a Ha).
Qed.
End events.

(** ** From the boot on *)

Section machine.
(** The hardware, the boot loader and the linker, as for [kernel_main]. *)
Variable hw : list access -> Z -> Z.
Variable garbage : Z -> Z.
Variables uart_fuel map_fuel : nat.
Variables (magic : Z) (mbi : multiboot_info_t) (entry_at : Z -> multiboot_mmap_entry_t) (kernel_start kernel_end : Z).
Variables (gdt_addr tss_addr idt_addr : Z) (isr irq : Z -> Z) (syscall_entry idle_process : Z).
Variable memory : list multiboot_mmap_entry_t.
Hypothesis Hready : forall h, ready_within hw uart_fuel h = true.
Hypothesis Htss : 0 <= tss_addr < 2 ^ 32.
Hypothesis Hsyscall : 0 <= syscall_entry < 2 ^ 32.
Hypothesis Hisr : forall n, 0 <= isr n < 2 ^ 32.
Hypothesis Hirq : forall n, 0 <= irq n < 2 ^ 32.
Hypothesis Hidle : 0 <= idle_process < 2 ^ 32.
Hypothesis Hflags : truthy (Z.land (mb_flags mbi) MULTIBOOT_FLAG_MMAP) = true.
Hypothesis Hmap : mmap_table entry_at (mmap_addr mbi +w mmap_length mbi) (mmap_addr mbi) memory.
Hypothesis Hfuel : (length memory <= map_fuel)%nat.
Hypothesis Himage : 0 <= kernel_start <= kernel_end /\ kernel_end < 2 ^ 32.
Hypothesis Hlow : forall f, is_frame f -> Pmm.covered memory f -> f * 4096 < LOW_END.
(** The bytes that processes write and pass pointers to. *)
Variable user : Z -> Prop.

Local Abbreviation main := (kernel_main hw uart_fuel map_fuel magic mbi entry_at kernel_start kernel_end gdt_addr tss_addr idt_addr isr irq syscall_entry idle_process).

(** C1: the kernel is memory safe from the boot on, for processes that keep to
    memory of their own. Started on a machine whose usable memory lies below 4
    MiB and whose boot loader passes a memory map, it panics for lack of memory
    or reaches its first process; from there, whatever sequence of system calls
    the processes make, whenever sleeping calls go on, the scheduler runs or
    interrupts arrive on any line, every next such event either ends or panics:
    no undefined behaviour. In every state reached the invariants hold: of the
    heap, the process table and the ready queue, of the typing of the file
    layer, the reference count of every open file equal to the number of
    descriptors on it, and each sleeping reader still holding the file it reads.

    The code checks no pointer against the kernel's own data, so the claim is
    relative to a set [user] of bytes, mapped and apart from that data: as long
    as processes write only there, and every pointer they pass to read, write,
    wait and open is null or names bytes of [user] only, no byte outside of
    [user] ever changes through the memory of processes. Calls are all but pipe
    and execve, with any descriptors, lengths and process numbers, except that
    the path of an open ends and a write to a file ends below 2 GiB. *)
Theorem kernel_safe b :
  power_on b -> 0 <= kb_waiter_pid (kbd (m_in (mach (b_irqs b)))) ->
  runs main b (fun _ b' => forall u w, rtc (wstep hw garbage user) (World (b_irqs b') u ∅) w ->
    ksafe (w_kern w) /\ sleepers_ok user w /\ (forall a, ~ user a -> w_umem w !! a = u !! a) /\
    forall e, event_ok user w e -> runs (do_event hw garbage e) w (fun _ w' => wstep hw garbage user w w')).
Proof.
  intros Hb Hk. eapply runs_weaken.
  { eapply (kernel_main_run hw uart_fuel map_fuel magic mbi entry_at kernel_start kernel_end gdt_addr tss_addr idt_addr isr irq syscall_entry
      idle_process memory); done. }
  intros r b' (_ & Hs & Hkb & _) u w Hsteps.
  assert (Hw : wnext user (World (b_irqs b') u ∅) w) by (apply (wsteps_next hw garbage); [split; [split; [done|]|done]|done]; by rewrite <- Hkb in Hk).
  destruct Hw as [Hw Hu]. split; [apply (wi_safe _ _ Hw)|]. split; [apply (wi_sleep _ _ Hw)|]. split; [exact Hu|]. intros e He.
  eapply runs_weaken; [apply runs_eq, (event_runs hw garbage user w e Hw He)|]. intros [] w' [E _]. by exists e.
Qed.
End machine.

(** ** Witness *)

(** When an event can happen is decidable. *)
#[export] Instance write_fits_dec (s : demo_kstate) f n : Decision (write_fits s f n).
Proof.
  unfold write_fits. destruct (objs (k_files s) !! f) as [o|]; [|by left]. destruct (as_file o) as [x|] eqn:Ex; [|left; intros ? ? [= ->]; done].
  destruct (objs (k_files s) !! f_vnode x) as [o2|] eqn:E2; [|left; intros x' y [= ->]; injection Ex as ->; by rewrite E2].
  destruct (as_vnode o2) as [y|] eqn:Ey; [|left; intros x' y' [= ->]; injection Ex as ->; rewrite E2; intros [= ->]; done].
  destruct (decide (v_ops y = ramfs_ops -> (if appends x then v_size y else f_offset x) + n < 2 ^ 31)) as [Hd|Hd]; [left|right].
  - intros x' y' [= ->]. injection Ex as ->. rewrite E2. intros [= ->]. injection Ey as ->. done.
  - destruct o, o2; try done. injection Ex as ->. injection Ey as ->. intros Hall. apply Hd. by apply Hall.
Defined.

#[export] Instance write_call_fits_dec s r : Decision (write_call_fits s r).
Proof.
  unfold write_call_fits. destruct (current_proc (sys_kern s)) as [i|]; [|by left].
  destruct (fd_entry (p_fd_table (pcb_at (sys_kern s) i)) (s32 (r_ebx r))) as [f|] eqn:Ef; [|left; intros j f [= <-]; by rewrite Ef].
  destruct (decide (write_fits (sys_kern s) f (r_edx r))) as [Hd|Hd]; [left|right].
  - intros j g [= <-]. rewrite Ef. by intros [= <-].
  - intros Hall. by apply Hd, (Hall i).
Defined.

#[export] Instance regs_ok_dec r : Decision (regs_ok r).
Proof. unfold regs_ok. apply _. Defined.

Section decisions.
Variable user : Z -> Prop.
Context `{!forall a, Decision (user a)}.

#[export] Instance in_user_dec a n : Decision (in_user user a n).
Proof.
  refine (cast_if (decide (Forall (fun i => user (a +w i)) (seqZ 0 n)))); unfold in_user.
  - intros i Hi. apply (proj1 (Forall_forall _ _) f), elem_of_seqZ. lia.
  - intros Hall. apply n0, Forall_forall. intros i Hi%elem_of_seqZ. apply Hall. lia.
Defined.

#[export] Instance kept_outside_dec u u' : Decision (kept_outside user u u').
Proof.
  refine (cast_if (decide (set_Forall (fun a => user a \/ u' !! a = u !! a) (dom u ∪ dom u')))).
  - intros a Ha. destruct (decide (a ∈ dom u ∪ dom u')) as [Hd|Hd]; [by destruct (s a Hd)|].
    apply not_elem_of_union in Hd as [H1%not_elem_of_dom H2%not_elem_of_dom]. congruence.
  - intros Hall. apply n. intros a _. destruct (decide (user a)); [by left|right; by apply Hall].
Defined.

#[export] Instance path_in_user_dec s a : Decision (path_in_user user s a).
Proof.
  unfold path_in_user. destruct (load_string _ _ _) as [path|]; [|right; by intros (? & ? & _)].
  refine (cast_if (decide (in_user user a (Z.of_nat (length path) + 1)))); [by exists path|]. by intros (? & [= <-] & ?).
Defined.

#[export] Instance call_fits_dec s r esp : Decision (call_fits user s r esp).
Proof.
  refine (cast_if (decide (regs_ok r /\ 0 < esp < 2 ^ 32 /\ r_eax r <> SYS_PIPE /\ r_eax r <> SYS_EXECVE /\
    (r_eax r = SYS_OPEN -> r_ebx r = 0 \/ path_in_user user s (r_ebx r)) /\
    (r_eax r = SYS_READ \/ r_eax r = SYS_WRITE -> r_ecx r = 0 \/ in_user user (r_ecx r) (r_edx r)) /\
    (r_eax r = SYS_WAIT -> r_ecx r = 0 \/ in_user user (r_ecx r) 4) /\ (r_eax r = SYS_WRITE -> write_call_fits s r)))).
  - destruct a as (? & ? & ? & ? & ? & ? & ? & ?). by split.
  - intros [? ? ? ? ? ? ? ?]. by apply n.
Defined.

Lemma current_dec {T} (c : option Z) (m : gmap Z T) (P : option T -> Prop) : (forall x, Decision (P x)) -> Decision (exists i, c = Some i /\ P (m !! i)).
Proof.
  intros HP. destruct c as [i|]; [|right; by intros (i & ? & _)]. destruct (decide (P (m !! i))) as [Hd|Hd]; [left; by exists i|right].
  intros (j & [= <-] & Hj). done.
Defined.

#[export] Instance event_ok_dec w e : Decision (event_ok user w e).
Proof.
  destruct e as [r esp|esp|esp|n esp|u]; simpl; try apply _.
  - apply and_dec; [apply (current_dec _ _ (fun x => x = None))|]; apply _.
  - apply and_dec; [apply (current_dec _ _ is_Some)|]; apply _.
Defined.

(** Events one after the other, each of them possible when it happens. *)
Fixpoint run_events (hw : list access -> Z -> Z) (garbage : Z -> Z) (es : list event) (w : world) : option world :=
  match es with
  | [] => Some w
  | e :: es =>
      if decide (event_ok user w e) then
        match do_event hw garbage e w with
        | Ok (_, w') => run_events hw garbage es w'
        | Stop _ => None
        end
      else None
  end.

Lemma run_events_steps hw garbage es : forall w w', run_events hw garbage es w = Some w' -> rtc (wstep hw garbage user) w w'.
Proof.
  induction es as [|e es IH]; intros w w'; simpl; [by intros [= ->]|]. destruct (decide (event_ok user w e)) as [He|]; [|done].
  destruct (do_event hw garbage e w) as [[[] w1]|] eqn:E; [|done]. intros Hr. eapply rtc_l; [by exists e|by apply IH].
Qed.
End decisions.

(** A page of memory for the processes. *)
Definition demo_user (a : Z) : Prop := 0x300000 <= a < 0x301000.
#[export] Instance demo_user_dec a : Decision (demo_user a).
Proof. unfold demo_user. apply _. Defined.

(** A keyboard on which the key A is pressed. *)
Definition key_hw (h : list access) (port : Z) : Z := if port =? 0x60 then 0x1E else demo_hw h port.

Lemma key_hw_ready h : ready_within key_hw 1 h = true.
Proof. exact (demo_hw_ready h). Qed.

Local Abbreviation key_main :=
  (kernel_main key_hw 1 1 MULTIBOOT_MAGIC demo_mbi demo_entry_at 0x100000 0x120000 0x108000 0x109000 0x10A000 demo_isr demo_irq 0x102000 0x103000).

(** A call with its number and arguments. *)
Definition call (n ebx ecx edx : Z) : event := ECall (Regs 0 0 0 0 0 0 0 0 ebx edx ecx n 0x80 0 0 0 0 0 0) 0x5000.

(** The name /a in memory. *)
Definition demo_name : gmap Z Z := {[0x300010 := 47; 0x300011 := 97; 0x300012 := 0]}.

(** The first process creates a file and forks; the timer gives the processor to the child, whose
    read sleeps until the key is pressed; it writes the character to the
    terminal and to the file and exits, and the parent reaps it. *)
Definition demo_events : list event :=
  [EUser demo_name; call SYS_OPEN 0x300010 (Z.lor O_RDWR O_CREAT) 0; call SYS_FORK 0x104000 0 0] ++ replicate 7 (EIrq 0 0x5000) ++
  [call SYS_READ 0 0x300000 4; EIrq 1 0x5000] ++ replicate 7 (EIrq 0 0x5000) ++
  [EResume 0x5000; call SYS_WRITE 1 0x300000 1; call SYS_WRITE 3 0x300000 1; ESwitch 0x5000; call SYS_EXIT 7 0 0; call SYS_WAIT 2 0x300004 0].

(** The events after a start that ended in [st]. *)
Definition after_start {R : Type} (hw : list access -> Z -> Z) (es : list event) (st : res (R * board)) : option world :=
  match st with
  | Ok (_, b') => run_events demo_user hw (fun _ => 0) es (World (b_irqs b') ∅ ∅)
  | Stop _ => None
  end.

Lemma after_start_inv {R T} hw es (st : res (R * board)) (f : world -> T) x : f <$> after_start hw es st = Some x ->
  exists r b' w, st = Ok (r, b') /\ rtc (wstep hw (fun _ => 0) demo_user) (World (b_irqs b') ∅ ∅) w /\ f w = x.
Proof.
  destruct st as [[r b']|]; [|done]. simpl. destruct (run_events _ _ _ _) as [w|] eqn:E; [|done]. intros [= <-].
  exists r, b', w. split; [done|]. split; [by apply run_events_steps in E|done].
Qed.

Lemma runs_at {S A} (c : M S A) s r s' (P : A -> S -> Prop) : c s = Ok (r, s') -> runs c s P -> P r s'.
Proof. intros E [[msg E']|(r1 & s1 & E' & Hp)]; rewrite E in E'; [done|]. by injection E' as -> ->. Qed.

(** The references, the position and the size of the file on a descriptor of
    the first process. *)
Definition file_of (w : world) (fd : nat) : option (Z * Z * Z) :=
  f ← p_fd_table (pcb_at (w_kern w) 1) !! fd;
  x ← objs (k_files (w_kern w)) !! f ≫= as_file;
  y ← objs (k_files (w_kern w)) !! f_vnode x ≫= as_vnode;
  Some (f_refcount x, f_offset x, v_size y).

(** The boot and the events run, and leave the character typed and the exit code
    of the child in the memory of the callers, and one byte in the file, which
    only the first process holds again. *)
Definition demo_end (w : world) : option Z * option Z * proc_state_t * option (Z * Z * Z) :=
  (w_umem w !! 0x300000, w_umem w !! 0x300004, state_of (w_kern w) 2, file_of w 3).

Lemma demo_outcome : demo_end <$> after_start key_hw demo_events (key_main demo_board) = Some (Some 97, Some 7, PROC_UNUSED, Some (1, 1, 1)).
Proof. vm_compute. reflexivity. Qed.

Lemma kernel_safe_witness :
  exists r b' w, key_main demo_board = Ok (r, b') /\ rtc (wstep key_hw (fun _ => 0) demo_user) (World (b_irqs b') ∅ ∅) w /\
    demo_end w = (Some 97, Some 7, PROC_UNUSED, Some (1, 1, 1)) /\ ksafe (w_kern w) /\ sleepers_ok demo_user w /\
    forall a, ~ demo_user a -> w_umem w !! a = None.
Proof.
  destruct (after_start_inv _ _ _ _ _ demo_outcome) as (r & b' & w & E & Hw & Hend).
  destruct (runs_at _ _ _ _ _ E (kernel_safe key_hw (fun _ => 0) 1 1 MULTIBOOT_MAGIC demo_mbi demo_entry_at 0x100000 0x120000 0x108000 0x109000 0x10A000
    demo_isr demo_irq 0x102000 0x103000 [demo_entry_at 0x9000] key_hw_ready ltac:(lia) ltac:(lia) ltac:(unfold demo_isr; zlia) ltac:(unfold demo_irq; zlia)
    ltac:(lia) eq_refl demo_table ltac:(done) ltac:(lia) demo_low demo_user demo_board demo_power_on ltac:(done)) ∅ w Hw) as (K1 & K2 & K3 & _).
  exists r, b', w. split_and!; [exact E|exact Hw|exact Hend|exact K1|exact K2|]. intros a Ha. rewrite (K3 a Ha). apply lookup_empty.
Defined.
